(* ===== verification/_CoqProject ===== *)
-Q . S2P
Prelude.v
V3.v
Objects.v
Filters.v
Sessions.v
Tasks.v
Results.v
Partitions.v
Applications.v
Misc.v
Events.v
Worker.v
Agent.v
Submitter.v
Reencoding.v
MessageLaws.v
Serde.v
Rpc.v
Streams.v
SessionsRpc.v
PartitionsRpc.v
ApplicationsRpc.v
AuthRpc.v
VersionsRpc.v
HealthChecksRpc.v
WorkerRpc.v
TasksRpc.v
EventsRpc.v
ResultsRpc.v
AgentRpc.v
SubmitterRpc.v
StreamLaws.v
Std.v
Env.v
Config.v
ConfigSpec.v
Connect.v
ConfigTests.v
Client.v
ClientTests.v
Witnesses.v
Mock.v
