(* ===== verification/Prelude.v ===== *)
(** * The ArmoniK API for Rust, verified

    This library models the Rust package of the ArmoniK API ([src/packages/rust]): the
    crate [armonik] (the objects of the API, their conversions to and from the messages
    of the gRPC protocol, the clients and the servers of the services) and the crate
    [armonik-transport] (the configuration of a client, read from the environment, and the
    connection it describes).  The definitions follow the source item by item and keep
    its names; they are executable, and [Witnesses] runs them.

    ** How the program is put together

    An application calls a method of a client, [client.tasks().list(...)] say.  The
    method builds an object of the API ([tasks::list::Request]), which is converted to
    the message of the protocol ([v3::tasks::ListTasksRequest]) and handed to the client
    that [tonic] generates from the [.proto] files.  On the other side, the generated
    server trait is implemented by a macro from the service trait of the crate: it
    converts the message back to the object, runs the service, and converts its answer.
    The client converts the answer of the server back in turn.  The channel the client
    uses is built by [connect], from a [ClientConfig], itself read from strings which are
    read from environment variables.

    ** The files

    - [Prelude] (this file): results and stateful fallible computations ([result],
      [fallible], with their monads), the conversion traits ([From], [Default], the cast
      [as i32]) and their laws as type classes ([RoundTrip], [RoundTripOn],
      [CodeRoundTrip]), hash maps, and the tactics and the hint database [codec] that
      prove the laws.
    - [V3]: the messages and enumerations of the protocol ([Protos/V1/*.proto], included
      by [armonik/src/api/v3.rs]).
    - [Objects], [Filters]: the objects and the filters that services share
      ([armonik/src/objects/*.rs], [objects/filters/*.rs]).
    - [Sessions], [Tasks], [Results], [Partitions], [Applications], [Misc] (Auth,
      Versions, HealthChecks), [Events], [Worker], [Agent], [Submitter]: the objects of
      each service ([objects/<service>/*.rs]), a module per Rust type, with its default,
      its two conversions and their law.
    - [Reencoding]: what is lost when a message of a peer is decoded and encoded again
      ([Reencodes], for each message).
    - [MessageLaws]: laws that go across: codes, what any message of a peer is decoded
      to, what the messages the crate sends always have, and the objects that their
      message does not keep.
    - [Serde]: timestamps and durations as pairs of integers ([utils.rs]).
    - [Rpc]: what every service goes through, on the client side ([client/mod.rs]) and on
      the server side ([server/mod.rs], [server/request_context.rs]); streams; what it is
      for a client to be connected to a server ([delivers], [delivers_stream]) and for a
      call to be one run of a handler ([answers]).
    - [Streams]: streams as transition systems (what is yielded, when they end), and the
      combinators the program uses on them.
    - [SessionsRpc], [TasksRpc], [ResultsRpc], [PartitionsRpc], [ApplicationsRpc],
      [AuthRpc], [VersionsRpc], [HealthChecksRpc], [EventsRpc], [WorkerRpc], [AgentRpc],
      [SubmitterRpc]: each service, both sides ([client/<service>.rs],
      [server/<service>.rs]).
    - [StreamLaws]: the streaming methods over time: order, arrival, end.
    - [Std], [Env], [Config], [ConfigSpec], [Connect]: the transport
      ([armonik-transport/src/utils.rs], [config.rs], [connect.rs]) and the creation of a
      client ([client/mod.rs]).
    - [Client]: the accessors of the client, owned and borrowed, and how it is itself a
      service of [tower] ([client/mod.rs]).
    - [ConfigTests], [ClientTests]: the unit tests of the source, as programs that panic
      when they fail ([mod tests] of [config.rs], [utils.rs] and [client/*.rs]).
    - [Witnesses], [Mock]: the laws on concrete inputs: services that answer,
      configurations that are read, connections that are made, and a server that counts
      its requests, for the tests of the clients.

    ** How Rust is represented

    Structures are records, enumerations inductive types, [Vec] is [list], [Option] is
    [option], [String] is [string], [Vec<u8>] a [list byte], [HashMap] a [gmap] (visited
    in an order that is a parameter, [HashMapIter]).  Integers are [Z]: the objects only
    carry them, and where the program reads them from text ([Std.parse_uint]) their width
    is written out.  An [async fn] that returns a [Result] is a function on the state of
    the world ([fallible W E A]), which is what the peer and the connection are made of; a
    stream is polled against that world ([Rpc.stream]).  A panic is a value ([Connect.outcome]).
    Errors carry what the source puts in them, but for backtraces and source locations.

    Other crates are parameters: [tonic] ([Rpc.Tonic]), [hyper], [rustls], [humantime],
    the file system ([Config.ConfigDeps], [Connect.ConnectDeps]), the connection itself
    ([connect_with_connector]), the clients generated by [tonic] ([Client.Generated]),
    the futures ([Client.Awaited]), the format of a serialisation ([Serde.Serde]), what
    the tests read counts with ([ClientTests.TestDeps]) and what they rely on in the
    reading of URIs and durations ([ConfigTests.ConfigTestDeps]).  The setters of the
    endpoint and of the TCP connector are represented by the list of those that are
    called, with their arguments.  How a connector then reaches a URI, over TLS or not, is a
    hypothesis ([Connect.documented_connector]).

    ** What is proved

    - End to end ([*Rpc.*_end_to_end]): every method of every client, over a channel that
      leads to a server, is one run of the method of the service, on the request that the
      arguments describe; the answer comes back unchanged, the status as the error of the
      call; streams are pulled item by item, and end at their first error, as [tonic] ends
      them ([Rpc.delivers_items]).  This is the contract between the two sides,
      and it relies on the law of each message.  Where the program does not keep a
      message, the statement says what the other side gets: summaries of tasks, replies
      of imports, notifications without a result, and the filters of the Submitter, which
      are inverted ([submitter_filters_inverted], [status_filters_inverted]).
    - Clients ([Client]): whichever accessor is used, borrowed or owned, the calls are
      those of the client of the service over the channel itself.
    - Over time ([StreamLaws]): an upload sends its identifier first and then the chunks,
      in order, whenever it is looked at, within the documented size exactly when the
      caller's chunks are; a stream that ends arrives entirely; what is received ends when
      the service ends it, or at its first error.
    - Messages ([MessageLaws]): the codes of the enumerations against those of the
      protocol, and the fields of sessions for which they differ; the decoding of every
      number; which messages are sent back as they came; what the crate sends is never
      half filled ([sent_complete]).  Timestamps and durations come back from the pairs
      they are serialised as ([Serde]).
    - Configuration ([ConfigSpec], [Env]): arguments are accepted exactly when they
      describe a configuration ([describes]), which error is reported otherwise, what
      the environment determines, how numbers are read, and the messages that name
      another option than the one at fault.
    - Connection ([Connect]): over TLS, who is verified and against which roots (an http
      endpoint is reached without TLS); that every option reaches the connection;
      what each error means; and when connecting panics.
    - Tests ([ConfigTests], [ClientTests]): the unit tests of the source pass, but for the
      one that goes through [serde_json], which is not modelled; those of the clients
      against any server that answers and counts.

    Theorems about the program are stated once, after the lemmas they need; no proof
    depends on them.

    ** Recursion and fuel

    The program loops over lists and strings only, so that recursion is structural, but
    for streams, which may not end: [Rpc.stream_take] pulls a given number of items at
    most.  The statements are about streams themselves, as transition systems
    ([Streams.trace], [Streams.drains]); [Streams.drains_take] relates the two: any fuel
    above the number of items gives all of them.  Programs that read a stream to its end
    (the tests, the servers of the witnesses) take their fuel as an argument, and the
    statements about them only ask for more of it than there are items.

    ** What is not modelled

    The serialisation of messages to bytes and HTTP/2 ([prost], [tonic], [hyper]), which
    other crates do; the implementations of the traits of [serde] that are derived, and
    the test of [config.rs] that goes through one; logging and tracing; the cancellation
    of a call by dropping it; the macro [impl_convert!] itself, whose expansions are
    modelled where they are used; the integration tests ([armonik/tests],
    [armonik-transport/tests]), which run the clients against services written for them,
    in memory or over a socket; the packages for other languages.

    ** What could be added next

    In this order: the mock services of the integration tests, and the calls of these
    tests; the law [Reencodes] for the messages of the Submitter and the Agent; a
    specification of servers that keep a state, and its refinement by clients that call
    them in sequence. *)

From stdpp Require Export base gmap strings list fin_maps countable.
From Stdlib Require Export Strings.Byte.

(** ** Results and stateful, fallible computations *)

(** [Result<A, E>] of the source, with the error first so that [result E] is
    a monad. *)
Inductive result (E A : Type) : Type :=
| Ok (a : A)
| Err (e : E).
Arguments Ok {E A} a.
Arguments Err {E A} e.

#[export] Instance result_ret {E} : MRet (result E) := λ A a, Ok a.
#[export] Instance result_bind {E} : MBind (result E) := λ A B f r,
  match r with Ok a => f a | Err e => Err e end.
#[export] Instance result_fmap {E} : FMap (result E) := λ A B f r,
  match r with Ok a => Ok (f a) | Err e => Err e end.

(** [Result::map_err], and snafu's [.context(selector)]. *)
Definition map_err {E F A} (f : E → F) (r : result E A) : result F A :=
  match r with Ok a => Ok a | Err e => Err (f e) end.

(** An [async fn] returning [Result<A, E>], run against a world of type [W]
    (the state of the peer and of the connection). *)
Definition fallible (W E A : Type) : Type := W → result E A * W.

#[export] Instance fallible_ret {W E} : MRet (fallible W E) := λ A a w, (Ok a, w).
#[export] Instance fallible_bind {W E} : MBind (fallible W E) := λ A B f m w,
  match m w with
  | (Ok a, w') => f a w'
  | (Err e, w') => (Err e, w')
  end.
#[export] Instance fallible_fmap {W E} : FMap (fallible W E) := λ A B f m w,
  match m w with (r, w') => (f <$> r, w') end.

Definition fail_with {W E A} (e : E) : fallible W E A := λ w, (Err e, w).

Definition fallible_map_err {W E F A} (f : E → F) (m : fallible W E A) : fallible W F A :=
  λ w, match m w with (r, w') => (map_err f r, w') end.

(** ** Conversion traits *)

(** [impl From<A> for B]: [from a] is the source's [B::from(a)] and [a.into()]. *)
Class From (A B : Type) := from : A → B.
#[export] Hint Mode From ! ! : typeclass_instances.

(** [impl Default for A]. *)
Class Default (A : Type) := dflt : A.
#[export] Hint Mode Default ! : typeclass_instances.

(** The cast [value as i32] of a [#[repr(i32)]] enumeration, and of the
    enumerations generated from the protocol files. *)
Class AsI32 (A : Type) := as_i32 : A → Z.
#[export] Hint Mode AsI32 ! : typeclass_instances.

#[export] Instance string_default : Default string := EmptyString.
#[export] Instance i32_default : Default Z := 0%Z.
#[export] Instance bool_default : Default bool := false.
#[export] Instance vec_default {A} : Default (list A) := [].
#[export] Instance option_default {A} : Default (option A) := None.
#[export] Instance hashmap_default {A} : Default (gmap string A) := (∅ : gmap string A).

(** [Option::unwrap_or] and [Option::unwrap_or_default]. *)
Definition unwrap_or {A} (o : option A) (a : A) : A := match o with Some x => x | None => a end.
Definition unwrap_or_default {A} `{Default A} (o : option A) : A := unwrap_or o dflt.

(** [value.field.map_or_else(Default::default, Into::into)], the expansion of
    [option a => b] in [impl_convert!]. *)
Definition from_or_default {A B} `{From A B, Default B} (o : option A) : B :=
  match o with Some a => from a | None => dflt end.

(** [IntoCollection::into_collect]: [into_iter().map(Into::into).collect()], where
    [collect] is how the target is built from its elements. *)
Definition into_collect {X Y TY} `{From X Y} (collect : list Y → TY) (iter : list X) : TY :=
  collect (map from iter).

(** [impl<T> From<T> for T] of the standard library. *)
#[export] Instance from_refl {A} : From A A | 100 := λ a, a.

#[global] Arguments from {A B _} _ : simpl never.
#[global] Arguments as_i32 {A _} _ : simpl never.
#[global] Arguments from_or_default {A B _ _} _ : simpl never.

(** ** The laws of conversions *)

(** Encoding then decoding gives the value back. *)
Class RoundTrip (A B : Type) `{F : From A B, G : From B A} : Prop :=
  roundtrip : ∀ a : A, from (from a : B) = a.
#[export] Hint Mode RoundTrip ! ! - - : typeclass_instances.

#[export] Instance roundtrip_refl {A} : RoundTrip A A | 100.
Proof. done. Qed.

(** The same for the values the protocol can represent. *)
Class RoundTripOn {A} (P : A → Prop) (B : Type) `{F : From A B, G : From B A} : Prop :=
  roundtrip_on : ∀ a : A, P a → from (from a : B) = a.
#[export] Hint Mode RoundTripOn ! - ! - - : typeclass_instances.

(** Casting an enumeration to its code and reading the code back. *)
Class CodeRoundTrip (A : Type) `{AsI32 A, From Z A} : Prop :=
  code_roundtrip : ∀ a : A, from (as_i32 a) = a.
#[export] Hint Mode CodeRoundTrip ! - - : typeclass_instances.

Create HintDb codec.

Lemma map_id_ext {A} (f : A → A) (l : list A) : (∀ a, f a = a) → map f l = l.
Proof. intros Hf. by rewrite (map_ext _ id), map_id. Qed.

Section codec_lemmas.
Context {A B : Type} `{RT : RoundTrip A B}.

Lemma from_inj : Inj (=) (=) (from : A → B).
Proof. intros x y Hxy. by rewrite <-(roundtrip (B:=B) x), <-(roundtrip (B:=B) y), Hxy. Qed.

Lemma map_roundtrip (l : list A) : map from (map from l : list B) = l.
Proof. induction l as [|x l IH]; cbn; [done|]. by rewrite roundtrip, IH. Qed.

Lemma fmap_option_roundtrip (o : option A) : from <$> (from <$> o : option B) = o.
Proof. destruct o; cbn; [|done]. by rewrite roundtrip. Qed.

Lemma from_or_default_Some `{Default A} (a : A) :
  from_or_default (Some (from a : B)) = a.
Proof. apply roundtrip. Qed.
End codec_lemmas.

Lemma map_roundtrip_on {A B} {P : A → Prop} `{RT : RoundTripOn A P B} (l : list A) :
  Forall P l → map from (map from l : list B) = l.
Proof. induction 1 as [|x l Hx Hl IH]; cbn; [done|]. by rewrite roundtrip_on, IH. Qed.

Lemma map_code_roundtrip `{CodeRoundTrip A} (l : list A) : map from (map as_i32 l) = l.
Proof. induction l as [|x l IH]; cbn; [done|]. by rewrite code_roundtrip, IH. Qed.

(** Encoding then decoding can only fail to be the identity on the wire side;
    it always is idempotent there. *)
Lemma wire_normal_form {A B} `{RT : RoundTrip A B} (b : B) :
  from (from (from (from b : A) : B) : A) = (from (from b : A) : B).
Proof. by rewrite (roundtrip (A:=A) (B:=B)). Qed.

(** ** Hash maps *)

(** [HashMap::into_iter] visits every entry once, in an order the standard
    library leaves unspecified. *)
Class HashMapIter : Type := {
  hash_iter : ∀ {K : Type} `{Countable K} {V : Type}, gmap K V → list (K * V);
  hash_iter_perm : ∀ {K : Type} `{Countable K} {V : Type} (m : gmap K V),
    hash_iter m ≡ₚ map_to_list m
}.

(** One admissible order, to run the definitions on concrete maps. *)
Definition in_key_order : HashMapIter := {|
  hash_iter := λ K _ _ V m, map_to_list m;
  hash_iter_perm := λ K _ _ V m, Permutation_refl (map_to_list m)
|}.

(** [.collect::<HashMap<K, V>>()]: entries are inserted one after the other, a
    later one replaces an earlier one with the same key. *)
Definition collect_map `{Countable K} {V} (l : list (K * V)) : gmap K V :=
  foldl (λ m kv, <[kv.1 := kv.2]> m) ∅ l.

Section hash_maps.
Context `{Countable K} {V : Type}.
Implicit Types (l : list (K * V)) (m : gmap K V).

Lemma collect_map_snoc l k v : collect_map (l ++ [(k, v)]) = <[k := v]> (collect_map l).
Proof. unfold collect_map. by rewrite foldl_app. Qed.

Lemma collect_map_reverse l : collect_map l = list_to_map (reverse l).
Proof.
  induction l as [|[k v] l IH] using rev_ind; [done|].
  rewrite collect_map_snoc, reverse_snoc, IH. done.
Qed.

(** The last binding of a key wins. *)
Lemma lookup_collect_map l1 k v l2 :
  k ∉ l2.*1 → collect_map (l1 ++ (k, v) :: l2) !! k = Some v.
Proof.
  induction l2 as [|[k' v'] l2 IH] using rev_ind; intros Hk.
  - rewrite collect_map_snoc. apply lookup_insert_eq.
  - rewrite app_comm_cons, (assoc_L (++)), collect_map_snoc.
    rewrite fmap_app, elem_of_app in Hk. cbn in Hk.
    rewrite lookup_insert_ne by set_solver. apply IH. set_solver.
Qed.

Lemma lookup_collect_map_None l k : collect_map l !! k = None ↔ k ∉ l.*1.
Proof.
  rewrite collect_map_reverse, <-not_elem_of_list_to_map.
  by rewrite fmap_reverse, elem_of_reverse.
Qed.

Lemma collect_map_perm m l : l ≡ₚ map_to_list m → collect_map l = m.
Proof.
  intros Hl. rewrite collect_map_reverse, <-(list_to_map_to_list m).
  rewrite <-reverse_Permutation in Hl.
  apply list_to_map_proper; [|done]. rewrite Hl. apply NoDup_fst_map_to_list.
Qed.

(** What survives [into_iter().map(g).collect::<Vec<_>>()] followed by
    [into_iter().map(f).collect::<HashMap<_, _>>()], in whatever order the
    map is visited. *)
Lemma collect_map_iter `{!HashMapIter} {B} (g : K * V → B) (f : B → K * V) m :
  (∀ kv, f (g kv) = kv) → collect_map (map f (map g (hash_iter m))) = m.
Proof.
  intros Hfg. rewrite map_map, (map_ext _ id) by done. rewrite map_id.
  apply collect_map_perm, hash_iter_perm.
Qed.

(** The same for the values of the map, when they determine their keys. *)
Lemma collect_map_values `{!HashMapIter} {B} (g : V → B) (f : B → K * V) m :
  map_Forall (λ k v, f (g v) = (k, v)) m → collect_map (map f (map g (hash_iter m).*2)) = m.
Proof.
  intros Hfg. apply collect_map_perm. rewrite <-(hash_iter_perm m), <-!list_fmap_compose.
  apply reflexive_eq.
  rewrite <-(list_fmap_id (hash_iter m)) at 2.
  apply list_fmap_ext. intros i [k v] Hi. apply (Hfg k v).
  apply elem_of_map_to_list. rewrite <-(hash_iter_perm m).
  by eapply list_elem_of_lookup_2.
Qed.
End hash_maps.

(** ** Proof automation *)

#[export] Hint Rewrite @roundtrip @map_roundtrip @fmap_option_roundtrip
  @from_or_default_Some @code_roundtrip @map_code_roundtrip
  using typeclasses eauto : codec.

Ltac head_of t := lazymatch t with ?f _ => head_of f | _ => t end.

(** Closes [RoundTrip A B]: split the value, unfold the two conversions of the
    pair, and leave the fields to the [codec] database. *)
Ltac solve_roundtrip :=
  let x := fresh "x" in
  intros x;
  lazymatch goal with
  | |- @from _ _ ?I (@from _ _ ?J _) = _ =>
      let i := head_of I in let j := head_of J in
      unfold from at 1 2; unfold i, j; destruct x; cbn;
      autorewrite with codec; try reflexivity
  end.

(** The same for [RoundTripOn], when the restriction is on one list field. *)
Ltac solve_roundtrip_on :=
  let x := fresh "x" in let H := fresh "H" in
  intros x H;
  lazymatch goal with
  | |- @from _ _ ?I (@from _ _ ?J _) = _ =>
      let i := head_of I in let j := head_of J in
      unfold from at 1 2; unfold i, j; destruct x; cbn in *; f_equal;
      exact (map_roundtrip_on _ H)
  end.

(** The same where a field is a hash map, sent as its list of entries. *)
Ltac solve_map_roundtrip :=
  solve_roundtrip; try f_equal; apply collect_map_iter; intros [? ?]; cbn;
  autorewrite with codec; reflexivity.

(** Closes the laws of enumerations: one computation per variant. *)
Ltac by_variant := let x := fresh "x" in intros x; destruct x; reflexivity.
