(* ===== verification/V3.v ===== *)
(** The messages and enumerations of the gRPC protocol, as the files of
    [Protos/V1] declare them and as [src/api/v3.rs] includes them: a module per
    package, a module per message (named like prost names it: a nested message
    lives in the snake-case module of its parent), a record [t] with the fields
    of the message.  A singular message field is an [option], a repeated one a
    [list], an enumeration field is its [i32] code, a [oneof] an [option] of an
    inductive type, [bytes] a [list byte], [int32] and [int64] a [Z].  Every
    enumeration has its numbers as an [AsI32] instance. *)

From S2P Require Import Prelude.

(** The two well-known types the protocol imports ([prost_types] has a public
    field per field of the type). *)

Module Timestamp.
Record t : Type := mk {
  seconds : Z;
  nanos : Z
}.
#[global] Instance default : Default t := {| seconds := dflt; nanos := dflt |}.
End Timestamp.

Module Duration.
Record t : Type := mk {
  seconds : Z;
  nanos : Z
}.
#[global] Instance default : Default t := {| seconds := dflt; nanos := dflt |}.
End Duration.

(** ** Package [armonik.api.grpc.v1.task_status]: [task_status.proto]. *)

Module task_status.

Module TaskStatus.
Inductive t : Type :=
| Unspecified
| Creating
| Submitted
| Dispatched
| Completed
| Error
| Timeout
| Cancelling
| Cancelled
| Processing
| Processed
| Retried
| Pending
| Paused.
#[global] Instance code : AsI32 t := λ v,
  match v with
  | Unspecified => 0%Z
  | Creating => 1%Z
  | Submitted => 2%Z
  | Dispatched => 3%Z
  | Completed => 4%Z
  | Error => 5%Z
  | Timeout => 6%Z
  | Cancelling => 7%Z
  | Cancelled => 8%Z
  | Processing => 9%Z
  | Processed => 10%Z
  | Retried => 11%Z
  | Pending => 12%Z
  | Paused => 13%Z
  end.
End TaskStatus.

End task_status.

(** ** Package [armonik.api.grpc.v1.result_status]: [result_status.proto]. *)

Module result_status.

Module ResultStatus.
Inductive t : Type :=
| Unspecified
| Created
| Completed
| Aborted
| Deleted
| Notfound.
#[global] Instance code : AsI32 t := λ v,
  match v with
  | Unspecified => 0%Z
  | Created => 1%Z
  | Completed => 2%Z
  | Aborted => 3%Z
  | Deleted => 4%Z
  | Notfound => 127%Z
  end.
End ResultStatus.

End result_status.

(** ** Package [armonik.api.grpc.v1.session_status]: [session_status.proto]. *)

Module session_status.

Module SessionStatus.
Inductive t : Type :=
| Unspecified
| Running
| Cancelled
| Paused
| Closed
| Purged
| Deleted.
#[global] Instance code : AsI32 t := λ v,
  match v with
  | Unspecified => 0%Z
  | Running => 1%Z
  | Cancelled => 2%Z
  | Paused => 3%Z
  | Closed => 4%Z
  | Purged => 5%Z
  | Deleted => 6%Z
  end.
End SessionStatus.

End session_status.

(** ** Package [armonik.api.grpc.v1.sort_direction]: [sort_direction.proto]. *)

Module sort_direction.

Module SortDirection.
Inductive t : Type :=
| Unspecified
| Asc
| Desc.
#[global] Instance code : AsI32 t := λ v,
  match v with
  | Unspecified => 0%Z
  | Asc => 1%Z
  | Desc => 2%Z
  end.
End SortDirection.

End sort_direction.

(** ** Package [armonik.api.grpc.v1]: [objects.proto], [filters_common.proto]. *)

Module FilterStringOperator.
Inductive t : Type :=
| Equal
| NotEqual
| Contains
| NotContains
| StartsWith
| EndsWith.
#[global] Instance code : AsI32 t := λ v,
  match v with
  | Equal => 0%Z
  | NotEqual => 1%Z
  | Contains => 2%Z
  | NotContains => 3%Z
  | StartsWith => 4%Z
  | EndsWith => 5%Z
  end.
End FilterStringOperator.

Module FilterString.
Record t : Type := mk {
  value : string;
  operator : Z
}.
End FilterString.

Module FilterNumberOperator.
Inductive t : Type :=
| Equal
| NotEqual
| LessThan
| LessThanOrEqual
| GreaterThanOrEqual
| GreaterThan.
#[global] Instance code : AsI32 t := λ v,
  match v with
  | Equal => 0%Z
  | NotEqual => 1%Z
  | LessThan => 2%Z
  | LessThanOrEqual => 3%Z
  | GreaterThanOrEqual => 4%Z
  | GreaterThan => 5%Z
  end.
End FilterNumberOperator.

Module FilterNumber.
Record t : Type := mk {
  value : Z;
  operator : Z
}.
End FilterNumber.

Module FilterDateOperator.
Inductive t : Type :=
| Equal
| NotEqual
| Before
| BeforeOrEqual
| AfterOrEqual
| After.
#[global] Instance code : AsI32 t := λ v,
  match v with
  | Equal => 0%Z
  | NotEqual => 1%Z
  | Before => 2%Z
  | BeforeOrEqual => 3%Z
  | AfterOrEqual => 4%Z
  | After => 5%Z
  end.
End FilterDateOperator.

Module FilterDate.
Record t : Type := mk {
  value : option Timestamp.t;
  operator : Z
}.
End FilterDate.

Module FilterArrayOperator.
Inductive t : Type :=
| Contains
| NotContains.
#[global] Instance code : AsI32 t := λ v,
  match v with
  | Contains => 0%Z
  | NotContains => 1%Z
  end.
End FilterArrayOperator.

Module FilterArray.
Record t : Type := mk {
  value : string;
  operator : Z
}.
End FilterArray.

Module FilterStatusOperator.
Inductive t : Type :=
| Equal
| NotEqual.
#[global] Instance code : AsI32 t := λ v,
  match v with
  | Equal => 0%Z
  | NotEqual => 1%Z
  end.
End FilterStatusOperator.

Module FilterBooleanOperator.
Inductive t : Type :=
| Is.
#[global] Instance code : AsI32 t := λ v,
  match v with
  | Is => 0%Z
  end.
End FilterBooleanOperator.

Module FilterBoolean.
Record t : Type := mk {
  value : bool;
  operator : Z
}.
End FilterBoolean.

Module FilterDurationOperator.
Inductive t : Type :=
| Equal
| NotEqual
| ShorterThan
| ShorterThanOrEqual
| LongerThanOrEqual
| LongerThan.
#[global] Instance code : AsI32 t := λ v,
  match v with
  | Equal => 0%Z
  | NotEqual => 1%Z
  | ShorterThan => 2%Z
  | ShorterThanOrEqual => 3%Z
  | LongerThanOrEqual => 4%Z
  | LongerThan => 5%Z
  end.
End FilterDurationOperator.

Module FilterDuration.
Record t : Type := mk {
  value : option Duration.t;
  operator : Z
}.
End FilterDuration.

Module Empty.
Record t : Type := mk { }.
End Empty.

Module TaskOptions.
Record t : Type := mk {
  options : gmap string string;
  max_duration : option Duration.t;
  max_retries : Z;
  priority : Z;
  partition_id : string;
  application_name : string;
  application_version : string;
  application_namespace : string;
  application_service : string;
  engine_type : string
}.
End TaskOptions.

Module Session.
Record t : Type := mk {
  id : string
}.
End Session.

Module Configuration.
Record t : Type := mk {
  data_chunk_max_size : Z
}.
End Configuration.

Module output.
Module Error.
Record t : Type := mk {
  details : string
}.
End Error.

Module Type_.
Inductive t : Type :=
| Ok (v : Empty.t)
| Error (v : output.Error.t).
End Type_.
End output.
Module Output.
Record t : Type := mk {
  type_ : option output.Type_.t
}.
End Output.

Module TaskRequest.
Record t : Type := mk {
  expected_output_keys : list string;
  data_dependencies : list string;
  payload : list byte;
  payload_name : string
}.
End TaskRequest.

Module init_keyed_data_stream.
Module Type_.
Inductive t : Type :=
| Key (v : string)
| LastResult (v : bool).
End Type_.
End init_keyed_data_stream.
Module InitKeyedDataStream.
Record t : Type := mk {
  type_ : option init_keyed_data_stream.Type_.t
}.
End InitKeyedDataStream.

Module data_chunk.
Module Type_.
Inductive t : Type :=
| Data (v : list byte)
| DataComplete (v : bool).
End Type_.
End data_chunk.
Module DataChunk.
Record t : Type := mk {
  type_ : option data_chunk.Type_.t
}.
End DataChunk.

Module TaskRequestHeader.
Record t : Type := mk {
  expected_output_keys : list string;
  data_dependencies : list string
}.
End TaskRequestHeader.

Module init_task_request.
Module Type_.
Inductive t : Type :=
| Header (v : TaskRequestHeader.t)
| LastTask (v : bool).
End Type_.
End init_task_request.
Module InitTaskRequest.
Record t : Type := mk {
  type_ : option init_task_request.Type_.t
}.
End InitTaskRequest.

Module TaskId.
Record t : Type := mk {
  session : string;
  task : string
}.
End TaskId.

Module TaskIdList.
Record t : Type := mk {
  task_ids : list string
}.
End TaskIdList.

Module StatusCount.
Record t : Type := mk {
  status : Z;
  count : Z
}.
End StatusCount.

Module Count.
Record t : Type := mk {
  values : list StatusCount.t
}.
End Count.

Module ResultRequest.
Record t : Type := mk {
  session : string;
  result_id : string
}.
End ResultRequest.

Module TaskOutputRequest.
Record t : Type := mk {
  session : string;
  task_id : string
}.
End TaskOutputRequest.

Module Error.
Record t : Type := mk {
  task_status : Z;
  detail : string
}.
End Error.

Module TaskError.
Record t : Type := mk {
  task_id : string;
  errors : list Error.t
}.
End TaskError.

Module TaskList.
Record t : Type := mk {
  task_ids : list TaskId.t
}.
End TaskList.

Module TaskIdWithStatus.
Record t : Type := mk {
  task_id : option TaskId.t;
  status : Z
}.
End TaskIdWithStatus.

(** ** Package [armonik.api.grpc.v1.sessions]: [sessions_common.proto], [sessions_fields.proto], [sessions_filters.proto]. *)

Module sessions.

Module SessionRaw.
Record t : Type := mk {
  session_id : string;
  status : Z;
  client_submission : bool;
  worker_submission : bool;
  partition_ids : list string;
  options : option TaskOptions.t;
  created_at : option Timestamp.t;
  cancelled_at : option Timestamp.t;
  closed_at : option Timestamp.t;
  purged_at : option Timestamp.t;
  deleted_at : option Timestamp.t;
  duration : option Duration.t
}.
End SessionRaw.

Module ListSessionsResponse.
Record t : Type := mk {
  sessions : list sessions.SessionRaw.t;
  page : Z;
  page_size : Z;
  total : Z
}.
End ListSessionsResponse.

Module GetSessionRequest.
Record t : Type := mk {
  session_id : string
}.
End GetSessionRequest.

Module GetSessionResponse.
Record t : Type := mk {
  session : option sessions.SessionRaw.t
}.
End GetSessionResponse.

Module CancelSessionRequest.
Record t : Type := mk {
  session_id : string
}.
End CancelSessionRequest.

Module CancelSessionResponse.
Record t : Type := mk {
  session : option sessions.SessionRaw.t
}.
End CancelSessionResponse.

Module CreateSessionRequest.
Record t : Type := mk {
  default_task_option : option TaskOptions.t;
  partition_ids : list string
}.
End CreateSessionRequest.

Module CreateSessionReply.
Record t : Type := mk {
  session_id : string
}.
End CreateSessionReply.

Module PauseSessionRequest.
Record t : Type := mk {
  session_id : string
}.
End PauseSessionRequest.

Module PauseSessionResponse.
Record t : Type := mk {
  session : option sessions.SessionRaw.t
}.
End PauseSessionResponse.

Module ResumeSessionRequest.
Record t : Type := mk {
  session_id : string
}.
End ResumeSessionRequest.

Module ResumeSessionResponse.
Record t : Type := mk {
  session : option sessions.SessionRaw.t
}.
End ResumeSessionResponse.

Module CloseSessionRequest.
Record t : Type := mk {
  session_id : string
}.
End CloseSessionRequest.

Module CloseSessionResponse.
Record t : Type := mk {
  session : option sessions.SessionRaw.t
}.
End CloseSessionResponse.

Module PurgeSessionRequest.
Record t : Type := mk {
  session_id : string
}.
End PurgeSessionRequest.

Module PurgeSessionResponse.
Record t : Type := mk {
  session : option sessions.SessionRaw.t
}.
End PurgeSessionResponse.

Module DeleteSessionRequest.
Record t : Type := mk {
  session_id : string
}.
End DeleteSessionRequest.

Module DeleteSessionResponse.
Record t : Type := mk {
  session : option sessions.SessionRaw.t
}.
End DeleteSessionResponse.

Module StopSubmissionRequest.
Record t : Type := mk {
  session_id : string;
  client : bool;
  worker : bool
}.
End StopSubmissionRequest.

Module StopSubmissionResponse.
Record t : Type := mk {
  session : option sessions.SessionRaw.t
}.
End StopSubmissionResponse.

Module SessionRawEnumField.
Inductive t : Type :=
| Unspecified
| SessionId
| Status
| PartitionIds
| Options
| CreatedAt
| CancelledAt
| ClosedAt
| PurgedAt
| DeletedAt
| Duration
| WorkerSubmission
| ClientSubmission.
#[global] Instance code : AsI32 t := λ v,
  match v with
  | Unspecified => 0%Z
  | SessionId => 1%Z
  | Status => 2%Z
  | PartitionIds => 3%Z
  | Options => 4%Z
  | CreatedAt => 5%Z
  | CancelledAt => 6%Z
  | ClosedAt => 8%Z
  | PurgedAt => 9%Z
  | DeletedAt => 10%Z
  | Duration => 7%Z
  | WorkerSubmission => 11%Z
  | ClientSubmission => 12%Z
  end.
End SessionRawEnumField.

Module SessionRawField.
Record t : Type := mk {
  field : Z
}.
End SessionRawField.

Module TaskOptionEnumField.
Inductive t : Type :=
| Unspecified
| MaxDuration
| MaxRetries
| Priority
| PartitionId
| ApplicationName
| ApplicationVersion
| ApplicationNamespace
| ApplicationService
| EngineType.
#[global] Instance code : AsI32 t := λ v,
  match v with
  | Unspecified => 0%Z
  | MaxDuration => 1%Z
  | MaxRetries => 2%Z
  | Priority => 3%Z
  | PartitionId => 4%Z
  | ApplicationName => 5%Z
  | ApplicationVersion => 6%Z
  | ApplicationNamespace => 7%Z
  | ApplicationService => 8%Z
  | EngineType => 9%Z
  end.
End TaskOptionEnumField.

Module TaskOptionField.
Record t : Type := mk {
  field : Z
}.
End TaskOptionField.

Module TaskOptionGenericField.
Record t : Type := mk {
  field : string
}.
End TaskOptionGenericField.

Module session_field.
Module Field.
Inductive t : Type :=
| SessionRawField (v : sessions.SessionRawField.t)
| TaskOptionField (v : sessions.TaskOptionField.t)
| TaskOptionGenericField (v : sessions.TaskOptionGenericField.t).
End Field.
End session_field.
Module SessionField.
Record t : Type := mk {
  field : option session_field.Field.t
}.
End SessionField.

Module FilterStatus.
Record t : Type := mk {
  value : Z;
  operator : Z
}.
End FilterStatus.

Module filter_field.
Module ValueCondition.
Inductive t : Type :=
| FilterString (v : FilterString.t)
| FilterNumber (v : FilterNumber.t)
| FilterBoolean (v : FilterBoolean.t)
| FilterStatus (v : sessions.FilterStatus.t)
| FilterDate (v : FilterDate.t)
| FilterArray (v : FilterArray.t)
| FilterDuration (v : FilterDuration.t).
End ValueCondition.
End filter_field.
Module FilterField.
Record t : Type := mk {
  field : option sessions.SessionField.t;
  value_condition : option filter_field.ValueCondition.t
}.
End FilterField.

Module FiltersAnd.
Record t : Type := mk {
  and : list sessions.FilterField.t
}.
End FiltersAnd.

Module Filters.
Record t : Type := mk {
  or : list sessions.FiltersAnd.t
}.
End Filters.

Module list_sessions_request.
Module Sort.
Record t : Type := mk {
  field : option sessions.SessionField.t;
  direction : Z
}.
End Sort.

End list_sessions_request.
Module ListSessionsRequest.
Record t : Type := mk {
  page : Z;
  page_size : Z;
  filters : option sessions.Filters.t;
  sort : option sessions.list_sessions_request.Sort.t;
  with_task_options : bool
}.
End ListSessionsRequest.

End sessions.

(** ** Package [armonik.api.grpc.v1.tasks]: [tasks_common.proto], [tasks_fields.proto], [tasks_filters.proto]. *)

Module tasks.

Module task_detailed.
Module Output.
Record t : Type := mk {
  success : bool;
  error : string
}.
#[global] Instance default : Default t := {| success := dflt; error := dflt |}.
End Output.

End task_detailed.
Module TaskDetailed.
Record t : Type := mk {
  id : string;
  session_id : string;
  owner_pod_id : string;
  initial_task_id : string;
  parent_task_ids : list string;
  data_dependencies : list string;
  expected_output_ids : list string;
  retry_of_ids : list string;
  status : Z;
  status_message : string;
  options : option TaskOptions.t;
  created_at : option Timestamp.t;
  submitted_at : option Timestamp.t;
  received_at : option Timestamp.t;
  acquired_at : option Timestamp.t;
  fetched_at : option Timestamp.t;
  started_at : option Timestamp.t;
  processed_at : option Timestamp.t;
  ended_at : option Timestamp.t;
  pod_ttl : option Timestamp.t;
  creation_to_end_duration : option Duration.t;
  processing_to_end_duration : option Duration.t;
  received_to_end_duration : option Duration.t;
  payload_id : string;
  created_by : string;
  output : option tasks.task_detailed.Output.t;
  pod_hostname : string
}.
End TaskDetailed.

Module TaskSummary.
Record t : Type := mk {
  id : string;
  session_id : string;
  owner_pod_id : string;
  initial_task_id : string;
  count_parent_task_ids : Z;
  count_data_dependencies : Z;
  count_expected_output_ids : Z;
  count_retry_of_ids : Z;
  status : Z;
  status_message : string;
  options : option TaskOptions.t;
  created_at : option Timestamp.t;
  submitted_at : option Timestamp.t;
  received_at : option Timestamp.t;
  acquired_at : option Timestamp.t;
  fetched_at : option Timestamp.t;
  started_at : option Timestamp.t;
  processed_at : option Timestamp.t;
  ended_at : option Timestamp.t;
  pod_ttl : option Timestamp.t;
  creation_to_end_duration : option Duration.t;
  processing_to_end_duration : option Duration.t;
  received_to_end_duration : option Duration.t;
  payload_id : string;
  created_by : string;
  error : string;
  pod_hostname : string
}.
End TaskSummary.

Module ListTasksResponse.
Record t : Type := mk {
  tasks : list tasks.TaskSummary.t;
  page : Z;
  page_size : Z;
  total : Z
}.
End ListTasksResponse.

Module ListTasksDetailedResponse.
Record t : Type := mk {
  tasks : list tasks.TaskDetailed.t;
  page : Z;
  page_size : Z;
  total : Z
}.
End ListTasksDetailedResponse.

Module GetTaskRequest.
Record t : Type := mk {
  task_id : string
}.
End GetTaskRequest.

Module GetTaskResponse.
Record t : Type := mk {
  task : option tasks.TaskDetailed.t
}.
End GetTaskResponse.

Module CancelTasksRequest.
Record t : Type := mk {
  task_ids : list string
}.
End CancelTasksRequest.

Module CancelTasksResponse.
Record t : Type := mk {
  tasks : list tasks.TaskSummary.t
}.
End CancelTasksResponse.

Module GetResultIdsRequest.
Record t : Type := mk {
  task_id : list string
}.
End GetResultIdsRequest.

Module get_result_ids_response.
Module MapTaskResult.
Record t : Type := mk {
  task_id : string;
  result_ids : list string
}.
End MapTaskResult.

End get_result_ids_response.
Module GetResultIdsResponse.
Record t : Type := mk {
  task_results : list tasks.get_result_ids_response.MapTaskResult.t
}.
End GetResultIdsResponse.

Module CountTasksByStatusResponse.
Record t : Type := mk {
  status : list StatusCount.t
}.
End CountTasksByStatusResponse.

Module submit_tasks_request.
Module TaskCreation.
Record t : Type := mk {
  expected_output_keys : list string;
  data_dependencies : list string;
  payload_id : string;
  task_options : option TaskOptions.t
}.
End TaskCreation.

End submit_tasks_request.
Module SubmitTasksRequest.
Record t : Type := mk {
  session_id : string;
  task_options : option TaskOptions.t;
  task_creations : list tasks.submit_tasks_request.TaskCreation.t
}.
End SubmitTasksRequest.

Module submit_tasks_response.
Module TaskInfo.
Record t : Type := mk {
  task_id : string;
  expected_output_ids : list string;
  data_dependencies : list string;
  payload_id : string
}.
End TaskInfo.

End submit_tasks_response.
Module SubmitTasksResponse.
Record t : Type := mk {
  task_infos : list tasks.submit_tasks_response.TaskInfo.t
}.
End SubmitTasksResponse.

Module TaskSummaryEnumField.
Inductive t : Type :=
| Unspecified
| TaskId
| SessionId
| OwnerPodId
| InitialTaskId
| Status
| CreatedAt
| SubmittedAt
| StartedAt
| EndedAt
| CreationToEndDuration
| ProcessingToEndDuration
| ReceivedToEndDuration
| PodTtl
| PodHostname
| ReceivedAt
| AcquiredAt
| ProcessedAt
| Error
| FetchedAt
| PayloadId
| CreatedBy.
#[global] Instance code : AsI32 t := λ v,
  match v with
  | Unspecified => 0%Z
  | TaskId => 16%Z
  | SessionId => 1%Z
  | OwnerPodId => 9%Z
  | InitialTaskId => 10%Z
  | Status => 2%Z
  | CreatedAt => 3%Z
  | SubmittedAt => 11%Z
  | StartedAt => 4%Z
  | EndedAt => 5%Z
  | CreationToEndDuration => 6%Z
  | ProcessingToEndDuration => 7%Z
  | ReceivedToEndDuration => 18%Z
  | PodTtl => 12%Z
  | PodHostname => 13%Z
  | ReceivedAt => 14%Z
  | AcquiredAt => 15%Z
  | ProcessedAt => 17%Z
  | Error => 8%Z
  | FetchedAt => 19%Z
  | PayloadId => 20%Z
  | CreatedBy => 21%Z
  end.
End TaskSummaryEnumField.

Module TaskSummaryField.
Record t : Type := mk {
  field : Z
}.
End TaskSummaryField.

Module TaskOptionEnumField.
Inductive t : Type :=
| Unspecified
| MaxDuration
| MaxRetries
| Priority
| PartitionId
| ApplicationName
| ApplicationVersion
| ApplicationNamespace
| ApplicationService
| EngineType.
#[global] Instance code : AsI32 t := λ v,
  match v with
  | Unspecified => 0%Z
  | MaxDuration => 1%Z
  | MaxRetries => 2%Z
  | Priority => 3%Z
  | PartitionId => 4%Z
  | ApplicationName => 5%Z
  | ApplicationVersion => 6%Z
  | ApplicationNamespace => 7%Z
  | ApplicationService => 8%Z
  | EngineType => 9%Z
  end.
End TaskOptionEnumField.

Module TaskOptionField.
Record t : Type := mk {
  field : Z
}.
End TaskOptionField.

Module TaskOptionGenericField.
Record t : Type := mk {
  field : string
}.
End TaskOptionGenericField.

Module task_field.
Module Field.
Inductive t : Type :=
| TaskSummaryField (v : tasks.TaskSummaryField.t)
| TaskOptionField (v : tasks.TaskOptionField.t)
| TaskOptionGenericField (v : tasks.TaskOptionGenericField.t).
End Field.
End task_field.
Module TaskField.
Record t : Type := mk {
  field : option task_field.Field.t
}.
End TaskField.

Module FilterStatus.
Record t : Type := mk {
  value : Z;
  operator : Z
}.
End FilterStatus.

Module filter_field.
Module ValueCondition.
Inductive t : Type :=
| FilterString (v : FilterString.t)
| FilterNumber (v : FilterNumber.t)
| FilterBoolean (v : FilterBoolean.t)
| FilterStatus (v : tasks.FilterStatus.t)
| FilterDate (v : FilterDate.t)
| FilterArray (v : FilterArray.t)
| FilterDuration (v : FilterDuration.t).
End ValueCondition.
End filter_field.
Module FilterField.
Record t : Type := mk {
  field : option tasks.TaskField.t;
  value_condition : option filter_field.ValueCondition.t
}.
End FilterField.

Module FiltersAnd.
Record t : Type := mk {
  and : list tasks.FilterField.t
}.
End FiltersAnd.

Module Filters.
Record t : Type := mk {
  or : list tasks.FiltersAnd.t
}.
#[global] Instance default : Default t := {| or := dflt |}.
End Filters.

Module list_tasks_request.
Module Sort.
Record t : Type := mk {
  field : option tasks.TaskField.t;
  direction : Z
}.
End Sort.

End list_tasks_request.
Module ListTasksRequest.
Record t : Type := mk {
  page : Z;
  page_size : Z;
  filters : option tasks.Filters.t;
  sort : option tasks.list_tasks_request.Sort.t;
  with_errors : bool
}.
End ListTasksRequest.

Module CountTasksByStatusRequest.
Record t : Type := mk {
  filters : option tasks.Filters.t
}.
End CountTasksByStatusRequest.

End tasks.

(** ** Package [armonik.api.grpc.v1.results]: [results_common.proto], [results_fields.proto], [results_filters.proto]. *)

Module results.

Module ResultRaw.
Record t : Type := mk {
  session_id : string;
  name : string;
  owner_task_id : string;
  status : Z;
  created_at : option Timestamp.t;
  completed_at : option Timestamp.t;
  result_id : string;
  size : Z;
  created_by : string;
  opaque_id : list byte;
  manual_deletion : bool
}.
End ResultRaw.

Module ListResultsResponse.
Record t : Type := mk {
  results : list results.ResultRaw.t;
  page : Z;
  page_size : Z;
  total : Z
}.
End ListResultsResponse.

Module GetResultRequest.
Record t : Type := mk {
  result_id : string
}.
End GetResultRequest.

Module GetResultResponse.
Record t : Type := mk {
  result : option results.ResultRaw.t
}.
End GetResultResponse.

Module GetOwnerTaskIdRequest.
Record t : Type := mk {
  session_id : string;
  result_id : list string
}.
End GetOwnerTaskIdRequest.

Module get_owner_task_id_response.
Module MapResultTask.
Record t : Type := mk {
  result_id : string;
  task_id : string
}.
End MapResultTask.

End get_owner_task_id_response.
Module GetOwnerTaskIdResponse.
Record t : Type := mk {
  result_task : list results.get_owner_task_id_response.MapResultTask.t;
  session_id : string
}.
End GetOwnerTaskIdResponse.

Module create_results_meta_data_request.
Module ResultCreate.
Record t : Type := mk {
  name : string;
  manual_deletion : bool
}.
End ResultCreate.

End create_results_meta_data_request.
Module CreateResultsMetaDataRequest.
Record t : Type := mk {
  results : list results.create_results_meta_data_request.ResultCreate.t;
  session_id : string
}.
End CreateResultsMetaDataRequest.

Module CreateResultsMetaDataResponse.
Record t : Type := mk {
  results : list results.ResultRaw.t
}.
End CreateResultsMetaDataResponse.

Module create_results_request.
Module ResultCreate.
Record t : Type := mk {
  name : string;
  data : list byte;
  manual_deletion : bool
}.
End ResultCreate.

End create_results_request.
Module CreateResultsRequest.
Record t : Type := mk {
  results : list results.create_results_request.ResultCreate.t;
  session_id : string
}.
End CreateResultsRequest.

Module CreateResultsResponse.
Record t : Type := mk {
  results : list results.ResultRaw.t
}.
End CreateResultsResponse.

Module upload_result_data_request.
Module ResultIdentifier.
Record t : Type := mk {
  session_id : string;
  result_id : string
}.
End ResultIdentifier.

Module Type_.
Inductive t : Type :=
| Id (v : results.upload_result_data_request.ResultIdentifier.t)
| DataChunk (v : list byte).
End Type_.
End upload_result_data_request.
Module UploadResultDataRequest.
Record t : Type := mk {
  type_ : option upload_result_data_request.Type_.t
}.
End UploadResultDataRequest.

Module UploadResultDataResponse.
Record t : Type := mk {
  result : option results.ResultRaw.t
}.
End UploadResultDataResponse.

Module ResultsServiceConfigurationResponse.
Record t : Type := mk {
  data_chunk_max_size : Z
}.
End ResultsServiceConfigurationResponse.

Module DownloadResultDataRequest.
Record t : Type := mk {
  session_id : string;
  result_id : string
}.
End DownloadResultDataRequest.

Module DownloadResultDataResponse.
Record t : Type := mk {
  data_chunk : list byte
}.
End DownloadResultDataResponse.

Module DeleteResultsDataRequest.
Record t : Type := mk {
  session_id : string;
  result_id : list string
}.
End DeleteResultsDataRequest.

Module DeleteResultsDataResponse.
Record t : Type := mk {
  session_id : string;
  result_id : list string
}.
End DeleteResultsDataResponse.

Module import_results_data_request.
Module ResultOpaqueId.
Record t : Type := mk {
  result_id : string;
  opaque_id : list byte
}.
End ResultOpaqueId.

End import_results_data_request.
Module ImportResultsDataRequest.
Record t : Type := mk {
  session_id : string;
  results : list results.import_results_data_request.ResultOpaqueId.t
}.
End ImportResultsDataRequest.

Module ImportResultsDataResponse.
Record t : Type := mk {
  results : list results.ResultRaw.t
}.
End ImportResultsDataResponse.

Module WatchResultRequest.
Record t : Type := mk {
  fetch_statuses : list Z;
  watch_statuses : list Z;
  result_ids : list string
}.
End WatchResultRequest.

Module WatchResultResponse.
Record t : Type := mk {
  status : Z;
  result_ids : list string
}.
End WatchResultResponse.

Module ResultRawEnumField.
Inductive t : Type :=
| Unspecified
| SessionId
| Name
| OwnerTaskId
| Status
| CreatedAt
| CompletedAt
| ResultId
| Size
| CreatedBy
| OpaqueId
| ManualDeletion.
#[global] Instance code : AsI32 t := λ v,
  match v with
  | Unspecified => 0%Z
  | SessionId => 1%Z
  | Name => 2%Z
  | OwnerTaskId => 3%Z
  | Status => 4%Z
  | CreatedAt => 5%Z
  | CompletedAt => 6%Z
  | ResultId => 7%Z
  | Size => 8%Z
  | CreatedBy => 9%Z
  | OpaqueId => 10%Z
  | ManualDeletion => 11%Z
  end.
End ResultRawEnumField.

Module ResultRawField.
Record t : Type := mk {
  field : Z
}.
End ResultRawField.

Module result_field.
Module Field.
Inductive t : Type :=
| ResultRawField (v : results.ResultRawField.t).
End Field.
End result_field.
Module ResultField.
Record t : Type := mk {
  field : option result_field.Field.t
}.
End ResultField.

Module FilterStatus.
Record t : Type := mk {
  value : Z;
  operator : Z
}.
End FilterStatus.

Module filter_field.
Module ValueCondition.
Inductive t : Type :=
| FilterString (v : FilterString.t)
| FilterDate (v : FilterDate.t)
| FilterArray (v : FilterArray.t)
| FilterStatus (v : results.FilterStatus.t)
| FilterNumber (v : FilterNumber.t).
End ValueCondition.
End filter_field.
Module FilterField.
Record t : Type := mk {
  field : option results.ResultField.t;
  value_condition : option filter_field.ValueCondition.t
}.
End FilterField.

Module FiltersAnd.
Record t : Type := mk {
  and : list results.FilterField.t
}.
End FiltersAnd.

Module Filters.
Record t : Type := mk {
  or : list results.FiltersAnd.t
}.
#[global] Instance default : Default t := {| or := dflt |}.
End Filters.

Module list_results_request.
Module Sort.
Record t : Type := mk {
  field : option results.ResultField.t;
  direction : Z
}.
End Sort.

End list_results_request.
Module ListResultsRequest.
Record t : Type := mk {
  page : Z;
  page_size : Z;
  filters : option results.Filters.t;
  sort : option results.list_results_request.Sort.t
}.
End ListResultsRequest.

End results.

(** ** Package [armonik.api.grpc.v1.submitter]: [submitter_common.proto]. *)

Module submitter.

Module SessionList.
Record t : Type := mk {
  sessions : list Session.t
}.
End SessionList.

Module SessionIdList.
Record t : Type := mk {
  session_ids : list string
}.
End SessionIdList.

Module CreateSessionRequest.
Record t : Type := mk {
  default_task_option : option TaskOptions.t;
  partition_ids : list string
}.
End CreateSessionRequest.

Module CreateSessionReply.
Record t : Type := mk {
  session_id : string
}.
End CreateSessionReply.

Module CreateSmallTaskRequest.
Record t : Type := mk {
  session_id : string;
  task_options : option TaskOptions.t;
  task_requests : list TaskRequest.t
}.
End CreateSmallTaskRequest.

Module create_large_task_request.
Module InitRequest.
Record t : Type := mk {
  session_id : string;
  task_options : option TaskOptions.t
}.
End InitRequest.

Module Type_.
Inductive t : Type :=
| InitRequest (v : submitter.create_large_task_request.InitRequest.t)
| InitTask (v : InitTaskRequest.t)
| TaskPayload (v : DataChunk.t).
End Type_.
End create_large_task_request.
Module CreateLargeTaskRequest.
Record t : Type := mk {
  type_ : option create_large_task_request.Type_.t
}.
End CreateLargeTaskRequest.

Module create_task_reply.
Module TaskInfo.
Record t : Type := mk {
  task_id : string;
  expected_output_keys : list string;
  data_dependencies : list string;
  payload_id : string
}.
End TaskInfo.

Module creation_status.
Module Status.
Inductive t : Type :=
| TaskInfo (v : submitter.create_task_reply.TaskInfo.t)
| Error (v : string).
End Status.
End creation_status.
Module CreationStatus.
Record t : Type := mk {
  status : option creation_status.Status.t
}.
End CreationStatus.

Module CreationStatusList.
Record t : Type := mk {
  creation_statuses : list submitter.create_task_reply.CreationStatus.t
}.
End CreationStatusList.

Module Response.
Inductive t : Type :=
| CreationStatusList (v : submitter.create_task_reply.CreationStatusList.t)
| Error (v : string).
End Response.
End create_task_reply.
Module CreateTaskReply.
Record t : Type := mk {
  response : option create_task_reply.Response.t
}.
End CreateTaskReply.

Module task_filter.
Module IdsRequest.
Record t : Type := mk {
  ids : list string
}.
End IdsRequest.

Module StatusesRequest.
Record t : Type := mk {
  statuses : list Z
}.
End StatusesRequest.

Module Ids.
Inductive t : Type :=
| Session (v : submitter.task_filter.IdsRequest.t)
| Task (v : submitter.task_filter.IdsRequest.t).
End Ids.
Module Statuses.
Inductive t : Type :=
| Included (v : submitter.task_filter.StatusesRequest.t)
| Excluded (v : submitter.task_filter.StatusesRequest.t).
End Statuses.
End task_filter.
Module TaskFilter.
Record t : Type := mk {
  ids : option task_filter.Ids.t;
  statuses : option task_filter.Statuses.t
}.
End TaskFilter.

Module session_filter.
Module StatusesRequest.
Record t : Type := mk {
  statuses : list Z
}.
End StatusesRequest.

Module Statuses.
Inductive t : Type :=
| Included (v : submitter.session_filter.StatusesRequest.t)
| Excluded (v : submitter.session_filter.StatusesRequest.t).
End Statuses.
End session_filter.
Module SessionFilter.
Record t : Type := mk {
  sessions : list string;
  statuses : option session_filter.Statuses.t
}.
End SessionFilter.

Module GetTaskStatusRequest.
Record t : Type := mk {
  task_ids : list string
}.
End GetTaskStatusRequest.

Module get_task_status_reply.
Module IdStatus.
Record t : Type := mk {
  task_id : string;
  status : Z
}.
End IdStatus.

End get_task_status_reply.
Module GetTaskStatusReply.
Record t : Type := mk {
  id_statuses : list submitter.get_task_status_reply.IdStatus.t
}.
End GetTaskStatusReply.

Module GetResultStatusRequest.
Record t : Type := mk {
  result_ids : list string;
  session_id : string
}.
End GetResultStatusRequest.

Module get_result_status_reply.
Module IdStatus.
Record t : Type := mk {
  result_id : string;
  status : Z
}.
End IdStatus.

End get_result_status_reply.
Module GetResultStatusReply.
Record t : Type := mk {
  id_statuses : list submitter.get_result_status_reply.IdStatus.t
}.
End GetResultStatusReply.

Module result_reply.
Module Type_.
Inductive t : Type :=
| Result (v : DataChunk.t)
| Error (v : TaskError.t)
| NotCompletedTask (v : string).
End Type_.
End result_reply.
Module ResultReply.
Record t : Type := mk {
  type_ : option result_reply.Type_.t
}.
End ResultReply.

Module availability_reply.
Module Type_.
Inductive t : Type :=
| Ok (v : Empty.t)
| Error (v : TaskError.t)
| NotCompletedTask (v : string).
End Type_.
End availability_reply.
Module AvailabilityReply.
Record t : Type := mk {
  type_ : option availability_reply.Type_.t
}.
End AvailabilityReply.

Module WaitRequest.
Record t : Type := mk {
  filter : option submitter.TaskFilter.t;
  stop_on_first_task_error : bool;
  stop_on_first_task_cancellation : bool
}.
End WaitRequest.

Module WatchResultRequest.
Record t : Type := mk {
  fetch_statuses : list Z;
  watch_statuses : list Z;
  result_ids : list string
}.
End WatchResultRequest.

Module WatchResultStream.
Record t : Type := mk {
  status : Z;
  result_ids : list string
}.
End WatchResultStream.

End submitter.

(** ** Package [armonik.api.grpc.v1.partitions]: [partitions_common.proto], [partitions_fields.proto], [partitions_filters.proto]. *)

Module partitions.

Module PartitionRaw.
Record t : Type := mk {
  id : string;
  parent_partition_ids : list string;
  pod_reserved : Z;
  pod_max : Z;
  pod_configuration : gmap string string;
  preemption_percentage : Z;
  priority : Z
}.
End PartitionRaw.

Module ListPartitionsResponse.
Record t : Type := mk {
  partitions : list partitions.PartitionRaw.t;
  page : Z;
  page_size : Z;
  total : Z
}.
End ListPartitionsResponse.

Module GetPartitionRequest.
Record t : Type := mk {
  id : string
}.
End GetPartitionRequest.

Module GetPartitionResponse.
Record t : Type := mk {
  partition : option partitions.PartitionRaw.t
}.
End GetPartitionResponse.

Module PartitionRawEnumField.
Inductive t : Type :=
| Unspecified
| Id
| ParentPartitionIds
| PodReserved
| PodMax
| PreemptionPercentage
| Priority.
#[global] Instance code : AsI32 t := λ v,
  match v with
  | Unspecified => 0%Z
  | Id => 1%Z
  | ParentPartitionIds => 2%Z
  | PodReserved => 3%Z
  | PodMax => 4%Z
  | PreemptionPercentage => 5%Z
  | Priority => 6%Z
  end.
End PartitionRawEnumField.

Module PartitionRawField.
Record t : Type := mk {
  field : Z
}.
End PartitionRawField.

Module partition_field.
Module Field.
Inductive t : Type :=
| PartitionRawField (v : partitions.PartitionRawField.t).
End Field.
End partition_field.
Module PartitionField.
Record t : Type := mk {
  field : option partition_field.Field.t
}.
End PartitionField.

Module filter_field.
Module ValueCondition.
Inductive t : Type :=
| FilterString (v : FilterString.t)
| FilterNumber (v : FilterNumber.t)
| FilterBoolean (v : FilterBoolean.t)
| FilterArray (v : FilterArray.t).
End ValueCondition.
End filter_field.
Module FilterField.
Record t : Type := mk {
  field : option partitions.PartitionField.t;
  value_condition : option filter_field.ValueCondition.t
}.
End FilterField.

Module FiltersAnd.
Record t : Type := mk {
  and : list partitions.FilterField.t
}.
End FiltersAnd.

Module Filters.
Record t : Type := mk {
  or : list partitions.FiltersAnd.t
}.
End Filters.

Module list_partitions_request.
Module Sort.
Record t : Type := mk {
  field : option partitions.PartitionField.t;
  direction : Z
}.
End Sort.

End list_partitions_request.
Module ListPartitionsRequest.
Record t : Type := mk {
  page : Z;
  page_size : Z;
  filters : option partitions.Filters.t;
  sort : option partitions.list_partitions_request.Sort.t
}.
End ListPartitionsRequest.

End partitions.

(** ** Package [armonik.api.grpc.v1.applications]: [applications_common.proto], [applications_fields.proto], [applications_filters.proto]. *)

Module applications.

Module ApplicationRaw.
Record t : Type := mk {
  name : string;
  version : string;
  namespace : string;
  service : string
}.
End ApplicationRaw.

Module ListApplicationsResponse.
Record t : Type := mk {
  applications : list applications.ApplicationRaw.t;
  page : Z;
  page_size : Z;
  total : Z
}.
End ListApplicationsResponse.

Module ApplicationRawEnumField.
Inductive t : Type :=
| Unspecified
| Name
| Version
| Namespace
| Service.
#[global] Instance code : AsI32 t := λ v,
  match v with
  | Unspecified => 0%Z
  | Name => 1%Z
  | Version => 2%Z
  | Namespace => 3%Z
  | Service => 4%Z
  end.
End ApplicationRawEnumField.

Module ApplicationRawField.
Record t : Type := mk {
  field : Z
}.
End ApplicationRawField.

Module application_field.
Module Field.
Inductive t : Type :=
| ApplicationField (v : applications.ApplicationRawField.t).
End Field.
End application_field.
Module ApplicationField.
Record t : Type := mk {
  field : option application_field.Field.t
}.
End ApplicationField.

Module filter_field.
Module ValueCondition.
Inductive t : Type :=
| FilterString (v : FilterString.t).
End ValueCondition.
End filter_field.
Module FilterField.
Record t : Type := mk {
  field : option applications.ApplicationField.t;
  value_condition : option filter_field.ValueCondition.t
}.
End FilterField.

Module FiltersAnd.
Record t : Type := mk {
  and : list applications.FilterField.t
}.
End FiltersAnd.

Module Filters.
Record t : Type := mk {
  or : list applications.FiltersAnd.t
}.
End Filters.

Module list_applications_request.
Module Sort.
Record t : Type := mk {
  fields : list applications.ApplicationField.t;
  direction : Z
}.
End Sort.

End list_applications_request.
Module ListApplicationsRequest.
Record t : Type := mk {
  page : Z;
  page_size : Z;
  filters : option applications.Filters.t;
  sort : option applications.list_applications_request.Sort.t
}.
End ListApplicationsRequest.

End applications.

(** ** Package [armonik.api.grpc.v1.auth]: [auth_common.proto]. *)

Module auth.

Module User.
Record t : Type := mk {
  username : string;
  roles : list string;
  permissions : list string
}.
End User.

Module GetCurrentUserRequest.
Record t : Type := mk { }.
End GetCurrentUserRequest.

Module GetCurrentUserResponse.
Record t : Type := mk {
  user : option auth.User.t
}.
End GetCurrentUserResponse.

End auth.

(** ** Package [armonik.api.grpc.v1.versions]: [versions_common.proto]. *)

Module versions.

Module ListVersionsRequest.
Record t : Type := mk { }.
End ListVersionsRequest.

Module ListVersionsResponse.
Record t : Type := mk {
  core : string;
  api : string
}.
End ListVersionsResponse.

End versions.

(** ** Package [armonik.api.grpc.v1.health_checks]: [health_checks_common.proto]. *)

Module health_checks.

Module HealthStatusEnum.
Inductive t : Type :=
| Unspecified
| Healthy
| Degraded
| Unhealthy.
#[global] Instance code : AsI32 t := λ v,
  match v with
  | Unspecified => 0%Z
  | Healthy => 1%Z
  | Degraded => 2%Z
  | Unhealthy => 3%Z
  end.
End HealthStatusEnum.

Module CheckHealthRequest.
Record t : Type := mk { }.
End CheckHealthRequest.

Module check_health_response.
Module ServiceHealth.
Record t : Type := mk {
  name : string;
  message : string;
  healthy : Z
}.
End ServiceHealth.

End check_health_response.
Module CheckHealthResponse.
Record t : Type := mk {
  services : list health_checks.check_health_response.ServiceHealth.t
}.
End CheckHealthResponse.

End health_checks.

(** ** Package [armonik.api.grpc.v1.events]: [events_common.proto]. *)

Module events.

Module EventsEnum.
Inductive t : Type :=
| Unspecified
| NewTask
| TaskStatusUpdate
| NewResult
| ResultStatusUpdate
| ResultOwnerUpdate.
#[global] Instance code : AsI32 t := λ v,
  match v with
  | Unspecified => 0%Z
  | NewTask => 1%Z
  | TaskStatusUpdate => 2%Z
  | NewResult => 3%Z
  | ResultStatusUpdate => 4%Z
  | ResultOwnerUpdate => 5%Z
  end.
End EventsEnum.

Module EventSubscriptionRequest.
Record t : Type := mk {
  session_id : string;
  tasks_filters : option tasks.Filters.t;
  results_filters : option results.Filters.t;
  returned_events : list Z
}.
End EventSubscriptionRequest.

Module event_subscription_response.
Module TaskStatusUpdate.
Record t : Type := mk {
  task_id : string;
  status : Z
}.
End TaskStatusUpdate.

Module ResultStatusUpdate.
Record t : Type := mk {
  result_id : string;
  status : Z
}.
End ResultStatusUpdate.

Module ResultOwnerUpdate.
Record t : Type := mk {
  result_id : string;
  previous_owner_id : string;
  current_owner_id : string
}.
End ResultOwnerUpdate.

Module NewTask.
Record t : Type := mk {
  task_id : string;
  payload_id : string;
  origin_task_id : string;
  status : Z;
  expected_output_keys : list string;
  data_dependencies : list string;
  retry_of_ids : list string;
  parent_task_ids : list string
}.
End NewTask.

Module NewResult.
Record t : Type := mk {
  result_id : string;
  owner_id : string;
  status : Z
}.
End NewResult.

Module Update.
Inductive t : Type :=
| TaskStatusUpdate (v : events.event_subscription_response.TaskStatusUpdate.t)
| ResultStatusUpdate (v : events.event_subscription_response.ResultStatusUpdate.t)
| ResultOwnerUpdate (v : events.event_subscription_response.ResultOwnerUpdate.t)
| NewTask (v : events.event_subscription_response.NewTask.t)
| NewResult (v : events.event_subscription_response.NewResult.t).
End Update.
End event_subscription_response.
Module EventSubscriptionResponse.
Record t : Type := mk {
  session_id : string;
  update : option event_subscription_response.Update.t
}.
End EventSubscriptionResponse.

End events.

(** ** Package [armonik.api.grpc.v1.agent]: [agent_common.proto]. *)

Module agent.

Module create_task_request.
Module InitRequest.
Record t : Type := mk {
  task_options : option TaskOptions.t
}.
End InitRequest.

Module Type_.
Inductive t : Type :=
| InitRequest (v : agent.create_task_request.InitRequest.t)
| InitTask (v : InitTaskRequest.t)
| TaskPayload (v : DataChunk.t).
End Type_.
End create_task_request.
Module CreateTaskRequest.
Record t : Type := mk {
  type_ : option create_task_request.Type_.t;
  communication_token : string
}.
End CreateTaskRequest.

Module create_task_reply.
Module TaskInfo.
Record t : Type := mk {
  task_id : string;
  expected_output_keys : list string;
  data_dependencies : list string;
  payload_id : string
}.
End TaskInfo.

Module creation_status.
Module Status.
Inductive t : Type :=
| TaskInfo (v : agent.create_task_reply.TaskInfo.t)
| Error (v : string).
End Status.
End creation_status.
Module CreationStatus.
Record t : Type := mk {
  status : option creation_status.Status.t
}.
End CreationStatus.

Module CreationStatusList.
Record t : Type := mk {
  creation_statuses : list agent.create_task_reply.CreationStatus.t
}.
End CreationStatusList.

Module Response.
Inductive t : Type :=
| CreationStatusList (v : agent.create_task_reply.CreationStatusList.t)
| Error (v : string).
End Response.
End create_task_reply.
Module CreateTaskReply.
Record t : Type := mk {
  response : option create_task_reply.Response.t;
  communication_token : string
}.
End CreateTaskReply.

Module DataRequest.
Record t : Type := mk {
  communication_token : string;
  result_id : string
}.
End DataRequest.

Module DataResponse.
Record t : Type := mk {
  result_id : string
}.
End DataResponse.

Module create_results_meta_data_request.
Module ResultCreate.
Record t : Type := mk {
  name : string
}.
End ResultCreate.

End create_results_meta_data_request.
Module CreateResultsMetaDataRequest.
Record t : Type := mk {
  results : list agent.create_results_meta_data_request.ResultCreate.t;
  session_id : string;
  communication_token : string
}.
End CreateResultsMetaDataRequest.

Module ResultMetaData.
Record t : Type := mk {
  session_id : string;
  result_id : string;
  name : string;
  status : Z;
  created_at : option Timestamp.t
}.
End ResultMetaData.

Module CreateResultsMetaDataResponse.
Record t : Type := mk {
  results : list agent.ResultMetaData.t;
  communication_token : string
}.
End CreateResultsMetaDataResponse.

Module submit_tasks_request.
Module TaskCreation.
Record t : Type := mk {
  expected_output_keys : list string;
  data_dependencies : list string;
  payload_id : string;
  task_options : option TaskOptions.t
}.
End TaskCreation.

End submit_tasks_request.
Module SubmitTasksRequest.
Record t : Type := mk {
  session_id : string;
  task_options : option TaskOptions.t;
  task_creations : list agent.submit_tasks_request.TaskCreation.t;
  communication_token : string
}.
End SubmitTasksRequest.

Module submit_tasks_response.
Module TaskInfo.
Record t : Type := mk {
  task_id : string;
  expected_output_ids : list string;
  data_dependencies : list string;
  payload_id : string
}.
End TaskInfo.

End submit_tasks_response.
Module SubmitTasksResponse.
Record t : Type := mk {
  task_infos : list agent.submit_tasks_response.TaskInfo.t;
  communication_token : string
}.
End SubmitTasksResponse.

Module create_results_request.
Module ResultCreate.
Record t : Type := mk {
  name : string;
  data : list byte
}.
End ResultCreate.

End create_results_request.
Module CreateResultsRequest.
Record t : Type := mk {
  results : list agent.create_results_request.ResultCreate.t;
  session_id : string;
  communication_token : string
}.
End CreateResultsRequest.

Module CreateResultsResponse.
Record t : Type := mk {
  results : list agent.ResultMetaData.t;
  communication_token : string
}.
End CreateResultsResponse.

Module notify_result_data_request.
Module ResultIdentifier.
Record t : Type := mk {
  session_id : string;
  result_id : string
}.
End ResultIdentifier.

End notify_result_data_request.
Module NotifyResultDataRequest.
Record t : Type := mk {
  ids : list agent.notify_result_data_request.ResultIdentifier.t;
  communication_token : string
}.
End NotifyResultDataRequest.

Module NotifyResultDataResponse.
Record t : Type := mk {
  result_ids : list string
}.
End NotifyResultDataResponse.

End agent.

(** ** Package [armonik.api.grpc.v1.worker]: [worker_common.proto]. *)

Module worker.

Module ProcessRequest.
Record t : Type := mk {
  communication_token : string;
  session_id : string;
  task_id : string;
  task_options : option TaskOptions.t;
  expected_output_keys : list string;
  payload_id : string;
  data_dependencies : list string;
  data_folder : string;
  configuration : option Configuration.t
}.
End ProcessRequest.

Module ProcessReply.
Record t : Type := mk {
  output : option Output.t
}.
End ProcessReply.

Module health_check_reply.
Module ServingStatus.
Inductive t : Type :=
| Unknown
| Serving
| NotServing.
#[global] Instance code : AsI32 t := λ v,
  match v with
  | Unknown => 0%Z
  | Serving => 1%Z
  | NotServing => 2%Z
  end.
End ServingStatus.

End health_check_reply.
Module HealthCheckReply.
Record t : Type := mk {
  status : Z
}.
End HealthCheckReply.

End worker.
