(* ===== verification/Objects.v ===== *)
(** The objects every service shares ([objects/*.rs]): for each one its type,
    its [Default] instance, and its conversions to and from the message of
    [V3] that carries it. *)

From S2P Require Import Prelude V3.

(** ** Enumerations *)

(** [SessionStatus] of [objects/session_status.rs]. *)
Module SessionStatus.
Inductive t : Type :=
| Unspecified
| Running
| Cancelled
| Paused
| Closed
| Purged
| Deleted.
#[global] Instance eq_dec : EqDecision t.
Proof. solve_decision. Defined.
#[global] Instance default : Default t := Unspecified.
#[global] Instance discriminant : AsI32 t := λ v,
  match v with
  | Unspecified => 0
  | Running => 1
  | Cancelled => 2
  | Paused => 3
  | Closed => 4
  | Purged => 5
  | Deleted => 6
  end%Z.
#[global] Instance from_i32 : From Z t := λ value,
  match value with
  | 0 => Unspecified
  | 1 => Running
  | 2 => Cancelled
  | 3 => Paused
  | 4 => Closed
  | 5 => Purged
  | 6 => Deleted
  | _ => dflt
  end%Z.
#[global] Instance i32_roundtrip : CodeRoundTrip t.
Proof. by_variant. Qed.
#[global] Instance into_v3 : From t V3.session_status.SessionStatus.t := λ value,
  match value with
  | Unspecified => V3.session_status.SessionStatus.Unspecified
  | Running => V3.session_status.SessionStatus.Running
  | Cancelled => V3.session_status.SessionStatus.Cancelled
  | Paused => V3.session_status.SessionStatus.Paused
  | Closed => V3.session_status.SessionStatus.Closed
  | Purged => V3.session_status.SessionStatus.Purged
  | Deleted => V3.session_status.SessionStatus.Deleted
  end.
#[global] Instance from_v3 : From V3.session_status.SessionStatus.t t := λ value,
  match value with
  | V3.session_status.SessionStatus.Unspecified => Unspecified
  | V3.session_status.SessionStatus.Running => Running
  | V3.session_status.SessionStatus.Cancelled => Cancelled
  | V3.session_status.SessionStatus.Paused => Paused
  | V3.session_status.SessionStatus.Closed => Closed
  | V3.session_status.SessionStatus.Purged => Purged
  | V3.session_status.SessionStatus.Deleted => Deleted
  end.
#[global] Instance v3_roundtrip : RoundTrip t V3.session_status.SessionStatus.t.
Proof. by_variant. Qed.
End SessionStatus.

(** [TaskStatus] of [objects/task_status.rs]. *)
Module TaskStatus.
Inductive t : Type :=
| Unspecified
| Creating
| Submitted
| Dispatched
| Completed
| Error
| Timeout
| Cancelling
| Cancelled
| Processing
| Processed
| Retried
| Pending
| Paused.
#[global] Instance eq_dec : EqDecision t.
Proof. solve_decision. Defined.
#[global] Instance default : Default t := Unspecified.
#[global] Instance discriminant : AsI32 t := λ v,
  match v with
  | Unspecified => 0
  | Creating => 1
  | Submitted => 2
  | Dispatched => 3
  | Completed => 4
  | Error => 5
  | Timeout => 6
  | Cancelling => 7
  | Cancelled => 8
  | Processing => 9
  | Processed => 10
  | Retried => 11
  | Pending => 12
  | Paused => 13
  end%Z.
#[global] Instance from_i32 : From Z t := λ value,
  match value with
  | 0 => Unspecified
  | 1 => Creating
  | 2 => Submitted
  | 3 => Dispatched
  | 4 => Completed
  | 5 => Error
  | 6 => Timeout
  | 7 => Cancelling
  | 8 => Cancelled
  | 9 => Processing
  | 10 => Processed
  | 11 => Retried
  | 12 => Pending
  | 13 => Paused
  | _ => dflt
  end%Z.
#[global] Instance i32_roundtrip : CodeRoundTrip t.
Proof. by_variant. Qed.
#[global] Instance into_v3 : From t V3.task_status.TaskStatus.t := λ value,
  match value with
  | Unspecified => V3.task_status.TaskStatus.Unspecified
  | Creating => V3.task_status.TaskStatus.Creating
  | Submitted => V3.task_status.TaskStatus.Submitted
  | Dispatched => V3.task_status.TaskStatus.Dispatched
  | Completed => V3.task_status.TaskStatus.Completed
  | Error => V3.task_status.TaskStatus.Error
  | Timeout => V3.task_status.TaskStatus.Timeout
  | Cancelling => V3.task_status.TaskStatus.Cancelling
  | Cancelled => V3.task_status.TaskStatus.Cancelled
  | Processing => V3.task_status.TaskStatus.Processing
  | Processed => V3.task_status.TaskStatus.Processed
  | Retried => V3.task_status.TaskStatus.Retried
  | Pending => V3.task_status.TaskStatus.Pending
  | Paused => V3.task_status.TaskStatus.Paused
  end.
#[global] Instance from_v3 : From V3.task_status.TaskStatus.t t := λ value,
  match value with
  | V3.task_status.TaskStatus.Unspecified => Unspecified
  | V3.task_status.TaskStatus.Creating => Creating
  | V3.task_status.TaskStatus.Submitted => Submitted
  | V3.task_status.TaskStatus.Dispatched => Dispatched
  | V3.task_status.TaskStatus.Completed => Completed
  | V3.task_status.TaskStatus.Error => Error
  | V3.task_status.TaskStatus.Timeout => Timeout
  | V3.task_status.TaskStatus.Cancelling => Cancelling
  | V3.task_status.TaskStatus.Cancelled => Cancelled
  | V3.task_status.TaskStatus.Processing => Processing
  | V3.task_status.TaskStatus.Processed => Processed
  | V3.task_status.TaskStatus.Retried => Retried
  | V3.task_status.TaskStatus.Pending => Pending
  | V3.task_status.TaskStatus.Paused => Paused
  end.
#[global] Instance v3_roundtrip : RoundTrip t V3.task_status.TaskStatus.t.
Proof. by_variant. Qed.
End TaskStatus.

(** [ResultStatus] of [objects/result_status.rs]. *)
Module ResultStatus.
Inductive t : Type :=
| Unspecified
| Created
| Completed
| Aborted
| Deleted
| NotFound.
#[global] Instance eq_dec : EqDecision t.
Proof. solve_decision. Defined.
#[global] Instance default : Default t := Unspecified.
#[global] Instance discriminant : AsI32 t := λ v,
  match v with
  | Unspecified => 0
  | Created => 1
  | Completed => 2
  | Aborted => 3
  | Deleted => 4
  | NotFound => 127
  end%Z.
#[global] Instance from_i32 : From Z t := λ value,
  match value with
  | 0 => Unspecified
  | 1 => Created
  | 2 => Completed
  | 3 => Aborted
  | 4 => Deleted
  | 127 => NotFound
  | _ => dflt
  end%Z.
#[global] Instance i32_roundtrip : CodeRoundTrip t.
Proof. by_variant. Qed.
#[global] Instance into_v3 : From t V3.result_status.ResultStatus.t := λ value,
  match value with
  | Unspecified => V3.result_status.ResultStatus.Unspecified
  | Created => V3.result_status.ResultStatus.Created
  | Completed => V3.result_status.ResultStatus.Completed
  | Aborted => V3.result_status.ResultStatus.Aborted
  | Deleted => V3.result_status.ResultStatus.Deleted
  | NotFound => V3.result_status.ResultStatus.Notfound
  end.
#[global] Instance from_v3 : From V3.result_status.ResultStatus.t t := λ value,
  match value with
  | V3.result_status.ResultStatus.Unspecified => Unspecified
  | V3.result_status.ResultStatus.Created => Created
  | V3.result_status.ResultStatus.Completed => Completed
  | V3.result_status.ResultStatus.Aborted => Aborted
  | V3.result_status.ResultStatus.Deleted => Deleted
  | V3.result_status.ResultStatus.Notfound => NotFound
  end.
#[global] Instance v3_roundtrip : RoundTrip t V3.result_status.ResultStatus.t.
Proof. by_variant. Qed.
End ResultStatus.

(** [SortDirection] of [objects/sort.rs]. *)
Module SortDirection.
Inductive t : Type :=
| Unspecified
| Asc
| Desc.
#[global] Instance eq_dec : EqDecision t.
Proof. solve_decision. Defined.
#[global] Instance default : Default t := Asc.
#[global] Instance discriminant : AsI32 t := λ v,
  match v with
  | Unspecified => 0
  | Asc => 1
  | Desc => 2
  end%Z.
#[global] Instance from_i32 : From Z t := λ value,
  match value with
  | 0 => Unspecified
  | 1 => Asc
  | 2 => Desc
  | _ => Unspecified
  end%Z.
#[global] Instance i32_roundtrip : CodeRoundTrip t.
Proof. by_variant. Qed.
#[global] Instance into_v3 : From t V3.sort_direction.SortDirection.t := λ value,
  match value with
  | Unspecified => V3.sort_direction.SortDirection.Unspecified
  | Asc => V3.sort_direction.SortDirection.Asc
  | Desc => V3.sort_direction.SortDirection.Desc
  end.
#[global] Instance from_v3 : From V3.sort_direction.SortDirection.t t := λ value,
  match value with
  | V3.sort_direction.SortDirection.Unspecified => Unspecified
  | V3.sort_direction.SortDirection.Asc => Asc
  | V3.sort_direction.SortDirection.Desc => Desc
  end.
#[global] Instance v3_roundtrip : RoundTrip t V3.sort_direction.SortDirection.t.
Proof. by_variant. Qed.
End SortDirection.

(** The keys of [HashMap<TaskStatus, _>]. *)
#[global] Instance TaskStatus_countable : Countable TaskStatus.t.
Proof.
  apply (inj_countable' (as_i32 (A:=TaskStatus.t)) from).
  exact code_roundtrip.
Defined.

(** [Sort<T>] and [SortMany<T>] of [objects/sort.rs]. *)
Module Sort.
Record t (T : Type) : Type := mk {
  field : T;
  direction : SortDirection.t
}.
#[global] Arguments mk {T} field direction.
#[global] Arguments field {T} _.
#[global] Arguments direction {T} _.
#[global] Instance default {T} `{Default T} : Default (t T) := {|
  field := dflt;
  direction := dflt |}.
End Sort.

Module SortMany.
Record t (T : Type) : Type := mk {
  fields : list T;
  direction : SortDirection.t
}.
#[global] Arguments mk {T} fields direction.
#[global] Arguments fields {T} _.
#[global] Arguments direction {T} _.
#[global] Instance default {T} `{Default T} : Default (t T) := {|
  fields := dflt;
  direction := dflt |}.
End SortMany.

(** ** Messages *)

(** [Configuration] of [objects/configuration.rs]. *)
Module Configuration.
Record t : Type := mk {
  data_chunk_max_size : Z
}.
#[global] Instance default : Default t := {|
  data_chunk_max_size := (80 * 1024)%Z |}.
#[global] Instance into_v3 : From t V3.Configuration.t := λ value, {|
  V3.Configuration.data_chunk_max_size := value.(data_chunk_max_size) |}.
#[global] Instance from_v3 : From V3.Configuration.t t := λ value, {|
  data_chunk_max_size := value.(V3.Configuration.data_chunk_max_size) |}.
#[global] Instance v3_roundtrip : RoundTrip t V3.Configuration.t.
Proof. solve_roundtrip. Qed.
End Configuration.

(** [Error] of [objects/error.rs]. *)
Module Error.
Record t : Type := mk {
  task_status : TaskStatus.t;
  details : string
}.
#[global] Instance default : Default t := {|
  task_status := dflt;
  details := dflt |}.
#[global] Instance into_v3 : From t V3.Error.t := λ value, {|
  V3.Error.task_status := as_i32 value.(task_status);
  V3.Error.detail := value.(details) |}.
#[global] Instance from_v3 : From V3.Error.t t := λ value, {|
  task_status := from value.(V3.Error.task_status);
  details := value.(V3.Error.detail) |}.
#[global] Instance v3_roundtrip : RoundTrip t V3.Error.t.
Proof. solve_roundtrip. Qed.
End Error.

(** [TaskError] of [objects/task_error.rs]. *)
Module TaskError.
Record t : Type := mk {
  task_id : string;
  errors : list Error.t
}.
#[global] Instance default : Default t := {|
  task_id := dflt;
  errors := dflt |}.
#[global] Instance into_v3 : From t V3.TaskError.t := λ value, {|
  V3.TaskError.task_id := value.(task_id);
  V3.TaskError.errors := map from value.(errors) |}.
#[global] Instance from_v3 : From V3.TaskError.t t := λ value, {|
  task_id := value.(V3.TaskError.task_id);
  errors := map from value.(V3.TaskError.errors) |}.
#[global] Instance v3_roundtrip : RoundTrip t V3.TaskError.t.
Proof. solve_roundtrip. Qed.
End TaskError.

(** [ResultRequest] of [objects/result_request.rs]. *)
Module ResultRequest.
Record t : Type := mk {
  session_id : string;
  result_id : string
}.
#[global] Instance default : Default t := {|
  session_id := dflt;
  result_id := dflt |}.
#[global] Instance into_v3 : From t V3.ResultRequest.t := λ value, {|
  V3.ResultRequest.session := value.(session_id);
  V3.ResultRequest.result_id := value.(result_id) |}.
#[global] Instance from_v3 : From V3.ResultRequest.t t := λ value, {|
  session_id := value.(V3.ResultRequest.session);
  result_id := value.(V3.ResultRequest.result_id) |}.
#[global] Instance v3_roundtrip : RoundTrip t V3.ResultRequest.t.
Proof. solve_roundtrip. Qed.
End ResultRequest.

(** [Session] of [objects/session.rs]. *)
Module Session.
Record t : Type := mk {
  session_id : string
}.
#[global] Instance default : Default t := {|
  session_id := dflt |}.
#[global] Instance into_v3 : From t V3.Session.t := λ value, {|
  V3.Session.id := value.(session_id) |}.
#[global] Instance from_v3 : From V3.Session.t t := λ value, {|
  session_id := value.(V3.Session.id) |}.
#[global] Instance v3_roundtrip : RoundTrip t V3.Session.t.
Proof. solve_roundtrip. Qed.
End Session.

(** [StatusCount] of [objects/status_count.rs]. *)
Module StatusCount.
Record t : Type := mk {
  status : TaskStatus.t;
  count : Z
}.
#[global] Instance default : Default t := {|
  status := dflt;
  count := dflt |}.
#[global] Instance into_v3 : From t V3.StatusCount.t := λ value, {|
  V3.StatusCount.status := as_i32 value.(status);
  V3.StatusCount.count := value.(count) |}.
#[global] Instance from_v3 : From V3.StatusCount.t t := λ value, {|
  status := from value.(V3.StatusCount.status);
  count := value.(V3.StatusCount.count) |}.
#[global] Instance v3_roundtrip : RoundTrip t V3.StatusCount.t.
Proof. solve_roundtrip. Qed.
End StatusCount.

(** [TaskId] of [objects/task_id.rs]. *)
Module TaskId.
Record t : Type := mk {
  session_id : string;
  task_id : string
}.
#[global] Instance default : Default t := {|
  session_id := dflt;
  task_id := dflt |}.
#[global] Instance into_v3 : From t V3.TaskId.t := λ value, {|
  V3.TaskId.session := value.(session_id);
  V3.TaskId.task := value.(task_id) |}.
#[global] Instance from_v3 : From V3.TaskId.t t := λ value, {|
  session_id := value.(V3.TaskId.session);
  task_id := value.(V3.TaskId.task) |}.
#[global] Instance v3_roundtrip : RoundTrip t V3.TaskId.t.
Proof. solve_roundtrip. Qed.
End TaskId.

(** [TaskIdList] of [objects/task_id_list.rs]. *)
Module TaskIdList.
Record t : Type := mk {
  task_ids : list string
}.
#[global] Instance default : Default t := {|
  task_ids := dflt |}.
#[global] Instance into_v3 : From t V3.TaskIdList.t := λ value, {|
  V3.TaskIdList.task_ids := value.(task_ids) |}.
#[global] Instance from_v3 : From V3.TaskIdList.t t := λ value, {|
  task_ids := value.(V3.TaskIdList.task_ids) |}.
#[global] Instance v3_roundtrip : RoundTrip t V3.TaskIdList.t.
Proof. solve_roundtrip. Qed.
End TaskIdList.

(** [TaskIdWithStatus] of [objects/task_id_with_status.rs]. *)
Module TaskIdWithStatus.
Record t : Type := mk {
  task_id : TaskId.t;
  status : TaskStatus.t
}.
#[global] Instance default : Default t := {|
  task_id := dflt;
  status := dflt |}.
#[global] Instance into_v3 : From t V3.TaskIdWithStatus.t := λ value, {|
  V3.TaskIdWithStatus.task_id := Some (from value.(task_id));
  V3.TaskIdWithStatus.status := as_i32 value.(status) |}.
#[global] Instance from_v3 : From V3.TaskIdWithStatus.t t := λ value, {|
  task_id := from_or_default value.(V3.TaskIdWithStatus.task_id);
  status := from value.(V3.TaskIdWithStatus.status) |}.
#[global] Instance v3_roundtrip : RoundTrip t V3.TaskIdWithStatus.t.
Proof. solve_roundtrip. Qed.
End TaskIdWithStatus.

(** [TaskList] of [objects/task_list.rs]. *)
Module TaskList.
Record t : Type := mk {
  task_ids : list TaskId.t
}.
#[global] Instance default : Default t := {|
  task_ids := dflt |}.
#[global] Instance into_v3 : From t V3.TaskList.t := λ value, {|
  V3.TaskList.task_ids := map from value.(task_ids) |}.
#[global] Instance from_v3 : From V3.TaskList.t t := λ value, {|
  task_ids := map from value.(V3.TaskList.task_ids) |}.
#[global] Instance v3_roundtrip : RoundTrip t V3.TaskList.t.
Proof. solve_roundtrip. Qed.
End TaskList.

(** [TaskOutputRequest] of [objects/task_output_request.rs]. *)
Module TaskOutputRequest.
Record t : Type := mk {
  session_id : string;
  task_id : string
}.
#[global] Instance default : Default t := {|
  session_id := dflt;
  task_id := dflt |}.
#[global] Instance into_v3 : From t V3.TaskOutputRequest.t := λ value, {|
  V3.TaskOutputRequest.session := value.(session_id);
  V3.TaskOutputRequest.task_id := value.(task_id) |}.
#[global] Instance from_v3 : From V3.TaskOutputRequest.t t := λ value, {|
  session_id := value.(V3.TaskOutputRequest.session);
  task_id := value.(V3.TaskOutputRequest.task_id) |}.
#[global] Instance v3_roundtrip : RoundTrip t V3.TaskOutputRequest.t.
Proof. solve_roundtrip. Qed.
End TaskOutputRequest.

(** [TaskRequest] of [objects/task_request.rs]. *)
Module TaskRequest.
Record t : Type := mk {
  expected_output_keys : list string;
  data_dependencies : list string;
  payload : list byte;
  payload_name : string
}.
#[global] Instance default : Default t := {|
  expected_output_keys := dflt;
  data_dependencies := dflt;
  payload := dflt;
  payload_name := dflt |}.
#[global] Instance into_v3 : From t V3.TaskRequest.t := λ value, {|
  V3.TaskRequest.expected_output_keys := value.(expected_output_keys);
  V3.TaskRequest.data_dependencies := value.(data_dependencies);
  V3.TaskRequest.payload := value.(payload);
  V3.TaskRequest.payload_name := value.(payload_name) |}.
#[global] Instance from_v3 : From V3.TaskRequest.t t := λ value, {|
  expected_output_keys := value.(V3.TaskRequest.expected_output_keys);
  data_dependencies := value.(V3.TaskRequest.data_dependencies);
  payload := value.(V3.TaskRequest.payload);
  payload_name := value.(V3.TaskRequest.payload_name) |}.
#[global] Instance v3_roundtrip : RoundTrip t V3.TaskRequest.t.
Proof. solve_roundtrip. Qed.
End TaskRequest.

(** [TaskRequestHeader] of [objects/task_request_header.rs]. *)
Module TaskRequestHeader.
Record t : Type := mk {
  expected_output_keys : list string;
  data_dependencies : list string
}.
#[global] Instance default : Default t := {|
  expected_output_keys := dflt;
  data_dependencies := dflt |}.
#[global] Instance into_v3 : From t V3.TaskRequestHeader.t := λ value, {|
  V3.TaskRequestHeader.expected_output_keys := value.(expected_output_keys);
  V3.TaskRequestHeader.data_dependencies := value.(data_dependencies) |}.
#[global] Instance from_v3 : From V3.TaskRequestHeader.t t := λ value, {|
  expected_output_keys := value.(V3.TaskRequestHeader.expected_output_keys);
  data_dependencies := value.(V3.TaskRequestHeader.data_dependencies) |}.
#[global] Instance v3_roundtrip : RoundTrip t V3.TaskRequestHeader.t.
Proof. solve_roundtrip. Qed.
End TaskRequestHeader.

(** [Count] of [objects/count.rs]: the counts of a reply, by status. *)
Module Count.
Record t : Type := mk {
  values : gmap TaskStatus.t Z
}.
#[global] Instance default : Default t := {| values := ∅ |}.
#[global] Instance into_v3 `{!HashMapIter} : From t V3.Count.t := λ value, {|
  V3.Count.values :=
    map (λ '(status, count), {|
           V3.StatusCount.status := as_i32 status;
           V3.StatusCount.count := count |})
      (hash_iter value.(values)) |}.
#[global] Instance from_v3 : From V3.Count.t t := λ value, {|
  values :=
    collect_map (map (λ sc, (from sc.(V3.StatusCount.status), sc.(V3.StatusCount.count)))
                   value.(V3.Count.values)) |}.
#[global] Instance v3_roundtrip `{!HashMapIter} : RoundTrip t V3.Count.t.
Proof. solve_map_roundtrip. Qed.
End Count.

(** [DataChunk] of [objects/data_chunk.rs]. *)
Module DataChunk.
Inductive t : Type :=
| Data (data : list byte)
| Complete.
#[global] Instance default : Default t := Data [].
#[global] Instance into_v3 : From t V3.DataChunk.t := λ value,
  match value with
  | Data data => {| V3.DataChunk.type_ := Some (V3.data_chunk.Type_.Data data) |}
  | Complete => {| V3.DataChunk.type_ := Some (V3.data_chunk.Type_.DataComplete true) |}
  end.
#[global] Instance from_v3 : From V3.DataChunk.t t := λ value,
  match value.(V3.DataChunk.type_) with
  | Some (V3.data_chunk.Type_.Data data) => Data data
  | Some (V3.data_chunk.Type_.DataComplete _) => Complete
  | None => dflt
  end.
#[global] Instance v3_roundtrip : RoundTrip t V3.DataChunk.t.
Proof. solve_roundtrip. Qed.
End DataChunk.

(** [InitKeyedDataStream] of [objects/init_keyed_data_stream.rs]. *)
Module InitKeyedDataStream.
Inductive t : Type :=
| Key (key : string)
| LastResult.
#[global] Instance default : Default t := Key dflt.
#[global] Instance into_v3 : From t V3.InitKeyedDataStream.t := λ value,
  match value with
  | Key key =>
      {| V3.InitKeyedDataStream.type_ := Some (V3.init_keyed_data_stream.Type_.Key key) |}
  | LastResult =>
      {| V3.InitKeyedDataStream.type_ :=
           Some (V3.init_keyed_data_stream.Type_.LastResult true) |}
  end.
#[global] Instance from_v3 : From V3.InitKeyedDataStream.t t := λ value,
  match value.(V3.InitKeyedDataStream.type_) with
  | Some (V3.init_keyed_data_stream.Type_.Key key) => Key key
  | Some (V3.init_keyed_data_stream.Type_.LastResult _) => LastResult
  | None => dflt
  end.
#[global] Instance v3_roundtrip : RoundTrip t V3.InitKeyedDataStream.t.
Proof. solve_roundtrip. Qed.
End InitKeyedDataStream.

(** [InitTaskRequest] of [objects/init_task_request.rs]. *)
Module InitTaskRequest.
Inductive t : Type :=
| Header (header : TaskRequestHeader.t)
| LastTask.
#[global] Instance default : Default t := Header dflt.
#[global] Instance into_v3 : From t V3.InitTaskRequest.t := λ value,
  match value with
  | Header header =>
      {| V3.InitTaskRequest.type_ := Some (V3.init_task_request.Type_.Header (from header)) |}
  | LastTask =>
      {| V3.InitTaskRequest.type_ := Some (V3.init_task_request.Type_.LastTask true) |}
  end.
#[global] Instance from_v3 : From V3.InitTaskRequest.t t := λ value,
  match value.(V3.InitTaskRequest.type_) with
  | Some (V3.init_task_request.Type_.Header header) => Header (from header)
  | Some (V3.init_task_request.Type_.LastTask _) => LastTask
  | None => dflt
  end.
#[global] Instance v3_roundtrip : RoundTrip t V3.InitTaskRequest.t.
Proof. solve_roundtrip. Qed.
End InitTaskRequest.

(** [Output] of [objects/output.rs]. *)
Module Output.
Inductive t : Type :=
| Ok
| Error (details : string).
#[global] Instance default : Default t := Ok.
#[global] Instance into_v3 : From t V3.Output.t := λ value,
  match value with
  | Ok => {| V3.Output.type_ := Some (V3.output.Type_.Ok V3.Empty.mk) |}
  | Error details =>
      {| V3.Output.type_ :=
           Some (V3.output.Type_.Error {| V3.output.Error.details := details |}) |}
  end.
#[global] Instance from_v3 : From V3.Output.t t := λ value,
  match value.(V3.Output.type_) with
  | Some (V3.output.Type_.Ok _) => Ok
  | Some (V3.output.Type_.Error error) => Error error.(V3.output.Error.details)
  | None => dflt
  end.
#[global] Instance v3_roundtrip : RoundTrip t V3.Output.t.
Proof. solve_roundtrip. Qed.
End Output.

(** ** Task options ([objects/task_options.rs]) *)

Definition INFINITE_DURATION : V3.Duration.t := {|
  V3.Duration.seconds := 315576000000;
  V3.Duration.nanos := 0 |}.

Module TaskOptions.
Record t : Type := mk {
  options : gmap string string;
  max_duration : V3.Duration.t;
  max_retries : Z;
  priority : Z;
  partition_id : string;
  application_name : string;
  application_version : string;
  application_namespace : string;
  application_service : string;
  engine_type : string
}.
(** [<TaskOptions as PartialEq>::eq]. *)
Definition eq (self other : t) : bool :=
  Z.eqb self.(max_duration).(V3.Duration.seconds) other.(max_duration).(V3.Duration.seconds)
  && Z.eqb self.(max_duration).(V3.Duration.nanos) other.(max_duration).(V3.Duration.nanos)
  && Z.eqb self.(max_retries) other.(max_retries)
  && Z.eqb self.(priority) other.(priority)
  && String.eqb self.(partition_id) other.(partition_id)
  && String.eqb self.(application_name) other.(application_name)
  && String.eqb self.(application_version) other.(application_version)
  && String.eqb self.(application_namespace) other.(application_namespace)
  && String.eqb self.(application_service) other.(application_service)
  && String.eqb self.(engine_type) other.(engine_type).
#[global] Instance default : Default t := {|
  options := dflt;
  max_duration := INFINITE_DURATION;
  max_retries := 1;
  priority := 1;
  partition_id := dflt;
  application_name := dflt;
  application_version := dflt;
  application_namespace := dflt;
  application_service := dflt;
  engine_type := dflt |}.
#[global] Instance into_v3 : From t V3.TaskOptions.t := λ value, {|
  V3.TaskOptions.options := value.(options);
  V3.TaskOptions.max_duration := Some value.(max_duration);
  V3.TaskOptions.max_retries := value.(max_retries);
  V3.TaskOptions.priority := value.(priority);
  V3.TaskOptions.partition_id := value.(partition_id);
  V3.TaskOptions.application_name := value.(application_name);
  V3.TaskOptions.application_version := value.(application_version);
  V3.TaskOptions.application_namespace := value.(application_namespace);
  V3.TaskOptions.application_service := value.(application_service);
  V3.TaskOptions.engine_type := value.(engine_type) |}.
#[global] Instance from_v3 : From V3.TaskOptions.t t := λ value, {|
  options := value.(V3.TaskOptions.options);
  max_duration := unwrap_or value.(V3.TaskOptions.max_duration) INFINITE_DURATION;
  max_retries := value.(V3.TaskOptions.max_retries);
  priority := value.(V3.TaskOptions.priority);
  partition_id := value.(V3.TaskOptions.partition_id);
  application_name := value.(V3.TaskOptions.application_name);
  application_version := value.(V3.TaskOptions.application_version);
  application_namespace := value.(V3.TaskOptions.application_namespace);
  application_service := value.(V3.TaskOptions.application_service);
  engine_type := value.(V3.TaskOptions.engine_type) |}.
#[global] Instance v3_roundtrip : RoundTrip t V3.TaskOptions.t.
Proof. solve_roundtrip. Qed.
End TaskOptions.

(** [TaskOptionField] of [objects/task_options.rs]. *)
Module TaskOptionField.
Inductive t : Type :=
| Unspecified
| MaxDuration
| MaxRetries
| Priority
| PartitionId
| ApplicationName
| ApplicationVersion
| ApplicationNamespace
| ApplicationService
| ApplicationEngine.
#[global] Instance eq_dec : EqDecision t.
Proof. solve_decision. Defined.
#[global] Instance default : Default t := Unspecified.
#[global] Instance discriminant : AsI32 t := λ v,
  match v with
  | Unspecified => 0
  | MaxDuration => 1
  | MaxRetries => 2
  | Priority => 3
  | PartitionId => 4
  | ApplicationName => 5
  | ApplicationVersion => 6
  | ApplicationNamespace => 7
  | ApplicationService => 8
  | ApplicationEngine => 9
  end%Z.
#[global] Instance from_i32 : From Z t := λ value,
  match value with
  | 0 => Unspecified
  | 1 => MaxDuration
  | 2 => MaxRetries
  | 3 => Priority
  | 4 => PartitionId
  | 5 => ApplicationName
  | 6 => ApplicationVersion
  | 7 => ApplicationNamespace
  | 8 => ApplicationService
  | 9 => ApplicationEngine
  | _ => Unspecified
  end%Z.
#[global] Instance i32_roundtrip : CodeRoundTrip t.
Proof. by_variant. Qed.
End TaskOptionField.

(** The field travels in two messages of the same shape. *)
Module TaskOptionFieldMessages.
#[global] Instance into_sessions : From TaskOptionField.t V3.sessions.TaskOptionField.t := λ value,
  {| V3.sessions.TaskOptionField.field := as_i32 value |}.
#[global] Instance from_sessions : From V3.sessions.TaskOptionField.t TaskOptionField.t := λ value,
  from value.(V3.sessions.TaskOptionField.field).
#[global] Instance sessions_roundtrip : RoundTrip TaskOptionField.t V3.sessions.TaskOptionField.t.
Proof. by_variant. Qed.
#[global] Instance into_tasks : From TaskOptionField.t V3.tasks.TaskOptionField.t := λ value,
  {| V3.tasks.TaskOptionField.field := as_i32 value |}.
#[global] Instance from_tasks : From V3.tasks.TaskOptionField.t TaskOptionField.t := λ value,
  from value.(V3.tasks.TaskOptionField.field).
#[global] Instance tasks_roundtrip : RoundTrip TaskOptionField.t V3.tasks.TaskOptionField.t.
Proof. by_variant. Qed.
End TaskOptionFieldMessages.
