(* ===== verification/Filters.v ===== *)
(** The filters every service shares ([objects/filters/*.rs]): the operators,
    the conditions that pair an operand with one of them, and
    [FilterStatus<T>], which each service instantiates at its own status. *)

From S2P Require Import Prelude V3.

(** ** Operators *)

(** [FilterArrayOperator] of [objects/filters/array_operator.rs]. *)
Module FilterArrayOperator.
Inductive t : Type :=
| Contains
| NotContains.
#[global] Instance eq_dec : EqDecision t.
Proof. solve_decision. Defined.
#[global] Instance default : Default t := Contains.
#[global] Instance discriminant : AsI32 t := λ v,
  match v with
  | Contains => 0
  | NotContains => 1
  end%Z.
#[global] Instance from_i32 : From Z t := λ value,
  match value with
  | 0 => Contains
  | 1 => NotContains
  | _ => dflt
  end%Z.
#[global] Instance i32_roundtrip : CodeRoundTrip t.
Proof. by_variant. Qed.
#[global] Instance into_v3 : From t V3.FilterArrayOperator.t := λ value,
  match value with
  | Contains => V3.FilterArrayOperator.Contains
  | NotContains => V3.FilterArrayOperator.NotContains
  end.
#[global] Instance from_v3 : From V3.FilterArrayOperator.t t := λ value,
  match value with
  | V3.FilterArrayOperator.Contains => Contains
  | V3.FilterArrayOperator.NotContains => NotContains
  end.
#[global] Instance v3_roundtrip : RoundTrip t V3.FilterArrayOperator.t.
Proof. by_variant. Qed.
End FilterArrayOperator.

(** [FilterBooleanOperator] of [objects/filters/boolean_operator.rs]. *)
Module FilterBooleanOperator.
Inductive t : Type :=
| Is.
#[global] Instance eq_dec : EqDecision t.
Proof. solve_decision. Defined.
#[global] Instance default : Default t := Is.
#[global] Instance discriminant : AsI32 t := λ v,
  match v with
  | Is => 0
  end%Z.
#[global] Instance from_i32 : From Z t := λ value,
  match value with
  | 0 => Is
  | _ => dflt
  end%Z.
#[global] Instance i32_roundtrip : CodeRoundTrip t.
Proof. by_variant. Qed.
#[global] Instance into_v3 : From t V3.FilterBooleanOperator.t := λ value,
  match value with
  | Is => V3.FilterBooleanOperator.Is
  end.
#[global] Instance from_v3 : From V3.FilterBooleanOperator.t t := λ value,
  match value with
  | V3.FilterBooleanOperator.Is => Is
  end.
#[global] Instance v3_roundtrip : RoundTrip t V3.FilterBooleanOperator.t.
Proof. by_variant. Qed.
End FilterBooleanOperator.

(** [FilterDateOperator] of [objects/filters/date_operator.rs]. *)
Module FilterDateOperator.
Inductive t : Type :=
| Equal
| NotEqual
| Before
| BeforeOrEqual
| AfterOrEqual
| After.
#[global] Instance eq_dec : EqDecision t.
Proof. solve_decision. Defined.
#[global] Instance default : Default t := Equal.
#[global] Instance discriminant : AsI32 t := λ v,
  match v with
  | Equal => 0
  | NotEqual => 1
  | Before => 2
  | BeforeOrEqual => 3
  | AfterOrEqual => 4
  | After => 5
  end%Z.
#[global] Instance from_i32 : From Z t := λ value,
  match value with
  | 0 => Equal
  | 1 => NotEqual
  | 2 => Before
  | 3 => BeforeOrEqual
  | 4 => AfterOrEqual
  | 5 => After
  | _ => dflt
  end%Z.
#[global] Instance i32_roundtrip : CodeRoundTrip t.
Proof. by_variant. Qed.
#[global] Instance into_v3 : From t V3.FilterDateOperator.t := λ value,
  match value with
  | Equal => V3.FilterDateOperator.Equal
  | NotEqual => V3.FilterDateOperator.NotEqual
  | Before => V3.FilterDateOperator.Before
  | BeforeOrEqual => V3.FilterDateOperator.BeforeOrEqual
  | AfterOrEqual => V3.FilterDateOperator.AfterOrEqual
  | After => V3.FilterDateOperator.After
  end.
#[global] Instance from_v3 : From V3.FilterDateOperator.t t := λ value,
  match value with
  | V3.FilterDateOperator.Equal => Equal
  | V3.FilterDateOperator.NotEqual => NotEqual
  | V3.FilterDateOperator.Before => Before
  | V3.FilterDateOperator.BeforeOrEqual => BeforeOrEqual
  | V3.FilterDateOperator.AfterOrEqual => AfterOrEqual
  | V3.FilterDateOperator.After => After
  end.
#[global] Instance v3_roundtrip : RoundTrip t V3.FilterDateOperator.t.
Proof. by_variant. Qed.
End FilterDateOperator.

(** [FilterDurationOperator] of [objects/filters/duration_operator.rs]. *)
Module FilterDurationOperator.
Inductive t : Type :=
| Equal
| NotEqual
| ShorterThan
| ShorterThanOrEqual
| LongerThanOrEqual
| LongerThan.
#[global] Instance eq_dec : EqDecision t.
Proof. solve_decision. Defined.
#[global] Instance default : Default t := Equal.
#[global] Instance discriminant : AsI32 t := λ v,
  match v with
  | Equal => 0
  | NotEqual => 1
  | ShorterThan => 2
  | ShorterThanOrEqual => 3
  | LongerThanOrEqual => 4
  | LongerThan => 5
  end%Z.
#[global] Instance from_i32 : From Z t := λ value,
  match value with
  | 0 => Equal
  | 1 => NotEqual
  | 2 => ShorterThan
  | 3 => ShorterThanOrEqual
  | 4 => LongerThanOrEqual
  | 5 => LongerThan
  | _ => dflt
  end%Z.
#[global] Instance i32_roundtrip : CodeRoundTrip t.
Proof. by_variant. Qed.
#[global] Instance into_v3 : From t V3.FilterDurationOperator.t := λ value,
  match value with
  | Equal => V3.FilterDurationOperator.Equal
  | NotEqual => V3.FilterDurationOperator.NotEqual
  | ShorterThan => V3.FilterDurationOperator.ShorterThan
  | ShorterThanOrEqual => V3.FilterDurationOperator.ShorterThanOrEqual
  | LongerThanOrEqual => V3.FilterDurationOperator.LongerThanOrEqual
  | LongerThan => V3.FilterDurationOperator.LongerThan
  end.
#[global] Instance from_v3 : From V3.FilterDurationOperator.t t := λ value,
  match value with
  | V3.FilterDurationOperator.Equal => Equal
  | V3.FilterDurationOperator.NotEqual => NotEqual
  | V3.FilterDurationOperator.ShorterThan => ShorterThan
  | V3.FilterDurationOperator.ShorterThanOrEqual => ShorterThanOrEqual
  | V3.FilterDurationOperator.LongerThanOrEqual => LongerThanOrEqual
  | V3.FilterDurationOperator.LongerThan => LongerThan
  end.
#[global] Instance v3_roundtrip : RoundTrip t V3.FilterDurationOperator.t.
Proof. by_variant. Qed.
End FilterDurationOperator.

(** [FilterNumberOperator] of [objects/filters/number_operator.rs]. *)
Module FilterNumberOperator.
Inductive t : Type :=
| Equal
| NotEqual
| LessThan
| LessThanOrEqual
| GreaterThanOrEqual
| GreaterThan.
#[global] Instance eq_dec : EqDecision t.
Proof. solve_decision. Defined.
#[global] Instance default : Default t := Equal.
#[global] Instance discriminant : AsI32 t := λ v,
  match v with
  | Equal => 0
  | NotEqual => 1
  | LessThan => 2
  | LessThanOrEqual => 3
  | GreaterThanOrEqual => 4
  | GreaterThan => 5
  end%Z.
#[global] Instance from_i32 : From Z t := λ value,
  match value with
  | 0 => Equal
  | 1 => NotEqual
  | 2 => LessThan
  | 3 => LessThanOrEqual
  | 4 => GreaterThanOrEqual
  | 5 => GreaterThan
  | _ => dflt
  end%Z.
#[global] Instance i32_roundtrip : CodeRoundTrip t.
Proof. by_variant. Qed.
#[global] Instance into_v3 : From t V3.FilterNumberOperator.t := λ value,
  match value with
  | Equal => V3.FilterNumberOperator.Equal
  | NotEqual => V3.FilterNumberOperator.NotEqual
  | LessThan => V3.FilterNumberOperator.LessThan
  | LessThanOrEqual => V3.FilterNumberOperator.LessThanOrEqual
  | GreaterThanOrEqual => V3.FilterNumberOperator.GreaterThanOrEqual
  | GreaterThan => V3.FilterNumberOperator.GreaterThan
  end.
#[global] Instance from_v3 : From V3.FilterNumberOperator.t t := λ value,
  match value with
  | V3.FilterNumberOperator.Equal => Equal
  | V3.FilterNumberOperator.NotEqual => NotEqual
  | V3.FilterNumberOperator.LessThan => LessThan
  | V3.FilterNumberOperator.LessThanOrEqual => LessThanOrEqual
  | V3.FilterNumberOperator.GreaterThanOrEqual => GreaterThanOrEqual
  | V3.FilterNumberOperator.GreaterThan => GreaterThan
  end.
#[global] Instance v3_roundtrip : RoundTrip t V3.FilterNumberOperator.t.
Proof. by_variant. Qed.
End FilterNumberOperator.

(** [FilterStatusOperator] of [objects/filters/status_operator.rs]. *)
Module FilterStatusOperator.
Inductive t : Type :=
| Equal
| NotEqual.
#[global] Instance eq_dec : EqDecision t.
Proof. solve_decision. Defined.
#[global] Instance default : Default t := Equal.
#[global] Instance discriminant : AsI32 t := λ v,
  match v with
  | Equal => 0
  | NotEqual => 1
  end%Z.
#[global] Instance from_i32 : From Z t := λ value,
  match value with
  | 0 => Equal
  | 1 => NotEqual
  | _ => dflt
  end%Z.
#[global] Instance i32_roundtrip : CodeRoundTrip t.
Proof. by_variant. Qed.
#[global] Instance into_v3 : From t V3.FilterStatusOperator.t := λ value,
  match value with
  | Equal => V3.FilterStatusOperator.Equal
  | NotEqual => V3.FilterStatusOperator.NotEqual
  end.
#[global] Instance from_v3 : From V3.FilterStatusOperator.t t := λ value,
  match value with
  | V3.FilterStatusOperator.Equal => Equal
  | V3.FilterStatusOperator.NotEqual => NotEqual
  end.
#[global] Instance v3_roundtrip : RoundTrip t V3.FilterStatusOperator.t.
Proof. by_variant. Qed.
End FilterStatusOperator.

(** [FilterStringOperator] of [objects/filters/string_operator.rs]. *)
Module FilterStringOperator.
Inductive t : Type :=
| Equal
| NotEqual
| Contains
| NotContains
| StartsWith
| EndsWith.
#[global] Instance eq_dec : EqDecision t.
Proof. solve_decision. Defined.
#[global] Instance default : Default t := Equal.
#[global] Instance discriminant : AsI32 t := λ v,
  match v with
  | Equal => 0
  | NotEqual => 1
  | Contains => 2
  | NotContains => 3
  | StartsWith => 4
  | EndsWith => 5
  end%Z.
#[global] Instance from_i32 : From Z t := λ value,
  match value with
  | 0 => Equal
  | 1 => NotEqual
  | 2 => Contains
  | 3 => NotContains
  | 4 => StartsWith
  | 5 => EndsWith
  | _ => dflt
  end%Z.
#[global] Instance i32_roundtrip : CodeRoundTrip t.
Proof. by_variant. Qed.
#[global] Instance into_v3 : From t V3.FilterStringOperator.t := λ value,
  match value with
  | Equal => V3.FilterStringOperator.Equal
  | NotEqual => V3.FilterStringOperator.NotEqual
  | Contains => V3.FilterStringOperator.Contains
  | NotContains => V3.FilterStringOperator.NotContains
  | StartsWith => V3.FilterStringOperator.StartsWith
  | EndsWith => V3.FilterStringOperator.EndsWith
  end.
#[global] Instance from_v3 : From V3.FilterStringOperator.t t := λ value,
  match value with
  | V3.FilterStringOperator.Equal => Equal
  | V3.FilterStringOperator.NotEqual => NotEqual
  | V3.FilterStringOperator.Contains => Contains
  | V3.FilterStringOperator.NotContains => NotContains
  | V3.FilterStringOperator.StartsWith => StartsWith
  | V3.FilterStringOperator.EndsWith => EndsWith
  end.
#[global] Instance v3_roundtrip : RoundTrip t V3.FilterStringOperator.t.
Proof. by_variant. Qed.
End FilterStringOperator.

(** ** Conditions

    The operator is first converted to its protocol enumeration, then cast to
    its code; decoding reads the code directly. *)

Module FilterString.
Record t : Type := mk {
  value : string;
  operator : FilterStringOperator.t
}.
#[global] Instance default : Default t := {|
  value := dflt;
  operator := dflt |}.
#[global] Instance into_v3 : From t V3.FilterString.t := λ v, {|
  V3.FilterString.value := v.(value);
  V3.FilterString.operator := as_i32 (from v.(operator) : V3.FilterStringOperator.t) |}.
#[global] Instance from_v3 : From V3.FilterString.t t := λ v, {|
  value := v.(V3.FilterString.value);
  operator := from v.(V3.FilterString.operator) |}.
#[global] Instance v3_roundtrip : RoundTrip t V3.FilterString.t.
Proof. intros [v []]; reflexivity. Qed.
End FilterString.

Module FilterNumber.
Record t : Type := mk {
  value : Z;
  operator : FilterNumberOperator.t
}.
#[global] Instance default : Default t := {|
  value := dflt;
  operator := dflt |}.
#[global] Instance into_v3 : From t V3.FilterNumber.t := λ v, {|
  V3.FilterNumber.value := v.(value);
  V3.FilterNumber.operator := as_i32 (from v.(operator) : V3.FilterNumberOperator.t) |}.
#[global] Instance from_v3 : From V3.FilterNumber.t t := λ v, {|
  value := v.(V3.FilterNumber.value);
  operator := from v.(V3.FilterNumber.operator) |}.
#[global] Instance v3_roundtrip : RoundTrip t V3.FilterNumber.t.
Proof. intros [v []]; reflexivity. Qed.
End FilterNumber.

Module FilterArray.
Record t : Type := mk {
  value : string;
  operator : FilterArrayOperator.t
}.
#[global] Instance default : Default t := {|
  value := dflt;
  operator := dflt |}.
#[global] Instance into_v3 : From t V3.FilterArray.t := λ v, {|
  V3.FilterArray.value := v.(value);
  V3.FilterArray.operator := as_i32 (from v.(operator) : V3.FilterArrayOperator.t) |}.
#[global] Instance from_v3 : From V3.FilterArray.t t := λ v, {|
  value := v.(V3.FilterArray.value);
  operator := from v.(V3.FilterArray.operator) |}.
#[global] Instance v3_roundtrip : RoundTrip t V3.FilterArray.t.
Proof. intros [v []]; reflexivity. Qed.
End FilterArray.

Module FilterBoolean.
Record t : Type := mk {
  value : bool;
  operator : FilterBooleanOperator.t
}.
#[global] Instance default : Default t := {|
  value := dflt;
  operator := dflt |}.
#[global] Instance into_v3 : From t V3.FilterBoolean.t := λ v, {|
  V3.FilterBoolean.value := v.(value);
  V3.FilterBoolean.operator := as_i32 (from v.(operator) : V3.FilterBooleanOperator.t) |}.
#[global] Instance from_v3 : From V3.FilterBoolean.t t := λ v, {|
  value := v.(V3.FilterBoolean.value);
  operator := from v.(V3.FilterBoolean.operator) |}.
#[global] Instance v3_roundtrip : RoundTrip t V3.FilterBoolean.t.
Proof. intros [v []]; reflexivity. Qed.
End FilterBoolean.

Module FilterDate.
Record t : Type := mk {
  value : V3.Timestamp.t;
  operator : FilterDateOperator.t
}.
#[global] Instance default : Default t := {|
  value := dflt;
  operator := dflt |}.
#[global] Instance into_v3 : From t V3.FilterDate.t := λ v, {|
  V3.FilterDate.value := Some v.(value);
  V3.FilterDate.operator := as_i32 (from v.(operator) : V3.FilterDateOperator.t) |}.
#[global] Instance from_v3 : From V3.FilterDate.t t := λ v, {|
  value := unwrap_or_default v.(V3.FilterDate.value);
  operator := from v.(V3.FilterDate.operator) |}.
#[global] Instance v3_roundtrip : RoundTrip t V3.FilterDate.t.
Proof. intros [v []]; reflexivity. Qed.
End FilterDate.

Module FilterDuration.
Record t : Type := mk {
  value : V3.Duration.t;
  operator : FilterDurationOperator.t
}.
#[global] Instance default : Default t := {|
  value := dflt;
  operator := dflt |}.
#[global] Instance into_v3 : From t V3.FilterDuration.t := λ v, {|
  V3.FilterDuration.value := Some v.(value);
  V3.FilterDuration.operator := as_i32 (from v.(operator) : V3.FilterDurationOperator.t) |}.
#[global] Instance from_v3 : From V3.FilterDuration.t t := λ v, {|
  value := unwrap_or_default v.(V3.FilterDuration.value);
  operator := from v.(V3.FilterDuration.operator) |}.
#[global] Instance v3_roundtrip : RoundTrip t V3.FilterDuration.t.
Proof. intros [v []]; reflexivity. Qed.
End FilterDuration.

(** [FilterStatus<T>]. *)
Module FilterStatus.
Record t (T : Type) : Type := mk {
  value : T;
  operator : FilterStatusOperator.t
}.
#[global] Arguments mk {T} value operator.
#[global] Arguments value {T} _.
#[global] Arguments operator {T} _.
#[global] Instance default {T} `{Default T} : Default (t T) := {|
  value := dflt;
  operator := dflt |}.
End FilterStatus.
