(* ===== verification/Sessions.v ===== *)
(** The objects of the Sessions service ([objects/sessions/*.rs]). *)

From S2P Require Import Prelude V3 Objects Filters.

(** [RawField] of [objects/sessions/field.rs]. *)
Module RawField.
Inductive t : Type :=
| Unspecified
| SessionId
| Status
| ClientSubmission
| WorkerSubmission
| PartitionIds
| Options
| CreatedAt
| CancelledAt
| ClosedAt
| PurgedAt
| DeletedAt
| Duration.
#[global] Instance eq_dec : EqDecision t.
Proof. solve_decision. Defined.
#[global] Instance default : Default t := SessionId.
#[global] Instance discriminant : AsI32 t := λ v,
  match v with
  | Unspecified => 0
  | SessionId => 1
  | Status => 2
  | ClientSubmission => 8
  | WorkerSubmission => 9
  | PartitionIds => 3
  | Options => 4
  | CreatedAt => 5
  | CancelledAt => 6
  | ClosedAt => 12
  | PurgedAt => 10
  | DeletedAt => 11
  | Duration => 7
  end%Z.
#[global] Instance from_i32 : From Z t := λ value,
  match value with
  | 0 => Unspecified
  | 1 => SessionId
  | 2 => Status
  | 8 => ClientSubmission
  | 9 => WorkerSubmission
  | 3 => PartitionIds
  | 4 => Options
  | 5 => CreatedAt
  | 6 => CancelledAt
  | 12 => ClosedAt
  | 10 => PurgedAt
  | 11 => DeletedAt
  | 7 => Duration
  | _ => Unspecified
  end%Z.
#[global] Instance i32_roundtrip : CodeRoundTrip t.
Proof. by_variant. Qed.
End RawField.

#[global] Instance RawField_into_v3 : From RawField.t V3.sessions.SessionRawField.t := λ value,
  {| V3.sessions.SessionRawField.field := as_i32 value |}.
#[global] Instance RawField_from_v3 : From V3.sessions.SessionRawField.t RawField.t := λ value,
  from value.(V3.sessions.SessionRawField.field).
#[global] Instance RawField_v3_roundtrip : RoundTrip RawField.t V3.sessions.SessionRawField.t.
Proof. by_variant. Qed.

(** [Field] of [objects/sessions/field.rs]. *)
Module Field.
Inductive t : Type :=
| Raw (field : RawField.t)
| TaskOption (field : TaskOptionField.t)
| TaskOptionGeneric (field : string).
#[global] Instance default : Default t := Raw dflt.
#[global] Instance into_v3 : From t V3.sessions.SessionField.t := λ value, {|
  V3.sessions.SessionField.field := Some
    match value with
    | Raw field => V3.sessions.session_field.Field.SessionRawField (from field)
    | TaskOption field => V3.sessions.session_field.Field.TaskOptionField (from field)
    | TaskOptionGeneric field =>
        V3.sessions.session_field.Field.TaskOptionGenericField {| V3.sessions.TaskOptionGenericField.field := field |}
    end |}.
#[global] Instance from_v3 : From V3.sessions.SessionField.t t := λ value,
  match value.(V3.sessions.SessionField.field) with
  | Some (V3.sessions.session_field.Field.SessionRawField field) => Raw (from field)
  | Some (V3.sessions.session_field.Field.TaskOptionField field) => TaskOption (from field)
  | Some (V3.sessions.session_field.Field.TaskOptionGenericField field) => TaskOptionGeneric field.(V3.sessions.TaskOptionGenericField.field)
  | None => dflt
  end.
#[global] Instance v3_roundtrip : RoundTrip t V3.sessions.SessionField.t.
Proof. solve_roundtrip. Qed.
End Field.

(** [Raw] of [objects/sessions/raw.rs]. *)
Module Raw.
Record t : Type := mk {
  session_id : string;
  status : SessionStatus.t;
  client_submission : bool;
  worker_submission : bool;
  partition_ids : list string;
  default_task_options : TaskOptions.t;
  created_at : option V3.Timestamp.t;
  cancelled_at : option V3.Timestamp.t;
  closed_at : option V3.Timestamp.t;
  purged_at : option V3.Timestamp.t;
  deleted_at : option V3.Timestamp.t;
  duration : option V3.Duration.t
}.
#[global] Instance default : Default t := {|
  session_id := dflt;
  status := dflt;
  client_submission := dflt;
  worker_submission := dflt;
  partition_ids := dflt;
  default_task_options := dflt;
  created_at := dflt;
  cancelled_at := dflt;
  closed_at := dflt;
  purged_at := dflt;
  deleted_at := dflt;
  duration := dflt |}.
#[global] Instance into_v3 : From t V3.sessions.SessionRaw.t := λ value, {|
  V3.sessions.SessionRaw.session_id := value.(session_id);
  V3.sessions.SessionRaw.status := as_i32 value.(status);
  V3.sessions.SessionRaw.client_submission := value.(client_submission);
  V3.sessions.SessionRaw.worker_submission := value.(worker_submission);
  V3.sessions.SessionRaw.partition_ids := value.(partition_ids);
  V3.sessions.SessionRaw.options := Some (from value.(default_task_options));
  V3.sessions.SessionRaw.created_at := value.(created_at);
  V3.sessions.SessionRaw.cancelled_at := value.(cancelled_at);
  V3.sessions.SessionRaw.closed_at := value.(closed_at);
  V3.sessions.SessionRaw.purged_at := value.(purged_at);
  V3.sessions.SessionRaw.deleted_at := value.(deleted_at);
  V3.sessions.SessionRaw.duration := value.(duration) |}.
#[global] Instance from_v3 : From V3.sessions.SessionRaw.t t := λ value, {|
  session_id := value.(V3.sessions.SessionRaw.session_id);
  status := from value.(V3.sessions.SessionRaw.status);
  client_submission := value.(V3.sessions.SessionRaw.client_submission);
  worker_submission := value.(V3.sessions.SessionRaw.worker_submission);
  partition_ids := value.(V3.sessions.SessionRaw.partition_ids);
  default_task_options := from_or_default value.(V3.sessions.SessionRaw.options);
  created_at := value.(V3.sessions.SessionRaw.created_at);
  cancelled_at := value.(V3.sessions.SessionRaw.cancelled_at);
  closed_at := value.(V3.sessions.SessionRaw.closed_at);
  purged_at := value.(V3.sessions.SessionRaw.purged_at);
  deleted_at := value.(V3.sessions.SessionRaw.deleted_at);
  duration := value.(V3.sessions.SessionRaw.duration) |}.
#[global] Instance v3_roundtrip : RoundTrip t V3.sessions.SessionRaw.t.
Proof. solve_roundtrip. Qed.
End Raw.

(** [pub type Sort = super::Sort<Field>] of [objects/sessions/mod.rs]. *)
Module Sort.
Definition t : Type := Objects.Sort.t Field.t.
#[global] Instance into_v3 : From t V3.sessions.list_sessions_request.Sort.t := λ value, {|
  V3.sessions.list_sessions_request.Sort.field := Some (from value.(Objects.Sort.field));
  V3.sessions.list_sessions_request.Sort.direction := as_i32 value.(Objects.Sort.direction) |}.
#[global] Instance from_v3 : From V3.sessions.list_sessions_request.Sort.t t := λ value, {|
  Objects.Sort.field := from_or_default value.(V3.sessions.list_sessions_request.Sort.field);
  Objects.Sort.direction := from value.(V3.sessions.list_sessions_request.Sort.direction) |}.
#[global] Instance v3_roundtrip : RoundTrip t V3.sessions.list_sessions_request.Sort.t.
Proof. solve_roundtrip. Qed.
End Sort.

(** [objects/sessions/filter.rs]. *)
Module filter.
Module Status.
Definition t : Type := FilterStatus.t SessionStatus.t.
#[global] Instance into_v3 : From t V3.sessions.FilterStatus.t := λ v, {|
  V3.sessions.FilterStatus.value := as_i32 v.(FilterStatus.value);
  V3.sessions.FilterStatus.operator := as_i32 v.(FilterStatus.operator) |}.
#[global] Instance from_v3 : From V3.sessions.FilterStatus.t t := λ v, {|
  FilterStatus.value := from v.(V3.sessions.FilterStatus.value);
  FilterStatus.operator := from v.(V3.sessions.FilterStatus.operator) |}.
#[global] Instance v3_roundtrip : RoundTrip t V3.sessions.FilterStatus.t.
Proof. solve_roundtrip. Qed.
End Status.

Module Condition.
Inductive t : Type :=
| String (cond : FilterString.t)
| Number (cond : FilterNumber.t)
| Boolean (cond : FilterBoolean.t)
| Status (cond : Status.t)
| Date (cond : FilterDate.t)
| Duration (cond : FilterDuration.t)
| Array (cond : FilterArray.t).
#[global] Instance default : Default t := String dflt.
#[global] Instance into_v3 : From t V3.sessions.filter_field.ValueCondition.t := λ value,
  match value with
  | String cond => V3.sessions.filter_field.ValueCondition.FilterString (from cond)
  | Number cond => V3.sessions.filter_field.ValueCondition.FilterNumber (from cond)
  | Boolean cond => V3.sessions.filter_field.ValueCondition.FilterBoolean (from cond)
  | Status cond => V3.sessions.filter_field.ValueCondition.FilterStatus (from cond)
  | Date cond => V3.sessions.filter_field.ValueCondition.FilterDate (from cond)
  | Duration cond => V3.sessions.filter_field.ValueCondition.FilterDuration (from cond)
  | Array cond => V3.sessions.filter_field.ValueCondition.FilterArray (from cond)
  end.
#[global] Instance from_v3 : From V3.sessions.filter_field.ValueCondition.t t := λ value,
  match value with
  | V3.sessions.filter_field.ValueCondition.FilterString cond => String (from cond)
  | V3.sessions.filter_field.ValueCondition.FilterNumber cond => Number (from cond)
  | V3.sessions.filter_field.ValueCondition.FilterBoolean cond => Boolean (from cond)
  | V3.sessions.filter_field.ValueCondition.FilterStatus cond => Status (from cond)
  | V3.sessions.filter_field.ValueCondition.FilterDate cond => Date (from cond)
  | V3.sessions.filter_field.ValueCondition.FilterDuration cond => Duration (from cond)
  | V3.sessions.filter_field.ValueCondition.FilterArray cond => Array (from cond)
  end.
#[global] Instance v3_roundtrip : RoundTrip t V3.sessions.filter_field.ValueCondition.t.
Proof. solve_roundtrip. Qed.
End Condition.

Module Field.
Record t : Type := mk {
  field : Field.t;
  condition : Condition.t
}.
#[global] Instance default : Default t := {|
  field := dflt;
  condition := dflt |}.
#[global] Instance into_v3 : From t V3.sessions.FilterField.t := λ value, {|
  V3.sessions.FilterField.field := Some (from value.(field));
  V3.sessions.FilterField.value_condition := Some (from value.(condition)) |}.
#[global] Instance from_v3 : From V3.sessions.FilterField.t t := λ value, {|
  field := from_or_default value.(V3.sessions.FilterField.field);
  condition := from_or_default value.(V3.sessions.FilterField.value_condition) |}.
#[global] Instance v3_roundtrip : RoundTrip t V3.sessions.FilterField.t.
Proof. solve_roundtrip. Qed.
End Field.

Module And.
Record t : Type := mk {
  and : list Field.t
}.
#[global] Instance default : Default t := {|
  and := dflt |}.
#[global] Instance into_v3 : From t V3.sessions.FiltersAnd.t := λ value, {|
  V3.sessions.FiltersAnd.and := map from value.(and) |}.
#[global] Instance from_v3 : From V3.sessions.FiltersAnd.t t := λ value, {|
  and := map from value.(V3.sessions.FiltersAnd.and) |}.
#[global] Instance v3_roundtrip : RoundTrip t V3.sessions.FiltersAnd.t.
Proof. solve_roundtrip. Qed.
(** [impl_vec_wrapper!(And{and: Field})]. *)
Definition from_iter (iter : list Field.t) : t := {| and := iter |}.
Definition into_iter (self : t) : list Field.t := self.(and).
End And.

Module Or.
Record t : Type := mk {
  or : list And.t
}.
#[global] Instance default : Default t := {|
  or := dflt |}.
#[global] Instance into_v3 : From t V3.sessions.Filters.t := λ value, {|
  V3.sessions.Filters.or := map from value.(or) |}.
#[global] Instance from_v3 : From V3.sessions.Filters.t t := λ value, {|
  or := map from value.(V3.sessions.Filters.or) |}.
#[global] Instance v3_roundtrip : RoundTrip t V3.sessions.Filters.t.
Proof. solve_roundtrip. Qed.
(** [impl_vec_wrapper!(Or{or: And})]. *)
Definition from_iter (iter : list And.t) : t := {| or := iter |}.
Definition into_iter (self : t) : list And.t := self.(or).
End Or.

End filter.

Module list.
(** [Request] of [objects/sessions/list.rs]. *)
Module Request.
Record t : Type := mk {
  page : Z;
  page_size : Z;
  filters : filter.Or.t;
  sort : Sort.t;
  with_task_options : bool
}.
#[global] Instance default : Default t := {|
  page := 0%Z;
  page_size := 100%Z;
  filters := dflt;
  sort := dflt;
  with_task_options := false |}.
#[global] Instance into_v3 : From t V3.sessions.ListSessionsRequest.t := λ value, {|
  V3.sessions.ListSessionsRequest.page := value.(page);
  V3.sessions.ListSessionsRequest.page_size := value.(page_size);
  V3.sessions.ListSessionsRequest.filters := Some (from value.(filters));
  V3.sessions.ListSessionsRequest.sort := Some (from value.(sort));
  V3.sessions.ListSessionsRequest.with_task_options := value.(with_task_options) |}.
#[global] Instance from_v3 : From V3.sessions.ListSessionsRequest.t t := λ value, {|
  page := value.(V3.sessions.ListSessionsRequest.page);
  page_size := value.(V3.sessions.ListSessionsRequest.page_size);
  filters := from_or_default value.(V3.sessions.ListSessionsRequest.filters);
  sort := from_or_default value.(V3.sessions.ListSessionsRequest.sort);
  with_task_options := value.(V3.sessions.ListSessionsRequest.with_task_options) |}.
#[global] Instance v3_roundtrip : RoundTrip t V3.sessions.ListSessionsRequest.t.
Proof. solve_roundtrip. Qed.
End Request.

(** [Response] of [objects/sessions/list.rs]. *)
Module Response.
Record t : Type := mk {
  sessions : list Raw.t;
  page : Z;
  page_size : Z;
  total : Z
}.
#[global] Instance default : Default t := {|
  sessions := [];
  page := 0%Z;
  page_size := 100%Z;
  total := 0%Z |}.
#[global] Instance into_v3 : From t V3.sessions.ListSessionsResponse.t := λ value, {|
  V3.sessions.ListSessionsResponse.sessions := map from value.(sessions);
  V3.sessions.ListSessionsResponse.page := value.(page);
  V3.sessions.ListSessionsResponse.page_size := value.(page_size);
  V3.sessions.ListSessionsResponse.total := value.(total) |}.
#[global] Instance from_v3 : From V3.sessions.ListSessionsResponse.t t := λ value, {|
  sessions := map from value.(V3.sessions.ListSessionsResponse.sessions);
  page := value.(V3.sessions.ListSessionsResponse.page);
  page_size := value.(V3.sessions.ListSessionsResponse.page_size);
  total := value.(V3.sessions.ListSessionsResponse.total) |}.
#[global] Instance v3_roundtrip : RoundTrip t V3.sessions.ListSessionsResponse.t.
Proof. solve_roundtrip. Qed.
End Response.

End list.

Module get.
(** [Request] of [objects/sessions/get.rs]. *)
Module Request.
Record t : Type := mk {
  session_id : string
}.
#[global] Instance default : Default t := {|
  session_id := dflt |}.
#[global] Instance into_v3 : From t V3.sessions.GetSessionRequest.t := λ value, {|
  V3.sessions.GetSessionRequest.session_id := value.(session_id) |}.
#[global] Instance from_v3 : From V3.sessions.GetSessionRequest.t t := λ value, {|
  session_id := value.(V3.sessions.GetSessionRequest.session_id) |}.
#[global] Instance v3_roundtrip : RoundTrip t V3.sessions.GetSessionRequest.t.
Proof. solve_roundtrip. Qed.
End Request.

(** [Response] of [objects/sessions/get.rs]. *)
Module Response.
Record t : Type := mk {
  session : Raw.t
}.
#[global] Instance default : Default t := {|
  session := dflt |}.
#[global] Instance into_v3 : From t V3.sessions.GetSessionResponse.t := λ value, {|
  V3.sessions.GetSessionResponse.session := Some (from value.(session)) |}.
#[global] Instance from_v3 : From V3.sessions.GetSessionResponse.t t := λ value, {|
  session := from_or_default value.(V3.sessions.GetSessionResponse.session) |}.
#[global] Instance v3_roundtrip : RoundTrip t V3.sessions.GetSessionResponse.t.
Proof. solve_roundtrip. Qed.
End Response.

End get.

Module create.
(** [Request] of [objects/sessions/create.rs]. *)
Module Request.
Record t : Type := mk {
  default_task_options : TaskOptions.t;
  partition_ids : list string
}.
#[global] Instance default : Default t := {|
  default_task_options := dflt;
  partition_ids := dflt |}.
#[global] Instance into_v3 : From t V3.sessions.CreateSessionRequest.t := λ value, {|
  V3.sessions.CreateSessionRequest.default_task_option := Some (from value.(default_task_options));
  V3.sessions.CreateSessionRequest.partition_ids := value.(partition_ids) |}.
#[global] Instance from_v3 : From V3.sessions.CreateSessionRequest.t t := λ value, {|
  default_task_options := from_or_default value.(V3.sessions.CreateSessionRequest.default_task_option);
  partition_ids := value.(V3.sessions.CreateSessionRequest.partition_ids) |}.
#[global] Instance v3_roundtrip : RoundTrip t V3.sessions.CreateSessionRequest.t.
Proof. solve_roundtrip. Qed.
End Request.

(** [Response] of [objects/sessions/create.rs]. *)
Module Response.
Record t : Type := mk {
  session_id : string
}.
#[global] Instance default : Default t := {|
  session_id := dflt |}.
#[global] Instance into_v3 : From t V3.sessions.CreateSessionReply.t := λ value, {|
  V3.sessions.CreateSessionReply.session_id := value.(session_id) |}.
#[global] Instance from_v3 : From V3.sessions.CreateSessionReply.t t := λ value, {|
  session_id := value.(V3.sessions.CreateSessionReply.session_id) |}.
#[global] Instance v3_roundtrip : RoundTrip t V3.sessions.CreateSessionReply.t.
Proof. solve_roundtrip. Qed.
End Response.

End create.

Module cancel.
(** [Request] of [objects/sessions/cancel.rs]. *)
Module Request.
Record t : Type := mk {
  session_id : string
}.
#[global] Instance default : Default t := {|
  session_id := dflt |}.
#[global] Instance into_v3 : From t V3.sessions.CancelSessionRequest.t := λ value, {|
  V3.sessions.CancelSessionRequest.session_id := value.(session_id) |}.
#[global] Instance from_v3 : From V3.sessions.CancelSessionRequest.t t := λ value, {|
  session_id := value.(V3.sessions.CancelSessionRequest.session_id) |}.
#[global] Instance v3_roundtrip : RoundTrip t V3.sessions.CancelSessionRequest.t.
Proof. solve_roundtrip. Qed.
End Request.

(** [Response] of [objects/sessions/cancel.rs]. *)
Module Response.
Record t : Type := mk {
  session : Raw.t
}.
#[global] Instance default : Default t := {|
  session := dflt |}.
#[global] Instance into_v3 : From t V3.sessions.CancelSessionResponse.t := λ value, {|
  V3.sessions.CancelSessionResponse.session := Some (from value.(session)) |}.
#[global] Instance from_v3 : From V3.sessions.CancelSessionResponse.t t := λ value, {|
  session := from_or_default value.(V3.sessions.CancelSessionResponse.session) |}.
#[global] Instance v3_roundtrip : RoundTrip t V3.sessions.CancelSessionResponse.t.
Proof. solve_roundtrip. Qed.
End Response.

End cancel.

Module pause.
(** [Request] of [objects/sessions/pause.rs]. *)
Module Request.
Record t : Type := mk {
  session_id : string
}.
#[global] Instance default : Default t := {|
  session_id := dflt |}.
#[global] Instance into_v3 : From t V3.sessions.PauseSessionRequest.t := λ value, {|
  V3.sessions.PauseSessionRequest.session_id := value.(session_id) |}.
#[global] Instance from_v3 : From V3.sessions.PauseSessionRequest.t t := λ value, {|
  session_id := value.(V3.sessions.PauseSessionRequest.session_id) |}.
#[global] Instance v3_roundtrip : RoundTrip t V3.sessions.PauseSessionRequest.t.
Proof. solve_roundtrip. Qed.
End Request.

(** [Response] of [objects/sessions/pause.rs]. *)
Module Response.
Record t : Type := mk {
  session : Raw.t
}.
#[global] Instance default : Default t := {|
  session := dflt |}.
#[global] Instance into_v3 : From t V3.sessions.PauseSessionResponse.t := λ value, {|
  V3.sessions.PauseSessionResponse.session := Some (from value.(session)) |}.
#[global] Instance from_v3 : From V3.sessions.PauseSessionResponse.t t := λ value, {|
  session := from_or_default value.(V3.sessions.PauseSessionResponse.session) |}.
#[global] Instance v3_roundtrip : RoundTrip t V3.sessions.PauseSessionResponse.t.
Proof. solve_roundtrip. Qed.
End Response.

End pause.

Module resume.
(** [Request] of [objects/sessions/resume.rs]. *)
Module Request.
Record t : Type := mk {
  session_id : string
}.
#[global] Instance default : Default t := {|
  session_id := dflt |}.
#[global] Instance into_v3 : From t V3.sessions.ResumeSessionRequest.t := λ value, {|
  V3.sessions.ResumeSessionRequest.session_id := value.(session_id) |}.
#[global] Instance from_v3 : From V3.sessions.ResumeSessionRequest.t t := λ value, {|
  session_id := value.(V3.sessions.ResumeSessionRequest.session_id) |}.
#[global] Instance v3_roundtrip : RoundTrip t V3.sessions.ResumeSessionRequest.t.
Proof. solve_roundtrip. Qed.
End Request.

(** [Response] of [objects/sessions/resume.rs]. *)
Module Response.
Record t : Type := mk {
  session : Raw.t
}.
#[global] Instance default : Default t := {|
  session := dflt |}.
#[global] Instance into_v3 : From t V3.sessions.ResumeSessionResponse.t := λ value, {|
  V3.sessions.ResumeSessionResponse.session := Some (from value.(session)) |}.
#[global] Instance from_v3 : From V3.sessions.ResumeSessionResponse.t t := λ value, {|
  session := from_or_default value.(V3.sessions.ResumeSessionResponse.session) |}.
#[global] Instance v3_roundtrip : RoundTrip t V3.sessions.ResumeSessionResponse.t.
Proof. solve_roundtrip. Qed.
End Response.

End resume.

Module close.
(** [Request] of [objects/sessions/close.rs]. *)
Module Request.
Record t : Type := mk {
  session_id : string
}.
#[global] Instance default : Default t := {|
  session_id := dflt |}.
#[global] Instance into_v3 : From t V3.sessions.CloseSessionRequest.t := λ value, {|
  V3.sessions.CloseSessionRequest.session_id := value.(session_id) |}.
#[global] Instance from_v3 : From V3.sessions.CloseSessionRequest.t t := λ value, {|
  session_id := value.(V3.sessions.CloseSessionRequest.session_id) |}.
#[global] Instance v3_roundtrip : RoundTrip t V3.sessions.CloseSessionRequest.t.
Proof. solve_roundtrip. Qed.
End Request.

(** [Response] of [objects/sessions/close.rs]. *)
Module Response.
Record t : Type := mk {
  session : Raw.t
}.
#[global] Instance default : Default t := {|
  session := dflt |}.
#[global] Instance into_v3 : From t V3.sessions.CloseSessionResponse.t := λ value, {|
  V3.sessions.CloseSessionResponse.session := Some (from value.(session)) |}.
#[global] Instance from_v3 : From V3.sessions.CloseSessionResponse.t t := λ value, {|
  session := from_or_default value.(V3.sessions.CloseSessionResponse.session) |}.
#[global] Instance v3_roundtrip : RoundTrip t V3.sessions.CloseSessionResponse.t.
Proof. solve_roundtrip. Qed.
End Response.

End close.

Module purge.
(** [Request] of [objects/sessions/purge.rs]. *)
Module Request.
Record t : Type := mk {
  session_id : string
}.
#[global] Instance default : Default t := {|
  session_id := dflt |}.
#[global] Instance into_v3 : From t V3.sessions.PurgeSessionRequest.t := λ value, {|
  V3.sessions.PurgeSessionRequest.session_id := value.(session_id) |}.
#[global] Instance from_v3 : From V3.sessions.PurgeSessionRequest.t t := λ value, {|
  session_id := value.(V3.sessions.PurgeSessionRequest.session_id) |}.
#[global] Instance v3_roundtrip : RoundTrip t V3.sessions.PurgeSessionRequest.t.
Proof. solve_roundtrip. Qed.
End Request.

(** [Response] of [objects/sessions/purge.rs]. *)
Module Response.
Record t : Type := mk {
  session : Raw.t
}.
#[global] Instance default : Default t := {|
  session := dflt |}.
#[global] Instance into_v3 : From t V3.sessions.PurgeSessionResponse.t := λ value, {|
  V3.sessions.PurgeSessionResponse.session := Some (from value.(session)) |}.
#[global] Instance from_v3 : From V3.sessions.PurgeSessionResponse.t t := λ value, {|
  session := from_or_default value.(V3.sessions.PurgeSessionResponse.session) |}.
#[global] Instance v3_roundtrip : RoundTrip t V3.sessions.PurgeSessionResponse.t.
Proof. solve_roundtrip. Qed.
End Response.

End purge.

Module delete.
(** [Request] of [objects/sessions/delete.rs]. *)
Module Request.
Record t : Type := mk {
  session_id : string
}.
#[global] Instance default : Default t := {|
  session_id := dflt |}.
#[global] Instance into_v3 : From t V3.sessions.DeleteSessionRequest.t := λ value, {|
  V3.sessions.DeleteSessionRequest.session_id := value.(session_id) |}.
#[global] Instance from_v3 : From V3.sessions.DeleteSessionRequest.t t := λ value, {|
  session_id := value.(V3.sessions.DeleteSessionRequest.session_id) |}.
#[global] Instance v3_roundtrip : RoundTrip t V3.sessions.DeleteSessionRequest.t.
Proof. solve_roundtrip. Qed.
End Request.

(** [Response] of [objects/sessions/delete.rs]. *)
Module Response.
Record t : Type := mk {
  session : Raw.t
}.
#[global] Instance default : Default t := {|
  session := dflt |}.
#[global] Instance into_v3 : From t V3.sessions.DeleteSessionResponse.t := λ value, {|
  V3.sessions.DeleteSessionResponse.session := Some (from value.(session)) |}.
#[global] Instance from_v3 : From V3.sessions.DeleteSessionResponse.t t := λ value, {|
  session := from_or_default value.(V3.sessions.DeleteSessionResponse.session) |}.
#[global] Instance v3_roundtrip : RoundTrip t V3.sessions.DeleteSessionResponse.t.
Proof. solve_roundtrip. Qed.
End Response.

End delete.

Module stop_submission.
(** [Request] of [objects/sessions/stop_submission.rs]. *)
Module Request.
Record t : Type := mk {
  session_id : string;
  client : bool;
  worker : bool
}.
#[global] Instance default : Default t := {|
  session_id := dflt;
  client := dflt;
  worker := dflt |}.
#[global] Instance into_v3 : From t V3.sessions.StopSubmissionRequest.t := λ value, {|
  V3.sessions.StopSubmissionRequest.session_id := value.(session_id);
  V3.sessions.StopSubmissionRequest.client := value.(client);
  V3.sessions.StopSubmissionRequest.worker := value.(worker) |}.
#[global] Instance from_v3 : From V3.sessions.StopSubmissionRequest.t t := λ value, {|
  session_id := value.(V3.sessions.StopSubmissionRequest.session_id);
  client := value.(V3.sessions.StopSubmissionRequest.client);
  worker := value.(V3.sessions.StopSubmissionRequest.worker) |}.
#[global] Instance v3_roundtrip : RoundTrip t V3.sessions.StopSubmissionRequest.t.
Proof. solve_roundtrip. Qed.
End Request.

(** [Response] of [objects/sessions/stop_submission.rs]. *)
Module Response.
Record t : Type := mk {
  session : Raw.t
}.
#[global] Instance default : Default t := {|
  session := dflt |}.
#[global] Instance into_v3 : From t V3.sessions.StopSubmissionResponse.t := λ value, {|
  V3.sessions.StopSubmissionResponse.session := Some (from value.(session)) |}.
#[global] Instance from_v3 : From V3.sessions.StopSubmissionResponse.t t := λ value, {|
  session := from_or_default value.(V3.sessions.StopSubmissionResponse.session) |}.
#[global] Instance v3_roundtrip : RoundTrip t V3.sessions.StopSubmissionResponse.t.
Proof. solve_roundtrip. Qed.
End Response.

End stop_submission.
