(* ===== verification/Tasks.v ===== *)
(** The objects of the Tasks service ([objects/tasks/*.rs]). *)

From S2P Require Import Prelude V3 Objects Filters.

(** [SummaryField] of [objects/tasks/field.rs]. *)
Module SummaryField.
Inductive t : Type :=
| Unspecified
| TaskId
| SessionId
| OwnerPodId
| InitialTaskId
| Status
| CreatedAt
| SubmittedAt
| StartedAt
| EndedAt
| CreationToEndDuration
| ProcessingToEndDuration
| ReceivedToEndDuration
| PodTtl
| PodHostname
| ReceivedAt
| AcquiredAt
| ProcessedAt
| FetchedAt
| Error
| PayloadId
| CreatedBy.
#[global] Instance eq_dec : EqDecision t.
Proof. solve_decision. Defined.
#[global] Instance default : Default t := TaskId.
#[global] Instance discriminant : AsI32 t := λ v,
  match v with
  | Unspecified => 0
  | TaskId => 16
  | SessionId => 1
  | OwnerPodId => 9
  | InitialTaskId => 10
  | Status => 2
  | CreatedAt => 3
  | SubmittedAt => 11
  | StartedAt => 4
  | EndedAt => 5
  | CreationToEndDuration => 6
  | ProcessingToEndDuration => 7
  | ReceivedToEndDuration => 18
  | PodTtl => 12
  | PodHostname => 13
  | ReceivedAt => 14
  | AcquiredAt => 15
  | ProcessedAt => 17
  | FetchedAt => 19
  | Error => 8
  | PayloadId => 20
  | CreatedBy => 21
  end%Z.
#[global] Instance from_i32 : From Z t := λ value,
  match value with
  | 0 => Unspecified
  | 16 => TaskId
  | 1 => SessionId
  | 9 => OwnerPodId
  | 10 => InitialTaskId
  | 2 => Status
  | 3 => CreatedAt
  | 11 => SubmittedAt
  | 4 => StartedAt
  | 5 => EndedAt
  | 6 => CreationToEndDuration
  | 7 => ProcessingToEndDuration
  | 18 => ReceivedToEndDuration
  | 12 => PodTtl
  | 13 => PodHostname
  | 14 => ReceivedAt
  | 15 => AcquiredAt
  | 17 => ProcessedAt
  | 19 => FetchedAt
  | 8 => Error
  | 20 => PayloadId
  | 21 => CreatedBy
  | _ => Unspecified
  end%Z.
#[global] Instance i32_roundtrip : CodeRoundTrip t.
Proof. by_variant. Qed.
End SummaryField.

#[global] Instance SummaryField_into_v3 : From SummaryField.t V3.tasks.TaskSummaryField.t := λ value,
  {| V3.tasks.TaskSummaryField.field := as_i32 value |}.
#[global] Instance SummaryField_from_v3 : From V3.tasks.TaskSummaryField.t SummaryField.t := λ value,
  from value.(V3.tasks.TaskSummaryField.field).
#[global] Instance SummaryField_v3_roundtrip : RoundTrip SummaryField.t V3.tasks.TaskSummaryField.t.
Proof. by_variant. Qed.

(** [Field] of [objects/tasks/field.rs]. *)
Module Field.
Inductive t : Type :=
| Summary (field : SummaryField.t)
| Option (field : TaskOptionField.t)
| OptionGeneric (field : string).
#[global] Instance default : Default t := Summary dflt.
#[global] Instance into_v3 : From t V3.tasks.TaskField.t := λ value, {|
  V3.tasks.TaskField.field := Some
    match value with
    | Summary field => V3.tasks.task_field.Field.TaskSummaryField (from field)
    | Option field => V3.tasks.task_field.Field.TaskOptionField (from field)
    | OptionGeneric field =>
        V3.tasks.task_field.Field.TaskOptionGenericField {| V3.tasks.TaskOptionGenericField.field := field |}
    end |}.
#[global] Instance from_v3 : From V3.tasks.TaskField.t t := λ value,
  match value.(V3.tasks.TaskField.field) with
  | Some (V3.tasks.task_field.Field.TaskSummaryField field) => Summary (from field)
  | Some (V3.tasks.task_field.Field.TaskOptionField field) => Option (from field)
  | Some (V3.tasks.task_field.Field.TaskOptionGenericField field) => OptionGeneric field.(V3.tasks.TaskOptionGenericField.field)
  | None => dflt
  end.
#[global] Instance v3_roundtrip : RoundTrip t V3.tasks.TaskField.t.
Proof. solve_roundtrip. Qed.
End Field.

(** [Output] of [objects/tasks/output.rs]. *)
Module Output.
Inductive t : Type :=
| Success
| Error (message : string).
#[global] Instance default : Default t := Success.
#[global] Instance into_v3 : From t V3.tasks.task_detailed.Output.t := λ value,
  match value with
  | Success => {|
      V3.tasks.task_detailed.Output.success := true;
      V3.tasks.task_detailed.Output.error :=
        (dflt : V3.tasks.task_detailed.Output.t).(V3.tasks.task_detailed.Output.error) |}
  | Error message => {|
      V3.tasks.task_detailed.Output.error := message;
      V3.tasks.task_detailed.Output.success :=
        (dflt : V3.tasks.task_detailed.Output.t).(V3.tasks.task_detailed.Output.success) |}
  end.
#[global] Instance from_v3 : From V3.tasks.task_detailed.Output.t t := λ value,
  if value.(V3.tasks.task_detailed.Output.success) then Success
  else Error value.(V3.tasks.task_detailed.Output.error).
#[global] Instance v3_roundtrip : RoundTrip t V3.tasks.task_detailed.Output.t.
Proof. solve_roundtrip. Qed.
End Output.

(** [Raw] of [objects/tasks/raw.rs]. *)
Module Raw.
Record t : Type := mk {
  task_id : string;
  session_id : string;
  owner_pod_id : string;
  initial_task_id : string;
  parent_task_ids : list string;
  data_dependencies : list string;
  expected_output_ids : list string;
  retry_of_ids : list string;
  status : TaskStatus.t;
  status_message : string;
  options : TaskOptions.t;
  created_at : option V3.Timestamp.t;
  submitted_at : option V3.Timestamp.t;
  received_at : option V3.Timestamp.t;
  acquired_at : option V3.Timestamp.t;
  fetched_at : option V3.Timestamp.t;
  started_at : option V3.Timestamp.t;
  processed_at : option V3.Timestamp.t;
  ended_at : option V3.Timestamp.t;
  creation_to_end_duration : option V3.Duration.t;
  processing_to_end_duration : option V3.Duration.t;
  received_to_end_duration : option V3.Duration.t;
  pod_ttl : option V3.Timestamp.t;
  output : Output.t;
  pod_hostname : string;
  payload_id : string;
  created_by : string
}.
#[global] Instance default : Default t := {|
  task_id := dflt;
  session_id := dflt;
  owner_pod_id := dflt;
  initial_task_id := dflt;
  parent_task_ids := dflt;
  data_dependencies := dflt;
  expected_output_ids := dflt;
  retry_of_ids := dflt;
  status := dflt;
  status_message := dflt;
  options := dflt;
  created_at := dflt;
  submitted_at := dflt;
  received_at := dflt;
  acquired_at := dflt;
  fetched_at := dflt;
  started_at := dflt;
  processed_at := dflt;
  ended_at := dflt;
  creation_to_end_duration := dflt;
  processing_to_end_duration := dflt;
  received_to_end_duration := dflt;
  pod_ttl := dflt;
  output := dflt;
  pod_hostname := dflt;
  payload_id := dflt;
  created_by := dflt |}.
#[global] Instance into_v3 : From t V3.tasks.TaskDetailed.t := λ value, {|
  V3.tasks.TaskDetailed.id := value.(task_id);
  V3.tasks.TaskDetailed.session_id := value.(session_id);
  V3.tasks.TaskDetailed.owner_pod_id := value.(owner_pod_id);
  V3.tasks.TaskDetailed.initial_task_id := value.(initial_task_id);
  V3.tasks.TaskDetailed.parent_task_ids := value.(parent_task_ids);
  V3.tasks.TaskDetailed.data_dependencies := value.(data_dependencies);
  V3.tasks.TaskDetailed.expected_output_ids := value.(expected_output_ids);
  V3.tasks.TaskDetailed.retry_of_ids := value.(retry_of_ids);
  V3.tasks.TaskDetailed.status := as_i32 value.(status);
  V3.tasks.TaskDetailed.status_message := value.(status_message);
  V3.tasks.TaskDetailed.options := Some (from value.(options));
  V3.tasks.TaskDetailed.created_at := value.(created_at);
  V3.tasks.TaskDetailed.submitted_at := value.(submitted_at);
  V3.tasks.TaskDetailed.received_at := value.(received_at);
  V3.tasks.TaskDetailed.acquired_at := value.(acquired_at);
  V3.tasks.TaskDetailed.fetched_at := value.(fetched_at);
  V3.tasks.TaskDetailed.started_at := value.(started_at);
  V3.tasks.TaskDetailed.processed_at := value.(processed_at);
  V3.tasks.TaskDetailed.ended_at := value.(ended_at);
  V3.tasks.TaskDetailed.creation_to_end_duration := value.(creation_to_end_duration);
  V3.tasks.TaskDetailed.processing_to_end_duration := value.(processing_to_end_duration);
  V3.tasks.TaskDetailed.received_to_end_duration := value.(received_to_end_duration);
  V3.tasks.TaskDetailed.pod_ttl := value.(pod_ttl);
  V3.tasks.TaskDetailed.output := Some (from value.(output));
  V3.tasks.TaskDetailed.pod_hostname := value.(pod_hostname);
  V3.tasks.TaskDetailed.payload_id := value.(payload_id);
  V3.tasks.TaskDetailed.created_by := value.(created_by) |}.
#[global] Instance from_v3 : From V3.tasks.TaskDetailed.t t := λ value, {|
  task_id := value.(V3.tasks.TaskDetailed.id);
  session_id := value.(V3.tasks.TaskDetailed.session_id);
  owner_pod_id := value.(V3.tasks.TaskDetailed.owner_pod_id);
  initial_task_id := value.(V3.tasks.TaskDetailed.initial_task_id);
  parent_task_ids := value.(V3.tasks.TaskDetailed.parent_task_ids);
  data_dependencies := value.(V3.tasks.TaskDetailed.data_dependencies);
  expected_output_ids := value.(V3.tasks.TaskDetailed.expected_output_ids);
  retry_of_ids := value.(V3.tasks.TaskDetailed.retry_of_ids);
  status := from value.(V3.tasks.TaskDetailed.status);
  status_message := value.(V3.tasks.TaskDetailed.status_message);
  options := from_or_default value.(V3.tasks.TaskDetailed.options);
  created_at := value.(V3.tasks.TaskDetailed.created_at);
  submitted_at := value.(V3.tasks.TaskDetailed.submitted_at);
  received_at := value.(V3.tasks.TaskDetailed.received_at);
  acquired_at := value.(V3.tasks.TaskDetailed.acquired_at);
  fetched_at := value.(V3.tasks.TaskDetailed.fetched_at);
  started_at := value.(V3.tasks.TaskDetailed.started_at);
  processed_at := value.(V3.tasks.TaskDetailed.processed_at);
  ended_at := value.(V3.tasks.TaskDetailed.ended_at);
  creation_to_end_duration := value.(V3.tasks.TaskDetailed.creation_to_end_duration);
  processing_to_end_duration := value.(V3.tasks.TaskDetailed.processing_to_end_duration);
  received_to_end_duration := value.(V3.tasks.TaskDetailed.received_to_end_duration);
  pod_ttl := value.(V3.tasks.TaskDetailed.pod_ttl);
  output := from_or_default value.(V3.tasks.TaskDetailed.output);
  pod_hostname := value.(V3.tasks.TaskDetailed.pod_hostname);
  payload_id := value.(V3.tasks.TaskDetailed.payload_id);
  created_by := value.(V3.tasks.TaskDetailed.created_by) |}.
#[global] Instance v3_roundtrip : RoundTrip t V3.tasks.TaskDetailed.t.
Proof. solve_roundtrip. Qed.
End Raw.

(** [Summary] of [objects/tasks/summary.rs].  The summary carries the output as
    its error message alone. *)
Module Summary.
Record t : Type := mk {
  task_id : string;
  session_id : string;
  owner_pod_id : string;
  initial_task_id : string;
  count_parent_task_ids : Z;
  count_data_dependencies : Z;
  count_expected_output_ids : Z;
  count_retry_of_ids : Z;
  status : TaskStatus.t;
  status_message : string;
  options : TaskOptions.t;
  created_at : option V3.Timestamp.t;
  submitted_at : option V3.Timestamp.t;
  received_at : option V3.Timestamp.t;
  acquired_at : option V3.Timestamp.t;
  fetched_at : option V3.Timestamp.t;
  started_at : option V3.Timestamp.t;
  processed_at : option V3.Timestamp.t;
  ended_at : option V3.Timestamp.t;
  creation_to_end_duration : option V3.Duration.t;
  processing_to_end_duration : option V3.Duration.t;
  received_to_end_duration : option V3.Duration.t;
  pod_ttl : option V3.Timestamp.t;
  output : Output.t;
  pod_hostname : string;
  payload_id : string;
  created_by : string
}.
#[global] Instance default : Default t := {|
  task_id := dflt;
  session_id := dflt;
  owner_pod_id := dflt;
  initial_task_id := dflt;
  count_parent_task_ids := dflt;
  count_data_dependencies := dflt;
  count_expected_output_ids := dflt;
  count_retry_of_ids := dflt;
  status := dflt;
  status_message := dflt;
  options := dflt;
  created_at := dflt;
  submitted_at := dflt;
  received_at := dflt;
  acquired_at := dflt;
  fetched_at := dflt;
  started_at := dflt;
  processed_at := dflt;
  ended_at := dflt;
  creation_to_end_duration := dflt;
  processing_to_end_duration := dflt;
  received_to_end_duration := dflt;
  pod_ttl := dflt;
  output := dflt;
  pod_hostname := dflt;
  payload_id := dflt;
  created_by := dflt |}.
#[global] Instance into_v3 : From t V3.tasks.TaskSummary.t := λ value, {|
  V3.tasks.TaskSummary.id := value.(task_id);
  V3.tasks.TaskSummary.session_id := value.(session_id);
  V3.tasks.TaskSummary.owner_pod_id := value.(owner_pod_id);
  V3.tasks.TaskSummary.initial_task_id := value.(initial_task_id);
  V3.tasks.TaskSummary.count_parent_task_ids := value.(count_parent_task_ids);
  V3.tasks.TaskSummary.count_data_dependencies := value.(count_data_dependencies);
  V3.tasks.TaskSummary.count_expected_output_ids := value.(count_expected_output_ids);
  V3.tasks.TaskSummary.count_retry_of_ids := value.(count_retry_of_ids);
  V3.tasks.TaskSummary.status := as_i32 value.(status);
  V3.tasks.TaskSummary.status_message := value.(status_message);
  V3.tasks.TaskSummary.options := Some (from value.(options));
  V3.tasks.TaskSummary.created_at := value.(created_at);
  V3.tasks.TaskSummary.submitted_at := value.(submitted_at);
  V3.tasks.TaskSummary.received_at := value.(received_at);
  V3.tasks.TaskSummary.acquired_at := value.(acquired_at);
  V3.tasks.TaskSummary.fetched_at := value.(fetched_at);
  V3.tasks.TaskSummary.started_at := value.(started_at);
  V3.tasks.TaskSummary.processed_at := value.(processed_at);
  V3.tasks.TaskSummary.ended_at := value.(ended_at);
  V3.tasks.TaskSummary.creation_to_end_duration := value.(creation_to_end_duration);
  V3.tasks.TaskSummary.processing_to_end_duration := value.(processing_to_end_duration);
  V3.tasks.TaskSummary.received_to_end_duration := value.(received_to_end_duration);
  V3.tasks.TaskSummary.pod_ttl := value.(pod_ttl);
  V3.tasks.TaskSummary.error :=
    match value.(output) with
    | Output.Success => dflt
    | Output.Error message => message
    end;
  V3.tasks.TaskSummary.pod_hostname := value.(pod_hostname);
  V3.tasks.TaskSummary.payload_id := value.(payload_id);
  V3.tasks.TaskSummary.created_by := value.(created_by) |}.
#[global] Instance from_v3 : From V3.tasks.TaskSummary.t t := λ value, {|
  task_id := value.(V3.tasks.TaskSummary.id);
  session_id := value.(V3.tasks.TaskSummary.session_id);
  owner_pod_id := value.(V3.tasks.TaskSummary.owner_pod_id);
  initial_task_id := value.(V3.tasks.TaskSummary.initial_task_id);
  count_parent_task_ids := value.(V3.tasks.TaskSummary.count_parent_task_ids);
  count_data_dependencies := value.(V3.tasks.TaskSummary.count_data_dependencies);
  count_expected_output_ids := value.(V3.tasks.TaskSummary.count_expected_output_ids);
  count_retry_of_ids := value.(V3.tasks.TaskSummary.count_retry_of_ids);
  status := from value.(V3.tasks.TaskSummary.status);
  status_message := value.(V3.tasks.TaskSummary.status_message);
  options := from_or_default value.(V3.tasks.TaskSummary.options);
  created_at := value.(V3.tasks.TaskSummary.created_at);
  submitted_at := value.(V3.tasks.TaskSummary.submitted_at);
  received_at := value.(V3.tasks.TaskSummary.received_at);
  acquired_at := value.(V3.tasks.TaskSummary.acquired_at);
  fetched_at := value.(V3.tasks.TaskSummary.fetched_at);
  started_at := value.(V3.tasks.TaskSummary.started_at);
  processed_at := value.(V3.tasks.TaskSummary.processed_at);
  ended_at := value.(V3.tasks.TaskSummary.ended_at);
  creation_to_end_duration := value.(V3.tasks.TaskSummary.creation_to_end_duration);
  processing_to_end_duration := value.(V3.tasks.TaskSummary.processing_to_end_duration);
  received_to_end_duration := value.(V3.tasks.TaskSummary.received_to_end_duration);
  pod_ttl := value.(V3.tasks.TaskSummary.pod_ttl);
  output :=
    match value.(V3.tasks.TaskSummary.error) with
    | EmptyString => Output.Success
    | String _ _ => Output.Error value.(V3.tasks.TaskSummary.error)
    end;
  pod_hostname := value.(V3.tasks.TaskSummary.pod_hostname);
  payload_id := value.(V3.tasks.TaskSummary.payload_id);
  created_by := value.(V3.tasks.TaskSummary.created_by) |}.

(** What the message keeps of a summary: an error without a message becomes a
    success. *)
Definition normalise (self : t) : t := {|
  task_id := self.(task_id);
  session_id := self.(session_id);
  owner_pod_id := self.(owner_pod_id);
  initial_task_id := self.(initial_task_id);
  count_parent_task_ids := self.(count_parent_task_ids);
  count_data_dependencies := self.(count_data_dependencies);
  count_expected_output_ids := self.(count_expected_output_ids);
  count_retry_of_ids := self.(count_retry_of_ids);
  status := self.(status);
  status_message := self.(status_message);
  options := self.(options);
  created_at := self.(created_at);
  submitted_at := self.(submitted_at);
  received_at := self.(received_at);
  acquired_at := self.(acquired_at);
  fetched_at := self.(fetched_at);
  started_at := self.(started_at);
  processed_at := self.(processed_at);
  ended_at := self.(ended_at);
  creation_to_end_duration := self.(creation_to_end_duration);
  processing_to_end_duration := self.(processing_to_end_duration);
  received_to_end_duration := self.(received_to_end_duration);
  pod_ttl := self.(pod_ttl);
  output :=
    match self.(output) with
    | Output.Error EmptyString => Output.Success
    | output => output
    end;
  pod_hostname := self.(pod_hostname);
  payload_id := self.(payload_id);
  created_by := self.(created_by) |}.
Lemma summary_v3_normalises (self : t) : from (from self : V3.tasks.TaskSummary.t) = normalise self.
Proof.
  destruct self as [? ? ? ? ? ? ? ? ? ? ? ? ? ? ? ? ? ? ? ? ? ? ? out ? ? ?].
  unfold from at 1 2, from_v3, into_v3, normalise. cbn. autorewrite with codec.
  by destruct out as [|[|]].
Qed.
(** The one value the message cannot tell apart from a success. *)
Definition representable (self : t) : Prop := self.(output) ≠ Output.Error EmptyString.
Lemma normalise_representable (self : t) : representable self → normalise self = self.
Proof.
  destruct self as [? ? ? ? ? ? ? ? ? ? ? ? ? ? ? ? ? ? ? ? ? ? ? out ? ? ?].
  unfold representable, normalise. cbn. intros Hout. f_equal.
  by destruct out as [|[|]].
Qed.
#[global] Instance v3_roundtrip : RoundTripOn representable V3.tasks.TaskSummary.t.
Proof. intros x Hx. by rewrite summary_v3_normalises, normalise_representable. Qed.
End Summary.

(** [pub type Sort = super::Sort<Field>] of [objects/tasks/mod.rs]. *)
Module Sort.
Definition t : Type := Objects.Sort.t Field.t.
#[global] Instance into_v3 : From t V3.tasks.list_tasks_request.Sort.t := λ value, {|
  V3.tasks.list_tasks_request.Sort.field := Some (from value.(Objects.Sort.field));
  V3.tasks.list_tasks_request.Sort.direction := as_i32 value.(Objects.Sort.direction) |}.
#[global] Instance from_v3 : From V3.tasks.list_tasks_request.Sort.t t := λ value, {|
  Objects.Sort.field := from_or_default value.(V3.tasks.list_tasks_request.Sort.field);
  Objects.Sort.direction := from value.(V3.tasks.list_tasks_request.Sort.direction) |}.
#[global] Instance v3_roundtrip : RoundTrip t V3.tasks.list_tasks_request.Sort.t.
Proof. solve_roundtrip. Qed.
End Sort.

(** [objects/tasks/filter.rs]. *)
Module filter.
Module Status.
Definition t : Type := FilterStatus.t TaskStatus.t.
#[global] Instance into_v3 : From t V3.tasks.FilterStatus.t := λ v, {|
  V3.tasks.FilterStatus.value := as_i32 v.(FilterStatus.value);
  V3.tasks.FilterStatus.operator := as_i32 v.(FilterStatus.operator) |}.
#[global] Instance from_v3 : From V3.tasks.FilterStatus.t t := λ v, {|
  FilterStatus.value := from v.(V3.tasks.FilterStatus.value);
  FilterStatus.operator := from v.(V3.tasks.FilterStatus.operator) |}.
#[global] Instance v3_roundtrip : RoundTrip t V3.tasks.FilterStatus.t.
Proof. solve_roundtrip. Qed.
End Status.

Module Condition.
Inductive t : Type :=
| String (cond : FilterString.t)
| Number (cond : FilterNumber.t)
| Boolean (cond : FilterBoolean.t)
| Status (cond : Status.t)
| Date (cond : FilterDate.t)
| Duration (cond : FilterDuration.t)
| Array (cond : FilterArray.t).
#[global] Instance default : Default t := String dflt.
#[global] Instance into_v3 : From t V3.tasks.filter_field.ValueCondition.t := λ value,
  match value with
  | String cond => V3.tasks.filter_field.ValueCondition.FilterString (from cond)
  | Number cond => V3.tasks.filter_field.ValueCondition.FilterNumber (from cond)
  | Boolean cond => V3.tasks.filter_field.ValueCondition.FilterBoolean (from cond)
  | Status cond => V3.tasks.filter_field.ValueCondition.FilterStatus (from cond)
  | Date cond => V3.tasks.filter_field.ValueCondition.FilterDate (from cond)
  | Duration cond => V3.tasks.filter_field.ValueCondition.FilterDuration (from cond)
  | Array cond => V3.tasks.filter_field.ValueCondition.FilterArray (from cond)
  end.
#[global] Instance from_v3 : From V3.tasks.filter_field.ValueCondition.t t := λ value,
  match value with
  | V3.tasks.filter_field.ValueCondition.FilterString cond => String (from cond)
  | V3.tasks.filter_field.ValueCondition.FilterNumber cond => Number (from cond)
  | V3.tasks.filter_field.ValueCondition.FilterBoolean cond => Boolean (from cond)
  | V3.tasks.filter_field.ValueCondition.FilterStatus cond => Status (from cond)
  | V3.tasks.filter_field.ValueCondition.FilterDate cond => Date (from cond)
  | V3.tasks.filter_field.ValueCondition.FilterDuration cond => Duration (from cond)
  | V3.tasks.filter_field.ValueCondition.FilterArray cond => Array (from cond)
  end.
#[global] Instance v3_roundtrip : RoundTrip t V3.tasks.filter_field.ValueCondition.t.
Proof. solve_roundtrip. Qed.
End Condition.

Module Field.
Record t : Type := mk {
  field : Field.t;
  condition : Condition.t
}.
#[global] Instance default : Default t := {|
  field := dflt;
  condition := dflt |}.
#[global] Instance into_v3 : From t V3.tasks.FilterField.t := λ value, {|
  V3.tasks.FilterField.field := Some (from value.(field));
  V3.tasks.FilterField.value_condition := Some (from value.(condition)) |}.
#[global] Instance from_v3 : From V3.tasks.FilterField.t t := λ value, {|
  field := from_or_default value.(V3.tasks.FilterField.field);
  condition := from_or_default value.(V3.tasks.FilterField.value_condition) |}.
#[global] Instance v3_roundtrip : RoundTrip t V3.tasks.FilterField.t.
Proof. solve_roundtrip. Qed.
End Field.

Module And.
Record t : Type := mk {
  and : list Field.t
}.
#[global] Instance default : Default t := {|
  and := dflt |}.
#[global] Instance into_v3 : From t V3.tasks.FiltersAnd.t := λ value, {|
  V3.tasks.FiltersAnd.and := map from value.(and) |}.
#[global] Instance from_v3 : From V3.tasks.FiltersAnd.t t := λ value, {|
  and := map from value.(V3.tasks.FiltersAnd.and) |}.
#[global] Instance v3_roundtrip : RoundTrip t V3.tasks.FiltersAnd.t.
Proof. solve_roundtrip. Qed.
(** [impl_vec_wrapper!(And{and: Field})]. *)
Definition from_iter (iter : list Field.t) : t := {| and := iter |}.
Definition into_iter (self : t) : list Field.t := self.(and).
End And.

Module Or.
Record t : Type := mk {
  or : list And.t
}.
#[global] Instance default : Default t := {|
  or := dflt |}.
#[global] Instance into_v3 : From t V3.tasks.Filters.t := λ value, {|
  V3.tasks.Filters.or := map from value.(or) |}.
#[global] Instance from_v3 : From V3.tasks.Filters.t t := λ value, {|
  or := map from value.(V3.tasks.Filters.or) |}.
#[global] Instance v3_roundtrip : RoundTrip t V3.tasks.Filters.t.
Proof. solve_roundtrip. Qed.
(** [impl_vec_wrapper!(Or{or: And})]. *)
Definition from_iter (iter : list And.t) : t := {| or := iter |}.
Definition into_iter (self : t) : list And.t := self.(or).
End Or.

End filter.

Module list.
(** [Request] of [objects/tasks/list.rs]. *)
Module Request.
Record t : Type := mk {
  page : Z;
  page_size : Z;
  filters : filter.Or.t;
  sort : Sort.t;
  with_errors : bool
}.
#[global] Instance default : Default t := {|
  page := 0%Z;
  page_size := 100%Z;
  filters := dflt;
  sort := dflt;
  with_errors := false |}.
#[global] Instance into_v3 : From t V3.tasks.ListTasksRequest.t := λ value, {|
  V3.tasks.ListTasksRequest.page := value.(page);
  V3.tasks.ListTasksRequest.page_size := value.(page_size);
  V3.tasks.ListTasksRequest.filters := Some (from value.(filters));
  V3.tasks.ListTasksRequest.sort := Some (from value.(sort));
  V3.tasks.ListTasksRequest.with_errors := value.(with_errors) |}.
#[global] Instance from_v3 : From V3.tasks.ListTasksRequest.t t := λ value, {|
  page := value.(V3.tasks.ListTasksRequest.page);
  page_size := value.(V3.tasks.ListTasksRequest.page_size);
  filters := from_or_default value.(V3.tasks.ListTasksRequest.filters);
  sort := from_or_default value.(V3.tasks.ListTasksRequest.sort);
  with_errors := value.(V3.tasks.ListTasksRequest.with_errors) |}.
#[global] Instance v3_roundtrip : RoundTrip t V3.tasks.ListTasksRequest.t.
Proof. solve_roundtrip. Qed.
End Request.

(** [Response] of [objects/tasks/list.rs]. *)
Module Response.
Record t : Type := mk {
  tasks : list Summary.t;
  page : Z;
  page_size : Z;
  total : Z
}.
#[global] Instance default : Default t := {|
  tasks := [];
  page := 0%Z;
  page_size := 100%Z;
  total := 0%Z |}.
#[global] Instance into_v3 : From t V3.tasks.ListTasksResponse.t := λ value, {|
  V3.tasks.ListTasksResponse.tasks := map from value.(tasks);
  V3.tasks.ListTasksResponse.page := value.(page);
  V3.tasks.ListTasksResponse.page_size := value.(page_size);
  V3.tasks.ListTasksResponse.total := value.(total) |}.
#[global] Instance from_v3 : From V3.tasks.ListTasksResponse.t t := λ value, {|
  tasks := map from value.(V3.tasks.ListTasksResponse.tasks);
  page := value.(V3.tasks.ListTasksResponse.page);
  page_size := value.(V3.tasks.ListTasksResponse.page_size);
  total := value.(V3.tasks.ListTasksResponse.total) |}.
End Response.

Definition representable (self : Response.t) : Prop :=
  Forall Summary.representable self.(Response.tasks).
#[global] Instance v3_roundtrip : RoundTripOn representable V3.tasks.ListTasksResponse.t.
Proof. solve_roundtrip_on. Qed.
Definition normalise (self : Response.t) : Response.t := {|
  Response.tasks := map Summary.normalise self.(Response.tasks);
  Response.page := self.(Response.page);
  Response.page_size := self.(Response.page_size);
  Response.total := self.(Response.total) |}.
Lemma list_response_v3_normalises (self : Response.t) :
  from (from self : V3.tasks.ListTasksResponse.t) = normalise self.
Proof.
  destruct self. unfold from at 1 2, Response.from_v3, Response.into_v3, normalise. cbn.
  f_equal. rewrite map_map. apply map_ext, Summary.summary_v3_normalises.
Qed.
End list.

Module list_detailed.
(** [Request] of [objects/tasks/list_detailed.rs]. *)
Module Request.
Record t : Type := mk {
  page : Z;
  page_size : Z;
  filters : filter.Or.t;
  sort : Sort.t;
  with_errors : bool
}.
#[global] Instance default : Default t := {|
  page := 0%Z;
  page_size := 100%Z;
  filters := dflt;
  sort := dflt;
  with_errors := false |}.
#[global] Instance into_v3 : From t V3.tasks.ListTasksRequest.t := λ value, {|
  V3.tasks.ListTasksRequest.page := value.(page);
  V3.tasks.ListTasksRequest.page_size := value.(page_size);
  V3.tasks.ListTasksRequest.filters := Some (from value.(filters));
  V3.tasks.ListTasksRequest.sort := Some (from value.(sort));
  V3.tasks.ListTasksRequest.with_errors := value.(with_errors) |}.
#[global] Instance from_v3 : From V3.tasks.ListTasksRequest.t t := λ value, {|
  page := value.(V3.tasks.ListTasksRequest.page);
  page_size := value.(V3.tasks.ListTasksRequest.page_size);
  filters := from_or_default value.(V3.tasks.ListTasksRequest.filters);
  sort := from_or_default value.(V3.tasks.ListTasksRequest.sort);
  with_errors := value.(V3.tasks.ListTasksRequest.with_errors) |}.
#[global] Instance v3_roundtrip : RoundTrip t V3.tasks.ListTasksRequest.t.
Proof. solve_roundtrip. Qed.
End Request.

(** [Response] of [objects/tasks/list_detailed.rs]. *)
Module Response.
Record t : Type := mk {
  tasks : list Raw.t;
  page : Z;
  page_size : Z;
  total : Z
}.
#[global] Instance default : Default t := {|
  tasks := [];
  page := 0%Z;
  page_size := 100%Z;
  total := 0%Z |}.
#[global] Instance into_v3 : From t V3.tasks.ListTasksDetailedResponse.t := λ value, {|
  V3.tasks.ListTasksDetailedResponse.tasks := map from value.(tasks);
  V3.tasks.ListTasksDetailedResponse.page := value.(page);
  V3.tasks.ListTasksDetailedResponse.page_size := value.(page_size);
  V3.tasks.ListTasksDetailedResponse.total := value.(total) |}.
#[global] Instance from_v3 : From V3.tasks.ListTasksDetailedResponse.t t := λ value, {|
  tasks := map from value.(V3.tasks.ListTasksDetailedResponse.tasks);
  page := value.(V3.tasks.ListTasksDetailedResponse.page);
  page_size := value.(V3.tasks.ListTasksDetailedResponse.page_size);
  total := value.(V3.tasks.ListTasksDetailedResponse.total) |}.
#[global] Instance v3_roundtrip : RoundTrip t V3.tasks.ListTasksDetailedResponse.t.
Proof. solve_roundtrip. Qed.
End Response.

End list_detailed.

Module get.
(** [Request] of [objects/tasks/get.rs]. *)
Module Request.
Record t : Type := mk {
  task_id : string
}.
#[global] Instance default : Default t := {|
  task_id := dflt |}.
#[global] Instance into_v3 : From t V3.tasks.GetTaskRequest.t := λ value, {|
  V3.tasks.GetTaskRequest.task_id := value.(task_id) |}.
#[global] Instance from_v3 : From V3.tasks.GetTaskRequest.t t := λ value, {|
  task_id := value.(V3.tasks.GetTaskRequest.task_id) |}.
#[global] Instance v3_roundtrip : RoundTrip t V3.tasks.GetTaskRequest.t.
Proof. solve_roundtrip. Qed.
End Request.

(** [Response] of [objects/tasks/get.rs]. *)
Module Response.
Record t : Type := mk {
  task : Raw.t
}.
#[global] Instance default : Default t := {|
  task := dflt |}.
#[global] Instance into_v3 : From t V3.tasks.GetTaskResponse.t := λ value, {|
  V3.tasks.GetTaskResponse.task := Some (from value.(task)) |}.
#[global] Instance from_v3 : From V3.tasks.GetTaskResponse.t t := λ value, {|
  task := from_or_default value.(V3.tasks.GetTaskResponse.task) |}.
#[global] Instance v3_roundtrip : RoundTrip t V3.tasks.GetTaskResponse.t.
Proof. solve_roundtrip. Qed.
End Response.

End get.

Module cancel.
(** [Request] of [objects/tasks/cancel.rs]. *)
Module Request.
Record t : Type := mk {
  task_ids : list string
}.
#[global] Instance default : Default t := {|
  task_ids := dflt |}.
#[global] Instance into_v3 : From t V3.tasks.CancelTasksRequest.t := λ value, {|
  V3.tasks.CancelTasksRequest.task_ids := value.(task_ids) |}.
#[global] Instance from_v3 : From V3.tasks.CancelTasksRequest.t t := λ value, {|
  task_ids := value.(V3.tasks.CancelTasksRequest.task_ids) |}.
#[global] Instance v3_roundtrip : RoundTrip t V3.tasks.CancelTasksRequest.t.
Proof. solve_roundtrip. Qed.
End Request.

(** [Response] of [objects/tasks/cancel.rs]. *)
Module Response.
Record t : Type := mk {
  tasks : list Summary.t
}.
#[global] Instance default : Default t := {|
  tasks := dflt |}.
#[global] Instance into_v3 : From t V3.tasks.CancelTasksResponse.t := λ value, {|
  V3.tasks.CancelTasksResponse.tasks := map from value.(tasks) |}.
#[global] Instance from_v3 : From V3.tasks.CancelTasksResponse.t t := λ value, {|
  tasks := map from value.(V3.tasks.CancelTasksResponse.tasks) |}.
End Response.

Definition representable (self : Response.t) : Prop :=
  Forall Summary.representable self.(Response.tasks).
#[global] Instance v3_roundtrip : RoundTripOn representable V3.tasks.CancelTasksResponse.t.
Proof. solve_roundtrip_on. Qed.
Definition normalise (self : Response.t) : Response.t := {|
  Response.tasks := map Summary.normalise self.(Response.tasks) |}.
Lemma cancel_response_v3_normalises (self : Response.t) :
  from (from self : V3.tasks.CancelTasksResponse.t) = normalise self.
Proof.
  destruct self. unfold from at 1 2, Response.from_v3, Response.into_v3, normalise. cbn.
  f_equal. rewrite map_map. apply map_ext, Summary.summary_v3_normalises.
Qed.
End cancel.

Module count_status.
(** [Request] of [objects/tasks/count_status.rs]. *)
Module Request.
Record t : Type := mk {
  filters : filter.Or.t
}.
#[global] Instance default : Default t := {|
  filters := dflt |}.
#[global] Instance into_v3 : From t V3.tasks.CountTasksByStatusRequest.t := λ value, {|
  V3.tasks.CountTasksByStatusRequest.filters := Some (from value.(filters)) |}.
#[global] Instance from_v3 : From V3.tasks.CountTasksByStatusRequest.t t := λ value, {|
  filters := from_or_default value.(V3.tasks.CountTasksByStatusRequest.filters) |}.
#[global] Instance v3_roundtrip : RoundTrip t V3.tasks.CountTasksByStatusRequest.t.
Proof. solve_roundtrip. Qed.
End Request.

(** [Response] of [objects/tasks/count_status.rs]. *)
Module Response.
Record t : Type := mk {
  status : list StatusCount.t
}.
#[global] Instance default : Default t := {|
  status := dflt |}.
#[global] Instance into_v3 : From t V3.tasks.CountTasksByStatusResponse.t := λ value, {|
  V3.tasks.CountTasksByStatusResponse.status := map from value.(status) |}.
#[global] Instance from_v3 : From V3.tasks.CountTasksByStatusResponse.t t := λ value, {|
  status := map from value.(V3.tasks.CountTasksByStatusResponse.status) |}.
#[global] Instance v3_roundtrip : RoundTrip t V3.tasks.CountTasksByStatusResponse.t.
Proof. solve_roundtrip. Qed.
End Response.

End count_status.

Module submit.
(** [RequestItem] of [objects/tasks/submit.rs]. *)
Module RequestItem.
Record t : Type := mk {
  expected_output_keys : list string;
  data_dependencies : list string;
  payload_id : string;
  task_options : option TaskOptions.t
}.
#[global] Instance default : Default t := {|
  expected_output_keys := dflt;
  data_dependencies := dflt;
  payload_id := dflt;
  task_options := dflt |}.
#[global] Instance into_v3 : From t V3.tasks.submit_tasks_request.TaskCreation.t := λ value, {|
  V3.tasks.submit_tasks_request.TaskCreation.expected_output_keys := value.(expected_output_keys);
  V3.tasks.submit_tasks_request.TaskCreation.data_dependencies := value.(data_dependencies);
  V3.tasks.submit_tasks_request.TaskCreation.payload_id := value.(payload_id);
  V3.tasks.submit_tasks_request.TaskCreation.task_options := from <$> value.(task_options) |}.
#[global] Instance from_v3 : From V3.tasks.submit_tasks_request.TaskCreation.t t := λ value, {|
  expected_output_keys := value.(V3.tasks.submit_tasks_request.TaskCreation.expected_output_keys);
  data_dependencies := value.(V3.tasks.submit_tasks_request.TaskCreation.data_dependencies);
  payload_id := value.(V3.tasks.submit_tasks_request.TaskCreation.payload_id);
  task_options := from <$> value.(V3.tasks.submit_tasks_request.TaskCreation.task_options) |}.
#[global] Instance v3_roundtrip : RoundTrip t V3.tasks.submit_tasks_request.TaskCreation.t.
Proof. solve_roundtrip. Qed.
End RequestItem.

(** [Request] of [objects/tasks/submit.rs]. *)
Module Request.
Record t : Type := mk {
  session_id : string;
  task_options : option TaskOptions.t;
  items : list RequestItem.t
}.
#[global] Instance default : Default t := {|
  session_id := dflt;
  task_options := dflt;
  items := dflt |}.
#[global] Instance into_v3 : From t V3.tasks.SubmitTasksRequest.t := λ value, {|
  V3.tasks.SubmitTasksRequest.session_id := value.(session_id);
  V3.tasks.SubmitTasksRequest.task_options := from <$> value.(task_options);
  V3.tasks.SubmitTasksRequest.task_creations := map from value.(items) |}.
#[global] Instance from_v3 : From V3.tasks.SubmitTasksRequest.t t := λ value, {|
  session_id := value.(V3.tasks.SubmitTasksRequest.session_id);
  task_options := from <$> value.(V3.tasks.SubmitTasksRequest.task_options);
  items := map from value.(V3.tasks.SubmitTasksRequest.task_creations) |}.
#[global] Instance v3_roundtrip : RoundTrip t V3.tasks.SubmitTasksRequest.t.
Proof. solve_roundtrip. Qed.
End Request.

(** [ResponseItem] of [objects/tasks/submit.rs]. *)
Module ResponseItem.
Record t : Type := mk {
  task_id : string;
  expected_output_ids : list string;
  data_dependencies : list string;
  payload_id : string
}.
#[global] Instance default : Default t := {|
  task_id := dflt;
  expected_output_ids := dflt;
  data_dependencies := dflt;
  payload_id := dflt |}.
#[global] Instance into_v3 : From t V3.tasks.submit_tasks_response.TaskInfo.t := λ value, {|
  V3.tasks.submit_tasks_response.TaskInfo.task_id := value.(task_id);
  V3.tasks.submit_tasks_response.TaskInfo.expected_output_ids := value.(expected_output_ids);
  V3.tasks.submit_tasks_response.TaskInfo.data_dependencies := value.(data_dependencies);
  V3.tasks.submit_tasks_response.TaskInfo.payload_id := value.(payload_id) |}.
#[global] Instance from_v3 : From V3.tasks.submit_tasks_response.TaskInfo.t t := λ value, {|
  task_id := value.(V3.tasks.submit_tasks_response.TaskInfo.task_id);
  expected_output_ids := value.(V3.tasks.submit_tasks_response.TaskInfo.expected_output_ids);
  data_dependencies := value.(V3.tasks.submit_tasks_response.TaskInfo.data_dependencies);
  payload_id := value.(V3.tasks.submit_tasks_response.TaskInfo.payload_id) |}.
#[global] Instance v3_roundtrip : RoundTrip t V3.tasks.submit_tasks_response.TaskInfo.t.
Proof. solve_roundtrip. Qed.
End ResponseItem.

(** [Response] of [objects/tasks/submit.rs]. *)
Module Response.
Record t : Type := mk {
  items : list ResponseItem.t
}.
#[global] Instance default : Default t := {|
  items := dflt |}.
#[global] Instance into_v3 : From t V3.tasks.SubmitTasksResponse.t := λ value, {|
  V3.tasks.SubmitTasksResponse.task_infos := map from value.(items) |}.
#[global] Instance from_v3 : From V3.tasks.SubmitTasksResponse.t t := λ value, {|
  items := map from value.(V3.tasks.SubmitTasksResponse.task_infos) |}.
#[global] Instance v3_roundtrip : RoundTrip t V3.tasks.SubmitTasksResponse.t.
Proof. solve_roundtrip. Qed.
End Response.

End submit.

Module get_result_ids.
(** [Request] of [objects/tasks/get_result_ids.rs]. *)
Module Request.
Record t : Type := mk {
  task_ids : list string
}.
#[global] Instance default : Default t := {|
  task_ids := dflt |}.
#[global] Instance into_v3 : From t V3.tasks.GetResultIdsRequest.t := λ value, {|
  V3.tasks.GetResultIdsRequest.task_id := map from value.(task_ids) |}.
#[global] Instance from_v3 : From V3.tasks.GetResultIdsRequest.t t := λ value, {|
  task_ids := map from value.(V3.tasks.GetResultIdsRequest.task_id) |}.
#[global] Instance v3_roundtrip : RoundTrip t V3.tasks.GetResultIdsRequest.t.
Proof. solve_roundtrip. Qed.
End Request.

Module Response.
Record t : Type := mk {
  task_results : gmap string (list string)
}.
#[global] Instance default : Default t := {| task_results := ∅ |}.
#[global] Instance into_v3 `{!HashMapIter} : From t V3.tasks.GetResultIdsResponse.t := λ value, {|
  V3.tasks.GetResultIdsResponse.task_results :=
    map (λ '(task_id, result_ids), {|
           V3.tasks.get_result_ids_response.MapTaskResult.task_id := task_id;
           V3.tasks.get_result_ids_response.MapTaskResult.result_ids := result_ids |})
      (hash_iter value.(task_results)) |}.
#[global] Instance from_v3 : From V3.tasks.GetResultIdsResponse.t t := λ value, {|
  task_results :=
    collect_map
      (map (λ pair, (pair.(V3.tasks.get_result_ids_response.MapTaskResult.task_id),
                     pair.(V3.tasks.get_result_ids_response.MapTaskResult.result_ids)))
         value.(V3.tasks.GetResultIdsResponse.task_results)) |}.
#[global] Instance v3_roundtrip `{!HashMapIter} : RoundTrip t V3.tasks.GetResultIdsResponse.t.
Proof. solve_map_roundtrip. Qed.
End Response.
End get_result_ids.
