(* ===== verification/Results.v ===== *)
(** The objects of the Results service ([objects/results/*.rs]). *)

From S2P Require Import Prelude V3 Objects Filters.

(** [Field] of [objects/results/field.rs]. *)
Module Field.
Inductive t : Type :=
| Unspecified
| SessionId
| Name
| OwnerTaskId
| Status
| CreatedAt
| CompletedAt
| ResultId
| Size
| CreatedBy
| OpaqueId
| ManualDeletion.
#[global] Instance eq_dec : EqDecision t.
Proof. solve_decision. Defined.
#[global] Instance default : Default t := ResultId.
#[global] Instance discriminant : AsI32 t := λ v,
  match v with
  | Unspecified => 0
  | SessionId => 1
  | Name => 2
  | OwnerTaskId => 3
  | Status => 4
  | CreatedAt => 5
  | CompletedAt => 6
  | ResultId => 7
  | Size => 8
  | CreatedBy => 9
  | OpaqueId => 10
  | ManualDeletion => 11
  end%Z.
#[global] Instance from_i32 : From Z t := λ value,
  match value with
  | 0 => Unspecified
  | 1 => SessionId
  | 2 => Name
  | 3 => OwnerTaskId
  | 4 => Status
  | 5 => CreatedAt
  | 6 => CompletedAt
  | 7 => ResultId
  | 8 => Size
  | 9 => CreatedBy
  | 10 => OpaqueId
  | 11 => ManualDeletion
  | _ => Unspecified
  end%Z.
#[global] Instance i32_roundtrip : CodeRoundTrip t.
Proof. by_variant. Qed.
End Field.

#[global] Instance Field_into_v3 : From Field.t V3.results.ResultField.t := λ value,
  {| V3.results.ResultField.field :=
       Some (V3.results.result_field.Field.ResultRawField {| V3.results.ResultRawField.field := as_i32 value |}) |}.
#[global] Instance Field_from_v3 : From V3.results.ResultField.t Field.t := λ value,
  match value.(V3.results.ResultField.field) with
  | Some (V3.results.result_field.Field.ResultRawField field) => from field.(V3.results.ResultRawField.field)
  | None => Field.Unspecified
  end.
#[global] Instance Field_v3_roundtrip : RoundTrip Field.t V3.results.ResultField.t.
Proof. by_variant. Qed.

(** [Raw] of [objects/results/raw.rs]. *)
Module Raw.
Record t : Type := mk {
  session_id : string;
  name : string;
  owner_task_id : string;
  status : ResultStatus.t;
  created_at : option V3.Timestamp.t;
  completed_at : option V3.Timestamp.t;
  result_id : string;
  size : Z;
  created_by : string;
  opaque_id : list byte;
  manual_deletion : bool
}.
#[global] Instance default : Default t := {|
  session_id := dflt;
  name := dflt;
  owner_task_id := dflt;
  status := dflt;
  created_at := dflt;
  completed_at := dflt;
  result_id := dflt;
  size := dflt;
  created_by := dflt;
  opaque_id := dflt;
  manual_deletion := dflt |}.
#[global] Instance into_v3 : From t V3.results.ResultRaw.t := λ value, {|
  V3.results.ResultRaw.session_id := value.(session_id);
  V3.results.ResultRaw.name := value.(name);
  V3.results.ResultRaw.owner_task_id := value.(owner_task_id);
  V3.results.ResultRaw.status := as_i32 value.(status);
  V3.results.ResultRaw.created_at := value.(created_at);
  V3.results.ResultRaw.completed_at := value.(completed_at);
  V3.results.ResultRaw.result_id := value.(result_id);
  V3.results.ResultRaw.size := value.(size);
  V3.results.ResultRaw.created_by := value.(created_by);
  V3.results.ResultRaw.opaque_id := value.(opaque_id);
  V3.results.ResultRaw.manual_deletion := value.(manual_deletion) |}.
#[global] Instance from_v3 : From V3.results.ResultRaw.t t := λ value, {|
  session_id := value.(V3.results.ResultRaw.session_id);
  name := value.(V3.results.ResultRaw.name);
  owner_task_id := value.(V3.results.ResultRaw.owner_task_id);
  status := from value.(V3.results.ResultRaw.status);
  created_at := value.(V3.results.ResultRaw.created_at);
  completed_at := value.(V3.results.ResultRaw.completed_at);
  result_id := value.(V3.results.ResultRaw.result_id);
  size := value.(V3.results.ResultRaw.size);
  created_by := value.(V3.results.ResultRaw.created_by);
  opaque_id := value.(V3.results.ResultRaw.opaque_id);
  manual_deletion := value.(V3.results.ResultRaw.manual_deletion) |}.
#[global] Instance v3_roundtrip : RoundTrip t V3.results.ResultRaw.t.
Proof. solve_roundtrip. Qed.
End Raw.

(** [pub type Sort = super::Sort<Field>] of [objects/results/mod.rs]. *)
Module Sort.
Definition t : Type := Objects.Sort.t Field.t.
#[global] Instance into_v3 : From t V3.results.list_results_request.Sort.t := λ value, {|
  V3.results.list_results_request.Sort.field := Some (from value.(Objects.Sort.field));
  V3.results.list_results_request.Sort.direction := as_i32 value.(Objects.Sort.direction) |}.
#[global] Instance from_v3 : From V3.results.list_results_request.Sort.t t := λ value, {|
  Objects.Sort.field := from_or_default value.(V3.results.list_results_request.Sort.field);
  Objects.Sort.direction := from value.(V3.results.list_results_request.Sort.direction) |}.
#[global] Instance v3_roundtrip : RoundTrip t V3.results.list_results_request.Sort.t.
Proof. solve_roundtrip. Qed.
End Sort.

(** [objects/results/filter.rs]. *)
Module filter.
Module Status.
Definition t : Type := FilterStatus.t ResultStatus.t.
#[global] Instance into_v3 : From t V3.results.FilterStatus.t := λ v, {|
  V3.results.FilterStatus.value := as_i32 v.(FilterStatus.value);
  V3.results.FilterStatus.operator := as_i32 v.(FilterStatus.operator) |}.
#[global] Instance from_v3 : From V3.results.FilterStatus.t t := λ v, {|
  FilterStatus.value := from v.(V3.results.FilterStatus.value);
  FilterStatus.operator := from v.(V3.results.FilterStatus.operator) |}.
#[global] Instance v3_roundtrip : RoundTrip t V3.results.FilterStatus.t.
Proof. solve_roundtrip. Qed.
End Status.

Module Condition.
Inductive t : Type :=
| String (cond : FilterString.t)
| Date (cond : FilterDate.t)
| Array (cond : FilterArray.t)
| Status (cond : Status.t)
| Number (cond : FilterNumber.t).
#[global] Instance default : Default t := String dflt.
#[global] Instance into_v3 : From t V3.results.filter_field.ValueCondition.t := λ value,
  match value with
  | String cond => V3.results.filter_field.ValueCondition.FilterString (from cond)
  | Date cond => V3.results.filter_field.ValueCondition.FilterDate (from cond)
  | Array cond => V3.results.filter_field.ValueCondition.FilterArray (from cond)
  | Status cond => V3.results.filter_field.ValueCondition.FilterStatus (from cond)
  | Number cond => V3.results.filter_field.ValueCondition.FilterNumber (from cond)
  end.
#[global] Instance from_v3 : From V3.results.filter_field.ValueCondition.t t := λ value,
  match value with
  | V3.results.filter_field.ValueCondition.FilterString cond => String (from cond)
  | V3.results.filter_field.ValueCondition.FilterDate cond => Date (from cond)
  | V3.results.filter_field.ValueCondition.FilterArray cond => Array (from cond)
  | V3.results.filter_field.ValueCondition.FilterStatus cond => Status (from cond)
  | V3.results.filter_field.ValueCondition.FilterNumber cond => Number (from cond)
  end.
#[global] Instance v3_roundtrip : RoundTrip t V3.results.filter_field.ValueCondition.t.
Proof. solve_roundtrip. Qed.
End Condition.

Module Field.
Record t : Type := mk {
  field : Field.t;
  condition : Condition.t
}.
#[global] Instance default : Default t := {|
  field := dflt;
  condition := dflt |}.
#[global] Instance into_v3 : From t V3.results.FilterField.t := λ value, {|
  V3.results.FilterField.field := Some (from value.(field));
  V3.results.FilterField.value_condition := Some (from value.(condition)) |}.
#[global] Instance from_v3 : From V3.results.FilterField.t t := λ value, {|
  field := from_or_default value.(V3.results.FilterField.field);
  condition := from_or_default value.(V3.results.FilterField.value_condition) |}.
#[global] Instance v3_roundtrip : RoundTrip t V3.results.FilterField.t.
Proof. solve_roundtrip. Qed.
End Field.

Module And.
Record t : Type := mk {
  and : list Field.t
}.
#[global] Instance default : Default t := {|
  and := dflt |}.
#[global] Instance into_v3 : From t V3.results.FiltersAnd.t := λ value, {|
  V3.results.FiltersAnd.and := map from value.(and) |}.
#[global] Instance from_v3 : From V3.results.FiltersAnd.t t := λ value, {|
  and := map from value.(V3.results.FiltersAnd.and) |}.
#[global] Instance v3_roundtrip : RoundTrip t V3.results.FiltersAnd.t.
Proof. solve_roundtrip. Qed.
(** [impl_vec_wrapper!(And{and: Field})]. *)
Definition from_iter (iter : list Field.t) : t := {| and := iter |}.
Definition into_iter (self : t) : list Field.t := self.(and).
End And.

Module Or.
Record t : Type := mk {
  or : list And.t
}.
#[global] Instance default : Default t := {|
  or := dflt |}.
#[global] Instance into_v3 : From t V3.results.Filters.t := λ value, {|
  V3.results.Filters.or := map from value.(or) |}.
#[global] Instance from_v3 : From V3.results.Filters.t t := λ value, {|
  or := map from value.(V3.results.Filters.or) |}.
#[global] Instance v3_roundtrip : RoundTrip t V3.results.Filters.t.
Proof. solve_roundtrip. Qed.
(** [impl_vec_wrapper!(Or{or: And})]. *)
Definition from_iter (iter : list And.t) : t := {| or := iter |}.
Definition into_iter (self : t) : list And.t := self.(or).
End Or.

End filter.

Module list.
(** [Request] of [objects/results/list.rs]. *)
Module Request.
Record t : Type := mk {
  page : Z;
  page_size : Z;
  filters : filter.Or.t;
  sort : Sort.t
}.
#[global] Instance default : Default t := {|
  page := 0%Z;
  page_size := 100%Z;
  filters := dflt;
  sort := dflt |}.
#[global] Instance into_v3 : From t V3.results.ListResultsRequest.t := λ value, {|
  V3.results.ListResultsRequest.page := value.(page);
  V3.results.ListResultsRequest.page_size := value.(page_size);
  V3.results.ListResultsRequest.filters := Some (from value.(filters));
  V3.results.ListResultsRequest.sort := Some (from value.(sort)) |}.
#[global] Instance from_v3 : From V3.results.ListResultsRequest.t t := λ value, {|
  page := value.(V3.results.ListResultsRequest.page);
  page_size := value.(V3.results.ListResultsRequest.page_size);
  filters := from_or_default value.(V3.results.ListResultsRequest.filters);
  sort := from_or_default value.(V3.results.ListResultsRequest.sort) |}.
#[global] Instance v3_roundtrip : RoundTrip t V3.results.ListResultsRequest.t.
Proof. solve_roundtrip. Qed.
End Request.

(** [Response] of [objects/results/list.rs]. *)
Module Response.
Record t : Type := mk {
  results : list Raw.t;
  page : Z;
  page_size : Z;
  total : Z
}.
#[global] Instance default : Default t := {|
  results := [];
  page := 0%Z;
  page_size := 100%Z;
  total := 0%Z |}.
#[global] Instance into_v3 : From t V3.results.ListResultsResponse.t := λ value, {|
  V3.results.ListResultsResponse.results := map from value.(results);
  V3.results.ListResultsResponse.page := value.(page);
  V3.results.ListResultsResponse.page_size := value.(page_size);
  V3.results.ListResultsResponse.total := value.(total) |}.
#[global] Instance from_v3 : From V3.results.ListResultsResponse.t t := λ value, {|
  results := map from value.(V3.results.ListResultsResponse.results);
  page := value.(V3.results.ListResultsResponse.page);
  page_size := value.(V3.results.ListResultsResponse.page_size);
  total := value.(V3.results.ListResultsResponse.total) |}.
#[global] Instance v3_roundtrip : RoundTrip t V3.results.ListResultsResponse.t.
Proof. solve_roundtrip. Qed.
End Response.

End list.

Module get.
(** [Request] of [objects/results/get.rs]. *)
Module Request.
Record t : Type := mk {
  id : string
}.
#[global] Instance default : Default t := {|
  id := dflt |}.
#[global] Instance into_v3 : From t V3.results.GetResultRequest.t := λ value, {|
  V3.results.GetResultRequest.result_id := value.(id) |}.
#[global] Instance from_v3 : From V3.results.GetResultRequest.t t := λ value, {|
  id := value.(V3.results.GetResultRequest.result_id) |}.
#[global] Instance v3_roundtrip : RoundTrip t V3.results.GetResultRequest.t.
Proof. solve_roundtrip. Qed.
End Request.

(** [Response] of [objects/results/get.rs]. *)
Module Response.
Record t : Type := mk {
  result : Raw.t
}.
#[global] Instance default : Default t := {|
  result := dflt |}.
#[global] Instance into_v3 : From t V3.results.GetResultResponse.t := λ value, {|
  V3.results.GetResultResponse.result := Some (from value.(result)) |}.
#[global] Instance from_v3 : From V3.results.GetResultResponse.t t := λ value, {|
  result := from_or_default value.(V3.results.GetResultResponse.result) |}.
#[global] Instance v3_roundtrip : RoundTrip t V3.results.GetResultResponse.t.
Proof. solve_roundtrip. Qed.
End Response.

End get.

Module create.
(** [RequestItem] of [objects/results/create.rs]. *)
Module RequestItem.
Record t : Type := mk {
  name : string;
  data : list byte;
  manual_deletion : bool
}.
#[global] Instance default : Default t := {|
  name := dflt;
  data := dflt;
  manual_deletion := dflt |}.
#[global] Instance into_v3 : From t V3.results.create_results_request.ResultCreate.t := λ value, {|
  V3.results.create_results_request.ResultCreate.name := value.(name);
  V3.results.create_results_request.ResultCreate.data := value.(data);
  V3.results.create_results_request.ResultCreate.manual_deletion := value.(manual_deletion) |}.
#[global] Instance from_v3 : From V3.results.create_results_request.ResultCreate.t t := λ value, {|
  name := value.(V3.results.create_results_request.ResultCreate.name);
  data := value.(V3.results.create_results_request.ResultCreate.data);
  manual_deletion := value.(V3.results.create_results_request.ResultCreate.manual_deletion) |}.
#[global] Instance v3_roundtrip : RoundTrip t V3.results.create_results_request.ResultCreate.t.
Proof. solve_roundtrip. Qed.
End RequestItem.

(** [Request] of [objects/results/create.rs]. *)
Module Request.
Record t : Type := mk {
  results : list RequestItem.t;
  session_id : string
}.
#[global] Instance default : Default t := {|
  results := dflt;
  session_id := dflt |}.
#[global] Instance into_v3 : From t V3.results.CreateResultsRequest.t := λ value, {|
  V3.results.CreateResultsRequest.results := map from value.(results);
  V3.results.CreateResultsRequest.session_id := value.(session_id) |}.
#[global] Instance from_v3 : From V3.results.CreateResultsRequest.t t := λ value, {|
  results := map from value.(V3.results.CreateResultsRequest.results);
  session_id := value.(V3.results.CreateResultsRequest.session_id) |}.
#[global] Instance v3_roundtrip : RoundTrip t V3.results.CreateResultsRequest.t.
Proof. solve_roundtrip. Qed.
End Request.

(** [Response] of [objects/results/create.rs]. *)
Module Response.
Record t : Type := mk {
  results : list Raw.t
}.
#[global] Instance default : Default t := {|
  results := dflt |}.
#[global] Instance into_v3 : From t V3.results.CreateResultsResponse.t := λ value, {|
  V3.results.CreateResultsResponse.results := map from value.(results) |}.
#[global] Instance from_v3 : From V3.results.CreateResultsResponse.t t := λ value, {|
  results := map from value.(V3.results.CreateResultsResponse.results) |}.
#[global] Instance v3_roundtrip : RoundTrip t V3.results.CreateResultsResponse.t.
Proof. solve_roundtrip. Qed.
End Response.

#[global] Instance RequestItem_from_pair {K V} `{From K string, From V (list byte)} :
    From (K * V) RequestItem.t := λ '(name, data), {|
  RequestItem.name := from name;
  RequestItem.data := from data;
  RequestItem.manual_deletion := false |}.

End create.

Module create_metadata.
(** [RequestItem] of [objects/results/create_metadata.rs]. *)
Module RequestItem.
Record t : Type := mk {
  name : string;
  manual_deletion : bool
}.
#[global] Instance default : Default t := {|
  name := dflt;
  manual_deletion := dflt |}.
#[global] Instance into_v3 : From t V3.results.create_results_meta_data_request.ResultCreate.t := λ value, {|
  V3.results.create_results_meta_data_request.ResultCreate.name := value.(name);
  V3.results.create_results_meta_data_request.ResultCreate.manual_deletion := value.(manual_deletion) |}.
#[global] Instance from_v3 : From V3.results.create_results_meta_data_request.ResultCreate.t t := λ value, {|
  name := value.(V3.results.create_results_meta_data_request.ResultCreate.name);
  manual_deletion := value.(V3.results.create_results_meta_data_request.ResultCreate.manual_deletion) |}.
#[global] Instance v3_roundtrip : RoundTrip t V3.results.create_results_meta_data_request.ResultCreate.t.
Proof. solve_roundtrip. Qed.
End RequestItem.

(** [Request] of [objects/results/create_metadata.rs]. *)
Module Request.
Record t : Type := mk {
  results : list RequestItem.t;
  session_id : string
}.
#[global] Instance default : Default t := {|
  results := dflt;
  session_id := dflt |}.
#[global] Instance into_v3 : From t V3.results.CreateResultsMetaDataRequest.t := λ value, {|
  V3.results.CreateResultsMetaDataRequest.results := map from value.(results);
  V3.results.CreateResultsMetaDataRequest.session_id := value.(session_id) |}.
#[global] Instance from_v3 : From V3.results.CreateResultsMetaDataRequest.t t := λ value, {|
  results := map from value.(V3.results.CreateResultsMetaDataRequest.results);
  session_id := value.(V3.results.CreateResultsMetaDataRequest.session_id) |}.
#[global] Instance v3_roundtrip : RoundTrip t V3.results.CreateResultsMetaDataRequest.t.
Proof. solve_roundtrip. Qed.
End Request.

(** [Response] of [objects/results/create_metadata.rs]. *)
Module Response.
Record t : Type := mk {
  results : list Raw.t
}.
#[global] Instance default : Default t := {|
  results := dflt |}.
#[global] Instance into_v3 : From t V3.results.CreateResultsMetaDataResponse.t := λ value, {|
  V3.results.CreateResultsMetaDataResponse.results := map from value.(results) |}.
#[global] Instance from_v3 : From V3.results.CreateResultsMetaDataResponse.t t := λ value, {|
  results := map from value.(V3.results.CreateResultsMetaDataResponse.results) |}.
#[global] Instance v3_roundtrip : RoundTrip t V3.results.CreateResultsMetaDataResponse.t.
Proof. solve_roundtrip. Qed.
End Response.

Definition RequestItem_from {T} `{From T string} (value : T) : RequestItem.t := {|
  RequestItem.name := from value;
  RequestItem.manual_deletion := false |}.

End create_metadata.

Module get_owner_task_id.
(** [Request] of [objects/results/get_owner_task_id.rs]. *)
Module Request.
Record t : Type := mk {
  session_id : string;
  result_ids : list string
}.
#[global] Instance default : Default t := {|
  session_id := dflt;
  result_ids := dflt |}.
#[global] Instance into_v3 : From t V3.results.GetOwnerTaskIdRequest.t := λ value, {|
  V3.results.GetOwnerTaskIdRequest.session_id := value.(session_id);
  V3.results.GetOwnerTaskIdRequest.result_id := map from value.(result_ids) |}.
#[global] Instance from_v3 : From V3.results.GetOwnerTaskIdRequest.t t := λ value, {|
  session_id := value.(V3.results.GetOwnerTaskIdRequest.session_id);
  result_ids := map from value.(V3.results.GetOwnerTaskIdRequest.result_id) |}.
#[global] Instance v3_roundtrip : RoundTrip t V3.results.GetOwnerTaskIdRequest.t.
Proof. solve_roundtrip. Qed.
End Request.

Module Response.
Record t : Type := mk {
  result_task : gmap string string;
  session_id : string
}.
#[global] Instance default : Default t := {|
  result_task := ∅;
  session_id := dflt |}.
#[global] Instance into_v3 `{!HashMapIter} : From t V3.results.GetOwnerTaskIdResponse.t := λ value, {|
  V3.results.GetOwnerTaskIdResponse.result_task :=
    map (λ '(key, value), {|
           V3.results.get_owner_task_id_response.MapResultTask.result_id := key;
           V3.results.get_owner_task_id_response.MapResultTask.task_id := value |})
      (hash_iter value.(result_task));
  V3.results.GetOwnerTaskIdResponse.session_id := value.(session_id) |}.
#[global] Instance from_v3 : From V3.results.GetOwnerTaskIdResponse.t t := λ value, {|
  result_task :=
    collect_map
      (map (λ entry, (entry.(V3.results.get_owner_task_id_response.MapResultTask.result_id), entry.(V3.results.get_owner_task_id_response.MapResultTask.task_id)))
         value.(V3.results.GetOwnerTaskIdResponse.result_task));
  session_id := value.(V3.results.GetOwnerTaskIdResponse.session_id) |}.
#[global] Instance v3_roundtrip `{!HashMapIter} : RoundTrip t V3.results.GetOwnerTaskIdResponse.t.
Proof. solve_map_roundtrip. Qed.
End Response.

End get_owner_task_id.

Module import.
Module Request.
Record t : Type := mk {
  results : gmap string (list byte);
  session_id : string
}.
#[global] Instance default : Default t := {|
  results := ∅;
  session_id := dflt |}.
#[global] Instance into_v3 `{!HashMapIter} : From t V3.results.ImportResultsDataRequest.t := λ value, {|
  V3.results.ImportResultsDataRequest.results :=
    map (λ '(key, value), {|
           V3.results.import_results_data_request.ResultOpaqueId.result_id := key;
           V3.results.import_results_data_request.ResultOpaqueId.opaque_id := value |})
      (hash_iter value.(results));
  V3.results.ImportResultsDataRequest.session_id := value.(session_id) |}.
#[global] Instance from_v3 : From V3.results.ImportResultsDataRequest.t t := λ value, {|
  results :=
    collect_map
      (map (λ entry, (entry.(V3.results.import_results_data_request.ResultOpaqueId.result_id), entry.(V3.results.import_results_data_request.ResultOpaqueId.opaque_id)))
         value.(V3.results.ImportResultsDataRequest.results));
  session_id := value.(V3.results.ImportResultsDataRequest.session_id) |}.
#[global] Instance v3_roundtrip `{!HashMapIter} : RoundTrip t V3.results.ImportResultsDataRequest.t.
Proof. solve_map_roundtrip. Qed.
End Request.

(** The request and the reply are not keyed alike: a reply is sent as the values
    of its map, and a decoded one is keyed by the names of the results. *)
Module Response.
Record t : Type := mk {
  results : gmap string Raw.t
}.
#[global] Instance default : Default t := {| results := ∅ |}.
#[global] Instance into_v3 `{!HashMapIter} : From t V3.results.ImportResultsDataResponse.t := λ value, {|
  V3.results.ImportResultsDataResponse.results :=
    map from (hash_iter value.(results)).*2 |}.
#[global] Instance from_v3 : From V3.results.ImportResultsDataResponse.t t := λ value, {|
  results :=
    collect_map
      (map (λ result, (result.(V3.results.ResultRaw.name), from result))
         value.(V3.results.ImportResultsDataResponse.results)) |}.

(** What the message keeps of a reply: its values, under their names. *)
Definition by_name `{!HashMapIter} (self : t) : t := {|
  results := collect_map (map (λ raw, (raw.(Raw.name), raw)) (hash_iter self.(results)).*2) |}.
Lemma import_response_v3_by_name `{!HashMapIter} (self : t) :
  from (from self : V3.results.ImportResultsDataResponse.t) = by_name self.
Proof.
  destruct self. unfold from at 1 2, from_v3, into_v3, by_name. cbn. f_equal. f_equal.
  rewrite map_map. apply map_ext. intros raw. by rewrite roundtrip.
Qed.
(** The replies whose keys are the names of their values. *)
Definition keyed_by_name (self : t) : Prop :=
  map_Forall (λ key raw, raw.(Raw.name) = key) self.(results).
#[global] Instance v3_roundtrip `{!HashMapIter} :
  RoundTripOn keyed_by_name V3.results.ImportResultsDataResponse.t.
Proof.
  intros x Hx. rewrite import_response_v3_by_name. destruct x as [m].
  unfold by_name. cbn. f_equal.
  rewrite <-(map_id (hash_iter m).*2). apply collect_map_values.
  intros k v Hv. by rewrite <-(Hx k v Hv).
Qed.
End Response.
End import.

Module delete_data.
(** [Request] of [objects/results/delete_data.rs]. *)
Module Request.
Record t : Type := mk {
  session_id : string;
  result_ids : list string
}.
#[global] Instance default : Default t := {|
  session_id := dflt;
  result_ids := dflt |}.
#[global] Instance into_v3 : From t V3.results.DeleteResultsDataRequest.t := λ value, {|
  V3.results.DeleteResultsDataRequest.session_id := value.(session_id);
  V3.results.DeleteResultsDataRequest.result_id := value.(result_ids) |}.
#[global] Instance from_v3 : From V3.results.DeleteResultsDataRequest.t t := λ value, {|
  session_id := value.(V3.results.DeleteResultsDataRequest.session_id);
  result_ids := value.(V3.results.DeleteResultsDataRequest.result_id) |}.
#[global] Instance v3_roundtrip : RoundTrip t V3.results.DeleteResultsDataRequest.t.
Proof. solve_roundtrip. Qed.
End Request.

(** [Response] of [objects/results/delete_data.rs]. *)
Module Response.
Record t : Type := mk {
  session_id : string;
  result_ids : list string
}.
#[global] Instance default : Default t := {|
  session_id := dflt;
  result_ids := dflt |}.
#[global] Instance into_v3 : From t V3.results.DeleteResultsDataResponse.t := λ value, {|
  V3.results.DeleteResultsDataResponse.session_id := value.(session_id);
  V3.results.DeleteResultsDataResponse.result_id := value.(result_ids) |}.
#[global] Instance from_v3 : From V3.results.DeleteResultsDataResponse.t t := λ value, {|
  session_id := value.(V3.results.DeleteResultsDataResponse.session_id);
  result_ids := value.(V3.results.DeleteResultsDataResponse.result_id) |}.
#[global] Instance v3_roundtrip : RoundTrip t V3.results.DeleteResultsDataResponse.t.
Proof. solve_roundtrip. Qed.
End Response.

End delete_data.

Module upload.
(** [Request] of [objects/results/upload.rs]: one message of the upload stream. *)
Module Request.
Inductive t : Type :=
| Identifier (session_id result_id : string)
| DataChunk (data : list byte).
#[global] Instance default : Default t := Identifier dflt dflt.
#[global] Instance into_v3 : From t V3.results.UploadResultDataRequest.t := λ value,
  match value with
  | Identifier session result_id => {|
      V3.results.UploadResultDataRequest.type_ := Some
        (V3.results.upload_result_data_request.Type_.Id {|
           V3.results.upload_result_data_request.ResultIdentifier.session_id := session;
           V3.results.upload_result_data_request.ResultIdentifier.result_id := result_id |}) |}
  | DataChunk data => {|
      V3.results.UploadResultDataRequest.type_ :=
        Some (V3.results.upload_result_data_request.Type_.DataChunk data) |}
  end.
#[global] Instance from_v3 : From V3.results.UploadResultDataRequest.t t := λ value,
  match value.(V3.results.UploadResultDataRequest.type_) with
  | Some (V3.results.upload_result_data_request.Type_.Id id) =>
      Identifier
        id.(V3.results.upload_result_data_request.ResultIdentifier.session_id)
        id.(V3.results.upload_result_data_request.ResultIdentifier.result_id)
  | Some (V3.results.upload_result_data_request.Type_.DataChunk data) => DataChunk data
  | None => dflt
  end.
#[global] Instance v3_roundtrip : RoundTrip t V3.results.UploadResultDataRequest.t.
Proof. solve_roundtrip. Qed.
End Request.

(** [Response] of [objects/results/upload.rs]. *)
Module Response.
Record t : Type := mk {
  result : Raw.t
}.
#[global] Instance default : Default t := {|
  result := dflt |}.
#[global] Instance into_v3 : From t V3.results.UploadResultDataResponse.t := λ value, {|
  V3.results.UploadResultDataResponse.result := Some (from value.(result)) |}.
#[global] Instance from_v3 : From V3.results.UploadResultDataResponse.t t := λ value, {|
  result := from_or_default value.(V3.results.UploadResultDataResponse.result) |}.
#[global] Instance v3_roundtrip : RoundTrip t V3.results.UploadResultDataResponse.t.
Proof. solve_roundtrip. Qed.
End Response.

End upload.

Module download.
(** [Request] of [objects/results/download.rs]. *)
Module Request.
Record t : Type := mk {
  session_id : string;
  result_id : string
}.
#[global] Instance default : Default t := {|
  session_id := dflt;
  result_id := dflt |}.
#[global] Instance into_v3 : From t V3.results.DownloadResultDataRequest.t := λ value, {|
  V3.results.DownloadResultDataRequest.session_id := value.(session_id);
  V3.results.DownloadResultDataRequest.result_id := value.(result_id) |}.
#[global] Instance from_v3 : From V3.results.DownloadResultDataRequest.t t := λ value, {|
  session_id := value.(V3.results.DownloadResultDataRequest.session_id);
  result_id := value.(V3.results.DownloadResultDataRequest.result_id) |}.
#[global] Instance v3_roundtrip : RoundTrip t V3.results.DownloadResultDataRequest.t.
Proof. solve_roundtrip. Qed.
End Request.

(** [Response] of [objects/results/download.rs]. *)
Module Response.
Record t : Type := mk {
  data_chunk : list byte
}.
#[global] Instance default : Default t := {|
  data_chunk := dflt |}.
#[global] Instance into_v3 : From t V3.results.DownloadResultDataResponse.t := λ value, {|
  V3.results.DownloadResultDataResponse.data_chunk := value.(data_chunk) |}.
#[global] Instance from_v3 : From V3.results.DownloadResultDataResponse.t t := λ value, {|
  data_chunk := value.(V3.results.DownloadResultDataResponse.data_chunk) |}.
#[global] Instance v3_roundtrip : RoundTrip t V3.results.DownloadResultDataResponse.t.
Proof. solve_roundtrip. Qed.
End Response.

End download.

Module get_service_configuration.
(** [Request] of [objects/results/get_service_configuration.rs]. *)
Module Request.
Record t : Type := mk { }.
#[global] Instance default : Default t := mk.
#[global] Instance into_v3 : From t V3.Empty.t := λ _, V3.Empty.mk.
#[global] Instance from_v3 : From V3.Empty.t t := λ _, mk.
#[global] Instance v3_roundtrip : RoundTrip t V3.Empty.t.
Proof. solve_roundtrip. Qed.
End Request.

(** [Response] of [objects/results/get_service_configuration.rs]. *)
Module Response.
Record t : Type := mk {
  data_chunk_max_size : Z
}.
#[global] Instance default : Default t := {|
  data_chunk_max_size := (64 * 1024)%Z |}.
#[global] Instance into_v3 : From t V3.results.ResultsServiceConfigurationResponse.t := λ value, {|
  V3.results.ResultsServiceConfigurationResponse.data_chunk_max_size := value.(data_chunk_max_size) |}.
#[global] Instance from_v3 : From V3.results.ResultsServiceConfigurationResponse.t t := λ value, {|
  data_chunk_max_size := value.(V3.results.ResultsServiceConfigurationResponse.data_chunk_max_size) |}.
#[global] Instance v3_roundtrip : RoundTrip t V3.results.ResultsServiceConfigurationResponse.t.
Proof. solve_roundtrip. Qed.
End Response.

End get_service_configuration.
