(* ===== verification/Partitions.v ===== *)
(** The objects of the Partitions service ([objects/partitions/*.rs]). *)

From S2P Require Import Prelude V3 Objects Filters.

(** [Field] of [objects/partitions/field.rs]. *)
Module Field.
Inductive t : Type :=
| Unspecified
| Id
| ParentPartitionIds
| PodReserved
| PodMax
| PreemptionPercentage
| Priority.
#[global] Instance eq_dec : EqDecision t.
Proof. solve_decision. Defined.
#[global] Instance default : Default t := Id.
#[global] Instance discriminant : AsI32 t := λ v,
  match v with
  | Unspecified => 0
  | Id => 1
  | ParentPartitionIds => 2
  | PodReserved => 3
  | PodMax => 4
  | PreemptionPercentage => 5
  | Priority => 6
  end%Z.
#[global] Instance from_i32 : From Z t := λ value,
  match value with
  | 0 => Unspecified
  | 1 => Id
  | 2 => ParentPartitionIds
  | 3 => PodReserved
  | 4 => PodMax
  | 5 => PreemptionPercentage
  | 6 => Priority
  | _ => Unspecified
  end%Z.
#[global] Instance i32_roundtrip : CodeRoundTrip t.
Proof. by_variant. Qed.
End Field.

#[global] Instance Field_into_v3 : From Field.t V3.partitions.PartitionField.t := λ value,
  {| V3.partitions.PartitionField.field :=
       Some (V3.partitions.partition_field.Field.PartitionRawField {| V3.partitions.PartitionRawField.field := as_i32 value |}) |}.
#[global] Instance Field_from_v3 : From V3.partitions.PartitionField.t Field.t := λ value,
  match value.(V3.partitions.PartitionField.field) with
  | Some (V3.partitions.partition_field.Field.PartitionRawField field) => from field.(V3.partitions.PartitionRawField.field)
  | None => Field.Unspecified
  end.
#[global] Instance Field_v3_roundtrip : RoundTrip Field.t V3.partitions.PartitionField.t.
Proof. by_variant. Qed.

(** [Raw] of [objects/partitions/raw.rs]. *)
Module Raw.
Record t : Type := mk {
  partition_id : string;
  parent_partition_ids : list string;
  pod_reserved : Z;
  pod_max : Z;
  pod_configuration : gmap string string;
  preemption_percentage : Z;
  priority : Z
}.
#[global] Instance default : Default t := {|
  partition_id := dflt;
  parent_partition_ids := dflt;
  pod_reserved := dflt;
  pod_max := dflt;
  pod_configuration := dflt;
  preemption_percentage := dflt;
  priority := dflt |}.
#[global] Instance into_v3 : From t V3.partitions.PartitionRaw.t := λ value, {|
  V3.partitions.PartitionRaw.id := value.(partition_id);
  V3.partitions.PartitionRaw.parent_partition_ids := value.(parent_partition_ids);
  V3.partitions.PartitionRaw.pod_reserved := value.(pod_reserved);
  V3.partitions.PartitionRaw.pod_max := value.(pod_max);
  V3.partitions.PartitionRaw.pod_configuration := value.(pod_configuration);
  V3.partitions.PartitionRaw.preemption_percentage := value.(preemption_percentage);
  V3.partitions.PartitionRaw.priority := value.(priority) |}.
#[global] Instance from_v3 : From V3.partitions.PartitionRaw.t t := λ value, {|
  partition_id := value.(V3.partitions.PartitionRaw.id);
  parent_partition_ids := value.(V3.partitions.PartitionRaw.parent_partition_ids);
  pod_reserved := value.(V3.partitions.PartitionRaw.pod_reserved);
  pod_max := value.(V3.partitions.PartitionRaw.pod_max);
  pod_configuration := value.(V3.partitions.PartitionRaw.pod_configuration);
  preemption_percentage := value.(V3.partitions.PartitionRaw.preemption_percentage);
  priority := value.(V3.partitions.PartitionRaw.priority) |}.
#[global] Instance v3_roundtrip : RoundTrip t V3.partitions.PartitionRaw.t.
Proof. solve_roundtrip. Qed.
End Raw.

(** [pub type Sort = super::Sort<Field>] of [objects/partitions/mod.rs]. *)
Module Sort.
Definition t : Type := Objects.Sort.t Field.t.
#[global] Instance into_v3 : From t V3.partitions.list_partitions_request.Sort.t := λ value, {|
  V3.partitions.list_partitions_request.Sort.field := Some (from value.(Objects.Sort.field));
  V3.partitions.list_partitions_request.Sort.direction := as_i32 value.(Objects.Sort.direction) |}.
#[global] Instance from_v3 : From V3.partitions.list_partitions_request.Sort.t t := λ value, {|
  Objects.Sort.field := from_or_default value.(V3.partitions.list_partitions_request.Sort.field);
  Objects.Sort.direction := from value.(V3.partitions.list_partitions_request.Sort.direction) |}.
#[global] Instance v3_roundtrip : RoundTrip t V3.partitions.list_partitions_request.Sort.t.
Proof. solve_roundtrip. Qed.
End Sort.

(** [objects/partitions/filter.rs]. *)
Module filter.
Module Condition.
Inductive t : Type :=
| String (cond : FilterString.t)
| Number (cond : FilterNumber.t)
| Boolean (cond : FilterBoolean.t)
| Array (cond : FilterArray.t).
#[global] Instance default : Default t := String dflt.
#[global] Instance into_v3 : From t V3.partitions.filter_field.ValueCondition.t := λ value,
  match value with
  | String cond => V3.partitions.filter_field.ValueCondition.FilterString (from cond)
  | Number cond => V3.partitions.filter_field.ValueCondition.FilterNumber (from cond)
  | Boolean cond => V3.partitions.filter_field.ValueCondition.FilterBoolean (from cond)
  | Array cond => V3.partitions.filter_field.ValueCondition.FilterArray (from cond)
  end.
#[global] Instance from_v3 : From V3.partitions.filter_field.ValueCondition.t t := λ value,
  match value with
  | V3.partitions.filter_field.ValueCondition.FilterString cond => String (from cond)
  | V3.partitions.filter_field.ValueCondition.FilterNumber cond => Number (from cond)
  | V3.partitions.filter_field.ValueCondition.FilterBoolean cond => Boolean (from cond)
  | V3.partitions.filter_field.ValueCondition.FilterArray cond => Array (from cond)
  end.
#[global] Instance v3_roundtrip : RoundTrip t V3.partitions.filter_field.ValueCondition.t.
Proof. solve_roundtrip. Qed.
End Condition.

Module Field.
Record t : Type := mk {
  field : Field.t;
  condition : Condition.t
}.
#[global] Instance default : Default t := {|
  field := dflt;
  condition := dflt |}.
#[global] Instance into_v3 : From t V3.partitions.FilterField.t := λ value, {|
  V3.partitions.FilterField.field := Some (from value.(field));
  V3.partitions.FilterField.value_condition := Some (from value.(condition)) |}.
#[global] Instance from_v3 : From V3.partitions.FilterField.t t := λ value, {|
  field := from_or_default value.(V3.partitions.FilterField.field);
  condition := from_or_default value.(V3.partitions.FilterField.value_condition) |}.
#[global] Instance v3_roundtrip : RoundTrip t V3.partitions.FilterField.t.
Proof. solve_roundtrip. Qed.
End Field.

Module And.
Record t : Type := mk {
  and : list Field.t
}.
#[global] Instance default : Default t := {|
  and := dflt |}.
#[global] Instance into_v3 : From t V3.partitions.FiltersAnd.t := λ value, {|
  V3.partitions.FiltersAnd.and := map from value.(and) |}.
#[global] Instance from_v3 : From V3.partitions.FiltersAnd.t t := λ value, {|
  and := map from value.(V3.partitions.FiltersAnd.and) |}.
#[global] Instance v3_roundtrip : RoundTrip t V3.partitions.FiltersAnd.t.
Proof. solve_roundtrip. Qed.
(** [impl_vec_wrapper!(And{and: Field})]. *)
Definition from_iter (iter : list Field.t) : t := {| and := iter |}.
Definition into_iter (self : t) : list Field.t := self.(and).
End And.

Module Or.
Record t : Type := mk {
  or : list And.t
}.
#[global] Instance default : Default t := {|
  or := dflt |}.
#[global] Instance into_v3 : From t V3.partitions.Filters.t := λ value, {|
  V3.partitions.Filters.or := map from value.(or) |}.
#[global] Instance from_v3 : From V3.partitions.Filters.t t := λ value, {|
  or := map from value.(V3.partitions.Filters.or) |}.
#[global] Instance v3_roundtrip : RoundTrip t V3.partitions.Filters.t.
Proof. solve_roundtrip. Qed.
(** [impl_vec_wrapper!(Or{or: And})]. *)
Definition from_iter (iter : list And.t) : t := {| or := iter |}.
Definition into_iter (self : t) : list And.t := self.(or).
End Or.

End filter.

Module list.
(** [Request] of [objects/partitions/list.rs]. *)
Module Request.
Record t : Type := mk {
  page : Z;
  page_size : Z;
  filters : filter.Or.t;
  sort : Sort.t
}.
#[global] Instance default : Default t := {|
  page := 0%Z;
  page_size := 100%Z;
  filters := dflt;
  sort := dflt |}.
#[global] Instance into_v3 : From t V3.partitions.ListPartitionsRequest.t := λ value, {|
  V3.partitions.ListPartitionsRequest.page := value.(page);
  V3.partitions.ListPartitionsRequest.page_size := value.(page_size);
  V3.partitions.ListPartitionsRequest.filters := Some (from value.(filters));
  V3.partitions.ListPartitionsRequest.sort := Some (from value.(sort)) |}.
#[global] Instance from_v3 : From V3.partitions.ListPartitionsRequest.t t := λ value, {|
  page := value.(V3.partitions.ListPartitionsRequest.page);
  page_size := value.(V3.partitions.ListPartitionsRequest.page_size);
  filters := from_or_default value.(V3.partitions.ListPartitionsRequest.filters);
  sort := from_or_default value.(V3.partitions.ListPartitionsRequest.sort) |}.
#[global] Instance v3_roundtrip : RoundTrip t V3.partitions.ListPartitionsRequest.t.
Proof. solve_roundtrip. Qed.
End Request.

(** [Response] of [objects/partitions/list.rs]. *)
Module Response.
Record t : Type := mk {
  partitions : list Raw.t;
  page : Z;
  page_size : Z;
  total : Z
}.
#[global] Instance default : Default t := {|
  partitions := [];
  page := 0%Z;
  page_size := 100%Z;
  total := 0%Z |}.
#[global] Instance into_v3 : From t V3.partitions.ListPartitionsResponse.t := λ value, {|
  V3.partitions.ListPartitionsResponse.partitions := map from value.(partitions);
  V3.partitions.ListPartitionsResponse.page := value.(page);
  V3.partitions.ListPartitionsResponse.page_size := value.(page_size);
  V3.partitions.ListPartitionsResponse.total := value.(total) |}.
#[global] Instance from_v3 : From V3.partitions.ListPartitionsResponse.t t := λ value, {|
  partitions := map from value.(V3.partitions.ListPartitionsResponse.partitions);
  page := value.(V3.partitions.ListPartitionsResponse.page);
  page_size := value.(V3.partitions.ListPartitionsResponse.page_size);
  total := value.(V3.partitions.ListPartitionsResponse.total) |}.
#[global] Instance v3_roundtrip : RoundTrip t V3.partitions.ListPartitionsResponse.t.
Proof. solve_roundtrip. Qed.
End Response.

End list.

Module get.
(** [Request] of [objects/partitions/get.rs]. *)
Module Request.
Record t : Type := mk {
  partition_id : string
}.
#[global] Instance default : Default t := {|
  partition_id := dflt |}.
#[global] Instance into_v3 : From t V3.partitions.GetPartitionRequest.t := λ value, {|
  V3.partitions.GetPartitionRequest.id := value.(partition_id) |}.
#[global] Instance from_v3 : From V3.partitions.GetPartitionRequest.t t := λ value, {|
  partition_id := value.(V3.partitions.GetPartitionRequest.id) |}.
#[global] Instance v3_roundtrip : RoundTrip t V3.partitions.GetPartitionRequest.t.
Proof. solve_roundtrip. Qed.
End Request.

(** [Response] of [objects/partitions/get.rs]. *)
Module Response.
Record t : Type := mk {
  partition : Raw.t
}.
#[global] Instance default : Default t := {|
  partition := dflt |}.
#[global] Instance into_v3 : From t V3.partitions.GetPartitionResponse.t := λ value, {|
  V3.partitions.GetPartitionResponse.partition := Some (from value.(partition)) |}.
#[global] Instance from_v3 : From V3.partitions.GetPartitionResponse.t t := λ value, {|
  partition := from_or_default value.(V3.partitions.GetPartitionResponse.partition) |}.
#[global] Instance v3_roundtrip : RoundTrip t V3.partitions.GetPartitionResponse.t.
Proof. solve_roundtrip. Qed.
End Response.

End get.
