(* ===== verification/Applications.v ===== *)
(** The objects of the Applications service ([objects/applications/*.rs]). *)

From S2P Require Import Prelude V3 Objects Filters.

(** [Field] of [objects/applications/field.rs]. *)
Module Field.
Inductive t : Type :=
| Unspecified
| Name
| Version
| Namespace
| Service.
#[global] Instance eq_dec : EqDecision t.
Proof. solve_decision. Defined.
#[global] Instance default : Default t := Name.
#[global] Instance discriminant : AsI32 t := λ v,
  match v with
  | Unspecified => 0
  | Name => 1
  | Version => 2
  | Namespace => 3
  | Service => 4
  end%Z.
#[global] Instance from_i32 : From Z t := λ value,
  match value with
  | 0 => Unspecified
  | 1 => Name
  | 2 => Version
  | 3 => Namespace
  | 4 => Service
  | _ => Unspecified
  end%Z.
#[global] Instance i32_roundtrip : CodeRoundTrip t.
Proof. by_variant. Qed.
End Field.

#[global] Instance Field_into_v3 : From Field.t V3.applications.ApplicationField.t := λ value,
  {| V3.applications.ApplicationField.field :=
       Some (V3.applications.application_field.Field.ApplicationField {| V3.applications.ApplicationRawField.field := as_i32 value |}) |}.
#[global] Instance Field_from_v3 : From V3.applications.ApplicationField.t Field.t := λ value,
  match value.(V3.applications.ApplicationField.field) with
  | Some (V3.applications.application_field.Field.ApplicationField field) => from field.(V3.applications.ApplicationRawField.field)
  | None => Field.Unspecified
  end.
#[global] Instance Field_v3_roundtrip : RoundTrip Field.t V3.applications.ApplicationField.t.
Proof. by_variant. Qed.

(** [Raw] of [objects/applications/raw.rs]. *)
Module Raw.
Record t : Type := mk {
  name : string;
  version : string;
  namespace : string;
  service : string
}.
#[global] Instance default : Default t := {|
  name := dflt;
  version := dflt;
  namespace := dflt;
  service := dflt |}.
#[global] Instance into_v3 : From t V3.applications.ApplicationRaw.t := λ value, {|
  V3.applications.ApplicationRaw.name := value.(name);
  V3.applications.ApplicationRaw.version := value.(version);
  V3.applications.ApplicationRaw.namespace := value.(namespace);
  V3.applications.ApplicationRaw.service := value.(service) |}.
#[global] Instance from_v3 : From V3.applications.ApplicationRaw.t t := λ value, {|
  name := value.(V3.applications.ApplicationRaw.name);
  version := value.(V3.applications.ApplicationRaw.version);
  namespace := value.(V3.applications.ApplicationRaw.namespace);
  service := value.(V3.applications.ApplicationRaw.service) |}.
#[global] Instance v3_roundtrip : RoundTrip t V3.applications.ApplicationRaw.t.
Proof. solve_roundtrip. Qed.
End Raw.

(** [pub type Sort = super::SortMany<Field>] of [objects/applications/mod.rs]. *)
Module Sort.
Definition t : Type := Objects.SortMany.t Field.t.
#[global] Instance into_v3 : From t V3.applications.list_applications_request.Sort.t := λ value, {|
  V3.applications.list_applications_request.Sort.direction := as_i32 value.(Objects.SortMany.direction);
  V3.applications.list_applications_request.Sort.fields := map from value.(Objects.SortMany.fields) |}.
#[global] Instance from_v3 : From V3.applications.list_applications_request.Sort.t t := λ value, {|
  Objects.SortMany.direction := from value.(V3.applications.list_applications_request.Sort.direction);
  Objects.SortMany.fields := map from value.(V3.applications.list_applications_request.Sort.fields) |}.
#[global] Instance v3_roundtrip : RoundTrip t V3.applications.list_applications_request.Sort.t.
Proof. solve_roundtrip. Qed.
End Sort.

(** [objects/applications/filter.rs]. *)
Module filter.
Module Condition.
Inductive t : Type :=
| String (cond : FilterString.t).
#[global] Instance default : Default t := String dflt.
#[global] Instance into_v3 : From t V3.applications.filter_field.ValueCondition.t := λ value,
  match value with
  | String cond => V3.applications.filter_field.ValueCondition.FilterString (from cond)
  end.
#[global] Instance from_v3 : From V3.applications.filter_field.ValueCondition.t t := λ value,
  match value with
  | V3.applications.filter_field.ValueCondition.FilterString cond => String (from cond)
  end.
#[global] Instance v3_roundtrip : RoundTrip t V3.applications.filter_field.ValueCondition.t.
Proof. solve_roundtrip. Qed.
End Condition.

Module Field.
Record t : Type := mk {
  field : Field.t;
  condition : Condition.t
}.
#[global] Instance default : Default t := {|
  field := dflt;
  condition := dflt |}.
#[global] Instance into_v3 : From t V3.applications.FilterField.t := λ value, {|
  V3.applications.FilterField.field := Some (from value.(field));
  V3.applications.FilterField.value_condition := Some (from value.(condition)) |}.
#[global] Instance from_v3 : From V3.applications.FilterField.t t := λ value, {|
  field := from_or_default value.(V3.applications.FilterField.field);
  condition := from_or_default value.(V3.applications.FilterField.value_condition) |}.
#[global] Instance v3_roundtrip : RoundTrip t V3.applications.FilterField.t.
Proof. solve_roundtrip. Qed.
End Field.

Module And.
Record t : Type := mk {
  and : list Field.t
}.
#[global] Instance default : Default t := {|
  and := dflt |}.
#[global] Instance into_v3 : From t V3.applications.FiltersAnd.t := λ value, {|
  V3.applications.FiltersAnd.and := map from value.(and) |}.
#[global] Instance from_v3 : From V3.applications.FiltersAnd.t t := λ value, {|
  and := map from value.(V3.applications.FiltersAnd.and) |}.
#[global] Instance v3_roundtrip : RoundTrip t V3.applications.FiltersAnd.t.
Proof. solve_roundtrip. Qed.
(** [impl_vec_wrapper!(And{and: Field})]. *)
Definition from_iter (iter : list Field.t) : t := {| and := iter |}.
Definition into_iter (self : t) : list Field.t := self.(and).
End And.

Module Or.
Record t : Type := mk {
  or : list And.t
}.
#[global] Instance default : Default t := {|
  or := dflt |}.
#[global] Instance into_v3 : From t V3.applications.Filters.t := λ value, {|
  V3.applications.Filters.or := map from value.(or) |}.
#[global] Instance from_v3 : From V3.applications.Filters.t t := λ value, {|
  or := map from value.(V3.applications.Filters.or) |}.
#[global] Instance v3_roundtrip : RoundTrip t V3.applications.Filters.t.
Proof. solve_roundtrip. Qed.
(** [impl_vec_wrapper!(Or{or: And})]. *)
Definition from_iter (iter : list And.t) : t := {| or := iter |}.
Definition into_iter (self : t) : list And.t := self.(or).
End Or.

End filter.

Module list.
(** [Request] of [objects/applications/list.rs]. *)
Module Request.
Record t : Type := mk {
  page : Z;
  page_size : Z;
  filters : filter.Or.t;
  sort : Sort.t
}.
#[global] Instance default : Default t := {|
  page := 0%Z;
  page_size := 100%Z;
  filters := dflt;
  sort := dflt |}.
#[global] Instance into_v3 : From t V3.applications.ListApplicationsRequest.t := λ value, {|
  V3.applications.ListApplicationsRequest.page := value.(page);
  V3.applications.ListApplicationsRequest.page_size := value.(page_size);
  V3.applications.ListApplicationsRequest.filters := Some (from value.(filters));
  V3.applications.ListApplicationsRequest.sort := Some (from value.(sort)) |}.
#[global] Instance from_v3 : From V3.applications.ListApplicationsRequest.t t := λ value, {|
  page := value.(V3.applications.ListApplicationsRequest.page);
  page_size := value.(V3.applications.ListApplicationsRequest.page_size);
  filters := from_or_default value.(V3.applications.ListApplicationsRequest.filters);
  sort := from_or_default value.(V3.applications.ListApplicationsRequest.sort) |}.
#[global] Instance v3_roundtrip : RoundTrip t V3.applications.ListApplicationsRequest.t.
Proof. solve_roundtrip. Qed.
End Request.

(** [Response] of [objects/applications/list.rs]. *)
Module Response.
Record t : Type := mk {
  applications : list Raw.t;
  page : Z;
  page_size : Z;
  total : Z
}.
#[global] Instance default : Default t := {|
  applications := [];
  page := 0%Z;
  page_size := 100%Z;
  total := 0%Z |}.
#[global] Instance into_v3 : From t V3.applications.ListApplicationsResponse.t := λ value, {|
  V3.applications.ListApplicationsResponse.applications := map from value.(applications);
  V3.applications.ListApplicationsResponse.page := value.(page);
  V3.applications.ListApplicationsResponse.page_size := value.(page_size);
  V3.applications.ListApplicationsResponse.total := value.(total) |}.
#[global] Instance from_v3 : From V3.applications.ListApplicationsResponse.t t := λ value, {|
  applications := map from value.(V3.applications.ListApplicationsResponse.applications);
  page := value.(V3.applications.ListApplicationsResponse.page);
  page_size := value.(V3.applications.ListApplicationsResponse.page_size);
  total := value.(V3.applications.ListApplicationsResponse.total) |}.
#[global] Instance v3_roundtrip : RoundTrip t V3.applications.ListApplicationsResponse.t.
Proof. solve_roundtrip. Qed.
End Response.

End list.
