(* ===== verification/Misc.v ===== *)
(** The objects of the services without filters: Auth ([objects/auth/*.rs]), Versions
    ([objects/versions/*.rs]) and HealthChecks ([objects/health_checks/*.rs]). *)

From S2P Require Import Prelude V3 Objects.

Module Auth.
(** [User] of [objects/auth/user.rs]. *)
Module User.
Record t : Type := mk {
  username : string;
  roles : list string;
  permissions : list string
}.
#[global] Instance default : Default t := {|
  username := dflt;
  roles := dflt;
  permissions := dflt |}.
#[global] Instance into_v3 : From t V3.auth.User.t := λ value, {|
  V3.auth.User.username := value.(username);
  V3.auth.User.roles := map from value.(roles);
  V3.auth.User.permissions := map from value.(permissions) |}.
#[global] Instance from_v3 : From V3.auth.User.t t := λ value, {|
  username := value.(V3.auth.User.username);
  roles := map from value.(V3.auth.User.roles);
  permissions := map from value.(V3.auth.User.permissions) |}.
#[global] Instance v3_roundtrip : RoundTrip t V3.auth.User.t.
Proof. solve_roundtrip. Qed.
End User.

Module current_user.
(** [Request] of [objects/auth/current_user.rs]. *)
Module Request.
Record t : Type := mk { }.
#[global] Instance default : Default t := mk.
#[global] Instance into_v3 : From t V3.auth.GetCurrentUserRequest.t := λ _, V3.auth.GetCurrentUserRequest.mk.
#[global] Instance from_v3 : From V3.auth.GetCurrentUserRequest.t t := λ _, mk.
#[global] Instance v3_roundtrip : RoundTrip t V3.auth.GetCurrentUserRequest.t.
Proof. solve_roundtrip. Qed.
End Request.

(** [Response] of [objects/auth/current_user.rs]. *)
Module Response.
Record t : Type := mk {
  user : User.t
}.
#[global] Instance default : Default t := {|
  user := dflt |}.
#[global] Instance into_v3 : From t V3.auth.GetCurrentUserResponse.t := λ value, {|
  V3.auth.GetCurrentUserResponse.user := Some (from value.(user)) |}.
#[global] Instance from_v3 : From V3.auth.GetCurrentUserResponse.t t := λ value, {|
  user := from_or_default value.(V3.auth.GetCurrentUserResponse.user) |}.
#[global] Instance v3_roundtrip : RoundTrip t V3.auth.GetCurrentUserResponse.t.
Proof. solve_roundtrip. Qed.
End Response.

End current_user.

End Auth.

Module Versions.
Module list.
(** [Request] of [objects/versions/list.rs]. *)
Module Request.
Record t : Type := mk { }.
#[global] Instance default : Default t := mk.
#[global] Instance into_v3 : From t V3.versions.ListVersionsRequest.t := λ _, V3.versions.ListVersionsRequest.mk.
#[global] Instance from_v3 : From V3.versions.ListVersionsRequest.t t := λ _, mk.
#[global] Instance v3_roundtrip : RoundTrip t V3.versions.ListVersionsRequest.t.
Proof. solve_roundtrip. Qed.
End Request.

(** [Response] of [objects/versions/list.rs]. *)
Module Response.
Record t : Type := mk {
  core : string;
  api : string
}.
#[global] Instance default : Default t := {|
  core := dflt;
  api := dflt |}.
#[global] Instance into_v3 : From t V3.versions.ListVersionsResponse.t := λ value, {|
  V3.versions.ListVersionsResponse.core := value.(core);
  V3.versions.ListVersionsResponse.api := value.(api) |}.
#[global] Instance from_v3 : From V3.versions.ListVersionsResponse.t t := λ value, {|
  core := value.(V3.versions.ListVersionsResponse.core);
  api := value.(V3.versions.ListVersionsResponse.api) |}.
#[global] Instance v3_roundtrip : RoundTrip t V3.versions.ListVersionsResponse.t.
Proof. solve_roundtrip. Qed.
End Response.

End list.

End Versions.

Module HealthChecks.
(** [Status] of [objects/health_checks/status.rs]. *)
Module Status.
Inductive t : Type :=
| Unspecified
| Healthy
| Degraded
| Unhealthy.
#[global] Instance eq_dec : EqDecision t.
Proof. solve_decision. Defined.
#[global] Instance default : Default t := Unspecified.
#[global] Instance discriminant : AsI32 t := λ v,
  match v with
  | Unspecified => 0
  | Healthy => 1
  | Degraded => 2
  | Unhealthy => 3
  end%Z.
#[global] Instance from_i32 : From Z t := λ value,
  match value with
  | 0 => Unspecified
  | 1 => Healthy
  | 2 => Degraded
  | 3 => Unhealthy
  | _ => dflt
  end%Z.
#[global] Instance i32_roundtrip : CodeRoundTrip t.
Proof. by_variant. Qed.
#[global] Instance into_v3 : From t V3.health_checks.HealthStatusEnum.t := λ value,
  match value with
  | Unspecified => V3.health_checks.HealthStatusEnum.Unspecified
  | Healthy => V3.health_checks.HealthStatusEnum.Healthy
  | Degraded => V3.health_checks.HealthStatusEnum.Degraded
  | Unhealthy => V3.health_checks.HealthStatusEnum.Unhealthy
  end.
#[global] Instance from_v3 : From V3.health_checks.HealthStatusEnum.t t := λ value,
  match value with
  | V3.health_checks.HealthStatusEnum.Unspecified => Unspecified
  | V3.health_checks.HealthStatusEnum.Healthy => Healthy
  | V3.health_checks.HealthStatusEnum.Degraded => Degraded
  | V3.health_checks.HealthStatusEnum.Unhealthy => Unhealthy
  end.
#[global] Instance v3_roundtrip : RoundTrip t V3.health_checks.HealthStatusEnum.t.
Proof. by_variant. Qed.
End Status.

(** [ServiceHealth] of [objects/health_checks/service_health.rs]. *)
Module ServiceHealth.
Record t : Type := mk {
  name : string;
  message : string;
  health : Status.t
}.
#[global] Instance default : Default t := {|
  name := dflt;
  message := dflt;
  health := dflt |}.
#[global] Instance into_v3 : From t V3.health_checks.check_health_response.ServiceHealth.t := λ value, {|
  V3.health_checks.check_health_response.ServiceHealth.name := value.(name);
  V3.health_checks.check_health_response.ServiceHealth.message := value.(message);
  V3.health_checks.check_health_response.ServiceHealth.healthy := as_i32 value.(health) |}.
#[global] Instance from_v3 : From V3.health_checks.check_health_response.ServiceHealth.t t := λ value, {|
  name := value.(V3.health_checks.check_health_response.ServiceHealth.name);
  message := value.(V3.health_checks.check_health_response.ServiceHealth.message);
  health := from value.(V3.health_checks.check_health_response.ServiceHealth.healthy) |}.
#[global] Instance v3_roundtrip : RoundTrip t V3.health_checks.check_health_response.ServiceHealth.t.
Proof. solve_roundtrip. Qed.
End ServiceHealth.

Module check.
(** [Request] of [objects/health_checks/check.rs]. *)
Module Request.
Record t : Type := mk { }.
#[global] Instance default : Default t := mk.
#[global] Instance into_v3 : From t V3.health_checks.CheckHealthRequest.t := λ _, V3.health_checks.CheckHealthRequest.mk.
#[global] Instance from_v3 : From V3.health_checks.CheckHealthRequest.t t := λ _, mk.
#[global] Instance v3_roundtrip : RoundTrip t V3.health_checks.CheckHealthRequest.t.
Proof. solve_roundtrip. Qed.
End Request.

(** [Response] of [objects/health_checks/check.rs]. *)
Module Response.
Record t : Type := mk {
  services : list ServiceHealth.t
}.
#[global] Instance default : Default t := {|
  services := dflt |}.
#[global] Instance into_v3 : From t V3.health_checks.CheckHealthResponse.t := λ value, {|
  V3.health_checks.CheckHealthResponse.services := map from value.(services) |}.
#[global] Instance from_v3 : From V3.health_checks.CheckHealthResponse.t t := λ value, {|
  services := map from value.(V3.health_checks.CheckHealthResponse.services) |}.
#[global] Instance v3_roundtrip : RoundTrip t V3.health_checks.CheckHealthResponse.t.
Proof. solve_roundtrip. Qed.
End Response.

End check.

End HealthChecks.
