(* ===== verification/Events.v ===== *)
(** The objects of the Events service ([objects/events/*.rs]). *)

From S2P Require Import Prelude V3 Objects Filters Tasks Results.

(** [EventsEnum] of [objects/events/events_enum.rs]. *)
Module EventsEnum.
Inductive t : Type :=
| Unspecified
| NewTask
| TaskStatusUpdate
| NewResult
| ResultStatusUpdate
| ResultOwnerUpdate.
#[global] Instance eq_dec : EqDecision t.
Proof. solve_decision. Defined.
#[global] Instance default : Default t := Unspecified.
#[global] Instance discriminant : AsI32 t := λ v,
  match v with
  | Unspecified => 0
  | NewTask => 1
  | TaskStatusUpdate => 2
  | NewResult => 3
  | ResultStatusUpdate => 4
  | ResultOwnerUpdate => 5
  end%Z.
#[global] Instance from_i32 : From Z t := λ value,
  match value with
  | 0 => Unspecified
  | 1 => NewTask
  | 2 => TaskStatusUpdate
  | 3 => NewResult
  | 4 => ResultStatusUpdate
  | 5 => ResultOwnerUpdate
  | _ => dflt
  end%Z.
#[global] Instance i32_roundtrip : CodeRoundTrip t.
Proof. by_variant. Qed.
#[global] Instance into_v3 : From t V3.events.EventsEnum.t := λ value,
  match value with
  | Unspecified => V3.events.EventsEnum.Unspecified
  | NewTask => V3.events.EventsEnum.NewTask
  | TaskStatusUpdate => V3.events.EventsEnum.TaskStatusUpdate
  | NewResult => V3.events.EventsEnum.NewResult
  | ResultStatusUpdate => V3.events.EventsEnum.ResultStatusUpdate
  | ResultOwnerUpdate => V3.events.EventsEnum.ResultOwnerUpdate
  end.
#[global] Instance from_v3 : From V3.events.EventsEnum.t t := λ value,
  match value with
  | V3.events.EventsEnum.Unspecified => Unspecified
  | V3.events.EventsEnum.NewTask => NewTask
  | V3.events.EventsEnum.TaskStatusUpdate => TaskStatusUpdate
  | V3.events.EventsEnum.NewResult => NewResult
  | V3.events.EventsEnum.ResultStatusUpdate => ResultStatusUpdate
  | V3.events.EventsEnum.ResultOwnerUpdate => ResultOwnerUpdate
  end.
#[global] Instance v3_roundtrip : RoundTrip t V3.events.EventsEnum.t.
Proof. by_variant. Qed.
End EventsEnum.

(** [NewTask] of [objects/events/new_task.rs]. *)
Module NewTask.
Record t : Type := mk {
  task_id : string;
  payload_id : string;
  origin_task_id : string;
  status : TaskStatus.t;
  expected_output_keys : list string;
  data_dependencies : list string;
  retry_of_ids : list string;
  parent_task_ids : list string
}.
#[global] Instance default : Default t := {|
  task_id := dflt;
  payload_id := dflt;
  origin_task_id := dflt;
  status := dflt;
  expected_output_keys := dflt;
  data_dependencies := dflt;
  retry_of_ids := dflt;
  parent_task_ids := dflt |}.
#[global] Instance into_v3 : From t V3.events.event_subscription_response.NewTask.t := λ value, {|
  V3.events.event_subscription_response.NewTask.task_id := value.(task_id);
  V3.events.event_subscription_response.NewTask.payload_id := value.(payload_id);
  V3.events.event_subscription_response.NewTask.origin_task_id := value.(origin_task_id);
  V3.events.event_subscription_response.NewTask.status := as_i32 value.(status);
  V3.events.event_subscription_response.NewTask.expected_output_keys := value.(expected_output_keys);
  V3.events.event_subscription_response.NewTask.data_dependencies := value.(data_dependencies);
  V3.events.event_subscription_response.NewTask.retry_of_ids := value.(retry_of_ids);
  V3.events.event_subscription_response.NewTask.parent_task_ids := value.(parent_task_ids) |}.
#[global] Instance from_v3 : From V3.events.event_subscription_response.NewTask.t t := λ value, {|
  task_id := value.(V3.events.event_subscription_response.NewTask.task_id);
  payload_id := value.(V3.events.event_subscription_response.NewTask.payload_id);
  origin_task_id := value.(V3.events.event_subscription_response.NewTask.origin_task_id);
  status := from value.(V3.events.event_subscription_response.NewTask.status);
  expected_output_keys := value.(V3.events.event_subscription_response.NewTask.expected_output_keys);
  data_dependencies := value.(V3.events.event_subscription_response.NewTask.data_dependencies);
  retry_of_ids := value.(V3.events.event_subscription_response.NewTask.retry_of_ids);
  parent_task_ids := value.(V3.events.event_subscription_response.NewTask.parent_task_ids) |}.
#[global] Instance v3_roundtrip : RoundTrip t V3.events.event_subscription_response.NewTask.t.
Proof. solve_roundtrip. Qed.
End NewTask.

(** [NewResult] of [objects/events/new_result.rs]. *)
Module NewResult.
Record t : Type := mk {
  result_id : string;
  owner_id : string;
  status : ResultStatus.t
}.
#[global] Instance default : Default t := {|
  result_id := dflt;
  owner_id := dflt;
  status := dflt |}.
#[global] Instance into_v3 : From t V3.events.event_subscription_response.NewResult.t := λ value, {|
  V3.events.event_subscription_response.NewResult.result_id := value.(result_id);
  V3.events.event_subscription_response.NewResult.owner_id := value.(owner_id);
  V3.events.event_subscription_response.NewResult.status := as_i32 value.(status) |}.
#[global] Instance from_v3 : From V3.events.event_subscription_response.NewResult.t t := λ value, {|
  result_id := value.(V3.events.event_subscription_response.NewResult.result_id);
  owner_id := value.(V3.events.event_subscription_response.NewResult.owner_id);
  status := from value.(V3.events.event_subscription_response.NewResult.status) |}.
#[global] Instance v3_roundtrip : RoundTrip t V3.events.event_subscription_response.NewResult.t.
Proof. solve_roundtrip. Qed.
End NewResult.

(** [TaskStatusUpdate] of [objects/events/task_status_update.rs]. *)
Module TaskStatusUpdate.
Record t : Type := mk {
  task_id : string;
  status : TaskStatus.t
}.
#[global] Instance default : Default t := {|
  task_id := dflt;
  status := dflt |}.
#[global] Instance into_v3 : From t V3.events.event_subscription_response.TaskStatusUpdate.t := λ value, {|
  V3.events.event_subscription_response.TaskStatusUpdate.task_id := value.(task_id);
  V3.events.event_subscription_response.TaskStatusUpdate.status := as_i32 value.(status) |}.
#[global] Instance from_v3 : From V3.events.event_subscription_response.TaskStatusUpdate.t t := λ value, {|
  task_id := value.(V3.events.event_subscription_response.TaskStatusUpdate.task_id);
  status := from value.(V3.events.event_subscription_response.TaskStatusUpdate.status) |}.
#[global] Instance v3_roundtrip : RoundTrip t V3.events.event_subscription_response.TaskStatusUpdate.t.
Proof. solve_roundtrip. Qed.
End TaskStatusUpdate.

(** [ResultStatusUpdate] of [objects/events/result_status_update.rs]. *)
Module ResultStatusUpdate.
Record t : Type := mk {
  result_id : string;
  status : ResultStatus.t
}.
#[global] Instance default : Default t := {|
  result_id := dflt;
  status := dflt |}.
#[global] Instance into_v3 : From t V3.events.event_subscription_response.ResultStatusUpdate.t := λ value, {|
  V3.events.event_subscription_response.ResultStatusUpdate.result_id := value.(result_id);
  V3.events.event_subscription_response.ResultStatusUpdate.status := as_i32 value.(status) |}.
#[global] Instance from_v3 : From V3.events.event_subscription_response.ResultStatusUpdate.t t := λ value, {|
  result_id := value.(V3.events.event_subscription_response.ResultStatusUpdate.result_id);
  status := from value.(V3.events.event_subscription_response.ResultStatusUpdate.status) |}.
#[global] Instance v3_roundtrip : RoundTrip t V3.events.event_subscription_response.ResultStatusUpdate.t.
Proof. solve_roundtrip. Qed.
End ResultStatusUpdate.

(** [ResultOwnerUpdate] of [objects/events/result_owner_update.rs]. *)
Module ResultOwnerUpdate.
Record t : Type := mk {
  result_id : string;
  previous_owner_id : string;
  current_owner_id : string
}.
#[global] Instance default : Default t := {|
  result_id := dflt;
  previous_owner_id := dflt;
  current_owner_id := dflt |}.
#[global] Instance into_v3 : From t V3.events.event_subscription_response.ResultOwnerUpdate.t := λ value, {|
  V3.events.event_subscription_response.ResultOwnerUpdate.result_id := value.(result_id);
  V3.events.event_subscription_response.ResultOwnerUpdate.previous_owner_id := value.(previous_owner_id);
  V3.events.event_subscription_response.ResultOwnerUpdate.current_owner_id := value.(current_owner_id) |}.
#[global] Instance from_v3 : From V3.events.event_subscription_response.ResultOwnerUpdate.t t := λ value, {|
  result_id := value.(V3.events.event_subscription_response.ResultOwnerUpdate.result_id);
  previous_owner_id := value.(V3.events.event_subscription_response.ResultOwnerUpdate.previous_owner_id);
  current_owner_id := value.(V3.events.event_subscription_response.ResultOwnerUpdate.current_owner_id) |}.
#[global] Instance v3_roundtrip : RoundTrip t V3.events.event_subscription_response.ResultOwnerUpdate.t.
Proof. solve_roundtrip. Qed.
End ResultOwnerUpdate.

(** [Update] of [objects/events/update.rs]: [Invalid] is the absent update. *)
Module Update.
Inductive t : Type :=
| Invalid
| TaskStatusUpdate (update : TaskStatusUpdate.t)
| ResultStatusUpdate (update : ResultStatusUpdate.t)
| ResultOwnerUpdate (update : ResultOwnerUpdate.t)
| NewTask (update : NewTask.t)
| NewResult (update : NewResult.t).
#[global] Instance default : Default t := Invalid.
#[global] Instance into_v3 : From t (option V3.events.event_subscription_response.Update.t) := λ value,
  match value with
  | Invalid => None
  | TaskStatusUpdate update => Some (V3.events.event_subscription_response.Update.TaskStatusUpdate (from update))
  | ResultStatusUpdate update => Some (V3.events.event_subscription_response.Update.ResultStatusUpdate (from update))
  | ResultOwnerUpdate update => Some (V3.events.event_subscription_response.Update.ResultOwnerUpdate (from update))
  | NewTask update => Some (V3.events.event_subscription_response.Update.NewTask (from update))
  | NewResult update => Some (V3.events.event_subscription_response.Update.NewResult (from update))
  end.
#[global] Instance from_v3 : From (option V3.events.event_subscription_response.Update.t) t := λ value,
  match value with
  | Some (V3.events.event_subscription_response.Update.TaskStatusUpdate update) => TaskStatusUpdate (from update)
  | Some (V3.events.event_subscription_response.Update.ResultStatusUpdate update) => ResultStatusUpdate (from update)
  | Some (V3.events.event_subscription_response.Update.ResultOwnerUpdate update) => ResultOwnerUpdate (from update)
  | Some (V3.events.event_subscription_response.Update.NewTask update) => NewTask (from update)
  | Some (V3.events.event_subscription_response.Update.NewResult update) => NewResult (from update)
  | None => Invalid
  end.
#[global] Instance v3_roundtrip : RoundTrip t (option V3.events.event_subscription_response.Update.t).
Proof. solve_roundtrip. Qed.
End Update.

Module subscribe.
Module Request.
Record t : Type := mk {
  session_id : string;
  task_filters : Tasks.filter.Or.t;
  result_filters : Results.filter.Or.t;
  returned_events : list EventsEnum.t
}.
#[global] Instance default : Default t := {|
  session_id := dflt;
  task_filters := dflt;
  result_filters := dflt;
  returned_events := dflt |}.
#[global] Instance into_v3 : From t V3.events.EventSubscriptionRequest.t := λ value, {|
  V3.events.EventSubscriptionRequest.session_id := value.(session_id);
  V3.events.EventSubscriptionRequest.tasks_filters := Some (from value.(task_filters));
  V3.events.EventSubscriptionRequest.results_filters := Some (from value.(result_filters));
  V3.events.EventSubscriptionRequest.returned_events := map as_i32 value.(returned_events) |}.
#[global] Instance from_v3 : From V3.events.EventSubscriptionRequest.t t := λ value, {|
  session_id := value.(V3.events.EventSubscriptionRequest.session_id);
  task_filters :=
    from (unwrap_or_default value.(V3.events.EventSubscriptionRequest.tasks_filters));
  result_filters :=
    from (unwrap_or_default value.(V3.events.EventSubscriptionRequest.results_filters));
  returned_events := map from value.(V3.events.EventSubscriptionRequest.returned_events) |}.
#[global] Instance v3_roundtrip : RoundTrip t V3.events.EventSubscriptionRequest.t.
Proof. solve_roundtrip. Qed.
End Request.

(** [Response] of [objects/events/subscribe.rs]. *)
Module Response.
Record t : Type := mk {
  session_id : string;
  update : Update.t
}.
#[global] Instance default : Default t := {|
  session_id := dflt;
  update := dflt |}.
#[global] Instance into_v3 : From t V3.events.EventSubscriptionResponse.t := λ value, {|
  V3.events.EventSubscriptionResponse.session_id := value.(session_id);
  V3.events.EventSubscriptionResponse.update := from value.(update) |}.
#[global] Instance from_v3 : From V3.events.EventSubscriptionResponse.t t := λ value, {|
  session_id := value.(V3.events.EventSubscriptionResponse.session_id);
  update := from value.(V3.events.EventSubscriptionResponse.update) |}.
#[global] Instance v3_roundtrip : RoundTrip t V3.events.EventSubscriptionResponse.t.
Proof. solve_roundtrip. Qed.
End Response.

End subscribe.
