(* ===== verification/Worker.v ===== *)
(** The objects of the Worker service ([objects/worker/*.rs]). *)

From S2P Require Import Prelude V3 Objects.

Module health_check.
(** [Request] of [objects/worker/health_check.rs]. *)
Module Request.
Record t : Type := mk { }.
#[global] Instance default : Default t := mk.
#[global] Instance into_v3 : From t V3.Empty.t := λ _, V3.Empty.mk.
#[global] Instance from_v3 : From V3.Empty.t t := λ _, mk.
#[global] Instance v3_roundtrip : RoundTrip t V3.Empty.t.
Proof. solve_roundtrip. Qed.
End Request.

(** [Response] of [objects/worker/health_check.rs]. *)
Module Response.
Inductive t : Type :=
| Unknown
| Serving
| NotServing.
#[global] Instance eq_dec : EqDecision t.
Proof. solve_decision. Defined.
#[global] Instance default : Default t := Unknown.
#[global] Instance discriminant : AsI32 t := λ v,
  match v with
  | Unknown => 0
  | Serving => 1
  | NotServing => 2
  end%Z.
#[global] Instance from_i32 : From Z t := λ value,
  match value with
  | 0 => Unknown
  | 1 => Serving
  | 2 => NotServing
  | _ => Unknown
  end%Z.
#[global] Instance i32_roundtrip : CodeRoundTrip t.
Proof. by_variant. Qed.
End Response.

#[global] Instance Response_into_v3 : From Response.t V3.worker.HealthCheckReply.t := λ value,
  {| V3.worker.HealthCheckReply.status := as_i32 value |}.
#[global] Instance Response_from_v3 : From V3.worker.HealthCheckReply.t Response.t := λ value,
  from value.(V3.worker.HealthCheckReply.status).
#[global] Instance Response_v3_roundtrip : RoundTrip Response.t V3.worker.HealthCheckReply.t.
Proof. by_variant. Qed.
End health_check.

Module process.
(** [Request] of [objects/worker/process.rs]. *)
Module Request.
Record t : Type := mk {
  communication_token : string;
  session_id : string;
  task_id : string;
  task_options : TaskOptions.t;
  expected_output_keys : list string;
  payload_id : string;
  data_dependencies : list string;
  data_folder : string;
  configuration : Configuration.t
}.
#[global] Instance default : Default t := {|
  communication_token := dflt;
  session_id := dflt;
  task_id := dflt;
  task_options := dflt;
  expected_output_keys := dflt;
  payload_id := dflt;
  data_dependencies := dflt;
  data_folder := dflt;
  configuration := dflt |}.
#[global] Instance into_v3 : From t V3.worker.ProcessRequest.t := λ value, {|
  V3.worker.ProcessRequest.communication_token := value.(communication_token);
  V3.worker.ProcessRequest.session_id := value.(session_id);
  V3.worker.ProcessRequest.task_id := value.(task_id);
  V3.worker.ProcessRequest.task_options := Some (from value.(task_options));
  V3.worker.ProcessRequest.expected_output_keys := map from value.(expected_output_keys);
  V3.worker.ProcessRequest.payload_id := value.(payload_id);
  V3.worker.ProcessRequest.data_dependencies := map from value.(data_dependencies);
  V3.worker.ProcessRequest.data_folder := value.(data_folder);
  V3.worker.ProcessRequest.configuration := Some (from value.(configuration)) |}.
#[global] Instance from_v3 : From V3.worker.ProcessRequest.t t := λ value, {|
  communication_token := value.(V3.worker.ProcessRequest.communication_token);
  session_id := value.(V3.worker.ProcessRequest.session_id);
  task_id := value.(V3.worker.ProcessRequest.task_id);
  task_options := from_or_default value.(V3.worker.ProcessRequest.task_options);
  expected_output_keys := map from value.(V3.worker.ProcessRequest.expected_output_keys);
  payload_id := value.(V3.worker.ProcessRequest.payload_id);
  data_dependencies := map from value.(V3.worker.ProcessRequest.data_dependencies);
  data_folder := value.(V3.worker.ProcessRequest.data_folder);
  configuration := from_or_default value.(V3.worker.ProcessRequest.configuration) |}.
#[global] Instance v3_roundtrip : RoundTrip t V3.worker.ProcessRequest.t.
Proof. solve_roundtrip. Qed.
End Request.

(** [Response] of [objects/worker/process.rs]. *)
Module Response.
Record t : Type := mk {
  output : Output.t
}.
#[global] Instance default : Default t := {|
  output := dflt |}.
#[global] Instance into_v3 : From t V3.worker.ProcessReply.t := λ value, {|
  V3.worker.ProcessReply.output := Some (from value.(output)) |}.
#[global] Instance from_v3 : From V3.worker.ProcessReply.t t := λ value, {|
  output := from_or_default value.(V3.worker.ProcessReply.output) |}.
#[global] Instance v3_roundtrip : RoundTrip t V3.worker.ProcessReply.t.
Proof. solve_roundtrip. Qed.
End Response.

End process.
