(* ===== verification/Agent.v ===== *)
(** The objects of the Agent service ([objects/agent/*.rs]). *)

From S2P Require Import Prelude V3 Objects.

(** [ResultMetaData] of [objects/agent/result_metadata.rs]. *)
Module ResultMetaData.
Record t : Type := mk {
  session_id : string;
  result_id : string;
  name : string;
  status : ResultStatus.t;
  created_at : option V3.Timestamp.t
}.
#[global] Instance default : Default t := {|
  session_id := dflt;
  result_id := dflt;
  name := dflt;
  status := dflt;
  created_at := dflt |}.
#[global] Instance into_v3 : From t V3.agent.ResultMetaData.t := λ value, {|
  V3.agent.ResultMetaData.session_id := value.(session_id);
  V3.agent.ResultMetaData.result_id := value.(result_id);
  V3.agent.ResultMetaData.name := value.(name);
  V3.agent.ResultMetaData.status := as_i32 value.(status);
  V3.agent.ResultMetaData.created_at := from <$> value.(created_at) |}.
#[global] Instance from_v3 : From V3.agent.ResultMetaData.t t := λ value, {|
  session_id := value.(V3.agent.ResultMetaData.session_id);
  result_id := value.(V3.agent.ResultMetaData.result_id);
  name := value.(V3.agent.ResultMetaData.name);
  status := from value.(V3.agent.ResultMetaData.status);
  created_at := from <$> value.(V3.agent.ResultMetaData.created_at) |}.
#[global] Instance v3_roundtrip : RoundTrip t V3.agent.ResultMetaData.t.
Proof. solve_roundtrip. Qed.
End ResultMetaData.

Module create_results_metadata.
(** [RequestItem] of [objects/agent/create_results_metadata.rs]. *)
Module RequestItem.
Record t : Type := mk {
  name : string
}.
#[global] Instance default : Default t := {|
  name := dflt |}.
#[global] Instance into_v3 : From t V3.agent.create_results_meta_data_request.ResultCreate.t := λ value, {|
  V3.agent.create_results_meta_data_request.ResultCreate.name := value.(name) |}.
#[global] Instance from_v3 : From V3.agent.create_results_meta_data_request.ResultCreate.t t := λ value, {|
  name := value.(V3.agent.create_results_meta_data_request.ResultCreate.name) |}.
#[global] Instance v3_roundtrip : RoundTrip t V3.agent.create_results_meta_data_request.ResultCreate.t.
Proof. solve_roundtrip. Qed.
End RequestItem.

(** [Request] of [objects/agent/create_results_metadata.rs]. *)
Module Request.
Record t : Type := mk {
  communication_token : string;
  results : list RequestItem.t;
  session_id : string
}.
#[global] Instance default : Default t := {|
  communication_token := dflt;
  results := dflt;
  session_id := dflt |}.
#[global] Instance into_v3 : From t V3.agent.CreateResultsMetaDataRequest.t := λ value, {|
  V3.agent.CreateResultsMetaDataRequest.communication_token := value.(communication_token);
  V3.agent.CreateResultsMetaDataRequest.results := map from value.(results);
  V3.agent.CreateResultsMetaDataRequest.session_id := value.(session_id) |}.
#[global] Instance from_v3 : From V3.agent.CreateResultsMetaDataRequest.t t := λ value, {|
  communication_token := value.(V3.agent.CreateResultsMetaDataRequest.communication_token);
  results := map from value.(V3.agent.CreateResultsMetaDataRequest.results);
  session_id := value.(V3.agent.CreateResultsMetaDataRequest.session_id) |}.
#[global] Instance v3_roundtrip : RoundTrip t V3.agent.CreateResultsMetaDataRequest.t.
Proof. solve_roundtrip. Qed.
End Request.

(** [Response] of [objects/agent/create_results_metadata.rs]. *)
Module Response.
Record t : Type := mk {
  communication_token : string;
  results : list ResultMetaData.t
}.
#[global] Instance default : Default t := {|
  communication_token := dflt;
  results := dflt |}.
#[global] Instance into_v3 : From t V3.agent.CreateResultsMetaDataResponse.t := λ value, {|
  V3.agent.CreateResultsMetaDataResponse.communication_token := value.(communication_token);
  V3.agent.CreateResultsMetaDataResponse.results := map from value.(results) |}.
#[global] Instance from_v3 : From V3.agent.CreateResultsMetaDataResponse.t t := λ value, {|
  communication_token := value.(V3.agent.CreateResultsMetaDataResponse.communication_token);
  results := map from value.(V3.agent.CreateResultsMetaDataResponse.results) |}.
#[global] Instance v3_roundtrip : RoundTrip t V3.agent.CreateResultsMetaDataResponse.t.
Proof. solve_roundtrip. Qed.
End Response.

Definition RequestItem_from {T} `{From T string} (value : T) : RequestItem.t := {|
  RequestItem.name := from value |}.

End create_results_metadata.

Module create_results.
(** [RequestItem] of [objects/agent/create_results.rs]. *)
Module RequestItem.
Record t : Type := mk {
  name : string;
  data : list byte
}.
#[global] Instance default : Default t := {|
  name := dflt;
  data := dflt |}.
#[global] Instance into_v3 : From t V3.agent.create_results_request.ResultCreate.t := λ value, {|
  V3.agent.create_results_request.ResultCreate.name := value.(name);
  V3.agent.create_results_request.ResultCreate.data := value.(data) |}.
#[global] Instance from_v3 : From V3.agent.create_results_request.ResultCreate.t t := λ value, {|
  name := value.(V3.agent.create_results_request.ResultCreate.name);
  data := value.(V3.agent.create_results_request.ResultCreate.data) |}.
#[global] Instance v3_roundtrip : RoundTrip t V3.agent.create_results_request.ResultCreate.t.
Proof. solve_roundtrip. Qed.
End RequestItem.

(** [Request] of [objects/agent/create_results.rs]. *)
Module Request.
Record t : Type := mk {
  communication_token : string;
  results : list RequestItem.t;
  session_id : string
}.
#[global] Instance default : Default t := {|
  communication_token := dflt;
  results := dflt;
  session_id := dflt |}.
#[global] Instance into_v3 : From t V3.agent.CreateResultsRequest.t := λ value, {|
  V3.agent.CreateResultsRequest.communication_token := value.(communication_token);
  V3.agent.CreateResultsRequest.results := map from value.(results);
  V3.agent.CreateResultsRequest.session_id := value.(session_id) |}.
#[global] Instance from_v3 : From V3.agent.CreateResultsRequest.t t := λ value, {|
  communication_token := value.(V3.agent.CreateResultsRequest.communication_token);
  results := map from value.(V3.agent.CreateResultsRequest.results);
  session_id := value.(V3.agent.CreateResultsRequest.session_id) |}.
#[global] Instance v3_roundtrip : RoundTrip t V3.agent.CreateResultsRequest.t.
Proof. solve_roundtrip. Qed.
End Request.

(** [Response] of [objects/agent/create_results.rs]. *)
Module Response.
Record t : Type := mk {
  communication_token : string;
  results : list ResultMetaData.t
}.
#[global] Instance default : Default t := {|
  communication_token := dflt;
  results := dflt |}.
#[global] Instance into_v3 : From t V3.agent.CreateResultsResponse.t := λ value, {|
  V3.agent.CreateResultsResponse.communication_token := value.(communication_token);
  V3.agent.CreateResultsResponse.results := map from value.(results) |}.
#[global] Instance from_v3 : From V3.agent.CreateResultsResponse.t t := λ value, {|
  communication_token := value.(V3.agent.CreateResultsResponse.communication_token);
  results := map from value.(V3.agent.CreateResultsResponse.results) |}.
#[global] Instance v3_roundtrip : RoundTrip t V3.agent.CreateResultsResponse.t.
Proof. solve_roundtrip. Qed.
End Response.

#[global] Instance RequestItem_from_pair {K V} `{From K string, From V (list byte)} :
    From (K * V) RequestItem.t := λ '(name, data), {|
  RequestItem.name := from name;
  RequestItem.data := from data |}.

End create_results.

Module get_common_data.
(** [Request] of [objects/agent/get_common_data.rs]. *)
Module Request.
Record t : Type := mk {
  communication_token : string;
  result_id : string
}.
#[global] Instance default : Default t := {|
  communication_token := dflt;
  result_id := dflt |}.
#[global] Instance into_v3 : From t V3.agent.DataRequest.t := λ value, {|
  V3.agent.DataRequest.communication_token := value.(communication_token);
  V3.agent.DataRequest.result_id := value.(result_id) |}.
#[global] Instance from_v3 : From V3.agent.DataRequest.t t := λ value, {|
  communication_token := value.(V3.agent.DataRequest.communication_token);
  result_id := value.(V3.agent.DataRequest.result_id) |}.
#[global] Instance v3_roundtrip : RoundTrip t V3.agent.DataRequest.t.
Proof. solve_roundtrip. Qed.
End Request.

(** [Response] of [objects/agent/get_common_data.rs]. *)
Module Response.
Record t : Type := mk {
  result_id : string
}.
#[global] Instance default : Default t := {|
  result_id := dflt |}.
#[global] Instance into_v3 : From t V3.agent.DataResponse.t := λ value, {|
  V3.agent.DataResponse.result_id := value.(result_id) |}.
#[global] Instance from_v3 : From V3.agent.DataResponse.t t := λ value, {|
  result_id := value.(V3.agent.DataResponse.result_id) |}.
#[global] Instance v3_roundtrip : RoundTrip t V3.agent.DataResponse.t.
Proof. solve_roundtrip. Qed.
End Response.

End get_common_data.

Module get_direct_data.
(** [Request] of [objects/agent/get_direct_data.rs]. *)
Module Request.
Record t : Type := mk {
  communication_token : string;
  result_id : string
}.
#[global] Instance default : Default t := {|
  communication_token := dflt;
  result_id := dflt |}.
#[global] Instance into_v3 : From t V3.agent.DataRequest.t := λ value, {|
  V3.agent.DataRequest.communication_token := value.(communication_token);
  V3.agent.DataRequest.result_id := value.(result_id) |}.
#[global] Instance from_v3 : From V3.agent.DataRequest.t t := λ value, {|
  communication_token := value.(V3.agent.DataRequest.communication_token);
  result_id := value.(V3.agent.DataRequest.result_id) |}.
#[global] Instance v3_roundtrip : RoundTrip t V3.agent.DataRequest.t.
Proof. solve_roundtrip. Qed.
End Request.

(** [Response] of [objects/agent/get_direct_data.rs]. *)
Module Response.
Record t : Type := mk {
  result_id : string
}.
#[global] Instance default : Default t := {|
  result_id := dflt |}.
#[global] Instance into_v3 : From t V3.agent.DataResponse.t := λ value, {|
  V3.agent.DataResponse.result_id := value.(result_id) |}.
#[global] Instance from_v3 : From V3.agent.DataResponse.t t := λ value, {|
  result_id := value.(V3.agent.DataResponse.result_id) |}.
#[global] Instance v3_roundtrip : RoundTrip t V3.agent.DataResponse.t.
Proof. solve_roundtrip. Qed.
End Response.

End get_direct_data.

Module get_resource_data.
(** [Request] of [objects/agent/get_resource_data.rs]. *)
Module Request.
Record t : Type := mk {
  communication_token : string;
  result_id : string
}.
#[global] Instance default : Default t := {|
  communication_token := dflt;
  result_id := dflt |}.
#[global] Instance into_v3 : From t V3.agent.DataRequest.t := λ value, {|
  V3.agent.DataRequest.communication_token := value.(communication_token);
  V3.agent.DataRequest.result_id := value.(result_id) |}.
#[global] Instance from_v3 : From V3.agent.DataRequest.t t := λ value, {|
  communication_token := value.(V3.agent.DataRequest.communication_token);
  result_id := value.(V3.agent.DataRequest.result_id) |}.
#[global] Instance v3_roundtrip : RoundTrip t V3.agent.DataRequest.t.
Proof. solve_roundtrip. Qed.
End Request.

(** [Response] of [objects/agent/get_resource_data.rs]. *)
Module Response.
Record t : Type := mk {
  result_id : string
}.
#[global] Instance default : Default t := {|
  result_id := dflt |}.
#[global] Instance into_v3 : From t V3.agent.DataResponse.t := λ value, {|
  V3.agent.DataResponse.result_id := value.(result_id) |}.
#[global] Instance from_v3 : From V3.agent.DataResponse.t t := λ value, {|
  result_id := value.(V3.agent.DataResponse.result_id) |}.
#[global] Instance v3_roundtrip : RoundTrip t V3.agent.DataResponse.t.
Proof. solve_roundtrip. Qed.
End Response.

End get_resource_data.

Module submit_tasks.
(** [RequestItem] of [objects/agent/submit_tasks.rs]. *)
Module RequestItem.
Record t : Type := mk {
  expected_output_keys : list string;
  data_dependencies : list string;
  payload_id : string;
  task_options : option TaskOptions.t
}.
#[global] Instance default : Default t := {|
  expected_output_keys := dflt;
  data_dependencies := dflt;
  payload_id := dflt;
  task_options := dflt |}.
#[global] Instance into_v3 : From t V3.agent.submit_tasks_request.TaskCreation.t := λ value, {|
  V3.agent.submit_tasks_request.TaskCreation.expected_output_keys := value.(expected_output_keys);
  V3.agent.submit_tasks_request.TaskCreation.data_dependencies := value.(data_dependencies);
  V3.agent.submit_tasks_request.TaskCreation.payload_id := value.(payload_id);
  V3.agent.submit_tasks_request.TaskCreation.task_options := from <$> value.(task_options) |}.
#[global] Instance from_v3 : From V3.agent.submit_tasks_request.TaskCreation.t t := λ value, {|
  expected_output_keys := value.(V3.agent.submit_tasks_request.TaskCreation.expected_output_keys);
  data_dependencies := value.(V3.agent.submit_tasks_request.TaskCreation.data_dependencies);
  payload_id := value.(V3.agent.submit_tasks_request.TaskCreation.payload_id);
  task_options := from <$> value.(V3.agent.submit_tasks_request.TaskCreation.task_options) |}.
#[global] Instance v3_roundtrip : RoundTrip t V3.agent.submit_tasks_request.TaskCreation.t.
Proof. solve_roundtrip. Qed.
End RequestItem.

(** [Request] of [objects/agent/submit_tasks.rs]. *)
Module Request.
Record t : Type := mk {
  communication_token : string;
  session_id : string;
  task_options : option TaskOptions.t;
  items : list RequestItem.t
}.
#[global] Instance default : Default t := {|
  communication_token := dflt;
  session_id := dflt;
  task_options := dflt;
  items := dflt |}.
#[global] Instance into_v3 : From t V3.agent.SubmitTasksRequest.t := λ value, {|
  V3.agent.SubmitTasksRequest.communication_token := value.(communication_token);
  V3.agent.SubmitTasksRequest.session_id := value.(session_id);
  V3.agent.SubmitTasksRequest.task_options := from <$> value.(task_options);
  V3.agent.SubmitTasksRequest.task_creations := map from value.(items) |}.
#[global] Instance from_v3 : From V3.agent.SubmitTasksRequest.t t := λ value, {|
  communication_token := value.(V3.agent.SubmitTasksRequest.communication_token);
  session_id := value.(V3.agent.SubmitTasksRequest.session_id);
  task_options := from <$> value.(V3.agent.SubmitTasksRequest.task_options);
  items := map from value.(V3.agent.SubmitTasksRequest.task_creations) |}.
#[global] Instance v3_roundtrip : RoundTrip t V3.agent.SubmitTasksRequest.t.
Proof. solve_roundtrip. Qed.
End Request.

(** [ResponseItem] of [objects/agent/submit_tasks.rs]. *)
Module ResponseItem.
Record t : Type := mk {
  task_id : string;
  expected_output_ids : list string;
  data_dependencies : list string;
  payload_id : string
}.
#[global] Instance default : Default t := {|
  task_id := dflt;
  expected_output_ids := dflt;
  data_dependencies := dflt;
  payload_id := dflt |}.
#[global] Instance into_v3 : From t V3.agent.submit_tasks_response.TaskInfo.t := λ value, {|
  V3.agent.submit_tasks_response.TaskInfo.task_id := value.(task_id);
  V3.agent.submit_tasks_response.TaskInfo.expected_output_ids := value.(expected_output_ids);
  V3.agent.submit_tasks_response.TaskInfo.data_dependencies := value.(data_dependencies);
  V3.agent.submit_tasks_response.TaskInfo.payload_id := value.(payload_id) |}.
#[global] Instance from_v3 : From V3.agent.submit_tasks_response.TaskInfo.t t := λ value, {|
  task_id := value.(V3.agent.submit_tasks_response.TaskInfo.task_id);
  expected_output_ids := value.(V3.agent.submit_tasks_response.TaskInfo.expected_output_ids);
  data_dependencies := value.(V3.agent.submit_tasks_response.TaskInfo.data_dependencies);
  payload_id := value.(V3.agent.submit_tasks_response.TaskInfo.payload_id) |}.
#[global] Instance v3_roundtrip : RoundTrip t V3.agent.submit_tasks_response.TaskInfo.t.
Proof. solve_roundtrip. Qed.
End ResponseItem.

(** [Response] of [objects/agent/submit_tasks.rs]. *)
Module Response.
Record t : Type := mk {
  communication_token : string;
  items : list ResponseItem.t
}.
#[global] Instance default : Default t := {|
  communication_token := dflt;
  items := dflt |}.
#[global] Instance into_v3 : From t V3.agent.SubmitTasksResponse.t := λ value, {|
  V3.agent.SubmitTasksResponse.communication_token := value.(communication_token);
  V3.agent.SubmitTasksResponse.task_infos := map from value.(items) |}.
#[global] Instance from_v3 : From V3.agent.SubmitTasksResponse.t t := λ value, {|
  communication_token := value.(V3.agent.SubmitTasksResponse.communication_token);
  items := map from value.(V3.agent.SubmitTasksResponse.task_infos) |}.
#[global] Instance v3_roundtrip : RoundTrip t V3.agent.SubmitTasksResponse.t.
Proof. solve_roundtrip. Qed.
End Response.

End submit_tasks.

Module notify_result_data.
(** [Request] of [objects/agent/notify_result_data.rs]: the message repeats the
    session with each result, the object has it once. *)
Module Request.
Record t : Type := mk {
  communication_token : string;
  session_id : string;
  result_ids : list string
}.
#[global] Instance default : Default t := {|
  communication_token := dflt;
  session_id := dflt;
  result_ids := dflt |}.
#[global] Instance into_v3 : From t V3.agent.NotifyResultDataRequest.t := λ value, {|
  V3.agent.NotifyResultDataRequest.ids :=
    map (λ result_id, {|
           V3.agent.notify_result_data_request.ResultIdentifier.session_id := value.(session_id);
           V3.agent.notify_result_data_request.ResultIdentifier.result_id := result_id |})
      value.(result_ids);
  V3.agent.NotifyResultDataRequest.communication_token := value.(communication_token) |}.

(** The closure mapped over [ids], which captures [session_id] by mutable
    reference: it is run on the identifiers in order. *)
Definition take_id (session_id : option string)
    (id : V3.agent.notify_result_data_request.ResultIdentifier.t) : option string * string :=
  let session_id' :=
    match session_id with
    | None => Some id.(V3.agent.notify_result_data_request.ResultIdentifier.session_id)
    | Some s => Some s
    end in
  (session_id', id.(V3.agent.notify_result_data_request.ResultIdentifier.result_id)).

Fixpoint take_ids (session_id : option string)
    (ids : list V3.agent.notify_result_data_request.ResultIdentifier.t)
    : option string * list string :=
  match ids with
  | [] => (session_id, [])
  | id :: ids =>
      let '(session_id, result_id) := take_id session_id id in
      let '(session_id, result_ids) := take_ids session_id ids in
      (session_id, result_id :: result_ids)
  end.

#[global] Instance from_v3 : From V3.agent.NotifyResultDataRequest.t t := λ value,
  let '(session_id, result_ids) := take_ids None value.(V3.agent.NotifyResultDataRequest.ids) in
  {| communication_token := value.(V3.agent.NotifyResultDataRequest.communication_token);
     session_id := unwrap_or_default session_id;
     result_ids := result_ids |}.

Lemma take_ids_Some s ids :
  take_ids (Some s) ids
  = (Some s, map V3.agent.notify_result_data_request.ResultIdentifier.result_id ids).
Proof. induction ids as [|id ids IH]; cbn; [done|]. by rewrite IH. Qed.

Lemma take_ids_None ids :
  take_ids None ids
  = (V3.agent.notify_result_data_request.ResultIdentifier.session_id <$> head ids,
     map V3.agent.notify_result_data_request.ResultIdentifier.result_id ids).
Proof. destruct ids as [|id ids]; cbn; [done|]. by rewrite take_ids_Some. Qed.

(** What the message keeps of a request: without a result, the session is not sent. *)
Definition normalise (self : t) : t := {|
  communication_token := self.(communication_token);
  session_id := match self.(result_ids) with [] => dflt | _ => self.(session_id) end;
  result_ids := self.(result_ids) |}.
Lemma notify_request_v3_normalises (self : t) :
  from (from self : V3.agent.NotifyResultDataRequest.t) = normalise self.
Proof.
  destruct self as [tok s ids]. unfold from at 1 2, from_v3, into_v3, normalise. cbn.
  rewrite take_ids_None, map_map, map_id. by destruct ids.
Qed.
Definition representable (self : t) : Prop :=
  self.(result_ids) = [] → self.(session_id) = EmptyString.
#[global] Instance v3_roundtrip : RoundTripOn representable V3.agent.NotifyResultDataRequest.t.
Proof.
  intros x Hx. rewrite notify_request_v3_normalises. destruct x as [tok s [|id ids]]; [|done].
  unfold normalise. cbn. f_equal. symmetry. by apply Hx.
Qed.
End Request.

(** [Response] of [objects/agent/notify_result_data.rs]. *)
Module Response.
Record t : Type := mk {
  result_ids : list string
}.
#[global] Instance default : Default t := {|
  result_ids := dflt |}.
#[global] Instance into_v3 : From t V3.agent.NotifyResultDataResponse.t := λ value, {|
  V3.agent.NotifyResultDataResponse.result_ids := map from value.(result_ids) |}.
#[global] Instance from_v3 : From V3.agent.NotifyResultDataResponse.t t := λ value, {|
  result_ids := map from value.(V3.agent.NotifyResultDataResponse.result_ids) |}.
#[global] Instance v3_roundtrip : RoundTrip t V3.agent.NotifyResultDataResponse.t.
Proof. solve_roundtrip. Qed.
End Response.

End notify_result_data.

Module create_tasks.
(** [InitRequest] of [objects/agent/create_tasks.rs]. *)
Module InitRequest.
Record t : Type := mk {
  task_options : option TaskOptions.t
}.
#[global] Instance default : Default t := {|
  task_options := dflt |}.
#[global] Instance into_v3 : From t V3.agent.create_task_request.InitRequest.t := λ value, {|
  V3.agent.create_task_request.InitRequest.task_options := from <$> value.(task_options) |}.
#[global] Instance from_v3 : From V3.agent.create_task_request.InitRequest.t t := λ value, {|
  task_options := from <$> value.(V3.agent.create_task_request.InitRequest.task_options) |}.
#[global] Instance v3_roundtrip : RoundTrip t V3.agent.create_task_request.InitRequest.t.
Proof. solve_roundtrip. Qed.
End InitRequest.

(** [Request] of [objects/agent/create_tasks.rs]: one message of the creation stream. *)
Module Request.
Inductive t : Type :=
| Invalid
| InitRequest (communication_token : string) (request : InitRequest.t)
| InitTaskRequest (communication_token : string) (request : InitTaskRequest.t)
| DataChunk (communication_token : string) (chunk : DataChunk.t).
#[global] Instance default : Default t := Invalid.
#[global] Instance into_v3 : From t V3.agent.CreateTaskRequest.t := λ value,
  match value with
  | Invalid => {|
      V3.agent.CreateTaskRequest.communication_token := dflt;
      V3.agent.CreateTaskRequest.type_ := None |}
  | InitRequest communication_token request => {|
      V3.agent.CreateTaskRequest.communication_token := communication_token;
      V3.agent.CreateTaskRequest.type_ :=
        Some (V3.agent.create_task_request.Type_.InitRequest (from request)) |}
  | InitTaskRequest communication_token request => {|
      V3.agent.CreateTaskRequest.communication_token := communication_token;
      V3.agent.CreateTaskRequest.type_ :=
        Some (V3.agent.create_task_request.Type_.InitTask (from request)) |}
  | DataChunk communication_token chunk => {|
      V3.agent.CreateTaskRequest.communication_token := communication_token;
      V3.agent.CreateTaskRequest.type_ :=
        Some (V3.agent.create_task_request.Type_.TaskPayload (from chunk)) |}
  end.
#[global] Instance from_v3 : From V3.agent.CreateTaskRequest.t t := λ value,
  match value.(V3.agent.CreateTaskRequest.type_) with
  | Some (V3.agent.create_task_request.Type_.InitRequest request) =>
      InitRequest value.(V3.agent.CreateTaskRequest.communication_token) (from request)
  | Some (V3.agent.create_task_request.Type_.InitTask request) =>
      InitTaskRequest value.(V3.agent.CreateTaskRequest.communication_token) (from request)
  | Some (V3.agent.create_task_request.Type_.TaskPayload chunk) =>
      DataChunk value.(V3.agent.CreateTaskRequest.communication_token) (from chunk)
  | None => Invalid
  end.
#[global] Instance v3_roundtrip : RoundTrip t V3.agent.CreateTaskRequest.t.
Proof. solve_roundtrip. Qed.
End Request.

Module Status.
Inductive t : Type :=
| TaskInfo (task_id : string) (expected_output_keys data_dependencies : list string)
    (payload_id : string)
| Error (msg : string).
#[global] Instance default : Default t := Error dflt.
#[global] Instance into_v3 : From t V3.agent.create_task_reply.CreationStatus.t := λ value,
  match value with
  | TaskInfo task_id expected_output_keys data_dependencies payload_id => {|
      V3.agent.create_task_reply.CreationStatus.status := Some
        (V3.agent.create_task_reply.creation_status.Status.TaskInfo {|
           V3.agent.create_task_reply.TaskInfo.task_id := task_id;
           V3.agent.create_task_reply.TaskInfo.expected_output_keys := expected_output_keys;
           V3.agent.create_task_reply.TaskInfo.data_dependencies := data_dependencies;
           V3.agent.create_task_reply.TaskInfo.payload_id := payload_id |}) |}
  | Error msg => {|
      V3.agent.create_task_reply.CreationStatus.status := Some (V3.agent.create_task_reply.creation_status.Status.Error msg) |}
  end.
#[global] Instance from_v3 : From V3.agent.create_task_reply.CreationStatus.t t := λ value,
  match value.(V3.agent.create_task_reply.CreationStatus.status) with
  | Some (V3.agent.create_task_reply.creation_status.Status.TaskInfo status) =>
      TaskInfo
        status.(V3.agent.create_task_reply.TaskInfo.task_id)
        status.(V3.agent.create_task_reply.TaskInfo.expected_output_keys)
        status.(V3.agent.create_task_reply.TaskInfo.data_dependencies)
        status.(V3.agent.create_task_reply.TaskInfo.payload_id)
  | Some (V3.agent.create_task_reply.creation_status.Status.Error msg) => Error msg
  | None => dflt
  end.
#[global] Instance v3_roundtrip : RoundTrip t V3.agent.create_task_reply.CreationStatus.t.
Proof. solve_roundtrip. Qed.
End Status.

Module Response.
Inductive t : Type :=
| Status (communication_token : string) (statuses : list Status.t)
| Error (communication_token : string) (error : string).
#[global] Instance default : Default t := Error dflt dflt.
#[global] Instance into_v3 : From t V3.agent.CreateTaskReply.t := λ value,
  match value with
  | Status communication_token statuses => {|
      V3.agent.CreateTaskReply.communication_token := communication_token;
      V3.agent.CreateTaskReply.response := Some
        (V3.agent.create_task_reply.Response.CreationStatusList {|
           V3.agent.create_task_reply.CreationStatusList.creation_statuses := map from statuses |}) |}
  | Error communication_token error => {|
      V3.agent.CreateTaskReply.communication_token := communication_token;
      V3.agent.CreateTaskReply.response := Some (V3.agent.create_task_reply.Response.Error error) |}
  end.
#[global] Instance from_v3 : From V3.agent.CreateTaskReply.t t := λ value,
  match value.(V3.agent.CreateTaskReply.response) with
  | Some (V3.agent.create_task_reply.Response.CreationStatusList status) =>
      Status value.(V3.agent.CreateTaskReply.communication_token) 
        (map from status.(V3.agent.create_task_reply.CreationStatusList.creation_statuses))
  | Some (V3.agent.create_task_reply.Response.Error error) => Error value.(V3.agent.CreateTaskReply.communication_token) error
  | None => dflt
  end.
#[global] Instance v3_roundtrip : RoundTrip t V3.agent.CreateTaskReply.t.
Proof. solve_roundtrip. Qed.
End Response.
End create_tasks.
