(* ===== verification/Submitter.v ===== *)
(** The objects of the Submitter service ([objects/submitter/*.rs]). *)

From S2P Require Import Prelude V3 Objects.

(** [SessionFilterStatuses] of [objects/submitter/session_filter.rs]. *)
Module SessionFilterStatuses.
Inductive t : Type :=
| Include (statuses : list SessionStatus.t)
| Exclude (statuses : list SessionStatus.t).
#[global] Instance default : Default t := Exclude dflt.
#[global] Instance into_v3 : From t V3.submitter.session_filter.Statuses.t := λ value,
  match value with
  | Include statuses => V3.submitter.session_filter.Statuses.Excluded {|
      V3.submitter.session_filter.StatusesRequest.statuses := map as_i32 statuses |}
  | Exclude statuses => V3.submitter.session_filter.Statuses.Included {|
      V3.submitter.session_filter.StatusesRequest.statuses := map as_i32 statuses |}
  end.
#[global] Instance from_v3 : From V3.submitter.session_filter.Statuses.t t := λ value,
  match value with
  | V3.submitter.session_filter.Statuses.Excluded statuses => Exclude (map from statuses.(V3.submitter.session_filter.StatusesRequest.statuses))
  | V3.submitter.session_filter.Statuses.Included statuses => Include (map from statuses.(V3.submitter.session_filter.StatusesRequest.statuses))
  end.

(** The two directions do not agree: what is decoded is the other filter. *)
Definition complement (self : t) : t :=
  match self with
  | Include statuses => Exclude statuses
  | Exclude statuses => Include statuses
  end.
Lemma s_v3_inverts (self : t) :
  from (from self : V3.submitter.session_filter.Statuses.t) = complement self.
Proof.
  destruct self; unfold from at 1 2, into_v3, from_v3; cbn; by autorewrite with codec.
Qed.
End SessionFilterStatuses.

(** [SessionFilter] of [objects/submitter/session_filter.rs]. *)
Module SessionFilter.
Record t : Type := mk {
  ids : list string;
  statuses : SessionFilterStatuses.t
}.
#[global] Instance default : Default t := {|
  ids := dflt;
  statuses := dflt |}.
#[global] Instance into_v3 : From t V3.submitter.SessionFilter.t := λ value, {|
  V3.submitter.SessionFilter.sessions := map from value.(ids);
  V3.submitter.SessionFilter.statuses := Some (from value.(statuses)) |}.
#[global] Instance from_v3 : From V3.submitter.SessionFilter.t t := λ value, {|
  ids := map from value.(V3.submitter.SessionFilter.sessions);
  statuses := from_or_default value.(V3.submitter.SessionFilter.statuses) |}.
End SessionFilter.

Module SessionFilterLaw.
Definition complement (self : SessionFilter.t) : SessionFilter.t := {|
  SessionFilter.ids := self.(SessionFilter.ids);
  SessionFilter.statuses := SessionFilterStatuses.complement self.(SessionFilter.statuses) |}.
Lemma session_filter_v3_inverts (self : SessionFilter.t) :
  from (from self : V3.submitter.SessionFilter.t) = complement self.
Proof.
  destruct self. unfold from at 1 2, SessionFilter.into_v3, SessionFilter.from_v3, complement.
  cbn. unfold from_or_default. rewrite SessionFilterStatuses.s_v3_inverts.
  by autorewrite with codec.
Qed.
End SessionFilterLaw.

(** [TaskFilterIds] of [objects/submitter/task_filter.rs]. *)
Module TaskFilterIds.
Inductive t : Type :=
| Sessions (sessions : list string)
| Tasks (tasks : list string).
#[global] Instance default : Default t := Sessions dflt.
#[global] Instance into_v3 : From t V3.submitter.task_filter.Ids.t := λ value,
  match value with
  | Sessions sessions => V3.submitter.task_filter.Ids.Session {|
      V3.submitter.task_filter.IdsRequest.ids := sessions |}
  | Tasks tasks => V3.submitter.task_filter.Ids.Task {|
      V3.submitter.task_filter.IdsRequest.ids := tasks |}
  end.
#[global] Instance from_v3 : From V3.submitter.task_filter.Ids.t t := λ value,
  match value with
  | V3.submitter.task_filter.Ids.Session sessions =>
      Sessions sessions.(V3.submitter.task_filter.IdsRequest.ids)
  | V3.submitter.task_filter.Ids.Task tasks =>
      Tasks tasks.(V3.submitter.task_filter.IdsRequest.ids)
  end.
#[global] Instance v3_roundtrip : RoundTrip t V3.submitter.task_filter.Ids.t.
Proof. solve_roundtrip. Qed.
End TaskFilterIds.

(** [TaskFilterStatuses] of [objects/submitter/task_filter.rs]. *)
Module TaskFilterStatuses.
Inductive t : Type :=
| Include (statuses : list TaskStatus.t)
| Exclude (statuses : list TaskStatus.t).
#[global] Instance default : Default t := Exclude dflt.
#[global] Instance into_v3 : From t V3.submitter.task_filter.Statuses.t := λ value,
  match value with
  | Include statuses => V3.submitter.task_filter.Statuses.Excluded {|
      V3.submitter.task_filter.StatusesRequest.statuses := map as_i32 statuses |}
  | Exclude statuses => V3.submitter.task_filter.Statuses.Included {|
      V3.submitter.task_filter.StatusesRequest.statuses := map as_i32 statuses |}
  end.
#[global] Instance from_v3 : From V3.submitter.task_filter.Statuses.t t := λ value,
  match value with
  | V3.submitter.task_filter.Statuses.Excluded statuses => Exclude (map from statuses.(V3.submitter.task_filter.StatusesRequest.statuses))
  | V3.submitter.task_filter.Statuses.Included statuses => Include (map from statuses.(V3.submitter.task_filter.StatusesRequest.statuses))
  end.

(** The two directions do not agree: what is decoded is the other filter. *)
Definition complement (self : t) : t :=
  match self with
  | Include statuses => Exclude statuses
  | Exclude statuses => Include statuses
  end.
Lemma t_v3_inverts (self : t) :
  from (from self : V3.submitter.task_filter.Statuses.t) = complement self.
Proof.
  destruct self; unfold from at 1 2, into_v3, from_v3; cbn; by autorewrite with codec.
Qed.
End TaskFilterStatuses.

(** [TaskFilter] of [objects/submitter/task_filter.rs]. *)
Module TaskFilter.
Record t : Type := mk {
  ids : TaskFilterIds.t;
  statuses : TaskFilterStatuses.t
}.
#[global] Instance default : Default t := {|
  ids := dflt;
  statuses := dflt |}.
#[global] Instance into_v3 : From t V3.submitter.TaskFilter.t := λ value, {|
  V3.submitter.TaskFilter.ids := Some (from value.(ids));
  V3.submitter.TaskFilter.statuses := Some (from value.(statuses)) |}.
#[global] Instance from_v3 : From V3.submitter.TaskFilter.t t := λ value, {|
  ids := from_or_default value.(V3.submitter.TaskFilter.ids);
  statuses := from_or_default value.(V3.submitter.TaskFilter.statuses) |}.
End TaskFilter.

Module TaskFilterLaw.
Definition complement (self : TaskFilter.t) : TaskFilter.t := {|
  TaskFilter.ids := self.(TaskFilter.ids);
  TaskFilter.statuses := TaskFilterStatuses.complement self.(TaskFilter.statuses) |}.
Lemma task_filter_v3_inverts (self : TaskFilter.t) :
  from (from self : V3.submitter.TaskFilter.t) = complement self.
Proof.
  destruct self. unfold from at 1 2, TaskFilter.into_v3, TaskFilter.from_v3, complement.
  cbn. rewrite from_or_default_Some. unfold from_or_default.
  by rewrite TaskFilterStatuses.t_v3_inverts.
Qed.
End TaskFilterLaw.

Module create_session.
(** [Request] of [objects/submitter/create_session.rs]. *)
Module Request.
Record t : Type := mk {
  default_task_options : TaskOptions.t;
  partition_ids : list string
}.
#[global] Instance default : Default t := {|
  default_task_options := dflt;
  partition_ids := dflt |}.
#[global] Instance into_v3 : From t V3.submitter.CreateSessionRequest.t := λ value, {|
  V3.submitter.CreateSessionRequest.default_task_option := Some (from value.(default_task_options));
  V3.submitter.CreateSessionRequest.partition_ids := value.(partition_ids) |}.
#[global] Instance from_v3 : From V3.submitter.CreateSessionRequest.t t := λ value, {|
  default_task_options := from_or_default value.(V3.submitter.CreateSessionRequest.default_task_option);
  partition_ids := value.(V3.submitter.CreateSessionRequest.partition_ids) |}.
#[global] Instance v3_roundtrip : RoundTrip t V3.submitter.CreateSessionRequest.t.
Proof. solve_roundtrip. Qed.
End Request.

(** [Response] of [objects/submitter/create_session.rs]. *)
Module Response.
Record t : Type := mk {
  session_id : string
}.
#[global] Instance default : Default t := {|
  session_id := dflt |}.
#[global] Instance into_v3 : From t V3.submitter.CreateSessionReply.t := λ value, {|
  V3.submitter.CreateSessionReply.session_id := value.(session_id) |}.
#[global] Instance from_v3 : From V3.submitter.CreateSessionReply.t t := λ value, {|
  session_id := value.(V3.submitter.CreateSessionReply.session_id) |}.
#[global] Instance v3_roundtrip : RoundTrip t V3.submitter.CreateSessionReply.t.
Proof. solve_roundtrip. Qed.
End Response.

End create_session.

Module cancel_session.
(** [Request] of [objects/submitter/cancel_session.rs]. *)
Module Request.
Record t : Type := mk {
  session_id : string
}.
#[global] Instance default : Default t := {|
  session_id := dflt |}.
#[global] Instance into_v3 : From t V3.Session.t := λ value, {|
  V3.Session.id := value.(session_id) |}.
#[global] Instance from_v3 : From V3.Session.t t := λ value, {|
  session_id := value.(V3.Session.id) |}.
#[global] Instance v3_roundtrip : RoundTrip t V3.Session.t.
Proof. solve_roundtrip. Qed.
End Request.

(** [Response] of [objects/submitter/cancel_session.rs]. *)
Module Response.
Record t : Type := mk { }.
#[global] Instance default : Default t := mk.
#[global] Instance into_v3 : From t V3.Empty.t := λ _, V3.Empty.mk.
#[global] Instance from_v3 : From V3.Empty.t t := λ _, mk.
#[global] Instance v3_roundtrip : RoundTrip t V3.Empty.t.
Proof. solve_roundtrip. Qed.
End Response.

End cancel_session.

Module list_sessions.
(** [Request] of [objects/submitter/list_sessions.rs]: a filter under another name. *)
Module Request.
Record t : Type := mk {
  filter : SessionFilter.t
}.
#[global] Instance default : Default t := {| filter := dflt |}.
#[global] Instance into_v3 : From t V3.submitter.SessionFilter.t := λ value, from value.(filter).
#[global] Instance from_v3 : From V3.submitter.SessionFilter.t t := λ value, {| filter := from value |}.
Definition complement (self : t) : t := {| filter := SessionFilterLaw.complement self.(filter) |}.
Lemma list_sessions_v3_inverts (self : t) : from (from self : V3.submitter.SessionFilter.t) = complement self.
Proof.
  destruct self. unfold from at 1 2, from_v3, into_v3, complement. cbn.
  by rewrite SessionFilterLaw.session_filter_v3_inverts.
Qed.
End Request.

(** [Response] of [objects/submitter/list_sessions.rs]. *)
Module Response.
Record t : Type := mk {
  session_ids : list string
}.
#[global] Instance default : Default t := {|
  session_ids := dflt |}.
#[global] Instance into_v3 : From t V3.submitter.SessionIdList.t := λ value, {|
  V3.submitter.SessionIdList.session_ids := map from value.(session_ids) |}.
#[global] Instance from_v3 : From V3.submitter.SessionIdList.t t := λ value, {|
  session_ids := map from value.(V3.submitter.SessionIdList.session_ids) |}.
#[global] Instance v3_roundtrip : RoundTrip t V3.submitter.SessionIdList.t.
Proof. solve_roundtrip. Qed.
End Response.

End list_sessions.

Module list_tasks.
(** [Request] of [objects/submitter/list_tasks.rs]: a filter under another name. *)
Module Request.
Record t : Type := mk {
  filter : TaskFilter.t
}.
#[global] Instance default : Default t := {| filter := dflt |}.
#[global] Instance into_v3 : From t V3.submitter.TaskFilter.t := λ value, from value.(filter).
#[global] Instance from_v3 : From V3.submitter.TaskFilter.t t := λ value, {| filter := from value |}.
Definition complement (self : t) : t := {| filter := TaskFilterLaw.complement self.(filter) |}.
Lemma list_tasks_v3_inverts (self : t) : from (from self : V3.submitter.TaskFilter.t) = complement self.
Proof.
  destruct self. unfold from at 1 2, from_v3, into_v3, complement. cbn.
  by rewrite TaskFilterLaw.task_filter_v3_inverts.
Qed.
End Request.

(** [Response] of [objects/submitter/list_tasks.rs]. *)
Module Response.
Record t : Type := mk {
  task_ids : list string
}.
#[global] Instance default : Default t := {|
  task_ids := dflt |}.
#[global] Instance into_v3 : From t V3.TaskIdList.t := λ value, {|
  V3.TaskIdList.task_ids := map from value.(task_ids) |}.
#[global] Instance from_v3 : From V3.TaskIdList.t t := λ value, {|
  task_ids := map from value.(V3.TaskIdList.task_ids) |}.
#[global] Instance v3_roundtrip : RoundTrip t V3.TaskIdList.t.
Proof. solve_roundtrip. Qed.
End Response.

End list_tasks.

Module cancel_tasks.
(** [Request] of [objects/submitter/cancel_tasks.rs]: a filter under another name. *)
Module Request.
Record t : Type := mk {
  filter : TaskFilter.t
}.
#[global] Instance default : Default t := {| filter := dflt |}.
#[global] Instance into_v3 : From t V3.submitter.TaskFilter.t := λ value, from value.(filter).
#[global] Instance from_v3 : From V3.submitter.TaskFilter.t t := λ value, {| filter := from value |}.
Definition complement (self : t) : t := {| filter := TaskFilterLaw.complement self.(filter) |}.
Lemma cancel_tasks_v3_inverts (self : t) : from (from self : V3.submitter.TaskFilter.t) = complement self.
Proof.
  destruct self. unfold from at 1 2, from_v3, into_v3, complement. cbn.
  by rewrite TaskFilterLaw.task_filter_v3_inverts.
Qed.
End Request.

(** [Response] of [objects/submitter/cancel_tasks.rs]. *)
Module Response.
Record t : Type := mk { }.
#[global] Instance default : Default t := mk.
#[global] Instance into_v3 : From t V3.Empty.t := λ _, V3.Empty.mk.
#[global] Instance from_v3 : From V3.Empty.t t := λ _, mk.
#[global] Instance v3_roundtrip : RoundTrip t V3.Empty.t.
Proof. solve_roundtrip. Qed.
End Response.

End cancel_tasks.

Module count_tasks.
(** [Request] of [objects/submitter/count_tasks.rs]: a filter under another name. *)
Module Request.
Record t : Type := mk {
  filter : TaskFilter.t
}.
#[global] Instance default : Default t := {| filter := dflt |}.
#[global] Instance into_v3 : From t V3.submitter.TaskFilter.t := λ value, from value.(filter).
#[global] Instance from_v3 : From V3.submitter.TaskFilter.t t := λ value, {| filter := from value |}.
Definition complement (self : t) : t := {| filter := TaskFilterLaw.complement self.(filter) |}.
Lemma count_tasks_v3_inverts (self : t) : from (from self : V3.submitter.TaskFilter.t) = complement self.
Proof.
  destruct self. unfold from at 1 2, from_v3, into_v3, complement. cbn.
  by rewrite TaskFilterLaw.task_filter_v3_inverts.
Qed.
End Request.

Module Response.
Definition t : Type := Count.t.
End Response.
End count_tasks.

Module wait_for_completion.
(** [Request] of [objects/submitter/wait_for_completion.rs]. *)
Module Request.
Record t : Type := mk {
  filter : TaskFilter.t;
  stop_on_first_task_error : bool;
  stop_on_first_task_cancellation : bool
}.
#[global] Instance default : Default t := {|
  filter := dflt;
  stop_on_first_task_error := dflt;
  stop_on_first_task_cancellation := dflt |}.
#[global] Instance into_v3 : From t V3.submitter.WaitRequest.t := λ value, {|
  V3.submitter.WaitRequest.filter := Some (from value.(filter));
  V3.submitter.WaitRequest.stop_on_first_task_error := value.(stop_on_first_task_error);
  V3.submitter.WaitRequest.stop_on_first_task_cancellation := value.(stop_on_first_task_cancellation) |}.
#[global] Instance from_v3 : From V3.submitter.WaitRequest.t t := λ value, {|
  filter := from_or_default value.(V3.submitter.WaitRequest.filter);
  stop_on_first_task_error := value.(V3.submitter.WaitRequest.stop_on_first_task_error);
  stop_on_first_task_cancellation := value.(V3.submitter.WaitRequest.stop_on_first_task_cancellation) |}.
End Request.

Definition complement (self : Request.t) : Request.t := {|
  Request.filter := TaskFilterLaw.complement self.(Request.filter);
  Request.stop_on_first_task_error := self.(Request.stop_on_first_task_error);
  Request.stop_on_first_task_cancellation := self.(Request.stop_on_first_task_cancellation) |}.
Lemma wait_v3_inverts (self : Request.t) :
  from (from self : V3.submitter.WaitRequest.t) = complement self.
Proof.
  destruct self. unfold from at 1 2, Request.from_v3, Request.into_v3, complement. cbn.
  unfold from_or_default. by rewrite TaskFilterLaw.task_filter_v3_inverts.
Qed.
Module Response.
Definition t : Type := Count.t.
End Response.
End wait_for_completion.

Module get_service_configuration.
(** [Request] of [objects/submitter/get_service_configuration.rs]. *)
Module Request.
Record t : Type := mk { }.
#[global] Instance default : Default t := mk.
#[global] Instance into_v3 : From t V3.Empty.t := λ _, V3.Empty.mk.
#[global] Instance from_v3 : From V3.Empty.t t := λ _, mk.
#[global] Instance v3_roundtrip : RoundTrip t V3.Empty.t.
Proof. solve_roundtrip. Qed.
End Request.

Module Response.
Definition t : Type := Configuration.t.
End Response.
End get_service_configuration.

Module try_get_task_output.
(** [Request] of [objects/submitter/try_get_task_output.rs]. *)
Module Request.
Record t : Type := mk {
  session_id : string;
  task_id : string
}.
#[global] Instance default : Default t := {|
  session_id := dflt;
  task_id := dflt |}.
#[global] Instance into_v3 : From t V3.TaskOutputRequest.t := λ value, {|
  V3.TaskOutputRequest.session := value.(session_id);
  V3.TaskOutputRequest.task_id := value.(task_id) |}.
#[global] Instance from_v3 : From V3.TaskOutputRequest.t t := λ value, {|
  session_id := value.(V3.TaskOutputRequest.session);
  task_id := value.(V3.TaskOutputRequest.task_id) |}.
#[global] Instance v3_roundtrip : RoundTrip t V3.TaskOutputRequest.t.
Proof. solve_roundtrip. Qed.
End Request.

Module Response.
Definition t : Type := Output.t.
End Response.
End try_get_task_output.

Module task_status.
(** [Request] of [objects/submitter/task_status.rs]. *)
Module Request.
Record t : Type := mk {
  task_ids : list string
}.
#[global] Instance default : Default t := {|
  task_ids := dflt |}.
#[global] Instance into_v3 : From t V3.submitter.GetTaskStatusRequest.t := λ value, {|
  V3.submitter.GetTaskStatusRequest.task_ids := map from value.(task_ids) |}.
#[global] Instance from_v3 : From V3.submitter.GetTaskStatusRequest.t t := λ value, {|
  task_ids := map from value.(V3.submitter.GetTaskStatusRequest.task_ids) |}.
#[global] Instance v3_roundtrip : RoundTrip t V3.submitter.GetTaskStatusRequest.t.
Proof. solve_roundtrip. Qed.
End Request.

Module Response.
Record t : Type := mk {
  statuses : gmap string TaskStatus.t
}.
#[global] Instance default : Default t := {|
  statuses := ∅ |}.
#[global] Instance into_v3 `{!HashMapIter} : From t V3.submitter.GetTaskStatusReply.t := λ value, {|
  V3.submitter.GetTaskStatusReply.id_statuses :=
    map (λ '(key, value), {|
           V3.submitter.get_task_status_reply.IdStatus.task_id := key;
           V3.submitter.get_task_status_reply.IdStatus.status := as_i32 value |})
      (hash_iter value.(statuses)) |}.
#[global] Instance from_v3 : From V3.submitter.GetTaskStatusReply.t t := λ value, {|
  statuses :=
    collect_map
      (map (λ entry, (entry.(V3.submitter.get_task_status_reply.IdStatus.task_id), from entry.(V3.submitter.get_task_status_reply.IdStatus.status)))
         value.(V3.submitter.GetTaskStatusReply.id_statuses)) |}.
#[global] Instance v3_roundtrip `{!HashMapIter} : RoundTrip t V3.submitter.GetTaskStatusReply.t.
Proof. solve_map_roundtrip. Qed.
End Response.

End task_status.

Module result_status.
(** [Request] of [objects/submitter/result_status.rs]. *)
Module Request.
Record t : Type := mk {
  session_id : string;
  result_ids : list string
}.
#[global] Instance default : Default t := {|
  session_id := dflt;
  result_ids := dflt |}.
#[global] Instance into_v3 : From t V3.submitter.GetResultStatusRequest.t := λ value, {|
  V3.submitter.GetResultStatusRequest.session_id := value.(session_id);
  V3.submitter.GetResultStatusRequest.result_ids := map from value.(result_ids) |}.
#[global] Instance from_v3 : From V3.submitter.GetResultStatusRequest.t t := λ value, {|
  session_id := value.(V3.submitter.GetResultStatusRequest.session_id);
  result_ids := map from value.(V3.submitter.GetResultStatusRequest.result_ids) |}.
#[global] Instance v3_roundtrip : RoundTrip t V3.submitter.GetResultStatusRequest.t.
Proof. solve_roundtrip. Qed.
End Request.

Module Response.
Record t : Type := mk {
  statuses : gmap string ResultStatus.t
}.
#[global] Instance default : Default t := {|
  statuses := ∅ |}.
#[global] Instance into_v3 `{!HashMapIter} : From t V3.submitter.GetResultStatusReply.t := λ value, {|
  V3.submitter.GetResultStatusReply.id_statuses :=
    map (λ '(key, value), {|
           V3.submitter.get_result_status_reply.IdStatus.result_id := key;
           V3.submitter.get_result_status_reply.IdStatus.status := as_i32 value |})
      (hash_iter value.(statuses)) |}.
#[global] Instance from_v3 : From V3.submitter.GetResultStatusReply.t t := λ value, {|
  statuses :=
    collect_map
      (map (λ entry, (entry.(V3.submitter.get_result_status_reply.IdStatus.result_id), from entry.(V3.submitter.get_result_status_reply.IdStatus.status)))
         value.(V3.submitter.GetResultStatusReply.id_statuses)) |}.
#[global] Instance v3_roundtrip `{!HashMapIter} : RoundTrip t V3.submitter.GetResultStatusReply.t.
Proof. solve_map_roundtrip. Qed.
End Response.

End result_status.

Module try_get_result.
(** [Request] of [objects/submitter/try_get_result.rs]. *)
Module Request.
Record t : Type := mk {
  session_id : string;
  result_id : string
}.
#[global] Instance default : Default t := {|
  session_id := dflt;
  result_id := dflt |}.
#[global] Instance into_v3 : From t V3.ResultRequest.t := λ value, {|
  V3.ResultRequest.session := value.(session_id);
  V3.ResultRequest.result_id := value.(result_id) |}.
#[global] Instance from_v3 : From V3.ResultRequest.t t := λ value, {|
  session_id := value.(V3.ResultRequest.session);
  result_id := value.(V3.ResultRequest.result_id) |}.
#[global] Instance v3_roundtrip : RoundTrip t V3.ResultRequest.t.
Proof. solve_roundtrip. Qed.
End Request.

Module Response.
Inductive t : Type :=
| DataChunk (chunk : DataChunk.t)
| TaskError (error : TaskError.t)
| NotCompleted (msg : string).
#[global] Instance default : Default t := NotCompleted dflt.
#[global] Instance into_v3 : From t V3.submitter.ResultReply.t := λ value,
  match value with
  | DataChunk chunk => {|
      V3.submitter.ResultReply.type_ := Some (V3.submitter.result_reply.Type_.Result (from chunk)) |}
  | TaskError error => {|
      V3.submitter.ResultReply.type_ := Some (V3.submitter.result_reply.Type_.Error (from error)) |}
  | NotCompleted msg => {|
      V3.submitter.ResultReply.type_ := Some (V3.submitter.result_reply.Type_.NotCompletedTask msg) |}
  end.
#[global] Instance from_v3 : From V3.submitter.ResultReply.t t := λ value,
  match value.(V3.submitter.ResultReply.type_) with
  | Some (V3.submitter.result_reply.Type_.Result chunk) => DataChunk (from chunk)
  | Some (V3.submitter.result_reply.Type_.Error error) => TaskError (from error)
  | Some (V3.submitter.result_reply.Type_.NotCompletedTask msg) => NotCompleted msg
  | None => dflt
  end.
#[global] Instance v3_roundtrip : RoundTrip t V3.submitter.ResultReply.t.
Proof. solve_roundtrip. Qed.
End Response.
End try_get_result.

Module wait_for_availability.
(** [Request] of [objects/submitter/wait_for_availability.rs]. *)
Module Request.
Record t : Type := mk {
  session_id : string;
  result_id : string
}.
#[global] Instance default : Default t := {|
  session_id := dflt;
  result_id := dflt |}.
#[global] Instance into_v3 : From t V3.ResultRequest.t := λ value, {|
  V3.ResultRequest.session := value.(session_id);
  V3.ResultRequest.result_id := value.(result_id) |}.
#[global] Instance from_v3 : From V3.ResultRequest.t t := λ value, {|
  session_id := value.(V3.ResultRequest.session);
  result_id := value.(V3.ResultRequest.result_id) |}.
#[global] Instance v3_roundtrip : RoundTrip t V3.ResultRequest.t.
Proof. solve_roundtrip. Qed.
End Request.

Module Response.
Inductive t : Type :=
| Ok
| TaskError (error : TaskError.t)
| NotCompleted (msg : string).
#[global] Instance default : Default t := NotCompleted dflt.
#[global] Instance into_v3 : From t V3.submitter.AvailabilityReply.t := λ value,
  match value with
  | Ok => {|
      V3.submitter.AvailabilityReply.type_ := Some (V3.submitter.availability_reply.Type_.Ok V3.Empty.mk) |}
  | TaskError error => {|
      V3.submitter.AvailabilityReply.type_ := Some (V3.submitter.availability_reply.Type_.Error (from error)) |}
  | NotCompleted msg => {|
      V3.submitter.AvailabilityReply.type_ := Some (V3.submitter.availability_reply.Type_.NotCompletedTask msg) |}
  end.
#[global] Instance from_v3 : From V3.submitter.AvailabilityReply.t t := λ value,
  match value.(V3.submitter.AvailabilityReply.type_) with
  | Some (V3.submitter.availability_reply.Type_.Ok _) => Ok
  | Some (V3.submitter.availability_reply.Type_.Error error) => TaskError (from error)
  | Some (V3.submitter.availability_reply.Type_.NotCompletedTask msg) => NotCompleted msg
  | None => dflt
  end.
#[global] Instance v3_roundtrip : RoundTrip t V3.submitter.AvailabilityReply.t.
Proof. solve_roundtrip. Qed.
End Response.
End wait_for_availability.

Module create_tasks.
(** [SmallRequest] of [objects/submitter/create_tasks.rs]. *)
Module SmallRequest.
Record t : Type := mk {
  session_id : string;
  task_options : option TaskOptions.t;
  task_requests : list TaskRequest.t
}.
#[global] Instance default : Default t := {|
  session_id := dflt;
  task_options := dflt;
  task_requests := dflt |}.
#[global] Instance into_v3 : From t V3.submitter.CreateSmallTaskRequest.t := λ value, {|
  V3.submitter.CreateSmallTaskRequest.session_id := value.(session_id);
  V3.submitter.CreateSmallTaskRequest.task_options := from <$> value.(task_options);
  V3.submitter.CreateSmallTaskRequest.task_requests := map from value.(task_requests) |}.
#[global] Instance from_v3 : From V3.submitter.CreateSmallTaskRequest.t t := λ value, {|
  session_id := value.(V3.submitter.CreateSmallTaskRequest.session_id);
  task_options := from <$> value.(V3.submitter.CreateSmallTaskRequest.task_options);
  task_requests := map from value.(V3.submitter.CreateSmallTaskRequest.task_requests) |}.
#[global] Instance v3_roundtrip : RoundTrip t V3.submitter.CreateSmallTaskRequest.t.
Proof. solve_roundtrip. Qed.
End SmallRequest.

(** [InitRequest] of [objects/submitter/create_tasks.rs]. *)
Module InitRequest.
Record t : Type := mk {
  session_id : string;
  task_options : option TaskOptions.t
}.
#[global] Instance default : Default t := {|
  session_id := dflt;
  task_options := dflt |}.
#[global] Instance into_v3 : From t V3.submitter.create_large_task_request.InitRequest.t := λ value, {|
  V3.submitter.create_large_task_request.InitRequest.session_id := value.(session_id);
  V3.submitter.create_large_task_request.InitRequest.task_options := from <$> value.(task_options) |}.
#[global] Instance from_v3 : From V3.submitter.create_large_task_request.InitRequest.t t := λ value, {|
  session_id := value.(V3.submitter.create_large_task_request.InitRequest.session_id);
  task_options := from <$> value.(V3.submitter.create_large_task_request.InitRequest.task_options) |}.
#[global] Instance v3_roundtrip : RoundTrip t V3.submitter.create_large_task_request.InitRequest.t.
Proof. solve_roundtrip. Qed.
End InitRequest.

(** [LargeRequest] of [objects/submitter/create_tasks.rs]: one message of the stream. *)
Module LargeRequest.
Inductive t : Type :=
| Invalid
| InitRequest (request : InitRequest.t)
| InitTaskRequest (request : InitTaskRequest.t)
| DataChunk (chunk : DataChunk.t).
#[global] Instance default : Default t := Invalid.
#[global] Instance into_v3 : From t V3.submitter.CreateLargeTaskRequest.t := λ value,
  match value with
  | Invalid => {| V3.submitter.CreateLargeTaskRequest.type_ := None |}
  | InitRequest request => {|
      V3.submitter.CreateLargeTaskRequest.type_ :=
        Some (V3.submitter.create_large_task_request.Type_.InitRequest (from request)) |}
  | InitTaskRequest request => {|
      V3.submitter.CreateLargeTaskRequest.type_ :=
        Some (V3.submitter.create_large_task_request.Type_.InitTask (from request)) |}
  | DataChunk chunk => {|
      V3.submitter.CreateLargeTaskRequest.type_ :=
        Some (V3.submitter.create_large_task_request.Type_.TaskPayload (from chunk)) |}
  end.
#[global] Instance from_v3 : From V3.submitter.CreateLargeTaskRequest.t t := λ value,
  match value.(V3.submitter.CreateLargeTaskRequest.type_) with
  | Some (V3.submitter.create_large_task_request.Type_.InitRequest request) =>
      InitRequest (from request)
  | Some (V3.submitter.create_large_task_request.Type_.InitTask request) =>
      InitTaskRequest (from request)
  | Some (V3.submitter.create_large_task_request.Type_.TaskPayload chunk) =>
      DataChunk (from chunk)
  | None => Invalid
  end.
#[global] Instance v3_roundtrip : RoundTrip t V3.submitter.CreateLargeTaskRequest.t.
Proof. solve_roundtrip. Qed.
End LargeRequest.

Module Status.
Inductive t : Type :=
| TaskInfo (task_id : string) (expected_output_keys data_dependencies : list string)
    (payload_id : string)
| Error (msg : string).
#[global] Instance default : Default t := Error dflt.
#[global] Instance into_v3 : From t V3.submitter.create_task_reply.CreationStatus.t := λ value,
  match value with
  | TaskInfo task_id expected_output_keys data_dependencies payload_id => {|
      V3.submitter.create_task_reply.CreationStatus.status := Some
        (V3.submitter.create_task_reply.creation_status.Status.TaskInfo {|
           V3.submitter.create_task_reply.TaskInfo.task_id := task_id;
           V3.submitter.create_task_reply.TaskInfo.expected_output_keys := expected_output_keys;
           V3.submitter.create_task_reply.TaskInfo.data_dependencies := data_dependencies;
           V3.submitter.create_task_reply.TaskInfo.payload_id := payload_id |}) |}
  | Error msg => {|
      V3.submitter.create_task_reply.CreationStatus.status := Some (V3.submitter.create_task_reply.creation_status.Status.Error msg) |}
  end.
#[global] Instance from_v3 : From V3.submitter.create_task_reply.CreationStatus.t t := λ value,
  match value.(V3.submitter.create_task_reply.CreationStatus.status) with
  | Some (V3.submitter.create_task_reply.creation_status.Status.TaskInfo status) =>
      TaskInfo
        status.(V3.submitter.create_task_reply.TaskInfo.task_id)
        status.(V3.submitter.create_task_reply.TaskInfo.expected_output_keys)
        status.(V3.submitter.create_task_reply.TaskInfo.data_dependencies)
        status.(V3.submitter.create_task_reply.TaskInfo.payload_id)
  | Some (V3.submitter.create_task_reply.creation_status.Status.Error msg) => Error msg
  | None => dflt
  end.
#[global] Instance v3_roundtrip : RoundTrip t V3.submitter.create_task_reply.CreationStatus.t.
Proof. solve_roundtrip. Qed.
End Status.

Module Response.
Inductive t : Type :=
| Status (status : list Status.t)
| Error (msg : string).
#[global] Instance default : Default t := Status [].
#[global] Instance into_v3 : From t V3.submitter.CreateTaskReply.t := λ value,
  match value with
  | Status status => {|
      V3.submitter.CreateTaskReply.response := Some
        (V3.submitter.create_task_reply.Response.CreationStatusList {|
           V3.submitter.create_task_reply.CreationStatusList.creation_statuses := map from status |}) |}
  | Error msg => {|
      V3.submitter.CreateTaskReply.response := Some (V3.submitter.create_task_reply.Response.Error msg) |}
  end.
#[global] Instance from_v3 : From V3.submitter.CreateTaskReply.t t := λ value,
  match value.(V3.submitter.CreateTaskReply.response) with
  | Some (V3.submitter.create_task_reply.Response.CreationStatusList status) =>
      Status 
        (map from status.(V3.submitter.create_task_reply.CreationStatusList.creation_statuses))
  | Some (V3.submitter.create_task_reply.Response.Error msg) => Error msg
  | None => dflt
  end.
#[global] Instance v3_roundtrip : RoundTrip t V3.submitter.CreateTaskReply.t.
Proof. solve_roundtrip. Qed.
End Response.
End create_tasks.
