(* ===== verification/Reencoding.v ===== *)
(** What is lost when a message of a peer is decoded and encoded again: for each message,
    the condition under which nothing is. *)

From S2P Require Import Prelude V3 Objects Filters Sessions Tasks Results Partitions.
From S2P Require Import Applications Misc Events Worker Agent Submitter.

(** ** Messages that are kept

    A message is [kept] when it is sent back as it came, once decoded. *)
Class Reencodes {A M : Type} (kept : M → Prop) `{From A M, From M A} : Prop :=
  reencodes (m : M) : from (from m : A) = m ↔ kept m.

(** What is encoded is kept. *)
Lemma sent_kept {A M} (kept : M → Prop) `{From A M, From M A, !Reencodes (A := A) kept, !RoundTrip A M}
    (x : A) : kept (from x).
Proof. apply reencodes. by rewrite (roundtrip (B := M) x). Qed.

(** A number that is the code of a variant. *)
Definition known (A : Type) `{AsI32 A} (z : Z) : Prop := ∃ x : A, as_i32 x = z.

Lemma known_code `{CodeRoundTrip A} z : as_i32 (from z : A) = z ↔ known A z.
Proof. split; [by eexists|]. intros [x <-]. by rewrite code_roundtrip. Qed.

(** ** Sub-messages *)

Section reencoded.
Context {A M : Type} (kept : M → Prop) `{From A M, From M A, !Reencodes (A := A) kept}.

(** A sub-message the objects have as it is, as an option, or in a list. *)
Definition present_kept (o : option M) : Prop := ∃ m, o = Some m ∧ kept m.
Definition option_kept (o : option M) : Prop := ∀ m, o = Some m → kept m.

Lemma present_reencoded `{!Default A} (o : option M) :
  Some (from (from_or_default o : A)) = o ↔ present_kept o.
Proof.
  unfold present_kept, from_or_default. destruct o as [m|]; [|naive_solver].
  split.
  - intros [= Hm]. exists m. split; [done|]. by apply reencodes.
  - intros (? & [= <-] & Hm). f_equal. by apply reencodes.
Qed.

Lemma present_sent `{!RoundTrip A M} (x : A) : present_kept (Some (from x)).
Proof. exists (from x). split; [done|]. by apply (sent_kept kept). Qed.

Lemma option_reencoded (o : option M) :
  from <$> (from <$> o : option A) = o ↔ option_kept o.
Proof.
  unfold option_kept. destruct o as [m|]; [|naive_solver].
  split.
  - intros [= Hm] ? [= <-]. by apply reencodes.
  - intros Hm. cbn. f_equal. by apply reencodes, Hm.
Qed.

Lemma list_reencoded (l : list M) : map from (map from l : list A) = l ↔ Forall kept l.
Proof.
  induction l as [|m l IH]; [by split|]. cbn.
  rewrite Forall_cons_iff, <-IH, <-(reencodes m). split; [by intros [=]|]. by intros [-> ->].
Qed.
End reencoded.

(** Operators go through the enumeration of the protocol, which has the same codes. *)
Class SameCodes (A P : Type) `{AsI32 A, AsI32 P, From A P} : Prop :=
  same_code (x : A) : as_i32 (from x : P) = as_i32 x.

#[export] Instance string_codes : SameCodes FilterStringOperator.t V3.FilterStringOperator.t.
Proof. by intros []. Qed.
#[export] Instance number_codes : SameCodes FilterNumberOperator.t V3.FilterNumberOperator.t.
Proof. by intros []. Qed.
#[export] Instance boolean_codes : SameCodes FilterBooleanOperator.t V3.FilterBooleanOperator.t.
Proof. by intros []. Qed.
#[export] Instance array_codes : SameCodes FilterArrayOperator.t V3.FilterArrayOperator.t.
Proof. by intros []. Qed.
#[export] Instance date_codes : SameCodes FilterDateOperator.t V3.FilterDateOperator.t.
Proof. by intros []. Qed.
#[export] Instance duration_codes : SameCodes FilterDurationOperator.t V3.FilterDurationOperator.t.
Proof. by intros []. Qed.
#[export] Instance status_codes : SameCodes FilterStatusOperator.t V3.FilterStatusOperator.t.
Proof. by intros []. Qed.

(** Records are kept when each field that is converted is. *)
Ltac kept_fields :=
  repeat match goal with
  | H : as_i32 _ = _ |- _ => apply (proj1 (known_code _)) in H
  | H : Some _ = _ |- _ => apply (proj1 (present_reencoded _ _)) in H
  | H : _ <$> _ = _ |- _ => apply (proj1 (option_reencoded _ _)) in H
  | H : map _ _ = _ |- _ => apply (proj1 (list_reencoded _ _)) in H
  | H : from _ = _ |- _ => apply reencodes in H
  end.

Ltac finish_reencoded :=
  split;
  [intros [=]; kept_fields; by split_and?
  |let Hk := fresh in intros Hk; destruct_and? Hk; f_equal;
   solve [done | by apply (proj2 (known_code _)) | by apply (proj2 (present_reencoded _ _))
         | by apply (proj2 (option_reencoded _ _)) | by apply (proj2 (list_reencoded _ _)) | by apply reencodes]].

Ltac unfold_reencoded :=
  lazymatch goal with
  | |- @from _ _ ?I (@from _ _ ?J ?m) = _ ↔ ?K =>
      change (I (J m) = m ↔ K); let i := head_of I in let j := head_of J in unfold i, j
  end.

Ltac open_reencoded :=
  let m := fresh "m" in intros m; unfold_reencoded; destruct m; cbn.

Ltac solve_reencoded kept :=
  open_reencoded; unfold kept; cbn; rewrite ?same_code;
  finish_reencoded.

(** Variants, with one part each. *)
Ltac solve_variants :=
  open_reencoded;
  (split; [intros [=]; kept_fields; done|intros; f_equal; by apply reencodes]).

(** Fields, which are variants of codes. *)
Ltac solve_field :=
  unfold_reencoded; split; cbn;
  [by intros [=]; kept_fields
  |intros; repeat f_equal; solve [done | by apply reencodes | by apply (proj2 (known_code _))]].

(** Conditions with a value that may be absent. *)
Ltac solve_known :=
  split; [intros [=]; kept_fields; by eauto|];
  intros [[? [=]] ?]; subst; f_equal; by apply (proj2 (known_code _)).

(** ** Tasks, sessions and results *)

(** Task options that say how long a task may take. *)
Definition options_kept (m : V3.TaskOptions.t) : Prop :=
  is_Some m.(V3.TaskOptions.max_duration).

#[export] Instance options_reencoded : Reencodes (A := TaskOptions.t) options_kept.
Proof.
  open_reencoded. unfold options_kept. cbn.
  destruct max_duration; split; try done; by intros [? ?].
Qed.

Definition session_kept (m : V3.sessions.SessionRaw.t) : Prop :=
  known SessionStatus.t m.(V3.sessions.SessionRaw.status) ∧
  present_kept options_kept m.(V3.sessions.SessionRaw.options).

#[export] Instance session_reencoded : Reencodes (A := Sessions.Raw.t) session_kept.
Proof. solve_reencoded session_kept. Qed.

Definition summary_kept (m : V3.tasks.TaskSummary.t) : Prop :=
  known TaskStatus.t m.(V3.tasks.TaskSummary.status) ∧
  present_kept options_kept m.(V3.tasks.TaskSummary.options).

#[export] Instance summary_reencoded : Reencodes (A := Tasks.Summary.t) summary_kept.
Proof. open_reencoded. unfold summary_kept. cbn. destruct error; finish_reencoded. Qed.

(** An output is a success or has an error, not both. *)
Definition output_kept (m : V3.tasks.task_detailed.Output.t) : Prop :=
  m.(V3.tasks.task_detailed.Output.success) = true →
  m.(V3.tasks.task_detailed.Output.error) = "".

#[export] Instance output_reencoded : Reencodes (A := Tasks.Output.t) output_kept.
Proof. open_reencoded. unfold output_kept. cbn. destruct success; naive_solver. Qed.

Definition task_kept (m : V3.tasks.TaskDetailed.t) : Prop :=
  known TaskStatus.t m.(V3.tasks.TaskDetailed.status) ∧
  present_kept options_kept m.(V3.tasks.TaskDetailed.options) ∧
  present_kept output_kept m.(V3.tasks.TaskDetailed.output).

#[export] Instance task_reencoded : Reencodes (A := Tasks.Raw.t) task_kept.
Proof. solve_reencoded task_kept. Qed.

Definition result_kept (m : V3.results.ResultRaw.t) : Prop :=
  known ResultStatus.t m.(V3.results.ResultRaw.status).

#[export] Instance result_reencoded : Reencodes (A := Results.Raw.t) result_kept.
Proof. solve_reencoded result_kept. Qed.

#[export] Instance partition_reencoded :
  Reencodes (A := Partitions.Raw.t) (M := V3.partitions.PartitionRaw.t) (λ _, True).
Proof. by intros []. Qed.

#[export] Instance application_reencoded :
  Reencodes (A := Applications.Raw.t) (M := V3.applications.ApplicationRaw.t) (λ _, True).
Proof. by intros []. Qed.

(** ** Creation of sessions and of tasks *)

Definition create_session_kept (m : V3.sessions.CreateSessionRequest.t) : Prop :=
  present_kept options_kept m.(V3.sessions.CreateSessionRequest.default_task_option).

#[export] Instance create_session_reencoded :
  Reencodes (A := Sessions.create.Request.t) create_session_kept.
Proof. solve_reencoded create_session_kept. Qed.

Definition creation_kept (m : V3.tasks.submit_tasks_request.TaskCreation.t) : Prop :=
  option_kept options_kept m.(V3.tasks.submit_tasks_request.TaskCreation.task_options).

#[export] Instance creation_reencoded : Reencodes (A := Tasks.submit.RequestItem.t) creation_kept.
Proof. solve_reencoded creation_kept. Qed.

Definition submit_kept (m : V3.tasks.SubmitTasksRequest.t) : Prop :=
  option_kept options_kept m.(V3.tasks.SubmitTasksRequest.task_options) ∧
  Forall creation_kept m.(V3.tasks.SubmitTasksRequest.task_creations).

#[export] Instance submit_reencoded : Reencodes (A := Tasks.submit.Request.t) submit_kept.
Proof. solve_reencoded submit_kept. Qed.

(** ** Lists *)

Definition sessions_kept (m : V3.sessions.ListSessionsResponse.t) : Prop :=
  Forall session_kept m.(V3.sessions.ListSessionsResponse.sessions).

#[export] Instance sessions_reencoded : Reencodes (A := Sessions.list.Response.t) sessions_kept.
Proof. solve_reencoded sessions_kept. Qed.

Definition summaries_kept (m : V3.tasks.ListTasksResponse.t) : Prop :=
  Forall summary_kept m.(V3.tasks.ListTasksResponse.tasks).

#[export] Instance summaries_reencoded : Reencodes (A := Tasks.list.Response.t) summaries_kept.
Proof. solve_reencoded summaries_kept. Qed.

Definition tasks_kept (m : V3.tasks.ListTasksDetailedResponse.t) : Prop :=
  Forall task_kept m.(V3.tasks.ListTasksDetailedResponse.tasks).

#[export] Instance tasks_reencoded :
  Reencodes (A := Tasks.list_detailed.Response.t) tasks_kept.
Proof. solve_reencoded tasks_kept. Qed.

Definition results_kept (m : V3.results.ListResultsResponse.t) : Prop :=
  Forall result_kept m.(V3.results.ListResultsResponse.results).

#[export] Instance results_reencoded : Reencodes (A := Results.list.Response.t) results_kept.
Proof. solve_reencoded results_kept. Qed.

(** ** Filters

    A condition is kept when its operator is known, and the value it compares to is
    there. *)

Definition string_kept (m : V3.FilterString.t) : Prop :=
  known FilterStringOperator.t m.(V3.FilterString.operator).

#[export] Instance string_reencoded : Reencodes (A := FilterString.t) string_kept.
Proof. solve_reencoded string_kept. Qed.

Definition number_kept (m : V3.FilterNumber.t) : Prop :=
  known FilterNumberOperator.t m.(V3.FilterNumber.operator).

#[export] Instance number_reencoded : Reencodes (A := FilterNumber.t) number_kept.
Proof. solve_reencoded number_kept. Qed.

Definition boolean_kept (m : V3.FilterBoolean.t) : Prop :=
  known FilterBooleanOperator.t m.(V3.FilterBoolean.operator).

#[export] Instance boolean_reencoded : Reencodes (A := FilterBoolean.t) boolean_kept.
Proof. solve_reencoded boolean_kept. Qed.

Definition array_kept (m : V3.FilterArray.t) : Prop :=
  known FilterArrayOperator.t m.(V3.FilterArray.operator).

#[export] Instance array_reencoded : Reencodes (A := FilterArray.t) array_kept.
Proof. solve_reencoded array_kept. Qed.

Definition date_kept (m : V3.FilterDate.t) : Prop :=
  is_Some m.(V3.FilterDate.value) ∧ known FilterDateOperator.t m.(V3.FilterDate.operator).

#[export] Instance date_reencoded : Reencodes (A := FilterDate.t) date_kept.
Proof. open_reencoded. unfold date_kept. cbn. rewrite ?same_code. destruct value; solve_known. Qed.

Definition duration_kept (m : V3.FilterDuration.t) : Prop :=
  is_Some m.(V3.FilterDuration.value) ∧ known FilterDurationOperator.t m.(V3.FilterDuration.operator).

#[export] Instance duration_reencoded : Reencodes (A := FilterDuration.t) duration_kept.
Proof. open_reencoded. unfold duration_kept. cbn. rewrite ?same_code. destruct value; solve_known. Qed.

(** *** Sessions ([objects/sessions/filter.rs] and [list.rs]) *)

Definition session_status_kept (m : V3.sessions.FilterStatus.t) : Prop :=
  known SessionStatus.t m.(V3.sessions.FilterStatus.value) ∧
  known FilterStatusOperator.t m.(V3.sessions.FilterStatus.operator).

#[export] Instance session_status_reencoded :
  Reencodes (A := Sessions.filter.Status.t) session_status_kept.
Proof. solve_reencoded session_status_kept. Qed.

Definition session_condition_kept (m : V3.sessions.filter_field.ValueCondition.t) : Prop :=
  match m with
  | V3.sessions.filter_field.ValueCondition.FilterString cond => string_kept cond
  | V3.sessions.filter_field.ValueCondition.FilterNumber cond => number_kept cond
  | V3.sessions.filter_field.ValueCondition.FilterBoolean cond => boolean_kept cond
  | V3.sessions.filter_field.ValueCondition.FilterStatus cond => session_status_kept cond
  | V3.sessions.filter_field.ValueCondition.FilterDate cond => date_kept cond
  | V3.sessions.filter_field.ValueCondition.FilterDuration cond => duration_kept cond
  | V3.sessions.filter_field.ValueCondition.FilterArray cond => array_kept cond
  end.

#[export] Instance session_condition_reencoded :
  Reencodes (A := Sessions.filter.Condition.t) session_condition_kept.
Proof. solve_variants. Qed.

#[export] Instance session_raw_field_reencoded : Reencodes (A := Sessions.RawField.t) (λ m, known Sessions.RawField.t m.(V3.sessions.SessionRawField.field)).
Proof. open_reencoded. finish_reencoded. Qed.

#[export] Instance session_option_field_reencoded : Reencodes (A := TaskOptionField.t) (λ m, known TaskOptionField.t m.(V3.sessions.TaskOptionField.field)).
Proof. open_reencoded. finish_reencoded. Qed.

Definition session_field_kept (m : V3.sessions.SessionField.t) : Prop :=
  match m.(V3.sessions.SessionField.field) with
  | Some (V3.sessions.session_field.Field.SessionRawField field) => known Sessions.RawField.t field.(V3.sessions.SessionRawField.field)
  | Some (V3.sessions.session_field.Field.TaskOptionField field) =>
      known TaskOptionField.t field.(V3.sessions.TaskOptionField.field)
  | Some (V3.sessions.session_field.Field.TaskOptionGenericField _) => True
  | None => False
  end.

#[export] Instance session_field_reencoded : Reencodes (A := Sessions.Field.t) session_field_kept.
Proof. intros [[[f|f|[f]]|]]; solve_field. Qed.

Definition session_filter_kept (m : V3.sessions.FilterField.t) : Prop :=
  present_kept session_field_kept m.(V3.sessions.FilterField.field) ∧
  present_kept session_condition_kept m.(V3.sessions.FilterField.value_condition).

#[export] Instance session_filter_reencoded : Reencodes (A := Sessions.filter.Field.t) session_filter_kept.
Proof. solve_reencoded session_filter_kept. Qed.

Definition session_and_kept (m : V3.sessions.FiltersAnd.t) : Prop :=
  Forall session_filter_kept m.(V3.sessions.FiltersAnd.and).

#[export] Instance session_and_reencoded : Reencodes (A := Sessions.filter.And.t) session_and_kept.
Proof. solve_reencoded session_and_kept. Qed.

Definition session_or_kept (m : V3.sessions.Filters.t) : Prop :=
  Forall session_and_kept m.(V3.sessions.Filters.or).

#[export] Instance session_or_reencoded : Reencodes (A := Sessions.filter.Or.t) session_or_kept.
Proof. solve_reencoded session_or_kept. Qed.

Definition session_sort_kept (m : V3.sessions.list_sessions_request.Sort.t) : Prop :=
  present_kept session_field_kept m.(V3.sessions.list_sessions_request.Sort.field) ∧
  known SortDirection.t m.(V3.sessions.list_sessions_request.Sort.direction).

#[export] Instance session_sort_reencoded : Reencodes (A := Sessions.Sort.t) session_sort_kept.
Proof. solve_reencoded session_sort_kept. Qed.

Definition list_sessions_kept (m : V3.sessions.ListSessionsRequest.t) : Prop :=
  present_kept session_or_kept m.(V3.sessions.ListSessionsRequest.filters) ∧
  present_kept session_sort_kept m.(V3.sessions.ListSessionsRequest.sort).

#[export] Instance list_sessions_reencoded : Reencodes (A := Sessions.list.Request.t) list_sessions_kept.
Proof. solve_reencoded list_sessions_kept. Qed.

(** *** Tasks ([objects/tasks/filter.rs] and [list.rs]) *)

Definition task_status_kept (m : V3.tasks.FilterStatus.t) : Prop :=
  known TaskStatus.t m.(V3.tasks.FilterStatus.value) ∧
  known FilterStatusOperator.t m.(V3.tasks.FilterStatus.operator).

#[export] Instance task_status_reencoded :
  Reencodes (A := Tasks.filter.Status.t) task_status_kept.
Proof. solve_reencoded task_status_kept. Qed.

Definition task_condition_kept (m : V3.tasks.filter_field.ValueCondition.t) : Prop :=
  match m with
  | V3.tasks.filter_field.ValueCondition.FilterString cond => string_kept cond
  | V3.tasks.filter_field.ValueCondition.FilterNumber cond => number_kept cond
  | V3.tasks.filter_field.ValueCondition.FilterBoolean cond => boolean_kept cond
  | V3.tasks.filter_field.ValueCondition.FilterStatus cond => task_status_kept cond
  | V3.tasks.filter_field.ValueCondition.FilterDate cond => date_kept cond
  | V3.tasks.filter_field.ValueCondition.FilterDuration cond => duration_kept cond
  | V3.tasks.filter_field.ValueCondition.FilterArray cond => array_kept cond
  end.

#[export] Instance task_condition_reencoded :
  Reencodes (A := Tasks.filter.Condition.t) task_condition_kept.
Proof. solve_variants. Qed.

#[export] Instance task_summary_field_reencoded : Reencodes (A := Tasks.SummaryField.t) (λ m, known Tasks.SummaryField.t m.(V3.tasks.TaskSummaryField.field)).
Proof. open_reencoded. finish_reencoded. Qed.

#[export] Instance task_option_field_reencoded : Reencodes (A := TaskOptionField.t) (λ m, known TaskOptionField.t m.(V3.tasks.TaskOptionField.field)).
Proof. open_reencoded. finish_reencoded. Qed.

Definition task_field_kept (m : V3.tasks.TaskField.t) : Prop :=
  match m.(V3.tasks.TaskField.field) with
  | Some (V3.tasks.task_field.Field.TaskSummaryField field) => known Tasks.SummaryField.t field.(V3.tasks.TaskSummaryField.field)
  | Some (V3.tasks.task_field.Field.TaskOptionField field) =>
      known TaskOptionField.t field.(V3.tasks.TaskOptionField.field)
  | Some (V3.tasks.task_field.Field.TaskOptionGenericField _) => True
  | None => False
  end.

#[export] Instance task_field_reencoded : Reencodes (A := Tasks.Field.t) task_field_kept.
Proof. intros [[[f|f|[f]]|]]; solve_field. Qed.

Definition task_filter_kept (m : V3.tasks.FilterField.t) : Prop :=
  present_kept task_field_kept m.(V3.tasks.FilterField.field) ∧
  present_kept task_condition_kept m.(V3.tasks.FilterField.value_condition).

#[export] Instance task_filter_reencoded : Reencodes (A := Tasks.filter.Field.t) task_filter_kept.
Proof. solve_reencoded task_filter_kept. Qed.

Definition task_and_kept (m : V3.tasks.FiltersAnd.t) : Prop :=
  Forall task_filter_kept m.(V3.tasks.FiltersAnd.and).

#[export] Instance task_and_reencoded : Reencodes (A := Tasks.filter.And.t) task_and_kept.
Proof. solve_reencoded task_and_kept. Qed.

Definition task_or_kept (m : V3.tasks.Filters.t) : Prop :=
  Forall task_and_kept m.(V3.tasks.Filters.or).

#[export] Instance task_or_reencoded : Reencodes (A := Tasks.filter.Or.t) task_or_kept.
Proof. solve_reencoded task_or_kept. Qed.

Definition task_sort_kept (m : V3.tasks.list_tasks_request.Sort.t) : Prop :=
  present_kept task_field_kept m.(V3.tasks.list_tasks_request.Sort.field) ∧
  known SortDirection.t m.(V3.tasks.list_tasks_request.Sort.direction).

#[export] Instance task_sort_reencoded : Reencodes (A := Tasks.Sort.t) task_sort_kept.
Proof. solve_reencoded task_sort_kept. Qed.

Definition list_tasks_kept (m : V3.tasks.ListTasksRequest.t) : Prop :=
  present_kept task_or_kept m.(V3.tasks.ListTasksRequest.filters) ∧
  present_kept task_sort_kept m.(V3.tasks.ListTasksRequest.sort).

#[export] Instance list_tasks_reencoded : Reencodes (A := Tasks.list.Request.t) list_tasks_kept.
Proof. solve_reencoded list_tasks_kept. Qed.

(** *** Results ([objects/results/filter.rs] and [list.rs]) *)

Definition result_status_kept (m : V3.results.FilterStatus.t) : Prop :=
  known ResultStatus.t m.(V3.results.FilterStatus.value) ∧
  known FilterStatusOperator.t m.(V3.results.FilterStatus.operator).

#[export] Instance result_status_reencoded :
  Reencodes (A := Results.filter.Status.t) result_status_kept.
Proof. solve_reencoded result_status_kept. Qed.

Definition result_condition_kept (m : V3.results.filter_field.ValueCondition.t) : Prop :=
  match m with
  | V3.results.filter_field.ValueCondition.FilterString cond => string_kept cond
  | V3.results.filter_field.ValueCondition.FilterDate cond => date_kept cond
  | V3.results.filter_field.ValueCondition.FilterArray cond => array_kept cond
  | V3.results.filter_field.ValueCondition.FilterStatus cond => result_status_kept cond
  | V3.results.filter_field.ValueCondition.FilterNumber cond => number_kept cond
  end.

#[export] Instance result_condition_reencoded :
  Reencodes (A := Results.filter.Condition.t) result_condition_kept.
Proof. solve_variants. Qed.

Definition result_field_kept (m : V3.results.ResultField.t) : Prop :=
  match m.(V3.results.ResultField.field) with
  | Some (V3.results.result_field.Field.ResultRawField field) => known Results.Field.t field.(V3.results.ResultRawField.field)
  | None => False
  end.

#[export] Instance result_field_reencoded : Reencodes (A := Results.Field.t) result_field_kept.
Proof. intros [[[[f]]|]]; solve_field. Qed.

Definition result_filter_kept (m : V3.results.FilterField.t) : Prop :=
  present_kept result_field_kept m.(V3.results.FilterField.field) ∧
  present_kept result_condition_kept m.(V3.results.FilterField.value_condition).

#[export] Instance result_filter_reencoded : Reencodes (A := Results.filter.Field.t) result_filter_kept.
Proof. solve_reencoded result_filter_kept. Qed.

Definition result_and_kept (m : V3.results.FiltersAnd.t) : Prop :=
  Forall result_filter_kept m.(V3.results.FiltersAnd.and).

#[export] Instance result_and_reencoded : Reencodes (A := Results.filter.And.t) result_and_kept.
Proof. solve_reencoded result_and_kept. Qed.

Definition result_or_kept (m : V3.results.Filters.t) : Prop :=
  Forall result_and_kept m.(V3.results.Filters.or).

#[export] Instance result_or_reencoded : Reencodes (A := Results.filter.Or.t) result_or_kept.
Proof. solve_reencoded result_or_kept. Qed.

Definition result_sort_kept (m : V3.results.list_results_request.Sort.t) : Prop :=
  present_kept result_field_kept m.(V3.results.list_results_request.Sort.field) ∧
  known SortDirection.t m.(V3.results.list_results_request.Sort.direction).

#[export] Instance result_sort_reencoded : Reencodes (A := Results.Sort.t) result_sort_kept.
Proof. solve_reencoded result_sort_kept. Qed.

Definition list_results_kept (m : V3.results.ListResultsRequest.t) : Prop :=
  present_kept result_or_kept m.(V3.results.ListResultsRequest.filters) ∧
  present_kept result_sort_kept m.(V3.results.ListResultsRequest.sort).

#[export] Instance list_results_reencoded : Reencodes (A := Results.list.Request.t) list_results_kept.
Proof. solve_reencoded list_results_kept. Qed.

(** *** Partitions ([objects/partitions/filter.rs] and [list.rs]) *)

Definition partition_condition_kept (m : V3.partitions.filter_field.ValueCondition.t) : Prop :=
  match m with
  | V3.partitions.filter_field.ValueCondition.FilterString cond => string_kept cond
  | V3.partitions.filter_field.ValueCondition.FilterNumber cond => number_kept cond
  | V3.partitions.filter_field.ValueCondition.FilterBoolean cond => boolean_kept cond
  | V3.partitions.filter_field.ValueCondition.FilterArray cond => array_kept cond
  end.

#[export] Instance partition_condition_reencoded :
  Reencodes (A := Partitions.filter.Condition.t) partition_condition_kept.
Proof. solve_variants. Qed.

Definition partition_field_kept (m : V3.partitions.PartitionField.t) : Prop :=
  match m.(V3.partitions.PartitionField.field) with
  | Some (V3.partitions.partition_field.Field.PartitionRawField field) => known Partitions.Field.t field.(V3.partitions.PartitionRawField.field)
  | None => False
  end.

#[export] Instance partition_field_reencoded : Reencodes (A := Partitions.Field.t) partition_field_kept.
Proof. intros [[[[f]]|]]; solve_field. Qed.

Definition partition_filter_kept (m : V3.partitions.FilterField.t) : Prop :=
  present_kept partition_field_kept m.(V3.partitions.FilterField.field) ∧
  present_kept partition_condition_kept m.(V3.partitions.FilterField.value_condition).

#[export] Instance partition_filter_reencoded : Reencodes (A := Partitions.filter.Field.t) partition_filter_kept.
Proof. solve_reencoded partition_filter_kept. Qed.

Definition partition_and_kept (m : V3.partitions.FiltersAnd.t) : Prop :=
  Forall partition_filter_kept m.(V3.partitions.FiltersAnd.and).

#[export] Instance partition_and_reencoded : Reencodes (A := Partitions.filter.And.t) partition_and_kept.
Proof. solve_reencoded partition_and_kept. Qed.

Definition partition_or_kept (m : V3.partitions.Filters.t) : Prop :=
  Forall partition_and_kept m.(V3.partitions.Filters.or).

#[export] Instance partition_or_reencoded : Reencodes (A := Partitions.filter.Or.t) partition_or_kept.
Proof. solve_reencoded partition_or_kept. Qed.

Definition partition_sort_kept (m : V3.partitions.list_partitions_request.Sort.t) : Prop :=
  present_kept partition_field_kept m.(V3.partitions.list_partitions_request.Sort.field) ∧
  known SortDirection.t m.(V3.partitions.list_partitions_request.Sort.direction).

#[export] Instance partition_sort_reencoded : Reencodes (A := Partitions.Sort.t) partition_sort_kept.
Proof. solve_reencoded partition_sort_kept. Qed.

Definition list_partitions_kept (m : V3.partitions.ListPartitionsRequest.t) : Prop :=
  present_kept partition_or_kept m.(V3.partitions.ListPartitionsRequest.filters) ∧
  present_kept partition_sort_kept m.(V3.partitions.ListPartitionsRequest.sort).

#[export] Instance list_partitions_reencoded : Reencodes (A := Partitions.list.Request.t) list_partitions_kept.
Proof. solve_reencoded list_partitions_kept. Qed.

(** *** Applications ([objects/applications/filter.rs] and [list.rs]) *)

Definition application_condition_kept (m : V3.applications.filter_field.ValueCondition.t) : Prop :=
  match m with
  | V3.applications.filter_field.ValueCondition.FilterString cond => string_kept cond
  end.

#[export] Instance application_condition_reencoded :
  Reencodes (A := Applications.filter.Condition.t) application_condition_kept.
Proof. solve_variants. Qed.

Definition application_field_kept (m : V3.applications.ApplicationField.t) : Prop :=
  match m.(V3.applications.ApplicationField.field) with
  | Some (V3.applications.application_field.Field.ApplicationField field) => known Applications.Field.t field.(V3.applications.ApplicationRawField.field)
  | None => False
  end.

#[export] Instance application_field_reencoded : Reencodes (A := Applications.Field.t) application_field_kept.
Proof. intros [[[[f]]|]]; solve_field. Qed.

Definition application_filter_kept (m : V3.applications.FilterField.t) : Prop :=
  present_kept application_field_kept m.(V3.applications.FilterField.field) ∧
  present_kept application_condition_kept m.(V3.applications.FilterField.value_condition).

#[export] Instance application_filter_reencoded : Reencodes (A := Applications.filter.Field.t) application_filter_kept.
Proof. solve_reencoded application_filter_kept. Qed.

Definition application_and_kept (m : V3.applications.FiltersAnd.t) : Prop :=
  Forall application_filter_kept m.(V3.applications.FiltersAnd.and).

#[export] Instance application_and_reencoded : Reencodes (A := Applications.filter.And.t) application_and_kept.
Proof. solve_reencoded application_and_kept. Qed.

Definition application_or_kept (m : V3.applications.Filters.t) : Prop :=
  Forall application_and_kept m.(V3.applications.Filters.or).

#[export] Instance application_or_reencoded : Reencodes (A := Applications.filter.Or.t) application_or_kept.
Proof. solve_reencoded application_or_kept. Qed.

Definition application_sort_kept (m : V3.applications.list_applications_request.Sort.t) : Prop :=
  Forall application_field_kept m.(V3.applications.list_applications_request.Sort.fields) ∧
  known SortDirection.t m.(V3.applications.list_applications_request.Sort.direction).

#[export] Instance application_sort_reencoded : Reencodes (A := Applications.Sort.t) application_sort_kept.
Proof. solve_reencoded application_sort_kept. Qed.

Definition list_applications_kept (m : V3.applications.ListApplicationsRequest.t) : Prop :=
  present_kept application_or_kept m.(V3.applications.ListApplicationsRequest.filters) ∧
  present_kept application_sort_kept m.(V3.applications.ListApplicationsRequest.sort).

#[export] Instance list_applications_reencoded : Reencodes (A := Applications.list.Request.t) list_applications_kept.
Proof. solve_reencoded list_applications_kept. Qed.

#[export] Instance list_tasks_detailed_reencoded :
  Reencodes (A := Tasks.list_detailed.Request.t) list_tasks_kept.
Proof. solve_reencoded list_tasks_kept. Qed.

(** ** Counts and subscriptions *)

Definition count_status_kept (m : V3.tasks.CountTasksByStatusRequest.t) : Prop :=
  present_kept task_or_kept m.(V3.tasks.CountTasksByStatusRequest.filters).

#[export] Instance count_status_reencoded :
  Reencodes (A := Tasks.count_status.Request.t) count_status_kept.
Proof. solve_reencoded count_status_kept. Qed.

Definition subscribe_kept (m : V3.events.EventSubscriptionRequest.t) : Prop :=
  present_kept task_or_kept m.(V3.events.EventSubscriptionRequest.tasks_filters) ∧
  present_kept result_or_kept m.(V3.events.EventSubscriptionRequest.results_filters) ∧
  Forall (known Events.EventsEnum.t) m.(V3.events.EventSubscriptionRequest.returned_events).

Lemma subscribe_sent (x : Events.subscribe.Request.t) : subscribe_kept (from x).
Proof.
  split_and!; [exact (present_sent task_or_kept _)|exact (present_sent result_or_kept _)|].
  change (Forall (known Events.EventsEnum.t)
            (map as_i32 x.(Events.subscribe.Request.returned_events))).
  induction x.(Events.subscribe.Request.returned_events) as [|e l IH]; constructor;
    [by exists e|done].
Qed.
