(* ===== verification/MessageLaws.v ===== *)
(** The laws of the messages, across services: the codes of the enumerations, what is
    decoded from a message of a peer, and the objects that do not survive their
    encoding. *)

From S2P Require Import Prelude V3 Objects Filters Sessions Tasks Results Partitions.
From S2P Require Import Applications Misc Events Worker Agent Submitter Reencoding.

(** ** Codes *)

(** A variant has the code of the value of the protocol it is converted to. *)
Definition codes_kept (A P : Type) `{AsI32 A, AsI32 P, From A P} : Prop :=
  ∀ x : A, as_i32 (from x : P) = as_i32 x.

(** The two sides of a table have the same codes, and every variant is in it. *)
Definition same_codes {A P} `{AsI32 A, AsI32 P} (table : list (A * P)) : Prop :=
  Forall (λ entry, as_i32 entry.1 = as_i32 entry.2) table ∧ ∀ x, x ∈ table.*1.

(** Tasks: the fields, with those of the protocol of the same name. *)
Definition task_fields : list (Tasks.SummaryField.t * V3.tasks.TaskSummaryEnumField.t) := [
  (Tasks.SummaryField.Unspecified, V3.tasks.TaskSummaryEnumField.Unspecified);
  (Tasks.SummaryField.TaskId, V3.tasks.TaskSummaryEnumField.TaskId);
  (Tasks.SummaryField.SessionId, V3.tasks.TaskSummaryEnumField.SessionId);
  (Tasks.SummaryField.OwnerPodId, V3.tasks.TaskSummaryEnumField.OwnerPodId);
  (Tasks.SummaryField.InitialTaskId, V3.tasks.TaskSummaryEnumField.InitialTaskId);
  (Tasks.SummaryField.Status, V3.tasks.TaskSummaryEnumField.Status);
  (Tasks.SummaryField.CreatedAt, V3.tasks.TaskSummaryEnumField.CreatedAt);
  (Tasks.SummaryField.SubmittedAt, V3.tasks.TaskSummaryEnumField.SubmittedAt);
  (Tasks.SummaryField.StartedAt, V3.tasks.TaskSummaryEnumField.StartedAt);
  (Tasks.SummaryField.EndedAt, V3.tasks.TaskSummaryEnumField.EndedAt);
  (Tasks.SummaryField.CreationToEndDuration, V3.tasks.TaskSummaryEnumField.CreationToEndDuration);
  (Tasks.SummaryField.ProcessingToEndDuration, V3.tasks.TaskSummaryEnumField.ProcessingToEndDuration);
  (Tasks.SummaryField.ReceivedToEndDuration, V3.tasks.TaskSummaryEnumField.ReceivedToEndDuration);
  (Tasks.SummaryField.PodTtl, V3.tasks.TaskSummaryEnumField.PodTtl);
  (Tasks.SummaryField.PodHostname, V3.tasks.TaskSummaryEnumField.PodHostname);
  (Tasks.SummaryField.ReceivedAt, V3.tasks.TaskSummaryEnumField.ReceivedAt);
  (Tasks.SummaryField.AcquiredAt, V3.tasks.TaskSummaryEnumField.AcquiredAt);
  (Tasks.SummaryField.ProcessedAt, V3.tasks.TaskSummaryEnumField.ProcessedAt);
  (Tasks.SummaryField.FetchedAt, V3.tasks.TaskSummaryEnumField.FetchedAt);
  (Tasks.SummaryField.Error, V3.tasks.TaskSummaryEnumField.Error);
  (Tasks.SummaryField.PayloadId, V3.tasks.TaskSummaryEnumField.PayloadId);
  (Tasks.SummaryField.CreatedBy, V3.tasks.TaskSummaryEnumField.CreatedBy)].

(** Results: the fields, with those of the protocol of the same name. *)
Definition result_fields : list (Results.Field.t * V3.results.ResultRawEnumField.t) := [
  (Results.Field.Unspecified, V3.results.ResultRawEnumField.Unspecified);
  (Results.Field.SessionId, V3.results.ResultRawEnumField.SessionId);
  (Results.Field.Name, V3.results.ResultRawEnumField.Name);
  (Results.Field.OwnerTaskId, V3.results.ResultRawEnumField.OwnerTaskId);
  (Results.Field.Status, V3.results.ResultRawEnumField.Status);
  (Results.Field.CreatedAt, V3.results.ResultRawEnumField.CreatedAt);
  (Results.Field.CompletedAt, V3.results.ResultRawEnumField.CompletedAt);
  (Results.Field.ResultId, V3.results.ResultRawEnumField.ResultId);
  (Results.Field.Size, V3.results.ResultRawEnumField.Size);
  (Results.Field.CreatedBy, V3.results.ResultRawEnumField.CreatedBy);
  (Results.Field.OpaqueId, V3.results.ResultRawEnumField.OpaqueId);
  (Results.Field.ManualDeletion, V3.results.ResultRawEnumField.ManualDeletion)].

(** Partitions: the fields, with those of the protocol of the same name. *)
Definition partition_fields : list (Partitions.Field.t * V3.partitions.PartitionRawEnumField.t) := [
  (Partitions.Field.Unspecified, V3.partitions.PartitionRawEnumField.Unspecified);
  (Partitions.Field.Id, V3.partitions.PartitionRawEnumField.Id);
  (Partitions.Field.ParentPartitionIds, V3.partitions.PartitionRawEnumField.ParentPartitionIds);
  (Partitions.Field.PodReserved, V3.partitions.PartitionRawEnumField.PodReserved);
  (Partitions.Field.PodMax, V3.partitions.PartitionRawEnumField.PodMax);
  (Partitions.Field.PreemptionPercentage, V3.partitions.PartitionRawEnumField.PreemptionPercentage);
  (Partitions.Field.Priority, V3.partitions.PartitionRawEnumField.Priority)].

(** Applications: the fields, with those of the protocol of the same name. *)
Definition application_fields : list (Applications.Field.t * V3.applications.ApplicationRawEnumField.t) := [
  (Applications.Field.Unspecified, V3.applications.ApplicationRawEnumField.Unspecified);
  (Applications.Field.Name, V3.applications.ApplicationRawEnumField.Name);
  (Applications.Field.Version, V3.applications.ApplicationRawEnumField.Version);
  (Applications.Field.Namespace, V3.applications.ApplicationRawEnumField.Namespace);
  (Applications.Field.Service, V3.applications.ApplicationRawEnumField.Service)].

(** Sessions: the fields, with those of the protocol of the same name. *)
Definition session_fields : list (Sessions.RawField.t * V3.sessions.SessionRawEnumField.t) := [
  (Sessions.RawField.Unspecified, V3.sessions.SessionRawEnumField.Unspecified);
  (Sessions.RawField.SessionId, V3.sessions.SessionRawEnumField.SessionId);
  (Sessions.RawField.Status, V3.sessions.SessionRawEnumField.Status);
  (Sessions.RawField.ClientSubmission, V3.sessions.SessionRawEnumField.ClientSubmission);
  (Sessions.RawField.WorkerSubmission, V3.sessions.SessionRawEnumField.WorkerSubmission);
  (Sessions.RawField.PartitionIds, V3.sessions.SessionRawEnumField.PartitionIds);
  (Sessions.RawField.Options, V3.sessions.SessionRawEnumField.Options);
  (Sessions.RawField.CreatedAt, V3.sessions.SessionRawEnumField.CreatedAt);
  (Sessions.RawField.CancelledAt, V3.sessions.SessionRawEnumField.CancelledAt);
  (Sessions.RawField.ClosedAt, V3.sessions.SessionRawEnumField.ClosedAt);
  (Sessions.RawField.PurgedAt, V3.sessions.SessionRawEnumField.PurgedAt);
  (Sessions.RawField.DeletedAt, V3.sessions.SessionRawEnumField.DeletedAt);
  (Sessions.RawField.Duration, V3.sessions.SessionRawEnumField.Duration)].

(** Task options, among the tasks: the fields, with those of the protocol of the same name. *)
Definition task_option_fields : list (TaskOptionField.t * V3.tasks.TaskOptionEnumField.t) := [
  (TaskOptionField.Unspecified, V3.tasks.TaskOptionEnumField.Unspecified);
  (TaskOptionField.MaxDuration, V3.tasks.TaskOptionEnumField.MaxDuration);
  (TaskOptionField.MaxRetries, V3.tasks.TaskOptionEnumField.MaxRetries);
  (TaskOptionField.Priority, V3.tasks.TaskOptionEnumField.Priority);
  (TaskOptionField.PartitionId, V3.tasks.TaskOptionEnumField.PartitionId);
  (TaskOptionField.ApplicationName, V3.tasks.TaskOptionEnumField.ApplicationName);
  (TaskOptionField.ApplicationVersion, V3.tasks.TaskOptionEnumField.ApplicationVersion);
  (TaskOptionField.ApplicationNamespace, V3.tasks.TaskOptionEnumField.ApplicationNamespace);
  (TaskOptionField.ApplicationService, V3.tasks.TaskOptionEnumField.ApplicationService);
  (TaskOptionField.ApplicationEngine, V3.tasks.TaskOptionEnumField.EngineType)].

(** Task options, among the sessions: the fields, with those of the protocol of the same name. *)
Definition session_task_option_fields : list (TaskOptionField.t * V3.sessions.TaskOptionEnumField.t) := [
  (TaskOptionField.Unspecified, V3.sessions.TaskOptionEnumField.Unspecified);
  (TaskOptionField.MaxDuration, V3.sessions.TaskOptionEnumField.MaxDuration);
  (TaskOptionField.MaxRetries, V3.sessions.TaskOptionEnumField.MaxRetries);
  (TaskOptionField.Priority, V3.sessions.TaskOptionEnumField.Priority);
  (TaskOptionField.PartitionId, V3.sessions.TaskOptionEnumField.PartitionId);
  (TaskOptionField.ApplicationName, V3.sessions.TaskOptionEnumField.ApplicationName);
  (TaskOptionField.ApplicationVersion, V3.sessions.TaskOptionEnumField.ApplicationVersion);
  (TaskOptionField.ApplicationNamespace, V3.sessions.TaskOptionEnumField.ApplicationNamespace);
  (TaskOptionField.ApplicationService, V3.sessions.TaskOptionEnumField.ApplicationService);
  (TaskOptionField.ApplicationEngine, V3.sessions.TaskOptionEnumField.EngineType)].

(** The health of a worker. *)
Definition serving_statuses : list (Worker.health_check.Response.t * V3.worker.health_check_reply.ServingStatus.t) := [
  (Worker.health_check.Response.Unknown, V3.worker.health_check_reply.ServingStatus.Unknown);
  (Worker.health_check.Response.Serving, V3.worker.health_check_reply.ServingStatus.Serving);
  (Worker.health_check.Response.NotServing, V3.worker.health_check_reply.ServingStatus.NotServing)].

Ltac in_table :=
  let x := fresh "x" in intros x; destruct x; cbn; repeat (left || right).

Ltac solve_same_codes := split; [repeat constructor|in_table].

(** C24: But for the fields of sessions (of which the next claim is), the codes of the
    enumerations are those of the protocol: the statuses, the operators of the filters, the
    directions, the events and the health, the fields by which tasks, results, partitions
    and applications are sorted and filtered, and the task options. *)
Theorem codes_agree :
  codes_kept SessionStatus.t V3.session_status.SessionStatus.t ∧
  codes_kept TaskStatus.t V3.task_status.TaskStatus.t ∧
  codes_kept ResultStatus.t V3.result_status.ResultStatus.t ∧
  codes_kept SortDirection.t V3.sort_direction.SortDirection.t ∧
  codes_kept FilterArrayOperator.t V3.FilterArrayOperator.t ∧
  codes_kept FilterBooleanOperator.t V3.FilterBooleanOperator.t ∧
  codes_kept FilterDateOperator.t V3.FilterDateOperator.t ∧
  codes_kept FilterDurationOperator.t V3.FilterDurationOperator.t ∧
  codes_kept FilterNumberOperator.t V3.FilterNumberOperator.t ∧
  codes_kept FilterStatusOperator.t V3.FilterStatusOperator.t ∧
  codes_kept FilterStringOperator.t V3.FilterStringOperator.t ∧
  codes_kept HealthChecks.Status.t V3.health_checks.HealthStatusEnum.t ∧
  codes_kept Events.EventsEnum.t V3.events.EventsEnum.t ∧
  same_codes task_fields ∧ same_codes result_fields ∧ same_codes partition_fields ∧
  same_codes application_fields ∧ same_codes task_option_fields ∧
  same_codes session_task_option_fields ∧ same_codes serving_statuses.
Proof. split_and!; first [by_variant | solve_same_codes]. Qed.

(** C25: The fields of a session are the exception: five of them are sent with the code
    of another field, so that sorting by [ClosedAt], say, is asked as sorting by
    [ClientSubmission]. *)
Theorem session_field_codes x p :
  (x, p) ∈ session_fields →
  (as_i32 x ≠ as_i32 p ↔
   x ∈ [Sessions.RawField.ClientSubmission; Sessions.RawField.WorkerSubmission;
        Sessions.RawField.ClosedAt; Sessions.RawField.PurgedAt; Sessions.RawField.DeletedAt]) ∧
  (as_i32 x ≠ as_i32 p →
   ∃ x' p', x' ≠ x ∧ (x', p') ∈ session_fields ∧ as_i32 x = as_i32 p').
Proof.
  assert (∀ y, y ∈ session_fields.*1) as Hall by in_table.
  unfold session_fields. rewrite !elem_of_cons, elem_of_nil.
  intros Hx. repeat destruct Hx as [[= -> ->]|Hx];
    (split; [cbv [as_i32 Sessions.RawField.discriminant V3.sessions.SessionRawEnumField.code];
             rewrite ?elem_of_cons, ?elem_of_nil; split; intros; intuition congruence|]);
    intros Hn; try (by destruct Hn);
    [exists Sessions.RawField.ClosedAt, V3.sessions.SessionRawEnumField.ClosedAt
    |exists Sessions.RawField.PurgedAt, V3.sessions.SessionRawEnumField.PurgedAt
    |exists Sessions.RawField.ClientSubmission, V3.sessions.SessionRawEnumField.ClientSubmission
    |exists Sessions.RawField.DeletedAt, V3.sessions.SessionRawEnumField.DeletedAt
    |exists Sessions.RawField.WorkerSubmission, V3.sessions.SessionRawEnumField.WorkerSubmission];
    (split_and!; [done|set_solver|done]).
Qed.

(** A number is decoded to the variant that has it as its code, and to [unknown] when
    no variant has. *)
Definition decodes_codes {A} `{AsI32 A, From Z A} (unknown : A) : Prop :=
  ∀ z x, from z = x ↔ as_i32 x = z ∨ (x = unknown ∧ ∀ y : A, as_i32 y ≠ z).

Lemma decodes_codes_intro `{CodeRoundTrip A} (unknown : A) :
  (∀ z, as_i32 (from z : A) = z ∨ (from z = unknown ∧ ∀ y : A, as_i32 y ≠ z)) →
  decodes_codes unknown.
Proof.
  intros Hz z x. split.
  - intros <-. naive_solver.
  - intros [<-|[-> Hn]]; [apply code_roundtrip|]. destruct (Hz z) as [He|[He _]]; [|done].
    by destruct (Hn _ He).
Qed.

Ltac solve_decodes_codes :=
  apply decodes_codes_intro;
  let z := fresh "z" in intros z;
  lazymatch goal with
  | |- context [@from Z _ ?I z] => let i := head_of I in unfold from, i
  end;
  repeat case_match; subst;
  first [by left | right; split; [done|intros []; cbv; discriminate]].

(** C23: What every number a peer may send for an enumeration is decoded to.  For most
    enumerations an unknown number is [Unspecified]; the operators of the filters have no
    such variant, and take their first one. *)
Theorem codes_decoded :
  decodes_codes SessionStatus.Unspecified ∧
  decodes_codes TaskStatus.Unspecified ∧
  decodes_codes ResultStatus.Unspecified ∧
  decodes_codes SortDirection.Unspecified ∧
  decodes_codes TaskOptionField.Unspecified ∧
  decodes_codes FilterArrayOperator.Contains ∧
  decodes_codes FilterBooleanOperator.Is ∧
  decodes_codes FilterDateOperator.Equal ∧
  decodes_codes FilterDurationOperator.Equal ∧
  decodes_codes FilterNumberOperator.Equal ∧
  decodes_codes FilterStatusOperator.Equal ∧
  decodes_codes FilterStringOperator.Equal ∧
  decodes_codes HealthChecks.Status.Unspecified ∧
  decodes_codes Events.EventsEnum.Unspecified ∧
  decodes_codes Sessions.RawField.Unspecified ∧
  decodes_codes Tasks.SummaryField.Unspecified ∧
  decodes_codes Results.Field.Unspecified ∧
  decodes_codes Partitions.Field.Unspecified ∧
  decodes_codes Applications.Field.Unspecified ∧
  decodes_codes Worker.health_check.Response.Unknown.
Proof. split_and!; solve_decodes_codes. Qed.

(** ** Messages of a peer *)

(** C21: Which messages of a peer are sent back as they came, once decoded, requests with
    their filters included: those that leave out no sub-message that the objects give a
    default to, whose codes are known, and whose outputs are not both a success and an
    error.  Nothing else is lost. *)
Theorem messages_reencoded :
  (∀ m : V3.TaskOptions.t, from (from m : TaskOptions.t) = m ↔ options_kept m) ∧
  (∀ m : V3.sessions.SessionRaw.t, from (from m : Sessions.Raw.t) = m ↔ session_kept m) ∧
  (∀ m : V3.tasks.TaskSummary.t, from (from m : Tasks.Summary.t) = m ↔ summary_kept m) ∧
  (∀ m : V3.tasks.TaskDetailed.t, from (from m : Tasks.Raw.t) = m ↔ task_kept m) ∧
  (∀ m : V3.results.ResultRaw.t, from (from m : Results.Raw.t) = m ↔ result_kept m) ∧
  (∀ m : V3.partitions.PartitionRaw.t, from (from m : Partitions.Raw.t) = m) ∧
  (∀ m : V3.applications.ApplicationRaw.t, from (from m : Applications.Raw.t) = m) ∧
  (∀ m : V3.sessions.CreateSessionRequest.t,
     from (from m : Sessions.create.Request.t) = m ↔ create_session_kept m) ∧
  (∀ m : V3.tasks.SubmitTasksRequest.t,
     from (from m : Tasks.submit.Request.t) = m ↔ submit_kept m) ∧
  (∀ m : V3.sessions.ListSessionsRequest.t,
     from (from m : Sessions.list.Request.t) = m ↔ list_sessions_kept m) ∧
  (∀ m : V3.sessions.ListSessionsResponse.t,
     from (from m : Sessions.list.Response.t) = m ↔ sessions_kept m) ∧
  (∀ m : V3.tasks.ListTasksRequest.t,
     from (from m : Tasks.list.Request.t) = m ↔ list_tasks_kept m) ∧
  (∀ m : V3.tasks.ListTasksResponse.t,
     from (from m : Tasks.list.Response.t) = m ↔ summaries_kept m) ∧
  (∀ m : V3.tasks.ListTasksRequest.t,
     from (from m : Tasks.list_detailed.Request.t) = m ↔ list_tasks_kept m) ∧
  (∀ m : V3.tasks.ListTasksDetailedResponse.t,
     from (from m : Tasks.list_detailed.Response.t) = m ↔ tasks_kept m) ∧
  (∀ m : V3.results.ListResultsRequest.t,
     from (from m : Results.list.Request.t) = m ↔ list_results_kept m) ∧
  (∀ m : V3.results.ListResultsResponse.t,
     from (from m : Results.list.Response.t) = m ↔ results_kept m) ∧
  (∀ m : V3.partitions.ListPartitionsRequest.t,
     from (from m : Partitions.list.Request.t) = m ↔ list_partitions_kept m) ∧
  (∀ m : V3.applications.ListApplicationsRequest.t,
     from (from m : Applications.list.Request.t) = m ↔ list_applications_kept m).
Proof.
  split_and!; intros m; first [by apply partition_reencoded
                              | by apply application_reencoded | apply reencodes].
Qed.

(** The count of a status in a decoded [Count] is the last one the message has for
    it; statuses that are not known are all counted as [Unspecified], the last again. *)
Theorem count_decoded (m : V3.Count.t) s :
  (from m : Count.t).(Count.values) !! s
  = V3.StatusCount.count <$>
      list_basics.list.last (filter (λ sc, from sc.(V3.StatusCount.status) = s) m.(V3.Count.values)).
Proof.
  unfold from at 1, Count.from_v3. cbn.
  induction m.(V3.Count.values) as [|sc l IH] using rev_ind; [done|].
  rewrite map_app, list_basics.list.filter_app. cbn [map].
  rewrite collect_map_snoc, list_basics.list.filter_cons, list_basics.list.filter_nil.
  case_decide as Hs.
  - by rewrite list_basics.list.last_snoc, <-Hs, lookup_insert_eq.
  - by rewrite app_nil_r, lookup_insert_ne.
Qed.

(** ** What the crate sends is complete *)

(** Every code of an enumeration of the crate is one of the protocol. *)
Definition codes_sent (A P : Type) `{AsI32 A, AsI32 P} : Prop := ∀ x : A, known P (as_i32 x).

Lemma codes_sent_same {A P} `{AsI32 A, AsI32 P, From A P} : codes_kept A P → codes_sent A P.
Proof. intros Hc x. exists (from x). apply Hc. Qed.

Lemma codes_sent_among {P} `{AsI32 P} (ps : list P) z :
  Exists (λ p, as_i32 p = z) ps → known P z.
Proof. induction 1 as [p ps Hp|p ps _ IH]; [by exists p|done]. Qed.

Ltac solve_codes_sent table :=
  let x := fresh "x" in intros x; apply (codes_sent_among table.*2); destruct x; cbn;
  repeat first [apply Exists_cons_hd; reflexivity | apply Exists_cons_tl].

Lemma summary_sent (x : Tasks.Summary.t) : summary_kept (from x).
Proof. split; [by eexists|exact (present_sent options_kept _)]. Qed.

(** C20: What the crate sends is complete, whatever it is given.  In the requests to list
    and to count, in those to subscribe, to create a session and to submit tasks, and in
    the sessions, tasks and results that a server answers, one by one or in lists, every
    sub-message that would be replaced by a default is there, and every code is that of a
    variant of the enumerations of the crate (the conditions [*_kept] of [Reencoding]); and
    all the codes of these enumerations, those of the fields of sessions included, are
    codes of the enumerations of the protocol. *)
Theorem sent_complete :
  (∀ x : Sessions.list.Request.t, list_sessions_kept (from x)) ∧
  (∀ x : Tasks.list.Request.t, list_tasks_kept (from x)) ∧
  (∀ x : Tasks.list_detailed.Request.t, list_tasks_kept (from x)) ∧
  (∀ x : Results.list.Request.t, list_results_kept (from x)) ∧
  (∀ x : Partitions.list.Request.t, list_partitions_kept (from x)) ∧
  (∀ x : Applications.list.Request.t, list_applications_kept (from x)) ∧
  (∀ x : Tasks.count_status.Request.t, count_status_kept (from x)) ∧
  (∀ x : Events.subscribe.Request.t, subscribe_kept (from x)) ∧
  (∀ x : Sessions.create.Request.t, create_session_kept (from x)) ∧
  (∀ x : Tasks.submit.Request.t, submit_kept (from x)) ∧
  (∀ x : Sessions.Raw.t, session_kept (from x)) ∧
  (∀ x : Tasks.Summary.t, summary_kept (from x)) ∧
  (∀ x : Tasks.Raw.t, task_kept (from x)) ∧
  (∀ x : Results.Raw.t, result_kept (from x)) ∧
  (∀ x : Sessions.list.Response.t, sessions_kept (from x)) ∧
  (∀ x : Tasks.list.Response.t, summaries_kept (from x)) ∧
  (∀ x : Tasks.list_detailed.Response.t, tasks_kept (from x)) ∧
  (∀ x : Results.list.Response.t, results_kept (from x)) ∧
  codes_sent SessionStatus.t V3.session_status.SessionStatus.t ∧
  codes_sent TaskStatus.t V3.task_status.TaskStatus.t ∧
  codes_sent ResultStatus.t V3.result_status.ResultStatus.t ∧
  codes_sent SortDirection.t V3.sort_direction.SortDirection.t ∧
  codes_sent FilterArrayOperator.t V3.FilterArrayOperator.t ∧
  codes_sent FilterBooleanOperator.t V3.FilterBooleanOperator.t ∧
  codes_sent FilterDateOperator.t V3.FilterDateOperator.t ∧
  codes_sent FilterDurationOperator.t V3.FilterDurationOperator.t ∧
  codes_sent FilterNumberOperator.t V3.FilterNumberOperator.t ∧
  codes_sent FilterStatusOperator.t V3.FilterStatusOperator.t ∧
  codes_sent FilterStringOperator.t V3.FilterStringOperator.t ∧
  codes_sent Events.EventsEnum.t V3.events.EventsEnum.t ∧
  codes_sent Sessions.RawField.t V3.sessions.SessionRawEnumField.t ∧
  codes_sent Tasks.SummaryField.t V3.tasks.TaskSummaryEnumField.t ∧
  codes_sent Results.Field.t V3.results.ResultRawEnumField.t ∧
  codes_sent Partitions.Field.t V3.partitions.PartitionRawEnumField.t ∧
  codes_sent Applications.Field.t V3.applications.ApplicationRawEnumField.t ∧
  codes_sent TaskOptionField.t V3.tasks.TaskOptionEnumField.t ∧
  codes_sent TaskOptionField.t V3.sessions.TaskOptionEnumField.t.
Proof.
  split_and!;
    try (intros x; by apply (sent_kept _ x));
    try (apply codes_sent_same; by_variant).
  - apply subscribe_sent.
  - apply summary_sent.
  - intros x. change (Forall summary_kept (map from x.(Tasks.list.Response.tasks))).
    induction x.(Tasks.list.Response.tasks); constructor; [apply summary_sent|done].
  - solve_codes_sent session_fields.
  - solve_codes_sent task_fields.
  - solve_codes_sent result_fields.
  - solve_codes_sent partition_fields.
  - solve_codes_sent application_fields.
  - solve_codes_sent task_option_fields.
  - solve_codes_sent session_task_option_fields.
Qed.

(** ** Objects that are not what they were *)

Definition with_options (self : TaskOptions.t) (options : gmap string string) : TaskOptions.t := {|
  TaskOptions.options := options;
  TaskOptions.max_duration := self.(TaskOptions.max_duration);
  TaskOptions.max_retries := self.(TaskOptions.max_retries);
  TaskOptions.priority := self.(TaskOptions.priority);
  TaskOptions.partition_id := self.(TaskOptions.partition_id);
  TaskOptions.application_name := self.(TaskOptions.application_name);
  TaskOptions.application_version := self.(TaskOptions.application_version);
  TaskOptions.application_namespace := self.(TaskOptions.application_namespace);
  TaskOptions.application_service := self.(TaskOptions.application_service);
  TaskOptions.engine_type := self.(TaskOptions.engine_type) |}.

(** C31: Task options are equal exactly when they only differ by their options: the map
    [options] is not compared. *)
Theorem task_options_eq_spec (a b : TaskOptions.t) :
  TaskOptions.eq a b = true ↔ b = with_options a b.(TaskOptions.options).
Proof.
  destruct a as [? [? ?]], b as [? [? ?]]. unfold TaskOptions.eq, with_options. cbn.
  rewrite !andb_true_iff, !Z.eqb_eq, !String.eqb_eq. split.
  - intros. destruct_and!. by subst.
  - intros [=]. by subst.
Qed.

(** C30: A summary comes back from its message as it was, unless its output is an error
    without a message, which comes back as a success: nothing else is lost, for one summary
    and for the ones of a list of tasks or of a cancellation. *)
Theorem summary_output_lost :
  (∀ x : Tasks.Summary.t, from (from x : V3.tasks.TaskSummary.t) = x ↔
     x.(Tasks.Summary.output) ≠ Tasks.Output.Error EmptyString) ∧
  (∀ x : Tasks.Summary.t, x.(Tasks.Summary.output) = Tasks.Output.Error EmptyString →
     (from (from x : V3.tasks.TaskSummary.t) : Tasks.Summary.t).(Tasks.Summary.output)
     = Tasks.Output.Success) ∧
  (∀ x : Tasks.list.Response.t,
     from (from x : V3.tasks.ListTasksResponse.t) = Tasks.list.normalise x) ∧
  (∀ x : Tasks.cancel.Response.t,
     from (from x : V3.tasks.CancelTasksResponse.t) = Tasks.cancel.normalise x).
Proof.
  split_and!.
  - intros x. rewrite Tasks.Summary.summary_v3_normalises. split.
    + intros Hx Ho. apply (f_equal Tasks.Summary.output) in Hx.
      unfold Tasks.Summary.normalise in Hx. cbn in Hx. by rewrite Ho in Hx.
    + apply Tasks.Summary.normalise_representable.
  - intros x Ho. rewrite Tasks.Summary.summary_v3_normalises.
    unfold Tasks.Summary.normalise. cbn. by rewrite Ho.
  - apply Tasks.list.list_response_v3_normalises.
  - apply Tasks.cancel.cancel_response_v3_normalises.
Qed.

Lemma collect_map_elem_of `{Countable K} {V} (l : list (K * V)) k v :
  collect_map l !! k = Some v → (k, v) ∈ l.
Proof.
  rewrite collect_map_reverse. intros Hk. apply elem_of_list_to_map_2 in Hk.
  by rewrite elem_of_reverse in Hk.
Qed.

Section import.
Context `{!HashMapIter}.
Implicit Types (reply : Results.import.Response.t) (raw : Results.Raw.t).

(** The replies as a peer gets them. *)
Definition received reply : Results.import.Response.t :=
  from (from reply : V3.results.ImportResultsDataResponse.t).

Lemma received_elem reply name raw :
  (received reply).(Results.import.Response.results) !! name = Some raw →
  raw.(Results.Raw.name) = name ∧
  ∃ key, reply.(Results.import.Response.results) !! key = Some raw.
Proof.
  unfold received. rewrite Results.import.Response.import_response_v3_by_name.
  unfold Results.import.Response.by_name. cbn. intros Hn.
  apply collect_map_elem_of, list_elem_of_fmap in Hn as (raw' & [= -> ->] & Hr).
  split; [done|]. apply list_elem_of_fmap in Hr as ([key raw''] & -> & Hr).
  exists key. rewrite hash_iter_perm in Hr. by apply elem_of_map_to_list.
Qed.

(** C28: The reply of an import is received under the names of its results, not under the
    keys it was given: it is received as it was sent exactly when these are the same; each
    name is received, for one of the results that have it. *)
Theorem import_reply_by_name reply :
  (received reply = reply ↔
     ∀ key raw, reply.(Results.import.Response.results) !! key = Some raw →
       raw.(Results.Raw.name) = key) ∧
  (∀ name, is_Some ((received reply).(Results.import.Response.results) !! name) ↔
     ∃ key raw, reply.(Results.import.Response.results) !! key = Some raw ∧
                raw.(Results.Raw.name) = name) ∧
  (∀ name raw, (received reply).(Results.import.Response.results) !! name = Some raw →
     raw.(Results.Raw.name) = name ∧
     ∃ key, reply.(Results.import.Response.results) !! key = Some raw).
Proof.
  split_and!.
  - split.
    + intros Hr key raw. rewrite <-Hr. intros Hk. by apply received_elem in Hk as [? _].
    + apply (roundtrip_on (P:=Results.import.Response.keyed_by_name)
               (B:=V3.results.ImportResultsDataResponse.t)).
  - intros name. split.
    + intros [raw Hn]. apply received_elem in Hn as (Hn & key & Hk). eauto.
    + intros (key & raw & Hk & <-). apply not_eq_None_Some.
      unfold received. rewrite Results.import.Response.import_response_v3_by_name.
      unfold Results.import.Response.by_name. cbn. rewrite lookup_collect_map_None.
      intros Hn. apply Hn, list_elem_of_fmap. exists (raw.(Results.Raw.name), raw).
      split; [done|]. apply list_elem_of_fmap. exists raw. split; [done|].
      apply list_elem_of_fmap. exists (key, raw). split; [done|].
      rewrite hash_iter_perm. by apply elem_of_map_to_list.
  - apply received_elem.
Qed.
End import.

Lemma map_id_Forall {A} (f : A → A) (l : Datatypes.list A) :
  Forall (λ x, f x = x) l → map f l = l.
Proof. induction 1 as [|x l Hx _ IH]; [done|]. cbn. by rewrite Hx, IH. Qed.

Notation ResultIdentifier := V3.agent.notify_result_data_request.ResultIdentifier.t.
Notation id_session := V3.agent.notify_result_data_request.ResultIdentifier.session_id.
Notation id_result := V3.agent.notify_result_data_request.ResultIdentifier.result_id.

(** C29: A notification is decoded with the session of its first result, and with no
    session when it has no result.  So a request comes back from its message unless it has
    a session and no result; and a message is sent back as it came exactly when all of its
    results are of one session. *)
Theorem notification_session :
  (∀ m : V3.agent.NotifyResultDataRequest.t,
     (from m : Agent.notify_result_data.Request.t) = {|
       Agent.notify_result_data.Request.communication_token :=
         m.(V3.agent.NotifyResultDataRequest.communication_token);
       Agent.notify_result_data.Request.session_id :=
         unwrap_or (id_session <$> head m.(V3.agent.NotifyResultDataRequest.ids)) EmptyString;
       Agent.notify_result_data.Request.result_ids :=
         map id_result m.(V3.agent.NotifyResultDataRequest.ids) |}) ∧
  (∀ x : Agent.notify_result_data.Request.t,
     from (from x : V3.agent.NotifyResultDataRequest.t) = x ↔
     (x.(Agent.notify_result_data.Request.result_ids) = [] →
      x.(Agent.notify_result_data.Request.session_id) = EmptyString)) ∧
  (∀ m : V3.agent.NotifyResultDataRequest.t,
     from (from m : Agent.notify_result_data.Request.t) = m ↔
     ∃ session, Forall (λ id, id_session id = session)
                  m.(V3.agent.NotifyResultDataRequest.ids)).
Proof.
  assert (∀ m : V3.agent.NotifyResultDataRequest.t,
    (from m : Agent.notify_result_data.Request.t) = {|
       Agent.notify_result_data.Request.communication_token :=
         m.(V3.agent.NotifyResultDataRequest.communication_token);
       Agent.notify_result_data.Request.session_id :=
         unwrap_or (id_session <$> head m.(V3.agent.NotifyResultDataRequest.ids)) EmptyString;
       Agent.notify_result_data.Request.result_ids :=
         map id_result m.(V3.agent.NotifyResultDataRequest.ids) |}) as Hd.
  { intros m. unfold from, Agent.notify_result_data.Request.from_v3.
    by rewrite Agent.notify_result_data.Request.take_ids_None. }
  split_and!; [done|..].
  - intros x. rewrite Agent.notify_result_data.Request.notify_request_v3_normalises.
    destruct x as [tok s [|id ids]]; unfold Agent.notify_result_data.Request.normalise; cbn;
      [|done]. split; [by intros [= <-]|]. intros Hs. by rewrite Hs.
  - intros [ids tok]. rewrite Hd. unfold from, Agent.notify_result_data.Request.into_v3. cbn.
    rewrite map_map. split.
    + intros [= Hm]. revert Hm. generalize (unwrap_or (id_session <$> head ids) EmptyString).
      intros s Hm. exists s. rewrite <-Hm. by apply Forall_fmap, Forall_true.
    + intros [s Hs]. f_equal. destruct ids as [|id ids]; [done|].
      apply map_id_Forall. assert (id_session id = s) as <- by (by inv Hs).
      eapply list_relations.list.Forall_impl; [exact Hs|]. intros [s' r] Hid. cbn in *. by rewrite <-Hid.
Qed.

(** ** The filters of the Submitter *)

Section status_filters.
Context {A : Type} `{CodeRoundTrip A, EqDecision A}.

Lemma as_i32_inj (x y : A) : as_i32 x = as_i32 y → x = y.
Proof. intros Hxy. by rewrite <-(code_roundtrip x), Hxy, code_roundtrip. Qed.

Lemma elem_of_codes (x : A) l : as_i32 x ∈ map as_i32 l ↔ x ∈ l.
Proof.
  rewrite list_elem_of_fmap. split.
  - intros (y & Hy & Hl). by rewrite (as_i32_inj _ _ Hy).
  - intros Hx. by exists x.
Qed.

Lemma elem_of_decoded unknown (x : A) zs :
  decodes_codes unknown → x ≠ unknown → x ∈ map from zs ↔ as_i32 x ∈ zs.
Proof.
  intros Hd Hx. rewrite list_elem_of_fmap. split.
  - intros (z & -> & Hz). destruct (proj1 (Hd z (from z)) eq_refl) as [->|[? _]]; done.
  - intros Hz. exists (as_i32 x). by rewrite code_roundtrip.
Qed.
End status_filters.

(** The sessions and the tasks a filter on statuses is for, as an object and as a message. *)
Definition includes_session (f : SessionFilterStatuses.t) (x : SessionStatus.t) : bool :=
  match f with
  | SessionFilterStatuses.Include l => bool_decide (x ∈ l)
  | SessionFilterStatuses.Exclude l => bool_decide (x ∉ l)
  end.

Definition message_includes_session (f : V3.submitter.session_filter.Statuses.t)
    (x : SessionStatus.t) : bool :=
  match f with
  | V3.submitter.session_filter.Statuses.Included r =>
      bool_decide (as_i32 x ∈ r.(V3.submitter.session_filter.StatusesRequest.statuses))
  | V3.submitter.session_filter.Statuses.Excluded r =>
      bool_decide (as_i32 x ∉ r.(V3.submitter.session_filter.StatusesRequest.statuses))
  end.

Definition includes_task (f : TaskFilterStatuses.t) (x : TaskStatus.t) : bool :=
  match f with
  | TaskFilterStatuses.Include l => bool_decide (x ∈ l)
  | TaskFilterStatuses.Exclude l => bool_decide (x ∉ l)
  end.

Definition message_includes_task (f : V3.submitter.task_filter.Statuses.t)
    (x : TaskStatus.t) : bool :=
  match f with
  | V3.submitter.task_filter.Statuses.Included r =>
      bool_decide (as_i32 x ∈ r.(V3.submitter.task_filter.StatusesRequest.statuses))
  | V3.submitter.task_filter.Statuses.Excluded r =>
      bool_decide (as_i32 x ∉ r.(V3.submitter.task_filter.StatusesRequest.statuses))
  end.

(** C22: The message of a filter on statuses is for exactly the statuses the filter is not
    for, whether of sessions or of tasks; decoding is right (for the statuses that are
    specified), so that it is encoding that inverts the filter. *)
Theorem status_filters_inverted :
  (∀ f x, message_includes_session (from f) x = negb (includes_session f x)) ∧
  (∀ f x, x ≠ SessionStatus.Unspecified →
     includes_session (from f) x = message_includes_session f x) ∧
  (∀ f x, message_includes_task (from f) x = negb (includes_task f x)) ∧
  (∀ f x, x ≠ TaskStatus.Unspecified →
     includes_task (from f) x = message_includes_task f x).
Proof.
  assert (decodes_codes SessionStatus.Unspecified) as Hs by solve_decodes_codes.
  assert (decodes_codes TaskStatus.Unspecified) as Ht by solve_decodes_codes.
  split_and!; intros f x; [|intros Hx| |intros Hx]; destruct f;
    unfold from at 1; cbn; rewrite <-?bool_decide_not;
    apply bool_decide_ext; rewrite ?elem_of_codes, ?(elem_of_decoded _ _ _ Hs),
      ?(elem_of_decoded _ _ _ Ht) by done; try done; split; intros; try (by apply dec_stable); by intros ?.
Qed.
