(* ===== verification/Serde.v ===== *)
(** How timestamps and durations are serialised ([armonik/src/utils.rs], modules
    [serde_timestamp], [serde_option_timestamp], [serde_duration] and
    [serde_option_duration]): as pairs of seconds and nanoseconds. *)

From S2P Require Import Prelude V3.

(** ** What the modules use of [serde]

    [Serialize::serialize] and [Deserialize::deserialize], for a format. *)
Class Serde (Output SerError DeError A : Type) : Type := {
  serialize : A → result SerError Output;
  deserialize : Output → result DeError A
}.

(** The pairs [(i64, i32)]. *)
Definition in_range (p : Z * Z) : Prop :=
  (- 2 ^ 63 ≤ p.1 < 2 ^ 63)%Z ∧ (- 2 ^ 31 ≤ p.2 < 2 ^ 31)%Z.

Definition option_in_range (o : option (Z * Z)) : Prop :=
  match o with Some p => in_range p | None => True end.

(** What is serialised, among the values [P], is deserialised as it was. *)
Definition faithful {Output SerError DeError A} (P : A → Prop) (ser : A → result SerError Output)
    (de : Output → result DeError A) : Prop :=
  ∀ a output, P a → ser a = Ok output → de output = Ok a.

(** ** The modules *)

Module serde_timestamp.
Section serde_timestamp.
Context {Output SerError DeError : Type} `{!Serde Output SerError DeError (Z * Z)}.

Definition ser (value : V3.Timestamp.t) : result SerError Output :=
  serialize (value.(V3.Timestamp.seconds), value.(V3.Timestamp.nanos)).

Definition de (input : Output) : result DeError V3.Timestamp.t :=
  mbind (M:=result DeError) (λ '(seconds, nanos), Ok {| V3.Timestamp.seconds := seconds; V3.Timestamp.nanos := nanos |}) (deserialize input).
End serde_timestamp.
End serde_timestamp.

Module serde_option_timestamp.
Section serde_option_timestamp.
Context {Output SerError DeError : Type} `{!Serde Output SerError DeError (option (Z * Z))}.

Definition ser (value : option V3.Timestamp.t) : result SerError Output :=
  serialize ((λ value, (value.(V3.Timestamp.seconds), value.(V3.Timestamp.nanos))) <$> value).

Definition de (input : Output) : result DeError (option V3.Timestamp.t) :=
  mbind (M:=result DeError) (λ value : option (Z * Z),
    Ok ((λ '(seconds, nanos), {| V3.Timestamp.seconds := seconds; V3.Timestamp.nanos := nanos |}) <$> value)) (deserialize input).
End serde_option_timestamp.
End serde_option_timestamp.

Module serde_duration.
Section serde_duration.
Context {Output SerError DeError : Type} `{!Serde Output SerError DeError (Z * Z)}.

Definition ser (value : V3.Duration.t) : result SerError Output :=
  serialize (value.(V3.Duration.seconds), value.(V3.Duration.nanos)).

Definition de (input : Output) : result DeError V3.Duration.t :=
  mbind (M:=result DeError) (λ '(seconds, nanos), Ok {| V3.Duration.seconds := seconds; V3.Duration.nanos := nanos |}) (deserialize input).
End serde_duration.
End serde_duration.

Module serde_option_duration.
Section serde_option_duration.
Context {Output SerError DeError : Type} `{!Serde Output SerError DeError (option (Z * Z))}.

Definition ser (value : option V3.Duration.t) : result SerError Output :=
  serialize ((λ value, (value.(V3.Duration.seconds), value.(V3.Duration.nanos))) <$> value).

Definition de (input : Output) : result DeError (option V3.Duration.t) :=
  mbind (M:=result DeError) (λ value : option (Z * Z),
    Ok ((λ '(seconds, nanos), {| V3.Duration.seconds := seconds; V3.Duration.nanos := nanos |}) <$> value)) (deserialize input).
End serde_option_duration.
End serde_option_duration.

(** C39: Through a format that gives pairs of integers back as they were, timestamps and
    durations, alone or as options, come back as they were, their seconds and nanoseconds
    in the range of their types. *)
Theorem serde_roundtrip {Output SerError DeError}
    `{S1 : !Serde Output SerError DeError (Z * Z),
      S2 : !Serde Output SerError DeError (option (Z * Z))} :
  faithful in_range S1.(serialize) S1.(deserialize) →
  faithful option_in_range S2.(serialize) S2.(deserialize) →
  faithful (λ t, in_range (t.(V3.Timestamp.seconds), t.(V3.Timestamp.nanos)))
    (serde_timestamp.ser (DeError:=DeError)) (serde_timestamp.de (SerError:=SerError)) ∧
  faithful (λ t, option_in_range ((λ t, (t.(V3.Timestamp.seconds), t.(V3.Timestamp.nanos))) <$> t))
    (serde_option_timestamp.ser (DeError:=DeError)) (serde_option_timestamp.de (SerError:=SerError)) ∧
  faithful (λ d, in_range (d.(V3.Duration.seconds), d.(V3.Duration.nanos)))
    (serde_duration.ser (DeError:=DeError)) (serde_duration.de (SerError:=SerError)) ∧
  faithful (λ d, option_in_range ((λ d, (d.(V3.Duration.seconds), d.(V3.Duration.nanos))) <$> d))
    (serde_option_duration.ser (DeError:=DeError)) (serde_option_duration.de (SerError:=SerError)).
Proof.
  intros H1 H2. split_and!.
  - intros [? ?] output Hr Hs. unfold serde_timestamp.de. by rewrite (H1 _ _ Hr Hs).
  - intros [[? ?]|] output Hr Hs; unfold serde_option_timestamp.de; by rewrite (H2 _ _ Hr Hs).
  - intros [? ?] output Hr Hs. unfold serde_duration.de. by rewrite (H1 _ _ Hr Hs).
  - intros [[? ?]|] output Hr Hs; unfold serde_option_duration.de; by rewrite (H2 _ _ Hr Hs).
Qed.
