(* ===== verification/Rpc.v ===== *)
(** The machinery every service goes through: requests and responses of
    [tonic], streams, the client side ([client/mod.rs], macro [impl_call!] and
    the trait [GrpcCall]), the server side ([server/mod.rs], macros
    [define_trait_methods!] and [impl_trait_methods!], [server/request_context.rs]),
    and what it means for a stub to be connected to a server. *)

From Stdlib Require Import FunctionalExtensionality.
From S2P Require Import Prelude.

(** ** What [tonic] and [http] provide

    Their types are abstract; [Request::new] and [Response::new] start from
    their default metadata and extensions. *)
Class Tonic : Type := {
  Status : Type;
  Status_internal : string → Status;
  Status_unimplemented : string → Status;
  MetadataMap : Type;
  MetadataMap_default : MetadataMap;
  HeaderMap : Type;
  into_headers : MetadataMap → HeaderMap;
  Extensions : Type;
  Extensions_default : Extensions
}.

Section tonic_messages.
Context `{!Tonic}.

(** [tonic::Request<A>], by its [into_parts]. *)
Record Request (A : Type) : Type := {
  metadata : MetadataMap;
  extensions : Extensions;
  message : A
}.

Definition Request_new {A} (message : A) : Request A := {|
  metadata := MetadataMap_default;
  extensions := Extensions_default;
  message := message |}.

(** [tonic::Response<A>]. *)
Record Response (A : Type) : Type := {
  response_metadata : MetadataMap;
  response_extensions : Extensions;
  into_inner : A
}.

Definition Response_new {A} (message : A) : Response A := {|
  response_metadata := MetadataMap_default;
  response_extensions := Extensions_default;
  into_inner := message |}.
End tonic_messages.
Arguments metadata {_ A} _.
Arguments extensions {_ A} _.
Arguments message {_ A} _.
Arguments response_metadata {_ A} _.
Arguments response_extensions {_ A} _.
Arguments into_inner {_ A} _.

(** ** Streams

    A [futures::Stream], polled against the world: [poll_next] once it is ready.
    [Some] carries an item and the rest of the stream, [None] is the end. *)
Record stream (W A : Type) : Type := Stream {
  stream_state : Type;
  stream_start : stream_state;
  stream_poll : stream_state → W → option (A * stream_state) * W
}.
Arguments Stream {W A} stream_state stream_start stream_poll.
Arguments stream_state {W A} _.
Arguments stream_start {W A} _.
Arguments stream_poll {W A} _ _ _.

Section streams.
Context {W : Type}.

(** [StreamExt::map]. *)
Definition stream_map {A B} (f : A → B) (s : stream W A) : stream W B :=
  Stream s.(stream_state) s.(stream_start) (λ st w,
    match s.(stream_poll) st w with
    | (Some (a, st'), w') => (Some (f a, st'), w')
    | (None, w') => (None, w')
    end).

(** [futures::stream::iter]. *)
Definition stream_iter {A} (l : list A) : stream W A :=
  Stream nat 0 (λ n w, ((λ a, (a, S n)) <$> l !! n, w)).

(** [StreamExt::chain]. *)
Definition stream_chain {A} (s1 s2 : stream W A) : stream W A :=
  let second st w :=
    match s2.(stream_poll) st w with
    | (Some (a, st'), w') => (Some (a, inr st'), w')
    | (None, w') => (None, w')
    end in
  Stream (s1.(stream_state) + s2.(stream_state)) (inl s1.(stream_start)) (λ st w,
    match st with
    | inl st =>
        match s1.(stream_poll) st w with
        | (Some (a, st'), w') => (Some (a, inl st'), w')
        | (None, w') => second s2.(stream_start) w'
        end
    | inr st => second st w
    end).

(** A stream that is not polled any more once it has yielded an error. *)
Definition until_error {E A} (s : stream W (result E A)) : stream W (result E A) :=
  Stream (option s.(stream_state)) (Some s.(stream_start)) (λ st w,
    match st with
    | Some st =>
        match s.(stream_poll) st w with
        | (Some (Ok a, st'), w') => (Some (Ok a, Some st'), w')
        | (Some (Err e, _), w') => (Some (Err e, None), w')
        | (None, w') => (None, w')
        end
    | None => (None, w)
    end).

(** The first [n] items, and the world once they have been pulled. *)
Fixpoint stream_take {A} (n : nat) (s : stream W A) (st : s.(stream_state)) (w : W)
    : list A * W :=
  match n with
  | 0 => ([], w)
  | S n =>
      match s.(stream_poll) st w with
      | (Some (a, st'), w') => let '(l, w'') := stream_take n s st' w' in (a :: l, w'')
      | (None, w') => ([], w')
      end
  end.

Lemma stream_poll_ext {A S} (s0 : S) (p q : S → W → option (A * S) * W) :
  (∀ st w, p st w = q st w) → Stream S s0 p = Stream S s0 q.
Proof.
  intros Hpq. f_equal. extensionality st. extensionality w. apply Hpq.
Qed.

Lemma stream_map_map {A B C} (f : A → B) (g : B → C) s :
  stream_map g (stream_map f s) = stream_map (g ∘ f) s.
Proof.
  apply stream_poll_ext. intros st w. cbn.
  by destruct (s.(stream_poll) st w) as [[[a st']|] w'].
Qed.

Lemma stream_map_id {A} (f : A → A) s : (∀ a, f a = a) → stream_map f s = s.
Proof.
  intros Hf. destruct s as [S s0 p]. apply stream_poll_ext. intros st w. cbn.
  destruct (p st w) as [[[a st']|] w']; [by rewrite Hf|done].
Qed.

Lemma stream_map_ext {A B} (f g : A → B) s :
  (∀ a, f a = g a) → stream_map f s = stream_map g s.
Proof.
  intros Hfg. apply stream_poll_ext. intros st w. cbn.
  destruct (s.(stream_poll) st w) as [[[a st']|] w']; [by rewrite Hfg|done].
Qed.

Lemma stream_map_iter {A B} (f : A → B) l :
  stream_map f (stream_iter l) = stream_iter (map f l).
Proof.
  apply stream_poll_ext. intros n w. cbn in *.
  change (map f l) with (f <$> l). rewrite list_lookup_fmap. by destruct (l !! n).
Qed.

Lemma stream_map_chain {A B} (f : A → B) s1 s2 :
  stream_map f (stream_chain s1 s2) = stream_chain (stream_map f s1) (stream_map f s2).
Proof.
  apply stream_poll_ext. intros [st|st] w; cbn.
  - destruct (s1.(stream_poll) st w) as [[[a st']|] w']; [done|].
    by destruct (s2.(stream_poll) _ w') as [[[b st'']|] w''].
  - by destruct (s2.(stream_poll) st w) as [[[a st']|] w'].
Qed.

(** What is done to each item, errors being kept as errors, can be done before. *)
Lemma until_error_map {E F A B} (f : result E A → result F B) (s : stream W (result E A)) :
  (∀ a, ∃ b, f (Ok a) = Ok b) → (∀ e, ∃ e', f (Err e) = Err e') →
  until_error (stream_map f s) = stream_map f (until_error s).
Proof.
  intros Hok Herr. apply stream_poll_ext. intros [st|] w; cbn; [|done].
  destruct (s.(stream_poll) st w) as [[[[a|e] st']|] w']; [| |done].
  - by destruct (Hok a) as [b ->].
  - by destruct (Herr e) as [e' ->].
Qed.

(** Pulling a listed stream gives the list. *)
Lemma stream_take_iter {A} (l : list A) w n :
  length l ≤ n → stream_take n (stream_iter l) 0 w = (l, w).
Proof.
  enough (∀ k, length l ≤ k + n → stream_take n (stream_iter l) k w = (drop k l, w)) as Hk.
  { intros Hn. by apply (Hk 0). }
  induction n as [|n IH]; intros k Hn; cbn.
  - by rewrite drop_ge by lia.
  - destruct (l !! k) as [a|] eqn:Ha; cbn.
    + rewrite (IH (S k)) by lia. by rewrite (drop_S _ _ _ Ha).
    + by rewrite drop_ge by (by apply lookup_ge_None).
Qed.
End streams.

(** ** The server side *)

Section server.
Context `{!Tonic} {W : Type}.

(** [RequestContext] of [server/request_context.rs]. *)
Record RequestContext : Type := RequestContext_new' {
  headers : HeaderMap;
  context_extensions : Extensions
}.

Definition RequestContext_new (headers : HeaderMap) (extensions : Extensions)
    : RequestContext := {|
  headers := headers;
  context_extensions := extensions |}.

(** A method of a generated server trait, and of a generated client. *)
Definition rpc (A B : Type) : Type := Request A → fallible W Status (Response B).

(** A method of a service trait ([define_trait_methods!]). *)
Definition method (A B : Type) : Type := A → RequestContext → fallible W Status B.

(** [impl_trait_methods!(unary (self, request) { inner })]. *)
Definition unary {A B A' B'} `{From A' A, From B B'} (inner : method A B) : rpc A' B' :=
  λ request,
    let metadata_map := request.(metadata) in
    let extensions := request.(extensions) in
    let request := from request.(message) in
    let context := RequestContext_new (into_headers metadata_map) extensions in
    λ w, match inner request context w with
         | (Ok res, w') => (Ok (Response_new (from res)), w')
         | (Err err, w') => (Err err, w')
         end.

(** [impl_trait_methods!(stream client (self, request) { inner })]. *)
Definition stream_client {A B A' B'} `{From A' A, From B B'}
    (inner : method (stream W (result Status A)) B)
    : rpc (stream W (result Status A')) B' :=
  λ request,
    let metadata_map := request.(metadata) in
    let extensions := request.(extensions) in
    let context := RequestContext_new (into_headers metadata_map) extensions in
    let stream := stream_map (λ r, match r with
                                   | Ok r => Ok (from r)
                                   | Err err => Err err
                                   end) request.(message) in
    λ w, match inner stream context w with
         | (Ok res, w') => (Ok (Response_new (from res)), w')
         | (Err err, w') => (Err err, w')
         end.

(** [impl_trait_methods!(stream server (self, request) { inner })]. *)
Definition stream_server {A B A' B'} `{From A' A, From B B'}
    (inner : method A (stream W (result Status B)))
    : rpc A' (stream W (result Status B')) :=
  λ request,
    let metadata_map := request.(metadata) in
    let extensions := request.(extensions) in
    let request := from request.(message) in
    let context := RequestContext_new (into_headers metadata_map) extensions in
    λ w, match inner request context w with
         | (Ok stream, w') =>
             (Ok (Response_new
                    (stream_map (λ r, match r with
                                      | Ok r => Ok (from r)
                                      | Err err => Err err
                                      end) stream)), w')
         | (Err err, w') => (Err err, w')
         end.
End server.
Arguments RequestContext {_}.
Arguments rpc {_} W A B.
Arguments method {_} W A B.

(** ** The client side *)

Section client.
Context `{!Tonic} {W : Type}.

(** [RequestError]; the [location] that snafu captures for the message of the
    error is not part of the model. *)
Inductive RequestError : Type :=
| Grpc (source : Status).

(** The trait [GrpcCall<Request>], and [GrpcCallStream] for a stream of requests. *)
Class GrpcCall (Self Request Response : Type) : Type :=
  call : Self → Request → fallible W RequestError Response.

(** [request.into_request()], the impl of [impl_convert!(req A : B)]. *)
Definition into_request {A B} `{From A B} (request : A) : Request B :=
  Request_new (from request).

(** The body of every [async fn call] of [impl_call!]: the generated method is
    given the request, and
    [Ok(call.await.context(super::GrpcSnafu {})?.into_inner().into())]. *)
Definition unary_call {A B A' B'} `{From A A', From B' B}
    (inner : rpc W A' B') (request : A) : fallible W RequestError B :=
  response ← fallible_map_err Grpc (inner (into_request request));
  mret (from response.(into_inner)).

(** The body of [GrpcCallStream::call], for the methods that are given a stream:
    its messages are converted as they are pulled. *)
Definition stream_client_call {A B A' B'} `{From A A', From B' B}
    (inner : rpc W (stream W A') B') (request : stream W A) : fallible W RequestError B :=
  let stream := stream_map from request in
  response ← fallible_map_err Grpc (inner (Request_new stream));
  mret (from response.(into_inner)).

(** The calls that answer a stream: each item is converted by [f], each error
    of the stream wrapped by [g]. *)
Definition stream_server_call {A A' B B' E} `{From A A'} (f : B' → B) (g : Status → E)
    (inner : rpc W A' (stream W (result Status B'))) (request : A)
    : fallible W RequestError (stream W (result E B)) :=
  response ← fallible_map_err Grpc (inner (into_request request));
  mret (stream_map (λ item, map_err g (f <$> item)) response.(into_inner)).
End client.
Arguments RequestError {_}.
Arguments GrpcCall {_} W Self Request Response.

(** ** Connections

    A generated client over a channel that leads to a generated server: the
    message reaches the server, in a request whose metadata and extensions the
    transport has filled, the server runs, and what it answers comes back. *)

Section connection.
Context `{!Tonic} {W : Type}.

Definition delivers_with {A A' B B'} (f : A → A') (g : B' → B)
    (client : rpc W A B) (server : rpc W A' B') : Prop :=
  ∀ message w, ∃ metadata extensions,
    prod_map (fmap into_inner) id (client (Request_new message) w)
    = prod_map (fmap (g ∘ into_inner)) id
        (server {| metadata := metadata;
                   extensions := extensions;
                   message := f message |} w).

(** A unary method. *)
Definition delivers {A B} : rpc W A B → rpc W A B → Prop := delivers_with id id.

(** A method that answers a stream: the client pulls what the server sends.  An error is
    the status of the call, in the trailers that end the response: [tonic] sends nothing
    after it, and the client that it generates yields it once, then the end. *)
Definition delivers_items {A B}
    : rpc W A (stream W (result Status B)) → rpc W A (stream W (result Status B)) → Prop :=
  delivers_with id until_error.

(** A method that is given a stream: the server pulls what the client sends. *)
Definition delivers_stream {A B}
    : rpc W (stream W A) B → rpc W (stream W (result Status A)) B → Prop :=
  delivers_with (stream_map Ok) id.

(** The call [c] is one run of the handler [h], in some context; its error comes
    back as a [RequestError]. *)
Definition answers {A} (c : fallible W RequestError A)
    (h : RequestContext → fallible W Status A) : Prop :=
  ∀ w, ∃ context, c w = fallible_map_err Grpc (h context) w.

Lemma answers_bind {A B} (c : fallible W RequestError A) h (k : A → fallible W RequestError B) k' :
  answers c h →
  (∀ a w, k a w = fallible_map_err Grpc (k' a) w) →
  answers (c ≫= k) (λ context, h context ≫= k').
Proof.
  intros Hc Hk w. destruct (Hc w) as [context Hw]. exists context.
  cbn. unfold mbind, fallible_bind, fallible_map_err in *. rewrite Hw.
  destruct (h context w) as [[a|e] w']; cbn; [apply Hk|done].
Qed.

Lemma answers_fmap {A B} (f : A → B) (c : fallible W RequestError A) h :
  answers c h → answers (a ← c; mret (f a)) (λ context, f <$> h context).
Proof.
  intros Hc w. destruct (Hc w) as [context Hw]. exists context.
  unfold mbind, fallible_bind, fallible_map_err in *. rewrite Hw.
  unfold fmap, fallible_fmap. by destruct (h context w) as [[a|e] w'].
Qed.

Lemma answers_equiv {A} (c : fallible W RequestError A) h h' :
  (∀ context w, h context w = h' context w) → answers c h → answers c h'.
Proof.
  intros Hh Hc w. destruct (Hc w) as [context Hw]. exists context.
  unfold fallible_map_err in *. by rewrite Hw, Hh.
Qed.

Lemma fallible_fmap_id {E A} (f : A → A) (m : fallible W E A) w :
  (∀ a, f a = a) → (f <$> m) w = m w.
Proof.
  intros Hf. unfold fmap, fallible_fmap. destruct (m w) as [[a|e] w']; cbn; [|done].
  by rewrite Hf.
Qed.

(** The core of every end-to-end statement: [f] and [g] are what encoding and
    decoding do to the request and to the response. *)
Lemma call_answers_with {A B A' B'} `{From A A', From A' A, From B B', From B' B}
    (f : A → A) (g : B → B) (client : rpc W A' B') (inner : method W A B) (request : A) :
  (∀ a, from (from a : A') = f a) →
  (∀ b, from (from b : B') = g b) →
  delivers client (unary inner) →
  answers (unary_call client request) (λ context, g <$> inner (f request) context).
Proof.
  intros Hf Hg Hd w. destruct (Hd (from request) w) as (md & ext & Hw).
  exists (RequestContext_new (into_headers md) ext).
  revert Hw. unfold unary_call, into_request, unary, fallible_map_err. cbn.
  unfold mbind, fallible_bind, fmap, fallible_fmap, id. rewrite Hf.
  destruct (inner (f request) _ w) as [[b|e] w1];
    destruct (client _ w) as [[r|e'] w2]; cbn; intros [= -> ->]; [|done].
  by rewrite Hg.
Qed.

(** When only the request changes on its way. *)
Lemma call_answers_decoded {A B A' B'} `{From A A', From A' A, RB : RoundTrip B B'}
    (f : A → A) (client : rpc W A' B') (inner : method W A B) (request : A) :
  (∀ a, from (from a : A') = f a) →
  delivers client (unary inner) →
  answers (unary_call client request) (inner (f request)).
Proof.
  intros Hf Hd.
  eapply answers_equiv; [|exact (call_answers_with f id client inner request Hf RB Hd)].
  intros context w. by apply fallible_fmap_id.
Qed.

Lemma call_answers {A B A' B'} `{RA : RoundTrip A A', RB : RoundTrip B B'}
    (client : rpc W A' B') (inner : method W A B) (request : A) :
  delivers client (unary inner) →
  answers (unary_call client request) (inner request).
Proof. exact (call_answers_decoded id client inner request RA). Qed.

Lemma stream_client_call_answers {A B A' B'} `{RA : RoundTrip A A', RB : RoundTrip B B'}
    (client : rpc W (stream W A') B') (inner : method W (stream W (result Status A)) B)
    (request : stream W A) :
  delivers_stream client (stream_client inner) →
  answers (stream_client_call client request) (inner (stream_map Ok request)).
Proof.
  intros Hd w. destruct (Hd (stream_map from request) w) as (md & ext & Hw).
  exists (RequestContext_new (into_headers md) ext).
  revert Hw. unfold stream_client_call, stream_client, fallible_map_err. cbn.
  unfold mbind, fallible_bind, id. rewrite !stream_map_map.
  rewrite (stream_map_ext _ Ok) by (intros a; cbn; by rewrite roundtrip).
  destruct (inner _ _ w) as [[b|e] w1];
    destruct (client _ w) as [[r|e'] w2]; cbn; intros [= -> ->]; [|done].
  by rewrite roundtrip.
Qed.

Lemma stream_server_call_answers {A A' B B' C E} `{RA : RoundTrip A A', From B B'}
    (f : B' → C) (g : Status → E) (h : B → C)
    (client : rpc W A' (stream W (result Status B')))
    (inner : method W A (stream W (result Status B))) (request : A) :
  (∀ b, f (from b) = h b) →
  delivers_items client (stream_server inner) →
  answers (stream_server_call f g client request)
    (λ context, stream_map (λ item, map_err g (h <$> item)) ∘ until_error <$>
       inner request context).
Proof.
  intros Hh Hd w. destruct (Hd (from request) w) as (md & ext & Hw).
  exists (RequestContext_new (into_headers md) ext).
  revert Hw. unfold stream_server_call, into_request, stream_server, fallible_map_err. cbn.
  unfold mbind, fallible_bind, fmap, fallible_fmap, id. rewrite roundtrip.
  destruct (inner request _ w) as [[b|e] w1];
    destruct (client _ w) as [[r|e'] w2]; cbn; intros [= -> ->]; [|done].
  rewrite until_error_map by (intros ?; by eexists).
  rewrite stream_map_map. unfold mret, fallible_ret. f_equal. f_equal. apply stream_map_ext.
  intros [a|e]; cbn; [by rewrite Hh|done].
Qed.

(** The same when the items of the stream are round trips. *)
Lemma stream_server_call_answers_id {A A' B B' E} `{RA : RoundTrip A A', From B B'}
    (f : B' → B) (g : Status → E)
    (client : rpc W A' (stream W (result Status B')))
    (inner : method W A (stream W (result Status B))) (request : A) :
  (∀ b, f (from b) = b) →
  delivers_items client (stream_server inner) →
  answers (stream_server_call f g client request)
    (λ context, stream_map (map_err g) ∘ until_error <$> inner request context).
Proof.
  intros Hf Hd. eapply answers_equiv; [|exact (stream_server_call_answers f g id _ _ _ Hf Hd)].
  intros context w. unfold fmap, fallible_fmap, result_fmap.
  destruct (inner request context w) as [[s|e] w']; cbn; [|done].
  f_equal. f_equal. apply stream_map_ext. by intros [b|e].
Qed.

(** A connection exists: hand the request to the server as it is. *)
Definition loopback {A B} (server : rpc W A B) : rpc W A B := server.
Definition loopback_items {A B} (server : rpc W A (stream W (result Status B)))
    : rpc W A (stream W (result Status B)) := λ request w,
  match server request w with
  | (Ok response, w') =>
      (Ok {| response_metadata := response.(response_metadata);
             response_extensions := response.(response_extensions);
             into_inner := until_error response.(into_inner) |}, w')
  | (Err status, w') => (Err status, w')
  end.
Definition loopback_stream {A B} (server : rpc W (stream W (result Status A)) B)
    : rpc W (stream W A) B := λ request, server {|
  metadata := request.(metadata);
  extensions := request.(extensions);
  message := stream_map Ok request.(message) |}.

Lemma loopback_delivers {A B} (server : rpc W A B) : delivers (loopback server) server.
Proof.
  intros m w. by exists MetadataMap_default, Extensions_default.
Qed.

Lemma loopback_items_delivers {A B} (server : rpc W A (stream W (result Status B))) :
  delivers_items (loopback_items server) server.
Proof.
  intros m w. exists MetadataMap_default, Extensions_default.
  unfold loopback_items, Request_new, id. by destruct (server _ w) as [[response|e] w'].
Qed.

Lemma loopback_stream_delivers {A B} (server : rpc W (stream W (result Status A)) B) :
  delivers_stream (loopback_stream server) server.
Proof.
  intros m w. by exists MetadataMap_default, Extensions_default.
Qed.
End connection.

(** ** Proof automation for the services *)

(** The client methods and the [GrpcCall] instances of the services. *)
Create HintDb rpc.
#[export] Hint Unfold call : rpc.

Lemma map_from_refl {A} (l : list A) : map (from (A:=A)) l = l.
Proof. apply map_id. Qed.

(** One method of a connected service: its request and its response are sent
    faithfully. *)
Ltac solve_answers :=
  intros; autounfold with rpc; rewrite ?map_from_refl;
  try apply answers_fmap; apply call_answers; assumption.

(** The same when encoding and decoding do [f] to the request and [g] to the
    response; leaves what is not a round trip to prove. *)
Ltac solve_answers_with f g :=
  intros; autounfold with rpc; rewrite ?map_from_refl;
  try apply answers_fmap; apply (call_answers_with f g);
  [try exact roundtrip | try exact roundtrip | assumption].

(** The same when only the request changes, as [law] says. *)
Ltac solve_answers_decoded law :=
  intros; autounfold with rpc; rewrite ?map_from_refl;
  try apply answers_fmap;
  lazymatch goal with
  | |- answers (unary_call ?client ?request) _ =>
      apply (call_answers_decoded _ client _ request law); assumption
  end.

(** ** A concrete [tonic], to run the definitions *)
Definition plain_tonic : Tonic := {|
  Status := string * string;
  Status_internal := λ message, ("internal", message);
  Status_unimplemented := λ message, ("unimplemented", message);
  MetadataMap := list (string * string);
  MetadataMap_default := [];
  HeaderMap := list (string * string);
  into_headers := λ metadata, metadata;
  Extensions := unit;
  Extensions_default := tt |}.
