(* ===== verification/Streams.v ===== *)
(** Streams as transition systems: what polling a stream yields, when it ends, and how
    the combinators the program uses ([map], [iter], [chain]) act on that. *)

From S2P Require Import Prelude Rpc.

(** ** Polling as steps *)

Section traces.
Context {W A : Type} (s : stream W A).

(** A stream part-way, in a world. *)
Definition config : Type := s.(stream_state) * W.
Definition start (w : W) : config := (s.(stream_start), w).

(** One call of [poll_next] that yields an item. *)
Inductive step : config → A → config → Prop :=
| step_item st w a st' w' :
    s.(stream_poll) st w = (Some (a, st'), w') → step (st, w) a (st', w').

(** The items yielded from one configuration to another. *)
Inductive trace : config → list A → config → Prop :=
| trace_nil c : trace c [] c
| trace_cons c a c' l c'' : step c a c' → trace c' l c'' → trace c (a :: l) c''.

(** One call of [poll_next] that yields the end. *)
Definition ends (c : config) (w : W) : Prop := s.(stream_poll) c.1 c.2 = (None, w).

(** The stream yields [l] and ends, leaving the world [w]. *)
Definition drains (c : config) (l : list A) (w : W) : Prop := ∃ c', trace c l c' ∧ ends c' w.

(** The stream has yielded [l], so far. *)
Definition yields (w : W) (l : list A) : Prop := ∃ c, trace (start w) l c.

Lemma step_det c a1 a2 c1 c2 : step c a1 c1 → step c a2 c2 → a1 = a2 ∧ c1 = c2.
Proof. intros [st w a st' w' H1] H2. inv H2. by split; congruence. Qed.

Lemma step_not_ends c a c' w : step c a c' → ¬ ends c w.
Proof. intros [st w0 a' st' w' Hp]. unfold ends. cbn. by rewrite Hp. Qed.

Lemma trace_app c1 l1 c2 l2 c3 : trace c1 l1 c2 → trace c2 l2 c3 → trace c1 (l1 ++ l2) c3.
Proof. induction 1; [done|]. intros Ht. cbn. econstructor; eauto. Qed.

Lemma drains_nil c w : drains c [] w ↔ ends c w.
Proof. split; [by intros (c' & Ht & He); inv Ht|]. intros He. exists c. split; [constructor|done]. Qed.

Lemma drains_cons c a l w : drains c (a :: l) w ↔ ∃ c', step c a c' ∧ drains c' l w.
Proof.
  split.
  - intros (c'' & Ht & He). inv Ht. eexists. split; [done|]. by exists c''.
  - intros (c' & Hs & c'' & Ht & He). exists c''. split; [by econstructor|done].
Qed.

(** A trace is the beginning of every complete one. *)
Lemma trace_drains c l c' l' w :
  trace c l c' → drains c l' w → ∃ l'', l' = l ++ l'' ∧ drains c' l'' w.
Proof.
  intros Ht. revert l'. induction Ht as [c|c a c' l c'' Hs Ht IH]; intros l' Hd; [by exists l'|].
  destruct l' as [|a' l'].
  - apply drains_nil in Hd. by eapply step_not_ends in Hs.
  - apply drains_cons in Hd as (c2 & Hs2 & Hd).
    destruct (step_det _ _ _ _ _ Hs Hs2) as [-> ->].
    destruct (IH _ Hd) as (l'' & -> & Hd'). by exists l''.
Qed.

(** A stream ends in one way at most. *)
Lemma drains_det c l1 w1 l2 w2 : drains c l1 w1 → drains c l2 w2 → l1 = l2 ∧ w1 = w2.
Proof.
  intros (c1 & Ht & He) Hd. destruct (trace_drains _ _ _ _ _ Ht Hd) as ([|a l] & -> & Hd').
  - rewrite app_nil_r. split; [done|]. apply drains_nil in Hd'. unfold ends in *. congruence.
  - apply drains_cons in Hd' as (c' & Hs & _). by eapply step_not_ends in Hs.
Qed.

(** Pulling with enough fuel gives everything, and conversely. *)
Lemma drains_take n st w l w' :
  length l < n → (drains (st, w) l w' ↔ stream_take n s st w = (l, w')).
Proof.
  revert st w l. induction n as [|n IH]; intros st w l Hn; [lia|]. cbn.
  destruct l as [|a l].
  - rewrite drains_nil. unfold ends. cbn.
    destruct (s.(stream_poll) st w) as [[[a st']|] w1]; [|split; by intros [= ->]].
    split; [done|]. by destruct (stream_take n s st' w1).
  - rewrite drains_cons. cbn in Hn. split.
    + intros (c' & Hs & Hd). inv Hs as [? ? ? st' w1 Hp]. rewrite Hp.
      apply IH in Hd; [|lia]. by rewrite Hd.
    + destruct (s.(stream_poll) st w) as [[[a' st']|] w1] eqn:Hp; [|done].
      destruct (stream_take n s st' w1) as [l' w''] eqn:Ht. intros [= -> -> ->].
      exists (st', w1). split; [by constructor|]. apply IH; [lia|done].
Qed.
End traces.
Arguments config {W A} s.
Arguments start {W A} s w.

(** ** The combinators *)

Section combinators.
Context {W : Type}.

Lemma step_map {A B} (f : A → B) (s : stream W A) c b c' :
  step (stream_map f s) c b c' ↔ ∃ a, b = f a ∧ step s c a c'.
Proof.
  split.
  - intros Hs. inv Hs as [st w b' st' w' Hp]. cbn in Hp.
    destruct (s.(stream_poll) st w) as [[[a st'']|] w''] eqn:Hs; simplify_eq.
    exists a. split; [done|exact (step_item s _ _ _ _ _ Hs)].
  - intros (a & -> & Hs). inv Hs as [st w b' st' w' Hp].
    apply (step_item (stream_map f s)). cbn. by rewrite Hp.
Qed.

Lemma ends_map {A B} (f : A → B) (s : stream W A) c w : ends (stream_map f s) c w ↔ ends s c w.
Proof.
  destruct c as [st w0]. unfold ends. cbn.
  destruct (s.(stream_poll) st w0) as [[[a st']|] w']; split; by intros [= ->].
Qed.

Lemma trace_map {A B} (f : A → B) (s : stream W A) c l c' :
  trace (stream_map f s) c l c' ↔ ∃ l0, l = map f l0 ∧ trace s c l0 c'.
Proof.
  split.
  - induction 1 as [c|c b c' l c'' Hs Ht IH]; [exists []; split; [done|constructor]|].
    apply step_map in Hs as (a & -> & Hs). destruct IH as (l0 & -> & Ht').
    exists (a :: l0). split; [done|by econstructor].
  - intros (l0 & -> & Ht). induction Ht as [c|c a c' l0 c'' Hs Ht IH]; cbn; [constructor|].
    econstructor; [apply step_map; eauto|done].
Qed.

Lemma drains_map {A B} (f : A → B) (s : stream W A) c l w :
  drains (stream_map f s) c l w ↔ ∃ l0, l = map f l0 ∧ drains s c l0 w.
Proof.
  split.
  - intros (c' & Ht & He). apply trace_map in Ht as (l0 & -> & Ht). apply ends_map in He.
    exists l0. split; [done|by exists c'].
  - intros (l0 & -> & c' & Ht & He). exists c'.
    split; [apply trace_map; by exists l0|by apply ends_map].
Qed.

Lemma yields_map {A B} (f : A → B) (s : stream W A) w l :
  yields (stream_map f s) w l ↔ ∃ l0, l = map f l0 ∧ yields s w l0.
Proof.
  split.
  - intros (c & Ht). apply trace_map in Ht as (l0 & -> & Ht). exists l0. split; [done|by exists c].
  - intros (l0 & -> & c & Ht). exists c. apply trace_map. by exists l0.
Qed.

Lemma step_iter {A} (l : list A) n w a c :
  step (stream_iter (W:=W) l) (n, w) a c ↔ l !! n = Some a ∧ c = (S n, w).
Proof.
  split.
  - intros Hs. inv Hs as [? ? ? n' w' Hp].
    cbn in *. destruct (l !! n) as [a0|]; cbn in Hp; [|done]. by injection Hp as -> <- <-.
  - intros [Hl ->]. apply (step_item (stream_iter l)). cbn in *. by rewrite Hl.
Qed.

Lemma drains_iter {A} (l : list A) w : drains (stream_iter (W:=W) l) (start _ w) l w.
Proof. apply (drains_take _ (S (length l))); [lia|]. apply stream_take_iter. lia. Qed.

(** What [chain] yields: the first stream, then, once it has ended, the second. *)
Section chain.
Context {A : Type} (s1 s2 : stream W A).
Notation s12 := (stream_chain s1 s2).

Lemma step_chain_first st w a c :
  step s12 (inl st, w) a c ↔
  (∃ st' w', c = (inl st', w') ∧ step s1 (st, w) a (st', w')) ∨
  (∃ w1 st' w', c = (inr st', w') ∧ ends s1 (st, w) w1 ∧ step s2 (start s2 w1) a (st', w')).
Proof.
  split.
  - intros Hs. inv Hs as [? ? ? st' w' Hp]. cbn in Hp.
    destruct (s1.(stream_poll) st w) as [[[a1 st1]|] w1] eqn:H1; simplify_eq.
    + left. eexists _, _. split; [done|exact (step_item s1 _ _ _ _ _ H1)].
    + destruct (s2.(stream_poll) _ w1) as [[[a2 st2]|] w2] eqn:H2; simplify_eq.
      right. eexists w1, _, _. split_and!; [done|done|exact (step_item s2 _ _ _ _ _ H2)].
  - intros [(st' & w' & -> & Hs)|(w1 & st' & w' & -> & He & Hs)]; apply (step_item s12); cbn.
    + inv Hs as [? ? ? ? ? Hp]. by rewrite Hp.
    + unfold ends in He. cbn in He. rewrite He. inv Hs as [? ? ? ? ? Hp]. by rewrite Hp.
Qed.

Lemma step_chain_second st w a c :
  step s12 (inr st, w) a c ↔ ∃ st' w', c = (inr st', w') ∧ step s2 (st, w) a (st', w').
Proof.
  split.
  - intros Hs. inv Hs as [? ? ? st' w' Hp]. cbn in Hp.
    destruct (s2.(stream_poll) st w) as [[[a2 st2]|] w2] eqn:H2; simplify_eq.
    eexists _, _. split; [done|exact (step_item s2 _ _ _ _ _ H2)].
  - intros (st' & w' & -> & Hs). apply (step_item s12). cbn. inv Hs as [? ? ? ? ? Hp]. by rewrite Hp.
Qed.

Lemma trace_chain_second st w l c :
  trace s12 (inr st, w) l c ↔ ∃ st' w', c = (inr st', w') ∧ trace s2 (st, w) l (st', w').
Proof.
  split.
  - intros Ht. remember (inr st, w) as c0 eqn:Hc. revert st w Hc.
    induction Ht as [c|c a c' l c'' Hs Ht IH]; intros st w ->.
    + eexists _, _. split; [done|constructor].
    + apply step_chain_second in Hs as (st' & w' & -> & Hs).
      destruct (IH _ _ eq_refl) as (st'' & w'' & -> & Ht').
      eexists _, _. split; [done|by econstructor].
  - intros (st' & w' & -> & Ht).
    remember (st, w) as c0 eqn:Hc. remember (st', w') as c1 eqn:Hc1. revert st w Hc st' w' Hc1.
    induction Ht as [c|c a [st1 w1] l c'' Hs Ht IH]; intros st w -> st' w' Hc1.
    + injection Hc1 as -> ->. constructor.
    + econstructor; [apply step_chain_second; eauto|eauto].
Qed.

Lemma trace_chain_first st w l st' w' :
  trace s1 (st, w) l (st', w') → trace s12 (inl st, w) l (inl st', w').
Proof.
  intros Ht. remember (st, w) as c0 eqn:Hc. remember (st', w') as c1 eqn:Hc1.
  revert st w Hc st' w' Hc1.
  induction Ht as [c|c a [st1 w1] l c'' Hs Ht IH]; intros st w -> st' w' Hc1.
  - injection Hc1 as -> ->. constructor.
  - econstructor; [apply step_chain_first; left; eauto|eauto].
Qed.

Lemma trace_chain st w l c :
  trace s12 (inl st, w) l c ↔
  (∃ st' w', c = (inl st', w') ∧ trace s1 (st, w) l (st', w')) ∨
  (∃ l1 w1 l2 st' w', l = l1 ++ l2 ∧ l2 ≠ [] ∧ c = (inr st', w') ∧
     drains s1 (st, w) l1 w1 ∧ trace s2 (start s2 w1) l2 (st', w')).
Proof.
  split.
  - intros Ht. remember (inl st, w) as c0 eqn:Hc. revert st w Hc.
    induction Ht as [c|c a c' l c'' Hs Ht IH]; intros st w ->.
    { left. eexists _, _. split; [done|constructor]. }
    apply step_chain_first in Hs as [(st1 & w1 & -> & Hs)|(w1 & st1 & w2 & -> & He & Hs)].
    + destruct (IH _ _ eq_refl)
        as [(st' & w' & -> & Ht')|(l1 & w0 & l2 & st' & w' & -> & Hn & -> & Hd & Ht')].
      * left. eexists _, _. split; [done|by econstructor].
      * right. exists (a :: l1), w0, l2, st', w'. split_and!; try done.
        apply drains_cons. eauto.
    + apply trace_chain_second in Ht as (st' & w' & -> & Ht'). right.
      exists [], w1, (a :: l), st', w'. split_and!; try done; [by apply drains_nil|].
      by econstructor.
  - intros [(st' & w' & -> & Ht)|(l1 & w1 & l2 & st' & w' & -> & Hn & -> & ([st1 w0] & Ht1 & He) & Ht2)].
    + by apply trace_chain_first.
    + eapply trace_app; [by apply trace_chain_first|]. inv Ht2 as [|? a [st2 w2] l ? Hs Ht].
      econstructor; [apply step_chain_first; right; eauto 10|].
      apply trace_chain_second. eauto.
Qed.

Lemma ends_chain st w w' :
  ends s12 (inl st, w) w' ↔ ∃ w1, ends s1 (st, w) w1 ∧ ends s2 (start s2 w1) w'.
Proof.
  unfold ends. cbn. destruct (s1.(stream_poll) st w) as [[[a1 st1]|] w1].
  { split; [done|by intros (? & ? & _)]. }
  destruct (s2.(stream_poll) _ w1) as [[[a2 st2]|] w2] eqn:H2.
  - split; [done|]. intros (? & [= <-] & Hs). rewrite Hs in H2. done.
  - split; [intros [= ->]; by exists w1|]. intros (? & [= <-] & Hs). rewrite Hs in H2.
    by injection H2 as ->.
Qed.

Lemma drains_chain st w l w' :
  drains s12 (inl st, w) l w' ↔
  ∃ l1 w1 l2, l = l1 ++ l2 ∧ drains s1 (st, w) l1 w1 ∧ drains s2 (start s2 w1) l2 w'.
Proof.
  split.
  - intros (c & Ht & He). apply trace_chain in Ht
      as [(st' & w0 & -> & Ht)|(l1 & w1 & l2 & st' & w2 & -> & Hn & -> & Hd & Ht)].
    + apply ends_chain in He as (w1 & He1 & He2). exists l, w1, [].
      rewrite app_nil_r. split_and!; [done|by eexists|by apply drains_nil].
    + exists l1, w1, l2. split_and!; [done|done|]. eexists. split; [done|].
      revert He. unfold ends. cbn.
      destruct (s2.(stream_poll) st' w2) as [[[a2 st2]|] w3]; [done|by intros [= ->]].
  - intros (l1 & w1 & l2 & -> & Hd1 & [st2 w2] & Ht2 & He2). destruct l2 as [|a l2].
    + inv Ht2. destruct Hd1 as ([st1 w0] & Ht1 & He1). rewrite app_nil_r.
      exists (inl st1, w0). split; [by apply trace_chain_first|]. apply ends_chain. eauto.
    + exists (inr st2, w2). split.
      * apply trace_chain. right. eexists l1, w1, (a :: l2), st2, w2. by split_and!.
      * revert He2. unfold ends. cbn.
        destruct (s2.(stream_poll) st2 w2) as [[[a2 st3]|] w3]; [done|by intros [= ->]].
Qed.
End chain.

(** A stream after a list of items. *)
Lemma trace_iter {A} (l : list A) w l' c :
  trace (stream_iter (W:=W) l) (start _ w) l' c ↔ l' = take (length l') l ∧ c = (length l', w) ∧
    length l' ≤ length l.
Proof.
  enough (∀ n, trace (stream_iter (W:=W) l) (n, w) l' c ↔
    l' = take (length l') (drop n l) ∧ c = (n + length l', w) ∧
    length l' ≤ length l - n) as Hn.
  { unfold start. cbn. rewrite (Hn 0). cbn. by rewrite drop_0, Nat.sub_0_r. }
  induction l' as [|a l' IH]; intros n; cbn.
  { split; [intros Ht; inv Ht|intros (_ & -> & _)]; rewrite ?Nat.add_0_r;
      [split_and!; [done|done|lia]|constructor]. }
  split.
  - intros Ht. inv Ht as [|? ? c' ? ? Hs Ht']. apply step_iter in Hs as [Hl ->].
    apply IH in Ht' as (Hl' & -> & Hlen). pose proof (lookup_lt_Some _ _ _ Hl).
    rewrite (drop_S _ _ _ Hl). cbn. split_and!; [congruence|f_equal; lia|lia].
  - intros (Hl & -> & Hlen). destruct (l !! n) as [a'|] eqn:Hn.
    + rewrite (drop_S _ _ _ Hn) in Hl. cbn in Hl. injection Hl as -> Hl.
      econstructor; [by apply step_iter|]. apply IH. split_and!; [done|f_equal; lia|lia].
    + apply lookup_ge_None in Hn. lia.
Qed.
End combinators.

(** ** Streams that stop at an error *)

Section errors.
Context {W E A : Type} (s : stream W (result E A)).

(** The stream yields items, and ends; or it yields items, and the last one is its first
    error.  What it does afterwards does not matter. *)
Inductive finishes : config s → list (result E A) → W → Prop :=
| finishes_end c w : ends s c w → finishes c [] w
| finishes_error c e c' : step s c (Err e) c' → finishes c [Err e] c'.2
| finishes_item c a c' l w : step s c (Ok a) c' → finishes c' l w → finishes c (Ok a :: l) w.

Lemma drains_finishes c l w : drains s c (map Ok l) w → finishes c (map Ok l) w.
Proof.
  revert c. induction l as [|a l IH]; cbn; intros c.
  - intros ?%drains_nil. by constructor.
  - intros (c' & Hs & Hd)%drains_cons. econstructor; eauto.
Qed.

Lemma step_until_error st w r c :
  step (until_error s) (Some st, w) r c ↔
  ∃ c0, step s (st, w) r c0 ∧ c = (match r with Ok _ => Some c0.1 | Err _ => None end, c0.2).
Proof.
  split.
  - intros Hs. inv Hs as [? ? ? st' w' Hp]. cbn in Hp.
    destruct (s.(stream_poll) st w) as [[[[a|e] st0]|] w0] eqn:Hp0; simplify_eq;
      (exists (st0, w'); split; [by constructor|done]).
  - intros (c0 & Hs & ->). inv Hs as [? ? ? st' w' Hp]. destruct r; constructor; cbn; by rewrite Hp.
Qed.

Lemma ends_until_error st w w' :
  ends (until_error s) (Some st, w) w' ↔ ends s (st, w) w'.
Proof.
  unfold ends. cbn. destruct (s.(stream_poll) st w) as [[[[a|e] st']|] w0]; split; by intros [= ->].
Qed.

Lemma drains_stopped w l w' :
  drains (until_error s) (None, w) l w' ↔ l = [] ∧ w' = w.
Proof.
  split; [|intros [-> ->]; by apply drains_nil].
  destruct l as [|r l]; [intros Hd%drains_nil; by injection Hd as ->|].
  intros (c' & Hs & _)%drains_cons. inv Hs.
Qed.

Lemma drains_until_error st w l w' :
  drains (until_error s) (Some st, w) l w' ↔ finishes (st, w) l w'.
Proof.
  split.
  - revert st w. induction l as [|r l IH]; intros st w.
    + intros Hd%drains_nil. constructor. by apply ends_until_error.
    + intros (c & ([st0 w0] & Hs & ->)%step_until_error & Hd)%drains_cons. destruct r as [a|e].
      * econstructor; [done|by apply IH].
      * apply drains_stopped in Hd as [-> ->]. exact (finishes_error _ e (st0, w0) Hs).
  - intros Hf. remember (st, w) as c eqn:Hc. revert st w Hc.
    induction Hf as [c w1 He|c e [st1 w1] Hs|c a [st1 w1] l w2 Hs Hf IH]; intros st w ->.
    + apply drains_nil. by apply ends_until_error.
    + apply drains_cons. eexists. split; [apply step_until_error; by eexists|].
      by apply drains_stopped.
    + apply drains_cons. eexists. split; [apply step_until_error; by eexists|]. by apply IH.
Qed.
End errors.

(** ** Answers that are streams *)

Section items.
Context {W E A : Type}.

(** The call answers a stream, whose items are [items], and leaves the world [w'] once
    they have all been pulled. *)
Definition answers_items (c : fallible W E (stream W A)) (w : W) (items : list A) (w' : W)
    : Prop :=
  ∃ s w1, c w = (Ok s, w1) ∧ drains s (start s w1) items w'.

Lemma answers_items_det c w l1 w1 l2 w2 :
  answers_items c w l1 w1 → answers_items c w l2 w2 → l1 = l2 ∧ w1 = w2.
Proof.
  intros (s1 & w1' & H1 & Hd1) (s2 & w2' & H2 & Hd2). rewrite H1 in H2.
  injection H2 as <- <-. by eapply drains_det.
Qed.
End items.

Lemma answers_items_map {W E A B} (f : A → B) (c : fallible W E (stream W A)) w l w' :
  answers_items (stream_map f <$> c) w l w' ↔ ∃ l0, l = map f l0 ∧ answers_items c w l0 w'.
Proof.
  unfold answers_items, fmap, fallible_fmap. split.
  - intros (s & w1 & Hc & Hd). destruct (c w) as [[s0|e] w0] eqn:Hw; [|done].
    injection Hc as <- ->. apply drains_map in Hd as (l0 & -> & Hd). eauto 10.
  - intros (l0 & -> & s & w1 & -> & Hd). eexists _, _. split; [done|].
    apply drains_map. eauto.
Qed.

(** The call answers a stream that finishes on [items]. *)
Definition finishes_items {W E E' A} (c : fallible W E (stream W (result E' A))) (w : W)
    (items : list (result E' A)) (w' : W) : Prop :=
  ∃ s w1, c w = (Ok s, w1) ∧ finishes s (start s w1) items w'.

Lemma finishes_items_answers {W E E' A B} (f : result E' A → B)
    (c : fallible W E (stream W (result E' A))) w items w' :
  finishes_items c w items w' → answers_items (stream_map f ∘ until_error <$> c) w (map f items) w'.
Proof.
  intros (s & w1 & Hc & Hf). unfold answers_items, fmap, fallible_fmap. rewrite Hc.
  eexists _, _. split; [done|]. apply drains_map. exists items. split; [done|].
  by apply drains_until_error.
Qed.

(** A call that is one run of a handler answers the items the handler does. *)
Lemma answers_items_answers `{!Tonic} {W A} (c : fallible W RequestError (stream W A))
    (h : RequestContext → fallible W Status (stream W A)) w l w' :
  answers c h →
  (∀ context, answers_items (h context) w l w') → answers_items c w l w'.
Proof.
  intros Hc Hh. destruct (Hc w) as [context Hw]. destruct (Hh context) as (s & w1 & Hs & Hd).
  exists s, w1. rewrite Hw. unfold fallible_map_err. by rewrite Hs.
Qed.

(** A handler that pulls the stream it is given to its end, for [n] items at most, then
    goes on with what it got. *)
Definition pulling `{!Tonic} {W A B} (n : nat)
    (k : list (result Status A) → RequestContext → fallible W Status B)
    : method W (stream W (result Status A)) B :=
  λ items context w, let '(l, w) := stream_take n items items.(stream_start) w in k l context w.

Lemma pulling_drains `{!Tonic} {W A B} n k (s : stream W (result Status A)) l w w' context :
  drains s (start s w) l w' → length l < n →
  pulling (B:=B) n k s context w = k l context w'.
Proof. intros Hd Hn. unfold pulling. by apply (drains_take s n) in Hd as ->. Qed.
