(* ===== verification/SessionsRpc.v ===== *)
(** The Sessions service, both sides: [client/sessions.rs] and [server/sessions.rs]. *)

From S2P Require Import Prelude V3 Objects Filters Sessions Rpc.

(** The methods of the generated client and of the generated server trait
    ([sessions_service.proto], service [Sessions]). *)
Module Stub.
Section stub.
Context `{!Tonic} (W : Type).
Record t : Type := mk {
  list_sessions : rpc W V3.sessions.ListSessionsRequest.t V3.sessions.ListSessionsResponse.t;
  get_session : rpc W V3.sessions.GetSessionRequest.t V3.sessions.GetSessionResponse.t;
  cancel_session : rpc W V3.sessions.CancelSessionRequest.t V3.sessions.CancelSessionResponse.t;
  create_session : rpc W V3.sessions.CreateSessionRequest.t V3.sessions.CreateSessionReply.t;
  pause_session : rpc W V3.sessions.PauseSessionRequest.t V3.sessions.PauseSessionResponse.t;
  resume_session : rpc W V3.sessions.ResumeSessionRequest.t V3.sessions.ResumeSessionResponse.t;
  close_session : rpc W V3.sessions.CloseSessionRequest.t V3.sessions.CloseSessionResponse.t;
  purge_session : rpc W V3.sessions.PurgeSessionRequest.t V3.sessions.PurgeSessionResponse.t;
  delete_session : rpc W V3.sessions.DeleteSessionRequest.t V3.sessions.DeleteSessionResponse.t;
  stop_submission : rpc W V3.sessions.StopSubmissionRequest.t V3.sessions.StopSubmissionResponse.t
}.
End stub.
End Stub.

(** The client reaches the server through a channel. *)
Definition connected `{!Tonic} {W} (client : Stub.t W) (server : Stub.t W) : Prop :=
  delivers client.(Stub.list_sessions W) server.(Stub.list_sessions W) ∧
  delivers client.(Stub.get_session W) server.(Stub.get_session W) ∧
  delivers client.(Stub.cancel_session W) server.(Stub.cancel_session W) ∧
  delivers client.(Stub.create_session W) server.(Stub.create_session W) ∧
  delivers client.(Stub.pause_session W) server.(Stub.pause_session W) ∧
  delivers client.(Stub.resume_session W) server.(Stub.resume_session W) ∧
  delivers client.(Stub.close_session W) server.(Stub.close_session W) ∧
  delivers client.(Stub.purge_session W) server.(Stub.purge_session W) ∧
  delivers client.(Stub.delete_session W) server.(Stub.delete_session W) ∧
  delivers client.(Stub.stop_submission W) server.(Stub.stop_submission W).

(** The trait a server implements. *)
Module Service.
Section service.
Context `{!Tonic} (W : Type).
Record t : Type := mk {
  list : method W Sessions.list.Request.t Sessions.list.Response.t;
  get : method W Sessions.get.Request.t Sessions.get.Response.t;
  cancel : method W Sessions.cancel.Request.t Sessions.cancel.Response.t;
  create : method W Sessions.create.Request.t Sessions.create.Response.t;
  pause : method W Sessions.pause.Request.t Sessions.pause.Response.t;
  resume : method W Sessions.resume.Request.t Sessions.resume.Response.t;
  close : method W Sessions.close.Request.t Sessions.close.Response.t;
  purge : method W Sessions.purge.Request.t Sessions.purge.Response.t;
  delete : method W Sessions.delete.Request.t Sessions.delete.Response.t;
  stop_submission : method W Sessions.stop_submission.Request.t Sessions.stop_submission.Response.t
}.
End service.
End Service.

(** [filters.into_iter().map(IntoCollection::into_collect).collect()]. *)
Definition collect_filters (filters : Datatypes.list (Datatypes.list Sessions.filter.Field.t)) : Sessions.filter.Or.t :=
  Sessions.filter.Or.from_iter (map (into_collect Sessions.filter.And.from_iter) filters).

Section rpcs.
Context `{!Tonic} {W : Type}.

(** The server trait, implemented from the service trait. *)
Definition server (self : Service.t W) : Stub.t W := {|
  Stub.list_sessions := unary self.(Service.list W);
  Stub.get_session := unary self.(Service.get W);
  Stub.cancel_session := unary self.(Service.cancel W);
  Stub.create_session := unary self.(Service.create W);
  Stub.pause_session := unary self.(Service.pause W);
  Stub.resume_session := unary self.(Service.resume W);
  Stub.close_session := unary self.(Service.close W);
  Stub.purge_session := unary self.(Service.purge W);
  Stub.delete_session := unary self.(Service.delete W);
  Stub.stop_submission := unary self.(Service.stop_submission W) |}.

Record Client : Type := {
  inner : Stub.t W
}.

(** The generated client over a channel is its methods. *)
Definition with_channel (channel : Stub.t W) : Client := {| inner := channel |}.

#[global] Instance call_list : GrpcCall W Client Sessions.list.Request.t Sessions.list.Response.t := λ self request,
  unary_call self.(inner).(Stub.list_sessions W) request.

#[global] Instance call_get : GrpcCall W Client Sessions.get.Request.t Sessions.get.Response.t := λ self request,
  unary_call self.(inner).(Stub.get_session W) request.

#[global] Instance call_cancel : GrpcCall W Client Sessions.cancel.Request.t Sessions.cancel.Response.t := λ self request,
  unary_call self.(inner).(Stub.cancel_session W) request.

#[global] Instance call_create : GrpcCall W Client Sessions.create.Request.t Sessions.create.Response.t := λ self request,
  unary_call self.(inner).(Stub.create_session W) request.

#[global] Instance call_pause : GrpcCall W Client Sessions.pause.Request.t Sessions.pause.Response.t := λ self request,
  unary_call self.(inner).(Stub.pause_session W) request.

#[global] Instance call_resume : GrpcCall W Client Sessions.resume.Request.t Sessions.resume.Response.t := λ self request,
  unary_call self.(inner).(Stub.resume_session W) request.

#[global] Instance call_close : GrpcCall W Client Sessions.close.Request.t Sessions.close.Response.t := λ self request,
  unary_call self.(inner).(Stub.close_session W) request.

#[global] Instance call_purge : GrpcCall W Client Sessions.purge.Request.t Sessions.purge.Response.t := λ self request,
  unary_call self.(inner).(Stub.purge_session W) request.

#[global] Instance call_delete : GrpcCall W Client Sessions.delete.Request.t Sessions.delete.Response.t := λ self request,
  unary_call self.(inner).(Stub.delete_session W) request.

#[global] Instance call_stop_submission : GrpcCall W Client Sessions.stop_submission.Request.t Sessions.stop_submission.Response.t := λ self request,
  unary_call self.(inner).(Stub.stop_submission W) request.

Definition list (self : Client) (filters : Datatypes.list (Datatypes.list Sessions.filter.Field.t))
    (sort : Sessions.Sort.t) (with_task_options : bool) (page page_size : Z) : fallible W RequestError Sessions.list.Response.t :=
  call self {|
    Sessions.list.Request.page := page;
    Sessions.list.Request.page_size := page_size;
    Sessions.list.Request.filters := collect_filters filters;
    Sessions.list.Request.sort := sort;
    Sessions.list.Request.with_task_options := with_task_options |}.

Definition get (self : Client) (session_id : string) : fallible W RequestError Sessions.Raw.t :=
  response ← call self {|
    Sessions.get.Request.session_id := session_id |};
  mret response.(Sessions.get.Response.session).

Definition cancel (self : Client) (session_id : string) : fallible W RequestError Sessions.Raw.t :=
  response ← call self {|
    Sessions.cancel.Request.session_id := session_id |};
  mret response.(Sessions.cancel.Response.session).

Definition create (self : Client) (partitions : Datatypes.list string) (default_task_options : TaskOptions.t) : fallible W RequestError string :=
  response ← call self {|
    Sessions.create.Request.default_task_options := default_task_options;
    Sessions.create.Request.partition_ids := map from partitions |};
  mret response.(Sessions.create.Response.session_id).

Definition pause (self : Client) (session_id : string) : fallible W RequestError Sessions.Raw.t :=
  response ← call self {|
    Sessions.pause.Request.session_id := session_id |};
  mret response.(Sessions.pause.Response.session).

Definition resume (self : Client) (session_id : string) : fallible W RequestError Sessions.Raw.t :=
  response ← call self {|
    Sessions.resume.Request.session_id := session_id |};
  mret response.(Sessions.resume.Response.session).

Definition close (self : Client) (session_id : string) : fallible W RequestError Sessions.Raw.t :=
  response ← call self {|
    Sessions.close.Request.session_id := session_id |};
  mret response.(Sessions.close.Response.session).

Definition purge (self : Client) (session_id : string) : fallible W RequestError Sessions.Raw.t :=
  response ← call self {|
    Sessions.purge.Request.session_id := session_id |};
  mret response.(Sessions.purge.Response.session).

Definition delete (self : Client) (session_id : string) : fallible W RequestError Sessions.Raw.t :=
  response ← call self {|
    Sessions.delete.Request.session_id := session_id |};
  mret response.(Sessions.delete.Response.session).

Definition stop_submission (self : Client) (session_id : string) (stop_client stop_worker : bool) : fallible W RequestError Sessions.Raw.t :=
  response ← call self {|
    Sessions.stop_submission.Request.session_id := session_id;
    Sessions.stop_submission.Request.client := stop_client;
    Sessions.stop_submission.Request.worker := stop_worker |};
  mret response.(Sessions.stop_submission.Response.session).

End rpcs.
#[export] Hint Unfold call_list call_get call_cancel call_create call_pause call_resume call_close call_purge call_delete call_stop_submission list get cancel create pause resume close purge delete stop_submission : rpc.

(** C11: Every method of the Sessions client, over a channel that leads to a server
    of a service, is one run of the method of the service on the request that the
    arguments describe; its answer comes back unchanged, its status as the error. *)
Theorem sessions_end_to_end `{!Tonic} {W} (service : Service.t W) (client : Stub.t W) :
  connected client (server service) →
  (∀ filters sort with_task_options page page_size, answers (list (with_channel client) filters sort with_task_options page page_size)
     (λ context, service.(Service.list W) {|
    Sessions.list.Request.page := page;
    Sessions.list.Request.page_size := page_size;
    Sessions.list.Request.filters := collect_filters filters;
    Sessions.list.Request.sort := sort;
    Sessions.list.Request.with_task_options := with_task_options |} context)) ∧
  (∀ session_id, answers (get (with_channel client) session_id)
     (λ context, Sessions.get.Response.session <$> service.(Service.get W) {|
    Sessions.get.Request.session_id := session_id |} context)) ∧
  (∀ session_id, answers (cancel (with_channel client) session_id)
     (λ context, Sessions.cancel.Response.session <$> service.(Service.cancel W) {|
    Sessions.cancel.Request.session_id := session_id |} context)) ∧
  (∀ partitions default_task_options, answers (create (with_channel client) partitions default_task_options)
     (λ context, Sessions.create.Response.session_id <$> service.(Service.create W) {|
    Sessions.create.Request.default_task_options := default_task_options;
    Sessions.create.Request.partition_ids := partitions |} context)) ∧
  (∀ session_id, answers (pause (with_channel client) session_id)
     (λ context, Sessions.pause.Response.session <$> service.(Service.pause W) {|
    Sessions.pause.Request.session_id := session_id |} context)) ∧
  (∀ session_id, answers (resume (with_channel client) session_id)
     (λ context, Sessions.resume.Response.session <$> service.(Service.resume W) {|
    Sessions.resume.Request.session_id := session_id |} context)) ∧
  (∀ session_id, answers (close (with_channel client) session_id)
     (λ context, Sessions.close.Response.session <$> service.(Service.close W) {|
    Sessions.close.Request.session_id := session_id |} context)) ∧
  (∀ session_id, answers (purge (with_channel client) session_id)
     (λ context, Sessions.purge.Response.session <$> service.(Service.purge W) {|
    Sessions.purge.Request.session_id := session_id |} context)) ∧
  (∀ session_id, answers (delete (with_channel client) session_id)
     (λ context, Sessions.delete.Response.session <$> service.(Service.delete W) {|
    Sessions.delete.Request.session_id := session_id |} context)) ∧
  (∀ session_id stop_client stop_worker, answers (stop_submission (with_channel client) session_id stop_client stop_worker)
     (λ context, Sessions.stop_submission.Response.session <$> service.(Service.stop_submission W) {|
    Sessions.stop_submission.Request.session_id := session_id;
    Sessions.stop_submission.Request.client := stop_client;
    Sessions.stop_submission.Request.worker := stop_worker |} context)).
Proof. unfold connected. intros. destruct_and!. split_and!; solve_answers. Qed.
