(* ===== verification/PartitionsRpc.v ===== *)
(** The Partitions service, both sides: [client/partitions.rs] and [server/partitions.rs]. *)

From S2P Require Import Prelude V3 Objects Filters Partitions Rpc.

(** The methods of the generated client and of the generated server trait
    ([partitions_service.proto], service [Partitions]). *)
Module Stub.
Section stub.
Context `{!Tonic} (W : Type).
Record t : Type := mk {
  list_partitions : rpc W V3.partitions.ListPartitionsRequest.t V3.partitions.ListPartitionsResponse.t;
  get_partition : rpc W V3.partitions.GetPartitionRequest.t V3.partitions.GetPartitionResponse.t
}.
End stub.
End Stub.

(** The client reaches the server through a channel. *)
Definition connected `{!Tonic} {W} (client : Stub.t W) (server : Stub.t W) : Prop :=
  delivers client.(Stub.list_partitions W) server.(Stub.list_partitions W) ∧
  delivers client.(Stub.get_partition W) server.(Stub.get_partition W).

(** The trait a server implements. *)
Module Service.
Section service.
Context `{!Tonic} (W : Type).
Record t : Type := mk {
  list : method W Partitions.list.Request.t Partitions.list.Response.t;
  get : method W Partitions.get.Request.t Partitions.get.Response.t
}.
End service.
End Service.

(** [filters.into_iter().map(IntoCollection::into_collect).collect()]. *)
Definition collect_filters (filters : Datatypes.list (Datatypes.list Partitions.filter.Field.t)) : Partitions.filter.Or.t :=
  Partitions.filter.Or.from_iter (map (into_collect Partitions.filter.And.from_iter) filters).

Section rpcs.
Context `{!Tonic} {W : Type}.

(** The server trait, implemented from the service trait. *)
Definition server (self : Service.t W) : Stub.t W := {|
  Stub.list_partitions := unary self.(Service.list W);
  Stub.get_partition := unary self.(Service.get W) |}.

Record Client : Type := {
  inner : Stub.t W
}.

(** The generated client over a channel is its methods. *)
Definition with_channel (channel : Stub.t W) : Client := {| inner := channel |}.

#[global] Instance call_list : GrpcCall W Client Partitions.list.Request.t Partitions.list.Response.t := λ self request,
  unary_call self.(inner).(Stub.list_partitions W) request.

#[global] Instance call_get : GrpcCall W Client Partitions.get.Request.t Partitions.get.Response.t := λ self request,
  unary_call self.(inner).(Stub.get_partition W) request.

Definition list (self : Client) (filters : Datatypes.list (Datatypes.list Partitions.filter.Field.t))
    (sort : Partitions.Sort.t) (page page_size : Z) : fallible W RequestError Partitions.list.Response.t :=
  call self {|
    Partitions.list.Request.page := page;
    Partitions.list.Request.page_size := page_size;
    Partitions.list.Request.filters := collect_filters filters;
    Partitions.list.Request.sort := sort |}.

Definition get (self : Client) (partition_id : string) : fallible W RequestError Partitions.Raw.t :=
  response ← call self {|
    Partitions.get.Request.partition_id := partition_id |};
  mret response.(Partitions.get.Response.partition).

End rpcs.
#[export] Hint Unfold call_list call_get list get : rpc.

(** The same for every method of the Partitions client. *)
Theorem partitions_end_to_end `{!Tonic} {W} (service : Service.t W) (client : Stub.t W) :
  connected client (server service) →
  (∀ filters sort page page_size, answers (list (with_channel client) filters sort page page_size)
     (λ context, service.(Service.list W) {|
    Partitions.list.Request.page := page;
    Partitions.list.Request.page_size := page_size;
    Partitions.list.Request.filters := collect_filters filters;
    Partitions.list.Request.sort := sort |} context)) ∧
  (∀ partition_id, answers (get (with_channel client) partition_id)
     (λ context, Partitions.get.Response.partition <$> service.(Service.get W) {|
    Partitions.get.Request.partition_id := partition_id |} context)).
Proof. unfold connected. intros. destruct_and!. split_and!; solve_answers. Qed.
