(* ===== verification/ApplicationsRpc.v ===== *)
(** The Applications service, both sides: [client/applications.rs] and [server/applications.rs]. *)

From S2P Require Import Prelude V3 Objects Filters Applications Rpc.

(** The methods of the generated client and of the generated server trait
    ([applications_service.proto], service [Applications]). *)
Module Stub.
Section stub.
Context `{!Tonic} (W : Type).
Record t : Type := mk {
  list_applications : rpc W V3.applications.ListApplicationsRequest.t V3.applications.ListApplicationsResponse.t
}.
End stub.
End Stub.

(** The client reaches the server through a channel. *)
Definition connected `{!Tonic} {W} (client : Stub.t W) (server : Stub.t W) : Prop :=
  delivers client.(Stub.list_applications W) server.(Stub.list_applications W).

(** The trait a server implements. *)
Module Service.
Section service.
Context `{!Tonic} (W : Type).
Record t : Type := mk {
  list : method W Applications.list.Request.t Applications.list.Response.t
}.
End service.
End Service.

(** [filters.into_iter().map(IntoCollection::into_collect).collect()]. *)
Definition collect_filters (filters : Datatypes.list (Datatypes.list Applications.filter.Field.t)) : Applications.filter.Or.t :=
  Applications.filter.Or.from_iter (map (into_collect Applications.filter.And.from_iter) filters).

Section rpcs.
Context `{!Tonic} {W : Type}.

(** The server trait, implemented from the service trait. *)
Definition server (self : Service.t W) : Stub.t W := {|
  Stub.list_applications := unary self.(Service.list W) |}.

Record Client : Type := {
  inner : Stub.t W
}.

(** The generated client over a channel is its methods. *)
Definition with_channel (channel : Stub.t W) : Client := {| inner := channel |}.

#[global] Instance call_list : GrpcCall W Client Applications.list.Request.t Applications.list.Response.t := λ self request,
  unary_call self.(inner).(Stub.list_applications W) request.

Definition list (self : Client) (filters : Datatypes.list (Datatypes.list Applications.filter.Field.t))
    (sort : Applications.Sort.t) (page page_size : Z) : fallible W RequestError Applications.list.Response.t :=
  call self {|
    Applications.list.Request.page := page;
    Applications.list.Request.page_size := page_size;
    Applications.list.Request.filters := collect_filters filters;
    Applications.list.Request.sort := sort |}.

End rpcs.
#[export] Hint Unfold call_list list : rpc.

(** The same for the Applications client. *)
Theorem applications_end_to_end `{!Tonic} {W} (service : Service.t W) (client : Stub.t W) :
  connected client (server service) →
  (∀ filters sort page page_size, answers (list (with_channel client) filters sort page page_size)
     (λ context, service.(Service.list W) {|
    Applications.list.Request.page := page;
    Applications.list.Request.page_size := page_size;
    Applications.list.Request.filters := collect_filters filters;
    Applications.list.Request.sort := sort |} context)).
Proof. unfold connected. intros. solve_answers. Qed.
