(* ===== verification/AuthRpc.v ===== *)
(** The Auth service, both sides: [client/auth.rs] and [server/auth.rs]. *)

From S2P Require Import Prelude V3 Objects Filters Misc Rpc.

(** The methods of the generated client and of the generated server trait
    ([auth_service.proto], service [Authentication]). *)
Module Stub.
Section stub.
Context `{!Tonic} (W : Type).
Record t : Type := mk {
  get_current_user : rpc W V3.auth.GetCurrentUserRequest.t V3.auth.GetCurrentUserResponse.t
}.
End stub.
End Stub.

(** The client reaches the server through a channel. *)
Definition connected `{!Tonic} {W} (client : Stub.t W) (server : Stub.t W) : Prop :=
  delivers client.(Stub.get_current_user W) server.(Stub.get_current_user W).

(** The trait a server implements. *)
Module Service.
Section service.
Context `{!Tonic} (W : Type).
Record t : Type := mk {
  current_user : method W Misc.Auth.current_user.Request.t Misc.Auth.current_user.Response.t
}.
End service.
End Service.

Section rpcs.
Context `{!Tonic} {W : Type}.

(** The server trait, implemented from the service trait. *)
Definition server (self : Service.t W) : Stub.t W := {|
  Stub.get_current_user := unary self.(Service.current_user W) |}.

Record Client : Type := {
  inner : Stub.t W
}.

(** The generated client over a channel is its methods. *)
Definition with_channel (channel : Stub.t W) : Client := {| inner := channel |}.

#[global] Instance call_current_user : GrpcCall W Client Misc.Auth.current_user.Request.t Misc.Auth.current_user.Response.t := λ self request,
  unary_call self.(inner).(Stub.get_current_user W) request.

Definition current_user (self : Client) : fallible W RequestError Misc.Auth.User.t :=
  response ← call self Misc.Auth.current_user.Request.mk;
  mret response.(Misc.Auth.current_user.Response.user).

End rpcs.
#[export] Hint Unfold call_current_user current_user : rpc.

(** The same for the Auth client. *)
Theorem auth_end_to_end `{!Tonic} {W} (service : Service.t W) (client : Stub.t W) :
  connected client (server service) →
  (answers (current_user (with_channel client))
     (λ context, Misc.Auth.current_user.Response.user <$> service.(Service.current_user W) Misc.Auth.current_user.Request.mk context)).
Proof. unfold connected. intros. solve_answers. Qed.
