(* ===== verification/VersionsRpc.v ===== *)
(** The Versions service, both sides: [client/versions.rs] and [server/versions.rs]. *)

From S2P Require Import Prelude V3 Objects Filters Misc Rpc.

(** The methods of the generated client and of the generated server trait
    ([versions_service.proto], service [Versions]). *)
Module Stub.
Section stub.
Context `{!Tonic} (W : Type).
Record t : Type := mk {
  list_versions : rpc W V3.versions.ListVersionsRequest.t V3.versions.ListVersionsResponse.t
}.
End stub.
End Stub.

(** The client reaches the server through a channel. *)
Definition connected `{!Tonic} {W} (client : Stub.t W) (server : Stub.t W) : Prop :=
  delivers client.(Stub.list_versions W) server.(Stub.list_versions W).

(** The trait a server implements. *)
Module Service.
Section service.
Context `{!Tonic} (W : Type).
Record t : Type := mk {
  list : method W Misc.Versions.list.Request.t Misc.Versions.list.Response.t
}.
End service.
End Service.

Section rpcs.
Context `{!Tonic} {W : Type}.

(** The server trait, implemented from the service trait. *)
Definition server (self : Service.t W) : Stub.t W := {|
  Stub.list_versions := unary self.(Service.list W) |}.

Record Client : Type := {
  inner : Stub.t W
}.

(** The generated client over a channel is its methods. *)
Definition with_channel (channel : Stub.t W) : Client := {| inner := channel |}.

#[global] Instance call_list : GrpcCall W Client Misc.Versions.list.Request.t Misc.Versions.list.Response.t := λ self request,
  unary_call self.(inner).(Stub.list_versions W) request.

Definition list (self : Client) : fallible W RequestError Misc.Versions.list.Response.t :=
  call self Misc.Versions.list.Request.mk.

End rpcs.
#[export] Hint Unfold call_list list : rpc.

(** The same for the Versions client. *)
Theorem versions_end_to_end `{!Tonic} {W} (service : Service.t W) (client : Stub.t W) :
  connected client (server service) →
  (answers (list (with_channel client))
     (λ context, service.(Service.list W) Misc.Versions.list.Request.mk context)).
Proof. unfold connected. intros. solve_answers. Qed.
