(* ===== verification/HealthChecksRpc.v ===== *)
(** The HealthChecks service, both sides: [client/health_checks.rs] and [server/health_checks.rs]. *)

From S2P Require Import Prelude V3 Objects Filters Misc Rpc.

(** The methods of the generated client and of the generated server trait
    ([health_checks_service.proto], service [HealthChecksService]). *)
Module Stub.
Section stub.
Context `{!Tonic} (W : Type).
Record t : Type := mk {
  check_health : rpc W V3.health_checks.CheckHealthRequest.t V3.health_checks.CheckHealthResponse.t
}.
End stub.
End Stub.

(** The client reaches the server through a channel. *)
Definition connected `{!Tonic} {W} (client : Stub.t W) (server : Stub.t W) : Prop :=
  delivers client.(Stub.check_health W) server.(Stub.check_health W).

(** The trait a server implements. *)
Module Service.
Section service.
Context `{!Tonic} (W : Type).
Record t : Type := mk {
  check : method W Misc.HealthChecks.check.Request.t Misc.HealthChecks.check.Response.t
}.
End service.
End Service.

Section rpcs.
Context `{!Tonic} {W : Type}.

(** The server trait, implemented from the service trait. *)
Definition server (self : Service.t W) : Stub.t W := {|
  Stub.check_health := unary self.(Service.check W) |}.

Record Client : Type := {
  inner : Stub.t W
}.

(** The generated client over a channel is its methods. *)
Definition with_channel (channel : Stub.t W) : Client := {| inner := channel |}.

#[global] Instance call_check : GrpcCall W Client Misc.HealthChecks.check.Request.t Misc.HealthChecks.check.Response.t := λ self request,
  unary_call self.(inner).(Stub.check_health W) request.

Definition check (self : Client) : fallible W RequestError ((Datatypes.list Misc.HealthChecks.ServiceHealth.t)) :=
  response ← call self Misc.HealthChecks.check.Request.mk;
  mret response.(Misc.HealthChecks.check.Response.services).

End rpcs.
#[export] Hint Unfold call_check check : rpc.

(** The same for the HealthChecks client. *)
Theorem health_checks_end_to_end `{!Tonic} {W} (service : Service.t W) (client : Stub.t W) :
  connected client (server service) →
  (answers (check (with_channel client))
     (λ context, Misc.HealthChecks.check.Response.services <$> service.(Service.check W) Misc.HealthChecks.check.Request.mk context)).
Proof. unfold connected. intros. solve_answers. Qed.
