(* ===== verification/WorkerRpc.v ===== *)
(** The Worker service, both sides: [client/worker.rs] and [server/worker.rs]. *)

From S2P Require Import Prelude V3 Objects Filters Worker Rpc.

(** The methods of the generated client and of the generated server trait
    ([worker_service.proto], service [Worker]). *)
Module Stub.
Section stub.
Context `{!Tonic} (W : Type).
Record t : Type := mk {
  health_check : rpc W V3.Empty.t V3.worker.HealthCheckReply.t;
  process : rpc W V3.worker.ProcessRequest.t V3.worker.ProcessReply.t
}.
End stub.
End Stub.

(** The client reaches the server through a channel. *)
Definition connected `{!Tonic} {W} (client : Stub.t W) (server : Stub.t W) : Prop :=
  delivers client.(Stub.health_check W) server.(Stub.health_check W) ∧
  delivers client.(Stub.process W) server.(Stub.process W).

(** The trait a server implements. *)
Module Service.
Section service.
Context `{!Tonic} (W : Type).
Record t : Type := mk {
  health_check : method W Worker.health_check.Request.t Worker.health_check.Response.t;
  process : method W Worker.process.Request.t Worker.process.Response.t
}.
End service.
End Service.

Section rpcs.
Context `{!Tonic} {W : Type}.

(** The server trait, implemented from the service trait. *)
Definition server (self : Service.t W) : Stub.t W := {|
  Stub.health_check := unary self.(Service.health_check W);
  Stub.process := unary self.(Service.process W) |}.

Record Client : Type := {
  inner : Stub.t W
}.

(** The generated client over a channel is its methods. *)
Definition with_channel (channel : Stub.t W) : Client := {| inner := channel |}.

#[global] Instance call_health_check : GrpcCall W Client Worker.health_check.Request.t Worker.health_check.Response.t := λ self request,
  unary_call self.(inner).(Stub.health_check W) request.

#[global] Instance call_process : GrpcCall W Client Worker.process.Request.t Worker.process.Response.t := λ self request,
  unary_call self.(inner).(Stub.process W) request.

Definition health_check (self : Client) : fallible W RequestError Worker.health_check.Response.t :=
  call self Worker.health_check.Request.mk.

Definition process (self : Client) (request : Worker.process.Request.t) : fallible W RequestError Output.t :=
  response ← call self request;
  mret response.(Worker.process.Response.output).

End rpcs.
#[export] Hint Unfold call_health_check call_process health_check process : rpc.

(** C27: The same for the Worker client, which is the one the agent uses. *)
Theorem worker_end_to_end `{!Tonic} {W} (service : Service.t W) (client : Stub.t W) :
  connected client (server service) →
  (answers (health_check (with_channel client))
     (λ context, service.(Service.health_check W) Worker.health_check.Request.mk context)) ∧
  (∀ request, answers (process (with_channel client) request)
     (λ context, Worker.process.Response.output <$> service.(Service.process W) request context)).
Proof. unfold connected. intros. destruct_and!. split_and!; solve_answers. Qed.
