(* ===== verification/TasksRpc.v ===== *)
(** The Tasks service, both sides: [client/tasks.rs] and [server/tasks.rs]. *)

From S2P Require Import Prelude V3 Objects Filters Tasks Rpc.

(** The methods of the generated client and of the generated server trait
    ([tasks_service.proto], service [Tasks]). *)
Module Stub.
Section stub.
Context `{!Tonic} (W : Type).
Record t : Type := mk {
  list_tasks : rpc W V3.tasks.ListTasksRequest.t V3.tasks.ListTasksResponse.t;
  list_tasks_detailed : rpc W V3.tasks.ListTasksRequest.t V3.tasks.ListTasksDetailedResponse.t;
  get_task : rpc W V3.tasks.GetTaskRequest.t V3.tasks.GetTaskResponse.t;
  cancel_tasks : rpc W V3.tasks.CancelTasksRequest.t V3.tasks.CancelTasksResponse.t;
  get_result_ids : rpc W V3.tasks.GetResultIdsRequest.t V3.tasks.GetResultIdsResponse.t;
  count_tasks_by_status : rpc W V3.tasks.CountTasksByStatusRequest.t V3.tasks.CountTasksByStatusResponse.t;
  submit_tasks : rpc W V3.tasks.SubmitTasksRequest.t V3.tasks.SubmitTasksResponse.t
}.
End stub.
End Stub.

(** The client reaches the server through a channel. *)
Definition connected `{!Tonic} {W} (client : Stub.t W) (server : Stub.t W) : Prop :=
  delivers client.(Stub.list_tasks W) server.(Stub.list_tasks W) ∧
  delivers client.(Stub.list_tasks_detailed W) server.(Stub.list_tasks_detailed W) ∧
  delivers client.(Stub.get_task W) server.(Stub.get_task W) ∧
  delivers client.(Stub.cancel_tasks W) server.(Stub.cancel_tasks W) ∧
  delivers client.(Stub.get_result_ids W) server.(Stub.get_result_ids W) ∧
  delivers client.(Stub.count_tasks_by_status W) server.(Stub.count_tasks_by_status W) ∧
  delivers client.(Stub.submit_tasks W) server.(Stub.submit_tasks W).

(** The trait a server implements. *)
Module Service.
Section service.
Context `{!Tonic} (W : Type).
Record t : Type := mk {
  list : method W Tasks.list.Request.t Tasks.list.Response.t;
  list_detailed : method W Tasks.list_detailed.Request.t Tasks.list_detailed.Response.t;
  get : method W Tasks.get.Request.t Tasks.get.Response.t;
  cancel : method W Tasks.cancel.Request.t Tasks.cancel.Response.t;
  get_result_ids : method W Tasks.get_result_ids.Request.t Tasks.get_result_ids.Response.t;
  count_status : method W Tasks.count_status.Request.t Tasks.count_status.Response.t;
  submit : method W Tasks.submit.Request.t Tasks.submit.Response.t
}.
End service.
End Service.

(** [filters.into_iter().map(IntoCollection::into_collect).collect()]. *)
Definition collect_filters (filters : Datatypes.list (Datatypes.list Tasks.filter.Field.t)) : Tasks.filter.Or.t :=
  Tasks.filter.Or.from_iter (map (into_collect Tasks.filter.And.from_iter) filters).

Section rpcs.
Context `{!Tonic} `{!HashMapIter} {W : Type}.

(** The server trait, implemented from the service trait. *)
Definition server (self : Service.t W) : Stub.t W := {|
  Stub.list_tasks := unary self.(Service.list W);
  Stub.list_tasks_detailed := unary self.(Service.list_detailed W);
  Stub.get_task := unary self.(Service.get W);
  Stub.cancel_tasks := unary self.(Service.cancel W);
  Stub.get_result_ids := unary self.(Service.get_result_ids W);
  Stub.count_tasks_by_status := unary self.(Service.count_status W);
  Stub.submit_tasks := unary self.(Service.submit W) |}.

Record Client : Type := {
  inner : Stub.t W
}.

(** The generated client over a channel is its methods. *)
Definition with_channel (channel : Stub.t W) : Client := {| inner := channel |}.

#[global] Instance call_list : GrpcCall W Client Tasks.list.Request.t Tasks.list.Response.t := λ self request,
  unary_call self.(inner).(Stub.list_tasks W) request.

#[global] Instance call_list_detailed : GrpcCall W Client Tasks.list_detailed.Request.t Tasks.list_detailed.Response.t := λ self request,
  unary_call self.(inner).(Stub.list_tasks_detailed W) request.

#[global] Instance call_get : GrpcCall W Client Tasks.get.Request.t Tasks.get.Response.t := λ self request,
  unary_call self.(inner).(Stub.get_task W) request.

#[global] Instance call_cancel : GrpcCall W Client Tasks.cancel.Request.t Tasks.cancel.Response.t := λ self request,
  unary_call self.(inner).(Stub.cancel_tasks W) request.

#[global] Instance call_get_result_ids : GrpcCall W Client Tasks.get_result_ids.Request.t Tasks.get_result_ids.Response.t := λ self request,
  unary_call self.(inner).(Stub.get_result_ids W) request.

#[global] Instance call_count_status : GrpcCall W Client Tasks.count_status.Request.t Tasks.count_status.Response.t := λ self request,
  unary_call self.(inner).(Stub.count_tasks_by_status W) request.

#[global] Instance call_submit : GrpcCall W Client Tasks.submit.Request.t Tasks.submit.Response.t := λ self request,
  unary_call self.(inner).(Stub.submit_tasks W) request.

Definition list (self : Client) (filters : Datatypes.list (Datatypes.list Tasks.filter.Field.t))
    (sort : Tasks.Sort.t) (with_errors : bool) (page page_size : Z) : fallible W RequestError Tasks.list.Response.t :=
  call self {|
    Tasks.list.Request.page := page;
    Tasks.list.Request.page_size := page_size;
    Tasks.list.Request.filters := collect_filters filters;
    Tasks.list.Request.sort := sort;
    Tasks.list.Request.with_errors := with_errors |}.

Definition list_detailed (self : Client) (filters : Datatypes.list (Datatypes.list Tasks.filter.Field.t))
    (sort : Tasks.Sort.t) (with_errors : bool) (page page_size : Z) : fallible W RequestError Tasks.list_detailed.Response.t :=
  call self {|
    Tasks.list_detailed.Request.page := page;
    Tasks.list_detailed.Request.page_size := page_size;
    Tasks.list_detailed.Request.filters := collect_filters filters;
    Tasks.list_detailed.Request.sort := sort;
    Tasks.list_detailed.Request.with_errors := with_errors |}.

Definition get (self : Client) (task_id : string) : fallible W RequestError Tasks.Raw.t :=
  response ← call self {|
    Tasks.get.Request.task_id := task_id |};
  mret response.(Tasks.get.Response.task).

Definition cancel (self : Client) (task_ids : Datatypes.list string) : fallible W RequestError ((Datatypes.list Tasks.Summary.t)) :=
  response ← call self {|
    Tasks.cancel.Request.task_ids := map from task_ids |};
  mret response.(Tasks.cancel.Response.tasks).

Definition get_result_ids (self : Client) (task_ids : Datatypes.list string) : fallible W RequestError ((gmap string (Datatypes.list string))) :=
  response ← call self {|
    Tasks.get_result_ids.Request.task_ids := map from task_ids |};
  mret response.(Tasks.get_result_ids.Response.task_results).

Definition count_status (self : Client) (filters : Tasks.filter.Or.t) : fallible W RequestError ((Datatypes.list StatusCount.t)) :=
  response ← call self {|
    Tasks.count_status.Request.filters := filters |};
  mret response.(Tasks.count_status.Response.status).

Definition submit (self : Client) (session_id : string) (task_options : option TaskOptions.t)
    (items : Datatypes.list Tasks.submit.RequestItem.t) : fallible W RequestError ((Datatypes.list Tasks.submit.ResponseItem.t)) :=
  response ← call self {|
    Tasks.submit.Request.session_id := session_id;
    Tasks.submit.Request.task_options := task_options;
    Tasks.submit.Request.items := map from items |};
  mret response.(Tasks.submit.Response.items).

End rpcs.
#[export] Hint Unfold call_list call_list_detailed call_get call_cancel call_get_result_ids call_count_status call_submit list list_detailed get cancel get_result_ids count_status submit : rpc.

(** C2: The same for every method of the Tasks client; the summaries that [list] and
    [cancel] answer lose the distinction between an error without a message and a success. *)
Theorem tasks_end_to_end `{!Tonic} `{!HashMapIter} {W} (service : Service.t W) (client : Stub.t W) :
  connected client (server service) →
  (∀ filters sort with_errors page page_size, answers (list (with_channel client) filters sort with_errors page page_size)
     (λ context, Tasks.list.normalise <$> service.(Service.list W) {|
    Tasks.list.Request.page := page;
    Tasks.list.Request.page_size := page_size;
    Tasks.list.Request.filters := collect_filters filters;
    Tasks.list.Request.sort := sort;
    Tasks.list.Request.with_errors := with_errors |} context)) ∧
  (∀ filters sort with_errors page page_size, answers (list_detailed (with_channel client) filters sort with_errors page page_size)
     (λ context, service.(Service.list_detailed W) {|
    Tasks.list_detailed.Request.page := page;
    Tasks.list_detailed.Request.page_size := page_size;
    Tasks.list_detailed.Request.filters := collect_filters filters;
    Tasks.list_detailed.Request.sort := sort;
    Tasks.list_detailed.Request.with_errors := with_errors |} context)) ∧
  (∀ task_id, answers (get (with_channel client) task_id)
     (λ context, Tasks.get.Response.task <$> service.(Service.get W) {|
    Tasks.get.Request.task_id := task_id |} context)) ∧
  (∀ task_ids, answers (cancel (with_channel client) task_ids)
     (λ context, Tasks.cancel.Response.tasks <$>
        (Tasks.cancel.normalise <$> service.(Service.cancel W) {|
    Tasks.cancel.Request.task_ids := task_ids |} context))) ∧
  (∀ task_ids, answers (get_result_ids (with_channel client) task_ids)
     (λ context, Tasks.get_result_ids.Response.task_results <$> service.(Service.get_result_ids W) {|
    Tasks.get_result_ids.Request.task_ids := task_ids |} context)) ∧
  (∀ filters, answers (count_status (with_channel client) filters)
     (λ context, Tasks.count_status.Response.status <$> service.(Service.count_status W) {|
    Tasks.count_status.Request.filters := filters |} context)) ∧
  (∀ session_id task_options items, answers (submit (with_channel client) session_id task_options items)
     (λ context, Tasks.submit.Response.items <$> service.(Service.submit W) {|
    Tasks.submit.Request.session_id := session_id;
    Tasks.submit.Request.task_options := task_options;
    Tasks.submit.Request.items := items |} context)).
Proof. 
  unfold connected. intros. destruct_and!. split_and!; try solve_answers.
  - solve_answers_with (λ r : Tasks.list.Request.t, r) Tasks.list.normalise.
    apply Tasks.list.list_response_v3_normalises.
  - solve_answers_with (λ r : Tasks.cancel.Request.t, r) Tasks.cancel.normalise.
    apply Tasks.cancel.cancel_response_v3_normalises.
 Qed.
