(* ===== verification/EventsRpc.v ===== *)
(** The Events service, both sides: [client/events.rs] and [server/events.rs]. *)

From S2P Require Import Prelude V3 Objects Filters Tasks Results Events Rpc.

(** The methods of the generated client and of the generated server trait
    ([events_service.proto], service [Events]). *)
Module Stub.
Section stub.
Context `{!Tonic} (W : Type).
Record t : Type := mk {
  get_events : rpc W V3.events.EventSubscriptionRequest.t (stream W (result Status V3.events.EventSubscriptionResponse.t))
}.
End stub.
End Stub.

(** The client reaches the server through a channel. *)
Definition connected `{!Tonic} {W} (client : Stub.t W) (server : Stub.t W) : Prop :=
  delivers_items client.(Stub.get_events W) server.(Stub.get_events W).

(** The trait a server implements. *)
Module Service.
Section service.
Context `{!Tonic} (W : Type).
Record t : Type := mk {
  subscribe : method W Events.subscribe.Request.t (stream W (result Status Events.subscribe.Response.t))
}.
End service.
End Service.

(** [filters.into_iter().map(IntoCollection::into_collect).collect()], for the two
    kinds of filters. *)
Definition collect_task_filters (filters : list (list Tasks.filter.Field.t)) : Tasks.filter.Or.t :=
  Tasks.filter.Or.from_iter (map (into_collect Tasks.filter.And.from_iter) filters).

Definition collect_result_filters (filters : list (list Results.filter.Field.t))
    : Results.filter.Or.t :=
  Results.filter.Or.from_iter
    (map (into_collect Results.filter.And.from_iter) filters).

Section rpcs.
Context `{!Tonic} {W : Type}.

(** The server trait, implemented from the service trait. *)
Definition server (self : Service.t W) : Stub.t W := {|
  Stub.get_events := stream_server self.(Service.subscribe W) |}.

Record Client : Type := {
  inner : Stub.t W
}.

(** The generated client over a channel is its methods. *)
Definition with_channel (channel : Stub.t W) : Client := {| inner := channel |}.

Definition subscribe (self : Client) (session_id : string)
    (task_filters : list (list Tasks.filter.Field.t)) (result_filters : list (list Results.filter.Field.t))
    (returned_events : list Events.EventsEnum.t) : fallible W RequestError ((stream W (result RequestError Events.subscribe.Response.t))) :=
  stream_server_call from Grpc self.(inner).(Stub.get_events W) {|
    Events.subscribe.Request.session_id := session_id;
    Events.subscribe.Request.task_filters := collect_task_filters task_filters;
    Events.subscribe.Request.result_filters := collect_result_filters result_filters;
    Events.subscribe.Request.returned_events := map from returned_events |}.

#[global] Instance call_subscribe :
    GrpcCall W Client Events.subscribe.Request.t
      (stream W (result RequestError Events.subscribe.Response.t)) := λ self request,
  subscribe self request.(Events.subscribe.Request.session_id)
    (map Tasks.filter.And.into_iter
       (Tasks.filter.Or.into_iter request.(Events.subscribe.Request.task_filters)))
    (map Results.filter.And.into_iter
       (Results.filter.Or.into_iter request.(Events.subscribe.Request.result_filters)))
    request.(Events.subscribe.Request.returned_events).

End rpcs.
#[export] Hint Unfold subscribe call_subscribe : rpc.

Lemma collect_task_filters_into_iter (filters : Tasks.filter.Or.t) :
  collect_task_filters (map Tasks.filter.And.into_iter (Tasks.filter.Or.into_iter filters))
  = filters.
Proof.
  destruct filters as [l]. unfold collect_task_filters, Tasks.filter.Or.from_iter. cbn.
  f_equal. rewrite map_map. apply map_id_ext. intros [fields].
  unfold into_collect, Tasks.filter.And.from_iter. cbn. by rewrite map_from_refl.
Qed.

Lemma collect_result_filters_into_iter (filters : Results.filter.Or.t) :
  collect_result_filters
    (map Results.filter.And.into_iter (Results.filter.Or.into_iter filters))
  = filters.
Proof.
  destruct filters as [l]. unfold collect_result_filters, Results.filter.Or.from_iter. cbn.
  f_equal. rewrite map_map. apply map_id_ext. intros [fields].
  unfold into_collect, Results.filter.And.from_iter. cbn. by rewrite map_from_refl.
Qed.

Lemma subscribe_answers `{!Tonic} {W} (service : Service.t W) client
    session_id task_filters result_filters returned_events :
  connected client (server service) →
  answers (subscribe (with_channel client) session_id task_filters result_filters returned_events)
    (λ context, stream_map (map_err Grpc) ∘ until_error <$> service.(Service.subscribe W) {|
    Events.subscribe.Request.session_id := session_id;
    Events.subscribe.Request.task_filters := collect_task_filters task_filters;
    Events.subscribe.Request.result_filters := collect_result_filters result_filters;
    Events.subscribe.Request.returned_events := returned_events |} context).
Proof.
  unfold connected. intros. autounfold with rpc.
  rewrite map_from_refl. apply stream_server_call_answers_id; [apply roundtrip|done].
Qed.

(** C26: Subscribing through the Events client is one subscription to the service,
    with the filters the arguments describe; the events come in the order and at
    the moments the service produces them, up to its first error, which comes as a
    [RequestError] and ends them.  The raw
    call does the same with the filters of its request. *)
Theorem events_end_to_end `{!Tonic} {W} (service : Service.t W) (client : Stub.t W) :
  connected client (server service) →
  (∀ session_id task_filters result_filters returned_events,
     answers (subscribe (with_channel client) session_id task_filters result_filters returned_events)
     (λ context, stream_map (map_err Grpc) ∘ until_error <$> service.(Service.subscribe W) {|
    Events.subscribe.Request.session_id := session_id;
    Events.subscribe.Request.task_filters := collect_task_filters task_filters;
    Events.subscribe.Request.result_filters := collect_result_filters result_filters;
    Events.subscribe.Request.returned_events := returned_events |} context)) ∧
  (∀ request,
     answers (call (with_channel client) request)
     (λ context, stream_map (map_err Grpc) ∘ until_error <$> service.(Service.subscribe W) request context)).
Proof.
  intros Hc. split; intros; [by apply subscribe_answers|].
  autounfold with rpc.
  rewrite map_from_refl, collect_task_filters_into_iter, collect_result_filters_into_iter.
  destruct request. apply stream_server_call_answers_id; [apply roundtrip|done].
Qed.
