(* ===== verification/ResultsRpc.v ===== *)
(** The Results service, both sides: [client/results.rs] and [server/results.rs]. *)

From Stdlib Require Import FunctionalExtensionality.
From S2P Require Import Prelude V3 Objects Filters Results Rpc.

(** The methods of the generated client and of the generated server trait
    ([results_service.proto], service [Results]). *)
Module Stub.
Section stub.
Context `{!Tonic} (W : Type).
Record t : Type := mk {
  list_results : rpc W V3.results.ListResultsRequest.t V3.results.ListResultsResponse.t;
  get_result : rpc W V3.results.GetResultRequest.t V3.results.GetResultResponse.t;
  get_owner_task_id : rpc W V3.results.GetOwnerTaskIdRequest.t V3.results.GetOwnerTaskIdResponse.t;
  create_results_meta_data : rpc W V3.results.CreateResultsMetaDataRequest.t V3.results.CreateResultsMetaDataResponse.t;
  create_results : rpc W V3.results.CreateResultsRequest.t V3.results.CreateResultsResponse.t;
  import_results_data : rpc W V3.results.ImportResultsDataRequest.t V3.results.ImportResultsDataResponse.t;
  delete_results_data : rpc W V3.results.DeleteResultsDataRequest.t V3.results.DeleteResultsDataResponse.t;
  get_service_configuration : rpc W V3.Empty.t V3.results.ResultsServiceConfigurationResponse.t;
  upload_result_data : rpc W (stream W (result Status V3.results.UploadResultDataRequest.t)) V3.results.UploadResultDataResponse.t;
  download_result_data : rpc W V3.results.DownloadResultDataRequest.t (stream W (result Status V3.results.DownloadResultDataResponse.t));
  watch_results : rpc W (stream W (result Status V3.results.WatchResultRequest.t)) (stream W (result Status V3.results.WatchResultResponse.t))
}.
End stub.
End Stub.

(** The same on the client side, where a stream of requests has no errors. *)
Module ClientStub.
Section stub.
Context `{!Tonic} (W : Type).
Record t : Type := mk {
  list_results : rpc W V3.results.ListResultsRequest.t V3.results.ListResultsResponse.t;
  get_result : rpc W V3.results.GetResultRequest.t V3.results.GetResultResponse.t;
  get_owner_task_id : rpc W V3.results.GetOwnerTaskIdRequest.t V3.results.GetOwnerTaskIdResponse.t;
  create_results_meta_data : rpc W V3.results.CreateResultsMetaDataRequest.t V3.results.CreateResultsMetaDataResponse.t;
  create_results : rpc W V3.results.CreateResultsRequest.t V3.results.CreateResultsResponse.t;
  import_results_data : rpc W V3.results.ImportResultsDataRequest.t V3.results.ImportResultsDataResponse.t;
  delete_results_data : rpc W V3.results.DeleteResultsDataRequest.t V3.results.DeleteResultsDataResponse.t;
  get_service_configuration : rpc W V3.Empty.t V3.results.ResultsServiceConfigurationResponse.t;
  upload_result_data : rpc W (stream W V3.results.UploadResultDataRequest.t) V3.results.UploadResultDataResponse.t;
  download_result_data : rpc W V3.results.DownloadResultDataRequest.t (stream W (result Status V3.results.DownloadResultDataResponse.t))
}.
End stub.
End ClientStub.

(** The client reaches the server through a channel. *)
Definition connected `{!Tonic} {W} (client : ClientStub.t W) (server : Stub.t W) : Prop :=
  delivers client.(ClientStub.list_results W) server.(Stub.list_results W) ∧
  delivers client.(ClientStub.get_result W) server.(Stub.get_result W) ∧
  delivers client.(ClientStub.get_owner_task_id W) server.(Stub.get_owner_task_id W) ∧
  delivers client.(ClientStub.create_results_meta_data W) server.(Stub.create_results_meta_data W) ∧
  delivers client.(ClientStub.create_results W) server.(Stub.create_results W) ∧
  delivers client.(ClientStub.import_results_data W) server.(Stub.import_results_data W) ∧
  delivers client.(ClientStub.delete_results_data W) server.(Stub.delete_results_data W) ∧
  delivers client.(ClientStub.get_service_configuration W) server.(Stub.get_service_configuration W) ∧
  delivers_stream client.(ClientStub.upload_result_data W) server.(Stub.upload_result_data W) ∧
  delivers_items client.(ClientStub.download_result_data W) server.(Stub.download_result_data W).

(** The trait a server implements. *)
Module Service.
Section service.
Context `{!Tonic} (W : Type).
Record t : Type := mk {
  list : method W Results.list.Request.t Results.list.Response.t;
  get : method W Results.get.Request.t Results.get.Response.t;
  get_owner_task_id : method W Results.get_owner_task_id.Request.t Results.get_owner_task_id.Response.t;
  create_metadata : method W Results.create_metadata.Request.t Results.create_metadata.Response.t;
  create : method W Results.create.Request.t Results.create.Response.t;
  import : method W Results.import.Request.t Results.import.Response.t;
  delete_data : method W Results.delete_data.Request.t Results.delete_data.Response.t;
  get_service_configuration : method W Results.get_service_configuration.Request.t Results.get_service_configuration.Response.t;
  download : method W Results.download.Request.t (stream W (result Status Results.download.Response.t));
  upload : method W (stream W (result Status Results.upload.Request.t)) Results.upload.Response.t
}.
End service.
End Service.

(** [filters.into_iter().map(IntoCollection::into_collect).collect()]. *)
Definition collect_filters (filters : Datatypes.list (Datatypes.list Results.filter.Field.t)) : Results.filter.Or.t :=
  Results.filter.Or.from_iter (map (into_collect Results.filter.And.from_iter) filters).

Section rpcs.
Context `{!Tonic} `{!HashMapIter} {W : Type}.

(** The server trait, implemented from the service trait. *)
Definition server (self : Service.t W) : Stub.t W := {|
  Stub.list_results := unary self.(Service.list W);
  Stub.get_result := unary self.(Service.get W);
  Stub.get_owner_task_id := unary self.(Service.get_owner_task_id W);
  Stub.create_results_meta_data := unary self.(Service.create_metadata W);
  Stub.create_results := unary self.(Service.create W);
  Stub.import_results_data := unary self.(Service.import W);
  Stub.delete_results_data := unary self.(Service.delete_data W);
  Stub.get_service_configuration := unary self.(Service.get_service_configuration W);
  Stub.upload_result_data := stream_client self.(Service.upload W);
  Stub.download_result_data := stream_server self.(Service.download W);
  Stub.watch_results := λ _ w,
    (Err (Status_unimplemented "Results::WatchResults is not implemented"), w) |}.

Record Client : Type := {
  inner : ClientStub.t W
}.

(** The generated client over a channel is its methods. *)
Definition with_channel (channel : ClientStub.t W) : Client := {| inner := channel |}.

#[global] Instance call_list : GrpcCall W Client Results.list.Request.t Results.list.Response.t := λ self request,
  unary_call self.(inner).(ClientStub.list_results W) request.

#[global] Instance call_get : GrpcCall W Client Results.get.Request.t Results.get.Response.t := λ self request,
  unary_call self.(inner).(ClientStub.get_result W) request.

#[global] Instance call_get_owner_task_id : GrpcCall W Client Results.get_owner_task_id.Request.t Results.get_owner_task_id.Response.t := λ self request,
  unary_call self.(inner).(ClientStub.get_owner_task_id W) request.

#[global] Instance call_create_metadata : GrpcCall W Client Results.create_metadata.Request.t Results.create_metadata.Response.t := λ self request,
  unary_call self.(inner).(ClientStub.create_results_meta_data W) request.

#[global] Instance call_create : GrpcCall W Client Results.create.Request.t Results.create.Response.t := λ self request,
  unary_call self.(inner).(ClientStub.create_results W) request.

#[global] Instance call_delete_data : GrpcCall W Client Results.delete_data.Request.t Results.delete_data.Response.t := λ self request,
  unary_call self.(inner).(ClientStub.delete_results_data W) request.

#[global] Instance call_get_service_configuration : GrpcCall W Client Results.get_service_configuration.Request.t Results.get_service_configuration.Response.t := λ self request,
  unary_call self.(inner).(ClientStub.get_service_configuration W) request.

#[global] Instance call_import : GrpcCall W Client Results.import.Request.t Results.import.Response.t := λ self request,
  unary_call self.(inner).(ClientStub.import_results_data W) request.

#[global] Instance call_download : GrpcCall W Client Results.download.Request.t (stream W (result RequestError Results.download.Response.t)) := λ self request,
  stream_server_call from Grpc self.(inner).(ClientStub.download_result_data W) request.

#[global] Instance call_upload : GrpcCall W Client (stream W Results.upload.Request.t) Results.upload.Response.t := λ self request,
  stream_client_call self.(inner).(ClientStub.upload_result_data W) request.

Definition list (self : Client) (filters : Datatypes.list (Datatypes.list Results.filter.Field.t))
    (sort : Results.Sort.t) (page page_size : Z) : fallible W RequestError Results.list.Response.t :=
  call self {|
    Results.list.Request.page := page;
    Results.list.Request.page_size := page_size;
    Results.list.Request.filters := collect_filters filters;
    Results.list.Request.sort := sort |}.

Definition get (self : Client) (result_id : string) : fallible W RequestError Results.Raw.t :=
  response ← call self {|
    Results.get.Request.id := result_id |};
  mret response.(Results.get.Response.result).

Definition get_owner_task_id (self : Client) (session_id : string) (result_ids : Datatypes.list string) : fallible W RequestError ((gmap string string)) :=
  response ← call self {|
    Results.get_owner_task_id.Request.session_id := session_id;
    Results.get_owner_task_id.Request.result_ids := map from result_ids |};
  mret response.(Results.get_owner_task_id.Response.result_task).

Definition create_metadata (self : Client) (session_id : string)
    (results : Datatypes.list Results.create_metadata.RequestItem.t) : fallible W RequestError ((Datatypes.list Results.Raw.t)) :=
  response ← call self {|
    Results.create_metadata.Request.results := map from results;
    Results.create_metadata.Request.session_id := session_id |};
  mret response.(Results.create_metadata.Response.results).

Definition create (self : Client) (session_id : string)
    (results : Datatypes.list Results.create.RequestItem.t) : fallible W RequestError ((Datatypes.list Results.Raw.t)) :=
  response ← call self {|
    Results.create.Request.results := map from results;
    Results.create.Request.session_id := session_id |};
  mret response.(Results.create.Response.results).

Definition import (self : Client) (session_id : string)
    (results : Datatypes.list (string * Datatypes.list byte)) : fallible W RequestError ((gmap string Results.Raw.t)) :=
  response ← call self {|
    Results.import.Request.results := collect_map (map (λ '(result_id, opaque_id),
      (from result_id : string, from opaque_id : Datatypes.list byte)) results);
    Results.import.Request.session_id := session_id |};
  mret response.(Results.import.Response.results).

(** What [upload] sends: the identifier, then the data as it comes. *)
Definition upload_request (session_id result_id : string) (data : stream W (Datatypes.list byte))
    : stream W V3.results.UploadResultDataRequest.t :=
  let request := stream_iter
    [from (Results.upload.Request.Identifier session_id result_id)
       : V3.results.UploadResultDataRequest.t] in
  stream_chain request
    (stream_map (λ chunk, from (Results.upload.Request.DataChunk (from chunk))) data).

Definition upload (self : Client) (session_id result_id : string)
    (data : stream W (Datatypes.list byte)) : fallible W RequestError Results.Raw.t :=
  response ← fallible_map_err Grpc
    (self.(inner).(ClientStub.upload_result_data W)
       (Request_new (upload_request session_id result_id data)));
  mret (from_or_default response.(into_inner).(V3.results.UploadResultDataResponse.result)).

Definition download (self : Client) (session_id result_id : string) : fallible W RequestError ((stream W (result RequestError (Datatypes.list byte)))) :=
  stream_server_call V3.results.DownloadResultDataResponse.data_chunk Grpc
    self.(inner).(ClientStub.download_result_data W) {|
    Results.download.Request.session_id := session_id;
    Results.download.Request.result_id := result_id |}.

Definition delete_data (self : Client) (session_id : string) (result_ids : Datatypes.list string) : fallible W RequestError ((Datatypes.list string)) :=
  response ← call self {|
    Results.delete_data.Request.session_id := session_id;
    Results.delete_data.Request.result_ids := map from result_ids |};
  mret response.(Results.delete_data.Response.result_ids).

Definition get_service_configuration (self : Client) : fallible W RequestError Results.get_service_configuration.Response.t :=
  call self Results.get_service_configuration.Request.mk.

End rpcs.
#[export] Hint Unfold call_list call_get call_get_owner_task_id call_create_metadata call_create call_delete_data call_get_service_configuration call_import call_download call_upload list get get_owner_task_id create_metadata create import upload download delete_data get_service_configuration : rpc.

Lemma import_entries (results : Datatypes.list (string * Datatypes.list byte)) :
  map (λ '(result_id, opaque_id),
         (from result_id : string, from opaque_id : Datatypes.list byte)) results
  = results.
Proof. apply map_id_ext. by intros []. Qed.

(** C7: The same for every unary method of the Results client; the results that [import]
    answers come back under their names. *)
Theorem results_end_to_end `{!Tonic} `{!HashMapIter} {W} (service : Service.t W) (client : ClientStub.t W) :
  connected client (server service) →
  (∀ filters sort page page_size, answers (list (with_channel client) filters sort page page_size)
     (λ context, service.(Service.list W) {|
    Results.list.Request.page := page;
    Results.list.Request.page_size := page_size;
    Results.list.Request.filters := collect_filters filters;
    Results.list.Request.sort := sort |} context)) ∧
  (∀ result_id, answers (get (with_channel client) result_id)
     (λ context, Results.get.Response.result <$> service.(Service.get W) {|
    Results.get.Request.id := result_id |} context)) ∧
  (∀ session_id result_ids, answers (get_owner_task_id (with_channel client) session_id result_ids)
     (λ context, Results.get_owner_task_id.Response.result_task <$> service.(Service.get_owner_task_id W) {|
    Results.get_owner_task_id.Request.session_id := session_id;
    Results.get_owner_task_id.Request.result_ids := result_ids |} context)) ∧
  (∀ session_id results, answers (create_metadata (with_channel client) session_id results)
     (λ context, Results.create_metadata.Response.results <$> service.(Service.create_metadata W) {|
    Results.create_metadata.Request.results := results;
    Results.create_metadata.Request.session_id := session_id |} context)) ∧
  (∀ session_id results, answers (create (with_channel client) session_id results)
     (λ context, Results.create.Response.results <$> service.(Service.create W) {|
    Results.create.Request.results := results;
    Results.create.Request.session_id := session_id |} context)) ∧
  (∀ session_id results, answers (import (with_channel client) session_id results)
     (λ context, Results.import.Response.results <$>
        (Results.import.Response.by_name <$> service.(Service.import W) {|
    Results.import.Request.results := collect_map results;
    Results.import.Request.session_id := session_id |} context))) ∧
  (∀ session_id result_ids, answers (delete_data (with_channel client) session_id result_ids)
     (λ context, Results.delete_data.Response.result_ids <$> service.(Service.delete_data W) {|
    Results.delete_data.Request.session_id := session_id;
    Results.delete_data.Request.result_ids := result_ids |} context)) ∧
  (answers (get_service_configuration (with_channel client))
     (λ context, service.(Service.get_service_configuration W) Results.get_service_configuration.Request.mk context)).
Proof. 
  unfold connected. intros. destruct_and!. split_and!; try solve_answers.
  intros session_id results. autounfold with rpc. rewrite import_entries.
  apply answers_fmap.
  apply (call_answers_with (λ r : Results.import.Request.t, r) Results.import.Response.by_name);
    [exact roundtrip|exact Results.import.Response.import_response_v3_by_name|assumption].
 Qed.

(** The messages of an upload: the identifier of the result, then its data. *)
Definition upload_messages {W} (session_id result_id : string) (data : stream W (Datatypes.list byte))
    : stream W Results.upload.Request.t :=
  stream_chain (stream_iter [Results.upload.Request.Identifier session_id result_id])
    (stream_map Results.upload.Request.DataChunk data).

Lemma upload_is_a_call `{!Tonic} {W} (client : Client) session_id result_id
    (data : stream W (Datatypes.list byte)) :
  upload client session_id result_id data
  = (response ← call client (upload_messages session_id result_id data);
     mret response.(Results.upload.Response.result)).
Proof.
  autounfold with rpc. unfold stream_client_call, upload_request, upload_messages.
  rewrite stream_map_chain, stream_map_iter, stream_map_map.
  extensionality w. unfold mbind, fallible_bind, fallible_map_err.
  by destruct (inner client) as [? ? ? ? ? ? ? ? up ?]; cbn;
    destruct (up _ w) as [[r|e] w'].
Qed.

Lemma upload_answers `{!Tonic} `{!HashMapIter} {W} (service : Service.t W) client
    session_id result_id data :
  connected client (server service) →
  answers (upload (with_channel client) session_id result_id data)
    (λ context, Results.upload.Response.result <$>
       service.(Service.upload W)
         (stream_map Ok (upload_messages session_id result_id data)) context).
Proof.
  unfold connected. intros. destruct_and!. rewrite upload_is_a_call. apply answers_fmap.
  autounfold with rpc. by apply stream_client_call_answers.
Qed.

Lemma download_answers `{!Tonic} `{!HashMapIter} {W} (service : Service.t W) client
    session_id result_id :
  connected client (server service) →
  answers (download (with_channel client) session_id result_id)
    (λ context, stream_map (λ item, map_err Grpc (Results.download.Response.data_chunk <$> item)) ∘
       until_error <$>
       service.(Service.download W) {|
         Results.download.Request.session_id := session_id;
         Results.download.Request.result_id := result_id |} context).
Proof.
  unfold connected. intros. destruct_and!. autounfold with rpc.
  by apply stream_server_call_answers.
Qed.

(** C3: The streaming methods of the Results client.  [upload] is one upload of the
    service, which pulls the identifier, then the data, chunk by chunk; [download]
    is one download of the service, whose chunks come back in order, up to its first
    error; the raw calls
    are given, and give, the messages themselves.  The server implements no
    [watch_results]: it refuses it. *)
Theorem results_streams_end_to_end `{!Tonic} `{!HashMapIter} {W} (service : Service.t W)
    (client : ClientStub.t W) :
  connected client (server service) →
  (∀ session_id result_id data,
     answers (upload (with_channel client) session_id result_id data)
     (λ context, Results.upload.Response.result <$>
        service.(Service.upload W)
          (stream_map Ok (upload_messages session_id result_id data)) context)) ∧
  (∀ session_id result_id,
     answers (download (with_channel client) session_id result_id)
     (λ context, stream_map (λ item, map_err Grpc (Results.download.Response.data_chunk <$> item)) ∘
       until_error <$>
        service.(Service.download W) {|
          Results.download.Request.session_id := session_id;
          Results.download.Request.result_id := result_id |} context)) ∧
  (∀ messages : stream W Results.upload.Request.t,
     answers (call (with_channel client) messages)
     (service.(Service.upload W) (stream_map Ok messages))) ∧
  (∀ request : Results.download.Request.t,
     answers (call (with_channel client) request)
     (λ context, stream_map (map_err Grpc) ∘ until_error <$> service.(Service.download W) request context)) ∧
  (∀ request w,
     (server service).(Stub.watch_results W) request w
     = (Err (Status_unimplemented "Results::WatchResults is not implemented"), w)).
Proof.
  intros Hc. split_and!; intros; [by apply upload_answers|by apply download_answers|..];
    unfold connected in Hc; destruct_and!.
  - autounfold with rpc. by apply stream_client_call_answers.
  - autounfold with rpc. apply stream_server_call_answers_id; [apply roundtrip|done].
  - done.
Qed.
