(* ===== verification/AgentRpc.v ===== *)
(** The Agent service, both sides: [client/agent.rs] and [server/agent.rs]. *)

From S2P Require Import Prelude V3 Objects Filters Agent Rpc.

(** The methods of the generated client and of the generated server trait
    ([agent_service.proto], service [Agent]). *)
Module Stub.
Section stub.
Context `{!Tonic} (W : Type).
Record t : Type := mk {
  create_results_meta_data : rpc W V3.agent.CreateResultsMetaDataRequest.t V3.agent.CreateResultsMetaDataResponse.t;
  create_results : rpc W V3.agent.CreateResultsRequest.t V3.agent.CreateResultsResponse.t;
  notify_result_data : rpc W V3.agent.NotifyResultDataRequest.t V3.agent.NotifyResultDataResponse.t;
  submit_tasks : rpc W V3.agent.SubmitTasksRequest.t V3.agent.SubmitTasksResponse.t;
  get_resource_data : rpc W V3.agent.DataRequest.t V3.agent.DataResponse.t;
  get_common_data : rpc W V3.agent.DataRequest.t V3.agent.DataResponse.t;
  get_direct_data : rpc W V3.agent.DataRequest.t V3.agent.DataResponse.t;
  create_task : rpc W (stream W (result Status V3.agent.CreateTaskRequest.t)) V3.agent.CreateTaskReply.t
}.
End stub.
End Stub.

(** The same on the client side, where a stream of requests has no errors. *)
Module ClientStub.
Section stub.
Context `{!Tonic} (W : Type).
Record t : Type := mk {
  create_results_meta_data : rpc W V3.agent.CreateResultsMetaDataRequest.t V3.agent.CreateResultsMetaDataResponse.t;
  create_results : rpc W V3.agent.CreateResultsRequest.t V3.agent.CreateResultsResponse.t;
  notify_result_data : rpc W V3.agent.NotifyResultDataRequest.t V3.agent.NotifyResultDataResponse.t;
  submit_tasks : rpc W V3.agent.SubmitTasksRequest.t V3.agent.SubmitTasksResponse.t;
  get_resource_data : rpc W V3.agent.DataRequest.t V3.agent.DataResponse.t;
  get_common_data : rpc W V3.agent.DataRequest.t V3.agent.DataResponse.t;
  get_direct_data : rpc W V3.agent.DataRequest.t V3.agent.DataResponse.t;
  create_task : rpc W (stream W V3.agent.CreateTaskRequest.t) V3.agent.CreateTaskReply.t
}.
End stub.
End ClientStub.

(** The client reaches the server through a channel. *)
Definition connected `{!Tonic} {W} (client : ClientStub.t W) (server : Stub.t W) : Prop :=
  delivers client.(ClientStub.create_results_meta_data W) server.(Stub.create_results_meta_data W) ∧
  delivers client.(ClientStub.create_results W) server.(Stub.create_results W) ∧
  delivers client.(ClientStub.notify_result_data W) server.(Stub.notify_result_data W) ∧
  delivers client.(ClientStub.submit_tasks W) server.(Stub.submit_tasks W) ∧
  delivers client.(ClientStub.get_resource_data W) server.(Stub.get_resource_data W) ∧
  delivers client.(ClientStub.get_common_data W) server.(Stub.get_common_data W) ∧
  delivers client.(ClientStub.get_direct_data W) server.(Stub.get_direct_data W) ∧
  delivers_stream client.(ClientStub.create_task W) server.(Stub.create_task W).

(** The trait a server implements. *)
Module Service.
Section service.
Context `{!Tonic} (W : Type).
Record t : Type := mk {
  create_results_metadata : method W Agent.create_results_metadata.Request.t Agent.create_results_metadata.Response.t;
  create_results : method W Agent.create_results.Request.t Agent.create_results.Response.t;
  notify_result_data : method W Agent.notify_result_data.Request.t Agent.notify_result_data.Response.t;
  submit_tasks : method W Agent.submit_tasks.Request.t Agent.submit_tasks.Response.t;
  get_resource_data : method W Agent.get_resource_data.Request.t Agent.get_resource_data.Response.t;
  get_common_data : method W Agent.get_common_data.Request.t Agent.get_common_data.Response.t;
  get_direct_data : method W Agent.get_direct_data.Request.t Agent.get_direct_data.Response.t;
  create_tasks : method W (stream W (result Status Agent.create_tasks.Request.t)) Agent.create_tasks.Response.t
}.
End service.
End Service.

Section rpcs.
Context `{!Tonic} {W : Type}.

(** The server trait, implemented from the service trait. *)
Definition server (self : Service.t W) : Stub.t W := {|
  Stub.create_results_meta_data := unary self.(Service.create_results_metadata W);
  Stub.create_results := unary self.(Service.create_results W);
  Stub.notify_result_data := unary self.(Service.notify_result_data W);
  Stub.submit_tasks := unary self.(Service.submit_tasks W);
  Stub.get_resource_data := unary self.(Service.get_resource_data W);
  Stub.get_common_data := unary self.(Service.get_common_data W);
  Stub.get_direct_data := unary self.(Service.get_direct_data W);
  Stub.create_task := stream_client self.(Service.create_tasks W) |}.

Record Client : Type := {
  inner : ClientStub.t W
}.

(** The generated client over a channel is its methods. *)
Definition with_channel (channel : ClientStub.t W) : Client := {| inner := channel |}.

#[global] Instance call_create_results_metadata : GrpcCall W Client Agent.create_results_metadata.Request.t Agent.create_results_metadata.Response.t := λ self request,
  unary_call self.(inner).(ClientStub.create_results_meta_data W) request.

#[global] Instance call_create_results : GrpcCall W Client Agent.create_results.Request.t Agent.create_results.Response.t := λ self request,
  unary_call self.(inner).(ClientStub.create_results W) request.

#[global] Instance call_notify_result_data : GrpcCall W Client Agent.notify_result_data.Request.t Agent.notify_result_data.Response.t := λ self request,
  unary_call self.(inner).(ClientStub.notify_result_data W) request.

#[global] Instance call_submit_tasks : GrpcCall W Client Agent.submit_tasks.Request.t Agent.submit_tasks.Response.t := λ self request,
  unary_call self.(inner).(ClientStub.submit_tasks W) request.

#[global] Instance call_get_resource_data : GrpcCall W Client Agent.get_resource_data.Request.t Agent.get_resource_data.Response.t := λ self request,
  unary_call self.(inner).(ClientStub.get_resource_data W) request.

#[global] Instance call_get_common_data : GrpcCall W Client Agent.get_common_data.Request.t Agent.get_common_data.Response.t := λ self request,
  unary_call self.(inner).(ClientStub.get_common_data W) request.

#[global] Instance call_get_direct_data : GrpcCall W Client Agent.get_direct_data.Request.t Agent.get_direct_data.Response.t := λ self request,
  unary_call self.(inner).(ClientStub.get_direct_data W) request.

#[global] Instance call_create_tasks : GrpcCall W Client (stream W Agent.create_tasks.Request.t) Agent.create_tasks.Response.t := λ self request,
  stream_client_call self.(inner).(ClientStub.create_task W) request.

Definition create_results_metadata (self : Client) (token session_id : string) (names : list string) : fallible W RequestError ((list Agent.ResultMetaData.t)) :=
  response ← call self {|
    Agent.create_results_metadata.Request.communication_token := token;
    Agent.create_results_metadata.Request.results := map (λ name, Agent.create_results_metadata.RequestItem_from (from name : string)) names;
    Agent.create_results_metadata.Request.session_id := session_id |};
  mret response.(Agent.create_results_metadata.Response.results).

Definition create_results (self : Client) (token session_id : string)
    (results : list (string * list byte)) : fallible W RequestError ((list Agent.ResultMetaData.t)) :=
  response ← call self {|
    Agent.create_results.Request.communication_token := token;
    Agent.create_results.Request.results := map (λ '(name, data), from (from name : string, from data : list byte)) results;
    Agent.create_results.Request.session_id := session_id |};
  mret response.(Agent.create_results.Response.results).

Definition notify_result_data (self : Client) (token session_id : string) (result_ids : list string) : fallible W RequestError ((list string)) :=
  response ← call self {|
    Agent.notify_result_data.Request.communication_token := token;
    Agent.notify_result_data.Request.session_id := session_id;
    Agent.notify_result_data.Request.result_ids := map from result_ids |};
  mret response.(Agent.notify_result_data.Response.result_ids).

Definition submit_tasks (self : Client) (token session_id : string)
    (task_options : option TaskOptions.t) (items : list Agent.submit_tasks.RequestItem.t) : fallible W RequestError ((list Agent.submit_tasks.ResponseItem.t)) :=
  response ← call self {|
    Agent.submit_tasks.Request.communication_token := token;
    Agent.submit_tasks.Request.session_id := session_id;
    Agent.submit_tasks.Request.task_options := task_options;
    Agent.submit_tasks.Request.items := map from items |};
  mret response.(Agent.submit_tasks.Response.items).

Definition create_tasks (self : Client) (request : stream W Agent.create_tasks.Request.t) : fallible W RequestError ((list Agent.create_tasks.Status.t)) :=
  response ← call self request;
  match response with
  | Agent.create_tasks.Response.Status _ statuses => mret statuses
  | Agent.create_tasks.Response.Error _ error => fail_with (Grpc (Status_internal error))
  end.

End rpcs.
#[export] Hint Unfold call_create_results_metadata call_create_results call_notify_result_data call_submit_tasks call_get_resource_data call_get_common_data call_get_direct_data call_create_tasks create_results_metadata create_results notify_result_data submit_tasks create_tasks : rpc.

Lemma create_tasks_answers `{!Tonic} {W} (service : Service.t W) client requests :
  connected client (server service) →
  answers (create_tasks (with_channel client) requests)
    (λ context,
       response ← service.(Service.create_tasks W) (stream_map Ok requests) context;
       match response with
       | Agent.create_tasks.Response.Status _ statuses => mret statuses
       | Agent.create_tasks.Response.Error _ error => fail_with (Status_internal error)
       end).
Proof.
  unfold connected. intros. destruct_and!. autounfold with rpc. apply answers_bind.
  - by apply stream_client_call_answers.
  - by intros [] w.
Qed.

(** C10: The same for every method of the Agent client, which is the one the worker uses.
    Notifying no result drops the session; an error in the answer of [create_tasks]
    comes back as an internal status. *)
Theorem agent_end_to_end `{!Tonic} {W} (service : Service.t W) (client : ClientStub.t W) :
  connected client (server service) →
  (∀ token session_id names, answers (create_results_metadata (with_channel client) token session_id names)
     (λ context, Agent.create_results_metadata.Response.results <$> service.(Service.create_results_metadata W) {|
    Agent.create_results_metadata.Request.communication_token := token;
    Agent.create_results_metadata.Request.results := map Agent.create_results_metadata.RequestItem.mk names;
    Agent.create_results_metadata.Request.session_id := session_id |} context)) ∧
  (∀ token session_id results, answers (create_results (with_channel client) token session_id results)
     (λ context, Agent.create_results.Response.results <$> service.(Service.create_results W) {|
    Agent.create_results.Request.communication_token := token;
    Agent.create_results.Request.results := map (λ '(name, data), Agent.create_results.RequestItem.mk name data) results;
    Agent.create_results.Request.session_id := session_id |} context)) ∧
  (∀ token session_id result_ids,
     answers (notify_result_data (with_channel client) token session_id result_ids)
     (λ context, Agent.notify_result_data.Response.result_ids <$>
        service.(Service.notify_result_data W) (Agent.notify_result_data.Request.normalise {|
    Agent.notify_result_data.Request.communication_token := token;
    Agent.notify_result_data.Request.session_id := session_id;
    Agent.notify_result_data.Request.result_ids := result_ids |}) context)) ∧
  (∀ token session_id task_options items, answers (submit_tasks (with_channel client) token session_id task_options items)
     (λ context, Agent.submit_tasks.Response.items <$> service.(Service.submit_tasks W) {|
    Agent.submit_tasks.Request.communication_token := token;
    Agent.submit_tasks.Request.session_id := session_id;
    Agent.submit_tasks.Request.task_options := task_options;
    Agent.submit_tasks.Request.items := items |} context)) ∧
  (∀ requests, answers (create_tasks (with_channel client) requests)
     (λ context,
        response ← service.(Service.create_tasks W) (stream_map Ok requests) context;
        match response with
        | Agent.create_tasks.Response.Status _ statuses => mret statuses
        | Agent.create_tasks.Response.Error _ error => fail_with (Status_internal error)
        end)) ∧
  (∀ request : Agent.get_resource_data.Request.t, answers (call (with_channel client) request)
     (service.(Service.get_resource_data W) request)) ∧
  (∀ request : Agent.get_common_data.Request.t, answers (call (with_channel client) request)
     (service.(Service.get_common_data W) request)) ∧
  (∀ request : Agent.get_direct_data.Request.t, answers (call (with_channel client) request)
     (service.(Service.get_direct_data W) request)).
Proof. 
  intros Hc. pose proof Hc as Hall. unfold connected in Hall. destruct_and!.
  split_and!; try solve_answers.
  - solve_answers_decoded Agent.notify_result_data.Request.notify_request_v3_normalises.
  - intros. by apply create_tasks_answers.
 Qed.
