(* ===== verification/SubmitterRpc.v ===== *)
(** The Submitter service, both sides: [client/submitter.rs] and [server/submitter.rs]. *)

From S2P Require Import Prelude V3 Objects Filters Submitter Rpc.

(** The methods of the generated client and of the generated server trait
    ([submitter_service.proto], service [Submitter]). *)
Module Stub.
Section stub.
Context `{!Tonic} (W : Type).
Record t : Type := mk {
  get_service_configuration : rpc W V3.Empty.t V3.Configuration.t;
  create_session : rpc W V3.submitter.CreateSessionRequest.t V3.submitter.CreateSessionReply.t;
  cancel_session : rpc W V3.Session.t V3.Empty.t;
  create_small_tasks : rpc W V3.submitter.CreateSmallTaskRequest.t V3.submitter.CreateTaskReply.t;
  list_tasks : rpc W V3.submitter.TaskFilter.t V3.TaskIdList.t;
  list_sessions : rpc W V3.submitter.SessionFilter.t V3.submitter.SessionIdList.t;
  count_tasks : rpc W V3.submitter.TaskFilter.t V3.Count.t;
  try_get_task_output : rpc W V3.TaskOutputRequest.t V3.Output.t;
  wait_for_availability : rpc W V3.ResultRequest.t V3.submitter.AvailabilityReply.t;
  wait_for_completion : rpc W V3.submitter.WaitRequest.t V3.Count.t;
  cancel_tasks : rpc W V3.submitter.TaskFilter.t V3.Empty.t;
  get_task_status : rpc W V3.submitter.GetTaskStatusRequest.t V3.submitter.GetTaskStatusReply.t;
  get_result_status : rpc W V3.submitter.GetResultStatusRequest.t V3.submitter.GetResultStatusReply.t;
  create_large_tasks : rpc W (stream W (result Status V3.submitter.CreateLargeTaskRequest.t)) V3.submitter.CreateTaskReply.t;
  try_get_result_stream : rpc W V3.ResultRequest.t (stream W (result Status V3.submitter.ResultReply.t));
  watch_results : rpc W (stream W (result Status V3.submitter.WatchResultRequest.t)) (stream W (result Status V3.submitter.WatchResultStream.t))
}.
End stub.
End Stub.

(** The same on the client side, where a stream of requests has no errors. *)
Module ClientStub.
Section stub.
Context `{!Tonic} (W : Type).
Record t : Type := mk {
  get_service_configuration : rpc W V3.Empty.t V3.Configuration.t;
  create_session : rpc W V3.submitter.CreateSessionRequest.t V3.submitter.CreateSessionReply.t;
  cancel_session : rpc W V3.Session.t V3.Empty.t;
  create_small_tasks : rpc W V3.submitter.CreateSmallTaskRequest.t V3.submitter.CreateTaskReply.t;
  list_tasks : rpc W V3.submitter.TaskFilter.t V3.TaskIdList.t;
  list_sessions : rpc W V3.submitter.SessionFilter.t V3.submitter.SessionIdList.t;
  count_tasks : rpc W V3.submitter.TaskFilter.t V3.Count.t;
  try_get_task_output : rpc W V3.TaskOutputRequest.t V3.Output.t;
  wait_for_availability : rpc W V3.ResultRequest.t V3.submitter.AvailabilityReply.t;
  wait_for_completion : rpc W V3.submitter.WaitRequest.t V3.Count.t;
  cancel_tasks : rpc W V3.submitter.TaskFilter.t V3.Empty.t;
  get_task_status : rpc W V3.submitter.GetTaskStatusRequest.t V3.submitter.GetTaskStatusReply.t;
  get_result_status : rpc W V3.submitter.GetResultStatusRequest.t V3.submitter.GetResultStatusReply.t;
  create_large_tasks : rpc W (stream W V3.submitter.CreateLargeTaskRequest.t) V3.submitter.CreateTaskReply.t;
  try_get_result_stream : rpc W V3.ResultRequest.t (stream W (result Status V3.submitter.ResultReply.t))
}.
End stub.
End ClientStub.

(** The client reaches the server through a channel. *)
Definition connected `{!Tonic} {W} (client : ClientStub.t W) (server : Stub.t W) : Prop :=
  delivers client.(ClientStub.get_service_configuration W) server.(Stub.get_service_configuration W) ∧
  delivers client.(ClientStub.create_session W) server.(Stub.create_session W) ∧
  delivers client.(ClientStub.cancel_session W) server.(Stub.cancel_session W) ∧
  delivers client.(ClientStub.create_small_tasks W) server.(Stub.create_small_tasks W) ∧
  delivers client.(ClientStub.list_tasks W) server.(Stub.list_tasks W) ∧
  delivers client.(ClientStub.list_sessions W) server.(Stub.list_sessions W) ∧
  delivers client.(ClientStub.count_tasks W) server.(Stub.count_tasks W) ∧
  delivers client.(ClientStub.try_get_task_output W) server.(Stub.try_get_task_output W) ∧
  delivers client.(ClientStub.wait_for_availability W) server.(Stub.wait_for_availability W) ∧
  delivers client.(ClientStub.wait_for_completion W) server.(Stub.wait_for_completion W) ∧
  delivers client.(ClientStub.cancel_tasks W) server.(Stub.cancel_tasks W) ∧
  delivers client.(ClientStub.get_task_status W) server.(Stub.get_task_status W) ∧
  delivers client.(ClientStub.get_result_status W) server.(Stub.get_result_status W) ∧
  delivers_stream client.(ClientStub.create_large_tasks W) server.(Stub.create_large_tasks W) ∧
  delivers_items client.(ClientStub.try_get_result_stream W) server.(Stub.try_get_result_stream W).

(** The trait a server implements. *)
Module Service.
Section service.
Context `{!Tonic} (W : Type).
Record t : Type := mk {
  get_service_configuration : method W Submitter.get_service_configuration.Request.t Submitter.get_service_configuration.Response.t;
  create_session : method W Submitter.create_session.Request.t Submitter.create_session.Response.t;
  cancel_session : method W Submitter.cancel_session.Request.t Submitter.cancel_session.Response.t;
  list_tasks : method W Submitter.list_tasks.Request.t Submitter.list_tasks.Response.t;
  list_sessions : method W Submitter.list_sessions.Request.t Submitter.list_sessions.Response.t;
  count_tasks : method W Submitter.count_tasks.Request.t Submitter.count_tasks.Response.t;
  try_get_task_output : method W Submitter.try_get_task_output.Request.t Submitter.try_get_task_output.Response.t;
  wait_for_availability : method W Submitter.wait_for_availability.Request.t Submitter.wait_for_availability.Response.t;
  wait_for_completion : method W Submitter.wait_for_completion.Request.t Submitter.wait_for_completion.Response.t;
  cancel_tasks : method W Submitter.cancel_tasks.Request.t Submitter.cancel_tasks.Response.t;
  task_status : method W Submitter.task_status.Request.t Submitter.task_status.Response.t;
  result_status : method W Submitter.result_status.Request.t Submitter.result_status.Response.t;
  try_get_result : method W Submitter.try_get_result.Request.t (stream W (result Status Submitter.try_get_result.Response.t));
  create_small_tasks : method W Submitter.create_tasks.SmallRequest.t Submitter.create_tasks.Response.t;
  create_large_tasks : method W (stream W (result Status Submitter.create_tasks.LargeRequest.t)) Submitter.create_tasks.Response.t
}.
End service.
End Service.

Section rpcs.
Context `{!Tonic} `{!HashMapIter} {W : Type}.

(** The server trait, implemented from the service trait. *)
Definition server (self : Service.t W) : Stub.t W := {|
  Stub.get_service_configuration := unary self.(Service.get_service_configuration W);
  Stub.create_session := unary self.(Service.create_session W);
  Stub.cancel_session := unary self.(Service.cancel_session W);
  Stub.create_small_tasks := unary self.(Service.create_small_tasks W);
  Stub.list_tasks := unary self.(Service.list_tasks W);
  Stub.list_sessions := unary self.(Service.list_sessions W);
  Stub.count_tasks := unary self.(Service.count_tasks W);
  Stub.try_get_task_output := unary self.(Service.try_get_task_output W);
  Stub.wait_for_availability := unary self.(Service.wait_for_availability W);
  Stub.wait_for_completion := unary self.(Service.wait_for_completion W);
  Stub.cancel_tasks := unary self.(Service.cancel_tasks W);
  Stub.get_task_status := unary self.(Service.task_status W);
  Stub.get_result_status := unary self.(Service.result_status W);
  Stub.create_large_tasks := stream_client self.(Service.create_large_tasks W);
  Stub.try_get_result_stream := stream_server self.(Service.try_get_result W);
  Stub.watch_results := λ _ w,
    (Err (Status_unimplemented "Submitter::WatchResults is not implemented"), w) |}.

Record Client : Type := {
  inner : ClientStub.t W
}.

(** The generated client over a channel is its methods. *)
Definition with_channel (channel : ClientStub.t W) : Client := {| inner := channel |}.

#[global] Instance call_get_service_configuration : GrpcCall W Client Submitter.get_service_configuration.Request.t Submitter.get_service_configuration.Response.t := λ self request,
  unary_call self.(inner).(ClientStub.get_service_configuration W) request.

#[global] Instance call_create_session : GrpcCall W Client Submitter.create_session.Request.t Submitter.create_session.Response.t := λ self request,
  unary_call self.(inner).(ClientStub.create_session W) request.

#[global] Instance call_cancel_session : GrpcCall W Client Submitter.cancel_session.Request.t Submitter.cancel_session.Response.t := λ self request,
  unary_call self.(inner).(ClientStub.cancel_session W) request.

#[global] Instance call_create_small_tasks : GrpcCall W Client Submitter.create_tasks.SmallRequest.t Submitter.create_tasks.Response.t := λ self request,
  unary_call self.(inner).(ClientStub.create_small_tasks W) request.

#[global] Instance call_list_tasks : GrpcCall W Client Submitter.list_tasks.Request.t Submitter.list_tasks.Response.t := λ self request,
  unary_call self.(inner).(ClientStub.list_tasks W) request.

#[global] Instance call_list_sessions : GrpcCall W Client Submitter.list_sessions.Request.t Submitter.list_sessions.Response.t := λ self request,
  unary_call self.(inner).(ClientStub.list_sessions W) request.

#[global] Instance call_count_tasks : GrpcCall W Client Submitter.count_tasks.Request.t Submitter.count_tasks.Response.t := λ self request,
  unary_call self.(inner).(ClientStub.count_tasks W) request.

#[global] Instance call_try_get_result : GrpcCall W Client Submitter.try_get_result.Request.t (stream W (result Status Submitter.try_get_result.Response.t)) := λ self request,
  stream_server_call from id self.(inner).(ClientStub.try_get_result_stream W) request.

#[global] Instance call_try_get_task_output : GrpcCall W Client Submitter.try_get_task_output.Request.t Submitter.try_get_task_output.Response.t := λ self request,
  unary_call self.(inner).(ClientStub.try_get_task_output W) request.

#[global] Instance call_wait_for_availability : GrpcCall W Client Submitter.wait_for_availability.Request.t Submitter.wait_for_availability.Response.t := λ self request,
  unary_call self.(inner).(ClientStub.wait_for_availability W) request.

#[global] Instance call_wait_for_completion : GrpcCall W Client Submitter.wait_for_completion.Request.t Submitter.wait_for_completion.Response.t := λ self request,
  unary_call self.(inner).(ClientStub.wait_for_completion W) request.

#[global] Instance call_cancel_tasks : GrpcCall W Client Submitter.cancel_tasks.Request.t Submitter.cancel_tasks.Response.t := λ self request,
  unary_call self.(inner).(ClientStub.cancel_tasks W) request.

#[global] Instance call_task_status : GrpcCall W Client Submitter.task_status.Request.t Submitter.task_status.Response.t := λ self request,
  unary_call self.(inner).(ClientStub.get_task_status W) request.

#[global] Instance call_result_status : GrpcCall W Client Submitter.result_status.Request.t Submitter.result_status.Response.t := λ self request,
  unary_call self.(inner).(ClientStub.get_result_status W) request.

#[global] Instance call_create_large_tasks : GrpcCall W Client (stream W Submitter.create_tasks.LargeRequest.t) Submitter.create_tasks.Response.t := λ self request,
  stream_client_call self.(inner).(ClientStub.create_large_tasks W) request.

Definition get_service_configuration (self : Client) : fallible W RequestError Submitter.get_service_configuration.Response.t :=
  call self Submitter.get_service_configuration.Request.mk.

Definition create_session (self : Client) (partitions : list string) (default_task_options : TaskOptions.t) : fallible W RequestError string :=
  response ← call self {|
    Submitter.create_session.Request.default_task_options := default_task_options;
    Submitter.create_session.Request.partition_ids := map from partitions |};
  mret response.(Submitter.create_session.Response.session_id).

Definition cancel_session (self : Client) (session_id : string) : fallible W RequestError unit :=
  _ ← call self {|
    Submitter.cancel_session.Request.session_id := session_id |};
  mret tt.

Definition create_small_tasks (self : Client) (session_id : string) (task_options : option TaskOptions.t)
    (tasks : list TaskRequest.t) : fallible W RequestError ((list Submitter.create_tasks.Status.t)) :=
  response ← call self {|
    Submitter.create_tasks.SmallRequest.session_id := session_id;
    Submitter.create_tasks.SmallRequest.task_options := task_options;
    Submitter.create_tasks.SmallRequest.task_requests := map from tasks |};
  match response with
  | Submitter.create_tasks.Response.Status statuses => mret statuses
  | Submitter.create_tasks.Response.Error msg => fail_with (Grpc (Status_internal msg))
  end.

Definition create_large_tasks (self : Client) (request : stream W Submitter.create_tasks.LargeRequest.t) : fallible W RequestError ((list Submitter.create_tasks.Status.t)) :=
  response ← call self request;
  match response with
  | Submitter.create_tasks.Response.Status statuses => mret statuses
  | Submitter.create_tasks.Response.Error msg => fail_with (Grpc (Status_internal msg))
  end.

Definition list_tasks (self : Client) (filter : Submitter.TaskFilter.t) : fallible W RequestError ((list string)) :=
  response ← call self {|
    Submitter.list_tasks.Request.filter := filter |};
  mret response.(Submitter.list_tasks.Response.task_ids).

Definition list_sessions (self : Client) (filter : Submitter.SessionFilter.t) : fallible W RequestError ((list string)) :=
  response ← call self {|
    Submitter.list_sessions.Request.filter := filter |};
  mret response.(Submitter.list_sessions.Response.session_ids).

Definition count_tasks (self : Client) (filter : Submitter.TaskFilter.t) : fallible W RequestError ((gmap TaskStatus.t Z)) :=
  response ← call self {|
    Submitter.count_tasks.Request.filter := filter |};
  mret response.(Count.values).

Definition try_get_result (self : Client) (session_id result_id : string) : fallible W RequestError ((stream W (result RequestError Submitter.try_get_result.Response.t))) :=
  stream_server_call from Grpc self.(inner).(ClientStub.try_get_result_stream W) {|
    Submitter.try_get_result.Request.session_id := session_id;
    Submitter.try_get_result.Request.result_id := result_id |}.

Definition try_get_task_output (self : Client) (session_id task_id : string) : fallible W RequestError unit :=
  response ← call self {|
    Submitter.try_get_task_output.Request.session_id := session_id;
    Submitter.try_get_task_output.Request.task_id := task_id |};
  match response with
  | Output.Ok => mret tt
  | Output.Error details => fail_with (Grpc (Status_internal details))
  end.

Definition wait_for_availability (self : Client) (session_id result_id : string) : fallible W RequestError Submitter.wait_for_availability.Response.t :=
  call self {|
    Submitter.wait_for_availability.Request.session_id := session_id;
    Submitter.wait_for_availability.Request.result_id := result_id |}.

Definition wait_for_completion (self : Client) (filter : Submitter.TaskFilter.t)
    (stop_on_first_task_error stop_on_first_task_cancellation : bool) : fallible W RequestError ((gmap TaskStatus.t Z)) :=
  response ← call self {|
    Submitter.wait_for_completion.Request.filter := filter;
    Submitter.wait_for_completion.Request.stop_on_first_task_error := stop_on_first_task_error;
    Submitter.wait_for_completion.Request.stop_on_first_task_cancellation := stop_on_first_task_cancellation |};
  mret response.(Count.values).

Definition cancel_tasks (self : Client) (filter : Submitter.TaskFilter.t) : fallible W RequestError unit :=
  _ ← call self {|
    Submitter.cancel_tasks.Request.filter := filter |};
  mret tt.

Definition task_status (self : Client) (task_ids : list string) : fallible W RequestError ((gmap string TaskStatus.t)) :=
  response ← call self {|
    Submitter.task_status.Request.task_ids := map from task_ids |};
  mret response.(Submitter.task_status.Response.statuses).

Definition result_status (self : Client) (session_id : string) (result_ids : list string) : fallible W RequestError ((gmap string ResultStatus.t)) :=
  response ← call self {|
    Submitter.result_status.Request.session_id := session_id;
    Submitter.result_status.Request.result_ids := map from result_ids |};
  mret response.(Submitter.result_status.Response.statuses).

End rpcs.
#[export] Hint Unfold call_get_service_configuration call_create_session call_cancel_session call_create_small_tasks call_list_tasks call_list_sessions call_count_tasks call_try_get_result call_try_get_task_output call_wait_for_availability call_wait_for_completion call_cancel_tasks call_task_status call_result_status call_create_large_tasks get_service_configuration create_session cancel_session create_small_tasks create_large_tasks list_tasks list_sessions count_tasks try_get_result try_get_task_output wait_for_availability wait_for_completion cancel_tasks task_status result_status : rpc.

Lemma try_get_result_answers `{!Tonic} `{!HashMapIter} {W} (service : Service.t W) client
    session_id result_id :
  connected client (server service) →
  answers (try_get_result (with_channel client) session_id result_id)
    (λ context, stream_map (map_err Grpc) ∘ until_error <$> service.(Service.try_get_result W) {|
       Submitter.try_get_result.Request.session_id := session_id;
       Submitter.try_get_result.Request.result_id := result_id |} context).
Proof.
  unfold connected. intros. destruct_and!. autounfold with rpc.
  apply stream_server_call_answers_id; [apply roundtrip|done].
Qed.

Lemma create_large_tasks_answers `{!Tonic} `{!HashMapIter} {W} (service : Service.t W) client
    requests :
  connected client (server service) →
  answers (create_large_tasks (with_channel client) requests)
    (λ context,
       response ← service.(Service.create_large_tasks W) (stream_map Ok requests) context;
       match response with
       | Submitter.create_tasks.Response.Status statuses => mret statuses
       | Submitter.create_tasks.Response.Error msg => fail_with (Status_internal msg)
       end).
Proof.
  unfold connected. intros. destruct_and!. autounfold with rpc.
  apply answers_bind; [by apply stream_client_call_answers|by intros [] w].
Qed.

(** C8: The same for the methods of the Submitter client that take no filter; an error in
    the answer of a creation, or an erroneous output, comes back as an internal status;
    the chunks of a result come in order, up to its first error. *)
Theorem submitter_end_to_end `{!Tonic} `{!HashMapIter} {W} (service : Service.t W) (client : ClientStub.t W) :
  connected client (server service) →
  (answers (get_service_configuration (with_channel client))
     (λ context, service.(Service.get_service_configuration W) Submitter.get_service_configuration.Request.mk context)) ∧
  (∀ partitions default_task_options, answers (create_session (with_channel client) partitions default_task_options)
     (λ context, Submitter.create_session.Response.session_id <$> service.(Service.create_session W) {|
    Submitter.create_session.Request.default_task_options := default_task_options;
    Submitter.create_session.Request.partition_ids := partitions |} context)) ∧
  (∀ session_id, answers (cancel_session (with_channel client) session_id)
     (λ context, (λ _, tt) <$> service.(Service.cancel_session W) {|
    Submitter.cancel_session.Request.session_id := session_id |} context)) ∧
  (∀ session_id task_options tasks,
     answers (create_small_tasks (with_channel client) session_id task_options tasks)
     (λ context,
        response ← service.(Service.create_small_tasks W) {|
    Submitter.create_tasks.SmallRequest.session_id := session_id;
    Submitter.create_tasks.SmallRequest.task_options := task_options;
    Submitter.create_tasks.SmallRequest.task_requests := tasks |} context;
        match response with
        | Submitter.create_tasks.Response.Status statuses => mret statuses
        | Submitter.create_tasks.Response.Error msg => fail_with (Status_internal msg)
        end)) ∧
  (∀ requests, answers (create_large_tasks (with_channel client) requests)
     (λ context,
        response ← service.(Service.create_large_tasks W) (stream_map Ok requests) context;
        match response with
        | Submitter.create_tasks.Response.Status statuses => mret statuses
        | Submitter.create_tasks.Response.Error msg => fail_with (Status_internal msg)
        end)) ∧
  (∀ session_id result_id,
     answers (try_get_result (with_channel client) session_id result_id)
     (λ context, stream_map (map_err Grpc) ∘ until_error <$> service.(Service.try_get_result W) {|
    Submitter.try_get_result.Request.session_id := session_id;
    Submitter.try_get_result.Request.result_id := result_id |} context)) ∧
  (∀ session_id task_id,
     answers (try_get_task_output (with_channel client) session_id task_id)
     (λ context,
        output ← service.(Service.try_get_task_output W) {|
    Submitter.try_get_task_output.Request.session_id := session_id;
    Submitter.try_get_task_output.Request.task_id := task_id |} context;
        match output with
        | Output.Ok => mret tt
        | Output.Error details => fail_with (Status_internal details)
        end)) ∧
  (∀ session_id result_id, answers (wait_for_availability (with_channel client) session_id result_id)
     (λ context, service.(Service.wait_for_availability W) {|
    Submitter.wait_for_availability.Request.session_id := session_id;
    Submitter.wait_for_availability.Request.result_id := result_id |} context)) ∧
  (∀ task_ids, answers (task_status (with_channel client) task_ids)
     (λ context, Submitter.task_status.Response.statuses <$> service.(Service.task_status W) {|
    Submitter.task_status.Request.task_ids := task_ids |} context)) ∧
  (∀ session_id result_ids, answers (result_status (with_channel client) session_id result_ids)
     (λ context, Submitter.result_status.Response.statuses <$> service.(Service.result_status W) {|
    Submitter.result_status.Request.session_id := session_id;
    Submitter.result_status.Request.result_ids := result_ids |} context)) ∧
  (∀ request : Submitter.try_get_result.Request.t, answers (call (with_channel client) request)
     (λ context, until_error <$> service.(Service.try_get_result W) request context)).
Proof. 
  intros Hc. pose proof Hc as Hall. unfold connected in Hall. destruct_and!.
  split_and!; try solve_answers.
  - intros. autounfold with rpc. rewrite map_from_refl.
    apply answers_bind; [by apply call_answers|by intros [] w].
  - intros. by apply create_large_tasks_answers.
  - intros. by apply try_get_result_answers.
  - intros. autounfold with rpc. apply answers_bind; [by apply call_answers|by intros [] w].
  - intros. autounfold with rpc.
    eapply answers_equiv;
      [|apply (stream_server_call_answers_id _ id _ service.(Service.try_get_result W));
        [apply roundtrip|done]].
    intros context w. unfold fmap, fallible_fmap.
    destruct (service.(Service.try_get_result W) request context w) as [[s|e] w']; cbn; [|done].
    rewrite stream_map_id; [done|]. by intros [].
 Qed.

(** C9: The methods of the Submitter client that take a filter run the service on the
    complementary filter: the statuses the caller includes are the ones the service
    is asked to exclude, and the other way around. *)
Theorem submitter_filters_inverted `{!Tonic} `{!HashMapIter} {W} (service : Service.t W)
    (client : ClientStub.t W) :
  connected client (server service) →
  (∀ filter, answers (list_tasks (with_channel client) filter)
     (λ context, Submitter.list_tasks.Response.task_ids <$> service.(Service.list_tasks W) {|
        Submitter.list_tasks.Request.filter := Submitter.TaskFilterLaw.complement filter |} context)) ∧
  (∀ filter, answers (list_sessions (with_channel client) filter)
     (λ context, Submitter.list_sessions.Response.session_ids <$> service.(Service.list_sessions W) {|
        Submitter.list_sessions.Request.filter := Submitter.SessionFilterLaw.complement filter |} context)) ∧
  (∀ filter, answers (count_tasks (with_channel client) filter)
     (λ context, Count.values <$> service.(Service.count_tasks W) {|
        Submitter.count_tasks.Request.filter := Submitter.TaskFilterLaw.complement filter |} context)) ∧
  (∀ filter, answers (cancel_tasks (with_channel client) filter)
     (λ context, (λ _, tt) <$> service.(Service.cancel_tasks W) {|
        Submitter.cancel_tasks.Request.filter := Submitter.TaskFilterLaw.complement filter |} context)) ∧
  (∀ filter stop_on_first_task_error stop_on_first_task_cancellation,
     answers (wait_for_completion (with_channel client) filter
                stop_on_first_task_error stop_on_first_task_cancellation)
     (λ context, Count.values <$> service.(Service.wait_for_completion W) {|
    Submitter.wait_for_completion.Request.filter := Submitter.TaskFilterLaw.complement filter;
    Submitter.wait_for_completion.Request.stop_on_first_task_error := stop_on_first_task_error;
    Submitter.wait_for_completion.Request.stop_on_first_task_cancellation := stop_on_first_task_cancellation |} context)).
Proof.
  unfold connected. intros. destruct_and!. split_and!.
  - solve_answers_decoded Submitter.list_tasks.Request.list_tasks_v3_inverts.
  - solve_answers_decoded Submitter.list_sessions.Request.list_sessions_v3_inverts.
  - solve_answers_decoded Submitter.count_tasks.Request.count_tasks_v3_inverts.
  - solve_answers_decoded Submitter.cancel_tasks.Request.cancel_tasks_v3_inverts.
  - solve_answers_decoded Submitter.wait_for_completion.wait_v3_inverts.
Qed.
