(* ===== verification/StreamLaws.v ===== *)
(** What the streaming methods of the clients do over time: the order of the messages of
    an upload, that what is sent arrives entirely, and that what is received ends when
    the service ends it. *)

From S2P Require Import Prelude V3 Objects Tasks Results Events Agent Submitter Rpc Streams.
From S2P Require Import EventsRpc ResultsRpc AgentRpc SubmitterRpc.

(** ** The protocol of uploads

    [results_common.proto] documents the messages of an upload: one [id], then the
    [data_chunk]s, none of which exceeds the size that [GetServiceConfiguration] answers. *)

Inductive upload_phase : Type :=
| AwaitingId
| AwaitingData.

(** A chunk within the limit, if there is one. *)
Definition fits (limit : option Z) (chunk : Datatypes.list byte) : Prop :=
  match limit with Some max => (Z.of_nat (length chunk) ≤ max)%Z | None => True end.

#[export] Instance fits_dec limit chunk : Decision (fits limit chunk).
Proof. unfold fits. destruct limit; apply _. Defined.

(** The phase after a message; [None] when the message is not one that is allowed. *)
Definition upload_next (limit : option Z) (phase : upload_phase)
    (message : V3.results.UploadResultDataRequest.t) : option upload_phase :=
  match phase, message.(V3.results.UploadResultDataRequest.type_) with
  | AwaitingId, Some (V3.results.upload_result_data_request.Type_.Id _) => Some AwaitingData
  | AwaitingData, Some (V3.results.upload_result_data_request.Type_.DataChunk chunk) =>
      if decide (fits limit chunk) then Some AwaitingData else None
  | _, _ => None
  end.

Fixpoint upload_run (limit : option Z) (phase : upload_phase)
    (messages : Datatypes.list V3.results.UploadResultDataRequest.t) : option upload_phase :=
  match messages with
  | [] => Some phase
  | message :: messages => phase ← upload_next limit phase message; upload_run limit phase messages
  end.

(** The messages of an upload, once [chunks] have been pulled from the data. *)
Definition sent (session_id result_id : string) (chunks : Datatypes.list (Datatypes.list byte))
    : Datatypes.list V3.results.UploadResultDataRequest.t :=
  from (Results.upload.Request.Identifier session_id result_id)
  :: map (λ chunk, from (Results.upload.Request.DataChunk chunk)) chunks.

Lemma chunk_next limit chunk :
  upload_next limit AwaitingData (from (Results.upload.Request.DataChunk chunk))
  = if decide (fits limit chunk) then Some AwaitingData else None.
Proof. done. Qed.

Lemma sent_accepted limit session_id result_id chunks :
  is_Some (upload_run limit AwaitingId (sent session_id result_id chunks)) ↔
  Forall (fits limit) chunks.
Proof.
  change (is_Some (upload_run limit AwaitingData
    (map (λ chunk, from (Results.upload.Request.DataChunk chunk)) chunks)) ↔
    Forall (fits limit) chunks).
  induction chunks as [|chunk chunks IH]; cbn [map upload_run]; [split; [done|by eexists]|].
  rewrite chunk_next, Forall_cons_iff, <-IH.
  destruct (decide (fits limit chunk)) as [Hf|Hf]; cbn [mbind option_bind].
  - split; [intros Hs; by split|by intros [_ Hs]].
  - split; [by intros [? ?]|by intros [? _]].
Qed.

Section upload.
Context {W : Type} (session_id result_id : string) (data : stream W (Datatypes.list byte)).
Implicit Types (w : W).

Lemma upload_request_yields w l :
  yields (upload_request session_id result_id data) w l ↔
  l = [] ∨ ∃ chunks, l = sent session_id result_id chunks ∧ yields data w chunks.
Proof.
  unfold yields, upload_request, start. cbn [stream_start stream_chain]. setoid_rewrite trace_chain.
  split.
  - intros (c & [(st & w' & -> & Ht)|(l1 & w1 & l2 & st & w' & -> & Hn & -> & Hd & Ht)]).
    + apply trace_iter in Ht as (Hl & [= -> ->] & Hlen). cbn in Hlen.
      destruct l as [|m [|m' l]]; cbn in Hl, Hlen; [by left| |lia].
      right. exists []. split; [by rewrite Hl|]. exists (start data w). constructor.
    + destruct (drains_det _ _ _ _ _ _ Hd (drains_iter _ w)) as [-> ->].
      apply trace_map in Ht as (chunks & -> & Ht). right.
      exists chunks. split; [done|by eexists].
  - intros [->|(chunks & -> & c & Ht)].
    + eexists. left. exists 0, w. split; [done|constructor].
    + destruct chunks as [|chunk chunks].
      * eexists. left. exists 1, w. split; [done|]. by apply trace_iter.
      * destruct c as [st w']. exists (inr st, w'). right. eexists [_], w, _, st, w'.
        split_and!; [done|done|done|apply drains_iter|]. apply trace_map. by exists (chunk :: chunks).
Qed.

Lemma upload_messages_drains w chunks w' :
  drains data (start data w) chunks w' →
  drains (upload_messages session_id result_id data) (start _ w)
    (Results.upload.Request.Identifier session_id result_id
     :: map Results.upload.Request.DataChunk chunks) w'.
Proof.
  intros Hd. apply drains_chain. eexists [_], w, _. split_and!; [done|apply drains_iter|].
  apply drains_map. by exists chunks.
Qed.
End upload.

(** C4: At any moment, an upload has sent nothing, or the identifier of its result and
    then, as chunks and in order, exactly what has been pulled from its data, which is
    neither checked nor split.  So the messages always come in the documented order (no
    limit), and they respect the documented limit on the size of the chunks exactly when
    the data of the caller does. *)
Theorem upload_follows_protocol {W} session_id result_id (data : stream W (Datatypes.list byte)) (w : W) :
  (∀ messages, yields (upload_request session_id result_id data) w messages ↔
     messages = [] ∨
     ∃ chunks, messages = sent session_id result_id chunks ∧ yields data w chunks) ∧
  (∀ messages, yields (upload_request session_id result_id data) w messages →
     is_Some (upload_run None AwaitingId messages)) ∧
  (∀ max,
     (∀ messages, yields (upload_request session_id result_id data) w messages →
        is_Some (upload_run (Some max) AwaitingId messages)) ↔
     (∀ chunks, yields data w chunks → Forall (fits (Some max)) chunks)).
Proof.
  split_and!.
  - intros messages. apply upload_request_yields.
  - intros messages [->|(chunks & -> & _)]%upload_request_yields; [by eexists|].
    apply sent_accepted. by induction chunks; constructor.
  - intros max. split.
    + intros Hall chunks Hd. apply (sent_accepted _ session_id result_id), Hall.
      apply upload_request_yields. eauto.
    + intros Hall messages [->|(chunks & -> & Hd)]%upload_request_yields; [by eexists|].
      by apply sent_accepted, Hall.
Qed.

(** ** What is sent arrives *)

Section sending.
Context `{!Tonic} {W : Type}.

(** A handler that pulls to the end the messages it is sent gets all of them. *)
Lemma pulling_messages {A B} n k (s : stream W A) l w w' context :
  drains s (start s w) l w' → length l < n →
  pulling (B:=B) n k (stream_map Ok s) context w = k (map Ok l) context w'.
Proof.
  intros Hd Hn. apply pulling_drains; [apply drains_map; by exists l|by rewrite length_map].
Qed.
End sending.

(** C5: What is sent arrives, as soon as it ends: over a channel that leads to a service
    that pulls the stream it is given to its end, an upload gives the service the
    identifier and every chunk, in order, and returns what the service then answers;
    the streams of task creation, of the Submitter and of the Agent, arrive entirely
    too. *)
Theorem streams_arrive `{!Tonic} `{!HashMapIter} {W} n (w w' : W) :
  (∀ (service : ResultsRpc.Service.t W) client k session_id result_id data chunks,
     ResultsRpc.connected client (ResultsRpc.server service) →
     service.(ResultsRpc.Service.upload W) = pulling n k →
     drains data (start data w) chunks w' → S (length chunks) < n →
     ∃ context,
       ResultsRpc.upload (ResultsRpc.with_channel client) session_id result_id data w
       = fallible_map_err Grpc (Results.upload.Response.result <$>
           k (map Ok (Results.upload.Request.Identifier session_id result_id
                      :: map Results.upload.Request.DataChunk chunks)) context) w') ∧
  (∀ (service : SubmitterRpc.Service.t W) client k requests l,
     SubmitterRpc.connected client (SubmitterRpc.server service) →
     service.(SubmitterRpc.Service.create_large_tasks W) = pulling n k →
     drains requests (start requests w) l w' → length l < n →
     ∃ context,
       SubmitterRpc.create_large_tasks (SubmitterRpc.with_channel client) requests w
       = fallible_map_err Grpc
           (response ← k (map Ok l) context;
            match response with
            | Submitter.create_tasks.Response.Status statuses => mret statuses
            | Submitter.create_tasks.Response.Error msg => fail_with (Status_internal msg)
            end) w') ∧
  (∀ (service : AgentRpc.Service.t W) client k requests l,
     AgentRpc.connected client (AgentRpc.server service) →
     service.(AgentRpc.Service.create_tasks W) = pulling n k →
     drains requests (start requests w) l w' → length l < n →
     ∃ context,
       AgentRpc.create_tasks (AgentRpc.with_channel client) requests w
       = fallible_map_err Grpc
           (response ← k (map Ok l) context;
            match response with
            | Agent.create_tasks.Response.Status _ statuses => mret statuses
            | Agent.create_tasks.Response.Error _ error => fail_with (Status_internal error)
            end) w').
Proof.
  split_and!.
  - intros service client k session_id result_id data chunks Hc Hs Hd Hn.
    destruct (ResultsRpc.upload_answers service client session_id result_id data Hc w)
      as [context ->].
    exists context. unfold fallible_map_err, fmap, fallible_fmap. rewrite Hs.
    by rewrite (pulling_messages n k _ _ _ _ _ (upload_messages_drains _ _ _ _ _ _ Hd))
      by (cbn; by rewrite length_map).
  - intros service client k requests l Hc Hs Hd Hn.
    destruct (SubmitterRpc.create_large_tasks_answers service client requests Hc w) as [context ->].
    exists context. unfold fallible_map_err, mbind, fallible_bind. rewrite Hs.
    by rewrite (pulling_messages n k _ _ _ _ _ Hd Hn).
  - intros service client k requests l Hc Hs Hd Hn.
    destruct (AgentRpc.create_tasks_answers service client requests Hc w) as [context ->].
    exists context. unfold fallible_map_err, mbind, fallible_bind. rewrite Hs.
    by rewrite (pulling_messages n k _ _ _ _ _ Hd Hn).
Qed.

(** ** What is received ends *)

(** C6: What is received ends when the service ends it: when the stream that the service
    answers yields some items and ends, or yields items of which the last one is an error,
    the stream of the client yields the same items in the same order (the bytes of the
    chunks for a download, the error wrapped), and ends.  Nothing is asked of what the
    service would yield after an error: it is never pulled. *)
Theorem received_streams_end `{!Tonic} `{!HashMapIter} {W} (w w' : W) :
  (∀ (service : ResultsRpc.Service.t W) client session_id result_id items,
     ResultsRpc.connected client (ResultsRpc.server service) →
     (∀ context, finishes_items (service.(ResultsRpc.Service.download W) {|
        Results.download.Request.session_id := session_id;
        Results.download.Request.result_id := result_id |} context) w items w') →
     answers_items (ResultsRpc.download (ResultsRpc.with_channel client) session_id result_id) w
       (map (λ item, map_err Grpc (Results.download.Response.data_chunk <$> item)) items) w') ∧
  (∀ (service : SubmitterRpc.Service.t W) client session_id result_id items,
     SubmitterRpc.connected client (SubmitterRpc.server service) →
     (∀ context, finishes_items (service.(SubmitterRpc.Service.try_get_result W) {|
        Submitter.try_get_result.Request.session_id := session_id;
        Submitter.try_get_result.Request.result_id := result_id |} context) w items w') →
     answers_items (SubmitterRpc.try_get_result (SubmitterRpc.with_channel client) session_id result_id) w
       (map (map_err Grpc) items) w') ∧
  (∀ (service : EventsRpc.Service.t W) client session_id task_filters result_filters events items,
     EventsRpc.connected client (EventsRpc.server service) →
     (∀ context, finishes_items (service.(EventsRpc.Service.subscribe W) {|
        Events.subscribe.Request.session_id := session_id;
        Events.subscribe.Request.task_filters := EventsRpc.collect_task_filters task_filters;
        Events.subscribe.Request.result_filters := EventsRpc.collect_result_filters result_filters;
        Events.subscribe.Request.returned_events := events |} context) w items w') →
     answers_items (EventsRpc.subscribe (EventsRpc.with_channel client)
                      session_id task_filters result_filters events) w
       (map (map_err Grpc) items) w').
Proof.
  split_and!; intros * Hc Hs;
    (eapply answers_items_answers;
     [first [by apply ResultsRpc.download_answers | by apply SubmitterRpc.try_get_result_answers
            | by apply EventsRpc.subscribe_answers]|]);
    intros context; apply finishes_items_answers, Hs.
Qed.
