(* ===== verification/Std.v ===== *)
(** What the configuration uses of the Rust standard library on strings:
    [str::split] by a character, [str::parse] to an unsigned integer of a given
    width, [Duration]. *)

From S2P Require Import Prelude.
From Stdlib Require Import Strings.Ascii.

(** ** [str::split] *)

#[local] Arguments Ascii.eqb : simpl never.

Lemma string_app_nil (b : string) : EmptyString +:+ b = b.
Proof. done. Qed.

Lemma string_app_cons c (a b : string) : String c a +:+ b = String c (a +:+ b).
Proof. done. Qed.

Section split.
Variable sep : ascii.

(** [s.split(sep).collect()]: one more part than there are separators. *)
Fixpoint split (s : string) : list string :=
  match s with
  | EmptyString => [EmptyString]
  | String c s =>
      if Ascii.eqb c sep then EmptyString :: split s
      else match split s with
           | [] => []
           | part :: parts => String c part :: parts
           end
  end.

Fixpoint join (parts : list string) : string :=
  match parts with
  | [] => EmptyString
  | [part] => part
  | part :: parts => part +:+ String sep (join parts)
  end.

Definition free (s : string) : Prop := ∀ a b, s ≠ a +:+ String sep b.

Lemma split_not_nil s : split s ≠ [].
Proof. induction s as [|c s IH]; cbn; [done|]. destruct (Ascii.eqb c sep), (split s); done. Qed.

Lemma free_nil : free EmptyString.
Proof. intros [|c a] b; rewrite ?string_app_nil, ?string_app_cons; done. Qed.

Lemma free_cons c s : c ≠ sep → free s → free (String c s).
Proof.
  intros Hc Hs [|c' a] b; rewrite ?string_app_nil, ?string_app_cons; intros [= -> ->]; [done|].
  by apply (Hs a b).
Qed.

Lemma free_inv c s : free (String c s) → c ≠ sep ∧ free s.
Proof.
  intros Hf. split.
  - intros ->. by apply (Hf EmptyString s).
  - intros a b ->. by apply (Hf (String c a) b).
Qed.

(** Splitting loses nothing, and no part has a separator. *)
Lemma join_split s : join (split s) = s.
Proof.
  induction s as [|c s IH]; cbn; [done|].
  destruct (Ascii.eqb_spec c sep) as [->|Hc]; pose proof (split_not_nil s) as Hn.
  - cbn. destruct (split s) eqn:Hs; [done|]. by rewrite IH, string_app_nil.
  - destruct (split s) as [|part parts] eqn:Hs; [done|].
    rewrite <-IH. by destruct parts; cbn; rewrite ?string_app_cons.
Qed.

Lemma split_free s : Forall free (split s).
Proof.
  induction s as [|c s IH]; cbn; [by repeat constructor; apply free_nil|].
  destruct (Ascii.eqb_spec c sep) as [->|Hc]; [constructor; [apply free_nil|done]|].
  destruct (split s) as [|part parts]; [done|].
  inv IH. constructor; [by apply free_cons|done].
Qed.

(** Parts without a separator are what splitting them gives back. *)
Lemma split_app_sep part s : free part → split (part +:+ String sep s) = part :: split s.
Proof.
  induction part as [|c part IH]; intros Hf; rewrite ?string_app_nil, ?string_app_cons; cbn.
  - by rewrite Ascii.eqb_refl.
  - apply free_inv in Hf as [Hc Hf]. apply Ascii.eqb_neq in Hc. by rewrite Hc, IH.
Qed.

Lemma split_free_self part : free part → split part = [part].
Proof.
  induction part as [|c part IH]; intros Hf; cbn; [done|].
  apply free_inv in Hf as [Hc Hf]. apply Ascii.eqb_neq in Hc. by rewrite Hc, IH.
Qed.

Lemma split_two s a b : split s = [a; b] ↔ s = a +:+ String sep b ∧ free a ∧ free b.
Proof.
  split.
  - intros Hs. split; [by rewrite <-(join_split s), Hs|].
    pose proof (split_free s) as Hf. rewrite Hs in Hf. by inv Hf; inv H2.
  - intros (-> & Ha & Hb). by rewrite split_app_sep, (split_free_self b).
Qed.
End split.

(** ** [str::parse::<uN>] *)

(** [std::num::IntErrorKind], the content of [ParseIntError]. *)
Inductive IntErrorKind : Type :=
| Empty
| InvalidDigit
| PosOverflow.

(** [char::to_digit(10)]. *)
Definition to_digit (c : ascii) : option Z :=
  let n := Z.of_N (N_of_ascii c) in
  if (48 <=? n)%Z && (n <=? 57)%Z then Some (n - 48)%Z else None.

Section parse_uint.
(** The largest value of the type. *)
Variable max : Z.

Definition checked (n : Z) : result IntErrorKind Z :=
  if (n <=? max)%Z then Ok n else Err PosOverflow.

(** The loop of [from_str_radix(_, 10)]: the digit is read before the
    multiplication is checked. *)
Fixpoint parse_digits (acc : Z) (s : string) : result IntErrorKind Z :=
  match s with
  | EmptyString => Ok acc
  | String c s =>
      match to_digit c with
      | None => Err InvalidDigit
      | Some x =>
          acc ← checked (acc * 10);
          acc ← checked (acc + x);
          parse_digits acc s
      end
  end.

Definition parse_uint (s : string) : result IntErrorKind Z :=
  match s with
  | EmptyString => Err Empty
  | String c EmptyString =>
      if Ascii.eqb c "+" || Ascii.eqb c "-" then Err InvalidDigit else parse_digits 0 s
  | String c rest => if Ascii.eqb c "+" then parse_digits 0 rest else parse_digits 0 s
  end.
End parse_uint.

Definition parse_u32 : string → result IntErrorKind Z := parse_uint (2 ^ 32 - 1).
Definition parse_u64 : string → result IntErrorKind Z := parse_uint (2 ^ 64 - 1).

(** The number a list of digits writes, most significant first. *)
Definition digits_value (ds : list Z) : Z := foldl (λ acc d, acc * 10 + d)%Z 0%Z ds.
Definition digit_char (d : Z) : ascii := ascii_of_N (Z.to_N (48 + d)).
Definition digits_string (ds : list Z) : string := foldr (λ d, String (digit_char d)) EmptyString ds.
Definition is_digit (d : Z) : Prop := (0 ≤ d ≤ 9)%Z.

Lemma to_digit_char d : is_digit d → to_digit (digit_char d) = Some d.
Proof.
  intros Hd. unfold to_digit, digit_char.
  rewrite N_ascii_embedding by (unfold is_digit in Hd; lia).
  rewrite Z2N.id by (unfold is_digit in Hd; lia).
  unfold is_digit in Hd. replace (48 <=? 48 + d)%Z with true by lia.
  replace (48 + d <=? 57)%Z with true by lia. cbn. f_equal. lia.
Qed.

Lemma digit_char_not_sign d : is_digit d → digit_char d ≠ "+"%char ∧ digit_char d ≠ "-"%char.
Proof.
  intros Hd. pose proof (to_digit_char d Hd) as Ht.
  split; intros Hs; rewrite Hs in Ht; discriminate.
Qed.

Lemma foldl_digits_ge ds acc :
  Forall is_digit ds → (0 ≤ acc)%Z → (acc ≤ foldl (λ a d, a * 10 + d)%Z acc ds)%Z.
Proof.
  revert acc. induction ds as [|d ds IH]; intros acc Hds Hacc; cbn; [lia|].
  inv Hds as [|? ? Hd Hds']. unfold is_digit in Hd.
  transitivity (acc * 10 + d)%Z; [lia|]. apply IH; [done|lia].
Qed.

Lemma parse_digits_value max ds acc :
  Forall is_digit ds → (0 ≤ acc ≤ max)%Z →
  parse_digits max acc (digits_string ds)
  = checked max (foldl (λ a d, a * 10 + d)%Z acc ds).
Proof.
  revert acc. induction ds as [|d ds IH]; intros acc Hds Hacc; cbn [digits_string foldr parse_digits].
  { unfold checked. cbn. by replace (acc <=? max)%Z with true by lia. }
  inv Hds as [|? ? Hd Hds']. rewrite to_digit_char by done.
  pose proof (foldl_digits_ge ds (acc * 10 + d) Hds') as Hge.
  unfold is_digit in Hd. cbn [foldl]. unfold checked at 1 2, mbind, result_bind.
  destruct (Z.leb_spec (acc * 10) max).
  - destruct (Z.leb_spec (acc * 10 + d) max).
    + apply IH; [done|lia].
    + unfold checked. by replace (_ <=? max)%Z with false by lia.
  - unfold checked. by replace (_ <=? max)%Z with false by lia.
Qed.

(** What a number written in digits, with or without a plus sign, is read as. *)
Lemma parse_uint_digits max ds :
  Forall is_digit ds → ds ≠ [] → (0 ≤ max)%Z →
  parse_uint max (digits_string ds) = checked max (digits_value ds) ∧
  parse_uint max (String "+" (digits_string ds)) = checked max (digits_value ds).
Proof.
  intros Hds Hn Hmax. unfold digits_value. rewrite <-parse_digits_value by (done || lia).
  destruct ds as [|d ds]; [done|]. pose proof Hds as Hds0; inv Hds0 as [|? ? Hd _].
  destruct (digit_char_not_sign d Hd) as [Hp Hm].
  apply Ascii.eqb_neq in Hp, Hm. split; [|done].
  cbn [digits_string foldr parse_uint]. fold (digits_string ds).
  rewrite Hp, Hm. by destruct (digits_string ds).
Qed.

Lemma parse_digits_bounds max acc s n :
  (0 ≤ acc ≤ max)%Z → parse_digits max acc s = Ok n → (0 ≤ n ≤ max)%Z.
Proof.
  revert acc. induction s as [|c s IH]; intros acc Hacc; cbn; [by intros [= <-]|].
  destruct (to_digit c) as [x|] eqn:Hx; [|done].
  assert (0 ≤ x)%Z.
  { unfold to_digit in Hx. case_match; [|done]. injection Hx as <-. lia. }
  unfold checked, mbind, result_bind.
  destruct (Z.leb_spec (acc * 10) max); [|done].
  destruct (Z.leb_spec (acc * 10 + x) max); [|done]. apply IH. lia.
Qed.

Lemma parse_uint_bounds max s n :
  (0 ≤ max)%Z → parse_uint max s = Ok n → (0 ≤ n ≤ max)%Z.
Proof.
  intros Hmax. unfold parse_uint. destruct s as [|c [|c' s]]; [done| |];
    repeat case_match; try done; apply parse_digits_bounds; lia.
Qed.

(** ** [std::time::Duration] *)

Record Duration : Type := {
  secs : Z;
  subsec_nanos : Z
}.

Definition from_secs (secs : Z) : Duration := {| secs := secs; subsec_nanos := 0 |}.
Definition is_zero (d : Duration) : bool := (d.(secs) =? 0)%Z && (d.(subsec_nanos) =? 0)%Z.
