(* ===== verification/Env.v ===== *)
(** Reading the environment ([armonik-transport/src/utils.rs]). *)

From S2P Require Import Prelude.

(** A value of the environment: text, or bytes that are not valid Unicode. *)
Inductive OsString : Type :=
| Unicode (value : string)
| NotUnicodeBytes (value : list byte).

Definition Environment : Type := gmap string OsString.

(** [std::env::VarError] and [std::env::var]. *)
Inductive VarError : Type :=
| NotPresent
| VarNotUnicode (value : list byte).

Definition var (env : Environment) (name : string) : result VarError string :=
  match env !! name with
  | Some (Unicode value) => Ok value
  | Some (NotUnicodeBytes value) => Err (VarNotUnicode value)
  | None => Err NotPresent
  end.

(** [ReadEnvError]; backtraces and locations are not part of the model. *)
Inductive ReadEnvError : Type :=
| NotUnicode (name : string) (value : list byte)
| NotBoolean (name value : string).

Definition read_env (env : Environment) (name : string) : result ReadEnvError string :=
  match var env name with
  | Ok value => Ok value
  | Err NotPresent => Ok EmptyString
  | Err (VarNotUnicode value) => Err (NotUnicode name value)
  end.

(** The spellings of the two booleans. *)
Definition spellings_of_false : list string :=
  ["0"; "false"; "no"; "disable"; "disallow"; "forbid"; EmptyString].
Definition spellings_of_true : list string :=
  ["1"; "true"; "yes"; "enable"; "allow"; "authorize"].

Definition read_env_bool (env : Environment) (name : string) : result ReadEnvError bool :=
  value ← read_env env name;
  if decide (value ∈ spellings_of_false) then Ok false
  else if decide (value ∈ spellings_of_true) then Ok true
  else Err (NotBoolean name value).

(** ** What can be read *)

Lemma read_env_absent env name : env !! name = None → read_env env name = Ok EmptyString.
Proof. unfold read_env, var. by intros ->. Qed.

Lemma read_env_text env name value :
  env !! name = Some (Unicode value) → read_env env name = Ok value.
Proof. unfold read_env, var. by intros ->. Qed.

Lemma spellings_disjoint value :
  value ∈ spellings_of_false → value ∈ spellings_of_true → False.
Proof.
  intros Hf Ht. unfold spellings_of_false, spellings_of_true in *.
  repeat (apply elem_of_cons in Hf as [->|Hf]; [by vm_compute in Ht; set_solver|]).
  set_solver.
Qed.

(** C36: A boolean variable reads as [false] exactly when it is absent or one of the
    spellings of [false], as [true] exactly when it is one of the spellings of [true],
    and as an error that carries its name and value otherwise. *)
Theorem read_env_bool_spec env name :
  (read_env_bool env name = Ok false ↔
     env !! name = None ∨ ∃ v, env !! name = Some (Unicode v) ∧ v ∈ spellings_of_false) ∧
  (read_env_bool env name = Ok true ↔
     ∃ v, env !! name = Some (Unicode v) ∧ v ∈ spellings_of_true) ∧
  (∀ e, read_env_bool env name = Err e ↔
     (∃ bytes, env !! name = Some (NotUnicodeBytes bytes) ∧ e = NotUnicode name bytes) ∨
     (∃ v, env !! name = Some (Unicode v) ∧ v ∉ spellings_of_false ∧
           v ∉ spellings_of_true ∧ e = NotBoolean name v)).
Proof.
  unfold read_env_bool, read_env, var.
  destruct (env !! name) as [[v|bytes]|] eqn:Hv; cbn.
  - destruct (decide (v ∈ spellings_of_false)) as [Hf|Hf];
      [|destruct (decide (v ∈ spellings_of_true)) as [Ht|Ht]].
    + pose proof (spellings_disjoint v Hf). naive_solver.
    + naive_solver.
    + naive_solver.
  - naive_solver.
  - naive_solver.
Qed.
