(* ===== verification/Config.v ===== *)
(** The configuration of the client ([armonik-transport/src/config.rs]): the
    arguments as text, read from the environment, and the configuration they
    describe. *)

From Stdlib Require Import Strings.Ascii.
From S2P Require Import Prelude Std Env.

(** ** What the configuration uses of other crates

    [hyper] (URIs and header values), [rustls] (PEM files), [humantime]
    (durations) and the file system, which is not written to meanwhile. *)
Class ConfigDeps : Type := {
  InvalidUri : Type;
  Scheme : Type;
  Authority : Type;
  PathAndQuery : Type;
  Authority_parse : string → result InvalidUri Authority;
  Uri : Type;
  Uri_try_from : string → result InvalidUri Uri;
  Uri_to_string : Uri → string;
  Uri_default : Uri;
  Uri_host : Uri → option string;
  Uri_scheme : Uri → option Scheme;
  Uri_authority : Uri → option Authority;
  Uri_path_and_query : Uri → option PathAndQuery;
  (** [uri.into_parts()]: the authority, and the path and query. *)
  Uri_into_parts : Uri → option Authority * option PathAndQuery;
  HttpError : Type;
  (** [uri::Builder], given the parts that were set. *)
  Uri_build : option Scheme → option Authority → option PathAndQuery → result HttpError Uri;
  IoError : Type;
  read_to_string : string → result IoError string;
  read : string → result IoError (list byte);
  PemError : Type;
  CertificateDer : Type;
  CertificateDer_from_pem_slice : list byte → result PemError CertificateDer;
  PrivateKeyDer : Type;
  PrivateKeyDer_from_pem_slice : list byte → result PemError PrivateKeyDer;
  DurationError : Type;
  humantime_parse : string → result DurationError Duration;
  InvalidHeaderValue : Type;
  HeaderValue : Type;
  HeaderValue_from_str : string → result InvalidHeaderValue HeaderValue
}.

(** ** Arguments *)

Module ClientConfigArgs.
Record t : Type := mk {
  endpoint : string;
  cert_pem : string;
  key_pem : string;
  ca_cert : string;
  allow_unsafe_connection : bool;
  override_target_name : string;
  connect_timeout : string;
  timeout : string;
  rate_limit : string;
  tcp_keepalive : string;
  tcp_keepalive_interval : string;
  tcp_keepalive_retries : string;
  tcp_nagle_algorithm : bool;
  http2_keep_alive_interval : string;
  http2_keep_alive_timeout : string;
  http2_keep_alive_while_idle : bool;
  http2_max_header_list_size : string;
  user_agent : string
}.
#[global] Instance default : Default t := {|
  endpoint := dflt;
  cert_pem := dflt;
  key_pem := dflt;
  ca_cert := dflt;
  allow_unsafe_connection := dflt;
  override_target_name := dflt;
  connect_timeout := dflt;
  timeout := dflt;
  rate_limit := dflt;
  tcp_keepalive := dflt;
  tcp_keepalive_interval := dflt;
  tcp_keepalive_retries := dflt;
  tcp_nagle_algorithm := dflt;
  http2_keep_alive_interval := dflt;
  http2_keep_alive_timeout := dflt;
  http2_keep_alive_while_idle := dflt;
  http2_max_header_list_size := dflt;
  user_agent := dflt |}.
End ClientConfigArgs.

Section config.
Context `{!ConfigDeps}.

(** [ConfigError]; backtraces and locations are not part of the model, except in
    [display]. *)
Inductive ConfigError : Type :=
| Env (source : ReadEnvError)
| Tls (source : PemError)
| UriError (source : InvalidUri) (uri : string)
| Http (source : HttpError) (uri : string)
| Io (source : IoError) (path : string)
| IncompatibleOptions (msg : string)
| InvalidDuration (source : DurationError) (value : string)
| InvalidRateLimitCount (source : IntErrorKind) (value : string)
| InvalidInteger (source : IntErrorKind) (value : string)
| InvalidUserAgent (source : InvalidHeaderValue) (value : string).

(** The [Display] of the error, as the [snafu(display(...))] attributes give it. *)
Definition display (location : string) (e : ConfigError) : string :=
  match e with
  | Env _ => "Could not read environment variable [" +:+ location +:+ "]"
  | Tls _ => "Invalid TLS configuration [" +:+ location +:+ "]"
  | UriError _ uri => "Endpoint URI is not valid: `" +:+ uri +:+ "` [" +:+ location +:+ "]"
  | Http _ uri => "Override URI is not valid: `" +:+ uri +:+ "` [" +:+ location +:+ "]"
  | Io _ path => "Could not read file `" +:+ path +:+ "` [" +:+ location +:+ "]"
  | IncompatibleOptions msg => msg +:+ " [" +:+ location +:+ "]"
  | InvalidDuration _ value =>
      "`GrpcClient__ConnectTimeout=" +:+ value
      +:+ "` is not a valid duration (e.g. `30s` or `1m`) [" +:+ location +:+ "]"
  | InvalidRateLimitCount _ value =>
      "Rate limit count `" +:+ value +:+ "` is not a valid integer [" +:+ location +:+ "]"
  | InvalidInteger _ value =>
      "`" +:+ value +:+ "` is not a valid integer [" +:+ location +:+ "]"
  | InvalidUserAgent _ value =>
      "Invalid user agent `" +:+ value +:+ "` [" +:+ location +:+ "]"
  end.

(** [ClientConfigArgs::from_env]: the variables are read in the order of the
    fields. *)
Definition args_from_env (env : Environment) : result ConfigError ClientConfigArgs.t :=
  endpoint ← map_err Env (read_env env "GrpcClient__Endpoint");
  cert_pem ← map_err Env (read_env env "GrpcClient__CertPem");
  key_pem ← map_err Env (read_env env "GrpcClient__KeyPem");
  ca_cert ← map_err Env (read_env env "GrpcClient__CaCert");
  allow_unsafe_connection ← map_err Env (read_env_bool env "GrpcClient__AllowUnsafeConnection");
  override_target_name ← map_err Env (read_env env "GrpcClient__OverrideTargetName");
  connect_timeout ← map_err Env (read_env env "GrpcClient__ConnectTimeout");
  timeout ← map_err Env (read_env env "GrpcClient__Timeout");
  rate_limit ← map_err Env (read_env env "GrpcClient__RateLimit");
  tcp_keepalive ← map_err Env (read_env env "GrpcClient__TcpKeepalive");
  tcp_keepalive_interval ← map_err Env (read_env env "GrpcClient__TcpKeepaliveInterval");
  tcp_keepalive_retries ← map_err Env (read_env env "GrpcClient__TcpKeepaliveRetries");
  tcp_nagle_algorithm ← map_err Env (read_env_bool env "GrpcClient__TcpNagleAlgorithm");
  http2_keep_alive_interval ← map_err Env (read_env env "GrpcClient__Http2KeepAliveInterval");
  http2_keep_alive_timeout ← map_err Env (read_env env "GrpcClient__Http2KeepAliveTimeout");
  http2_keep_alive_while_idle ←
    map_err Env (read_env_bool env "GrpcClient__Http2KeepAliveWhileIdle");
  http2_max_header_list_size ← map_err Env (read_env env "GrpcClient__Http2MaxHeaderListSize");
  user_agent ← map_err Env (read_env env "GrpcClient__UserAgent");
  Ok {|
    ClientConfigArgs.endpoint := endpoint;
    ClientConfigArgs.cert_pem := cert_pem;
    ClientConfigArgs.key_pem := key_pem;
    ClientConfigArgs.ca_cert := ca_cert;
    ClientConfigArgs.allow_unsafe_connection := allow_unsafe_connection;
    ClientConfigArgs.override_target_name := override_target_name;
    ClientConfigArgs.connect_timeout := connect_timeout;
    ClientConfigArgs.timeout := timeout;
    ClientConfigArgs.rate_limit := rate_limit;
    ClientConfigArgs.tcp_keepalive := tcp_keepalive;
    ClientConfigArgs.tcp_keepalive_interval := tcp_keepalive_interval;
    ClientConfigArgs.tcp_keepalive_retries := tcp_keepalive_retries;
    ClientConfigArgs.tcp_nagle_algorithm := tcp_nagle_algorithm;
    ClientConfigArgs.http2_keep_alive_interval := http2_keep_alive_interval;
    ClientConfigArgs.http2_keep_alive_timeout := http2_keep_alive_timeout;
    ClientConfigArgs.http2_keep_alive_while_idle := http2_keep_alive_while_idle;
    ClientConfigArgs.http2_max_header_list_size := http2_max_header_list_size;
    ClientConfigArgs.user_agent := user_agent |}.

(** ** The configuration *)

Record ClientConfig : Type := {
  endpoint : Uri;
  allow_unsafe_connection : bool;
  identity : option (CertificateDer * PrivateKeyDer);
  cacert : option CertificateDer;
  override_target : option Uri;
  connect_timeout : option Duration;
  timeout : option Duration;
  rate_limit : option (Z * Duration);
  tcp_keepalive : option Duration;
  tcp_keepalive_interval : option Duration;
  tcp_keepalive_retries : option Z;
  tcp_nagle_algorithm : bool;
  http2_keep_alive_interval : option Duration;
  http2_keep_alive_timeout : option Duration;
  http2_keep_alive_while_idle : bool;
  http2_max_header_list_size : option Z;
  user_agent : option HeaderValue
}.

(** The derived [Default]. *)
#[global] Instance ClientConfig_default : Default ClientConfig := {|
  endpoint := Uri_default;
  allow_unsafe_connection := dflt;
  identity := dflt;
  cacert := dflt;
  override_target := dflt;
  connect_timeout := dflt;
  timeout := dflt;
  rate_limit := dflt;
  tcp_keepalive := dflt;
  tcp_keepalive_interval := dflt;
  tcp_keepalive_retries := dflt;
  tcp_nagle_algorithm := dflt;
  http2_keep_alive_interval := dflt;
  http2_keep_alive_timeout := dflt;
  http2_keep_alive_while_idle := dflt;
  http2_max_header_list_size := dflt;
  user_agent := dflt |}.

(** [Clone], given how URIs, certificates, keys ([clone_key]) and headers are cloned. *)
Definition clone (clone_uri : Uri → Uri) (clone_cert : CertificateDer → CertificateDer)
    (clone_key : PrivateKeyDer → PrivateKeyDer) (clone_header : HeaderValue → HeaderValue)
    (self : ClientConfig) : ClientConfig := {|
  endpoint := clone_uri self.(endpoint);
  allow_unsafe_connection := self.(allow_unsafe_connection);
  identity := (λ '(cert, key), (clone_cert cert, clone_key key)) <$> self.(identity);
  cacert := clone_cert <$> self.(cacert);
  override_target := clone_uri <$> self.(override_target);
  connect_timeout := self.(connect_timeout);
  timeout := self.(timeout);
  rate_limit := self.(rate_limit);
  tcp_keepalive := self.(tcp_keepalive);
  tcp_keepalive_interval := self.(tcp_keepalive_interval);
  tcp_keepalive_retries := self.(tcp_keepalive_retries);
  tcp_nagle_algorithm := self.(tcp_nagle_algorithm);
  http2_keep_alive_interval := self.(http2_keep_alive_interval);
  http2_keep_alive_timeout := self.(http2_keep_alive_timeout);
  http2_keep_alive_while_idle := self.(http2_keep_alive_while_idle);
  http2_max_header_list_size := self.(http2_max_header_list_size);
  user_agent := clone_header <$> self.(user_agent) |}.

(** The parts of [from_config_args], one per [let]. *)

Definition read_cacert (cacert_path : string) : result ConfigError (option CertificateDer) :=
  if decide (cacert_path ≠ EmptyString) then
    cacert_pem ← map_err (λ source, Io source cacert_path) (read_to_string cacert_path);
    cert ← map_err Tls (CertificateDer_from_pem_slice (String.list_byte_of_string cacert_pem));
    Ok (Some cert)
  else Ok None.

Definition read_identity (cert_path key_path : string)
    : result ConfigError (option (CertificateDer * PrivateKeyDer)) :=
  match cert_path, key_path with
  | EmptyString, EmptyString => Ok None
  | EmptyString, _ | _, EmptyString =>
      Err (IncompatibleOptions
             ("`GrpcClient__CertPem=" +:+ cert_path +:+ "` and `GrpcClient__KeyPem="
              +:+ key_path +:+ "` must be either both empty or both set"))
  | _, _ =>
      cert_pem ← map_err (λ source, Io source cert_path) (read_to_string cert_path);
      key_pem ← map_err (λ source, Io source key_path) (read key_path);
      cert ← map_err Tls (CertificateDer_from_pem_slice (String.list_byte_of_string cert_pem));
      key ← map_err Tls (PrivateKeyDer_from_pem_slice key_pem);
      Ok (Some (cert, key))
  end.

Definition read_endpoint (endpoint : string) : result ConfigError Uri :=
  map_err (λ source, UriError source endpoint) (Uri_try_from endpoint).

Definition read_override_target (endpoint : Uri) (override_target_name : string)
    : result ConfigError (option Uri) :=
  if decide (override_target_name = EmptyString) then Ok None
  else
    '(authority, path_and_query) ←
      match Authority_parse override_target_name with
      | Ok auth => Ok (Some auth, Uri_path_and_query endpoint)
      | Err _ =>
          uri ← map_err (λ source, UriError source (Uri_to_string endpoint))
                  (Uri_try_from override_target_name);
          Ok (Uri_into_parts uri)
      end;
    let authority := match authority with
                     | Some authority => Some authority
                     | None => Uri_authority endpoint
                     end in
    uri ← map_err (λ source, Http source override_target_name)
            (Uri_build (Uri_scheme endpoint) authority path_and_query);
    Ok (Some uri).

(** An option that is a duration; [None] when it is left empty. *)
Definition read_duration (value : string) : result ConfigError (option Duration) :=
  if decide (value = EmptyString) then Ok None
  else
    duration ← map_err (λ source, InvalidDuration source value) (humantime_parse value);
    Ok (Some duration).

Definition read_connect_timeout (connect_timeout : string) : result ConfigError (option Duration) :=
  if decide (connect_timeout = EmptyString) then Ok (Some (from_secs 60))
  else
    duration ← map_err (λ source, InvalidDuration source connect_timeout)
                 (humantime_parse connect_timeout);
    Ok (Some duration).

Definition read_rate_limit (rate_limit : string) : result ConfigError (option (Z * Duration)) :=
  if decide (rate_limit = EmptyString) then Ok None
  else
    match split "/"%char rate_limit with
    | [count; duration] =>
        limit ← map_err (λ source, InvalidRateLimitCount source count) (parse_u64 count);
        duration ← map_err (λ source, InvalidDuration source rate_limit) (humantime_parse duration);
        if (limit =? 0)%Z || is_zero duration then
          Err (IncompatibleOptions
                 ("`GrpcClient__RateLimit=" +:+ rate_limit
                  +:+ "` has a zero count or duration. Both have to be above zero, as in `100/1s`; leave it empty for no rate limit"))
        else Ok (Some (limit, duration))
    | _ =>
        Err (IncompatibleOptions
               ("Rate limit should be in the format `number/duration`, e.g. `100/1s`, but got `"
                +:+ rate_limit +:+ "`"))
    end.

(** An option that is a [u32]. *)
Definition read_u32 (value : string) : result ConfigError (option Z) :=
  if decide (value = EmptyString) then Ok None
  else
    n ← map_err (λ source, InvalidInteger source value) (parse_u32 value);
    Ok (Some n).

Definition read_user_agent (user_agent : string) : result ConfigError (option HeaderValue) :=
  if decide (user_agent = EmptyString) then Ok None
  else
    header ← map_err (λ source, InvalidUserAgent source user_agent)
               (HeaderValue_from_str user_agent);
    Ok (Some header).

Definition from_config_args (args : ClientConfigArgs.t) : result ConfigError ClientConfig :=
  cacert ← read_cacert args.(ClientConfigArgs.ca_cert);
  identity ← read_identity args.(ClientConfigArgs.cert_pem) args.(ClientConfigArgs.key_pem);
  endpoint ← read_endpoint args.(ClientConfigArgs.endpoint);
  override_target ←
    read_override_target endpoint args.(ClientConfigArgs.override_target_name);
  connect_timeout ← read_connect_timeout args.(ClientConfigArgs.connect_timeout);
  timeout ← read_duration args.(ClientConfigArgs.timeout);
  rate_limit ← read_rate_limit args.(ClientConfigArgs.rate_limit);
  tcp_keepalive ← read_duration args.(ClientConfigArgs.tcp_keepalive);
  tcp_keepalive_interval ← read_duration args.(ClientConfigArgs.tcp_keepalive_interval);
  tcp_keepalive_retries ← read_u32 args.(ClientConfigArgs.tcp_keepalive_retries);
  http2_keep_alive_interval ← read_duration args.(ClientConfigArgs.http2_keep_alive_interval);
  http2_keep_alive_timeout ← read_duration args.(ClientConfigArgs.http2_keep_alive_timeout);
  http2_max_header_list_size ← read_u32 args.(ClientConfigArgs.http2_max_header_list_size);
  user_agent ← read_user_agent args.(ClientConfigArgs.user_agent);
  Ok {|
    endpoint := endpoint;
    allow_unsafe_connection := args.(ClientConfigArgs.allow_unsafe_connection);
    identity := identity;
    cacert := cacert;
    override_target := override_target;
    connect_timeout := connect_timeout;
    timeout := timeout;
    rate_limit := rate_limit;
    tcp_keepalive := tcp_keepalive;
    tcp_keepalive_interval := tcp_keepalive_interval;
    tcp_keepalive_retries := tcp_keepalive_retries;
    tcp_nagle_algorithm := args.(ClientConfigArgs.tcp_nagle_algorithm);
    http2_keep_alive_interval := http2_keep_alive_interval;
    http2_keep_alive_timeout := http2_keep_alive_timeout;
    http2_keep_alive_while_idle := args.(ClientConfigArgs.http2_keep_alive_while_idle);
    http2_max_header_list_size := http2_max_header_list_size;
    user_agent := user_agent |}.

Definition from_env (env : Environment) : result ConfigError ClientConfig :=
  args ← args_from_env env;
  from_config_args args.
End config.
