(* ===== verification/ConfigSpec.v ===== *)
(** What the configuration guarantees: when arguments are accepted and as what,
    which error is reported otherwise, and what the environment determines. *)

From Stdlib Require Import Strings.Ascii.
From S2P Require Import Prelude Std Env Config.

(** ** Results in sequence *)

Lemma bind_Ok {E A B} (m : result E A) (f : A → result E B) b :
  m ≫= f = Ok b ↔ ∃ a, m = Ok a ∧ f a = Ok b.
Proof. destruct m; cbn; naive_solver. Qed.

Lemma map_err_Ok {E F A} (g : E → F) (m : result E A) a : map_err g m = Ok a ↔ m = Ok a.
Proof. destruct m; cbn; naive_solver. Qed.

Definition error {E A} (m : result E A) : option E :=
  match m with Ok _ => None | Err e => Some e end.

(** The first error of a list of steps. *)
Fixpoint first_error {E} (steps : list (option E)) : option E :=
  match steps with
  | [] => None
  | Some e :: _ => Some e
  | None :: steps => first_error steps
  end.

Lemma error_bind {E A B} (m : result E A) (f : A → result E B) steps :
  (∀ a, m = Ok a → error (f a) = first_error steps) →
  error (m ≫= f) = first_error (error m :: steps).
Proof. intros Hf. destruct m; cbn; [by apply Hf|done]. Qed.

Lemma error_map_err {E F A} (g : E → F) (m : result E A) : error (map_err g m) = g <$> error m.
Proof. by destruct m. Qed.

Lemma first_error_fmap {E F} (g : E → F) steps :
  first_error (map (fmap g) steps) = g <$> first_error steps.
Proof. by induction steps as [|[e|] steps IH]. Qed.

#[export] Hint Rewrite @bind_Ok @map_err_Ok : result.

(** ** The specification of the configuration *)

Section spec.
Context `{!ConfigDeps}.
Implicit Types (args : ClientConfigArgs.t) (config : ClientConfig).

(** An option left empty is [absent]; otherwise it is what [parse] reads. *)
Definition option_spec {E A} (parse : string → result E A) (absent : option A) (value : string)
    (o : option A) : Prop :=
  (value = EmptyString ∧ o = absent) ∨
  (value ≠ EmptyString ∧ ∃ a, parse value = Ok a ∧ o = Some a).

Definition pem_spec {E F A} (file : result E (list byte)) (parse : list byte → result F A) (a : A)
    : Prop := ∃ pem, file = Ok pem ∧ parse pem = Ok a.

Definition text_file (path : string) : result IoError (list byte) :=
  String.list_byte_of_string <$> read_to_string path.

Definition cacert_spec (path : string) (o : option CertificateDer) : Prop :=
  (path = EmptyString ∧ o = None) ∨
  (path ≠ EmptyString ∧ ∃ cert,
     pem_spec (text_file path) CertificateDer_from_pem_slice cert ∧ o = Some cert).

(** Both files or none. *)
Definition identity_spec (cert_path key_path : string)
    (o : option (CertificateDer * PrivateKeyDer)) : Prop :=
  (cert_path = EmptyString ∧ key_path = EmptyString ∧ o = None) ∨
  (cert_path ≠ EmptyString ∧ key_path ≠ EmptyString ∧ ∃ cert key,
     pem_spec (text_file cert_path) CertificateDer_from_pem_slice cert ∧
     pem_spec (read key_path) PrivateKeyDer_from_pem_slice key ∧ o = Some (cert, key)).

(** The target is the endpoint, with the authority (and, when the name is a URI,
    the path) of the name. *)
Definition override_spec (endpoint : Uri) (name : string) (o : option Uri) : Prop :=
  (name = EmptyString ∧ o = None) ∨
  (name ≠ EmptyString ∧ ∃ authority path_and_query uri,
     ((∃ auth, Authority_parse name = Ok auth ∧ authority = Some auth ∧
               path_and_query = Uri_path_and_query endpoint) ∨
      (∃ e target, Authority_parse name = Err e ∧ Uri_try_from name = Ok target ∧
         path_and_query = (Uri_into_parts target).2 ∧
         authority = match (Uri_into_parts target).1 with
                     | Some authority => Some authority
                     | None => Uri_authority endpoint
                     end)) ∧
     Uri_build (Uri_scheme endpoint) authority path_and_query = Ok uri ∧ o = Some uri).

(** A count and a duration around one slash, both above zero. *)
Definition rate_limit_spec (value : string) (o : option (Z * Duration)) : Prop :=
  (value = EmptyString ∧ o = None) ∨
  (∃ count duration limit d,
     value = count +:+ String "/" duration ∧
     free "/"%char count ∧ free "/"%char duration ∧
     parse_u64 count = Ok limit ∧ humantime_parse duration = Ok d ∧
     limit ≠ 0%Z ∧ is_zero d = false ∧ o = Some (limit, d)).

(** The configuration that arguments describe, field by field. *)
Definition describes args config : Prop :=
  cacert_spec args.(ClientConfigArgs.ca_cert) config.(cacert) ∧
  identity_spec args.(ClientConfigArgs.cert_pem) args.(ClientConfigArgs.key_pem)
    config.(identity) ∧
  Uri_try_from args.(ClientConfigArgs.endpoint) = Ok config.(endpoint) ∧
  override_spec config.(endpoint) args.(ClientConfigArgs.override_target_name)
    config.(override_target) ∧
  option_spec humantime_parse (Some (from_secs 60)) args.(ClientConfigArgs.connect_timeout)
    config.(connect_timeout) ∧
  option_spec humantime_parse None args.(ClientConfigArgs.timeout) config.(timeout) ∧
  rate_limit_spec args.(ClientConfigArgs.rate_limit) config.(rate_limit) ∧
  option_spec humantime_parse None args.(ClientConfigArgs.tcp_keepalive)
    config.(tcp_keepalive) ∧
  option_spec humantime_parse None args.(ClientConfigArgs.tcp_keepalive_interval)
    config.(tcp_keepalive_interval) ∧
  option_spec parse_u32 None args.(ClientConfigArgs.tcp_keepalive_retries)
    config.(tcp_keepalive_retries) ∧
  option_spec humantime_parse None args.(ClientConfigArgs.http2_keep_alive_interval)
    config.(http2_keep_alive_interval) ∧
  option_spec humantime_parse None args.(ClientConfigArgs.http2_keep_alive_timeout)
    config.(http2_keep_alive_timeout) ∧
  option_spec parse_u32 None args.(ClientConfigArgs.http2_max_header_list_size)
    config.(http2_max_header_list_size) ∧
  option_spec HeaderValue_from_str None args.(ClientConfigArgs.user_agent)
    config.(user_agent) ∧
  config.(allow_unsafe_connection) = args.(ClientConfigArgs.allow_unsafe_connection) ∧
  config.(tcp_nagle_algorithm) = args.(ClientConfigArgs.tcp_nagle_algorithm) ∧
  config.(http2_keep_alive_while_idle) = args.(ClientConfigArgs.http2_keep_alive_while_idle).

(** *** Each part meets its specification *)

Lemma optional_Ok {E A} (g : E → ConfigError) (parse : string → result E A) absent value o :
  (if decide (value = EmptyString) then Ok absent
   else a ← map_err g (parse value); Ok (Some a)) = Ok o
  ↔ option_spec parse absent value o.
Proof.
  unfold option_spec. case_decide; [naive_solver|].
  setoid_rewrite bind_Ok. setoid_rewrite map_err_Ok. naive_solver.
Qed.

Lemma read_duration_Ok value o :
  read_duration value = Ok o ↔ option_spec humantime_parse None value o.
Proof. apply optional_Ok. Qed.

Lemma read_connect_timeout_Ok value o :
  read_connect_timeout value = Ok o ↔
  option_spec humantime_parse (Some (from_secs 60)) value o.
Proof. apply optional_Ok. Qed.

Lemma read_u32_Ok value o : read_u32 value = Ok o ↔ option_spec parse_u32 None value o.
Proof. apply optional_Ok. Qed.

Lemma read_user_agent_Ok value o :
  read_user_agent value = Ok o ↔ option_spec HeaderValue_from_str None value o.
Proof. apply optional_Ok. Qed.

Lemma read_endpoint_Ok value uri : read_endpoint value = Ok uri ↔ Uri_try_from value = Ok uri.
Proof. apply map_err_Ok. Qed.

Lemma text_file_Ok path pem :
  text_file path = Ok pem ↔
  ∃ text, read_to_string path = Ok text ∧ pem = String.list_byte_of_string text.
Proof. unfold text_file. destruct (read_to_string path); cbn; naive_solver. Qed.

Lemma read_cacert_Ok path o : read_cacert path = Ok o ↔ cacert_spec path o.
Proof.
  unfold read_cacert, cacert_spec, pem_spec. setoid_rewrite text_file_Ok.
  case_decide; [|naive_solver].
  setoid_rewrite bind_Ok. setoid_rewrite bind_Ok. setoid_rewrite map_err_Ok. naive_solver.
Qed.

Lemma read_identity_Ok cert_path key_path o :
  read_identity cert_path key_path = Ok o ↔ identity_spec cert_path key_path o.
Proof.
  unfold read_identity, identity_spec, pem_spec. setoid_rewrite text_file_Ok.
  destruct cert_path, key_path; [naive_solver..|].
  do 4 setoid_rewrite bind_Ok. setoid_rewrite map_err_Ok. naive_solver.
Qed.

Lemma read_override_target_Ok endpoint name o :
  read_override_target endpoint name = Ok o ↔ override_spec endpoint name o.
Proof.
  unfold read_override_target, override_spec. case_decide; [naive_solver|].
  rewrite bind_Ok. destruct (Authority_parse name) as [auth|e]; split.
  - intros ([a p] & [= <- <-] & Hu).
    apply bind_Ok in Hu as (uri & Hb & [= <-]). apply map_err_Ok in Hb. naive_solver.
  - intros [|(_ & a & p & uri & [(auth' & [= <-] & -> & ->)|] & Hb & ->)]; [naive_solver| |naive_solver].
    eexists. split; [done|]. apply bind_Ok. exists uri. by rewrite map_err_Ok.
  - intros ([a p] & Ht & Hu). apply bind_Ok in Ht as (target & Ht & [= Hp]).
    apply map_err_Ok in Ht. apply bind_Ok in Hu as (uri & Hb & [= <-]). apply map_err_Ok in Hb.
    right. split; [done|].
    exists (match a with Some a => Some a | None => Uri_authority endpoint end), p, uri.
    split_and!; [|done..]. right. exists e, target. by rewrite Hp.
  - intros [|(_ & a & p & uri & [|(e' & target & _ & Ht & -> & ->)] & Hb & ->)];
      [naive_solver..|].
    exists (Uri_into_parts target). split.
    { apply bind_Ok. exists target. by rewrite map_err_Ok. }
    destruct (Uri_into_parts target) as [a p]. cbn in *. apply bind_Ok.
    exists uri. by rewrite map_err_Ok.
Qed.

Lemma read_rate_limit_Ok value o : read_rate_limit value = Ok o ↔ rate_limit_spec value o.
Proof.
  unfold read_rate_limit, rate_limit_spec. case_decide as Hv; [subst; split|split].
  - naive_solver.
  - intros [|(count & duration & limit & d & Hs & _)]; [naive_solver|].
    by destruct count.
  - intros Ho. right.
    destruct (split "/"%char value) as [|count [|duration [|]]] eqn:Hs; try done.
    apply split_two in Hs as (-> & Hc & Hd).
    apply bind_Ok in Ho as (limit & Hl & Ho). apply bind_Ok in Ho as (d & Hp & Ho).
    apply map_err_Ok in Hl, Hp. case_match eqn:Hz; [done|].
    apply orb_false_iff in Hz as [Hz ?]. apply Z.eqb_neq in Hz. naive_solver.
  - intros [|(count & duration & limit & d & Hs & Hc & Hf & Hl & Hp & Hn & Hz & ->)];
      [naive_solver|].
    rewrite (proj2 (split_two "/"%char value count duration)) by done.
    apply bind_Ok. exists limit. rewrite map_err_Ok. split; [done|].
    apply bind_Ok. exists d. rewrite map_err_Ok. split; [done|].
    apply Z.eqb_neq in Hn. by rewrite Hn, Hz.
Qed.

Lemma from_config_args_Ok args config :
  from_config_args args = Ok config ↔ describes args config.
Proof.
  unfold from_config_args, describes.
  rewrite <-read_cacert_Ok, <-read_identity_Ok, <-read_endpoint_Ok, <-read_override_target_Ok,
    <-read_connect_timeout_Ok, <-!read_duration_Ok, <-read_rate_limit_Ok, <-!read_u32_Ok,
    <-read_user_agent_Ok.
  split.
  - intros Hc. repeat (apply bind_Ok in Hc as (? & ? & Hc)). injection Hc as <-. by cbn.
  - intros Hc. destruct_and! Hc. destruct config; cbn in *. subst.
    repeat (apply bind_Ok; eexists; split; [eassumption|]). done.
Qed.

(** C12: Arguments are accepted exactly when they describe a configuration, and as that
    configuration: every field is what its text is parsed to, or its default when the
    text is empty (sixty seconds for the connection timeout, nothing for the others);
    the identity needs both of its files; the override target is the endpoint under
    another authority; the rate limit is a count and a duration around one slash, both
    above zero. *)
Theorem from_config_args_spec args config :
  from_config_args args = Ok config ↔ describes args config.
Proof. apply from_config_args_Ok. Qed.

(** The checks, in the order the fields are read. *)
Definition checks args : list (option ConfigError) := [
  error (read_cacert args.(ClientConfigArgs.ca_cert));
  error (read_identity args.(ClientConfigArgs.cert_pem) args.(ClientConfigArgs.key_pem));
  error (read_endpoint args.(ClientConfigArgs.endpoint));
  error (endpoint ← read_endpoint args.(ClientConfigArgs.endpoint);
         read_override_target endpoint args.(ClientConfigArgs.override_target_name));
  error (read_connect_timeout args.(ClientConfigArgs.connect_timeout));
  error (read_duration args.(ClientConfigArgs.timeout));
  error (read_rate_limit args.(ClientConfigArgs.rate_limit));
  error (read_duration args.(ClientConfigArgs.tcp_keepalive));
  error (read_duration args.(ClientConfigArgs.tcp_keepalive_interval));
  error (read_u32 args.(ClientConfigArgs.tcp_keepalive_retries));
  error (read_duration args.(ClientConfigArgs.http2_keep_alive_interval));
  error (read_duration args.(ClientConfigArgs.http2_keep_alive_timeout));
  error (read_u32 args.(ClientConfigArgs.http2_max_header_list_size));
  error (read_user_agent args.(ClientConfigArgs.user_agent))].

(** C13: Arguments that are refused are refused with the first error of the fields, in
    the order: certificate authority, identity, endpoint, override target, connection
    timeout, timeout, rate limit, TCP keepalive and its interval and retries, HTTP/2
    keepalive interval and timeout, header list size, user agent. *)
Theorem from_config_args_error args :
  error (from_config_args args) = first_error (checks args).
Proof.
  unfold from_config_args, checks.
  apply error_bind; intros cacert _. apply error_bind; intros identity _.
  apply error_bind; intros endpoint Hendpoint. rewrite Hendpoint. cbn [mbind result_bind].
  repeat (apply error_bind; intros ? _). done.
Qed.

(** ** Consequences *)

(** A clone is the same configuration, when the clones of its parts are. *)
Lemma clone_same clone_uri clone_cert clone_key clone_header config :
  (∀ uri, clone_uri uri = uri) → (∀ cert, clone_cert cert = cert) →
  (∀ key, clone_key key = key) → (∀ header, clone_header header = header) →
  clone clone_uri clone_cert clone_key clone_header config = config.
Proof.
  intros Hu Hc Hk Hh. destruct config as [? ? i c o ? ? ? ? ? ? ? ? ? ? ? h]. unfold clone. cbn.
  f_equal; [apply Hu|destruct i as [[? ?]|]|destruct c|destruct o|destruct h]; cbn;
    by rewrite ?Hu, ?Hc, ?Hk, ?Hh.
Qed.

Lemma option_spec_Some {E A} (parse : string → result E A) value a :
  option_spec parse None value (Some a) → parse value = Ok a.
Proof. unfold option_spec. naive_solver. Qed.

(** C32: What reaches the connection is in the range of its types, and the rate limit is
    one that [tower] accepts: a count above zero, over a duration above zero. *)
Theorem config_in_range args config :
  from_config_args args = Ok config →
  (∀ limit d, config.(rate_limit) = Some (limit, d) →
     (0 < limit < 2 ^ 64)%Z ∧ is_zero d = false) ∧
  (∀ n, config.(tcp_keepalive_retries) = Some n → (0 ≤ n < 2 ^ 32)%Z) ∧
  (∀ n, config.(http2_max_header_list_size) = Some n → (0 ≤ n < 2 ^ 32)%Z).
Proof.
  intros Hc. apply from_config_args_Ok in Hc. unfold describes in Hc. destruct_and! Hc.
  split_and!.
  - intros limit d Hrl.
    match goal with H : rate_limit_spec _ _ |- _ => rewrite Hrl in H; rename H into Hs end.
    destruct Hs as [|(? & ? & ? & ? & ? & ? & ? & Hl & ? & ? & ? & [= <- <-])]; [naive_solver|].
    apply parse_uint_bounds in Hl; [split; [lia|done]|lia].
  - intros n Hn. rewrite Hn in *.
    match goal with H : option_spec parse_u32 _ (ClientConfigArgs.tcp_keepalive_retries _) _ |- _ =>
      apply option_spec_Some, parse_uint_bounds in H; lia end.
  - intros n Hn. rewrite Hn in *.
    match goal with H : option_spec parse_u32 _ (ClientConfigArgs.http2_max_header_list_size _) _ |- _ =>
      apply option_spec_Some, parse_uint_bounds in H; lia end.
Qed.

(** Arguments with an endpoint and nothing else. *)
Definition endpoint_only (endpoint : string) : ClientConfigArgs.t := {|
  ClientConfigArgs.endpoint := endpoint;
  ClientConfigArgs.cert_pem := dflt;
  ClientConfigArgs.key_pem := dflt;
  ClientConfigArgs.ca_cert := dflt;
  ClientConfigArgs.allow_unsafe_connection := dflt;
  ClientConfigArgs.override_target_name := dflt;
  ClientConfigArgs.connect_timeout := dflt;
  ClientConfigArgs.timeout := dflt;
  ClientConfigArgs.rate_limit := dflt;
  ClientConfigArgs.tcp_keepalive := dflt;
  ClientConfigArgs.tcp_keepalive_interval := dflt;
  ClientConfigArgs.tcp_keepalive_retries := dflt;
  ClientConfigArgs.tcp_nagle_algorithm := dflt;
  ClientConfigArgs.http2_keep_alive_interval := dflt;
  ClientConfigArgs.http2_keep_alive_timeout := dflt;
  ClientConfigArgs.http2_keep_alive_while_idle := dflt;
  ClientConfigArgs.http2_max_header_list_size := dflt;
  ClientConfigArgs.user_agent := dflt |}.

(** C40: An endpoint is enough: with nothing else set, the configuration is the default
    one at that endpoint, except for its connection timeout, which is sixty seconds
    where the default configuration has none; an endpoint that is not a URI is the
    error. *)
Theorem endpoint_is_enough text :
  from_config_args (endpoint_only text)
  = match Uri_try_from text with
    | Ok uri => Ok {|
        endpoint := uri;
        allow_unsafe_connection := false;
        identity := None;
        cacert := None;
        override_target := None;
        connect_timeout := Some (from_secs 60);
        timeout := None;
        rate_limit := None;
        tcp_keepalive := None;
        tcp_keepalive_interval := None;
        tcp_keepalive_retries := None;
        tcp_nagle_algorithm := false;
        http2_keep_alive_interval := None;
        http2_keep_alive_timeout := None;
        http2_keep_alive_while_idle := false;
        http2_max_header_list_size := None;
        user_agent := None |}
    | Err source => Err (UriError source text)
    end ∧
  (dflt : ClientConfig).(connect_timeout) = None.
Proof.
  split; [|done]. unfold from_config_args. cbn. unfold read_endpoint.
  by destruct (Uri_try_from text).
Qed.

(** Half an identity is refused before any of its files is read, with a message
    that quotes both variables. *)
Theorem half_an_identity args path :
  read_cacert args.(ClientConfigArgs.ca_cert) = Ok None →
  path ≠ EmptyString →
  (args.(ClientConfigArgs.cert_pem) = path ∧ args.(ClientConfigArgs.key_pem) = EmptyString ∨
   args.(ClientConfigArgs.cert_pem) = EmptyString ∧ args.(ClientConfigArgs.key_pem) = path) →
  from_config_args args
  = Err (IncompatibleOptions
      ("`GrpcClient__CertPem=" +:+ args.(ClientConfigArgs.cert_pem)
       +:+ "` and `GrpcClient__KeyPem=" +:+ args.(ClientConfigArgs.key_pem)
       +:+ "` must be either both empty or both set")).
Proof.
  intros Hca Hp Hids. unfold from_config_args. rewrite Hca. cbn [mbind result_bind].
  by destruct Hids as [[-> ->]|[-> ->]]; destruct path.
Qed.

(** C37: Three messages name another option than the one at fault.  Whatever the duration
    that cannot be read, the message is about [GrpcClient__ConnectTimeout]; when it is the
    duration of the rate limit, the value quoted is the whole rate limit; when the override
    target is neither a host nor a URI, the message is about the endpoint, and quotes it. *)
Theorem misleading_messages location :
  (∀ value e, value ≠ EmptyString → humantime_parse value = Err e →
     map_err (display location) (read_duration value)
     = Err ("`GrpcClient__ConnectTimeout=" +:+ value
            +:+ "` is not a valid duration (e.g. `30s` or `1m`) [" +:+ location +:+ "]")) ∧
  (∀ count duration limit e, free "/"%char count → free "/"%char duration →
     parse_u64 count = Ok limit → humantime_parse duration = Err e →
     map_err (display location) (read_rate_limit (count +:+ String "/" duration))
     = Err ("`GrpcClient__ConnectTimeout=" +:+ (count +:+ String "/" duration)
            +:+ "` is not a valid duration (e.g. `30s` or `1m`) [" +:+ location +:+ "]")) ∧
  (∀ endpoint name e e', name ≠ EmptyString →
     Authority_parse name = Err e → Uri_try_from name = Err e' →
     map_err (display location) (read_override_target endpoint name)
     = Err ("Endpoint URI is not valid: `" +:+ Uri_to_string endpoint
            +:+ "` [" +:+ location +:+ "]")).
Proof.
  split_and!.
  - intros value e Hv He. unfold read_duration. by rewrite decide_False, He by done.
  - intros count duration limit e Hc Hd Hl He. unfold read_rate_limit.
    rewrite decide_False by (by destruct count).
    by rewrite (proj2 (split_two "/"%char _ count duration)), Hl, He by done.
  - intros endpoint name e e' Hn Ha Hu. unfold read_override_target.
    by rewrite decide_False, Ha, Hu by done.
Qed.

Lemma digits_string_free ds : Forall is_digit ds → free "/"%char (digits_string ds).
Proof.
  induction 1 as [|d ds Hd _ IH]; [apply free_nil|]. apply free_cons; [|done].
  intros Hs. pose proof (to_digit_char d Hd) as Ht. by rewrite Hs in Ht.
Qed.

Lemma checked_bound max n : checked max n = if (n <? max + 1)%Z then Ok n else Err PosOverflow.
Proof. unfold checked. destruct (Z.leb_spec n max), (Z.ltb_spec n (max + 1)); done || lia. Qed.

Lemma parse_u32_digits ds :
  Forall is_digit ds → ds ≠ [] →
  parse_u32 (digits_string ds)
  = (if (digits_value ds <? 2 ^ 32)%Z then Ok (digits_value ds) else Err PosOverflow) ∧
  parse_u32 (String "+" (digits_string ds))
  = (if (digits_value ds <? 2 ^ 32)%Z then Ok (digits_value ds) else Err PosOverflow).
Proof.
  intros Hd Hn. unfold parse_u32.
  destruct (parse_uint_digits (2 ^ 32 - 1) ds) as [-> ->]; [done|done|done|].
  by rewrite checked_bound.
Qed.

Lemma parse_u64_digits ds :
  Forall is_digit ds → ds ≠ [] →
  parse_u64 (digits_string ds)
  = (if (digits_value ds <? 2 ^ 64)%Z then Ok (digits_value ds) else Err PosOverflow).
Proof.
  intros Hd Hn. unfold parse_u64.
  destruct (parse_uint_digits (2 ^ 64 - 1) ds) as [-> _]; [done|done|done|].
  by rewrite checked_bound.
Qed.

(** C33: Numbers are read in full: a number written in digits, zero included and whatever its
    length, with or without a plus sign, is its value when that is below 2^32, and an
    overflow otherwise.  The count of a rate limit is read likewise, below 2^64; then its
    duration is, whose error is reported; and a rate limit of zero, or over no time, is
    refused. *)
Theorem numbers_read ds :
  Forall is_digit ds → ds ≠ [] →
  read_u32 (digits_string ds)
  = (if (digits_value ds <? 2 ^ 32)%Z then Ok (Some (digits_value ds))
     else Err (InvalidInteger PosOverflow (digits_string ds))) ∧
  read_u32 (String "+" (digits_string ds))
  = (if (digits_value ds <? 2 ^ 32)%Z then Ok (Some (digits_value ds))
     else Err (InvalidInteger PosOverflow (String "+" (digits_string ds)))) ∧
  ∀ duration, free "/"%char duration →
    let rate_limit := digits_string ds +:+ String "/" duration in
    read_rate_limit rate_limit
    = if (digits_value ds <? 2 ^ 64)%Z then
        match humantime_parse duration with
        | Ok d =>
            if (digits_value ds =? 0)%Z || is_zero d then
              Err (IncompatibleOptions
                     ("`GrpcClient__RateLimit=" +:+ rate_limit
                      +:+ "` has a zero count or duration. Both have to be above zero, as in `100/1s`; leave it empty for no rate limit"))
            else Ok (Some (digits_value ds, d))
        | Err e => Err (InvalidDuration e rate_limit)
        end
      else Err (InvalidRateLimitCount PosOverflow (digits_string ds)).
Proof.
  intros Hds Hn. destruct (parse_u32_digits ds Hds Hn) as [Hp Hpp]. split_and!.
  - unfold read_u32. rewrite decide_False by (by destruct ds). rewrite Hp.
    by destruct (_ <? _)%Z.
  - unfold read_u32. rewrite decide_False, Hpp by done. by destruct (_ <? _)%Z.
  - intros duration Hf rate_limit. unfold read_rate_limit, rate_limit.
    rewrite decide_False by (by destruct ds).
    rewrite (proj2 (split_two "/"%char _ (digits_string ds) duration))
      by (split_and!; [done|by apply digits_string_free|done]).
    rewrite (parse_u64_digits ds Hds Hn). destruct (digits_value ds <? 2 ^ 64)%Z; [|done].
    by destruct (humantime_parse duration).
Qed.

(** ** The environment *)

(** The variables, in the order they are read. *)
Definition variables : list string := [
  "GrpcClient__Endpoint"; "GrpcClient__CertPem"; "GrpcClient__KeyPem"; "GrpcClient__CaCert";
  "GrpcClient__AllowUnsafeConnection"; "GrpcClient__OverrideTargetName";
  "GrpcClient__ConnectTimeout"; "GrpcClient__Timeout"; "GrpcClient__RateLimit";
  "GrpcClient__TcpKeepalive"; "GrpcClient__TcpKeepaliveInterval";
  "GrpcClient__TcpKeepaliveRetries"; "GrpcClient__TcpNagleAlgorithm";
  "GrpcClient__Http2KeepAliveInterval"; "GrpcClient__Http2KeepAliveTimeout";
  "GrpcClient__Http2KeepAliveWhileIdle"; "GrpcClient__Http2MaxHeaderListSize";
  "GrpcClient__UserAgent"].

Definition boolean_variables : list string := [
  "GrpcClient__AllowUnsafeConnection"; "GrpcClient__TcpNagleAlgorithm";
  "GrpcClient__Http2KeepAliveWhileIdle"].

Definition bool_text (b : bool) : OsString := Unicode (if b then "true" else "false").

(** The environment that sets every variable to its argument. *)
Definition env_of_args args : Environment := list_to_map (zip variables [
  Unicode args.(ClientConfigArgs.endpoint); Unicode args.(ClientConfigArgs.cert_pem);
  Unicode args.(ClientConfigArgs.key_pem); Unicode args.(ClientConfigArgs.ca_cert);
  bool_text args.(ClientConfigArgs.allow_unsafe_connection);
  Unicode args.(ClientConfigArgs.override_target_name);
  Unicode args.(ClientConfigArgs.connect_timeout); Unicode args.(ClientConfigArgs.timeout);
  Unicode args.(ClientConfigArgs.rate_limit); Unicode args.(ClientConfigArgs.tcp_keepalive);
  Unicode args.(ClientConfigArgs.tcp_keepalive_interval);
  Unicode args.(ClientConfigArgs.tcp_keepalive_retries);
  bool_text args.(ClientConfigArgs.tcp_nagle_algorithm);
  Unicode args.(ClientConfigArgs.http2_keep_alive_interval);
  Unicode args.(ClientConfigArgs.http2_keep_alive_timeout);
  bool_text args.(ClientConfigArgs.http2_keep_alive_while_idle);
  Unicode args.(ClientConfigArgs.http2_max_header_list_size);
  Unicode args.(ClientConfigArgs.user_agent)]).

Lemma read_env_ext env env' name :
  env !! name = env' !! name → read_env env name = read_env env' name.
Proof. unfold read_env, var. by intros ->. Qed.

Lemma read_env_bool_ext env env' name :
  env !! name = env' !! name → read_env_bool env name = read_env_bool env' name.
Proof. intros Hn. unfold read_env_bool. by rewrite (read_env_ext _ _ _ Hn). Qed.

(** C34: The arguments come back from the environment that sets them; an environment
    that sets none of the variables gives the default arguments; and nothing but the
    variables matters. *)
Theorem args_from_env_spec :
  (∀ args, args_from_env (env_of_args args) = Ok args) ∧
  args_from_env ∅ = Ok dflt ∧
  (∀ env env', (∀ name, name ∈ variables → env !! name = env' !! name) →
     args_from_env env = args_from_env env').
Proof.
  split_and!.
  - intros args. unfold args_from_env, read_env_bool, read_env, var, env_of_args.
    destruct args as [? ? ? ? [] ? ? ? ? ? ? ? [] ? ? [] ? ?]; reflexivity.
  - reflexivity.
  - intros env env' Hn. unfold args_from_env.
    repeat (rewrite (read_env_ext env env') by (apply Hn; set_solver)).
    repeat (rewrite (read_env_bool_ext env env') by (apply Hn; set_solver)).
    reflexivity.
Qed.

(** C35: An environment is refused with the error of the first variable, in the order of
    the fields, whose value is not text, or not a boolean for the three that are. *)
Theorem args_from_env_error env :
  error (args_from_env env)
  = Env <$> first_error (map (λ name,
      if existsb (String.eqb name) boolean_variables then error (read_env_bool env name)
      else error (read_env env name)) variables).
Proof.
  rewrite <-first_error_fmap. cbn -[fmap read_env read_env_bool first_error].
  rewrite <-!error_map_err. unfold args_from_env.
  repeat (apply error_bind; intros ? _). done.
Qed.
End spec.
