(* ===== verification/Connect.v ===== *)
(** From a configuration to a channel ([armonik-transport/src/connect.rs]), the
    certificate verifier that checks nothing ([armonik-transport/src/utils.rs]), and
    the creation of a client ([client/mod.rs]).

    The TCP connector of [hyper_util] and the endpoint of [tonic] are represented by the
    calls that configure them; the TLS configuration of [rustls] by what its builder was
    given. *)

From Stdlib Require Import Strings.Ascii.
From S2P Require Import Prelude Std Env Config ConfigSpec.

(** A computation that can panic. *)
Inductive outcome (A : Type) : Type :=
| Return (a : A)
| Panic (msg : string).
Arguments Return {A} a.
Arguments Panic {A} msg.

#[export] Instance outcome_ret : MRet outcome := λ A a, Return a.
#[export] Instance outcome_bind : MBind outcome := λ A B f m,
  match m with Return a => f a | Panic msg => Panic msg end.

(** A fallible computation that can panic; [let?] is the operator [?]. *)
Definition fallible_outcome (E A : Type) : Type := outcome (result E A).

Definition and_then {E A B} (m : fallible_outcome E A) (f : A → fallible_outcome E B)
    : fallible_outcome E B :=
  match m with
  | Return (Ok a) => f a
  | Return (Err e) => Return (Err e)
  | Panic msg => Panic msg
  end.

Notation "'let?' x := m 'in' f" := (and_then m (λ x, f))
  (at level 200, x pattern, m at level 100, f at level 200, only parsing).

(** [result.expect(msg)]. *)
Definition expect {E A} (msg : string) (r : result E A) : outcome A :=
  match r with Ok a => Return a | Err _ => Panic msg end.

(** ** Certificates *)

(** The proofs of verification of [rustls::client::danger]. *)
Inductive ServerCertVerified : Type := ServerCertVerified_assertion.
Inductive HandshakeSignatureValid : Type := HandshakeSignatureValid_assertion.

(** The schemes of [rustls::SignatureScheme] that are used. *)
Inductive SignatureScheme : Type :=
| RSA_PKCS1_SHA1 | ECDSA_SHA1_Legacy
| RSA_PKCS1_SHA256 | ECDSA_NISTP256_SHA256
| RSA_PKCS1_SHA384 | ECDSA_NISTP384_SHA384
| RSA_PKCS1_SHA512 | ECDSA_NISTP521_SHA512
| RSA_PSS_SHA256 | RSA_PSS_SHA384 | RSA_PSS_SHA512
| ED25519 | ED448.

(** ** What the connection uses of other crates

    [rustls] (with the certificates of the system), and the connection itself. *)
Class ConnectDeps `{!ConfigDeps} : Type := {
  (** [http::uri::Scheme::HTTP] and [HTTPS]. *)
  Scheme_HTTP : Scheme;
  Scheme_HTTPS : Scheme;
  CryptoProvider : Type;
  CryptoProvider_get_default : option CryptoProvider;
  ring_default_provider : CryptoProvider;
  TlsError : Type;
  (** The versions of TLS the provider supports, if it supports a safe one. *)
  ProtocolVersions : Type;
  safe_default_protocol_versions : CryptoProvider → result TlsError ProtocolVersions;
  RootCertStore : Type;
  RootCertStore_empty : RootCertStore;
  RootCertStore_add : RootCertStore → CertificateDer → result TlsError RootCertStore;
  native_roots : result IoError RootCertStore;
  (** The check that [with_client_auth_cert] makes of the certificate and its key. *)
  client_auth_cert : CryptoProvider → list CertificateDer → PrivateKeyDer → result TlsError ();
  ServerName : Type;
  InvalidDnsName : Type;
  ServerName_try_from : string → result InvalidDnsName ServerName;
  UnixTime : Type;
  DigitallySignedStruct : Type;
  (** The verification of a server against a set of roots. *)
  webpki_verify : RootCertStore → CertificateDer → list CertificateDer → ServerName →
    list byte → UnixTime → result TlsError ServerCertVerified
}.

Section connect.
Context `{!ConfigDeps, !ConnectDeps}.

(** The trait [rustls::client::danger::ServerCertVerifier]. *)
Record ServerCertVerifier : Type := {
  verify_server_cert : CertificateDer → list CertificateDer → ServerName → list byte →
    UnixTime → result TlsError ServerCertVerified;
  verify_tls12_signature : list byte → CertificateDer → DigitallySignedStruct →
    result TlsError HandshakeSignatureValid;
  verify_tls13_signature : list byte → CertificateDer → DigitallySignedStruct →
    result TlsError HandshakeSignatureValid;
  supported_verify_schemes : list SignatureScheme
}.

Definition InsecureCertVerifier : ServerCertVerifier := {|
  verify_server_cert := λ _ _ _ _ _, Ok ServerCertVerified_assertion;
  verify_tls12_signature := λ _ _ _, Ok HandshakeSignatureValid_assertion;
  verify_tls13_signature := λ _ _ _, Ok HandshakeSignatureValid_assertion;
  supported_verify_schemes := [
    RSA_PKCS1_SHA1;
    ECDSA_SHA1_Legacy;
    RSA_PKCS1_SHA256;
    ECDSA_NISTP256_SHA256;
    RSA_PKCS1_SHA384;
    ECDSA_NISTP384_SHA384;
    RSA_PKCS1_SHA512;
    ECDSA_NISTP521_SHA512;
    RSA_PSS_SHA256;
    RSA_PSS_SHA384;
    RSA_PSS_SHA512;
    ED25519;
    ED448] |}.

(** What the builder of [rustls::ClientConfig] was given. *)
Inductive Verification : Type :=
| CustomVerifier (verifier : ServerCertVerifier)
| RootCertificates (roots : RootCertStore).

Record TlsConfig : Type := {
  crypto_provider : CryptoProvider;
  protocol_versions : ProtocolVersions;
  verification : Verification;
  client_auth : option (list CertificateDer * PrivateKeyDer)
}.

(** How a server is verified, per the documentation of the two kinds. *)
Definition verify_server (tls : TlsConfig) : CertificateDer → list CertificateDer → ServerName →
    list byte → UnixTime → result TlsError ServerCertVerified :=
  match tls.(verification) with
  | CustomVerifier verifier => verifier.(verify_server_cert)
  | RootCertificates roots => webpki_verify roots
  end.

(** The setters of [hyper_util]'s [HttpConnector] that are called. *)
Inductive HttpSetter : Type :=
| enforce_http (enforced : bool)
| set_nodelay (nodelay : bool)
| set_keepalive (time : option Duration)
| set_keepalive_interval (interval : option Duration)
| set_keepalive_retries (retries : option Z)
| set_connect_timeout (timeout : option Duration).

(** Which URIs the builder of [hyper_rustls] was told to accept: [https_only] or
    [https_or_http]. *)
Inductive Schemes : Type :=
| HttpsOnly
| HttpsOrHttp.

(** The protocols it was told to enable: [enable_http1], [enable_http2]. *)
Inductive Protocol : Type :=
| Http1
| Http2.

(** [HttpsConnector<HttpConnector>], by what its builder was given: TLS, the URIs it
    accepts, the fixed server name if there is one (the host of the URI is used
    otherwise), the protocols, and the TCP connector. *)
Record HttpsConnector : Type := {
  tls_config : TlsConfig;
  schemes : Schemes;
  server_name_resolver : option ServerName;
  protocols : list Protocol;
  http : list HttpSetter
}.

(** How a connector reaches a URI, over a TLS configuration or over none, as [hyper_rustls]
    documents it: https URIs are handled by TLS; http URIs, if they are accepted, by the
    TCP connector alone. *)
Record documented_connector
    (connects : HttpsConnector → Uri → option TlsConfig → Prop) : Prop := {
  connects_tls connector uri tls :
    connects connector uri (Some tls) ↔
    Uri_scheme uri = Some Scheme_HTTPS ∧ tls = connector.(tls_config);
  connects_plain connector uri :
    connects connector uri None ↔
    Uri_scheme uri = Some Scheme_HTTP ∧ connector.(schemes) = HttpsOrHttp
}.

(** The setters of [tonic::transport::Endpoint] that are called. *)
Inductive EndpointSetter : Type :=
| set_origin (origin : Uri)
| set_timeout (timeout : Duration)
| set_rate_limit (limit : Z) (duration : Duration)
| set_http2_keep_alive_interval (interval : Duration)
| set_keep_alive_timeout (timeout : Duration)
| set_keep_alive_while_idle (enabled : bool)
| set_http2_max_header_list_size (max : Z)
| set_user_agent (user_agent : HeaderValue).

(** ** The connector *)

(** [ConnectionError]; locations are not part of the model. *)
Inductive ConnectionError (TransportError : Type) : Type :=
| ConfigFailed (source : ConfigError)
| Transport (endpoint : Uri) (source : TransportError)
| TlsFailed (endpoint : Uri) (source : TlsError)
| IoFailed (source : IoError).
#[global] Arguments ConfigFailed {_} source.
#[global] Arguments Transport {_} endpoint source.
#[global] Arguments TlsFailed {_} endpoint source.
#[global] Arguments IoFailed {_} source.

Context {TransportError : Type}.
Notation connection_error := (ConnectionError TransportError).

(** "Configure the server verification". *)
Definition server_verification (config : ClientConfig) : result connection_error Verification :=
  if config.(allow_unsafe_connection) then Ok (CustomVerifier InsecureCertVerifier)
  else
    match config.(cacert) with
    | Some cacert =>
        root_cert_store ← map_err (TlsFailed config.(endpoint))
                            (RootCertStore_add RootCertStore_empty cacert);
        Ok (RootCertificates root_cert_store)
    | None =>
        roots ← map_err IoFailed native_roots;
        Ok (RootCertificates roots)
    end.

(** "Configure client identity for mTLS". *)
Definition client_identity (provider : CryptoProvider) (config : ClientConfig)
    : result connection_error (option (list CertificateDer * PrivateKeyDer)) :=
  match config.(identity) with
  | Some (cert, key) =>
      _ ← map_err (TlsFailed config.(endpoint)) (client_auth_cert provider [cert] key);
      Ok (Some ([cert], key))
  | None => Ok None
  end.

Definition connector_tls (config : ClientConfig) : result connection_error TlsConfig :=
  let provider := unwrap_or CryptoProvider_get_default ring_default_provider in
  versions ← map_err (TlsFailed config.(endpoint)) (safe_default_protocol_versions provider);
  verification ← server_verification config;
  client_auth ← client_identity provider config;
  Ok {| crypto_provider := provider;
        protocol_versions := versions;
        verification := verification;
        client_auth := client_auth |}.

Definition connector_server_name (config : ClientConfig) : outcome (option ServerName) :=
  match config.(override_target) with
  | Some hostname =>
      server_name ← expect "A valid URI host should be a valid ServerName"
                      (ServerName_try_from (unwrap_or (Uri_host hostname) EmptyString));
      Return (Some server_name)
  | None => Return None
  end.

Definition connector_http (config : ClientConfig) : list HttpSetter :=
  [enforce_http false;
   set_nodelay (negb config.(tcp_nagle_algorithm));
   set_keepalive config.(tcp_keepalive);
   set_keepalive_interval config.(tcp_keepalive_interval);
   set_keepalive_retries config.(tcp_keepalive_retries)] ++
  match config.(connect_timeout) with
  | Some timeout => [set_connect_timeout (Some timeout)]
  | None => []
  end.

Definition https_connector (config : ClientConfig)
    : fallible_outcome connection_error HttpsConnector :=
  let? tls_config := Return (connector_tls config) in
  resolver ← connector_server_name config;
  Return (Ok {| tls_config := tls_config;
                schemes := HttpsOrHttp;
                server_name_resolver := resolver;
                protocols := [Http1; Http2];
                http := connector_http config |}).

(** ** The channel *)

Definition option_setter {A} (setter : A → EndpointSetter) (o : option A) : list EndpointSetter :=
  match o with Some a => [setter a] | None => [] end.

Definition endpoint_setters (config : ClientConfig) : list EndpointSetter :=
  option_setter set_origin config.(override_target) ++
  option_setter set_timeout config.(timeout) ++
  option_setter (λ '(limit, duration), set_rate_limit limit duration) config.(rate_limit) ++
  option_setter set_http2_keep_alive_interval config.(http2_keep_alive_interval) ++
  option_setter set_keep_alive_timeout config.(http2_keep_alive_timeout) ++
  [set_keep_alive_while_idle config.(http2_keep_alive_while_idle)] ++
  option_setter set_http2_max_header_list_size config.(http2_max_header_list_size) ++
  option_setter set_user_agent config.(user_agent).

(** [Endpoint::connect_with_connector], on an endpoint and its settings. *)
Context {Channel : Type}.
Variable connect_with_connector :
  Uri → list EndpointSetter → HttpsConnector → fallible_outcome TransportError Channel.

Definition connect (config : ClientConfig) : fallible_outcome connection_error Channel :=
  let? https := https_connector config in
  channel ← connect_with_connector config.(endpoint) (endpoint_setters config) https;
  Return (map_err (Transport config.(endpoint)) channel).

(** ** The client *)

Record Client : Type := {
  channel : Channel
}.

Definition with_channel (channel : Channel) : Client := {| channel := channel |}.

Definition with_config (config : ClientConfig) : fallible_outcome connection_error Client :=
  let? channel := connect config in
  Return (Ok (with_channel channel)).

(** [Client::new], in an environment. *)
Definition new (env : Environment) : fallible_outcome connection_error Client :=
  let? config := Return (map_err ConfigFailed (from_env env)) in
  with_config config.

(** ** What is guaranteed *)

(** The roots a configuration asks for: its certificate authority, and it alone, or those
    of the system. *)
Definition roots_of (config : ClientConfig) (roots : RootCertStore) : Prop :=
  match config.(cacert) with
  | Some cacert => RootCertStore_add RootCertStore_empty cacert = Ok roots
  | None => native_roots = Ok roots
  end.

(** The name it asks to verify, if it fixes one. *)
Definition named_by (config : ClientConfig) (resolver : option ServerName) : Prop :=
  match config.(override_target) with
  | Some target =>
      ∃ name, ServerName_try_from (unwrap_or (Uri_host target) EmptyString) = Ok name ∧
              resolver = Some name
  | None => resolver = None
  end.

Lemma server_verification_Ok config v :
  server_verification config = Ok v →
  if config.(allow_unsafe_connection) then v = CustomVerifier InsecureCertVerifier
  else ∃ roots, v = RootCertificates roots ∧ roots_of config roots.
Proof.
  unfold server_verification, roots_of. case_match; [naive_solver|].
  destruct config.(cacert); intros Hv; apply bind_Ok in Hv as (roots & Hr & [= <-]);
    apply map_err_Ok in Hr; eauto.
Qed.

Lemma client_identity_Ok provider config auth :
  client_identity provider config = Ok auth →
  auth = (λ '(cert, key), ([cert], key)) <$> config.(identity).
Proof.
  unfold client_identity. destruct config.(identity) as [[cert key]|]; [|naive_solver].
  intros Ha. by apply bind_Ok in Ha as (? & _ & [= <-]).
Qed.

Lemma connector_tls_Ok config tls :
  connector_tls config = Ok tls →
  server_verification config = Ok tls.(verification) ∧
  tls.(client_auth) = (λ '(cert, key), ([cert], key)) <$> config.(identity) ∧
  tls.(crypto_provider) = unwrap_or CryptoProvider_get_default ring_default_provider.
Proof.
  unfold connector_tls. intros Ht. apply bind_Ok in Ht as (versions & _ & Ht).
  apply bind_Ok in Ht as (v & Hv & Ht). apply bind_Ok in Ht as (auth & Ha & [= <-]).
  apply client_identity_Ok in Ha. done.
Qed.

Lemma https_connector_Ok config connector :
  https_connector config = Return (Ok connector) →
  connector_tls config = Ok connector.(tls_config) ∧
  connector_server_name config = Return connector.(server_name_resolver) ∧
  connector.(schemes) = HttpsOrHttp ∧
  connector.(protocols) = [Http1; Http2] ∧
  connector.(http) = connector_http config.
Proof.
  unfold https_connector. destruct (connector_tls config); cbn; [|done].
  destruct (connector_server_name config); cbn; [|done]. by intros [= <-].
Qed.

Lemma server_name_Ok config resolver :
  connector_server_name config = Return resolver → named_by config resolver.
Proof.
  unfold connector_server_name, named_by. destruct config.(override_target); [|naive_solver].
  destruct (ServerName_try_from _) as [name|]; cbn; [|done]. intros [= <-]. by exists name.
Qed.

(** C1: Over TLS, which is how every https URI is reached and no other, a server is
    accepted unchecked exactly when the configuration allows it.  Otherwise it is verified
    against the roots of the configuration: the certificate authority that is given, and it
    alone, or those of the system when none is given; a certificate authority that cannot
    be used is an error, never another set of roots.  The client presents the identity of
    the configuration, and the name that is verified is the host of the override target,
    if there is one.  An http URI, on the contrary, is reached without TLS, so that nothing
    is verified and no identity presented, whatever the configuration says. *)
Theorem connector_verifies (connects : HttpsConnector → Uri → option TlsConfig → Prop)
    config connector uri :
  documented_connector connects →
  https_connector config = Return (Ok connector) →
  (∀ tls, connects connector uri (Some tls) →
     Uri_scheme uri = Some Scheme_HTTPS ∧
     (if config.(allow_unsafe_connection) then
        verify_server tls = λ _ _ _ _ _, Ok ServerCertVerified_assertion
      else ∃ roots, verify_server tls = webpki_verify roots ∧ roots_of config roots) ∧
     tls.(client_auth) = (λ '(cert, key), ([cert], key)) <$> config.(identity) ∧
     named_by config connector.(server_name_resolver)) ∧
  (Uri_scheme uri = Some Scheme_HTTPS → ∃ tls, connects connector uri (Some tls)) ∧
  (connects connector uri None ↔ Uri_scheme uri = Some Scheme_HTTP).
Proof.
  intros Hd Hc. apply https_connector_Ok in Hc as (Ht & Hn & Hs & _).
  apply connector_tls_Ok in Ht as (Hv & Ha & _). apply server_verification_Ok in Hv. split_and!.
  - intros tls [Huri ->]%(connects_tls _ Hd). split_and!; [done| |done|by apply server_name_Ok].
    unfold verify_server. case_match; [by rewrite Hv|].
    destruct Hv as (roots & -> & Hr). by exists roots.
  - intros Huri. eexists. by apply (connects_tls _ Hd).
  - rewrite (connects_plain _ Hd), Hs. split; [by intros []|by split].
Qed.

(** The order of the setters does not matter: no two are of the same kind. *)
Definition endpoint_setter_kind (s : EndpointSetter) : nat :=
  match s with
  | set_origin _ => 0
  | set_timeout _ => 1
  | set_rate_limit _ _ => 2
  | set_http2_keep_alive_interval _ => 3
  | set_keep_alive_timeout _ => 4
  | set_keep_alive_while_idle _ => 5
  | set_http2_max_header_list_size _ => 6
  | set_user_agent _ => 7
  end.

Definition http_setter_kind (s : HttpSetter) : nat :=
  match s with
  | enforce_http _ => 0
  | set_nodelay _ => 1
  | set_keepalive _ => 2
  | set_keepalive_interval _ => 3
  | set_keepalive_retries _ => 4
  | set_connect_timeout _ => 5
  end.

Lemma elem_of_option_setter {A} (setter : A → EndpointSetter) o s :
  s ∈ option_setter setter o ↔ ∃ a, o = Some a ∧ s = setter a.
Proof.
  destruct o as [a|]; cbn; [rewrite list_elem_of_singleton|rewrite elem_of_nil]; naive_solver.
Qed.

Lemma endpoint_setters_kinds config : NoDup (endpoint_setter_kind <$> endpoint_setters config).
Proof.
  unfold endpoint_setters.
  destruct config as [? ? ? ? [?|] ? [?|] [[? ?]|] ? ? ? ? [?|] [?|] ? [?|] [?|]]; cbn;
    apply (bool_decide_unpack _); reflexivity.
Qed.

Lemma elem_of_endpoint_setters config s :
  s ∈ endpoint_setters config ↔
  match s with
  | set_origin origin => config.(override_target) = Some origin
  | set_timeout d => config.(timeout) = Some d
  | set_rate_limit limit d => config.(rate_limit) = Some (limit, d)
  | set_http2_keep_alive_interval d => config.(http2_keep_alive_interval) = Some d
  | set_keep_alive_timeout d => config.(http2_keep_alive_timeout) = Some d
  | set_keep_alive_while_idle b => config.(http2_keep_alive_while_idle) = b
  | set_http2_max_header_list_size n => config.(http2_max_header_list_size) = Some n
  | set_user_agent h => config.(user_agent) = Some h
  end.
Proof.
  unfold endpoint_setters. rewrite !elem_of_app, !elem_of_option_setter, list_elem_of_singleton.
  destruct s; split; try naive_solver; intros Hs; repeat destruct Hs as [Hs|Hs];
    try destruct Hs as ([? ?] & ? & [= -> ->]); naive_solver.
Qed.

Lemma connector_http_kinds config : NoDup (http_setter_kind <$> connector_http config).
Proof.
  unfold connector_http.
  destruct config.(connect_timeout); cbn; apply (bool_decide_unpack _); reflexivity.
Qed.

Lemma elem_of_connector_http config s :
  s ∈ connector_http config ↔
  match s with
  | enforce_http b => b = false
  | set_nodelay b => config.(tcp_nagle_algorithm) = negb b
  | set_keepalive o => config.(tcp_keepalive) = o
  | set_keepalive_interval o => config.(tcp_keepalive_interval) = o
  | set_keepalive_retries o => config.(tcp_keepalive_retries) = o
  | set_connect_timeout o => is_Some o ∧ config.(connect_timeout) = o
  end.
Proof.
  unfold connector_http. destruct config.(connect_timeout), config.(tcp_nagle_algorithm);
    cbn; rewrite !elem_of_cons, ?elem_of_nil; unfold is_Some;
    destruct s as [| [] | | | |]; naive_solver.
Qed.

(** C16: A channel is made by one connection, to the endpoint of the configuration, which
    every other option reaches.  The endpoint of [tonic] is given, by one setter each, the
    override target, the timeout, the rate limit, the keepalive options and the header list
    size of HTTP/2, and the user agent, when they are set (and whether it is kept alive
    while idle); the TCP connector the keepalive options, the opposite of the Nagle option,
    and the connection timeout if there is one; TLS how the server is verified and the
    identity of the client; and the override target fixes the name that is verified.  What
    does not come from the configuration is constant: https and http URIs are accepted
    (by the TCP connector too, which leaves schemes to TLS), HTTP/1 and HTTP/2 are enabled,
    and the cryptography is that of the process, or ring. *)
Theorem options_reach_connection config channel :
  connect config = Return (Ok channel) →
  ∃ setters https,
    connect_with_connector config.(endpoint) setters https = Return (Ok channel) ∧
    NoDup (endpoint_setter_kind <$> setters) ∧
    (∀ s, s ∈ setters ↔
       match s with
       | set_origin origin => config.(override_target) = Some origin
       | set_timeout d => config.(timeout) = Some d
       | set_rate_limit limit d => config.(rate_limit) = Some (limit, d)
       | set_http2_keep_alive_interval d => config.(http2_keep_alive_interval) = Some d
       | set_keep_alive_timeout d => config.(http2_keep_alive_timeout) = Some d
       | set_keep_alive_while_idle b => config.(http2_keep_alive_while_idle) = b
       | set_http2_max_header_list_size n => config.(http2_max_header_list_size) = Some n
       | set_user_agent h => config.(user_agent) = Some h
       end) ∧
    NoDup (http_setter_kind <$> https.(http)) ∧
    (∀ s, s ∈ https.(http) ↔
       match s with
       | enforce_http b => b = false
       | set_nodelay b => config.(tcp_nagle_algorithm) = negb b
       | set_keepalive o => config.(tcp_keepalive) = o
       | set_keepalive_interval o => config.(tcp_keepalive_interval) = o
       | set_keepalive_retries o => config.(tcp_keepalive_retries) = o
       | set_connect_timeout o => is_Some o ∧ config.(connect_timeout) = o
       end) ∧
    (if config.(allow_unsafe_connection)
     then https.(tls_config).(verification) = CustomVerifier InsecureCertVerifier
     else ∃ roots, https.(tls_config).(verification) = RootCertificates roots ∧
                   roots_of config roots) ∧
    https.(tls_config).(client_auth) = (λ '(cert, key), ([cert], key)) <$> config.(identity) ∧
    named_by config https.(server_name_resolver) ∧
    https.(schemes) = HttpsOrHttp ∧
    https.(protocols) = [Http1; Http2] ∧
    https.(tls_config).(crypto_provider) = unwrap_or CryptoProvider_get_default ring_default_provider.
Proof.
  unfold connect. destruct (https_connector config) as [[https|e]|m] eqn:Hc; cbn; [|done..].
  destruct (connect_with_connector _ _ _) as [[c|e]|m] eqn:Hcw; cbn; [|done..]. intros [= <-].
  apply https_connector_Ok in Hc as (Ht & Hn & Hs & Hp & Hh).
  apply connector_tls_Ok in Ht as (Hv & Ha & Hprov). apply server_verification_Ok in Hv.
  exists (endpoint_setters config), https. rewrite Hh.
  split_and!; [done|apply endpoint_setters_kinds|apply elem_of_endpoint_setters
              |apply connector_http_kinds|apply elem_of_connector_http
              |done|done|by apply server_name_Ok|done..].
Qed.

Lemma from_config_args_rate_limit args config limit d :
  from_config_args args = Ok config → config.(rate_limit) = Some (limit, d) →
  limit ≠ 0%Z ∧ is_zero d = false.
Proof.
  intros Hc Hrl. apply from_config_args_Ok in Hc. unfold describes in Hc. destruct_and! Hc.
  match goal with H : rate_limit_spec _ _ |- _ => rewrite Hrl in H; rename H into Hs end.
  destruct Hs as [|(? & ? & ? & ? & ? & ? & ? & ? & ? & ? & ? & [= <- <-])]; naive_solver.
Qed.

(** C14: The endpoint is documented to panic on a rate limit of nothing, or over no time.
    With a configuration that was read from arguments, connecting never does: the one
    panic left is that of an override target whose host is not a server name (an override
    target without a host, for instance), once TLS is configured. *)
Theorem connect_panics args config msg :
  (∀ endpoint setters https msg,
     connect_with_connector endpoint setters https = Panic msg →
     ∃ limit d, set_rate_limit limit d ∈ setters ∧ (limit = 0%Z ∨ is_zero d = true)) →
  from_config_args args = Ok config →
  connect config = Panic msg ↔
  msg = "A valid URI host should be a valid ServerName" ∧
  (∃ tls, connector_tls config = Ok tls) ∧
  ∃ target e, config.(override_target) = Some target ∧
              ServerName_try_from (unwrap_or (Uri_host target) EmptyString) = Err e.
Proof.
  intros Hrl Hc. unfold connect, https_connector.
  destruct (connector_tls config) as [tls|e]; cbn; [|naive_solver].
  unfold connector_server_name.
  assert (∀ https, ∃ r,
    connect_with_connector config.(endpoint) (endpoint_setters config) https = Return r) as Hr.
  { intros https. destruct (connect_with_connector _ _ _) as [r|m] eqn:Hp; [by exists r|].
    apply Hrl in Hp as (limit & d & Hs & Hz). exfalso.
    apply elem_of_endpoint_setters in Hs.
    pose proof (from_config_args_rate_limit _ _ _ _ Hc Hs). naive_solver congruence. }
  destruct config.(override_target) as [target|]; cbn.
  - destruct (ServerName_try_from _) as [name|e] eqn:Hn; cbn; [|split; [intros [= <-]; eauto 10|by intros (-> & _)]].
    edestruct Hr as [r ->]. cbn. split; [done|].
    intros (_ & _ & target' & e & [= <-] & He). congruence.
  - edestruct Hr as [r ->]. cbn. split; [done|]. by intros (_ & _ & target & e & ? & _).
Qed.

(** C15: What each error of the creation of a client means: the environment could not
    be read as a configuration; the certificates of the system could not be read, and
    they were needed; TLS could not be configured, for the endpoint of the error; or the
    connection to the endpoint failed. *)
Theorem client_error_causes env e :
  new env = Return (Err e) →
  match e with
  | ConfigFailed source => from_env env = Err source
  | IoFailed source => native_roots = Err source ∧
      ∃ config, from_env env = Ok config ∧
        config.(allow_unsafe_connection) = false ∧ config.(cacert) = None
  | TlsFailed uri source => ∃ config, from_env env = Ok config ∧ uri = config.(endpoint) ∧
      let provider := unwrap_or CryptoProvider_get_default ring_default_provider in
      (safe_default_protocol_versions provider = Err source ∨
       (∃ cert, config.(allow_unsafe_connection) = false ∧ config.(cacert) = Some cert ∧
          RootCertStore_add RootCertStore_empty cert = Err source) ∨
       (∃ cert key, config.(identity) = Some (cert, key) ∧
          client_auth_cert provider [cert] key = Err source))
  | Transport uri source => ∃ config https, from_env env = Ok config ∧
      uri = config.(endpoint) ∧ https_connector config = Return (Ok https) ∧
      connect_with_connector uri (endpoint_setters config) https = Return (Err source)
  end.
Proof.
  unfold new, with_config, connect.
  destruct (from_env env) as [config|source] eqn:Henv;
    cbn -[https_connector]; [|by intros [= <-]].
  destruct (https_connector config) as [[https|he]|m] eqn:Hh; cbn -[https_connector]; [|..|done].
  - destruct (connect_with_connector _ _ _) as [[channel|source]|m] eqn:Hc; cbn; [done|..|done].
    intros [= <-]. eauto 10.
  - intros [= <-]. revert Hh. unfold https_connector.
    destruct (connector_tls config) as [tls|te] eqn:Ht; cbn;
      [by destruct (connector_server_name config)|]. intros [= ->].
    revert Ht. unfold connector_tls.
    destruct (safe_default_protocol_versions _) as [versions|source] eqn:Hv; cbn;
      [|intros [= <-]; eauto 10].
    destruct (server_verification config) as [v|ve] eqn:Hsv; cbn.
    + unfold client_identity. destruct config.(identity) as [[cert key]|] eqn:Hi; cbn; [|done].
      destruct (client_auth_cert _ _ _) eqn:Hca; cbn; [done|].
      intros [= <-]. eauto 10.
    + intros [= ->]. revert Hsv. unfold server_verification.
      destruct config.(allow_unsafe_connection) eqn:Ha; [done|].
      destruct config.(cacert) as [cert|] eqn:Hca.
      * destruct (RootCertStore_add _ _) eqn:Hadd; cbn; [done|]. intros [= <-]. eauto 12.
      * destruct native_roots eqn:Hnr; cbn; [done|]. intros [= <-]. eauto 10.
Qed.
End connect.
Arguments Client Channel : clear implicits.
