(* ===== verification/ConfigTests.v ===== *)
(** The tests of the transport ([mod tests] of [armonik-transport/src/config.rs] and of
    [utils.rs]), as programs that panic when they fail. *)

From Stdlib Require Import Strings.Ascii.
From S2P Require Import Prelude Std Env Config ConfigSpec Connect.

(** ** Assertions *)

(** [assert!], [result.expect_err(msg)], [option.expect(msg)]. *)
Definition assert (msg : string) (b : bool) : outcome unit :=
  if b then Return tt else Panic msg.

Definition expect_err {E A} (msg : string) (r : result E A) : outcome E :=
  match r with Err e => Return e | Ok _ => Panic msg end.

Definition expect_some {A} (msg : string) (o : option A) : outcome A :=
  match o with Some a => Return a | None => Panic msg end.

Definition is_none {A} (o : option A) : bool := match o with None => true | Some _ => false end.

(** [str::contains]. *)
Fixpoint contains (s sub : string) : bool :=
  String.prefix sub s || match s with String _ s => contains s sub | EmptyString => false end.

Lemma prefix_app sub a b : String.prefix sub a = true → String.prefix sub (a +:+ b) = true.
Proof.
  revert a. induction sub as [|c sub IH]; intros a Hp; [by destruct (a +:+ b)|].
  destruct a as [|d a]; [done|]. rewrite string_app_cons. cbn in *.
  destruct (Ascii.ascii_dec c d); [by apply IH|done].
Qed.

Lemma contains_app a b sub : contains a sub = true → contains (a +:+ b) sub = true.
Proof.
  induction a as [|c a IH]; rewrite ?string_app_nil, ?string_app_cons.
  - cbn. rewrite orb_false_r. intros Hp. pose proof (prefix_app sub EmptyString b Hp) as Hb.
    rewrite string_app_nil in Hb. by destruct b; cbn [contains]; rewrite Hb.
  - cbn [contains]. intros [Hp|Hc]%orb_true_iff; apply orb_true_iff;
      [left; by apply (prefix_app sub (String c a))|right; by apply IH].
Qed.

#[global] Instance Duration_eq_dec : EqDecision Duration.
Proof. solve_decision. Defined.

(** [Duration::from_millis]. *)
Definition from_millis (n : Z) : Duration := {|
  secs := n `div` 1000;
  subsec_nanos := n `mod` 1000 * 1000000 |}.

(** ** The environment ([utils.rs]) *)

Section env_tests.
(** [{value:?}] of bytes that are not text, and where errors are located. *)
Context (os_debug : list byte → string) (location : string).

(** The [Display] of [ReadEnvError]. *)
Definition display_read_env_error (e : ReadEnvError) : string :=
  match e with
  | NotUnicode name value =>
      "Environment variable `" +:+ name +:+ "=" +:+ os_debug value
      +:+ "` is not a valid unicode string [" +:+ location +:+ "]"
  | NotBoolean name value =>
      "Environment variable `" +:+ name +:+ "=" +:+ value
      +:+ "` is not a valid boolean [" +:+ location +:+ "]"
  end.

(** A variable that is set, or not, for the time of [body]; the environment it leaves. *)
Definition with_var {T} (name : string) (value : option string) (body : Environment → T)
    (env : Environment) : T * Environment :=
  let env := match value with
             | Some value => <[name := Unicode value]> env
             | None => delete name env
             end in
  (body env, delete name env).

(** A [for] loop whose body may panic. *)
Fixpoint for_each {A S} (l : list A) (body : A → S → outcome S) (s : S) : outcome S :=
  match l with
  | [] => Return s
  | a :: l => s ← body a s; for_each l body s
  end.

Definition every_accepted_spelling_is_accepted (env : Environment) : outcome Environment :=
  env ← for_each ["1"; "true"; "yes"; "enable"; "allow"; "authorize"] (λ spelling env,
    let '(read, env) := with_var "ARMONIK_TEST_BOOL" (Some spelling) (λ env,
      read_env_bool env "ARMONIK_TEST_BOOL") env in
    read ← expect spelling read;
    _ ← assert "should read as true" read;
    Return env) env;
  for_each ["0"; "false"; "no"; "disable"; "disallow"; "forbid"; EmptyString] (λ spelling env,
    let '(read, env) := with_var "ARMONIK_TEST_BOOL" (Some spelling) (λ env,
      read_env_bool env "ARMONIK_TEST_BOOL") env in
    read ← expect spelling read;
    _ ← assert "should read as false" (negb read);
    Return env) env.

Definition an_unset_variable_reads_as_false (env : Environment) : outcome Environment :=
  let '(read, env) := with_var "ARMONIK_TEST_BOOL" None (λ env,
    read_env_bool env "ARMONIK_TEST_BOOL") env in
  read ← expect "an unset variable" read;
  _ ← assert "!read" (negb read);
  Return env.

Definition an_unrecognised_value_is_reported_with_its_name_and_value (env : Environment)
    : outcome Environment :=
  let '(read, env) := with_var "ARMONIK_TEST_BOOL" (Some "perhaps") (λ env,
    read_env_bool env "ARMONIK_TEST_BOOL") env in
  error ← expect_err "`perhaps` is not a boolean" read;
  let rendered := display_read_env_error error in
  _ ← assert rendered (contains rendered "ARMONIK_TEST_BOOL");
  _ ← assert rendered (contains rendered "perhaps");
  Return env.

Definition reading_a_plain_string_passes_it_through_and_maps_absent_to_empty (env : Environment)
    : outcome Environment :=
  let '(value, env) := with_var "ARMONIK_TEST_STRING" (Some " spaced ") (λ env,
    read_env env "ARMONIK_TEST_STRING") env in
  value ← expect "set" value;
  _ ← assert "no trimming, no rewriting" (String.eqb value " spaced ");
  let '(absent, env) := with_var "ARMONIK_TEST_STRING" None (λ env,
    read_env env "ARMONIK_TEST_STRING") env in
  absent ← expect "unset" absent;
  _ ← assert "absent reads as empty" (String.eqb absent EmptyString);
  Return env.

Definition env_tests : list (Environment → outcome Environment) :=
  [every_accepted_spelling_is_accepted;
   an_unset_variable_reads_as_false;
   an_unrecognised_value_is_reported_with_its_name_and_value;
   reading_a_plain_string_passes_it_through_and_maps_absent_to_empty].

End env_tests.

(** ** The configuration ([config.rs]) *)

(** What the tests look at in URIs and in the errors of other crates: their texts, and the
    [Display] of an error followed by those of its sources. *)
Class ConfigTestDeps `{!ConfigDeps} : Type := {
  Scheme_as_str : Scheme → string;
  Authority_as_str : Authority → string;
  Uri_path : Uri → string;
  display_tls : PemError → list string;
  display_uri : InvalidUri → list string;
  display_http : HttpError → list string;
  display_io : IoError → list string;
  display_duration : DurationError → list string;
  display_header : InvalidHeaderValue → list string
}.

Section config_tests.
Context `{!ConfigDeps} `{!ConfigTestDeps} (os_debug : list byte → string) (location : string).

(** The [Display] of [std::num::ParseIntError]. *)
Definition display_int (e : IntErrorKind) : string :=
  match e with
  | Empty => "cannot parse integer from empty string"
  | InvalidDigit => "invalid digit found in string"
  | PosOverflow => "number too large to fit in target type"
  end.

(** [error.source()], and the sources of the source. *)
Definition sources (e : ConfigError) : list string :=
  match e with
  | Config.Env source => [display_read_env_error os_debug location source]
  | Tls source => display_tls source
  | UriError source _ => display_uri source
  | Http source _ => display_http source
  | Io source _ => display_io source
  | IncompatibleOptions _ => []
  | InvalidDuration source _ => display_duration source
  | InvalidRateLimitCount source _ | InvalidInteger source _ => [display_int source]
  | InvalidUserAgent source _ => display_header source
  end.

Definition chain (error : ConfigError) : string :=
  foldl (λ rendered cause, rendered +:+ " | " +:+ cause) (display location error) (sources error).

(** [ClientConfigArgs { endpoint, ..Default::default() }]. *)
Definition args : ClientConfigArgs.t := {|
  ClientConfigArgs.endpoint := "http://localhost:5001";
  ClientConfigArgs.cert_pem := dflt;
  ClientConfigArgs.key_pem := dflt;
  ClientConfigArgs.ca_cert := dflt;
  ClientConfigArgs.allow_unsafe_connection := dflt;
  ClientConfigArgs.override_target_name := dflt;
  ClientConfigArgs.connect_timeout := dflt;
  ClientConfigArgs.timeout := dflt;
  ClientConfigArgs.rate_limit := dflt;
  ClientConfigArgs.tcp_keepalive := dflt;
  ClientConfigArgs.tcp_keepalive_interval := dflt;
  ClientConfigArgs.tcp_keepalive_retries := dflt;
  ClientConfigArgs.tcp_nagle_algorithm := dflt;
  ClientConfigArgs.http2_keep_alive_interval := dflt;
  ClientConfigArgs.http2_keep_alive_timeout := dflt;
  ClientConfigArgs.http2_keep_alive_while_idle := dflt;
  ClientConfigArgs.http2_max_header_list_size := dflt;
  ClientConfigArgs.user_agent := dflt |}.

Definition the_minimum_is_an_endpoint : outcome unit :=
  config ← expect "an endpoint is enough" (from_config_args args);
  _ ← assert "assertion failed" (String.eqb (Uri_to_string config.(endpoint)) "http://localhost:5001/");
  _ ← assert "assertion failed" (is_none config.(identity));
  _ ← assert "assertion failed" (is_none config.(cacert));
  _ ← assert "assertion failed" (is_none config.(override_target));
  _ ← assert "assertion failed" (is_none config.(rate_limit));
  Return tt.

Definition an_endpoint_that_is_not_a_uri_is_reported : outcome unit :=
  error ← expect_err "an empty endpoint is not a URI" (from_config_args {|
    ClientConfigArgs.endpoint := EmptyString;
    ClientConfigArgs.cert_pem := args.(ClientConfigArgs.cert_pem);
    ClientConfigArgs.key_pem := args.(ClientConfigArgs.key_pem);
    ClientConfigArgs.ca_cert := args.(ClientConfigArgs.ca_cert);
    ClientConfigArgs.allow_unsafe_connection := args.(ClientConfigArgs.allow_unsafe_connection);
    ClientConfigArgs.override_target_name := args.(ClientConfigArgs.override_target_name);
    ClientConfigArgs.connect_timeout := args.(ClientConfigArgs.connect_timeout);
    ClientConfigArgs.timeout := args.(ClientConfigArgs.timeout);
    ClientConfigArgs.rate_limit := args.(ClientConfigArgs.rate_limit);
    ClientConfigArgs.tcp_keepalive := args.(ClientConfigArgs.tcp_keepalive);
    ClientConfigArgs.tcp_keepalive_interval := args.(ClientConfigArgs.tcp_keepalive_interval);
    ClientConfigArgs.tcp_keepalive_retries := args.(ClientConfigArgs.tcp_keepalive_retries);
    ClientConfigArgs.tcp_nagle_algorithm := args.(ClientConfigArgs.tcp_nagle_algorithm);
    ClientConfigArgs.http2_keep_alive_interval := args.(ClientConfigArgs.http2_keep_alive_interval);
    ClientConfigArgs.http2_keep_alive_timeout := args.(ClientConfigArgs.http2_keep_alive_timeout);
    ClientConfigArgs.http2_keep_alive_while_idle := args.(ClientConfigArgs.http2_keep_alive_while_idle);
    ClientConfigArgs.http2_max_header_list_size := args.(ClientConfigArgs.http2_max_header_list_size);
    ClientConfigArgs.user_agent := args.(ClientConfigArgs.user_agent) |});
  _ ← assert "error" match error with UriError _ _ => true | _ => false end;
  Return tt.

Definition durations_are_read_in_the_units_they_are_written_in : outcome unit :=
  config ← expect "valid durations" (from_config_args {|
    ClientConfigArgs.endpoint := args.(ClientConfigArgs.endpoint);
    ClientConfigArgs.cert_pem := args.(ClientConfigArgs.cert_pem);
    ClientConfigArgs.key_pem := args.(ClientConfigArgs.key_pem);
    ClientConfigArgs.ca_cert := args.(ClientConfigArgs.ca_cert);
    ClientConfigArgs.allow_unsafe_connection := args.(ClientConfigArgs.allow_unsafe_connection);
    ClientConfigArgs.override_target_name := args.(ClientConfigArgs.override_target_name);
    ClientConfigArgs.connect_timeout := "500ms";
    ClientConfigArgs.timeout := args.(ClientConfigArgs.timeout);
    ClientConfigArgs.rate_limit := args.(ClientConfigArgs.rate_limit);
    ClientConfigArgs.tcp_keepalive := "30s";
    ClientConfigArgs.tcp_keepalive_interval := "2m";
    ClientConfigArgs.tcp_keepalive_retries := args.(ClientConfigArgs.tcp_keepalive_retries);
    ClientConfigArgs.tcp_nagle_algorithm := args.(ClientConfigArgs.tcp_nagle_algorithm);
    ClientConfigArgs.http2_keep_alive_interval := "1h";
    ClientConfigArgs.http2_keep_alive_timeout := args.(ClientConfigArgs.http2_keep_alive_timeout);
    ClientConfigArgs.http2_keep_alive_while_idle := args.(ClientConfigArgs.http2_keep_alive_while_idle);
    ClientConfigArgs.http2_max_header_list_size := args.(ClientConfigArgs.http2_max_header_list_size);
    ClientConfigArgs.user_agent := args.(ClientConfigArgs.user_agent) |});
  _ ← assert "assertion failed" (bool_decide (config.(connect_timeout) = Some (from_millis 500)));
  _ ← assert "assertion failed" (bool_decide (config.(tcp_keepalive) = Some (from_secs 30)));
  _ ← assert "assertion failed" (bool_decide (config.(tcp_keepalive_interval) = Some (from_secs 120)));
  _ ← assert "assertion failed" (bool_decide (config.(http2_keep_alive_interval) = Some (from_secs 3600)));
  Return tt.

Definition a_duration_that_cannot_be_parsed_names_the_value : outcome unit :=
  error ← expect_err "`soon` is not a duration" (from_config_args {|
    ClientConfigArgs.endpoint := args.(ClientConfigArgs.endpoint);
    ClientConfigArgs.cert_pem := args.(ClientConfigArgs.cert_pem);
    ClientConfigArgs.key_pem := args.(ClientConfigArgs.key_pem);
    ClientConfigArgs.ca_cert := args.(ClientConfigArgs.ca_cert);
    ClientConfigArgs.allow_unsafe_connection := args.(ClientConfigArgs.allow_unsafe_connection);
    ClientConfigArgs.override_target_name := args.(ClientConfigArgs.override_target_name);
    ClientConfigArgs.connect_timeout := args.(ClientConfigArgs.connect_timeout);
    ClientConfigArgs.timeout := args.(ClientConfigArgs.timeout);
    ClientConfigArgs.rate_limit := args.(ClientConfigArgs.rate_limit);
    ClientConfigArgs.tcp_keepalive := "soon";
    ClientConfigArgs.tcp_keepalive_interval := args.(ClientConfigArgs.tcp_keepalive_interval);
    ClientConfigArgs.tcp_keepalive_retries := args.(ClientConfigArgs.tcp_keepalive_retries);
    ClientConfigArgs.tcp_nagle_algorithm := args.(ClientConfigArgs.tcp_nagle_algorithm);
    ClientConfigArgs.http2_keep_alive_interval := args.(ClientConfigArgs.http2_keep_alive_interval);
    ClientConfigArgs.http2_keep_alive_timeout := args.(ClientConfigArgs.http2_keep_alive_timeout);
    ClientConfigArgs.http2_keep_alive_while_idle := args.(ClientConfigArgs.http2_keep_alive_while_idle);
    ClientConfigArgs.http2_max_header_list_size := args.(ClientConfigArgs.http2_max_header_list_size);
    ClientConfigArgs.user_agent := args.(ClientConfigArgs.user_agent) |});
  _ ← assert "error" match error with InvalidDuration _ _ => true | _ => false end;
  _ ← assert "assertion failed" (contains (chain error) "soon");
  Return tt.

Definition integers_are_read_and_a_bad_one_names_the_value : outcome unit :=
  config ← expect "valid integers" (from_config_args {|
    ClientConfigArgs.endpoint := args.(ClientConfigArgs.endpoint);
    ClientConfigArgs.cert_pem := args.(ClientConfigArgs.cert_pem);
    ClientConfigArgs.key_pem := args.(ClientConfigArgs.key_pem);
    ClientConfigArgs.ca_cert := args.(ClientConfigArgs.ca_cert);
    ClientConfigArgs.allow_unsafe_connection := args.(ClientConfigArgs.allow_unsafe_connection);
    ClientConfigArgs.override_target_name := args.(ClientConfigArgs.override_target_name);
    ClientConfigArgs.connect_timeout := args.(ClientConfigArgs.connect_timeout);
    ClientConfigArgs.timeout := args.(ClientConfigArgs.timeout);
    ClientConfigArgs.rate_limit := args.(ClientConfigArgs.rate_limit);
    ClientConfigArgs.tcp_keepalive := args.(ClientConfigArgs.tcp_keepalive);
    ClientConfigArgs.tcp_keepalive_interval := args.(ClientConfigArgs.tcp_keepalive_interval);
    ClientConfigArgs.tcp_keepalive_retries := "3";
    ClientConfigArgs.tcp_nagle_algorithm := args.(ClientConfigArgs.tcp_nagle_algorithm);
    ClientConfigArgs.http2_keep_alive_interval := args.(ClientConfigArgs.http2_keep_alive_interval);
    ClientConfigArgs.http2_keep_alive_timeout := args.(ClientConfigArgs.http2_keep_alive_timeout);
    ClientConfigArgs.http2_keep_alive_while_idle := args.(ClientConfigArgs.http2_keep_alive_while_idle);
    ClientConfigArgs.http2_max_header_list_size := "16384";
    ClientConfigArgs.user_agent := args.(ClientConfigArgs.user_agent) |});
  _ ← assert "assertion failed" (bool_decide (config.(tcp_keepalive_retries) = Some 3%Z));
  _ ← assert "assertion failed" (bool_decide (config.(http2_max_header_list_size) = Some 16384%Z));
  error ← expect_err "`many` is not an integer" (from_config_args {|
    ClientConfigArgs.endpoint := args.(ClientConfigArgs.endpoint);
    ClientConfigArgs.cert_pem := args.(ClientConfigArgs.cert_pem);
    ClientConfigArgs.key_pem := args.(ClientConfigArgs.key_pem);
    ClientConfigArgs.ca_cert := args.(ClientConfigArgs.ca_cert);
    ClientConfigArgs.allow_unsafe_connection := args.(ClientConfigArgs.allow_unsafe_connection);
    ClientConfigArgs.override_target_name := args.(ClientConfigArgs.override_target_name);
    ClientConfigArgs.connect_timeout := args.(ClientConfigArgs.connect_timeout);
    ClientConfigArgs.timeout := args.(ClientConfigArgs.timeout);
    ClientConfigArgs.rate_limit := args.(ClientConfigArgs.rate_limit);
    ClientConfigArgs.tcp_keepalive := args.(ClientConfigArgs.tcp_keepalive);
    ClientConfigArgs.tcp_keepalive_interval := args.(ClientConfigArgs.tcp_keepalive_interval);
    ClientConfigArgs.tcp_keepalive_retries := "many";
    ClientConfigArgs.tcp_nagle_algorithm := args.(ClientConfigArgs.tcp_nagle_algorithm);
    ClientConfigArgs.http2_keep_alive_interval := args.(ClientConfigArgs.http2_keep_alive_interval);
    ClientConfigArgs.http2_keep_alive_timeout := args.(ClientConfigArgs.http2_keep_alive_timeout);
    ClientConfigArgs.http2_keep_alive_while_idle := args.(ClientConfigArgs.http2_keep_alive_while_idle);
    ClientConfigArgs.http2_max_header_list_size := args.(ClientConfigArgs.http2_max_header_list_size);
    ClientConfigArgs.user_agent := args.(ClientConfigArgs.user_agent) |});
  _ ← assert "error" match error with InvalidInteger _ _ => true | _ => false end;
  _ ← assert "assertion failed" (contains (chain error) "many");
  Return tt.

Definition an_integer_that_does_not_fit_is_rejected_rather_than_wrapped : outcome unit :=
  error ← expect_err "2^32 does not fit in a u32" (from_config_args {|
    ClientConfigArgs.endpoint := args.(ClientConfigArgs.endpoint);
    ClientConfigArgs.cert_pem := args.(ClientConfigArgs.cert_pem);
    ClientConfigArgs.key_pem := args.(ClientConfigArgs.key_pem);
    ClientConfigArgs.ca_cert := args.(ClientConfigArgs.ca_cert);
    ClientConfigArgs.allow_unsafe_connection := args.(ClientConfigArgs.allow_unsafe_connection);
    ClientConfigArgs.override_target_name := args.(ClientConfigArgs.override_target_name);
    ClientConfigArgs.connect_timeout := args.(ClientConfigArgs.connect_timeout);
    ClientConfigArgs.timeout := args.(ClientConfigArgs.timeout);
    ClientConfigArgs.rate_limit := args.(ClientConfigArgs.rate_limit);
    ClientConfigArgs.tcp_keepalive := args.(ClientConfigArgs.tcp_keepalive);
    ClientConfigArgs.tcp_keepalive_interval := args.(ClientConfigArgs.tcp_keepalive_interval);
    ClientConfigArgs.tcp_keepalive_retries := args.(ClientConfigArgs.tcp_keepalive_retries);
    ClientConfigArgs.tcp_nagle_algorithm := args.(ClientConfigArgs.tcp_nagle_algorithm);
    ClientConfigArgs.http2_keep_alive_interval := args.(ClientConfigArgs.http2_keep_alive_interval);
    ClientConfigArgs.http2_keep_alive_timeout := args.(ClientConfigArgs.http2_keep_alive_timeout);
    ClientConfigArgs.http2_keep_alive_while_idle := args.(ClientConfigArgs.http2_keep_alive_while_idle);
    ClientConfigArgs.http2_max_header_list_size := "4294967296";
    ClientConfigArgs.user_agent := args.(ClientConfigArgs.user_agent) |});
  _ ← assert "error" match error with InvalidInteger _ _ => true | _ => false end;
  Return tt.

Definition a_rate_limit_is_a_count_and_a_duration : outcome unit :=
  config ← expect "valid" (from_config_args {|
    ClientConfigArgs.endpoint := args.(ClientConfigArgs.endpoint);
    ClientConfigArgs.cert_pem := args.(ClientConfigArgs.cert_pem);
    ClientConfigArgs.key_pem := args.(ClientConfigArgs.key_pem);
    ClientConfigArgs.ca_cert := args.(ClientConfigArgs.ca_cert);
    ClientConfigArgs.allow_unsafe_connection := args.(ClientConfigArgs.allow_unsafe_connection);
    ClientConfigArgs.override_target_name := args.(ClientConfigArgs.override_target_name);
    ClientConfigArgs.connect_timeout := args.(ClientConfigArgs.connect_timeout);
    ClientConfigArgs.timeout := args.(ClientConfigArgs.timeout);
    ClientConfigArgs.rate_limit := "100/1s";
    ClientConfigArgs.tcp_keepalive := args.(ClientConfigArgs.tcp_keepalive);
    ClientConfigArgs.tcp_keepalive_interval := args.(ClientConfigArgs.tcp_keepalive_interval);
    ClientConfigArgs.tcp_keepalive_retries := args.(ClientConfigArgs.tcp_keepalive_retries);
    ClientConfigArgs.tcp_nagle_algorithm := args.(ClientConfigArgs.tcp_nagle_algorithm);
    ClientConfigArgs.http2_keep_alive_interval := args.(ClientConfigArgs.http2_keep_alive_interval);
    ClientConfigArgs.http2_keep_alive_timeout := args.(ClientConfigArgs.http2_keep_alive_timeout);
    ClientConfigArgs.http2_keep_alive_while_idle := args.(ClientConfigArgs.http2_keep_alive_while_idle);
    ClientConfigArgs.http2_max_header_list_size := args.(ClientConfigArgs.http2_max_header_list_size);
    ClientConfigArgs.user_agent := args.(ClientConfigArgs.user_agent) |});
  _ ← assert "assertion failed" (bool_decide (config.(rate_limit) = Some (100%Z, from_secs 1)));
  Return tt.

Definition a_zero_rate_limit_is_rejected_rather_than_left_to_panic : outcome unit :=
  for_each ["0/1s"; "1/0s"; "0/0s"] (λ value _,
  error ← expect_err "a zero rate limit must be rejected" (from_config_args {|
      ClientConfigArgs.endpoint := args.(ClientConfigArgs.endpoint);
      ClientConfigArgs.cert_pem := args.(ClientConfigArgs.cert_pem);
      ClientConfigArgs.key_pem := args.(ClientConfigArgs.key_pem);
      ClientConfigArgs.ca_cert := args.(ClientConfigArgs.ca_cert);
      ClientConfigArgs.allow_unsafe_connection := args.(ClientConfigArgs.allow_unsafe_connection);
      ClientConfigArgs.override_target_name := args.(ClientConfigArgs.override_target_name);
      ClientConfigArgs.connect_timeout := args.(ClientConfigArgs.connect_timeout);
      ClientConfigArgs.timeout := args.(ClientConfigArgs.timeout);
      ClientConfigArgs.rate_limit := value;
      ClientConfigArgs.tcp_keepalive := args.(ClientConfigArgs.tcp_keepalive);
      ClientConfigArgs.tcp_keepalive_interval := args.(ClientConfigArgs.tcp_keepalive_interval);
      ClientConfigArgs.tcp_keepalive_retries := args.(ClientConfigArgs.tcp_keepalive_retries);
      ClientConfigArgs.tcp_nagle_algorithm := args.(ClientConfigArgs.tcp_nagle_algorithm);
      ClientConfigArgs.http2_keep_alive_interval := args.(ClientConfigArgs.http2_keep_alive_interval);
      ClientConfigArgs.http2_keep_alive_timeout := args.(ClientConfigArgs.http2_keep_alive_timeout);
      ClientConfigArgs.http2_keep_alive_while_idle := args.(ClientConfigArgs.http2_keep_alive_while_idle);
      ClientConfigArgs.http2_max_header_list_size := args.(ClientConfigArgs.http2_max_header_list_size);
      ClientConfigArgs.user_agent := args.(ClientConfigArgs.user_agent) |});
    let error := display location error in
    _ ← assert "assertion failed" (contains error "zero count or duration");
    _ ← assert "assertion failed" (contains error value);
    Return tt) tt.

Definition a_rate_limit_missing_its_duration_is_reported_with_the_expected_shape : outcome unit :=
  error ← expect_err "a rate limit needs both halves" (from_config_args {|
    ClientConfigArgs.endpoint := args.(ClientConfigArgs.endpoint);
    ClientConfigArgs.cert_pem := args.(ClientConfigArgs.cert_pem);
    ClientConfigArgs.key_pem := args.(ClientConfigArgs.key_pem);
    ClientConfigArgs.ca_cert := args.(ClientConfigArgs.ca_cert);
    ClientConfigArgs.allow_unsafe_connection := args.(ClientConfigArgs.allow_unsafe_connection);
    ClientConfigArgs.override_target_name := args.(ClientConfigArgs.override_target_name);
    ClientConfigArgs.connect_timeout := args.(ClientConfigArgs.connect_timeout);
    ClientConfigArgs.timeout := args.(ClientConfigArgs.timeout);
    ClientConfigArgs.rate_limit := "100";
    ClientConfigArgs.tcp_keepalive := args.(ClientConfigArgs.tcp_keepalive);
    ClientConfigArgs.tcp_keepalive_interval := args.(ClientConfigArgs.tcp_keepalive_interval);
    ClientConfigArgs.tcp_keepalive_retries := args.(ClientConfigArgs.tcp_keepalive_retries);
    ClientConfigArgs.tcp_nagle_algorithm := args.(ClientConfigArgs.tcp_nagle_algorithm);
    ClientConfigArgs.http2_keep_alive_interval := args.(ClientConfigArgs.http2_keep_alive_interval);
    ClientConfigArgs.http2_keep_alive_timeout := args.(ClientConfigArgs.http2_keep_alive_timeout);
    ClientConfigArgs.http2_keep_alive_while_idle := args.(ClientConfigArgs.http2_keep_alive_while_idle);
    ClientConfigArgs.http2_max_header_list_size := args.(ClientConfigArgs.http2_max_header_list_size);
    ClientConfigArgs.user_agent := args.(ClientConfigArgs.user_agent) |});
  _ ← assert "error" match error with IncompatibleOptions _ => true | _ => false end;
  let rendered := chain error in
  _ ← assert "assertion failed" (contains rendered "number/duration");
  _ ← assert "assertion failed" (contains rendered "100");
  Return tt.

Definition each_half_of_a_rate_limit_is_validated_separately : outcome unit :=
  count ← expect_err "`plenty` is not a count" (from_config_args {|
    ClientConfigArgs.endpoint := args.(ClientConfigArgs.endpoint);
    ClientConfigArgs.cert_pem := args.(ClientConfigArgs.cert_pem);
    ClientConfigArgs.key_pem := args.(ClientConfigArgs.key_pem);
    ClientConfigArgs.ca_cert := args.(ClientConfigArgs.ca_cert);
    ClientConfigArgs.allow_unsafe_connection := args.(ClientConfigArgs.allow_unsafe_connection);
    ClientConfigArgs.override_target_name := args.(ClientConfigArgs.override_target_name);
    ClientConfigArgs.connect_timeout := args.(ClientConfigArgs.connect_timeout);
    ClientConfigArgs.timeout := args.(ClientConfigArgs.timeout);
    ClientConfigArgs.rate_limit := "plenty/1s";
    ClientConfigArgs.tcp_keepalive := args.(ClientConfigArgs.tcp_keepalive);
    ClientConfigArgs.tcp_keepalive_interval := args.(ClientConfigArgs.tcp_keepalive_interval);
    ClientConfigArgs.tcp_keepalive_retries := args.(ClientConfigArgs.tcp_keepalive_retries);
    ClientConfigArgs.tcp_nagle_algorithm := args.(ClientConfigArgs.tcp_nagle_algorithm);
    ClientConfigArgs.http2_keep_alive_interval := args.(ClientConfigArgs.http2_keep_alive_interval);
    ClientConfigArgs.http2_keep_alive_timeout := args.(ClientConfigArgs.http2_keep_alive_timeout);
    ClientConfigArgs.http2_keep_alive_while_idle := args.(ClientConfigArgs.http2_keep_alive_while_idle);
    ClientConfigArgs.http2_max_header_list_size := args.(ClientConfigArgs.http2_max_header_list_size);
    ClientConfigArgs.user_agent := args.(ClientConfigArgs.user_agent) |});
  _ ← assert "error" match count with InvalidRateLimitCount _ _ => true | _ => false end;
  duration ← expect_err "`soon` is not a duration" (from_config_args {|
    ClientConfigArgs.endpoint := args.(ClientConfigArgs.endpoint);
    ClientConfigArgs.cert_pem := args.(ClientConfigArgs.cert_pem);
    ClientConfigArgs.key_pem := args.(ClientConfigArgs.key_pem);
    ClientConfigArgs.ca_cert := args.(ClientConfigArgs.ca_cert);
    ClientConfigArgs.allow_unsafe_connection := args.(ClientConfigArgs.allow_unsafe_connection);
    ClientConfigArgs.override_target_name := args.(ClientConfigArgs.override_target_name);
    ClientConfigArgs.connect_timeout := args.(ClientConfigArgs.connect_timeout);
    ClientConfigArgs.timeout := args.(ClientConfigArgs.timeout);
    ClientConfigArgs.rate_limit := "100/soon";
    ClientConfigArgs.tcp_keepalive := args.(ClientConfigArgs.tcp_keepalive);
    ClientConfigArgs.tcp_keepalive_interval := args.(ClientConfigArgs.tcp_keepalive_interval);
    ClientConfigArgs.tcp_keepalive_retries := args.(ClientConfigArgs.tcp_keepalive_retries);
    ClientConfigArgs.tcp_nagle_algorithm := args.(ClientConfigArgs.tcp_nagle_algorithm);
    ClientConfigArgs.http2_keep_alive_interval := args.(ClientConfigArgs.http2_keep_alive_interval);
    ClientConfigArgs.http2_keep_alive_timeout := args.(ClientConfigArgs.http2_keep_alive_timeout);
    ClientConfigArgs.http2_keep_alive_while_idle := args.(ClientConfigArgs.http2_keep_alive_while_idle);
    ClientConfigArgs.http2_max_header_list_size := args.(ClientConfigArgs.http2_max_header_list_size);
    ClientConfigArgs.user_agent := args.(ClientConfigArgs.user_agent) |});
  _ ← assert "error" match duration with InvalidDuration _ _ => true | _ => false end;
  Return tt.

Definition half_an_identity_is_rejected_and_names_both_variables : outcome unit :=
  for_each [("cert.pem", EmptyString); (EmptyString, "key.pem")] (λ '(cert, key) _,
  error ← expect_err "half an identity must be rejected" (from_config_args {|
      ClientConfigArgs.endpoint := args.(ClientConfigArgs.endpoint);
      ClientConfigArgs.cert_pem := cert;
      ClientConfigArgs.key_pem := key;
      ClientConfigArgs.ca_cert := args.(ClientConfigArgs.ca_cert);
      ClientConfigArgs.allow_unsafe_connection := args.(ClientConfigArgs.allow_unsafe_connection);
      ClientConfigArgs.override_target_name := args.(ClientConfigArgs.override_target_name);
      ClientConfigArgs.connect_timeout := args.(ClientConfigArgs.connect_timeout);
      ClientConfigArgs.timeout := args.(ClientConfigArgs.timeout);
      ClientConfigArgs.rate_limit := args.(ClientConfigArgs.rate_limit);
      ClientConfigArgs.tcp_keepalive := args.(ClientConfigArgs.tcp_keepalive);
      ClientConfigArgs.tcp_keepalive_interval := args.(ClientConfigArgs.tcp_keepalive_interval);
      ClientConfigArgs.tcp_keepalive_retries := args.(ClientConfigArgs.tcp_keepalive_retries);
      ClientConfigArgs.tcp_nagle_algorithm := args.(ClientConfigArgs.tcp_nagle_algorithm);
      ClientConfigArgs.http2_keep_alive_interval := args.(ClientConfigArgs.http2_keep_alive_interval);
      ClientConfigArgs.http2_keep_alive_timeout := args.(ClientConfigArgs.http2_keep_alive_timeout);
      ClientConfigArgs.http2_keep_alive_while_idle := args.(ClientConfigArgs.http2_keep_alive_while_idle);
      ClientConfigArgs.http2_max_header_list_size := args.(ClientConfigArgs.http2_max_header_list_size);
      ClientConfigArgs.user_agent := args.(ClientConfigArgs.user_agent) |});
    _ ← assert "error" match error with IncompatibleOptions _ => true | _ => false end;
    let rendered := chain error in
    _ ← assert "assertion failed" (contains rendered "GrpcClient__CertPem");
    _ ← assert "assertion failed" (contains rendered "GrpcClient__KeyPem");
    Return tt) tt.

Definition neither_half_is_no_identity_rather_than_an_error : outcome unit :=
  config ← expect "valid" (from_config_args args);
  _ ← assert "assertion failed" (is_none config.(identity));
  Return tt.

Definition a_certificate_path_that_does_not_exist_is_reported_with_the_path : outcome unit :=
  error ← expect_err "a missing file must be reported" (from_config_args {|
    ClientConfigArgs.endpoint := args.(ClientConfigArgs.endpoint);
    ClientConfigArgs.cert_pem := "no/such/cert.pem";
    ClientConfigArgs.key_pem := "no/such/key.pem";
    ClientConfigArgs.ca_cert := args.(ClientConfigArgs.ca_cert);
    ClientConfigArgs.allow_unsafe_connection := args.(ClientConfigArgs.allow_unsafe_connection);
    ClientConfigArgs.override_target_name := args.(ClientConfigArgs.override_target_name);
    ClientConfigArgs.connect_timeout := args.(ClientConfigArgs.connect_timeout);
    ClientConfigArgs.timeout := args.(ClientConfigArgs.timeout);
    ClientConfigArgs.rate_limit := args.(ClientConfigArgs.rate_limit);
    ClientConfigArgs.tcp_keepalive := args.(ClientConfigArgs.tcp_keepalive);
    ClientConfigArgs.tcp_keepalive_interval := args.(ClientConfigArgs.tcp_keepalive_interval);
    ClientConfigArgs.tcp_keepalive_retries := args.(ClientConfigArgs.tcp_keepalive_retries);
    ClientConfigArgs.tcp_nagle_algorithm := args.(ClientConfigArgs.tcp_nagle_algorithm);
    ClientConfigArgs.http2_keep_alive_interval := args.(ClientConfigArgs.http2_keep_alive_interval);
    ClientConfigArgs.http2_keep_alive_timeout := args.(ClientConfigArgs.http2_keep_alive_timeout);
    ClientConfigArgs.http2_keep_alive_while_idle := args.(ClientConfigArgs.http2_keep_alive_while_idle);
    ClientConfigArgs.http2_max_header_list_size := args.(ClientConfigArgs.http2_max_header_list_size);
    ClientConfigArgs.user_agent := args.(ClientConfigArgs.user_agent) |});
  _ ← assert "error" match error with Io _ _ => true | _ => false end;
  _ ← assert "assertion failed" (contains (chain error) "no/such/cert.pem");
  Return tt.

Definition a_missing_ca_certificate_is_reported_with_the_path : outcome unit :=
  error ← expect_err "a missing file must be reported" (from_config_args {|
    ClientConfigArgs.endpoint := args.(ClientConfigArgs.endpoint);
    ClientConfigArgs.cert_pem := args.(ClientConfigArgs.cert_pem);
    ClientConfigArgs.key_pem := args.(ClientConfigArgs.key_pem);
    ClientConfigArgs.ca_cert := "no/such/ca.pem";
    ClientConfigArgs.allow_unsafe_connection := args.(ClientConfigArgs.allow_unsafe_connection);
    ClientConfigArgs.override_target_name := args.(ClientConfigArgs.override_target_name);
    ClientConfigArgs.connect_timeout := args.(ClientConfigArgs.connect_timeout);
    ClientConfigArgs.timeout := args.(ClientConfigArgs.timeout);
    ClientConfigArgs.rate_limit := args.(ClientConfigArgs.rate_limit);
    ClientConfigArgs.tcp_keepalive := args.(ClientConfigArgs.tcp_keepalive);
    ClientConfigArgs.tcp_keepalive_interval := args.(ClientConfigArgs.tcp_keepalive_interval);
    ClientConfigArgs.tcp_keepalive_retries := args.(ClientConfigArgs.tcp_keepalive_retries);
    ClientConfigArgs.tcp_nagle_algorithm := args.(ClientConfigArgs.tcp_nagle_algorithm);
    ClientConfigArgs.http2_keep_alive_interval := args.(ClientConfigArgs.http2_keep_alive_interval);
    ClientConfigArgs.http2_keep_alive_timeout := args.(ClientConfigArgs.http2_keep_alive_timeout);
    ClientConfigArgs.http2_keep_alive_while_idle := args.(ClientConfigArgs.http2_keep_alive_while_idle);
    ClientConfigArgs.http2_max_header_list_size := args.(ClientConfigArgs.http2_max_header_list_size);
    ClientConfigArgs.user_agent := args.(ClientConfigArgs.user_agent) |});
  _ ← assert "error" match error with Io _ _ => true | _ => false end;
  _ ← assert "assertion failed" (contains (chain error) "no/such/ca.pem");
  Return tt.

Definition an_override_target_given_as_a_host_keeps_the_endpoints_scheme_and_path : outcome unit :=
  config ← expect "valid" (from_config_args {|
    ClientConfigArgs.endpoint := "https://10.0.0.1:5003/base";
    ClientConfigArgs.cert_pem := args.(ClientConfigArgs.cert_pem);
    ClientConfigArgs.key_pem := args.(ClientConfigArgs.key_pem);
    ClientConfigArgs.ca_cert := args.(ClientConfigArgs.ca_cert);
    ClientConfigArgs.allow_unsafe_connection := args.(ClientConfigArgs.allow_unsafe_connection);
    ClientConfigArgs.override_target_name := "server.example.com";
    ClientConfigArgs.connect_timeout := args.(ClientConfigArgs.connect_timeout);
    ClientConfigArgs.timeout := args.(ClientConfigArgs.timeout);
    ClientConfigArgs.rate_limit := args.(ClientConfigArgs.rate_limit);
    ClientConfigArgs.tcp_keepalive := args.(ClientConfigArgs.tcp_keepalive);
    ClientConfigArgs.tcp_keepalive_interval := args.(ClientConfigArgs.tcp_keepalive_interval);
    ClientConfigArgs.tcp_keepalive_retries := args.(ClientConfigArgs.tcp_keepalive_retries);
    ClientConfigArgs.tcp_nagle_algorithm := args.(ClientConfigArgs.tcp_nagle_algorithm);
    ClientConfigArgs.http2_keep_alive_interval := args.(ClientConfigArgs.http2_keep_alive_interval);
    ClientConfigArgs.http2_keep_alive_timeout := args.(ClientConfigArgs.http2_keep_alive_timeout);
    ClientConfigArgs.http2_keep_alive_while_idle := args.(ClientConfigArgs.http2_keep_alive_while_idle);
    ClientConfigArgs.http2_max_header_list_size := args.(ClientConfigArgs.http2_max_header_list_size);
    ClientConfigArgs.user_agent := args.(ClientConfigArgs.user_agent) |});
  override_target ← expect_some "an override target" config.(override_target);
  _ ← assert "assertion failed" (bool_decide (Scheme_as_str <$> Uri_scheme override_target = Some "https"));
  _ ← assert "assertion failed" (bool_decide (Authority_as_str <$> Uri_authority override_target = Some "server.example.com"));
  _ ← assert "assertion failed" (String.eqb (Uri_path override_target) "/base");
  Return tt.

Definition an_override_target_given_as_a_uri_replaces_the_authority_and_the_path : outcome unit :=
  config ← expect "valid" (from_config_args {|
    ClientConfigArgs.endpoint := "https://10.0.0.1:5003/base";
    ClientConfigArgs.cert_pem := args.(ClientConfigArgs.cert_pem);
    ClientConfigArgs.key_pem := args.(ClientConfigArgs.key_pem);
    ClientConfigArgs.ca_cert := args.(ClientConfigArgs.ca_cert);
    ClientConfigArgs.allow_unsafe_connection := args.(ClientConfigArgs.allow_unsafe_connection);
    ClientConfigArgs.override_target_name := "https://server.example.com/other";
    ClientConfigArgs.connect_timeout := args.(ClientConfigArgs.connect_timeout);
    ClientConfigArgs.timeout := args.(ClientConfigArgs.timeout);
    ClientConfigArgs.rate_limit := args.(ClientConfigArgs.rate_limit);
    ClientConfigArgs.tcp_keepalive := args.(ClientConfigArgs.tcp_keepalive);
    ClientConfigArgs.tcp_keepalive_interval := args.(ClientConfigArgs.tcp_keepalive_interval);
    ClientConfigArgs.tcp_keepalive_retries := args.(ClientConfigArgs.tcp_keepalive_retries);
    ClientConfigArgs.tcp_nagle_algorithm := args.(ClientConfigArgs.tcp_nagle_algorithm);
    ClientConfigArgs.http2_keep_alive_interval := args.(ClientConfigArgs.http2_keep_alive_interval);
    ClientConfigArgs.http2_keep_alive_timeout := args.(ClientConfigArgs.http2_keep_alive_timeout);
    ClientConfigArgs.http2_keep_alive_while_idle := args.(ClientConfigArgs.http2_keep_alive_while_idle);
    ClientConfigArgs.http2_max_header_list_size := args.(ClientConfigArgs.http2_max_header_list_size);
    ClientConfigArgs.user_agent := args.(ClientConfigArgs.user_agent) |});
  override_target ← expect_some "an override target" config.(override_target);
  _ ← assert "assertion failed" (bool_decide (Authority_as_str <$> Uri_authority override_target = Some "server.example.com"));
  _ ← assert "assertion failed" (String.eqb (Uri_path override_target) "/other");
  _ ← assert "assertion failed" (bool_decide (Scheme_as_str <$> Uri_scheme override_target = Some "https"));
  Return tt.

Definition no_override_target_leaves_it_unset : outcome unit :=
  config ← expect "valid" (from_config_args args);
  _ ← assert "assertion failed" (is_none config.(override_target));
  Return tt.

Definition config_tests : list (outcome unit) :=
  [the_minimum_is_an_endpoint;
   an_endpoint_that_is_not_a_uri_is_reported;
   durations_are_read_in_the_units_they_are_written_in;
   a_duration_that_cannot_be_parsed_names_the_value;
   integers_are_read_and_a_bad_one_names_the_value;
   an_integer_that_does_not_fit_is_rejected_rather_than_wrapped;
   a_rate_limit_is_a_count_and_a_duration;
   a_zero_rate_limit_is_rejected_rather_than_left_to_panic;
   a_rate_limit_missing_its_duration_is_reported_with_the_expected_shape;
   each_half_of_a_rate_limit_is_validated_separately;
   half_an_identity_is_rejected_and_names_both_variables;
   neither_half_is_no_identity_rather_than_an_error;
   a_certificate_path_that_does_not_exist_is_reported_with_the_path;
   a_missing_ca_certificate_is_reported_with_the_path;
   an_override_target_given_as_a_host_keeps_the_endpoints_scheme_and_path;
   an_override_target_given_as_a_uri_replaces_the_authority_and_the_path;
   no_override_target_leaves_it_unset].

(** What the tests rely on in other crates, as documented by them: how the URIs and the
    durations of the tests are read, and that the files they name do not exist. *)
Record documented : Prop := {
  endpoint_read : ∃ uri, Uri_try_from "http://localhost:5001" = Ok uri ∧
    Uri_to_string uri = "http://localhost:5001/";
  empty_not_uri : ∃ e, Uri_try_from EmptyString = Err e;
  durations_read :
    humantime_parse "500ms" = Ok (from_millis 500) ∧ humantime_parse "0s" = Ok (from_secs 0) ∧
    humantime_parse "1s" = Ok (from_secs 1) ∧ humantime_parse "30s" = Ok (from_secs 30) ∧
    humantime_parse "2m" = Ok (from_secs 120) ∧ humantime_parse "1h" = Ok (from_secs 3600);
  soon_not_read : ∃ e, humantime_parse "soon" = Err e;
  cert_missing : ∃ e, read_to_string "no/such/cert.pem" = Err e;
  ca_missing : ∃ e, read_to_string "no/such/ca.pem" = Err e;
  overrides_read : ∃ base scheme path server not_authority other_uri other,
    Uri_try_from "https://10.0.0.1:5003/base" = Ok base ∧
    Uri_scheme base = Some scheme ∧ Scheme_as_str scheme = "https" ∧
    Uri_path_and_query base = Some path ∧
    Authority_parse "server.example.com" = Ok server ∧
    Authority_as_str server = "server.example.com" ∧
    Authority_parse "https://server.example.com/other" = Err not_authority ∧
    Uri_try_from "https://server.example.com/other" = Ok other_uri ∧
    Uri_into_parts other_uri = (Some server, Some other) ∧
    (∃ uri, Uri_build (Some scheme) (Some server) (Some path) = Ok uri ∧
       Uri_scheme uri = Some scheme ∧ Uri_authority uri = Some server ∧ Uri_path uri = "/base") ∧
    (∃ uri, Uri_build (Some scheme) (Some server) (Some other) = Ok uri ∧
       Uri_scheme uri = Some scheme ∧ Uri_authority uri = Some server ∧ Uri_path uri = "/other")
}.

(** The test of the environment passes, and leaves no trace of its variable. *)
Definition env_test_passes (test : Environment → outcome Environment) : Prop :=
  ∀ env, ∃ name, test env = Return (delete name env).

Lemma with_var_set {T} name value (body : Environment → T) env :
  with_var name (Some value) body env = (body (<[name := Unicode value]> env), delete name env).
Proof.
  unfold with_var. cbv zeta. f_equal. apply (delete_insert_eq (M:=gmap string)).
Qed.

Lemma read_env_set env name value : read_env (<[name := Unicode value]> env) name = Ok value.
Proof. apply read_env_text. apply (lookup_insert_eq (M:=gmap string)). Qed.

Lemma read_env_unset env name : read_env (delete name env) name = Ok EmptyString.
Proof. apply read_env_absent. apply (lookup_delete_eq (M:=gmap string)). Qed.

Lemma delete_twice name env : delete name (delete name env) = (delete name env : Environment).
Proof. apply (delete_delete_eq (M:=gmap string)). Qed.

Ltac run_env_test :=
  rewrite ?with_var_set; unfold with_var, read_env_bool; rewrite ?read_env_set, ?read_env_unset;
  cbn; rewrite ?delete_twice.

Lemma spelling_read (b : bool) spelling env :
  spelling ∈ (if b then spellings_of_true else spellings_of_false) →
  with_var "ARMONIK_TEST_BOOL" (Some spelling) (λ env, read_env_bool env "ARMONIK_TEST_BOOL") env
  = (Ok b, delete "ARMONIK_TEST_BOOL" env).
Proof.
  intros Hin. rewrite with_var_set. unfold read_env_bool. rewrite read_env_set. cbn.
  pose proof (spellings_disjoint spelling) as Hd.
  destruct b; rewrite ?decide_False by tauto; by rewrite decide_True by done.
Qed.

Lemma env_tests_run : Forall env_test_passes (env_tests os_debug location).
Proof.
  repeat constructor; intros env; eexists.
  - unfold every_accepted_spelling_is_accepted.
    repeat (cbn [for_each mbind outcome_bind expect assert negb];
            first [rewrite (spelling_read true) by compute_done
                  |rewrite (spelling_read false) by compute_done]).
    cbn. by rewrite !delete_twice.
  - unfold an_unset_variable_reads_as_false. run_env_test. done.
  - unfold an_unrecognised_value_is_reported_with_its_name_and_value. run_env_test. done.
  - unfold reading_a_plain_string_passes_it_through_and_maps_absent_to_empty. run_env_test. done.
Qed.

Lemma chain_contains e sub : contains (display location e) sub = true → contains (chain e) sub = true.
Proof.
  unfold chain. generalize (display location e). induction (sources e) as [|cause causes IH];
    intros s Hs; cbn; [done|]. by apply IH, contains_app.
Qed.

Ltac run_test :=
  lazy -[chain contains Scheme Authority PathAndQuery Uri Authority_parse Uri_try_from
         Uri_to_string humantime_parse read_to_string Uri_scheme Uri_authority Uri_path_and_query
         Uri_into_parts Uri_build Scheme_as_str Authority_as_str Uri_path].

(** Runs a test up to what other crates answer, which the hypotheses say. *)
Ltac run_documented :=
  run_test;
  repeat (match goal with H : ?x = _ |- context [?x] => rewrite H
          | |- context [contains (chain ?e) ?sub] =>
              rewrite (chain_contains e sub) by (lazy; reflexivity)
          end; run_test).

(** C38: Of the unit tests of the transport, the four of [utils.rs] pass in every
    environment, which they leave without the variable they use; and the seventeen of
    [config.rs] that do not go through [serde_json] pass when the URIs and the durations
    they write are read as other crates document, and the files they name are missing.
    The test that goes through [serde_json] and those of [armonik-transport/tests] are not
    among them. *)
Theorem transport_tests_pass :
  documented →
  Forall (λ test, test = Return tt) config_tests ∧
  Forall env_test_passes (env_tests os_debug location).
Proof.
  intros [(? & ? & ?) [] (? & ? & ? & ? & ? & ?) [] [] [] (? & ? & ? & ? & ? & ? & ? & ?)].
  destruct_and!. repeat match goal with H : ∃ _, _ |- _ => destruct H end. destruct_and!.
  split; [|apply env_tests_run].
  repeat (apply Forall_cons_2; [run_documented; reflexivity|]). apply Forall_nil_2.
Qed.
End config_tests.
