(* ===== verification/Client.v ===== *)
(** The client of the crate ([client/mod.rs]): a channel, given to the client of each
    service, owned or borrowed. *)

From Stdlib Require Import FunctionalExtensionality.
From S2P Require Import Prelude V3 Misc Partitions Applications Rpc.
From S2P Require Import AgentRpc ApplicationsRpc AuthRpc EventsRpc HealthChecksRpc PartitionsRpc.
From S2P Require Import ResultsRpc SessionsRpc SubmitterRpc TasksRpc VersionsRpc WorkerRpc.
From S2P Require Import Connect.

(** ** Channels

    [std::task::Poll]. *)
Inductive Poll (A : Type) : Type :=
| Ready (a : A)
| Pending.
Arguments Ready {A} a.
Arguments Pending {A}.

(** The messages of [http] and the contexts of the executor. *)
Class Http : Type := {
  HttpRequest : Type;
  HttpResponse : Type;
  TaskContext : Type
}.

(** [Future<Output = Result<http::Response<ResponseBody>, Error>>]. *)
Class Awaited `{!Http} (W ServiceError Future : Type) : Type :=
  await : Future → fallible W ServiceError HttpResponse.

(** [tonic::client::GrpcService<tonic::body::Body>]; its associated types are parameters,
    and what its methods change is in the world. *)
Class GrpcService `{!Http} (W T ServiceError Future : Type) : Type := {
  poll_ready : T → TaskContext → W → Poll (result ServiceError unit) * W;
  service_call : T → HttpRequest → W → Future * W
}.

(** The clients that [tonic] generates, [SessionsClient::new] for instance: the only use
    they have for their channel is to wait until it is ready and to send it requests. *)
Class Generated `{!Http} (W Stub : Type) : Type := {
  generated_new {T ServiceError Future}
      `{!Awaited W ServiceError Future, !GrpcService W T ServiceError Future} : T → Stub;
  generated_new_ext {T1 T2 ServiceError Future} `{!Awaited W ServiceError Future}
      `{S1 : !GrpcService W T1 ServiceError Future, S2 : !GrpcService W T2 ServiceError Future}
      (channel1 : T1) (channel2 : T2) :
    (∀ cx w, poll_ready channel1 cx w = poll_ready channel2 cx w) →
    (∀ request w, service_call channel1 request w = service_call channel2 request w) →
    generated_new channel1 = generated_new channel2
}.

(** A mutable borrow, [&mut A]. *)
Record Borrowed (A : Type) : Type := mut_ref {
  deref : A
}.
Arguments mut_ref {A} deref.
Arguments deref {A} _.

(** ** The client *)

Section client.
Context `{!Http} {W T ServiceError Future : Type} `{!GrpcService W T ServiceError Future}.

#[global] Instance client_service : GrpcService W (Client T) ServiceError Future := {|
  poll_ready := λ self cx, poll_ready self.(channel) cx;
  service_call := λ self request, service_call self.(channel) request |}.

#[global] Instance borrowed_client_service :
    GrpcService W (Borrowed (Client T)) ServiceError Future := {|
  poll_ready := λ self cx, poll_ready (deref self).(channel) cx;
  service_call := λ self request, service_call (deref self).(channel) request |}.

Lemma generated_owned `{!Awaited W ServiceError Future, !Generated W Stub} (self : Client T) :
  generated_new self = (generated_new self.(channel) : Stub).
Proof. by apply generated_new_ext. Qed.

Lemma generated_borrowed `{!Awaited W ServiceError Future, !Generated W Stub} (self : Client T) :
  generated_new (mut_ref self) = (generated_new self.(channel) : Stub).
Proof. by apply generated_new_ext. Qed.
End client.

Section accessors.
Context `{!Http} `{!Tonic} {W T ServiceError Future : Type}.
Context `{!Awaited W ServiceError Future, !GrpcService W T ServiceError Future}.

Definition agent `{!Generated W (AgentRpc.ClientStub.t W)} (self : Client T) : AgentRpc.Client :=
  AgentRpc.with_channel (generated_new (mut_ref self)).

Definition into_agent `{!Generated W (AgentRpc.ClientStub.t W)} (self : Client T) : AgentRpc.Client :=
  AgentRpc.with_channel (generated_new self).

Definition applications `{!Generated W (ApplicationsRpc.Stub.t W)} (self : Client T) : ApplicationsRpc.Client :=
  ApplicationsRpc.with_channel (generated_new (mut_ref self)).

Definition into_applications `{!Generated W (ApplicationsRpc.Stub.t W)} (self : Client T) : ApplicationsRpc.Client :=
  ApplicationsRpc.with_channel (generated_new self).

Definition auth `{!Generated W (AuthRpc.Stub.t W)} (self : Client T) : AuthRpc.Client :=
  AuthRpc.with_channel (generated_new (mut_ref self)).

Definition into_auth `{!Generated W (AuthRpc.Stub.t W)} (self : Client T) : AuthRpc.Client :=
  AuthRpc.with_channel (generated_new self).

Definition events `{!Generated W (EventsRpc.Stub.t W)} (self : Client T) : EventsRpc.Client :=
  EventsRpc.with_channel (generated_new (mut_ref self)).

Definition into_events `{!Generated W (EventsRpc.Stub.t W)} (self : Client T) : EventsRpc.Client :=
  EventsRpc.with_channel (generated_new self).

Definition health_checks `{!Generated W (HealthChecksRpc.Stub.t W)} (self : Client T) : HealthChecksRpc.Client :=
  HealthChecksRpc.with_channel (generated_new (mut_ref self)).

Definition into_health_checks `{!Generated W (HealthChecksRpc.Stub.t W)} (self : Client T) : HealthChecksRpc.Client :=
  HealthChecksRpc.with_channel (generated_new self).

Definition partitions `{!Generated W (PartitionsRpc.Stub.t W)} (self : Client T) : PartitionsRpc.Client :=
  PartitionsRpc.with_channel (generated_new (mut_ref self)).

Definition into_partitions `{!Generated W (PartitionsRpc.Stub.t W)} (self : Client T) : PartitionsRpc.Client :=
  PartitionsRpc.with_channel (generated_new self).

Definition results `{!Generated W (ResultsRpc.ClientStub.t W)} (self : Client T) : ResultsRpc.Client :=
  ResultsRpc.with_channel (generated_new (mut_ref self)).

Definition into_results `{!Generated W (ResultsRpc.ClientStub.t W)} (self : Client T) : ResultsRpc.Client :=
  ResultsRpc.with_channel (generated_new self).

Definition sessions `{!Generated W (SessionsRpc.Stub.t W)} (self : Client T) : SessionsRpc.Client :=
  SessionsRpc.with_channel (generated_new (mut_ref self)).

Definition into_sessions `{!Generated W (SessionsRpc.Stub.t W)} (self : Client T) : SessionsRpc.Client :=
  SessionsRpc.with_channel (generated_new self).

Definition submitter `{!Generated W (SubmitterRpc.ClientStub.t W)} (self : Client T) : SubmitterRpc.Client :=
  SubmitterRpc.with_channel (generated_new (mut_ref self)).

Definition into_submitter `{!Generated W (SubmitterRpc.ClientStub.t W)} (self : Client T) : SubmitterRpc.Client :=
  SubmitterRpc.with_channel (generated_new self).

Definition tasks `{!Generated W (TasksRpc.Stub.t W)} (self : Client T) : TasksRpc.Client :=
  TasksRpc.with_channel (generated_new (mut_ref self)).

Definition into_tasks `{!Generated W (TasksRpc.Stub.t W)} (self : Client T) : TasksRpc.Client :=
  TasksRpc.with_channel (generated_new self).

Definition versions `{!Generated W (VersionsRpc.Stub.t W)} (self : Client T) : VersionsRpc.Client :=
  VersionsRpc.with_channel (generated_new (mut_ref self)).

Definition into_versions `{!Generated W (VersionsRpc.Stub.t W)} (self : Client T) : VersionsRpc.Client :=
  VersionsRpc.with_channel (generated_new self).

Definition worker `{!Generated W (WorkerRpc.Stub.t W)} (self : Client T) : WorkerRpc.Client :=
  WorkerRpc.with_channel (generated_new (mut_ref self)).

Definition into_worker `{!Generated W (WorkerRpc.Stub.t W)} (self : Client T) : WorkerRpc.Client :=
  WorkerRpc.with_channel (generated_new self).

End accessors.

(** C18: Whatever service is asked for, and whether the client is borrowed or given away,
    the calls are those of the client of that service over the channel itself: the
    delegation adds and hides nothing. *)
Theorem accessors_agree `{!Http} `{!Tonic} {W T ServiceError Future : Type}
    `{!Awaited W ServiceError Future, !GrpcService W T ServiceError Future}
    `{!Generated W (AgentRpc.ClientStub.t W)}
    `{!Generated W (ApplicationsRpc.Stub.t W)}
    `{!Generated W (AuthRpc.Stub.t W)}
    `{!Generated W (EventsRpc.Stub.t W)}
    `{!Generated W (HealthChecksRpc.Stub.t W)}
    `{!Generated W (PartitionsRpc.Stub.t W)}
    `{!Generated W (ResultsRpc.ClientStub.t W)}
    `{!Generated W (SessionsRpc.Stub.t W)}
    `{!Generated W (SubmitterRpc.ClientStub.t W)}
    `{!Generated W (TasksRpc.Stub.t W)}
    `{!Generated W (VersionsRpc.Stub.t W)}
    `{!Generated W (WorkerRpc.Stub.t W)} (client : Client T) :
  agent client = AgentRpc.with_channel (generated_new client.(channel)) ∧
  into_agent client = agent client ∧
  applications client = ApplicationsRpc.with_channel (generated_new client.(channel)) ∧
  into_applications client = applications client ∧
  auth client = AuthRpc.with_channel (generated_new client.(channel)) ∧
  into_auth client = auth client ∧
  events client = EventsRpc.with_channel (generated_new client.(channel)) ∧
  into_events client = events client ∧
  health_checks client = HealthChecksRpc.with_channel (generated_new client.(channel)) ∧
  into_health_checks client = health_checks client ∧
  partitions client = PartitionsRpc.with_channel (generated_new client.(channel)) ∧
  into_partitions client = partitions client ∧
  results client = ResultsRpc.with_channel (generated_new client.(channel)) ∧
  into_results client = results client ∧
  sessions client = SessionsRpc.with_channel (generated_new client.(channel)) ∧
  into_sessions client = sessions client ∧
  submitter client = SubmitterRpc.with_channel (generated_new client.(channel)) ∧
  into_submitter client = submitter client ∧
  tasks client = TasksRpc.with_channel (generated_new client.(channel)) ∧
  into_tasks client = tasks client ∧
  versions client = VersionsRpc.with_channel (generated_new client.(channel)) ∧
  into_versions client = versions client ∧
  worker client = WorkerRpc.with_channel (generated_new client.(channel)) ∧
  into_worker client = worker client.
Proof.
  unfold agent, into_agent, applications, into_applications, auth, into_auth, events, into_events,
    health_checks, into_health_checks, partitions, into_partitions, results, into_results,
    sessions, into_sessions, submitter, into_submitter, tasks, into_tasks, versions,
    into_versions, worker, into_worker.
  by rewrite !generated_owned, !generated_borrowed.
Qed.

(** C17: The small services, from the client of the crate to the service: over a channel that
    leads to their servers, each method that a client gives access to (partitions,
    applications, health checks, the current user, versions) is one run of the method
    of the service on the request its arguments describe, and gives its answer back. *)
Theorem small_services_end_to_end `{!Http} `{!Tonic} {W T ServiceError Future : Type}
    `{!Awaited W ServiceError Future, !GrpcService W T ServiceError Future}
    `{!Generated W (PartitionsRpc.Stub.t W)}
    `{!Generated W (ApplicationsRpc.Stub.t W)}
    `{!Generated W (HealthChecksRpc.Stub.t W)}
    `{!Generated W (AuthRpc.Stub.t W)}
    `{!Generated W (VersionsRpc.Stub.t W)} (client : Client T)
    (partitions_service : PartitionsRpc.Service.t W)
    (applications_service : ApplicationsRpc.Service.t W)
    (health_checks_service : HealthChecksRpc.Service.t W)
    (auth_service : AuthRpc.Service.t W) (versions_service : VersionsRpc.Service.t W) :
  PartitionsRpc.connected (generated_new client.(channel))
    (PartitionsRpc.server partitions_service) →
  ApplicationsRpc.connected (generated_new client.(channel))
    (ApplicationsRpc.server applications_service) →
  HealthChecksRpc.connected (generated_new client.(channel))
    (HealthChecksRpc.server health_checks_service) →
  AuthRpc.connected (generated_new client.(channel)) (AuthRpc.server auth_service) →
  VersionsRpc.connected (generated_new client.(channel)) (VersionsRpc.server versions_service) →
  (∀ filters sort page page_size,
     answers (PartitionsRpc.list (partitions client) filters sort page page_size)
     (partitions_service.(PartitionsRpc.Service.list W) {|
        Partitions.list.Request.page := page;
        Partitions.list.Request.page_size := page_size;
        Partitions.list.Request.filters := PartitionsRpc.collect_filters filters;
        Partitions.list.Request.sort := sort |})) ∧
  (∀ partition_id,
     answers (PartitionsRpc.get (partitions client) partition_id)
     (λ context, Partitions.get.Response.partition <$>
        partitions_service.(PartitionsRpc.Service.get W) {|
          Partitions.get.Request.partition_id := partition_id |} context)) ∧
  (∀ filters sort page page_size,
     answers (ApplicationsRpc.list (applications client) filters sort page page_size)
     (applications_service.(ApplicationsRpc.Service.list W) {|
        Applications.list.Request.page := page;
        Applications.list.Request.page_size := page_size;
        Applications.list.Request.filters := ApplicationsRpc.collect_filters filters;
        Applications.list.Request.sort := sort |})) ∧
  answers (HealthChecksRpc.check (health_checks client))
    (λ context, Misc.HealthChecks.check.Response.services <$>
       health_checks_service.(HealthChecksRpc.Service.check W)
         Misc.HealthChecks.check.Request.mk context) ∧
  answers (AuthRpc.current_user (auth client))
    (λ context, Misc.Auth.current_user.Response.user <$>
       auth_service.(AuthRpc.Service.current_user W) Misc.Auth.current_user.Request.mk context) ∧
  answers (VersionsRpc.list (versions client))
    (versions_service.(VersionsRpc.Service.list W) Misc.Versions.list.Request.mk).
Proof.
  intros Hp Ha Hh Hu Hv.
  unfold partitions, applications, health_checks, auth, versions. rewrite !generated_borrowed.
  pose proof (PartitionsRpc.partitions_end_to_end _ _ Hp) as [??].
  split_and!; [done|done|by apply ApplicationsRpc.applications_end_to_end
    |by apply HealthChecksRpc.health_checks_end_to_end|by apply AuthRpc.auth_end_to_end
    |by apply VersionsRpc.versions_end_to_end].
Qed.
