(* ===== verification/ClientTests.v ===== *)
(** The tests of the clients ([mod tests] of [client/*.rs]): each one calls a method on a
    server that counts the requests it receives, and checks that the server received one
    more request of the rpc. *)

From S2P Require Import Prelude V3 Objects Filters Sessions Tasks Results Partitions.
From S2P Require Import Applications Misc Events Worker Agent Submitter Rpc Streams.
From S2P Require Import SessionsRpc PartitionsRpc ApplicationsRpc AuthRpc VersionsRpc.
From S2P Require Import HealthChecksRpc WorkerRpc TasksRpc EventsRpc ResultsRpc AgentRpc.
From S2P Require Import SubmitterRpc Std Env Config Connect Client.

#[local] Notation list := Datatypes.list.

(** ** What the tests use of other crates

    [hyper_util], to read the counts, and [serde_json], to decode them. *)
Class TestDeps `{!ConfigDeps} `{!ConnectDeps} (W : Type) : Type := {
  HyperError : Type;
  Incoming : Type;
  http_get : HttpsConnector → Uri → W → result HyperError Incoming * W;
  body_collect : Incoming → W → result HyperError (list byte) * W;
  JsonError : Type;
  counts_from_slice : list byte → result JsonError (gmap string (gmap string Z));
  (** [status.code() == Code::Internal], [status.message()]. *)
  TestStatus : Tonic;
  status_is_internal : TestStatus.(Status) → bool;
  status_message : TestStatus.(Status) → string
}.
#[export] Existing Instance TestStatus.

(** ** Computations that may panic *)

Section io.
Context {W : Type}.

Definition io (A : Type) : Type := W → outcome (A * W).

#[export] Instance io_ret : MRet io := λ A a w, Return (a, w).
#[export] Instance io_bind : MBind io := λ A B f m w,
  match m w with
  | Return (a, w') => f a w'
  | Panic msg => Panic msg
  end.

Definition lift {A} (o : outcome A) : io A := λ w, a ← o; Return (a, w).

(** An awaited call, and [expect]. *)
Definition expected {E A} (msg : string) (c : fallible W E A) : io A := λ w,
  match c w with
  | (Ok a, w') => Return (a, w')
  | (Err _, _) => Panic msg
  end.

(** [c.await.unwrap();] *)
Definition unwrap {E A} (c : fallible W E A) : io unit := _ ← expected "unwrap" c; mret tt.

(** [TryStreamExt::try_collect], for [fuel] items at most. *)
Fixpoint try_collect {E A} (fuel : nat) (s : stream W (result E A)) (st : s.(stream_state))
    : io (result E (list A)) := λ w,
  match fuel with
  | 0 => Panic "out of fuel"
  | S fuel =>
      match s.(stream_poll) st w with
      | (Some (Ok a, st'), w') =>
          (l ← try_collect fuel s st'; mret (cons a <$> l)) w'
      | (Some (Err e, _), w') => Return (Err e, w')
      | (None, w') => Return (Ok [], w')
      end
  end.

Lemma try_collect_drains {E A} fuel (s : stream W (result E A)) st l w w' :
  drains s (st, w) (map Ok l) w' → length l < fuel →
  try_collect fuel s st w = Return (Ok l, w').
Proof.
  revert st l w. induction fuel as [|fuel IH]; intros st l w Hd Hn; [lia|]. cbn.
  destruct l as [|a l]; cbn in Hd, Hn.
  - apply drains_nil in Hd. unfold ends in Hd. cbn in Hd. by rewrite Hd.
  - apply drains_cons in Hd as (c & Hs & Hd). inv Hs as [? ? ? st' w1 Hp]. rewrite Hp.
    unfold mbind, io_bind. by rewrite (IH st' l w1 Hd) by lia.
Qed.
End io.
Arguments io : clear implicits.

(** ** The tests *)

Section tests.
Context `{!ConfigDeps} `{!ConnectDeps} {W : Type} `{!TestDeps W} `{!HashMapIter}.
Context {TransportError Channel : Type}.
(** The connection, the environment of the tests, how many items are collected. *)
Context (connect_with_connector :
  Uri → list EndpointSetter → HttpsConnector → fallible_outcome TransportError Channel).
Context (env : Environment) (fuel : nat).
Context `{!Http} {ServiceError Future : Type} `{!Awaited W ServiceError Future}.
Context `{!GrpcService W Channel ServiceError Future}.
Context `{!Generated W (SessionsRpc.Stub.t W)}
  `{!Generated W (TasksRpc.Stub.t W)}
  `{!Generated W (ResultsRpc.ClientStub.t W)}
  `{!Generated W (PartitionsRpc.Stub.t W)}
  `{!Generated W (ApplicationsRpc.Stub.t W)}
  `{!Generated W (AuthRpc.Stub.t W)}
  `{!Generated W (VersionsRpc.Stub.t W)}
  `{!Generated W (HealthChecksRpc.Stub.t W)}
  `{!Generated W (EventsRpc.Stub.t W)}
  `{!Generated W (AgentRpc.ClientStub.t W)}
  `{!Generated W (SubmitterRpc.ClientStub.t W)}.

#[local] Notation io := (io W).

Definition with_endpoint (config : ClientConfig) (uri : Uri) : ClientConfig := {|
  endpoint := uri;
  allow_unsafe_connection := config.(allow_unsafe_connection);
  identity := config.(identity);
  cacert := config.(cacert);
  override_target := config.(override_target);
  connect_timeout := config.(connect_timeout);
  timeout := config.(timeout);
  rate_limit := config.(rate_limit);
  tcp_keepalive := config.(tcp_keepalive);
  tcp_keepalive_interval := config.(tcp_keepalive_interval);
  tcp_keepalive_retries := config.(tcp_keepalive_retries);
  tcp_nagle_algorithm := config.(tcp_nagle_algorithm);
  http2_keep_alive_interval := config.(http2_keep_alive_interval);
  http2_keep_alive_timeout := config.(http2_keep_alive_timeout);
  http2_keep_alive_while_idle := config.(http2_keep_alive_while_idle);
  http2_max_header_list_size := config.(http2_max_header_list_size);
  user_agent := config.(user_agent) |}.

(** How many requests of an rpc the server has received. *)
Definition get_nb_request (service rpc : string) : io Z :=
  config ← lift (expect "unwrap" (from_env env));
  config ← lift match var env "Http__Endpoint" with
                | Ok EmptyString | Err NotPresent => Return config
                | Ok value =>
                    uri ← expect "HTTP endpoint" (Uri_try_from value);
                    Return (with_endpoint config uri)
                | Err (VarNotUnicode _) => Panic "not a valid unicode string"
                end;
  request ← lift (expect "Request" (Uri_try_from (Uri_to_string config.(endpoint) +:+ "calls.json")));
  https ← lift (https_connector (TransportError:=TransportError) config);
  https ← lift (expect "Build connection information" https);
  response ← expected "/calls.json" (http_get https request);
  body ← expected "Response" (body_collect response);
  calls ← lift (expect "Invalid JSON request" (counts_from_slice body));
  lift match calls !! service ≫= (.!! rpc) with
       | Some n => Return n
       | None => Panic "no such rpc"
       end.

(** [Client::new().await.unwrap()]. *)
Definition new_client : io (Client Channel) :=
  client ← lift (new connect_with_connector env);
  lift (expect "unwrap" client).

(** [assert_eq!(after - before, 1)]. *)
Definition assert_one_more (before after : Z) : io unit :=
  if (after - before =? 1)%Z then mret tt else lift (Panic "assertion failed").

(** The shape of the tests. *)
Definition counting (service rpc : string) (body : io unit) : io unit :=
  before ← get_nb_request service rpc;
  _ ← body;
  after ← get_nb_request service rpc;
  assert_one_more before after.

(** [c.await.unwrap().try_collect::<Vec<_>>().await.unwrap();] *)
Definition unwrap_collected {E F A} (c : fallible W E (stream W (result F A))) : io unit :=
  s ← expected "unwrap" c;
  items ← try_collect fuel s s.(stream_start);
  _ ← lift (expect "unwrap" items);
  mret tt.

(** The tests on the creation of tasks accept an internal error without a message. *)
Definition unwrap_or_internal {A} (c : fallible W RequestError A) : io unit := λ w,
  match c w with
  | (Ok _, w') => Return (tt, w')
  | (Err (Grpc source), w') =>
      if negb (status_is_internal source) || negb (String.eqb (status_message source) EmptyString)
      then Panic "status" else Return (tt, w')
  end.

(** [TaskOptions { partition_id, ..Default::default() }]. *)
Definition in_partition (partition_id : string) : TaskOptions.t := {|
  TaskOptions.options := dflt.(TaskOptions.options);
  TaskOptions.max_duration := dflt.(TaskOptions.max_duration);
  TaskOptions.max_retries := dflt.(TaskOptions.max_retries);
  TaskOptions.priority := dflt.(TaskOptions.priority);
  TaskOptions.partition_id := partition_id;
  TaskOptions.application_name := dflt.(TaskOptions.application_name);
  TaskOptions.application_version := dflt.(TaskOptions.application_version);
  TaskOptions.application_namespace := dflt.(TaskOptions.application_namespace);
  TaskOptions.application_service := dflt.(TaskOptions.application_service);
  TaskOptions.engine_type := dflt.(TaskOptions.engine_type) |}.

(** *** [client/sessions.rs] *)

Definition sessions_list : io unit := counting "Sessions" "ListSessions" (
  client ← new_client;
  unwrap (SessionsRpc.list (into_sessions client)
      (map Sessions.filter.And.into_iter (Sessions.filter.Or.into_iter {| Sessions.filter.Or.or
      := [{| Sessions.filter.And.and := [] |}] |})) dflt true 0 10)).

Definition sessions_get : io unit := counting "Sessions" "GetSession" (
  client ← new_client;
  unwrap (SessionsRpc.get (into_sessions client) "session-id")).

Definition sessions_cancel : io unit := counting "Sessions" "CancelSession" (
  client ← new_client;
  unwrap (SessionsRpc.cancel (into_sessions client) "session-id")).

Definition sessions_create : io unit := counting "Sessions" "CreateSession" (
  client ← new_client;
  unwrap (SessionsRpc.create (into_sessions client)
      ["part1"; "part2"] (in_partition "part1"))).

Definition sessions_pause : io unit := counting "Sessions" "PauseSession" (
  client ← new_client;
  unwrap (SessionsRpc.pause (into_sessions client) "session-id")).

Definition sessions_resume : io unit := counting "Sessions" "ResumeSession" (
  client ← new_client;
  unwrap (SessionsRpc.resume (into_sessions client) "session-id")).

Definition sessions_close : io unit := counting "Sessions" "CloseSession" (
  client ← new_client;
  unwrap (SessionsRpc.close (into_sessions client) "session-id")).

Definition sessions_purge : io unit := counting "Sessions" "PurgeSession" (
  client ← new_client;
  unwrap (SessionsRpc.purge (into_sessions client) "session-id")).

Definition sessions_delete : io unit := counting "Sessions" "DeleteSession" (
  client ← new_client;
  unwrap (SessionsRpc.delete (into_sessions client) "session-id")).

Definition sessions_stop_submission : io unit := counting "Sessions" "StopSubmission" (
  client ← new_client;
  unwrap (SessionsRpc.stop_submission (into_sessions client) "session-id" true true)).

Definition sessions_list_call : io unit := counting "Sessions" "ListSessions" (
  client ← new_client;
  unwrap (call (into_sessions client)
      ({| Sessions.list.Request.page := dflt.(Sessions.list.Request.page);
       Sessions.list.Request.page_size := 10;
       Sessions.list.Request.filters := dflt.(Sessions.list.Request.filters);
       Sessions.list.Request.sort := dflt.(Sessions.list.Request.sort);
       Sessions.list.Request.with_task_options := dflt.(Sessions.list.Request.with_task_options)
       |} : Sessions.list.Request.t))).

Definition sessions_get_call : io unit := counting "Sessions" "GetSession" (
  client ← new_client;
  unwrap (call (into_sessions client)
      ({| Sessions.get.Request.session_id := "session-id" |} : Sessions.get.Request.t))).

Definition sessions_cancel_call : io unit := counting "Sessions" "CancelSession" (
  client ← new_client;
  unwrap (call (into_sessions client)
      ({| Sessions.cancel.Request.session_id := "session-id" |} : Sessions.cancel.Request.t))).

Definition sessions_create_call : io unit := counting "Sessions" "CreateSession" (
  client ← new_client;
  unwrap (call (into_sessions client)
      ({| Sessions.create.Request.default_task_options := (in_partition "part1");
       Sessions.create.Request.partition_ids := ["part1"; "part2"] |} :
       Sessions.create.Request.t))).

Definition sessions_pause_call : io unit := counting "Sessions" "PauseSession" (
  client ← new_client;
  unwrap (call (into_sessions client)
      ({| Sessions.pause.Request.session_id := "session-id" |} : Sessions.pause.Request.t))).

Definition sessions_resume_call : io unit := counting "Sessions" "ResumeSession" (
  client ← new_client;
  unwrap (call (into_sessions client)
      ({| Sessions.resume.Request.session_id := "session-id" |} : Sessions.resume.Request.t))).

Definition sessions_close_call : io unit := counting "Sessions" "CloseSession" (
  client ← new_client;
  unwrap (call (into_sessions client)
      ({| Sessions.close.Request.session_id := "session-id" |} : Sessions.close.Request.t))).

Definition sessions_purge_call : io unit := counting "Sessions" "PurgeSession" (
  client ← new_client;
  unwrap (call (into_sessions client)
      ({| Sessions.purge.Request.session_id := "session-id" |} : Sessions.purge.Request.t))).

Definition sessions_delete_call : io unit := counting "Sessions" "DeleteSession" (
  client ← new_client;
  unwrap (call (into_sessions client)
      ({| Sessions.delete.Request.session_id := "session-id" |} : Sessions.delete.Request.t))).

Definition sessions_stop_submission_call : io unit := counting "Sessions" "StopSubmission" (
  client ← new_client;
  unwrap (call (into_sessions client)
      ({| Sessions.stop_submission.Request.session_id := "session-id";
       Sessions.stop_submission.Request.client := true;
       Sessions.stop_submission.Request.worker := true |} : Sessions.stop_submission.Request.t))).

(** *** [client/tasks.rs] *)

Definition tasks_list : io unit := counting "Tasks" "ListTasks" (
  client ← new_client;
  unwrap (TasksRpc.list (into_tasks client)
      (map Tasks.filter.And.into_iter (Tasks.filter.Or.into_iter {| Tasks.filter.Or.or := [{|
      Tasks.filter.And.and := [] |}] |})) dflt true 0 10)).

Definition tasks_list_detailed : io unit := counting "Tasks" "ListTasksDetailed" (
  client ← new_client;
  unwrap (TasksRpc.list_detailed (into_tasks client)
      (map Tasks.filter.And.into_iter (Tasks.filter.Or.into_iter {| Tasks.filter.Or.or := [{|
      Tasks.filter.And.and := [] |}] |})) dflt true 0 10)).

Definition tasks_get : io unit := counting "Tasks" "GetTask" (
  client ← new_client;
  unwrap (TasksRpc.get (into_tasks client) "task-id")).

Definition tasks_cancel : io unit := counting "Tasks" "CancelTasks" (
  client ← new_client;
  unwrap (TasksRpc.cancel (into_tasks client) ["task1"; "task2"])).

Definition tasks_get_result_ids : io unit := counting "Tasks" "GetResultIds" (
  client ← new_client;
  unwrap (TasksRpc.get_result_ids (into_tasks client) ["task1"; "task2"])).

Definition tasks_count_status : io unit := counting "Tasks" "CountTasksByStatus" (
  client ← new_client;
  unwrap (TasksRpc.count_status (into_tasks client)
      {| Tasks.filter.Or.or := [{| Tasks.filter.And.and := [] |}] |})).

Definition tasks_submit : io unit := counting "Tasks" "SubmitTasks" (
  client ← new_client;
  unwrap (TasksRpc.submit (into_tasks client) "session-id" None [])).

Definition tasks_list_call : io unit := counting "Tasks" "ListTasks" (
  client ← new_client;
  unwrap (call (into_tasks client)
      ({| Tasks.list.Request.page := dflt.(Tasks.list.Request.page);
       Tasks.list.Request.page_size := 10;
       Tasks.list.Request.filters := dflt.(Tasks.list.Request.filters);
       Tasks.list.Request.sort := dflt.(Tasks.list.Request.sort);
       Tasks.list.Request.with_errors := dflt.(Tasks.list.Request.with_errors) |} :
       Tasks.list.Request.t))).

Definition tasks_list_detailed_call : io unit := counting "Tasks" "ListTasksDetailed" (
  client ← new_client;
  unwrap (call (into_tasks client)
      ({| Tasks.list_detailed.Request.page := dflt.(Tasks.list_detailed.Request.page);
       Tasks.list_detailed.Request.page_size := 10;
       Tasks.list_detailed.Request.filters := dflt.(Tasks.list_detailed.Request.filters);
       Tasks.list_detailed.Request.sort := dflt.(Tasks.list_detailed.Request.sort);
       Tasks.list_detailed.Request.with_errors := dflt.(Tasks.list_detailed.Request.with_errors)
       |} : Tasks.list_detailed.Request.t))).

Definition tasks_get_call : io unit := counting "Tasks" "GetTask" (
  client ← new_client;
  unwrap (call (into_tasks client)
      ({| Tasks.get.Request.task_id := "task-id" |} : Tasks.get.Request.t))).

Definition tasks_cancel_call : io unit := counting "Tasks" "CancelTasks" (
  client ← new_client;
  unwrap (call (into_tasks client)
      ({| Tasks.cancel.Request.task_ids := ["task1"; "task2"] |} : Tasks.cancel.Request.t))).

Definition tasks_get_result_ids_call : io unit := counting "Tasks" "GetResultIds" (
  client ← new_client;
  unwrap (call (into_tasks client)
      ({| Tasks.get_result_ids.Request.task_ids := ["task1"; "task2"] |} :
      Tasks.get_result_ids.Request.t))).

Definition tasks_count_status_call : io unit := counting "Tasks" "CountTasksByStatus" (
  client ← new_client;
  unwrap (call (into_tasks client)
      ({| Tasks.count_status.Request.filters := {| Tasks.filter.Or.or := [{| Tasks.filter.And.and
      := [] |}] |} |} : Tasks.count_status.Request.t))).

Definition tasks_submit_call : io unit := counting "Tasks" "SubmitTasks" (
  client ← new_client;
  unwrap (call (into_tasks client)
      ({| Tasks.submit.Request.session_id := "session-id";
       Tasks.submit.Request.task_options := None;
       Tasks.submit.Request.items := [] |} : Tasks.submit.Request.t))).

(** *** [client/results.rs] *)

Definition results_list : io unit := counting "Results" "ListResults" (
  client ← new_client;
  unwrap (ResultsRpc.list (into_results client)
      (map Results.filter.And.into_iter (Results.filter.Or.into_iter {| Results.filter.Or.or :=
      [{| Results.filter.And.and := [] |}] |})) dflt 0 10)).

Definition results_get : io unit := counting "Results" "GetResult" (
  client ← new_client;
  unwrap (ResultsRpc.get (into_results client) "result-id")).

Definition results_get_owner_task_id : io unit := counting "Results" "GetOwnerTaskId" (
  client ← new_client;
  unwrap (ResultsRpc.get_owner_task_id (into_results client)
      "session-id" ["result1"; "result2"])).

Definition results_create_metadata : io unit := counting "Results" "CreateResultsMetaData" (
  client ← new_client;
  unwrap (ResultsRpc.create_metadata (into_results client)
      "session-id" [{| Results.create_metadata.RequestItem.name := "result";
       Results.create_metadata.RequestItem.manual_deletion := false |}])).

Definition results_create : io unit := counting "Results" "CreateResults" (
  client ← new_client;
  unwrap (ResultsRpc.create (into_results client)
      "session-id" [{| Results.create.RequestItem.name := "result1";
       Results.create.RequestItem.data := String.list_byte_of_string "data1";
       Results.create.RequestItem.manual_deletion := false |}; {| Results.create.RequestItem.name
       := "result2";
       Results.create.RequestItem.data := String.list_byte_of_string "data2";
       Results.create.RequestItem.manual_deletion := false |}])).

Definition results_upload : io unit := counting "Results" "UploadResultData" (
  client ← new_client;
  unwrap (ResultsRpc.upload (into_results client) "session-id" "result-id" (stream_iter [[]]))).

Definition results_download : io unit := counting "Results" "DownloadResultData" (
  client ← new_client;
  unwrap_collected (ResultsRpc.download (into_results client) "session-id" "result-id")).

Definition results_delete_data : io unit := counting "Results" "DeleteResultsData" (
  client ← new_client;
  unwrap (ResultsRpc.delete_data (into_results client) "session-id" ["result1"; "result2"])).

Definition results_import : io unit := counting "Results" "ImportResultsData" (
  client ← new_client;
  unwrap (ResultsRpc.import (into_results client)
      "session-id" [("result", String.list_byte_of_string "opaque-id")])).

Definition results_get_service_configuration : io unit := counting "Results"
      "GetServiceConfiguration" (
  client ← new_client;
  unwrap (ResultsRpc.get_service_configuration (into_results client))).

Definition results_list_call : io unit := counting "Results" "ListResults" (
  client ← new_client;
  unwrap (call (into_results client)
      ({| Results.list.Request.page := dflt.(Results.list.Request.page);
       Results.list.Request.page_size := 10;
       Results.list.Request.filters := dflt.(Results.list.Request.filters);
       Results.list.Request.sort := dflt.(Results.list.Request.sort) |} : Results.list.Request.t))).

Definition results_get_call : io unit := counting "Results" "GetResult" (
  client ← new_client;
  unwrap (call (into_results client)
      ({| Results.get.Request.id := "result-id" |} : Results.get.Request.t))).

Definition results_get_owner_task_id_call : io unit := counting "Results" "GetOwnerTaskId" (
  client ← new_client;
  unwrap (call (into_results client)
      ({| Results.get_owner_task_id.Request.session_id := "session-id";
       Results.get_owner_task_id.Request.result_ids := [] |} :
       Results.get_owner_task_id.Request.t))).

Definition results_create_metadata_call : io unit := counting "Results" "CreateResultsMetaData" (
  client ← new_client;
  unwrap (call (into_results client)
      ({| Results.create_metadata.Request.results := [];
       Results.create_metadata.Request.session_id := "session-id" |} :
       Results.create_metadata.Request.t))).

Definition results_create_call : io unit := counting "Results" "CreateResults" (
  client ← new_client;
  unwrap (call (into_results client)
      ({| Results.create.Request.results := [];
       Results.create.Request.session_id := "session-id" |} : Results.create.Request.t))).

Definition results_delete_data_call : io unit := counting "Results" "DeleteResultsData" (
  client ← new_client;
  unwrap (call (into_results client)
      ({| Results.delete_data.Request.session_id := "session-id";
       Results.delete_data.Request.result_ids := ["result-id"] |} :
       Results.delete_data.Request.t))).

Definition results_get_service_configuration_call : io unit := counting "Results"
      "GetServiceConfiguration" (
  client ← new_client;
  unwrap (call (into_results client)
      (Results.get_service_configuration.Request.mk :
      Results.get_service_configuration.Request.t))).

Definition results_download_call : io unit := counting "Results" "DownloadResultData" (
  client ← new_client;
  unwrap_collected (call (into_results client)
      ({| Results.download.Request.session_id := "session-id";
       Results.download.Request.result_id := "result-id" |} : Results.download.Request.t))).

Definition results_upload_call : io unit := counting "Results" "UploadResultData" (
  client ← new_client;
  unwrap (call (into_results client)
      (stream_iter [Results.upload.Request.Identifier "session-id" "result-id"] : stream W
      Results.upload.Request.t))).

(** *** [client/partitions.rs] *)

Definition partitions_list : io unit := counting "Partitions" "ListPartitions" (
  client ← new_client;
  unwrap (PartitionsRpc.list (into_partitions client)
      (map Partitions.filter.And.into_iter (Partitions.filter.Or.into_iter {|
      Partitions.filter.Or.or := [{| Partitions.filter.And.and := [] |}] |})) dflt 0 10)).

Definition partitions_get : io unit := counting "Partitions" "GetPartition" (
  client ← new_client;
  unwrap (PartitionsRpc.get (into_partitions client) "part1")).

Definition partitions_list_call : io unit := counting "Partitions" "ListPartitions" (
  client ← new_client;
  unwrap (call (into_partitions client)
      ({| Partitions.list.Request.page := dflt.(Partitions.list.Request.page);
       Partitions.list.Request.page_size := 10;
       Partitions.list.Request.filters := dflt.(Partitions.list.Request.filters);
       Partitions.list.Request.sort := dflt.(Partitions.list.Request.sort) |} :
       Partitions.list.Request.t))).

Definition partitions_get_call : io unit := counting "Partitions" "GetPartition" (
  client ← new_client;
  unwrap (call (into_partitions client)
      ({| Partitions.get.Request.partition_id := "part1" |} : Partitions.get.Request.t))).

(** *** [client/applications.rs] *)

Definition applications_list : io unit := counting "Applications" "ListApplications" (
  client ← new_client;
  unwrap (ApplicationsRpc.list (into_applications client)
      (map Applications.filter.And.into_iter (Applications.filter.Or.into_iter {|
      Applications.filter.Or.or := [{| Applications.filter.And.and := [] |}] |})) dflt 0 10)).

Definition applications_list_call : io unit := counting "Applications" "ListApplications" (
  client ← new_client;
  unwrap (call (into_applications client)
      ({| Applications.list.Request.page := dflt.(Applications.list.Request.page);
       Applications.list.Request.page_size := 10;
       Applications.list.Request.filters := dflt.(Applications.list.Request.filters);
       Applications.list.Request.sort := dflt.(Applications.list.Request.sort) |} :
       Applications.list.Request.t))).

(** *** [client/auth.rs] *)

Definition auth_current_user : io unit := counting "Authentication" "GetCurrentUser" (
  client ← new_client;
  unwrap (AuthRpc.current_user (into_auth client))).

Definition auth_current_user_call : io unit := counting "Authentication" "GetCurrentUser" (
  client ← new_client;
  unwrap (call (into_auth client)
      (Misc.Auth.current_user.Request.mk : Misc.Auth.current_user.Request.t))).

(** *** [client/versions.rs] *)

Definition versions_list : io unit := counting "Versions" "ListVersions" (
  client ← new_client;
  unwrap (VersionsRpc.list (into_versions client))).

Definition versions_list_call : io unit := counting "Versions" "ListVersions" (
  client ← new_client;
  unwrap (call (into_versions client)
      (Misc.Versions.list.Request.mk : Misc.Versions.list.Request.t))).

(** *** [client/health_checks.rs] *)

Definition health_checks_check : io unit := counting "HealthChecks" "CheckHealth" (
  client ← new_client;
  unwrap (HealthChecksRpc.check (into_health_checks client))).

Definition health_checks_check_call : io unit := counting "HealthChecks" "CheckHealth" (
  client ← new_client;
  unwrap (call (into_health_checks client)
      (Misc.HealthChecks.check.Request.mk : Misc.HealthChecks.check.Request.t))).

(** *** [client/events.rs] *)

Definition events_subscribe : io unit := counting "Events" "GetEvents" (
  client ← new_client;
  unwrap_collected (EventsRpc.subscribe (into_events client)
      "session-id" (map Tasks.filter.And.into_iter (Tasks.filter.Or.into_iter {|
      Tasks.filter.Or.or := [] |})) (map Results.filter.And.into_iter
      (Results.filter.Or.into_iter {| Results.filter.Or.or := [] |}))
      [Events.EventsEnum.Unspecified])).

Definition events_subscribe_call : io unit := counting "Events" "GetEvents" (
  client ← new_client;
  unwrap_collected (call (into_events client)
      ({| Events.subscribe.Request.session_id := "session-id";
       Events.subscribe.Request.task_filters := {| Tasks.filter.Or.or := [] |};
       Events.subscribe.Request.result_filters := {| Results.filter.Or.or := [] |};
       Events.subscribe.Request.returned_events := [] |} : Events.subscribe.Request.t))).

(** *** [client/agent.rs] *)

Definition agent_create_results_metadata : io unit := counting "Agent" "CreateResultsMetaData" (
  client ← new_client;
  unwrap (AgentRpc.create_results_metadata (into_agent client)
      "token" "session-id" ["result1"; "result2"])).

Definition agent_create_results : io unit := counting "Agent" "CreateResults" (
  client ← new_client;
  unwrap (AgentRpc.create_results (into_agent client)
      "token" "session-id" [("result1", String.list_byte_of_string "payload")])).

Definition agent_notify_result_data : io unit := counting "Agent" "NotifyResultData" (
  client ← new_client;
  unwrap (AgentRpc.notify_result_data (into_agent client)
      "token" "session-id" ["result1"; "result2"])).

Definition agent_submit : io unit := counting "Agent" "SubmitTasks" (
  client ← new_client;
  unwrap (AgentRpc.submit_tasks (into_agent client) "token" "session-id" None [])).

Definition agent_create_tasks : io unit := counting "Agent" "CreateTask" (
  client ← new_client;
  unwrap (AgentRpc.create_tasks (into_agent client)
      (stream_iter [Agent.create_tasks.Request.Invalid]))).

Definition agent_create_results_metadata_call : io unit := counting "Agent"
      "CreateResultsMetaData" (
  client ← new_client;
  unwrap (call (into_agent client)
      ({| Agent.create_results_metadata.Request.communication_token := "token";
       Agent.create_results_metadata.Request.results := [];
       Agent.create_results_metadata.Request.session_id := "session-id" |} :
       Agent.create_results_metadata.Request.t))).

Definition agent_create_results_call : io unit := counting "Agent" "CreateResults" (
  client ← new_client;
  unwrap (call (into_agent client)
      ({| Agent.create_results.Request.communication_token := "token";
       Agent.create_results.Request.results := [];
       Agent.create_results.Request.session_id := "session-id" |} :
       Agent.create_results.Request.t))).

Definition agent_notify_result_data_call : io unit := counting "Agent" "NotifyResultData" (
  client ← new_client;
  unwrap (call (into_agent client)
      ({| Agent.notify_result_data.Request.communication_token := "token";
       Agent.notify_result_data.Request.session_id := "session-id";
       Agent.notify_result_data.Request.result_ids := [] |} : Agent.notify_result_data.Request.t))).

Definition agent_submit_tasks_call : io unit := counting "Agent" "SubmitTasks" (
  client ← new_client;
  unwrap (call (into_agent client)
      ({| Agent.submit_tasks.Request.communication_token := "token";
       Agent.submit_tasks.Request.session_id := "session-id";
       Agent.submit_tasks.Request.task_options := None;
       Agent.submit_tasks.Request.items := [] |} : Agent.submit_tasks.Request.t))).

Definition agent_get_resource_data_call : io unit := counting "Agent" "GetResourceData" (
  client ← new_client;
  unwrap (call (into_agent client)
      ({| Agent.get_resource_data.Request.communication_token := "token";
       Agent.get_resource_data.Request.result_id := "result-id" |} :
       Agent.get_resource_data.Request.t))).

Definition agent_get_common_data_call : io unit := counting "Agent" "GetCommonData" (
  client ← new_client;
  unwrap (call (into_agent client)
      ({| Agent.get_common_data.Request.communication_token := "token";
       Agent.get_common_data.Request.result_id := "result-id" |} :
       Agent.get_common_data.Request.t))).

Definition agent_get_direct_data_call : io unit := counting "Agent" "GetDirectData" (
  client ← new_client;
  unwrap (call (into_agent client)
      ({| Agent.get_direct_data.Request.communication_token := "token";
       Agent.get_direct_data.Request.result_id := "result-id" |} :
       Agent.get_direct_data.Request.t))).

Definition agent_create_tasks_call : io unit := counting "Agent" "CreateTask" (
  client ← new_client;
  unwrap (call (into_agent client)
      (stream_iter [Agent.create_tasks.Request.Invalid] : stream W Agent.create_tasks.Request.t))).

(** *** [client/submitter.rs] *)

Definition submitter_get_service_configuration : io unit := counting "Submitter"
      "GetServiceConfiguration" (
  client ← new_client;
  unwrap (SubmitterRpc.get_service_configuration (into_submitter client))).

Definition submitter_create_session : io unit := counting "Submitter" "CreateSession" (
  client ← new_client;
  unwrap (SubmitterRpc.create_session (into_submitter client)
      ["part1"; "part2"] (in_partition "part1"))).

Definition submitter_cancel_session : io unit := counting "Submitter" "CancelSession" (
  client ← new_client;
  unwrap (SubmitterRpc.cancel_session (into_submitter client) "session-id")).

Definition submitter_create_small_tasks : io unit := counting "Submitter" "CreateSmallTasks" (
  client ← new_client;
  unwrap_or_internal (SubmitterRpc.create_small_tasks (into_submitter client) "session-id" None
      [])).

Definition submitter_create_large_tasks : io unit := counting "Submitter" "CreateLargeTasks" (
  client ← new_client;
  unwrap_or_internal (SubmitterRpc.create_large_tasks (into_submitter client)
      (stream_iter [Submitter.create_tasks.LargeRequest.Invalid]))).

Definition submitter_list_tasks : io unit := counting "Submitter" "ListTasks" (
  client ← new_client;
  unwrap (SubmitterRpc.list_tasks (into_submitter client)
      {| Submitter.TaskFilter.ids := Submitter.TaskFilterIds.Sessions ["session-id"];
       Submitter.TaskFilter.statuses := Submitter.TaskFilterStatuses.Exclude [] |})).

Definition submitter_list_sessions : io unit := counting "Submitter" "ListSessions" (
  client ← new_client;
  unwrap (SubmitterRpc.list_sessions (into_submitter client)
      {| Submitter.SessionFilter.ids := ["session-id"];
       Submitter.SessionFilter.statuses := Submitter.SessionFilterStatuses.Exclude [] |})).

Definition submitter_count_tasks : io unit := counting "Submitter" "CountTasks" (
  client ← new_client;
  unwrap (SubmitterRpc.count_tasks (into_submitter client)
      {| Submitter.TaskFilter.ids := Submitter.TaskFilterIds.Sessions ["session-id"];
       Submitter.TaskFilter.statuses := Submitter.TaskFilterStatuses.Exclude [] |})).

Definition submitter_try_get_result : io unit := counting "Submitter" "TryGetResultStream" (
  client ← new_client;
  unwrap_collected (SubmitterRpc.try_get_result (into_submitter client) "session-id" "result-id")).

Definition submitter_try_get_task_output : io unit := counting "Submitter" "TryGetTaskOutput" (
  client ← new_client;
  unwrap (SubmitterRpc.try_get_task_output (into_submitter client) "session-id" "task_id")).

Definition submitter_wait_for_availability : io unit := counting "Submitter" "WaitForAvailability" (
  client ← new_client;
  unwrap (SubmitterRpc.wait_for_availability (into_submitter client) "session-id" "result-id")).

Definition submitter_wait_for_completion : io unit := counting "Submitter" "WaitForCompletion" (
  client ← new_client;
  unwrap (SubmitterRpc.wait_for_completion (into_submitter client)
      {| Submitter.TaskFilter.ids := Submitter.TaskFilterIds.Sessions ["session-id"];
       Submitter.TaskFilter.statuses := Submitter.TaskFilterStatuses.Exclude [] |} true true)).

Definition submitter_cancel_tasks : io unit := counting "Submitter" "CancelTasks" (
  client ← new_client;
  unwrap (SubmitterRpc.cancel_tasks (into_submitter client)
      {| Submitter.TaskFilter.ids := Submitter.TaskFilterIds.Sessions ["session-id"];
       Submitter.TaskFilter.statuses := Submitter.TaskFilterStatuses.Exclude [] |})).

Definition submitter_task_status : io unit := counting "Submitter" "GetTaskStatus" (
  client ← new_client;
  unwrap (SubmitterRpc.task_status (into_submitter client) ["task1"; "task2"])).

Definition submitter_result_status : io unit := counting "Submitter" "GetResultStatus" (
  client ← new_client;
  unwrap (SubmitterRpc.result_status (into_submitter client)
      "session-id" ["result1"; "result2"])).

Definition submitter_get_service_configuration_call : io unit := counting "Submitter"
      "GetServiceConfiguration" (
  client ← new_client;
  unwrap (call (into_submitter client)
      (Submitter.get_service_configuration.Request.mk :
      Submitter.get_service_configuration.Request.t))).

Definition submitter_create_session_call : io unit := counting "Submitter" "CreateSession" (
  client ← new_client;
  unwrap (call (into_submitter client)
      ({| Submitter.create_session.Request.default_task_options := (in_partition "part1");
       Submitter.create_session.Request.partition_ids := ["part1"; "part2"] |} :
       Submitter.create_session.Request.t))).

Definition submitter_cancel_session_call : io unit := counting "Submitter" "CancelSession" (
  client ← new_client;
  unwrap (call (into_submitter client)
      ({| Submitter.cancel_session.Request.session_id := "session-id" |} :
      Submitter.cancel_session.Request.t))).

Definition submitter_create_small_tasks_call : io unit := counting "Submitter" "CreateSmallTasks" (
  client ← new_client;
  unwrap_or_internal (call (into_submitter client)
      ({| Submitter.create_tasks.SmallRequest.session_id := "session-id";
       Submitter.create_tasks.SmallRequest.task_options := None;
       Submitter.create_tasks.SmallRequest.task_requests := [] |} :
       Submitter.create_tasks.SmallRequest.t))).

Definition submitter_create_large_tasks_call : io unit := counting "Submitter" "CreateLargeTasks" (
  client ← new_client;
  unwrap_or_internal (call (into_submitter client)
      (stream_iter [Submitter.create_tasks.LargeRequest.Invalid] : stream W
      Submitter.create_tasks.LargeRequest.t))).

Definition submitter_list_tasks_call : io unit := counting "Submitter" "ListTasks" (
  client ← new_client;
  unwrap (call (into_submitter client)
      ({| Submitter.list_tasks.Request.filter := {| Submitter.TaskFilter.ids :=
      Submitter.TaskFilterIds.Sessions ["session-id"];
       Submitter.TaskFilter.statuses := Submitter.TaskFilterStatuses.Exclude [] |} |} :
       Submitter.list_tasks.Request.t))).

Definition submitter_list_sessions_call : io unit := counting "Submitter" "ListSessions" (
  client ← new_client;
  unwrap (call (into_submitter client)
      ({| Submitter.list_sessions.Request.filter := {| Submitter.SessionFilter.ids :=
      ["session-id"];
       Submitter.SessionFilter.statuses := Submitter.SessionFilterStatuses.Exclude [] |} |} :
       Submitter.list_sessions.Request.t))).

Definition submitter_count_tasks_call : io unit := counting "Submitter" "CountTasks" (
  client ← new_client;
  unwrap (call (into_submitter client)
      ({| Submitter.count_tasks.Request.filter := {| Submitter.TaskFilter.ids :=
      Submitter.TaskFilterIds.Sessions ["session-id"];
       Submitter.TaskFilter.statuses := Submitter.TaskFilterStatuses.Exclude [] |} |} :
       Submitter.count_tasks.Request.t))).

Definition submitter_try_get_result_call : io unit := counting "Submitter" "TryGetResultStream" (
  client ← new_client;
  unwrap_collected (call (into_submitter client)
      ({| Submitter.try_get_result.Request.session_id := "session-id";
       Submitter.try_get_result.Request.result_id := "result-id" |} :
       Submitter.try_get_result.Request.t))).

Definition submitter_try_get_task_output_call : io unit := counting "Submitter" "TryGetTaskOutput" (
  client ← new_client;
  unwrap (call (into_submitter client)
      ({| Submitter.try_get_task_output.Request.session_id := "session-id";
       Submitter.try_get_task_output.Request.task_id := "task-id" |} :
       Submitter.try_get_task_output.Request.t))).

Definition submitter_wait_for_availability_call : io unit := counting "Submitter"
      "WaitForAvailability" (
  client ← new_client;
  unwrap (call (into_submitter client)
      ({| Submitter.wait_for_availability.Request.session_id := "session-id";
       Submitter.wait_for_availability.Request.result_id := "result-id" |} :
       Submitter.wait_for_availability.Request.t))).

Definition submitter_wait_for_completion_call : io unit := counting "Submitter"
      "WaitForCompletion" (
  client ← new_client;
  unwrap (call (into_submitter client)
      ({| Submitter.wait_for_completion.Request.filter := {| Submitter.TaskFilter.ids :=
      Submitter.TaskFilterIds.Sessions ["session-id"];
       Submitter.TaskFilter.statuses := Submitter.TaskFilterStatuses.Exclude [] |};
       Submitter.wait_for_completion.Request.stop_on_first_task_error := true;
       Submitter.wait_for_completion.Request.stop_on_first_task_cancellation := true |} :
       Submitter.wait_for_completion.Request.t))).

Definition submitter_cancel_tasks_call : io unit := counting "Submitter" "CancelTasks" (
  client ← new_client;
  unwrap (call (into_submitter client)
      ({| Submitter.cancel_tasks.Request.filter := {| Submitter.TaskFilter.ids :=
      Submitter.TaskFilterIds.Sessions ["session-id"];
       Submitter.TaskFilter.statuses := Submitter.TaskFilterStatuses.Exclude [] |} |} :
       Submitter.cancel_tasks.Request.t))).

Definition submitter_task_status_call : io unit := counting "Submitter" "GetTaskStatus" (
  client ← new_client;
  unwrap (call (into_submitter client)
      ({| Submitter.task_status.Request.task_ids := [] |} : Submitter.task_status.Request.t))).

Definition submitter_result_status_call : io unit := counting "Submitter" "GetResultStatus" (
  client ← new_client;
  unwrap (call (into_submitter client)
      ({| Submitter.result_status.Request.session_id := "session-id";
       Submitter.result_status.Request.result_ids := [] |} : Submitter.result_status.Request.t))).

(** Every test of the modules. *)
Definition client_tests : list (io unit) :=
  [sessions_list;
   sessions_get;
   sessions_cancel;
   sessions_create;
   sessions_pause;
   sessions_resume;
   sessions_close;
   sessions_purge;
   sessions_delete;
   sessions_stop_submission;
   sessions_list_call;
   sessions_get_call;
   sessions_cancel_call;
   sessions_create_call;
   sessions_pause_call;
   sessions_resume_call;
   sessions_close_call;
   sessions_purge_call;
   sessions_delete_call;
   sessions_stop_submission_call;
   tasks_list;
   tasks_list_detailed;
   tasks_get;
   tasks_cancel;
   tasks_get_result_ids;
   tasks_count_status;
   tasks_submit;
   tasks_list_call;
   tasks_list_detailed_call;
   tasks_get_call;
   tasks_cancel_call;
   tasks_get_result_ids_call;
   tasks_count_status_call;
   tasks_submit_call;
   results_list;
   results_get;
   results_get_owner_task_id;
   results_create_metadata;
   results_create;
   results_upload;
   results_download;
   results_delete_data;
   results_import;
   results_get_service_configuration;
   results_list_call;
   results_get_call;
   results_get_owner_task_id_call;
   results_create_metadata_call;
   results_create_call;
   results_delete_data_call;
   results_get_service_configuration_call;
   results_download_call;
   results_upload_call;
   partitions_list;
   partitions_get;
   partitions_list_call;
   partitions_get_call;
   applications_list;
   applications_list_call;
   auth_current_user;
   auth_current_user_call;
   versions_list;
   versions_list_call;
   health_checks_check;
   health_checks_check_call;
   events_subscribe;
   events_subscribe_call;
   agent_create_results_metadata;
   agent_create_results;
   agent_notify_result_data;
   agent_submit;
   agent_create_tasks;
   agent_create_results_metadata_call;
   agent_create_results_call;
   agent_notify_result_data_call;
   agent_submit_tasks_call;
   agent_get_resource_data_call;
   agent_get_common_data_call;
   agent_get_direct_data_call;
   agent_create_tasks_call;
   submitter_get_service_configuration;
   submitter_create_session;
   submitter_cancel_session;
   submitter_create_small_tasks;
   submitter_create_large_tasks;
   submitter_list_tasks;
   submitter_list_sessions;
   submitter_count_tasks;
   submitter_try_get_result;
   submitter_try_get_task_output;
   submitter_wait_for_availability;
   submitter_wait_for_completion;
   submitter_cancel_tasks;
   submitter_task_status;
   submitter_result_status;
   submitter_get_service_configuration_call;
   submitter_create_session_call;
   submitter_cancel_session_call;
   submitter_create_small_tasks_call;
   submitter_create_large_tasks_call;
   submitter_list_tasks_call;
   submitter_list_sessions_call;
   submitter_count_tasks_call;
   submitter_try_get_result_call;
   submitter_try_get_task_output_call;
   submitter_wait_for_availability_call;
   submitter_wait_for_completion_call;
   submitter_cancel_tasks_call;
   submitter_task_status_call;
   submitter_result_status_call].

(** ** The server of the tests

    The rpcs that are counted. *)
Definition tested : list (string * string) :=
  [("Sessions", "ListSessions");
   ("Sessions", "GetSession");
   ("Sessions", "CancelSession");
   ("Sessions", "CreateSession");
   ("Sessions", "PauseSession");
   ("Sessions", "ResumeSession");
   ("Sessions", "CloseSession");
   ("Sessions", "PurgeSession");
   ("Sessions", "DeleteSession");
   ("Sessions", "StopSubmission");
   ("Tasks", "ListTasks");
   ("Tasks", "ListTasksDetailed");
   ("Tasks", "GetTask");
   ("Tasks", "CancelTasks");
   ("Tasks", "GetResultIds");
   ("Tasks", "CountTasksByStatus");
   ("Tasks", "SubmitTasks");
   ("Results", "ListResults");
   ("Results", "GetResult");
   ("Results", "GetOwnerTaskId");
   ("Results", "CreateResultsMetaData");
   ("Results", "CreateResults");
   ("Results", "UploadResultData");
   ("Results", "DownloadResultData");
   ("Results", "DeleteResultsData");
   ("Results", "ImportResultsData");
   ("Results", "GetServiceConfiguration");
   ("Partitions", "ListPartitions");
   ("Partitions", "GetPartition");
   ("Applications", "ListApplications");
   ("Authentication", "GetCurrentUser");
   ("Versions", "ListVersions");
   ("HealthChecks", "CheckHealth");
   ("Events", "GetEvents");
   ("Agent", "CreateResultsMetaData");
   ("Agent", "CreateResults");
   ("Agent", "NotifyResultData");
   ("Agent", "SubmitTasks");
   ("Agent", "CreateTask");
   ("Agent", "GetResourceData");
   ("Agent", "GetCommonData");
   ("Agent", "GetDirectData");
   ("Submitter", "GetServiceConfiguration");
   ("Submitter", "CreateSession");
   ("Submitter", "CancelSession");
   ("Submitter", "CreateSmallTasks");
   ("Submitter", "CreateLargeTasks");
   ("Submitter", "ListTasks");
   ("Submitter", "ListSessions");
   ("Submitter", "CountTasks");
   ("Submitter", "TryGetResultStream");
   ("Submitter", "TryGetTaskOutput");
   ("Submitter", "WaitForAvailability");
   ("Submitter", "WaitForCompletion");
   ("Submitter", "CancelTasks");
   ("Submitter", "GetTaskStatus");
   ("Submitter", "GetResultStatus")].

(** What the server has counted is part of the world. *)
Context (count : string → string → W → Z).

(** The server answers every request [M] of an rpc, with a response [P], and counts it. *)
Definition counts_with {A B} (M : A → Prop) (P : B → Prop) (service name : string)
    (f : rpc W A B) : Prop :=
  ∀ request w, M request.(message) → ∃ response w',
    f request w = (Ok response, w') ∧ P response.(into_inner) ∧
    count service name w' = (count service name w + 1)%Z.

Definition any {A} (_ : A) : Prop := True.
Definition counts {A B} : string → string → rpc W A B → Prop := counts_with any any.

(** A stream that can be pulled without changing the world, a list for instance. *)
Definition quiet {A} (s : stream W A) : Prop := ∀ st w, (s.(stream_poll) st w).2 = w.

(** A stream of a few items, none of them an error, which is not a request. *)
Definition ending {E A} (service name : string) (s : stream W (result E A)) : Prop :=
  ∀ w, ∃ items w', drains s (start s w) (map Ok items) w' ∧ length items < fuel ∧
    count service name w' = count service name w.

Definition mock_sessions (stub : SessionsRpc.Stub.t W) : Prop :=
  counts "Sessions" "ListSessions" stub.(SessionsRpc.Stub.list_sessions W) ∧
  counts "Sessions" "GetSession" stub.(SessionsRpc.Stub.get_session W) ∧
  counts "Sessions" "CancelSession" stub.(SessionsRpc.Stub.cancel_session W) ∧
  counts "Sessions" "CreateSession" stub.(SessionsRpc.Stub.create_session W) ∧
  counts "Sessions" "PauseSession" stub.(SessionsRpc.Stub.pause_session W) ∧
  counts "Sessions" "ResumeSession" stub.(SessionsRpc.Stub.resume_session W) ∧
  counts "Sessions" "CloseSession" stub.(SessionsRpc.Stub.close_session W) ∧
  counts "Sessions" "PurgeSession" stub.(SessionsRpc.Stub.purge_session W) ∧
  counts "Sessions" "DeleteSession" stub.(SessionsRpc.Stub.delete_session W) ∧
  counts "Sessions" "StopSubmission" stub.(SessionsRpc.Stub.stop_submission W).

Definition mock_tasks (stub : TasksRpc.Stub.t W) : Prop :=
  counts "Tasks" "ListTasks" stub.(TasksRpc.Stub.list_tasks W) ∧
  counts "Tasks" "ListTasksDetailed" stub.(TasksRpc.Stub.list_tasks_detailed W) ∧
  counts "Tasks" "GetTask" stub.(TasksRpc.Stub.get_task W) ∧
  counts "Tasks" "CancelTasks" stub.(TasksRpc.Stub.cancel_tasks W) ∧
  counts "Tasks" "GetResultIds" stub.(TasksRpc.Stub.get_result_ids W) ∧
  counts "Tasks" "CountTasksByStatus" stub.(TasksRpc.Stub.count_tasks_by_status W) ∧
  counts "Tasks" "SubmitTasks" stub.(TasksRpc.Stub.submit_tasks W).

Definition mock_results (stub : ResultsRpc.ClientStub.t W) : Prop :=
  counts "Results" "ListResults" stub.(ResultsRpc.ClientStub.list_results W) ∧
  counts "Results" "GetResult" stub.(ResultsRpc.ClientStub.get_result W) ∧
  counts "Results" "GetOwnerTaskId" stub.(ResultsRpc.ClientStub.get_owner_task_id W) ∧
  counts "Results" "CreateResultsMetaData" stub.(ResultsRpc.ClientStub.create_results_meta_data W) ∧
  counts "Results" "CreateResults" stub.(ResultsRpc.ClientStub.create_results W) ∧
  counts_with quiet any
    "Results" "UploadResultData" stub.(ResultsRpc.ClientStub.upload_result_data W) ∧
  counts_with any (ending "Results" "DownloadResultData")
    "Results" "DownloadResultData" stub.(ResultsRpc.ClientStub.download_result_data W) ∧
  counts "Results" "DeleteResultsData" stub.(ResultsRpc.ClientStub.delete_results_data W) ∧
  counts "Results" "ImportResultsData" stub.(ResultsRpc.ClientStub.import_results_data W) ∧
  counts "Results" "GetServiceConfiguration" stub.(ResultsRpc.ClientStub.get_service_configuration W).

Definition mock_partitions (stub : PartitionsRpc.Stub.t W) : Prop :=
  counts "Partitions" "ListPartitions" stub.(PartitionsRpc.Stub.list_partitions W) ∧
  counts "Partitions" "GetPartition" stub.(PartitionsRpc.Stub.get_partition W).

Definition mock_applications (stub : ApplicationsRpc.Stub.t W) : Prop :=
  counts "Applications" "ListApplications" stub.(ApplicationsRpc.Stub.list_applications W).

Definition mock_auth (stub : AuthRpc.Stub.t W) : Prop :=
  counts "Authentication" "GetCurrentUser" stub.(AuthRpc.Stub.get_current_user W).

Definition mock_versions (stub : VersionsRpc.Stub.t W) : Prop :=
  counts "Versions" "ListVersions" stub.(VersionsRpc.Stub.list_versions W).

Definition mock_health_checks (stub : HealthChecksRpc.Stub.t W) : Prop :=
  counts "HealthChecks" "CheckHealth" stub.(HealthChecksRpc.Stub.check_health W).

Definition mock_events (stub : EventsRpc.Stub.t W) : Prop :=
  counts_with any (ending "Events" "GetEvents")
    "Events" "GetEvents" stub.(EventsRpc.Stub.get_events W).

Definition mock_agent (stub : AgentRpc.ClientStub.t W) : Prop :=
  counts "Agent" "CreateResultsMetaData" stub.(AgentRpc.ClientStub.create_results_meta_data W) ∧
  counts "Agent" "CreateResults" stub.(AgentRpc.ClientStub.create_results W) ∧
  counts "Agent" "NotifyResultData" stub.(AgentRpc.ClientStub.notify_result_data W) ∧
  counts "Agent" "SubmitTasks" stub.(AgentRpc.ClientStub.submit_tasks W) ∧
  counts_with quiet (λ r : V3.agent.CreateTaskReply.t, ∃ statuses,
       r.(V3.agent.CreateTaskReply.response)
       = Some (V3.agent.create_task_reply.Response.CreationStatusList statuses))
    "Agent" "CreateTask" stub.(AgentRpc.ClientStub.create_task W) ∧
  counts "Agent" "GetResourceData" stub.(AgentRpc.ClientStub.get_resource_data W) ∧
  counts "Agent" "GetCommonData" stub.(AgentRpc.ClientStub.get_common_data W) ∧
  counts "Agent" "GetDirectData" stub.(AgentRpc.ClientStub.get_direct_data W).

Definition mock_submitter (stub : SubmitterRpc.ClientStub.t W) : Prop :=
  counts "Submitter" "GetServiceConfiguration" stub.(SubmitterRpc.ClientStub.get_service_configuration W) ∧
  counts "Submitter" "CreateSession" stub.(SubmitterRpc.ClientStub.create_session W) ∧
  counts "Submitter" "CancelSession" stub.(SubmitterRpc.ClientStub.cancel_session W) ∧
  counts_with any (λ r : V3.submitter.CreateTaskReply.t, ∃ statuses,
       r.(V3.submitter.CreateTaskReply.response)
       = Some (V3.submitter.create_task_reply.Response.CreationStatusList statuses))
    "Submitter" "CreateSmallTasks" stub.(SubmitterRpc.ClientStub.create_small_tasks W) ∧
  counts_with quiet (λ r : V3.submitter.CreateTaskReply.t, ∃ statuses,
       r.(V3.submitter.CreateTaskReply.response)
       = Some (V3.submitter.create_task_reply.Response.CreationStatusList statuses))
    "Submitter" "CreateLargeTasks" stub.(SubmitterRpc.ClientStub.create_large_tasks W) ∧
  counts "Submitter" "ListTasks" stub.(SubmitterRpc.ClientStub.list_tasks W) ∧
  counts "Submitter" "ListSessions" stub.(SubmitterRpc.ClientStub.list_sessions W) ∧
  counts "Submitter" "CountTasks" stub.(SubmitterRpc.ClientStub.count_tasks W) ∧
  counts_with any (ending "Submitter" "TryGetResultStream")
    "Submitter" "TryGetResultStream" stub.(SubmitterRpc.ClientStub.try_get_result_stream W) ∧
  counts_with any (λ r : V3.Output.t, ∃ empty, r.(V3.Output.type_) = Some (V3.output.Type_.Ok empty))
    "Submitter" "TryGetTaskOutput" stub.(SubmitterRpc.ClientStub.try_get_task_output W) ∧
  counts "Submitter" "WaitForAvailability" stub.(SubmitterRpc.ClientStub.wait_for_availability W) ∧
  counts "Submitter" "WaitForCompletion" stub.(SubmitterRpc.ClientStub.wait_for_completion W) ∧
  counts "Submitter" "CancelTasks" stub.(SubmitterRpc.ClientStub.cancel_tasks W) ∧
  counts "Submitter" "GetTaskStatus" stub.(SubmitterRpc.ClientStub.get_task_status W) ∧
  counts "Submitter" "GetResultStatus" stub.(SubmitterRpc.ClientStub.get_result_status W).

(** The environment leads to the server: its counts are read, and its channel made. *)
Definition mock_reached (channel : Channel) : Prop :=
  ∃ config uri https,
    from_env env = Ok config ∧
    (var env "Http__Endpoint" = Err NotPresent ∨ var env "Http__Endpoint" = Ok EmptyString) ∧
    Uri_try_from (Uri_to_string config.(endpoint) +:+ "calls.json") = Ok uri ∧
    https_connector (TransportError:=TransportError) config = Return (Ok https) ∧
    connect_with_connector config.(endpoint) (endpoint_setters config) https
      = Return (Ok channel) ∧
    (∀ w, ∃ response w1 body w2 calls,
       http_get https uri w = (Ok response, w1) ∧
       body_collect response w1 = (Ok body, w2) ∧
       counts_from_slice body = Ok calls ∧
       ∀ service name, (service, name) ∈ tested →
         calls !! service ≫= (.!! name) = Some (count service name w) ∧
         count service name w2 = count service name w).

Definition mock_server (channel : Channel) : Prop :=
  mock_reached channel ∧
  mock_sessions (generated_new channel) ∧
  mock_tasks (generated_new channel) ∧
  mock_results (generated_new channel) ∧
  mock_partitions (generated_new channel) ∧
  mock_applications (generated_new channel) ∧
  mock_auth (generated_new channel) ∧
  mock_versions (generated_new channel) ∧
  mock_health_checks (generated_new channel) ∧
  mock_events (generated_new channel) ∧
  mock_agent (generated_new channel) ∧
  mock_submitter (generated_new channel).

(** ** Why the tests pass *)

(** The test does not panic. *)
Definition passes (test : io unit) : Prop := ∀ w, ∃ w', test w = Return (tt, w').

(** The call succeeds with an answer [P], and is one request of the rpc. *)
Definition counted {A} (service name : string) (P : A → Prop) (c : fallible W RequestError A)
    : Prop :=
  ∀ w, ∃ a w', c w = (Ok a, w') ∧ P a ∧ count service name w' = (count service name w + 1)%Z.

(** The same for the body of a test. *)
Definition counted_body (service name : string) (body : io unit) : Prop :=
  ∀ w, ∃ w', body w = Return (tt, w') ∧ count service name w' = (count service name w + 1)%Z.

Lemma get_nb_request_count channel service name w :
  mock_reached channel → (service, name) ∈ tested →
  ∃ w', get_nb_request service name w = Return (count service name w, w') ∧
    count service name w' = count service name w.
Proof.
  intros (config & uri & https & Hc & Hv & Hu & Hs & _ & Hw) Hin.
  destruct (Hw w) as (response & w1 & body & w2 & calls & Hg & Hb & Hj & Hall).
  destruct (Hall _ _ Hin) as [Hn Hw2]. exists w2. split; [|done].
  unfold get_nb_request, lift, expect, expected, mbind, io_bind, outcome_bind. rewrite Hc.
  destruct Hv as [Hv|Hv]; rewrite Hv; rewrite Hu, Hs, Hg, Hb, Hj;
    unfold mbind in Hn; cbn; by rewrite Hn.
Qed.

Lemma new_client_reached channel w :
  mock_reached channel → new_client w = Return (with_channel channel, w).
Proof.
  intros (config & uri & https & Hc & _ & _ & Hs & Hch & _).
  unfold new_client, new, with_config, connect, lift, and_then, expect, mbind, io_bind, outcome_bind.
  rewrite Hc. unfold map_err at 1. rewrite Hs, Hch. done.
Qed.

Lemma counting_passes channel service name body :
  mock_reached channel → (service, name) ∈ tested →
  counted_body service name body → passes (counting service name body).
Proof.
  intros Hm Hin Hb w. unfold counting, mbind, io_bind.
  destruct (get_nb_request_count channel service name w Hm Hin) as (w1 & -> & Hw1).
  destruct (Hb w1) as (w2 & -> & Hw2).
  destruct (get_nb_request_count channel service name w2 Hm Hin) as (w3 & -> & _).
  exists w3. unfold assert_one_more. rewrite Hw2, Hw1.
  by replace (_ =? 1)%Z with true by lia.
Qed.

Lemma with_client_counted channel service name k :
  mock_reached channel → counted_body service name (k (with_channel channel)) →
  counted_body service name (client ← new_client; k client).
Proof.
  intros Hm Hk w. unfold mbind, io_bind. rewrite (new_client_reached channel w Hm). apply Hk.
Qed.

Lemma unwrap_counted {A} service name (P : A → Prop) c :
  counted service name P c → counted_body service name (unwrap c).
Proof.
  intros Hc w. destruct (Hc w) as (a & w' & Hw & _ & Hn). exists w'. split; [|done].
  unfold unwrap, expected, mbind, io_bind. by rewrite Hw.
Qed.

Lemma unwrap_or_internal_counted {A} service name (P : A → Prop) c :
  counted service name P c → counted_body service name (unwrap_or_internal c).
Proof.
  intros Hc w. destruct (Hc w) as (a & w' & Hw & _ & Hn). exists w'. split; [|done].
  unfold unwrap_or_internal. by rewrite Hw.
Qed.

Lemma unwrap_collected_counted {E A} service name (c : fallible W RequestError (stream W (result E A))) :
  counted service name (ending service name) c →
  counted_body service name (unwrap_collected c).
Proof.
  intros Hc w. destruct (Hc w) as (s & w1 & Hw & Hs & Hn).
  destruct (Hs w1) as (items & w2 & Hd & Hlen & Hn'). exists w2. split; [|congruence].
  unfold unwrap_collected, expected, lift, expect, mbind, io_bind, outcome_bind. rewrite Hw.
  by rewrite (try_collect_drains fuel s _ _ _ _ Hd Hlen).
Qed.

(** What a call does with the response to its request. *)
Lemma counted_response {A B C} service name (M : A → Prop) (Q : B → Prop) (P : C → Prop)
    (f : rpc W A B) m (k : Response B → C) :
  counts_with M Q service name f → M m → (∀ response, Q response.(into_inner) → P (k response)) →
  counted service name P
    (response ← fallible_map_err Grpc (f (Request_new m)); mret (k response)).
Proof.
  intros Hf Hm Hk w. destruct (Hf (Request_new m) w Hm) as (response & w' & Hw & HQ & Hn).
  exists (k response), w'. unfold mbind, fallible_bind, fallible_map_err. rewrite Hw.
  split_and!; [done|by apply Hk|done].
Qed.

Lemma counted_answer {A B C} service name (M : A → Prop) (Q : B → Prop) (f : rpc W A B) m
    (k : B → C) :
  counts_with M Q service name f → M m →
  counted service name (λ c, ∃ b, Q b ∧ c = k b)
    (response ← fallible_map_err Grpc (f (Request_new m)); mret (k response.(into_inner))).
Proof. intros Hf Hm. apply (counted_response _ _ M Q); eauto. Qed.

Lemma counted_then {A B} service name (P : A → Prop) (P' : B → Prop) c
    (k : A → fallible W RequestError B) :
  counted service name P c → (∀ a w, P a → ∃ b, k a w = (Ok b, w) ∧ P' b) →
  counted service name P' (c ≫= k).
Proof.
  intros Hc Hk w. destruct (Hc w) as (a & w1 & Hw & Ha & Hn). destruct (Hk a w1 Ha) as (b & Hb & HP).
  exists b, w1. unfold mbind, fallible_bind. by rewrite Hw.
Qed.

Lemma ending_map {E F A B} service name (g : E → F) (f : A → B) (s : stream W (result E A)) :
  ending service name s →
  ending service name (stream_map (λ item, map_err g (f <$> item)) s).
Proof.
  intros Hs w. destruct (Hs w) as (items & w' & Hd & Hlen & Hn). exists (map f items), w'.
  split_and!; [|by rewrite length_map|done]. apply drains_map. exists (map Ok items).
  by rewrite !map_map.
Qed.

Lemma quiet_iter {A} (l : list A) : quiet (stream_iter l).
Proof. done. Qed.

Lemma quiet_map {A B} (f : A → B) (s : stream W A) : quiet s → quiet (stream_map f s).
Proof.
  intros Hs st w. cbn. specialize (Hs st w).
  by destruct (s.(stream_poll) st w) as [[[a st']|] w'].
Qed.

Lemma quiet_chain {A} (s1 s2 : stream W A) : quiet s1 → quiet s2 → quiet (stream_chain s1 s2).
Proof.
  intros Hs1 Hs2 [st|st] w; cbn.
  - specialize (Hs1 st w). destruct (s1.(stream_poll) st w) as [[[a st']|] w1]; [done|].
    cbn in Hs1. subst w1. specialize (Hs2 s2.(stream_start) w).
    by destruct (s2.(stream_poll) _ w) as [[[b st'']|] w2].
  - specialize (Hs2 st w). by destruct (s2.(stream_poll) st w) as [[[b st'']|] w2].
Qed.

Ltac solve_response :=
  eapply counted_response;
  [eassumption
  |first [exact I | repeat first [apply quiet_chain | apply quiet_map | apply quiet_iter]]
  |intros ? ?; cbn; first [exact I | by apply ending_map | eassumption]].

Ltac solve_call :=
  first
    [solve_response
    |eapply (counted_then _ _ any any); [solve_response|intros ? ? _; by eexists]
    |eapply (counted_then _ _ _ any);
     [eapply counted_answer;
        [eassumption|first [exact I | repeat first [apply quiet_map | apply quiet_iter]]]
     |intros ? ? (reply & (? & Hreply) & ->); destruct reply; cbn in Hreply; subst;
      eexists; split; [reflexivity|exact I]]].

Ltac solve_test channel :=
  apply (counting_passes channel); [eassumption|compute_done|];
  apply (with_client_counted channel); [eassumption|];
  unfold into_sessions, into_tasks, into_results, into_partitions, into_applications, into_auth,
    into_versions, into_health_checks, into_events, into_agent, into_submitter;
  rewrite generated_owned;
  first [apply unwrap_collected_counted
        |apply (unwrap_or_internal_counted _ _ any)
        |apply (unwrap_counted _ _ any)];
  autounfold with rpc; unfold unary_call, stream_client_call, stream_server_call, into_request;
  cbn [SessionsRpc.inner SessionsRpc.with_channel]; solve_call.

(** C19: Against a server that answers and counts, every test of the clients passes: each
    method, on the arguments of its tests, succeeds, and is exactly one request of the rpc
    the test names, from the creation of the client in the environment of the tests to
    the collection of the streams. *)
Theorem client_tests_pass channel : mock_server channel → Forall passes client_tests.
Proof.
  intros Hall. pose proof Hall as [Hreached Hmock].
  unfold mock_sessions, mock_tasks, mock_results, mock_partitions, mock_applications, mock_auth,
    mock_versions, mock_health_checks, mock_events, mock_agent, mock_submitter, counts in Hmock.
  destruct_and! Hmock.
  unfold client_tests. repeat (apply Forall_cons_2; [solve_test channel|]). apply Forall_nil_2.
Qed.
End tests.
