(* ===== verification/Witnesses.v ===== *)
(** Each law at work: services that answer, clients that reach them, configurations
    that are read and connections that are made, on concrete inputs. *)

From Stdlib Require Import Strings.Ascii.
From S2P Require Import Prelude V3 Objects Filters Sessions Tasks Results Partitions.
From S2P Require Import Applications Misc Events Worker Agent Submitter MessageLaws Rpc.
From S2P Require Import SessionsRpc PartitionsRpc ApplicationsRpc AuthRpc VersionsRpc.
From S2P Require Import HealthChecksRpc WorkerRpc TasksRpc EventsRpc ResultsRpc AgentRpc.
From S2P Require Import SubmitterRpc Streams StreamLaws Serde Std Env Config ConfigSpec Connect.
From S2P Require Import ConfigTests.

(** ** Services

    Services that write in a log, over a connection that hands every request to them. *)

#[local] Existing Instance plain_tonic.
#[local] Existing Instance in_key_order.

Notation log := (Datatypes.list string).

Definition answer {A B} (text : A → string) (f : A → B) : method log A B :=
  λ request _ w, (Ok (f request), w ++ [text request]).

Definition answer_default {A B} `{Default B} (name : string) : method log A B :=
  answer (λ _, name) (λ _, dflt).

Definition answer_stream {A B} (items : A → Datatypes.list (result Status B))
    : method log A (stream log (result Status B)) :=
  λ request _ w, (Ok (stream_iter (items request)), w).

(** Pulls a stream, for ten items at most, and writes each of them. *)
Definition answer_pulled {A B} `{Default B} (text : A → string)
    : method log (stream log (result Status A)) B :=
  pulling 10 (λ pulled _ w,
    (Ok dflt, w ++ map (λ item, match item with Ok a => text a | Err _ => "error" end) pulled)).

Definition pull {A} (r : result RequestError (stream log A) * log)
    : result RequestError (Datatypes.list A) * log :=
  match r with
  | (Ok s, w) => let '(l, w) := stream_take 10 s s.(stream_start) w in (Ok l, w)
  | (Err e, w) => (Err e, w)
  end.

Ltac solve_connected :=
  repeat split; first [apply loopback_delivers | apply loopback_items_delivers
                       | apply loopback_stream_delivers].

Definition sessions : SessionsRpc.Service.t log := {|
  SessionsRpc.Service.list := answer_default "list";
  SessionsRpc.Service.get := answer (λ r, r.(Sessions.get.Request.session_id)) (λ r,
    {| Sessions.get.Response.session :=
         {| Sessions.Raw.session_id := r.(Sessions.get.Request.session_id);
            Sessions.Raw.status := SessionStatus.Paused;
            Sessions.Raw.client_submission := true;
            Sessions.Raw.worker_submission := false;
            Sessions.Raw.partition_ids := ["p"; "q"];
            Sessions.Raw.default_task_options := dflt;
            Sessions.Raw.created_at := None;
            Sessions.Raw.cancelled_at := None;
            Sessions.Raw.closed_at := None;
            Sessions.Raw.purged_at := None;
            Sessions.Raw.deleted_at := None;
            Sessions.Raw.duration := None |} |});
  SessionsRpc.Service.cancel := answer_default "cancel";
  SessionsRpc.Service.create := answer_default "create";
  SessionsRpc.Service.pause := answer_default "pause";
  SessionsRpc.Service.resume := answer_default "resume";
  SessionsRpc.Service.close := answer_default "close";
  SessionsRpc.Service.purge := answer_default "purge";
  SessionsRpc.Service.delete := answer_default "delete";
  SessionsRpc.Service.stop_submission := answer_default "stop_submission" |}.

Definition sessions_stub : SessionsRpc.Stub.t log := SessionsRpc.server sessions.

Lemma sessions_connected : SessionsRpc.connected sessions_stub (SessionsRpc.server sessions).
Proof. solve_connected. Qed.

Lemma sessions_end_to_end_witness :
  (λ '(r, w), (Sessions.Raw.status <$> r, w))
    (SessionsRpc.get (SessionsRpc.with_channel sessions_stub) "s" []) = (Ok SessionStatus.Paused, ["s"]).
Proof.
  pose proof (SessionsRpc.sessions_end_to_end sessions _ sessions_connected) as Hall.
  destruct ((proj1 (proj2 Hall)) "s" []) as [context ->]. reflexivity.
Defined.

Definition partitions : PartitionsRpc.Service.t log := {|
  PartitionsRpc.Service.list := answer_default "list";
  PartitionsRpc.Service.get := answer_default "get" |}.

Definition partitions_stub : PartitionsRpc.Stub.t log := PartitionsRpc.server partitions.

Lemma partitions_connected : PartitionsRpc.connected partitions_stub (PartitionsRpc.server partitions).
Proof. solve_connected. Qed.

Lemma partitions_end_to_end_witness :
  PartitionsRpc.get (PartitionsRpc.with_channel partitions_stub) "p" [] = (Ok dflt, ["get"]).
Proof.
  pose proof (PartitionsRpc.partitions_end_to_end partitions _ partitions_connected) as Hall.
  destruct ((proj2 Hall) "p" []) as [context ->]. reflexivity.
Defined.

Definition applications : ApplicationsRpc.Service.t log := {|
  ApplicationsRpc.Service.list := answer
    (λ r, if decide (r.(Applications.list.Request.page) = 2%Z) then "second" else "other") (λ _, dflt) |}.

Definition applications_stub : ApplicationsRpc.Stub.t log := ApplicationsRpc.server applications.

Lemma applications_connected : ApplicationsRpc.connected applications_stub (ApplicationsRpc.server applications).
Proof. solve_connected. Qed.

Lemma applications_end_to_end_witness :
  ApplicationsRpc.list (ApplicationsRpc.with_channel applications_stub) []
    (Objects.SortMany.mk [Applications.Field.Name] SortDirection.Desc) 2 10 [] = (Ok dflt, ["second"]).
Proof.
  pose proof (ApplicationsRpc.applications_end_to_end applications _ applications_connected) as Hall.
  destruct (Hall [] (Objects.SortMany.mk [Applications.Field.Name] SortDirection.Desc) 2%Z 10%Z []) as [context ->]. reflexivity.
Defined.

Definition auth : AuthRpc.Service.t log := {|
  AuthRpc.Service.current_user := answer_default "current_user" |}.

Definition auth_stub : AuthRpc.Stub.t log := AuthRpc.server auth.

Lemma auth_connected : AuthRpc.connected auth_stub (AuthRpc.server auth).
Proof. solve_connected. Qed.

Lemma auth_end_to_end_witness :
  AuthRpc.current_user (AuthRpc.with_channel auth_stub) [] = (Ok dflt, ["current_user"]).
Proof.
  pose proof (AuthRpc.auth_end_to_end auth _ auth_connected) as Hall.
  destruct (Hall []) as [context ->]. reflexivity.
Defined.

Definition versions : VersionsRpc.Service.t log := {|
  VersionsRpc.Service.list := answer (λ _, "list") (λ _,
    {| Misc.Versions.list.Response.core := "1"; Misc.Versions.list.Response.api := "2" |}) |}.

Definition versions_stub : VersionsRpc.Stub.t log := VersionsRpc.server versions.

Lemma versions_connected : VersionsRpc.connected versions_stub (VersionsRpc.server versions).
Proof. solve_connected. Qed.

Lemma versions_end_to_end_witness :
  VersionsRpc.list (VersionsRpc.with_channel versions_stub) [] = (Ok {| Misc.Versions.list.Response.core := "1"; Misc.Versions.list.Response.api := "2" |},
       ["list"]).
Proof.
  pose proof (VersionsRpc.versions_end_to_end versions _ versions_connected) as Hall.
  destruct (Hall []) as [context ->]. reflexivity.
Defined.

Definition health_checks : HealthChecksRpc.Service.t log := {|
  HealthChecksRpc.Service.check := answer_default "check" |}.

Definition health_checks_stub : HealthChecksRpc.Stub.t log := HealthChecksRpc.server health_checks.

Lemma health_checks_connected : HealthChecksRpc.connected health_checks_stub (HealthChecksRpc.server health_checks).
Proof. solve_connected. Qed.

Lemma health_checks_end_to_end_witness :
  HealthChecksRpc.check (HealthChecksRpc.with_channel health_checks_stub) [] = (Ok dflt, ["check"]).
Proof.
  pose proof (HealthChecksRpc.health_checks_end_to_end health_checks _ health_checks_connected) as Hall.
  destruct (Hall []) as [context ->]. reflexivity.
Defined.

Definition worker : WorkerRpc.Service.t log := {|
  WorkerRpc.Service.health_check := answer (λ _, "health") (λ _, Worker.health_check.Response.Serving);
  WorkerRpc.Service.process := answer_default "process" |}.

Definition worker_stub : WorkerRpc.Stub.t log := WorkerRpc.server worker.

Lemma worker_connected : WorkerRpc.connected worker_stub (WorkerRpc.server worker).
Proof. solve_connected. Qed.

Lemma worker_end_to_end_witness :
  WorkerRpc.health_check (WorkerRpc.with_channel worker_stub) [] = (Ok Worker.health_check.Response.Serving, ["health"]).
Proof.
  pose proof (WorkerRpc.worker_end_to_end worker _ worker_connected) as Hall.
  destruct ((proj1 Hall) []) as [context ->]. reflexivity.
Defined.

Definition tasks : TasksRpc.Service.t log := {|
  TasksRpc.Service.list := answer_default "list";
  TasksRpc.Service.list_detailed := answer_default "list_detailed";
  TasksRpc.Service.get := answer_default "get";
  TasksRpc.Service.cancel := answer_default "cancel";
  TasksRpc.Service.get_result_ids := answer (λ _, "get_result_ids") (λ r,
    {| Tasks.get_result_ids.Response.task_results :=
         list_to_map (map (λ id, (id, [id +:+ "/r"])) r.(Tasks.get_result_ids.Request.task_ids)) |});
  TasksRpc.Service.count_status := answer_default "count_status";
  TasksRpc.Service.submit := answer_default "submit" |}.

Definition tasks_stub : TasksRpc.Stub.t log := TasksRpc.server tasks.

Lemma tasks_connected : TasksRpc.connected tasks_stub (TasksRpc.server tasks).
Proof. solve_connected. Qed.

Lemma tasks_end_to_end_witness :
  (λ '(r, w), (map_to_list <$> r, w))
    (TasksRpc.get_result_ids (TasksRpc.with_channel tasks_stub) ["a"; "b"] []) = (Ok [("a", ["a/r"]); ("b", ["b/r"])], ["get_result_ids"]).
Proof.
  pose proof (TasksRpc.tasks_end_to_end tasks _ tasks_connected) as Hall.
  destruct ((proj1 (proj2 (proj2 (proj2 (proj2 Hall))))) ["a"; "b"] []) as [context ->]. reflexivity.
Defined.

Definition events : EventsRpc.Service.t log := {|
  EventsRpc.Service.subscribe := answer_stream (λ _, [Ok dflt; Err (Status_internal "lost"); Ok dflt]) |}.

Definition events_stub : EventsRpc.Stub.t log := {|
  EventsRpc.Stub.get_events := loopback_items (EventsRpc.server events).(EventsRpc.Stub.get_events log) |}.

Lemma events_connected : EventsRpc.connected events_stub (EventsRpc.server events).
Proof. solve_connected. Qed.

Lemma events_end_to_end_witness :
  pull (EventsRpc.subscribe (EventsRpc.with_channel events_stub) "s" [] [] [] []) = (Ok [Ok dflt; Err (Grpc ("internal", "lost"))], []).
Proof.
  pose proof (EventsRpc.events_end_to_end events _ events_connected) as Hall.
  destruct ((proj1 Hall) "s" [] [] [] []) as [context ->]. reflexivity.
Defined.

Definition raw_named (name : string) : Results.Raw.t := {|
  Results.Raw.session_id := dflt;
  Results.Raw.name := name;
  Results.Raw.owner_task_id := dflt;
  Results.Raw.status := ResultStatus.Completed;
  Results.Raw.created_at := dflt;
  Results.Raw.completed_at := dflt;
  Results.Raw.result_id := dflt;
  Results.Raw.size := 1;
  Results.Raw.created_by := dflt;
  Results.Raw.opaque_id := dflt;
  Results.Raw.manual_deletion := dflt |}.

Definition results : ResultsRpc.Service.t log := {|
  ResultsRpc.Service.list := answer_default "list";
  ResultsRpc.Service.get := answer_default "get";
  ResultsRpc.Service.get_owner_task_id := answer_default "get_owner_task_id";
  ResultsRpc.Service.create_metadata := answer_default "create_metadata";
  ResultsRpc.Service.create := answer_default "create";
  ResultsRpc.Service.import := answer (λ _, "import") (λ _,
    {| Results.import.Response.results :=
         list_to_map [("k1", raw_named "n"); ("k2", raw_named "n")] |});
  ResultsRpc.Service.delete_data := answer_default "delete_data";
  ResultsRpc.Service.get_service_configuration := answer_default "get_service_configuration";
  ResultsRpc.Service.download := answer_stream (λ r,
    [Ok (Results.download.Response.mk (String.list_byte_of_string r.(Results.download.Request.result_id)))]);
  ResultsRpc.Service.upload := answer_pulled (λ m,
    match m with
    | Results.upload.Request.Identifier session_id result_id => session_id +:+ "/" +:+ result_id
    | Results.upload.Request.DataChunk data => String.string_of_list_byte data
    end) |}.

Definition results_stub : ResultsRpc.ClientStub.t log := {|
  ResultsRpc.ClientStub.list_results := loopback (ResultsRpc.server results).(ResultsRpc.Stub.list_results log);
  ResultsRpc.ClientStub.get_result := loopback (ResultsRpc.server results).(ResultsRpc.Stub.get_result log);
  ResultsRpc.ClientStub.get_owner_task_id := loopback (ResultsRpc.server results).(ResultsRpc.Stub.get_owner_task_id log);
  ResultsRpc.ClientStub.create_results_meta_data := loopback (ResultsRpc.server results).(ResultsRpc.Stub.create_results_meta_data log);
  ResultsRpc.ClientStub.create_results := loopback (ResultsRpc.server results).(ResultsRpc.Stub.create_results log);
  ResultsRpc.ClientStub.import_results_data := loopback (ResultsRpc.server results).(ResultsRpc.Stub.import_results_data log);
  ResultsRpc.ClientStub.delete_results_data := loopback (ResultsRpc.server results).(ResultsRpc.Stub.delete_results_data log);
  ResultsRpc.ClientStub.get_service_configuration := loopback (ResultsRpc.server results).(ResultsRpc.Stub.get_service_configuration log);
  ResultsRpc.ClientStub.upload_result_data := loopback_stream (ResultsRpc.server results).(ResultsRpc.Stub.upload_result_data log);
  ResultsRpc.ClientStub.download_result_data := loopback_items (ResultsRpc.server results).(ResultsRpc.Stub.download_result_data log) |}.

Lemma results_connected : ResultsRpc.connected results_stub (ResultsRpc.server results).
Proof. solve_connected. Qed.

Lemma results_end_to_end_witness :
  (λ '(r, w), (map_to_list <$> r, w))
    (ResultsRpc.import (ResultsRpc.with_channel results_stub) "s" [("k1", []); ("k2", [])] []) = (Ok [("n", raw_named "n")], ["import"]).
Proof.
  pose proof (ResultsRpc.results_end_to_end results _ results_connected) as Hall.
  destruct ((proj1 (proj2 (proj2 (proj2 (proj2 (proj2 Hall)))))) "s" [("k1", []); ("k2", [])] []) as [context ->]. reflexivity.
Defined.

Lemma results_streams_end_to_end_witness :
  ResultsRpc.upload (ResultsRpc.with_channel results_stub) "s" "r"
    (stream_iter (map String.list_byte_of_string ["ab"; "c"])) [] = (Ok dflt, ["s/r"; "ab"; "c"]).
Proof.
  pose proof (ResultsRpc.results_streams_end_to_end results _ results_connected) as Hall.
  destruct ((proj1 Hall) "s" "r"
    (stream_iter (map String.list_byte_of_string ["ab"; "c"])) []) as [context ->]. reflexivity.
Defined.

Definition agent : AgentRpc.Service.t log := {|
  AgentRpc.Service.create_results_metadata := answer_default "create_results_metadata";
  AgentRpc.Service.create_results := answer_default "create_results";
  AgentRpc.Service.notify_result_data := answer (λ r, r.(Agent.notify_result_data.Request.session_id)) (λ r,
    {| Agent.notify_result_data.Response.result_ids :=
         r.(Agent.notify_result_data.Request.result_ids) |});
  AgentRpc.Service.submit_tasks := answer_default "submit_tasks";
  AgentRpc.Service.get_resource_data := answer_default "get_resource_data";
  AgentRpc.Service.get_common_data := answer_default "get_common_data";
  AgentRpc.Service.get_direct_data := answer_default "get_direct_data";
  AgentRpc.Service.create_tasks := answer_pulled (λ _, "request") |}.

Definition agent_stub : AgentRpc.ClientStub.t log := {|
  AgentRpc.ClientStub.create_results_meta_data := loopback (AgentRpc.server agent).(AgentRpc.Stub.create_results_meta_data log);
  AgentRpc.ClientStub.create_results := loopback (AgentRpc.server agent).(AgentRpc.Stub.create_results log);
  AgentRpc.ClientStub.notify_result_data := loopback (AgentRpc.server agent).(AgentRpc.Stub.notify_result_data log);
  AgentRpc.ClientStub.submit_tasks := loopback (AgentRpc.server agent).(AgentRpc.Stub.submit_tasks log);
  AgentRpc.ClientStub.get_resource_data := loopback (AgentRpc.server agent).(AgentRpc.Stub.get_resource_data log);
  AgentRpc.ClientStub.get_common_data := loopback (AgentRpc.server agent).(AgentRpc.Stub.get_common_data log);
  AgentRpc.ClientStub.get_direct_data := loopback (AgentRpc.server agent).(AgentRpc.Stub.get_direct_data log);
  AgentRpc.ClientStub.create_task := loopback_stream (AgentRpc.server agent).(AgentRpc.Stub.create_task log) |}.

Lemma agent_connected : AgentRpc.connected agent_stub (AgentRpc.server agent).
Proof. solve_connected. Qed.

Lemma agent_end_to_end_witness :
  AgentRpc.notify_result_data (AgentRpc.with_channel agent_stub) "t" "s" ["r"] [] = (Ok ["r"], ["s"]).
Proof.
  pose proof (AgentRpc.agent_end_to_end agent _ agent_connected) as Hall.
  destruct ((proj1 (proj2 (proj2 Hall))) "t" "s" ["r"] []) as [context ->]. reflexivity.
Defined.

Definition submitter : SubmitterRpc.Service.t log := {|
  SubmitterRpc.Service.get_service_configuration := answer_default "get_service_configuration";
  SubmitterRpc.Service.create_session := answer_default "create_session";
  SubmitterRpc.Service.cancel_session := answer_default "cancel_session";
  SubmitterRpc.Service.list_tasks := answer (λ _, "list") (λ r,
    {| Submitter.list_tasks.Response.task_ids :=
         match r.(Submitter.list_tasks.Request.filter).(Submitter.TaskFilter.statuses) with
         | Submitter.TaskFilterStatuses.Include _ => ["included"]
         | Submitter.TaskFilterStatuses.Exclude _ => ["excluded"]
         end |});
  SubmitterRpc.Service.list_sessions := answer_default "list_sessions";
  SubmitterRpc.Service.count_tasks := answer_default "count_tasks";
  SubmitterRpc.Service.try_get_task_output := answer_default "try_get_task_output";
  SubmitterRpc.Service.wait_for_availability := answer_default "wait_for_availability";
  SubmitterRpc.Service.wait_for_completion := answer_default "wait_for_completion";
  SubmitterRpc.Service.cancel_tasks := answer_default "cancel_tasks";
  SubmitterRpc.Service.task_status := answer_default "task_status";
  SubmitterRpc.Service.result_status := answer_default "result_status";
  SubmitterRpc.Service.try_get_result := answer_stream (λ _, []);
  SubmitterRpc.Service.create_small_tasks := answer (λ _, "create") (λ _,
    Submitter.create_tasks.Response.Error "full");
  SubmitterRpc.Service.create_large_tasks := answer_pulled (λ _, "request") |}.

Definition submitter_stub : SubmitterRpc.ClientStub.t log := {|
  SubmitterRpc.ClientStub.get_service_configuration := loopback (SubmitterRpc.server submitter).(SubmitterRpc.Stub.get_service_configuration log);
  SubmitterRpc.ClientStub.create_session := loopback (SubmitterRpc.server submitter).(SubmitterRpc.Stub.create_session log);
  SubmitterRpc.ClientStub.cancel_session := loopback (SubmitterRpc.server submitter).(SubmitterRpc.Stub.cancel_session log);
  SubmitterRpc.ClientStub.create_small_tasks := loopback (SubmitterRpc.server submitter).(SubmitterRpc.Stub.create_small_tasks log);
  SubmitterRpc.ClientStub.list_tasks := loopback (SubmitterRpc.server submitter).(SubmitterRpc.Stub.list_tasks log);
  SubmitterRpc.ClientStub.list_sessions := loopback (SubmitterRpc.server submitter).(SubmitterRpc.Stub.list_sessions log);
  SubmitterRpc.ClientStub.count_tasks := loopback (SubmitterRpc.server submitter).(SubmitterRpc.Stub.count_tasks log);
  SubmitterRpc.ClientStub.try_get_task_output := loopback (SubmitterRpc.server submitter).(SubmitterRpc.Stub.try_get_task_output log);
  SubmitterRpc.ClientStub.wait_for_availability := loopback (SubmitterRpc.server submitter).(SubmitterRpc.Stub.wait_for_availability log);
  SubmitterRpc.ClientStub.wait_for_completion := loopback (SubmitterRpc.server submitter).(SubmitterRpc.Stub.wait_for_completion log);
  SubmitterRpc.ClientStub.cancel_tasks := loopback (SubmitterRpc.server submitter).(SubmitterRpc.Stub.cancel_tasks log);
  SubmitterRpc.ClientStub.get_task_status := loopback (SubmitterRpc.server submitter).(SubmitterRpc.Stub.get_task_status log);
  SubmitterRpc.ClientStub.get_result_status := loopback (SubmitterRpc.server submitter).(SubmitterRpc.Stub.get_result_status log);
  SubmitterRpc.ClientStub.create_large_tasks := loopback_stream (SubmitterRpc.server submitter).(SubmitterRpc.Stub.create_large_tasks log);
  SubmitterRpc.ClientStub.try_get_result_stream := loopback_items (SubmitterRpc.server submitter).(SubmitterRpc.Stub.try_get_result_stream log) |}.

Lemma submitter_connected : SubmitterRpc.connected submitter_stub (SubmitterRpc.server submitter).
Proof. solve_connected. Qed.

Lemma submitter_end_to_end_witness :
  SubmitterRpc.create_small_tasks (SubmitterRpc.with_channel submitter_stub) "s" None [] [] = (Err (Grpc ("internal", "full")), ["create"]).
Proof.
  pose proof (SubmitterRpc.submitter_end_to_end submitter _ submitter_connected) as Hall.
  destruct ((proj1 (proj2 (proj2 (proj2 Hall)))) "s" None [] []) as [context ->]. reflexivity.
Defined.

Lemma submitter_filters_inverted_witness :
  SubmitterRpc.list_tasks (SubmitterRpc.with_channel submitter_stub)
    {|
      Submitter.TaskFilter.ids := Submitter.TaskFilterIds.Sessions ["s"];
      Submitter.TaskFilter.statuses := Submitter.TaskFilterStatuses.Include [TaskStatus.Error] |} [] = (Ok ["excluded"], ["list"]).
Proof.
  pose proof (SubmitterRpc.submitter_filters_inverted submitter _ submitter_connected) as Hall.
  destruct ((proj1 Hall) {|
      Submitter.TaskFilter.ids := Submitter.TaskFilterIds.Sessions ["s"];
      Submitter.TaskFilter.statuses := Submitter.TaskFilterStatuses.Include [TaskStatus.Error] |} []) as [context ->]. reflexivity.
Defined.

(** ** Messages *)

Lemma session_field_codes_witness :
  as_i32 Sessions.RawField.ClosedAt ≠ as_i32 V3.sessions.SessionRawEnumField.ClosedAt.
Proof.
  apply (session_field_codes Sessions.RawField.ClosedAt V3.sessions.SessionRawEnumField.ClosedAt).
  - unfold session_fields. repeat (left || right).
  - repeat (left || right).
Defined.

(** ** The configuration

    URIs are split at their slashes, a duration is a number and a unit, and every file can
    be read but those of the directory [no]. *)

Record plain_uri : Type := {
  plain_scheme : option string;
  plain_authority : option string;
  plain_path : option string
}.

Definition plain_uri_parse (text : string) : result string plain_uri :=
  match split "/" text with
  | scheme :: EmptyString :: authority :: path =>
      match split ":" scheme with
      | [scheme; EmptyString] =>
          Ok {| plain_scheme := Some scheme;
                plain_authority := Some authority;
                plain_path := Some (String "/" (join "/" path)) |}
      | _ => Err "not a scheme"
      end
  | _ => Err "not a URI"
  end.

(** The digits at the beginning of a text, and the rest. *)
Fixpoint span_digits (text : string) : string * string :=
  match text with
  | EmptyString => (EmptyString, EmptyString)
  | String c rest =>
      match to_digit c with
      | Some _ => let '(digits, rest) := span_digits rest in (String c digits, rest)
      | None => (EmptyString, text)
      end
  end.

Definition plain_unit (unit : string) : option Z :=
  if String.eqb unit "ms" then Some 1%Z
  else if String.eqb unit "s" then Some 1000%Z
  else if String.eqb unit "m" then Some 60000%Z
  else if String.eqb unit "h" then Some 3600000%Z
  else None.

Definition plain_duration (text : string) : result string Duration :=
  let '(digits, unit) := span_digits text in
  match parse_u64 digits, plain_unit unit with
  | Ok n, Some millis => Ok (from_millis (n * millis))
  | _, _ => Err "not a duration"
  end.

Definition plain_file (path : string) : result string string :=
  if String.prefix "no/" path then Err "not found" else Ok ("the content of " +:+ path).

#[local] Instance plain_config : ConfigDeps := {|
  InvalidUri := string;
  Scheme := string;
  Authority := string;
  PathAndQuery := string;
  Authority_parse := λ s, match split "/" s with [_] => Ok s | _ => Err "not an authority" end;
  Uri := plain_uri;
  Uri_try_from := plain_uri_parse;
  Uri_to_string := λ uri,
    unwrap_or_default uri.(plain_scheme) +:+ "://" +:+ unwrap_or_default uri.(plain_authority)
    +:+ unwrap_or_default uri.(plain_path);
  Uri_default := Build_plain_uri None None None;
  Uri_host := plain_authority;
  Uri_scheme := plain_scheme;
  Uri_authority := plain_authority;
  Uri_path_and_query := plain_path;
  Uri_into_parts := λ uri, (uri.(plain_authority), uri.(plain_path));
  HttpError := string;
  Uri_build := λ scheme authority path, Ok (Build_plain_uri scheme authority path);
  IoError := string;
  read_to_string := plain_file;
  read := λ path, String.list_byte_of_string <$> plain_file path;
  PemError := string;
  CertificateDer := Datatypes.list byte;
  CertificateDer_from_pem_slice := Ok;
  PrivateKeyDer := Datatypes.list byte;
  PrivateKeyDer_from_pem_slice := Ok;
  DurationError := string;
  humantime_parse := plain_duration;
  InvalidHeaderValue := string;
  HeaderValue := string;
  HeaderValue_from_str := Ok
|}.

Definition example_args (cert_pem ca_cert override_target_name rate_limit : string)
    : ClientConfigArgs.t := {|
  ClientConfigArgs.endpoint := "https://control:5001/api";
  ClientConfigArgs.cert_pem := cert_pem;
  ClientConfigArgs.key_pem := dflt;
  ClientConfigArgs.ca_cert := ca_cert;
  ClientConfigArgs.allow_unsafe_connection := false;
  ClientConfigArgs.override_target_name := override_target_name;
  ClientConfigArgs.connect_timeout := "5s";
  ClientConfigArgs.timeout := dflt;
  ClientConfigArgs.rate_limit := rate_limit;
  ClientConfigArgs.tcp_keepalive := "30s";
  ClientConfigArgs.tcp_keepalive_interval := dflt;
  ClientConfigArgs.tcp_keepalive_retries := "3";
  ClientConfigArgs.tcp_nagle_algorithm := false;
  ClientConfigArgs.http2_keep_alive_interval := dflt;
  ClientConfigArgs.http2_keep_alive_timeout := dflt;
  ClientConfigArgs.http2_keep_alive_while_idle := false;
  ClientConfigArgs.http2_max_header_list_size := dflt;
  ClientConfigArgs.user_agent := "example" |}.

Definition read_config (args : ClientConfigArgs.t) : ClientConfig :=
  match from_config_args args with Ok config => config | Err _ => dflt end.

Definition limited : ClientConfigArgs.t := example_args EmptyString "ca.pem" "other" "100/2s".
Definition headless : ClientConfigArgs.t :=
  example_args EmptyString EmptyString "https:///api" "100/2s".

Lemma limited_read : from_config_args limited = Ok (read_config limited).
Proof. reflexivity. Qed.

Lemma headless_read : from_config_args headless = Ok (read_config headless).
Proof. reflexivity. Qed.

Lemma config_in_range_witness :
  ((0 < 100 < 2 ^ 64)%Z ∧ is_zero (from_secs 2) = false) ∧ (0 ≤ 3 < 2 ^ 32)%Z.
Proof.
  destruct (config_in_range limited (read_config limited) limited_read) as (Hrl & Hretries & _).
  split; [by apply Hrl|by apply Hretries].
Defined.

Lemma half_an_identity_witness :
  from_config_args (example_args "cert.pem" EmptyString EmptyString EmptyString)
  = Err (IncompatibleOptions
      "`GrpcClient__CertPem=cert.pem` and `GrpcClient__KeyPem=` must be either both empty or both set").
Proof.
  apply (half_an_identity (example_args "cert.pem" EmptyString EmptyString EmptyString) "cert.pem");
    [reflexivity|discriminate|by left].
Defined.

Lemma two_seconds_free : free "/" "2s".
Proof. repeat apply free_cons; [done|done|apply free_nil]. Qed.

Lemma numbers_read_witness :
  read_u32 "4294967296" = Err (InvalidInteger PosOverflow "4294967296") ∧
  read_rate_limit "4294967296/2s" = Ok (Some (4294967296%Z, from_secs 2)) ∧
  read_u32 "0" = Ok (Some 0%Z) ∧
  read_rate_limit "0/2s" ≠ Ok (Some (0%Z, from_secs 2)).
Proof.
  destruct (numbers_read [4; 2; 9; 4; 9; 6; 7; 2; 9; 6]%Z) as (Hu & _ & Hr);
    [repeat constructor; done|done|].
  destruct (numbers_read [0]%Z) as (Hzu & _ & Hzr); [repeat constructor; done|done|].
  split_and!; [exact Hu|exact (Hr "2s" two_seconds_free)|exact Hzu|].
  pose proof (Hzr "2s" two_seconds_free) as Hz. cbv zeta in Hz.
  change (digits_string [0%Z] +:+ String "/" "2s") with "0/2s" in Hz.
  intros He. by rewrite He in Hz.
Defined.

(** ** Connections

    A certificate is verified when it is one of the roots; a server name is any text. *)

#[local] Instance plain_connect : ConnectDeps := {|
  Scheme_HTTP := "http";
  Scheme_HTTPS := "https";
  CryptoProvider := string;
  CryptoProvider_get_default := None;
  ring_default_provider := "ring";
  TlsError := string;
  ProtocolVersions := unit;
  safe_default_protocol_versions := λ _, Ok tt;
  RootCertStore := Datatypes.list (Datatypes.list byte);
  RootCertStore_empty := [];
  RootCertStore_add := λ roots cert, Ok (cert :: roots);
  native_roots := Ok [[]];
  client_auth_cert := λ _ _ _, Ok tt;
  ServerName := string;
  InvalidDnsName := string;
  ServerName_try_from := λ s, if decide (s = EmptyString) then Err "empty" else Ok s;
  UnixTime := unit;
  DigitallySignedStruct := unit;
  webpki_verify := λ roots cert _ _ _ _,
    if existsb (λ root, String.eqb (String.string_of_list_byte root)
                          (String.string_of_list_byte cert)) roots then Ok ServerCertVerified_assertion else Err "unknown issuer"
|}.

Definition plain_channel : Type := Uri * Datatypes.list EndpointSetter * HttpsConnector.

(** A connection that is always made, and panics on an empty rate limit. *)
Definition plain_connection (endpoint : Uri) (setters : Datatypes.list EndpointSetter)
    (https : HttpsConnector) : fallible_outcome string plain_channel :=
  if existsb (λ s, match s with
                   | set_rate_limit limit d => (limit =? 0)%Z || is_zero d
                   | _ => false
                   end) setters
  then Panic "rate limit"
  else Return (Ok (endpoint, setters, https)).

Lemma plain_connection_panics endpoint setters https msg :
  plain_connection endpoint setters https = Panic msg →
  ∃ limit d, set_rate_limit limit d ∈ setters ∧ (limit = 0%Z ∨ is_zero d = true).
Proof.
  unfold plain_connection. destruct (existsb _ setters) eqn:He; [|done]. intros _.
  apply existsb_exists in He as (s & Hs & Hz). apply list_elem_of_In in Hs.
  destruct s as [| |limit d| | | | |]; try done. exists limit, d. split; [done|].
  apply orb_true_iff in Hz as [?%Z.eqb_eq|?]; auto.
Qed.

Definition limited_connector : HttpsConnector :=
  match https_connector (TransportError:=string) (read_config limited) with
  | Return (Ok connector) => connector
  | _ => {| tls_config := {| crypto_provider := EmptyString;
                             protocol_versions := tt;
                             verification := RootCertificates [];
                             client_auth := None |};
            schemes := HttpsOnly;
            server_name_resolver := None;
            protocols := [];
            http := [] |}
  end.

(** A connection is made as it is documented. *)
Definition plain_connects (connector : HttpsConnector) (uri : Uri) (over : option TlsConfig) : Prop :=
  match over with
  | Some tls => Uri_scheme uri = Some Scheme_HTTPS ∧ tls = connector.(tls_config)
  | None => Uri_scheme uri = Some Scheme_HTTP ∧ connector.(schemes) = HttpsOrHttp
  end.

Definition plain_uri_of (scheme : string) : Uri := Build_plain_uri (Some scheme) (Some "here") None.

Lemma connector_verifies_witness :
  verify_server limited_connector.(tls_config) [] [] "other" [] tt = Err "unknown issuer" ∧
  verify_server limited_connector.(tls_config)
    (String.list_byte_of_string "the content of ca.pem") [] "other" [] tt
  = Ok ServerCertVerified_assertion ∧
  limited_connector.(server_name_resolver) = Some "other" ∧
  plain_connects limited_connector (plain_uri_of "http") None.
Proof.
  destruct (connector_verifies (TransportError:=string) plain_connects (read_config limited)
              limited_connector (plain_uri_of "https")) as (Htls & _);
    [by split|reflexivity|].
  destruct (connector_verifies (TransportError:=string) plain_connects (read_config limited)
              limited_connector (plain_uri_of "http")) as (_ & _ & Hplain);
    [by split|reflexivity|].
  destruct (Htls limited_connector.(tls_config)) as (_ & (roots & Hv & Hr) & _ & name & Hn & Hs);
    [done|].
  rewrite Hv, Hs. cbn in Hr. injection Hr as <-. split_and!; [done|done| |by apply Hplain].
  cbn in Hn. by injection Hn as <-.
Defined.

Lemma options_reach_connection_witness :
  match connect plain_connection (read_config limited) with
  | Return (Ok (_, setters, https)) =>
      set_rate_limit 100 (from_secs 2) ∈ setters ∧ https.(schemes) = HttpsOrHttp
  | _ => False
  end.
Proof.
  destruct (options_reach_connection plain_connection (read_config limited)
    ((read_config limited).(endpoint), endpoint_setters (read_config limited), limited_connector))
    as (setters & https & Hc & _ & Hs & _ & _ & _ & _ & _ & Hschemes & _); [reflexivity|].
  unfold plain_connection in Hc. destruct (existsb _ setters); [done|].
  injection Hc as -> ->. split; [by apply Hs|exact Hschemes].
Defined.

Lemma connect_panics_witness :
  connect plain_connection (read_config headless)
  = Panic "A valid URI host should be a valid ServerName".
Proof.
  apply (connect_panics plain_connection headless (read_config headless)).
  - exact plain_connection_panics.
  - exact headless_read.
  - split; [done|]. split; [by eexists|]. eexists _, _. split; reflexivity.
Defined.

Lemma client_error_causes_witness :
  from_env ∅ = Err (UriError "not a URI" EmptyString).
Proof.
  exact (client_error_causes plain_connection ∅ (ConfigFailed (UriError "not a URI" EmptyString))
           eq_refl).
Defined.

(** ** Streams *)

Definition two_chunks : stream log (Datatypes.list byte) :=
  stream_iter (map String.list_byte_of_string ["ab"; "c"]).

Lemma two_chunks_drain w :
  drains two_chunks (start two_chunks w) (map String.list_byte_of_string ["ab"; "c"]) w.
Proof. apply drains_iter. Qed.

Lemma upload_follows_protocol_witness :
  is_Some (upload_run None AwaitingId (sent "s" "r" [String.list_byte_of_string "ab"])) ∧
  ¬ is_Some (upload_run (Some 1%Z) AwaitingId (sent "s" "r" [String.list_byte_of_string "ab"])).
Proof.
  destruct (upload_follows_protocol "s" "r" two_chunks ([] : log)) as (Hyields & Horder & _).
  split; [|by intros [? ?]].
  apply Horder, Hyields. right. exists [String.list_byte_of_string "ab"]. split; [reflexivity|].
  exists (1, [] : log). econstructor; [by apply step_iter|constructor].
Defined.

Lemma streams_arrive_witness :
  ResultsRpc.upload (ResultsRpc.with_channel results_stub) "s" "r" two_chunks []
  = (Ok dflt, ["s/r"; "ab"; "c"]).
Proof.
  destruct (streams_arrive 10 ([] : log) ([] : log)) as [Hupload _].
  edestruct (Hupload results results_stub) as [context ->];
    [exact results_connected|reflexivity|apply two_chunks_drain|cbn; lia|reflexivity].
Defined.

Lemma received_streams_end_witness :
  answers_items (EventsRpc.subscribe (EventsRpc.with_channel events_stub) "s" [] [] []) []
    [Ok dflt; Err (Grpc (Status_internal "lost"))] [].
Proof.
  destruct (received_streams_end ([] : log) ([] : log)) as (_ & _ & Hsubscribe).
  apply (Hsubscribe events events_stub "s" [] [] [] [Ok dflt; Err (Status_internal "lost")]).
  - exact events_connected.
  - intros context. eexists _, _. split; [reflexivity|].
    eapply finishes_item; [by apply step_iter|].
    match goal with |- finishes ?s _ [Err ?e] _ =>
      assert (step s (1, []) (Err e) (2, [])) as Hs by (by apply step_iter)
    end.
    exact (finishes_error _ _ _ _ Hs).
Defined.

(** ** Serialisation

    A format whose values are lists of numbers. *)

#[local] Instance pair_format : Serde (Datatypes.list Z) unit unit (Z * Z) := {|
  serialize := λ p, Ok [p.1; p.2];
  deserialize := λ l, match l with [a; b] => Ok (a, b) | _ => Err tt end |}.

#[local] Instance option_format : Serde (Datatypes.list Z) unit unit (option (Z * Z)) := {|
  serialize := λ o, match o with Some p => Ok [p.1; p.2] | None => Ok [] end;
  deserialize := λ l, match l with
                      | [a; b] => Ok (Some (a, b))
                      | [] => Ok None
                      | _ => Err tt
                      end |}.

Lemma serde_roundtrip_witness :
  serde_timestamp.de (SerError:=unit) (DeError:=unit) [5; 7]%Z
  = Ok {| V3.Timestamp.seconds := 5; V3.Timestamp.nanos := 7 |}.
Proof.
  destruct (serde_roundtrip (S1:=pair_format) (S2:=option_format)) as [Htimestamp _];
    [by intros [? ?] ? _ [= <-]|by intros [[? ?]|] ? _ [= <-]|].
  apply (Htimestamp {| V3.Timestamp.seconds := 5; V3.Timestamp.nanos := 7 |});
    [unfold in_range; cbn; lia|reflexivity].
Defined.

(** ** The tests of the transport *)

#[local] Instance plain_texts : @ConfigTestDeps plain_config := {|
  Scheme_as_str := λ scheme, scheme;
  Authority_as_str := λ authority, authority;
  Uri_path := λ uri, unwrap_or_default uri.(plain_path);
  display_tls := λ e, [e];
  display_uri := λ e, [e];
  display_http := λ e, [e];
  display_io := λ e, [e];
  display_duration := λ e, [e];
  display_header := λ e, [e] |}.

Lemma transport_tests_pass_witness :
  Forall (λ test, test = Return tt) (config_tests (λ _, EmptyString) "here").
Proof.
  apply (transport_tests_pass (λ _, EmptyString) "here").
  split.
  - eexists. split; reflexivity.
  - by eexists.
  - split_and!; reflexivity.
  - by eexists.
  - by eexists.
  - by eexists.
  - do 7 eexists. split_and!; try reflexivity; eexists; split_and!; reflexivity.
Defined.
