(* ===== verification/Mock.v ===== *)
(** A mock of the server of the tests: its world is the list of the requests it has
    received, an rpc per byte, which is also what it shows of its counts.  It shows that the
    hypotheses on the environment of the tests, on the clients generated by [tonic] and on
    the services can be met together. *)

From Stdlib Require Import FunctionalExtensionality.
From S2P Require Import Prelude V3 Objects Filters Sessions Tasks Results Partitions.
From S2P Require Import Applications Misc Events Worker Agent Submitter Rpc Streams.
From S2P Require Import SessionsRpc PartitionsRpc ApplicationsRpc AuthRpc VersionsRpc.
From S2P Require Import HealthChecksRpc WorkerRpc TasksRpc EventsRpc ResultsRpc AgentRpc.
From S2P Require Import SubmitterRpc Std Env Config Witnesses Connect Client ClientTests.

#[local] Existing Instance plain_config.
#[local] Existing Instance plain_connect.
#[local] Existing Instance plain_tonic.
#[local] Existing Instance in_key_order.
#[local] Notation list := Datatypes.list.

Notation requests := (Datatypes.list byte).

(** ** The counts *)

Fixpoint index (service name : string) (l : list (string * string)) : nat :=
  match l with
  | [] => 0
  | (s, n) :: l => if String.eqb s service && String.eqb n name then 0 else S (index service name l)
  end.

(** The byte of an rpc. *)
Definition code (service name : string) : byte :=
  match Byte.of_nat (index service name tested) with Some b => b | None => "000"%byte end.

Definition mock_count (service name : string) (w : requests) : Z :=
  Z.of_nat (length (List.filter (Byte.eqb (code service name)) w)).

Lemma mock_count_snoc service name w :
  mock_count service name (w ++ [code service name]) = (mock_count service name w + 1)%Z.
Proof.
  unfold mock_count. rewrite List.filter_app, length_app. cbn.
  rewrite (Byte.byte_dec_lb (eq_refl (code service name))). cbn. lia.
Qed.

(** The content of [calls.json]. *)
Definition mock_calls (w : requests) (l : list (string * string))
    : gmap string (gmap string Z) :=
  foldr (λ '(service, name) calls,
    <[service := <[name := mock_count service name w]>
                   (unwrap_or (calls !! service) ∅)]> calls) ∅ l.

Lemma mock_calls_lookup w l service name :
  (service, name) ∈ l →
  mock_calls w l !! service ≫= (.!! name) = Some (mock_count service name w).
Proof.
  induction l as [|[s n] l IH]; intros Hin; [by apply not_elem_of_nil in Hin|]. cbn.
  destruct (decide (s = service)) as [->|Hs].
  - rewrite lookup_insert_eq. cbn. destruct (decide (n = name)) as [->|Hn].
    + by rewrite lookup_insert_eq.
    + rewrite lookup_insert_ne by done. apply elem_of_cons in Hin as [Hin|Hin]; [congruence|].
      specialize (IH Hin). unfold mock_calls in IH.
      destruct (foldr _ _ l !! service) as [counts|]; [exact IH|done].
  - rewrite lookup_insert_ne by done. apply elem_of_cons in Hin as [Hin|Hin]; [congruence|].
    by apply IH.
Qed.

(** ** The services *)

Definition recorded {A B} (service name : string) (b : B) : method requests A B :=
  λ _ _ w, (Ok b, w ++ [code service name]).

Definition recorded_stream {A B} (service name : string)
    : method requests A (stream requests (result Status B)) :=
  recorded service name (stream_iter []).

Definition mock_sessions_service : SessionsRpc.Service.t requests := {|
  SessionsRpc.Service.list := recorded "Sessions" "ListSessions" dflt;
  SessionsRpc.Service.get := recorded "Sessions" "GetSession" dflt;
  SessionsRpc.Service.cancel := recorded "Sessions" "CancelSession" dflt;
  SessionsRpc.Service.create := recorded "Sessions" "CreateSession" dflt;
  SessionsRpc.Service.pause := recorded "Sessions" "PauseSession" dflt;
  SessionsRpc.Service.resume := recorded "Sessions" "ResumeSession" dflt;
  SessionsRpc.Service.close := recorded "Sessions" "CloseSession" dflt;
  SessionsRpc.Service.purge := recorded "Sessions" "PurgeSession" dflt;
  SessionsRpc.Service.delete := recorded "Sessions" "DeleteSession" dflt;
  SessionsRpc.Service.stop_submission := recorded "Sessions" "StopSubmission" dflt |}.

Definition mock_sessions_stub : SessionsRpc.Stub.t requests := SessionsRpc.server mock_sessions_service.

Definition mock_tasks_service : TasksRpc.Service.t requests := {|
  TasksRpc.Service.list := recorded "Tasks" "ListTasks" dflt;
  TasksRpc.Service.list_detailed := recorded "Tasks" "ListTasksDetailed" dflt;
  TasksRpc.Service.get := recorded "Tasks" "GetTask" dflt;
  TasksRpc.Service.cancel := recorded "Tasks" "CancelTasks" dflt;
  TasksRpc.Service.get_result_ids := recorded "Tasks" "GetResultIds" dflt;
  TasksRpc.Service.count_status := recorded "Tasks" "CountTasksByStatus" dflt;
  TasksRpc.Service.submit := recorded "Tasks" "SubmitTasks" dflt |}.

Definition mock_tasks_stub : TasksRpc.Stub.t requests := TasksRpc.server mock_tasks_service.

Definition mock_results_service : ResultsRpc.Service.t requests := {|
  ResultsRpc.Service.list := recorded "Results" "ListResults" dflt;
  ResultsRpc.Service.get := recorded "Results" "GetResult" dflt;
  ResultsRpc.Service.get_owner_task_id := recorded "Results" "GetOwnerTaskId" dflt;
  ResultsRpc.Service.create_metadata := recorded "Results" "CreateResultsMetaData" dflt;
  ResultsRpc.Service.create := recorded "Results" "CreateResults" dflt;
  ResultsRpc.Service.import := recorded "Results" "ImportResultsData" dflt;
  ResultsRpc.Service.delete_data := recorded "Results" "DeleteResultsData" dflt;
  ResultsRpc.Service.get_service_configuration := recorded "Results" "GetServiceConfiguration" dflt;
  ResultsRpc.Service.download := recorded_stream "Results" "DownloadResultData";
  ResultsRpc.Service.upload := recorded "Results" "UploadResultData" dflt |}.

Definition mock_results_stub : ResultsRpc.ClientStub.t requests := {|
  ResultsRpc.ClientStub.list_results :=
    loopback (ResultsRpc.server mock_results_service).(ResultsRpc.Stub.list_results requests);
  ResultsRpc.ClientStub.get_result :=
    loopback (ResultsRpc.server mock_results_service).(ResultsRpc.Stub.get_result requests);
  ResultsRpc.ClientStub.get_owner_task_id :=
    loopback (ResultsRpc.server mock_results_service).(ResultsRpc.Stub.get_owner_task_id requests);
  ResultsRpc.ClientStub.create_results_meta_data :=
    loopback (ResultsRpc.server mock_results_service).(ResultsRpc.Stub.create_results_meta_data requests);
  ResultsRpc.ClientStub.create_results :=
    loopback (ResultsRpc.server mock_results_service).(ResultsRpc.Stub.create_results requests);
  ResultsRpc.ClientStub.import_results_data :=
    loopback (ResultsRpc.server mock_results_service).(ResultsRpc.Stub.import_results_data requests);
  ResultsRpc.ClientStub.delete_results_data :=
    loopback (ResultsRpc.server mock_results_service).(ResultsRpc.Stub.delete_results_data requests);
  ResultsRpc.ClientStub.get_service_configuration :=
    loopback (ResultsRpc.server mock_results_service).(ResultsRpc.Stub.get_service_configuration requests);
  ResultsRpc.ClientStub.upload_result_data :=
    loopback_stream (ResultsRpc.server mock_results_service).(ResultsRpc.Stub.upload_result_data requests);
  ResultsRpc.ClientStub.download_result_data :=
    loopback (ResultsRpc.server mock_results_service).(ResultsRpc.Stub.download_result_data requests) |}.

Definition mock_partitions_service : PartitionsRpc.Service.t requests := {|
  PartitionsRpc.Service.list := recorded "Partitions" "ListPartitions" dflt;
  PartitionsRpc.Service.get := recorded "Partitions" "GetPartition" dflt |}.

Definition mock_partitions_stub : PartitionsRpc.Stub.t requests := PartitionsRpc.server mock_partitions_service.

Definition mock_applications_service : ApplicationsRpc.Service.t requests := {|
  ApplicationsRpc.Service.list := recorded "Applications" "ListApplications" dflt |}.

Definition mock_applications_stub : ApplicationsRpc.Stub.t requests := ApplicationsRpc.server mock_applications_service.

Definition mock_auth_service : AuthRpc.Service.t requests := {|
  AuthRpc.Service.current_user := recorded "Authentication" "GetCurrentUser" dflt |}.

Definition mock_auth_stub : AuthRpc.Stub.t requests := AuthRpc.server mock_auth_service.

Definition mock_versions_service : VersionsRpc.Service.t requests := {|
  VersionsRpc.Service.list := recorded "Versions" "ListVersions" dflt |}.

Definition mock_versions_stub : VersionsRpc.Stub.t requests := VersionsRpc.server mock_versions_service.

Definition mock_health_checks_service : HealthChecksRpc.Service.t requests := {|
  HealthChecksRpc.Service.check := recorded "HealthChecks" "CheckHealth" dflt |}.

Definition mock_health_checks_stub : HealthChecksRpc.Stub.t requests := HealthChecksRpc.server mock_health_checks_service.

Definition mock_events_service : EventsRpc.Service.t requests := {|
  EventsRpc.Service.subscribe := recorded_stream "Events" "GetEvents" |}.

Definition mock_events_stub : EventsRpc.Stub.t requests := EventsRpc.server mock_events_service.

Definition mock_agent_service : AgentRpc.Service.t requests := {|
  AgentRpc.Service.create_results_metadata := recorded "Agent" "CreateResultsMetaData" dflt;
  AgentRpc.Service.create_results := recorded "Agent" "CreateResults" dflt;
  AgentRpc.Service.notify_result_data := recorded "Agent" "NotifyResultData" dflt;
  AgentRpc.Service.submit_tasks := recorded "Agent" "SubmitTasks" dflt;
  AgentRpc.Service.get_resource_data := recorded "Agent" "GetResourceData" dflt;
  AgentRpc.Service.get_common_data := recorded "Agent" "GetCommonData" dflt;
  AgentRpc.Service.get_direct_data := recorded "Agent" "GetDirectData" dflt;
  AgentRpc.Service.create_tasks := recorded "Agent" "CreateTask" (Agent.create_tasks.Response.Status EmptyString []) |}.

Definition mock_agent_stub : AgentRpc.ClientStub.t requests := {|
  AgentRpc.ClientStub.create_results_meta_data :=
    loopback (AgentRpc.server mock_agent_service).(AgentRpc.Stub.create_results_meta_data requests);
  AgentRpc.ClientStub.create_results :=
    loopback (AgentRpc.server mock_agent_service).(AgentRpc.Stub.create_results requests);
  AgentRpc.ClientStub.notify_result_data :=
    loopback (AgentRpc.server mock_agent_service).(AgentRpc.Stub.notify_result_data requests);
  AgentRpc.ClientStub.submit_tasks :=
    loopback (AgentRpc.server mock_agent_service).(AgentRpc.Stub.submit_tasks requests);
  AgentRpc.ClientStub.get_resource_data :=
    loopback (AgentRpc.server mock_agent_service).(AgentRpc.Stub.get_resource_data requests);
  AgentRpc.ClientStub.get_common_data :=
    loopback (AgentRpc.server mock_agent_service).(AgentRpc.Stub.get_common_data requests);
  AgentRpc.ClientStub.get_direct_data :=
    loopback (AgentRpc.server mock_agent_service).(AgentRpc.Stub.get_direct_data requests);
  AgentRpc.ClientStub.create_task :=
    loopback_stream (AgentRpc.server mock_agent_service).(AgentRpc.Stub.create_task requests) |}.

Definition mock_submitter_service : SubmitterRpc.Service.t requests := {|
  SubmitterRpc.Service.get_service_configuration := recorded "Submitter" "GetServiceConfiguration" dflt;
  SubmitterRpc.Service.create_session := recorded "Submitter" "CreateSession" dflt;
  SubmitterRpc.Service.cancel_session := recorded "Submitter" "CancelSession" dflt;
  SubmitterRpc.Service.list_tasks := recorded "Submitter" "ListTasks" dflt;
  SubmitterRpc.Service.list_sessions := recorded "Submitter" "ListSessions" dflt;
  SubmitterRpc.Service.count_tasks := recorded "Submitter" "CountTasks" dflt;
  SubmitterRpc.Service.try_get_task_output := recorded "Submitter" "TryGetTaskOutput" dflt;
  SubmitterRpc.Service.wait_for_availability := recorded "Submitter" "WaitForAvailability" dflt;
  SubmitterRpc.Service.wait_for_completion := recorded "Submitter" "WaitForCompletion" dflt;
  SubmitterRpc.Service.cancel_tasks := recorded "Submitter" "CancelTasks" dflt;
  SubmitterRpc.Service.task_status := recorded "Submitter" "GetTaskStatus" dflt;
  SubmitterRpc.Service.result_status := recorded "Submitter" "GetResultStatus" dflt;
  SubmitterRpc.Service.try_get_result := recorded_stream "Submitter" "TryGetResultStream";
  SubmitterRpc.Service.create_small_tasks := recorded "Submitter" "CreateSmallTasks" dflt;
  SubmitterRpc.Service.create_large_tasks := recorded "Submitter" "CreateLargeTasks" dflt |}.

Definition mock_submitter_stub : SubmitterRpc.ClientStub.t requests := {|
  SubmitterRpc.ClientStub.get_service_configuration :=
    loopback (SubmitterRpc.server mock_submitter_service).(SubmitterRpc.Stub.get_service_configuration requests);
  SubmitterRpc.ClientStub.create_session :=
    loopback (SubmitterRpc.server mock_submitter_service).(SubmitterRpc.Stub.create_session requests);
  SubmitterRpc.ClientStub.cancel_session :=
    loopback (SubmitterRpc.server mock_submitter_service).(SubmitterRpc.Stub.cancel_session requests);
  SubmitterRpc.ClientStub.create_small_tasks :=
    loopback (SubmitterRpc.server mock_submitter_service).(SubmitterRpc.Stub.create_small_tasks requests);
  SubmitterRpc.ClientStub.list_tasks :=
    loopback (SubmitterRpc.server mock_submitter_service).(SubmitterRpc.Stub.list_tasks requests);
  SubmitterRpc.ClientStub.list_sessions :=
    loopback (SubmitterRpc.server mock_submitter_service).(SubmitterRpc.Stub.list_sessions requests);
  SubmitterRpc.ClientStub.count_tasks :=
    loopback (SubmitterRpc.server mock_submitter_service).(SubmitterRpc.Stub.count_tasks requests);
  SubmitterRpc.ClientStub.try_get_task_output :=
    loopback (SubmitterRpc.server mock_submitter_service).(SubmitterRpc.Stub.try_get_task_output requests);
  SubmitterRpc.ClientStub.wait_for_availability :=
    loopback (SubmitterRpc.server mock_submitter_service).(SubmitterRpc.Stub.wait_for_availability requests);
  SubmitterRpc.ClientStub.wait_for_completion :=
    loopback (SubmitterRpc.server mock_submitter_service).(SubmitterRpc.Stub.wait_for_completion requests);
  SubmitterRpc.ClientStub.cancel_tasks :=
    loopback (SubmitterRpc.server mock_submitter_service).(SubmitterRpc.Stub.cancel_tasks requests);
  SubmitterRpc.ClientStub.get_task_status :=
    loopback (SubmitterRpc.server mock_submitter_service).(SubmitterRpc.Stub.get_task_status requests);
  SubmitterRpc.ClientStub.get_result_status :=
    loopback (SubmitterRpc.server mock_submitter_service).(SubmitterRpc.Stub.get_result_status requests);
  SubmitterRpc.ClientStub.create_large_tasks :=
    loopback_stream (SubmitterRpc.server mock_submitter_service).(SubmitterRpc.Stub.create_large_tasks requests);
  SubmitterRpc.ClientStub.try_get_result_stream :=
    loopback (SubmitterRpc.server mock_submitter_service).(SubmitterRpc.Stub.try_get_result_stream requests) |}.

(** ** The channel

    Awaiting the answer of the channel gives the methods of the server. *)
Record server_methods : Type := {
  sessions_methods : SessionsRpc.Stub.t requests;
  tasks_methods : TasksRpc.Stub.t requests;
  results_methods : ResultsRpc.ClientStub.t requests;
  partitions_methods : PartitionsRpc.Stub.t requests;
  applications_methods : ApplicationsRpc.Stub.t requests;
  auth_methods : AuthRpc.Stub.t requests;
  versions_methods : VersionsRpc.Stub.t requests;
  health_checks_methods : HealthChecksRpc.Stub.t requests;
  events_methods : EventsRpc.Stub.t requests;
  agent_methods : AgentRpc.ClientStub.t requests;
  submitter_methods : SubmitterRpc.ClientStub.t requests
}.

#[local] Instance mock_http : Http := {|
  HttpRequest := unit;
  HttpResponse := server_methods;
  TaskContext := unit |}.

Definition all_methods : server_methods := {|
  sessions_methods := mock_sessions_stub;
  tasks_methods := mock_tasks_stub;
  results_methods := mock_results_stub;
  partitions_methods := mock_partitions_stub;
  applications_methods := mock_applications_stub;
  auth_methods := mock_auth_stub;
  versions_methods := mock_versions_stub;
  health_checks_methods := mock_health_checks_stub;
  events_methods := mock_events_stub;
  agent_methods := mock_agent_stub;
  submitter_methods := mock_submitter_stub |}.

#[local] Instance mock_awaited : Awaited requests string server_methods :=
  λ methods w, (Ok methods, w).

#[local] Instance mock_channel_service : GrpcService requests plain_channel string server_methods := {|
  poll_ready := λ _ _ w, (Ready (Ok tt), w);
  service_call := λ _ _ w, (all_methods, w) |}.

(** A method of a generated client: the channel is asked for the methods of the server. *)
Definition through {T ServiceError Future A B}
    `{!Awaited requests ServiceError Future, !GrpcService requests T ServiceError Future}
    (channel : T) (method : server_methods → rpc requests A B) : rpc requests A B :=
  λ request w,
    let '(future, w) := service_call channel tt w in
    match await future w with
    | (Ok methods, w) => method methods request w
    | (Err _, w) => (Err (Status_internal "transport"), w)
    end.

Lemma through_ext {T1 T2 ServiceError Future A B} `{!Awaited requests ServiceError Future}
    `{S1 : !GrpcService requests T1 ServiceError Future,
      S2 : !GrpcService requests T2 ServiceError Future}
    (channel1 : T1) (channel2 : T2) (method : server_methods → rpc requests A B) :
  (∀ request w, service_call channel1 request w = service_call channel2 request w) →
  through channel1 method = through channel2 method.
Proof.
  intros Hc. unfold through. extensionality request. extensionality w. by rewrite Hc.
Qed.

Ltac solve_generated := intros; cbv beta; f_equal; by apply through_ext.

#[local] Program Instance generated_sessions : Generated requests (SessionsRpc.Stub.t requests) := {|
  generated_new := λ T ServiceError Future _ _ channel, {|
    SessionsRpc.Stub.list_sessions := through channel (λ m, m.(sessions_methods).(SessionsRpc.Stub.list_sessions requests));
    SessionsRpc.Stub.get_session := through channel (λ m, m.(sessions_methods).(SessionsRpc.Stub.get_session requests));
    SessionsRpc.Stub.cancel_session := through channel (λ m, m.(sessions_methods).(SessionsRpc.Stub.cancel_session requests));
    SessionsRpc.Stub.create_session := through channel (λ m, m.(sessions_methods).(SessionsRpc.Stub.create_session requests));
    SessionsRpc.Stub.pause_session := through channel (λ m, m.(sessions_methods).(SessionsRpc.Stub.pause_session requests));
    SessionsRpc.Stub.resume_session := through channel (λ m, m.(sessions_methods).(SessionsRpc.Stub.resume_session requests));
    SessionsRpc.Stub.close_session := through channel (λ m, m.(sessions_methods).(SessionsRpc.Stub.close_session requests));
    SessionsRpc.Stub.purge_session := through channel (λ m, m.(sessions_methods).(SessionsRpc.Stub.purge_session requests));
    SessionsRpc.Stub.delete_session := through channel (λ m, m.(sessions_methods).(SessionsRpc.Stub.delete_session requests));
    SessionsRpc.Stub.stop_submission := through channel (λ m, m.(sessions_methods).(SessionsRpc.Stub.stop_submission requests)) |} |}.
Next Obligation. solve_generated. Qed.

#[local] Program Instance generated_tasks : Generated requests (TasksRpc.Stub.t requests) := {|
  generated_new := λ T ServiceError Future _ _ channel, {|
    TasksRpc.Stub.list_tasks := through channel (λ m, m.(tasks_methods).(TasksRpc.Stub.list_tasks requests));
    TasksRpc.Stub.list_tasks_detailed := through channel (λ m, m.(tasks_methods).(TasksRpc.Stub.list_tasks_detailed requests));
    TasksRpc.Stub.get_task := through channel (λ m, m.(tasks_methods).(TasksRpc.Stub.get_task requests));
    TasksRpc.Stub.cancel_tasks := through channel (λ m, m.(tasks_methods).(TasksRpc.Stub.cancel_tasks requests));
    TasksRpc.Stub.get_result_ids := through channel (λ m, m.(tasks_methods).(TasksRpc.Stub.get_result_ids requests));
    TasksRpc.Stub.count_tasks_by_status := through channel (λ m, m.(tasks_methods).(TasksRpc.Stub.count_tasks_by_status requests));
    TasksRpc.Stub.submit_tasks := through channel (λ m, m.(tasks_methods).(TasksRpc.Stub.submit_tasks requests)) |} |}.
Next Obligation. solve_generated. Qed.

#[local] Program Instance generated_results : Generated requests (ResultsRpc.ClientStub.t requests) := {|
  generated_new := λ T ServiceError Future _ _ channel, {|
    ResultsRpc.ClientStub.list_results := through channel (λ m, m.(results_methods).(ResultsRpc.ClientStub.list_results requests));
    ResultsRpc.ClientStub.get_result := through channel (λ m, m.(results_methods).(ResultsRpc.ClientStub.get_result requests));
    ResultsRpc.ClientStub.get_owner_task_id := through channel (λ m, m.(results_methods).(ResultsRpc.ClientStub.get_owner_task_id requests));
    ResultsRpc.ClientStub.create_results_meta_data := through channel (λ m, m.(results_methods).(ResultsRpc.ClientStub.create_results_meta_data requests));
    ResultsRpc.ClientStub.create_results := through channel (λ m, m.(results_methods).(ResultsRpc.ClientStub.create_results requests));
    ResultsRpc.ClientStub.import_results_data := through channel (λ m, m.(results_methods).(ResultsRpc.ClientStub.import_results_data requests));
    ResultsRpc.ClientStub.delete_results_data := through channel (λ m, m.(results_methods).(ResultsRpc.ClientStub.delete_results_data requests));
    ResultsRpc.ClientStub.get_service_configuration := through channel (λ m, m.(results_methods).(ResultsRpc.ClientStub.get_service_configuration requests));
    ResultsRpc.ClientStub.upload_result_data := through channel (λ m, m.(results_methods).(ResultsRpc.ClientStub.upload_result_data requests));
    ResultsRpc.ClientStub.download_result_data := through channel (λ m, m.(results_methods).(ResultsRpc.ClientStub.download_result_data requests)) |} |}.
Next Obligation. solve_generated. Qed.

#[local] Program Instance generated_partitions : Generated requests (PartitionsRpc.Stub.t requests) := {|
  generated_new := λ T ServiceError Future _ _ channel, {|
    PartitionsRpc.Stub.list_partitions := through channel (λ m, m.(partitions_methods).(PartitionsRpc.Stub.list_partitions requests));
    PartitionsRpc.Stub.get_partition := through channel (λ m, m.(partitions_methods).(PartitionsRpc.Stub.get_partition requests)) |} |}.
Next Obligation. solve_generated. Qed.

#[local] Program Instance generated_applications : Generated requests (ApplicationsRpc.Stub.t requests) := {|
  generated_new := λ T ServiceError Future _ _ channel, {|
    ApplicationsRpc.Stub.list_applications := through channel (λ m, m.(applications_methods).(ApplicationsRpc.Stub.list_applications requests)) |} |}.
Next Obligation. solve_generated. Qed.

#[local] Program Instance generated_auth : Generated requests (AuthRpc.Stub.t requests) := {|
  generated_new := λ T ServiceError Future _ _ channel, {|
    AuthRpc.Stub.get_current_user := through channel (λ m, m.(auth_methods).(AuthRpc.Stub.get_current_user requests)) |} |}.
Next Obligation. solve_generated. Qed.

#[local] Program Instance generated_versions : Generated requests (VersionsRpc.Stub.t requests) := {|
  generated_new := λ T ServiceError Future _ _ channel, {|
    VersionsRpc.Stub.list_versions := through channel (λ m, m.(versions_methods).(VersionsRpc.Stub.list_versions requests)) |} |}.
Next Obligation. solve_generated. Qed.

#[local] Program Instance generated_health_checks : Generated requests (HealthChecksRpc.Stub.t requests) := {|
  generated_new := λ T ServiceError Future _ _ channel, {|
    HealthChecksRpc.Stub.check_health := through channel (λ m, m.(health_checks_methods).(HealthChecksRpc.Stub.check_health requests)) |} |}.
Next Obligation. solve_generated. Qed.

#[local] Program Instance generated_events : Generated requests (EventsRpc.Stub.t requests) := {|
  generated_new := λ T ServiceError Future _ _ channel, {|
    EventsRpc.Stub.get_events := through channel (λ m, m.(events_methods).(EventsRpc.Stub.get_events requests)) |} |}.
Next Obligation. solve_generated. Qed.

#[local] Program Instance generated_agent : Generated requests (AgentRpc.ClientStub.t requests) := {|
  generated_new := λ T ServiceError Future _ _ channel, {|
    AgentRpc.ClientStub.create_results_meta_data := through channel (λ m, m.(agent_methods).(AgentRpc.ClientStub.create_results_meta_data requests));
    AgentRpc.ClientStub.create_results := through channel (λ m, m.(agent_methods).(AgentRpc.ClientStub.create_results requests));
    AgentRpc.ClientStub.notify_result_data := through channel (λ m, m.(agent_methods).(AgentRpc.ClientStub.notify_result_data requests));
    AgentRpc.ClientStub.submit_tasks := through channel (λ m, m.(agent_methods).(AgentRpc.ClientStub.submit_tasks requests));
    AgentRpc.ClientStub.get_resource_data := through channel (λ m, m.(agent_methods).(AgentRpc.ClientStub.get_resource_data requests));
    AgentRpc.ClientStub.get_common_data := through channel (λ m, m.(agent_methods).(AgentRpc.ClientStub.get_common_data requests));
    AgentRpc.ClientStub.get_direct_data := through channel (λ m, m.(agent_methods).(AgentRpc.ClientStub.get_direct_data requests));
    AgentRpc.ClientStub.create_task := through channel (λ m, m.(agent_methods).(AgentRpc.ClientStub.create_task requests)) |} |}.
Next Obligation. solve_generated. Qed.

#[local] Program Instance generated_submitter : Generated requests (SubmitterRpc.ClientStub.t requests) := {|
  generated_new := λ T ServiceError Future _ _ channel, {|
    SubmitterRpc.ClientStub.get_service_configuration := through channel (λ m, m.(submitter_methods).(SubmitterRpc.ClientStub.get_service_configuration requests));
    SubmitterRpc.ClientStub.create_session := through channel (λ m, m.(submitter_methods).(SubmitterRpc.ClientStub.create_session requests));
    SubmitterRpc.ClientStub.cancel_session := through channel (λ m, m.(submitter_methods).(SubmitterRpc.ClientStub.cancel_session requests));
    SubmitterRpc.ClientStub.create_small_tasks := through channel (λ m, m.(submitter_methods).(SubmitterRpc.ClientStub.create_small_tasks requests));
    SubmitterRpc.ClientStub.list_tasks := through channel (λ m, m.(submitter_methods).(SubmitterRpc.ClientStub.list_tasks requests));
    SubmitterRpc.ClientStub.list_sessions := through channel (λ m, m.(submitter_methods).(SubmitterRpc.ClientStub.list_sessions requests));
    SubmitterRpc.ClientStub.count_tasks := through channel (λ m, m.(submitter_methods).(SubmitterRpc.ClientStub.count_tasks requests));
    SubmitterRpc.ClientStub.try_get_task_output := through channel (λ m, m.(submitter_methods).(SubmitterRpc.ClientStub.try_get_task_output requests));
    SubmitterRpc.ClientStub.wait_for_availability := through channel (λ m, m.(submitter_methods).(SubmitterRpc.ClientStub.wait_for_availability requests));
    SubmitterRpc.ClientStub.wait_for_completion := through channel (λ m, m.(submitter_methods).(SubmitterRpc.ClientStub.wait_for_completion requests));
    SubmitterRpc.ClientStub.cancel_tasks := through channel (λ m, m.(submitter_methods).(SubmitterRpc.ClientStub.cancel_tasks requests));
    SubmitterRpc.ClientStub.get_task_status := through channel (λ m, m.(submitter_methods).(SubmitterRpc.ClientStub.get_task_status requests));
    SubmitterRpc.ClientStub.get_result_status := through channel (λ m, m.(submitter_methods).(SubmitterRpc.ClientStub.get_result_status requests));
    SubmitterRpc.ClientStub.create_large_tasks := through channel (λ m, m.(submitter_methods).(SubmitterRpc.ClientStub.create_large_tasks requests));
    SubmitterRpc.ClientStub.try_get_result_stream := through channel (λ m, m.(submitter_methods).(SubmitterRpc.ClientStub.try_get_result_stream requests)) |} |}.
Next Obligation. solve_generated. Qed.

(** ** The tests against the mock *)

#[local] Program Instance mock_deps : TestDeps requests := {|
  HyperError := string;
  Incoming := requests;
  http_get := λ _ _ w, (Ok w, w);
  body_collect := λ response w, (Ok response, w);
  JsonError := string;
  counts_from_slice := λ body, Ok (mock_calls body tested);
  TestStatus := plain_tonic;
  status_is_internal := λ status, String.eqb status.1 "internal";
  status_message := λ status, status.2 |}.

Definition mock_env : Environment :=
  <["GrpcClient__Endpoint" := Unicode "https://control:5001/api"]> ∅.

Definition mock_config : ClientConfig :=
  match from_env mock_env with Ok config => config | Err _ => dflt end.

Definition mock_connector : HttpsConnector :=
  match https_connector (TransportError:=string) mock_config with
  | Return (Ok connector) => connector
  | _ => limited_connector
  end.

Definition mock_channel : plain_channel :=
  (mock_config.(endpoint), endpoint_setters mock_config, mock_connector).

Lemma mock_is_reached :
  mock_reached (TransportError:=string) plain_connection mock_env mock_count mock_channel.
Proof.
  exists mock_config. eexists _, mock_connector.
  split_and!; [reflexivity|by left|reflexivity|reflexivity|reflexivity|].
  intros w. eexists _, _, _, _, _. split_and!; [reflexivity..|].
  intros service name Hin. split; [by apply mock_calls_lookup|done].
Qed.

Ltac solve_mock :=
  repeat apply conj; intros request w _;
  eexists _, _; (split; [reflexivity|split; [|apply mock_count_snoc]]);
  first [exact I
        |by eexists
        |intros w'; exists [], w'; split; [by apply drains_nil|split; [cbn; lia|done]]].

Lemma mock_serves :
  mock_server (TransportError:=string) plain_connection mock_env 10 mock_count mock_channel.
Proof.
  split; [exact mock_is_reached|].
  repeat apply conj; solve_mock.
Qed.

Lemma client_tests_pass_witness :
  Forall passes (client_tests (TransportError:=string) plain_connection mock_env 10).
Proof.
  apply (client_tests_pass plain_connection mock_env 10 mock_count mock_channel).
  exact mock_serves.
Defined.

(** ** The small services through the client *)

Lemma small_services_end_to_end_witness :
  VersionsRpc.list (versions (with_channel mock_channel)) []
  = (Ok dflt, [code "Versions" "ListVersions"]).
Proof.
  pose proof (small_services_end_to_end (with_channel mock_channel) mock_partitions_service
    mock_applications_service mock_health_checks_service mock_auth_service mock_versions_service)
    as Hall.
  destruct Hall as (_ & _ & _ & _ & _ & Hversions);
    [repeat split; exact (loopback_delivers _)..|].
  destruct (Hversions []) as [context ->]. reflexivity.
Defined.
